(* ===== verification/_CoqProject ===== *)
-Q . S2P
Prelude.v
PyFloat.v
PyStr.v
PyDict.v
Json.v
Draw.v
Argparse.v
Runtime.v
Csv.v
RaftClient.v
Alerts.v
Metrics.v
ObserverConfig.v
Dashboard.v
Observer.v
History.v
BenchConfig.v
LeaderDetect.v
LeaderTracker.v
Faults.v
Ledger.v
Submitter.v
Bench.v
Regex.v
LogPages.v
Scans.v
Stats.v
Exp1Analysis.v
Plot.v
PlotExp2.v
Recovery.v
Exp1.v
Workload.v
Exp3.v
PlotExp3.v
Verdict.v
Exp4.v
IsoTime.v
Stamps.v
Collect.v
Results.v
Cli.v
