(* ===== verification/Prelude.v ===== *)
(** * Driftless: the monitoring and experiment tooling, verified

    Driftless is a task queue whose coordinators run Raft.  Its Python programs watch
    the cluster (src/state-observer), put it to the test (src/chaos-bench,
    src/experiments/metrics-collector) and plot the results (src/experiments/exp2,
    src/experiments/exp3).  This development models those programs, from their command
    lines to the figures they draw, and proves what they promise: that the watcher
    reports what it saw, that a run's history records what the bench did, and that the
    figures computed from a history or from the services are the right ones.

    ** How the code is modelled

    - Python's values: [PyFloat] (binary64 arithmetic as exact rationals, rounded),
      [PyStr], [PyDict] (insertion-ordered dictionaries), [Json] ([json.dumps] and
      [json.loads]), [Regex] (backtracking search of the patterns used), [IsoTime]
      ([datetime.fromisoformat]), [Csv] (the writer and [DictReader], which read back
      what was written), [Argparse] (options, positional arguments, sub-commands; a
      command line of options is parsed to the last value of each), [Draw] (figures
      as lists of what matplotlib is told to draw).
    - [Runtime]: a method is a function of its object's state and of the log of calls
      made so far; it returns, raises an exception, or runs out of fuel.  Everything
      outside the program (clocks, sleeps, threads, AWS, HTTP, files) is a [call];
      its answers come from an [Env], a function of the whole log so far.  Theorems
      hold for every environment, or for those that satisfy a named contract:
      [steady] (a clock moves on while the program sleeps), [Scans.serves]
      (BatchGetItem, for at most 100 distinct keys), [LogPages.paginated] (log pages come to an end), [Results.keeps]
      (a file holds what was appended), [Verdict.checked] (what the linearizability
      checker answers), [Cli.missing_unless_made].
      [wp] and its rules, [Extends], [Only] and [Total] are the proof rules.
    - [Prelude]: notations, lists, sorting, shared tactics.  [Stats]: percentiles,
      means and extremes.

    ** src/state-observer

    - [ObserverConfig] (config.py, peers.py): settings and address look-up.
    - [RaftClient] (raft_client.py): node states, snapshots, the poll.  The
      split-brain verdict is exactly the violation of election safety in the snapshot,
      and names the leaders of the first split term; a poll makes one node per address.
    - [Alerts] (alerts.py): the three checks and the cooldown.  Two publications under
      one key are never closer than the cooldown, over any session; the leaderless
      timer belongs to the current leaderless run; an incident key identifies its
      incident; the branches, and what a refused publication, two split terms and a
      young clock do.
    - [Metrics] (metrics.py): gauges and CloudWatch batches.  Every datum staged is sent
      once and in order, in batches the service accepts; all data of a snapshot are
      staged unless one is an int beyond the range of floats.
    - [Dashboard] (dashboard.py): state, commit rate and the content handed to Rich; its
      constructor always raises, so the methods after it are modelled, not reached.
    - [Observer] (main.py): start-up, observation and refresh loops.  Start-up ends;
      it ends in the dashboard's [AttributeError]; the loops survive every failure.

    ** src/chaos-bench

    - [BenchConfig] (config.py), [History] (recorder.py and the readers' loop): a
      recorded history reads back as it was written.
    - [LeaderDetect] (leader_detect.py), [LeaderTracker] (leader_tracker.py): the
      leader found, on every branch; one record per change of leader.
    - [Faults] (chaos.py): injections, and [stopped], the tasks a log stopped.
      [Ledger]: the loops that inject periodically; [Ledger.led] says of which attempts
      (a detection of the leader, the injection it asked for, a record) a log is made.
    - [Submitter] (submitter.py), [Bench] (bench.py): a task is announced only when it
      is complete; a poll ends with one terminal record.
    - [Scans] (dup_scan.py, divergence_scan.py): both scans are exact, against any
      table that serves batch reads.
    - [Exp1Analysis], [Exp1] (exp1.py): losses and convergence of a history, its
      percentiles exact in spite of rounding; every kill is on record and of the leader
      just detected; the wait for a quorum ends.
    - [Plot] (plot.py): terminal statuses and latencies of a history are counted exactly,
      the completions in their second of the run; the two charts.
    - [Workload]: the specification of a run, a ledger of tasks submitted once and
      settled at most once, which any interleaving of submissions and polls refines;
      hence which tasks an analysis counts as lost: those still polled and those whose
      poll raised.
    - [Exp3] (exp3.py): the target number of tasks is submitted; the fault loops never
      raise and are on record; the trace of a task ends with its terminal record.
    - [Verdict]: experiment 3 from its jobs to its first figure.  The specification is
      the fate of each task as DynamoDB told it; a dashboard is all green exactly when
      every task was settled, received once and left in no queue.
    - [LogPages], [Recovery] (follower_recovery.py): the observed timeline is the
      function [Recovery.timeline_of] of the events the service delivered.  It counts
      ticks from the kill on where the module comment says from the restart; the two
      differ only by a tick not later than the restart ([Recovery.rejoin_or_early]).
      With JSON log lines the catch-up is never seen.
    - [Exp4] (exp4.py): the wait for the target commit index, read from the whole stream
      of the leader detected; a run stops one task, not of that leader's service.
    - [Cli] (main.py, the [main]s of exp1.py, exp3.py, exp4.py and the scans, and of
      collect.py): a command runs with the values the operator gave and the documented
      defaults; a malformed value starts nothing; a chaos command stops one task at
      most, of a service its target allows, and prints what it stopped.

    ** src/experiments/metrics-collector

    - [Stamps], [Collect] (collect.py): stamps of the Go services are read exactly;
      the latencies are those of the window; percentiles are ordered; the lag is the
      leader's.
    - [Results] (the end of collect.py): the results file is read back by the plots as
      it was written, and they show the figures of the runs.

    ** src/experiments/exp2 and exp3

    - [PlotExp2] (plot_exp2.py): loading, the five figures, the scorecard; results with
      finite figures are always plotted.
    - [PlotExp3] (plot_exp3.py): loading and the four figures.  The state timeline equals
      a count of the tasks by their last status; the percentiles are ordered latencies of
      completed tasks; a bar is green exactly where its count is zero; a recorded and
      analysed run is always plotted, and never one whose check was not made
      ([Cli.no_check_no_plots]).

    ** Fuel and bounds

    Every [while] loop takes fuel; running out is an outcome of its own and never
    counted as success.  Loops that should end have a theorem that enough fuel gives
    the result: [Observer.startup_fuel] (122) looks at the peers table for start-up;
    [n] turns for a wait of [t] seconds that pauses [d] per turn, where
    [t + 1 <= n * d / 2] ([Bench.wait_ok]: clocks may run at half speed); more than
    100 for a batch of the scans (each answer processes a key); the number of tasks
    for [Exp3._bench_worker]; [k] pages for a log of which [paginated E k] holds.
    Loops that run until an event (observation, tracking, fault injection) have
    invariants for every fuel.  Integers are unbounded, as in Python; times are
    assumed below 2^63 ns and clock readings below 2^51 s where a conversion to
    [float] matters; the percentile ranks of [PlotExp3] are right up to 2^46 tasks, those
    of [Exp1Analysis] up to 2^40 kills, the seconds of [Plot] up to 8 million.  Where an
    int of another program becomes a float (CloudWatch data, the commit rate, numbers of
    a history) the OverflowError of Python is modelled; the numbers of DynamoDB, below
    10^126, always fit, and the gauges of the Prometheus client are taken to accept any int.

    ** What is not modelled

    - Concurrency below the level of records: a thread is a method of its own, what
      other threads do shows in the answers it gets; lines of a history are atomic
      (the recorder's lock).  The requests of one poll of the observer are made in
      the order of the addresses.
    - Construction of boto3 and HTTP clients, which is taken to succeed; printing,
      except of JSON results; opening and closing of files; signal handlers; the texts
      of help and usage errors; Rich's layout.
    - The appearance of figures (fonts, line styles, margins, legends).  numpy's
      percentile and mean are parameters of [Plot], its arange and histogram of
      [PlotExp3]'s fourth figure.
    - Text outside U+00FF (the captions of figures are kept as the bytes of the source),
      and white space, digits and word characters outside ASCII.
      In [Exp1Analysis] and [Plot], dictionary keys that are numbers are compared by their text.
    - Other languages: the coordinator, worker, ingest API, load generator and
      linearizability checker (Go), the infrastructure (Terraform), shell scripts. *)

From stdpp Require Export base gmap strings list sorting pretty.
From Stdlib Require Export ZArith Lia.

(** ** Scope, notations and tactics of the development *)

Declare Scope driftless_scope.
Delimit Scope driftless_scope with drift.
Open Scope driftless_scope.

(** String literals and concatenation, as in the sources' f-strings. *)
Notation "s1 ^^ s2" := (String.append s1 s2)
  (at level 55, right associativity) : driftless_scope.

(** [case_if] splits the first conditional of the goal, naming its test. *)
Ltac case_if_as H :=
  match goal with
  | |- context [if ?b then _ else _] => destruct b eqn:H
  end.
Tactic Notation "case_if" := let H := fresh "Hif" in case_if_as H.

(** [inv H] inverts and cleans up. *)
Ltac inv H := inversion H; subst; clear H.

Create HintDb driftless.

(** ** Lists *)

Section lists.
Context {A : Type}.
Implicit Types (l : list A) (x : A).

(** Number of elements that satisfy a test. *)
Definition count (p : A -> bool) l : nat := length (List.filter p l).

Lemma count_app p l1 l2 : count p (l1 ++ l2) = count p l1 + count p l2.
Proof. unfold count. by rewrite List.filter_app, length_app. Qed.

Lemma count_cons p x l : count p (x :: l) = (if p x then 1 else 0) + count p l.
Proof. unfold count; simpl. by destruct (p x). Qed.

Lemma count_le p l : count p l <= length l.
Proof.
  induction l as [|x l IH]; [done|]. rewrite count_cons; simpl. destruct (p x); lia.
Qed.

Lemma count_perm p l1 l2 : l1 ≡ₚ l2 -> count p l1 = count p l2.
Proof.
  induction 1 as [|x l1 l2 _ IH|x y l|l1 l2 l3 _ IH1 _ IH2]; rewrite ?count_cons; lia.
Qed.

Lemma count_split p l : count p l + count (fun x => negb (p x)) l = length l.
Proof.
  induction l as [|x l IH]; [done|]. rewrite !count_cons; simpl. destruct (p x); simpl; lia.
Qed.

Lemma count_pos p l : 0 < count p l <-> exists x, x ∈ l /\ p x = true.
Proof.
  induction l as [|y l IH].
  - split; [cbn; lia|intros (x & Hx & _); inv Hx].
  - rewrite count_cons. split.
    + destruct (p y) eqn:E; [intros _; exists y; split; [left|done]|].
      intros H. destruct IH as [IH _]. destruct IH as (x & Hx & Hp); [lia|].
      exists x; split; [by right|done].
    + intros (x & Hx & Hp). inv Hx; [rewrite Hp; lia|].
      assert (0 < count p l) by (apply IH; eauto). lia.
Qed.

(** Two witnesses at different positions. *)
Lemma count_ge_2 p l :
  2 <= count p l <->
  exists i j x y, i < j /\ l !! i = Some x /\ l !! j = Some y /\ p x = true /\ p y = true.
Proof.
  induction l as [|z l IH].
  - split; [cbn; lia|]. intros (i & j & x & y & _ & H & _). inv H.
  - rewrite count_cons. split.
    + destruct (p z) eqn:E.
      * intros H. assert (Hp : 0 < count p l) by lia.
        apply count_pos in Hp as (y & Hy & Hpy). apply list_elem_of_lookup in Hy as [j Hj].
        exists 0, (S j), z, y. repeat split; try done; lia.
      * intros H. destruct IH as [IH _]. destruct IH as (i & j & x & y & ? & ? & ? & ? & ?); [lia|].
        exists (S i), (S j), x, y. repeat split; try done; lia.
    + intros (i & j & x & y & Hij & Hi & Hj & Hx & Hy).
      destruct j as [|j]; [lia|]. simpl in Hj.
      destruct i as [|i]; simpl in Hi.
      * simplify_eq. rewrite Hx.
        assert (0 < count p l) by (apply count_pos; exists y; split; [by eapply list_elem_of_lookup_2|done]).
        lia.
      * assert (2 <= count p l) by (apply IH; exists i, j, x, y; repeat split; try done; lia).
        destruct (p z); lia.
Qed.

End lists.

(** [flat_map] over an [option]-valued test, as list comprehensions with a filter. *)
Lemma filter_In_elem {A} (p : A -> bool) (l : list A) (x : A) :
  x ∈ List.filter p l <-> x ∈ l /\ p x = true.
Proof. rewrite !list_elem_of_In. apply List.filter_In. Qed.

#[export] Hint Rewrite @count_app @count_cons : driftless.

Lemma elem_of_concat {A} (ls : list (list A)) (x : A) : x ∈ concat ls <-> exists l, l ∈ ls /\ x ∈ l.
Proof.
  induction ls as [|l ls IH]; simpl.
  - split; [intros H; inv H|intros (l & H & _); inv H].
  - rewrite elem_of_app, IH. setoid_rewrite elem_of_cons. naive_solver.
Qed.

(** ** Slices and batches *)

Section batches.
Context {A : Type}.
Implicit Types (l : list A).

(** [l[i:j]] for indices that are not negative. *)
Definition slice l (i j : nat) : list A := take (j - i) (drop i l).

(** [range(0, n, step)] for a positive step. *)
Definition range_step (n step : nat) : list nat :=
  map (fun k => k * step) (seq 0 ((n + step - 1) / step)).

(** [[l[i : i + n] for i in range(0, len(l), n)]]. *)
Definition batches_of (n : nat) l : list (list A) :=
  map (fun i => slice l i (i + n)) (range_step (length l) n).

Lemma concat_slices n l k :
  concat (map (fun i => slice l i (i + n)) (map (fun j => j * n) (seq 0 k))) = take (k * n) l.
Proof.
  induction k as [|k IH]; [done|].
  rewrite seq_S, !map_app, concat_app, IH. simpl. rewrite app_nil_r. unfold slice.
  replace (k * n + n - k * n) with n by lia.
  rewrite (Nat.add_comm n (k * n)), take_take_drop. done.
Qed.

(** Batching loses and reorders nothing, and respects the size. *)
Lemma batches_concat n l : 0 < n -> concat (batches_of n l) = l.
Proof.
  intros Hn. unfold batches_of, range_step. rewrite concat_slices. apply take_ge.
  pose proof (Nat.div_mod (length l + n - 1) n ltac:(lia)).
  pose proof (Nat.mod_upper_bound (length l + n - 1) n ltac:(lia)). nia.
Qed.

Lemma batches_size n l b : 0 < n -> b ∈ batches_of n l -> 0 < length b <= n.
Proof.
  intros Hn Hb. unfold batches_of, range_step in Hb.
  apply list_elem_of_fmap in Hb as (i & -> & Hi).
  apply list_elem_of_fmap in Hi as (k & -> & Hk). apply elem_of_seq in Hk.
  unfold slice. rewrite length_take, length_drop.
  pose proof (Nat.div_mod (length l + n - 1) n ltac:(lia)).
  pose proof (Nat.mod_upper_bound (length l + n - 1) n ltac:(lia)). nia.
Qed.

Lemma batches_length n l : 0 < n -> length (batches_of n l) = (length l + n - 1) / n.
Proof. intros Hn. unfold batches_of, range_step. by rewrite !length_map, length_seq. Qed.

Lemma batches_nil n : batches_of n [] = [].
Proof.
  unfold batches_of, range_step. simpl. destruct n as [|n]; [done|].
  rewrite Nat.div_small by lia. done.
Qed.
End batches.

Lemma Sorted_weaken {A} (R R' : A -> A -> Prop) (l : list A) :
  (forall x y, R x y -> R' x y) -> Sorted R l -> Sorted R' l.
Proof.
  intros H. induction 1 as [|x l Hs IH Hx]; constructor; [done|].
  inv Hx; constructor; auto.
Qed.

(** ** A stable sort

    Python's [sorted] is stable; insertion before the first not-smaller element
    is too, and any two stable sorts by the same total preorder agree. *)

Section isort.
Context {A : Type} (leb : A -> A -> bool).

Fixpoint insert_sorted (x : A) (l : list A) : list A :=
  match l with
  | [] => [x]
  | y :: l' => if leb x y then x :: l else y :: insert_sorted x l'
  end.

Definition isort (l : list A) : list A := foldr insert_sorted [] l.

Lemma insert_sorted_perm x l : insert_sorted x l ≡ₚ x :: l.
Proof.
  induction l as [|y l IH]; [done|]. simpl. case_if; [done|].
  rewrite IH. apply Permutation_swap.
Qed.

Lemma isort_perm l : isort l ≡ₚ l.
Proof.
  induction l as [|x l IH]; [done|]. simpl. rewrite insert_sorted_perm. by constructor.
Qed.

Lemma isort_length l : length (isort l) = length l.
Proof. apply Permutation_length, isort_perm. Qed.

Context (leb_total : forall x y, leb x y = true \/ leb y x = true).

Lemma insert_sorted_sorted x l :
  Sorted (fun a b => leb a b = true) l -> Sorted (fun a b => leb a b = true) (insert_sorted x l).
Proof using leb_total.
  induction 1 as [|y l Hs IH Hy]; simpl; [by repeat constructor|].
  case_if; [by repeat constructor|].
  constructor; [done|]. destruct l as [|z l]; simpl.
  - constructor. destruct (leb_total x y); congruence.
  - inv Hy. case_if; constructor; [destruct (leb_total x y); congruence|done].
Qed.

Lemma isort_sorted l : Sorted (fun a b => leb a b = true) (isort l).
Proof using leb_total. induction l; simpl; [constructor|by apply insert_sorted_sorted]. Qed.
End isort.

#[export] Hint Resolve isort_perm isort_length : driftless.

(** An injective numbering of the elements of a list tells them apart. *)
Lemma NoDup_map_eq {A B} (f : A -> B) (l : list A) (x y : A) :
  NoDup (map f l) -> x ∈ l -> y ∈ l -> f x = f y -> x = y.
Proof.
  induction l as [|a l IH]; cbn [map]; [set_solver|]. intros [Hn Hl]%NoDup_cons Hx Hy E.
  assert (Hm : forall z, z ∈ l -> f z ∈ map f l) by (intros z Hz; apply list_elem_of_In, in_map; by apply list_elem_of_In).
  apply elem_of_cons in Hx as [->|Hx], Hy as [->|Hy]; [done| | |by apply IH].
  - destruct Hn. rewrite E. by apply Hm.
  - destruct Hn. rewrite <- E. by apply Hm.
Qed.
