(* ===== verification/PyFloat.v ===== *)
(** * PyFloat: Python's [float] as the code uses it

    The Python sources compute deadlines, latencies and percentiles with
    [float], an IEEE 754 binary64 number.  This file models the finite values
    as exact rationals and every arithmetic operation as the exact operation
    followed by [rnd], rounding to nearest with ties to even on the binary64
    grid (53 significant bits, smallest exponent -1074, overflow at 2^1024).
    The sign of a zero is not kept: no operation of the sources divides by a
    float zero without the test that excludes it, and comparisons do not see it.

    The main facts are [rnd_mono] (rounding preserves order) and its
    consequences for subtraction, and the exactness of small integers. *)

From Stdlib Require Import ZArith QArith Qpower Qreduction Qabs Qround Lia Lqa Bool.
From Stdlib Require Qcanon.

Local Open Scope Z_scope.

Inductive float : Type :=
| NaN
| Inf (neg : bool)
| Fin (q : Q).

(** ** Rounding *)

(** [rhe n d] is the integer nearest to [n/d], ties to even. *)
Definition rhe (n : Z) (d : positive) : Z :=
  let q := n / Zpos d in
  let r := n mod Zpos d in
  match 2 * r ?= Zpos d with
  | Lt => q
  | Gt => q + 1
  | Eq => if Z.even q then q else q + 1
  end.

Definition rheQ (q : Q) : Z := rhe (Qnum q) (Qden q).

(** [shiftQ q k] is [q * 2^k]. *)
Definition shiftQ (q : Q) (k : Z) : Q :=
  if 0 <=? k then (Qnum q * 2 ^ k) # Qden q
  else Qnum q # (Qden q * Z.to_pos (2 ^ (- k))).

(** The binary exponent of a non-zero rational: [2^expo q <= |q| < 2^(expo q + 1)]. *)
Definition expo (q : Q) : Z :=
  let l := Z.log2 (Z.abs (Qnum q)) - Z.log2 (Zpos (Qden q)) in
  if Qle_bool (shiftQ 1 l) (Qabs q) then l else l - 1.

(** Exponent of the last binary64 digit of [q]. *)
Definition ulp_exp (q : Q) : Z := Z.max (expo q - 52) (-1074).

(** Nearest multiple of [2^k]. *)
Definition grid (k : Z) (q : Q) : Q := shiftQ (inject_Z (rheQ (shiftQ q (- k)))) k.

(** Nearest binary64 value, exponent range unbounded above. *)
Definition rv (q : Q) : Q :=
  if Qnum q =? 0 then 0%Q else Qred (grid (ulp_exp q) q).

Definition huge : Q := shiftQ 1 1024.

Definition rnd (q : Q) : float :=
  let v := rv q in
  if Qle_bool huge v then Inf false
  else if Qle_bool v (- huge) then Inf true
  else Fin v.

(** ** Arithmetic and comparison *)

Definition fneg (x : float) : float :=
  match x with
  | NaN => NaN
  | Inf b => Inf (negb b)
  | Fin q => Fin (Qred (- q))
  end.

Definition fadd (x y : float) : float :=
  match x, y with
  | NaN, _ | _, NaN => NaN
  | Inf a, Inf b => if Bool.eqb a b then Inf a else NaN
  | Inf a, Fin _ => Inf a
  | Fin _, Inf b => Inf b
  | Fin a, Fin b => rnd (a + b)
  end.

Definition fsub (x y : float) : float :=
  match x, y with
  | Fin a, Fin b => rnd (a - b)
  | _, _ => fadd x (fneg y)
  end.

Definition qneg (q : Q) : bool := Qnum q <? 0.

Definition fmul (x y : float) : float :=
  match x, y with
  | NaN, _ | _, NaN => NaN
  | Inf a, Inf b => Inf (xorb a b)
  | Inf a, Fin q | Fin q, Inf a =>
      if Qnum q =? 0 then NaN else Inf (xorb a (qneg q))
  | Fin a, Fin b => rnd (a * b)
  end.

(** [x / y] for a non-zero [y]; Python raises [ZeroDivisionError] on zero,
    which the callers test for ([None] here). *)
Definition fdiv (x y : float) : option float :=
  match x, y with
  | NaN, Fin q => if Qnum q =? 0 then None else Some NaN
  | NaN, _ | _, NaN => Some NaN
  | Inf _, Inf _ => Some NaN
  | Inf a, Fin q => if Qnum q =? 0 then None else Some (Inf (xorb a (qneg q)))
  | Fin _, Inf _ => Some (Fin 0)
  | Fin a, Fin b => if Qnum b =? 0 then None else Some (rnd (a / b))
  end.

Definition fle (x y : float) : bool :=
  match x, y with
  | NaN, _ | _, NaN => false
  | Inf true, _ => true
  | _, Inf false => true
  | Inf false, _ => false
  | _, Inf true => false
  | Fin a, Fin b => Qle_bool a b
  end.

Definition flt (x y : float) : bool :=
  match x, y with
  | NaN, _ | _, NaN => false
  | _, _ => negb (fle y x)
  end.

Definition feq (x y : float) : bool := fle x y && fle y x.

(** Python's [max(x, y)]: the first argument unless the second is larger. *)
Definition fmax (x y : float) : float := if flt x y then y else x.

(** The exact value of an integer, for Python's exact int/float comparisons. *)
Definition Zval (z : Z) : float := Fin (inject_Z z).

(** [float(z)]; Python raises [OverflowError] where this is infinite. *)
Definition of_Z (z : Z) : float := rnd (inject_Z z).

(** True division of two ints, correctly rounded; the divisors of the sources
    are positive constants. *)
Definition Zdivf (a : Z) (b : positive) : float := rnd (a # b).

(** [int(x)]: truncation; [None] where Python raises. *)
Definition ftrunc (x : float) : option Z :=
  match x with Fin q => Some (Z.quot (Qnum q) (Zpos (Qden q))) | _ => None end.

(** [round(x)]: nearest int, ties to even; [None] where Python raises. *)
Definition fround (x : float) : option Z :=
  match x with Fin q => Some (rheQ q) | _ => None end.

(** ** Rounding to an integer *)

Lemma rhe_spec (n : Z) (d : positive) :
  (2 * rhe n d - 1) * Zpos d <= 2 * n <= (2 * rhe n d + 1) * Zpos d /\
  ((2 * rhe n d - 1) * Zpos d = 2 * n \/ 2 * n = (2 * rhe n d + 1) * Zpos d ->
   Z.even (rhe n d) = true).
Proof.
  unfold rhe.
  pose proof (Z.div_mod n (Zpos d) ltac:(lia)) as Hdm.
  pose proof (Z.mod_pos_bound n (Zpos d) ltac:(lia)) as Hr.
  set (q := n / Zpos d) in *; set (r := n mod Zpos d) in *.
  destruct (Z.compare_spec (2 * r) (Zpos d)) as [H|H|H].
  - destruct (Z.even q) eqn:He.
    + split; [nia | intros _; exact He].
    + split; [nia | intros _].
      now rewrite Z.add_1_r, Z.even_succ, <- Z.negb_even, He.
  - split; [nia | intros [E|E]; nia].
  - split; [nia | intros [E|E]; nia].
Qed.

(** The specification determines the result: order is preserved. *)
Lemma rhe_mono (n m : Z) (c d : positive) :
  n * Zpos d <= m * Zpos c -> rhe n c <= rhe m d.
Proof.
  intros H.
  destruct (rhe_spec n c) as [[Hn _] En], (rhe_spec m d) as [[_ Hm] Em].
  set (a := rhe n c) in *; set (b := rhe m d) in *.
  destruct (Z.le_gt_cases a b) as [|Hlt]; [assumption|exfalso].
  assert (Ha : (2 * a - 1) * (Zpos c * Zpos d) <= 2 * n * Zpos d) by nia.
  assert (Hb : 2 * m * Zpos c <= (2 * b + 1) * (Zpos c * Zpos d)) by nia.
  assert (Hab : a = b + 1) by nia.
  assert (E1 : (2 * a - 1) * Zpos c = 2 * n) by nia.
  assert (E2 : 2 * m = (2 * b + 1) * Zpos d) by nia.
  specialize (En (or_introl E1)); specialize (Em (or_intror E2)).
  rewrite Hab, Z.add_1_r, Z.even_succ, <- Z.negb_even, Em in En.
  discriminate.
Qed.

Lemma rheQ_mono (p q : Q) : (p <= q)%Q -> rheQ p <= rheQ q.
Proof. intros H. apply rhe_mono. exact H. Qed.

Lemma rheQ_comp (p q : Q) : (p == q)%Q -> rheQ p = rheQ q.
Proof. intros H. apply Z.le_antisymm; apply rheQ_mono; rewrite H; apply Qle_refl. Qed.

Lemma rhe_opp (n : Z) (d : positive) : rhe (- n) d = - rhe n d.
Proof.
  destruct (rhe_spec n d) as [[L1 U1] E1], (rhe_spec (- n) d) as [[L2 U2] E2].
  set (a := rhe n d) in *; set (b := rhe (- n) d) in *.
  assert (Hr : - 1 <= a + b <= 1) by nia.
  assert (Hc : a + b = 0 \/ a + b = 1 \/ a + b = - 1) by lia.
  destruct Hc as [Hc|[Hc|Hc]]; [lia|exfalso..].
  - assert (X : (2 * a - 1) * Zpos d = 2 * n) by nia.
    assert (Y : (2 * b - 1) * Zpos d = 2 * - n) by nia.
    specialize (E1 (or_introl X)); specialize (E2 (or_introl Y)).
    assert (Hs : Z.even (a + b) = true) by (rewrite Z.even_add, E1, E2; reflexivity).
    rewrite Hc in Hs; discriminate.
  - assert (X : 2 * n = (2 * a + 1) * Zpos d) by nia.
    assert (Y : 2 * - n = (2 * b + 1) * Zpos d) by nia.
    specialize (E1 (or_intror X)); specialize (E2 (or_intror Y)).
    assert (Hs : Z.even (a + b) = true) by (rewrite Z.even_add, E1, E2; reflexivity).
    rewrite Hc in Hs; discriminate.
Qed.

Lemma rheQ_inject (z : Z) : rheQ (inject_Z z) = z.
Proof.
  unfold rheQ, inject_Z; simpl. destruct (rhe_spec z 1) as [H _]. lia.
Qed.

(** ** Powers of two *)

Definition pow2 (k : Z) : Q := (2 # 1) ^ k.

Lemma pow2_pos (k : Z) : (0 < pow2 k)%Q.
Proof. apply Qpower_0_lt. reflexivity. Qed.

Lemma pow2_add (a b : Z) : (pow2 (a + b) == pow2 a * pow2 b)%Q.
Proof. apply Qpower_plus. discriminate. Qed.

Lemma pow2_opp (a : Z) : (pow2 (- a) * pow2 a == 1)%Q.
Proof. rewrite <- pow2_add, Z.add_opp_diag_l. reflexivity. Qed.

Lemma pow2_le (a b : Z) : a <= b -> (pow2 a <= pow2 b)%Q.
Proof. intros H. apply Qpower_le_compat_l; [exact H|discriminate]. Qed.

Lemma pow2_inject (k : Z) : 0 <= k -> (inject_Z (2 ^ k) == pow2 k)%Q.
Proof. intros H. now rewrite Zpower_Qpower. Qed.

Lemma shiftQ_pow2 (q : Q) (k : Z) : (shiftQ q k == q * pow2 k)%Q.
Proof.
  unfold shiftQ. destruct (Z.leb_spec 0 k) as [H|H].
  - rewrite <- (pow2_inject k H). unfold Qeq; simpl. lia.
  - rewrite <- (Qmult_inj_r _ _ (pow2 (- k))) by (apply Qnot_eq_sym, Qlt_not_eq, pow2_pos).
    rewrite <- Qmult_assoc, (Qmult_comm (pow2 k)), pow2_opp, Qmult_1_r.
    rewrite <- (pow2_inject (- k)) by lia.
    unfold Qeq, Qmult, inject_Z; simpl.
    rewrite Pos.mul_1_r, Pos2Z.inj_mul, Z2Pos.id by (apply Z.pow_pos_nonneg; lia). lia.
Qed.

(** Multiples of [2^k]: the grid is a fixed, monotone, odd rounding. *)
#[export] Instance rheQ_proper : Proper (Qeq ==> eq) rheQ := rheQ_comp.

Lemma grid_eq (k : Z) (q : Q) : (grid k q == inject_Z (rheQ (q * pow2 (- k))) * pow2 k)%Q.
Proof. unfold grid. rewrite shiftQ_pow2, (rheQ_comp _ _ (shiftQ_pow2 q (- k))). reflexivity. Qed.

#[export] Instance grid_proper (k : Z) : Proper (Qeq ==> Qeq) (grid k).
Proof. intros p q H. rewrite !grid_eq, H. reflexivity. Qed.

Lemma grid_mono (k : Z) (p q : Q) : (p <= q)%Q -> (grid k p <= grid k q)%Q.
Proof.
  intros H. rewrite !grid_eq.
  apply Qmult_le_compat_r; [|apply Qlt_le_weak, pow2_pos].
  rewrite <- Zle_Qle. apply rheQ_mono.
  apply Qmult_le_compat_r; [exact H|apply Qlt_le_weak, pow2_pos].
Qed.

Lemma grid_fix (k z : Z) : (grid k (inject_Z z * pow2 k) == inject_Z z * pow2 k)%Q.
Proof.
  assert (E : (inject_Z z * pow2 k * pow2 (- k) == inject_Z z)%Q).
  { rewrite <- Qmult_assoc, (Qmult_comm (pow2 k)), pow2_opp. ring. }
  rewrite grid_eq, E, rheQ_inject. reflexivity.
Qed.

Lemma grid_pow2 (k e : Z) : k <= e -> (grid k (pow2 e) == pow2 e)%Q.
Proof.
  intros H.
  assert (E : (pow2 e == inject_Z (2 ^ (e - k)) * pow2 k)%Q).
  { rewrite pow2_inject, <- pow2_add by lia. f_equiv; lia. }
  rewrite E. apply grid_fix.
Qed.

Lemma rheQ_opp (q : Q) : rheQ (- q) = - rheQ q.
Proof. apply rhe_opp. Qed.

Lemma grid_opp (k : Z) (q : Q) : (grid k (- q) == - grid k q)%Q.
Proof.
  rewrite !grid_eq.
  assert (E : (- q * pow2 (- k) == - (q * pow2 (- k)))%Q)
    by (generalize (pow2 (- k)); intros x; ring).
  rewrite E, rheQ_opp, inject_Z_opp. generalize (pow2 k). intros x. ring.
Qed.

Lemma grid_0 (k : Z) : (grid k 0 == 0)%Q.
Proof.
  assert (E : (0 == inject_Z 0 * pow2 k)%Q) by (unfold inject_Z; ring).
  rewrite E at 1. rewrite grid_fix, <- E. reflexivity.
Qed.

(** ** The exponent *)

Lemma log2_bounds (n : Z) : 0 < n ->
  (pow2 (Z.log2 n) <= inject_Z n)%Q /\ (inject_Z n < pow2 (Z.log2 n + 1))%Q.
Proof.
  intros H. pose proof (Z.log2_spec n H) as [L U]. pose proof (Z.log2_nonneg n).
  rewrite <- !pow2_inject by lia. rewrite <- Zle_Qle, <- Zlt_Qlt. split; [exact L|].
  now rewrite Z.add_1_r.
Qed.

Lemma Qabs_num_den (q : Q) : (Qabs q * inject_Z (Zpos (Qden q)) == inject_Z (Z.abs (Qnum q)))%Q.
Proof. destruct q as [n d]. unfold Qabs, inject_Z, Qeq, Qmult; simpl. lia. Qed.

Lemma expo_spec (q : Q) : Qnum q <> 0 ->
  (pow2 (expo q) <= Qabs q)%Q /\ (Qabs q < pow2 (expo q + 1))%Q.
Proof.
  intros Hn. unfold expo.
  set (ln := Z.log2 (Z.abs (Qnum q))). set (ld := Z.log2 (Zpos (Qden q))).
  destruct (log2_bounds (Z.abs (Qnum q)) ltac:(lia)) as [N1 N2].
  destruct (log2_bounds (Zpos (Qden q)) ltac:(lia)) as [D1 D2].
  rewrite <- (Qabs_num_den q) in N1, N2. fold ln in N1, N2. fold ld in D1, D2.
  assert (Hd : (0 < inject_Z (Zpos (Qden q)))%Q) by (unfold Qlt; simpl; lia).
  assert (Ha : (0 <= Qabs q)%Q) by apply Qabs_nonneg.
  pose proof (pow2_pos (ln - ld)) as P1.
  pose proof (pow2_pos ld) as P2.
  assert (Lo : (pow2 (ln - ld - 1) <= Qabs q)%Q).
  { apply (Qmult_le_r _ _ (pow2 (ld + 1)) (pow2_pos _)).
    rewrite <- pow2_add. replace (ln - ld - 1 + (ld + 1)) with ln by lia. nra. }
  assert (Hi : (Qabs q < pow2 (ln - ld + 1))%Q).
  { apply (Qmult_lt_r _ _ (pow2 ld) P2).
    rewrite <- pow2_add. replace (ln - ld + 1 + ld) with (ln + 1) by lia. nra. }
  destruct (Qle_bool (shiftQ 1 (ln - ld)) (Qabs q)) eqn:E.
  - apply Qle_bool_iff in E. rewrite shiftQ_pow2, Qmult_1_l in E. split; [exact E|exact Hi].
  - split; [exact Lo|].
    replace (ln - ld - 1 + 1) with (ln - ld) by lia.
    apply Qnot_le_lt. intros C. rewrite <- (Qmult_1_l (pow2 _)), <- shiftQ_pow2 in C.
    apply Qle_bool_iff in C. congruence.
Qed.

Lemma expo_mono (p q : Q) : Qnum p <> 0 -> Qnum q <> 0 ->
  (Qabs p <= Qabs q)%Q -> expo p <= expo q.
Proof.
  intros Hp Hq H.
  destruct (expo_spec p Hp) as [L _], (expo_spec q Hq) as [_ U].
  assert (C : (pow2 (expo p) < pow2 (expo q + 1))%Q) by lra.
  apply (Qpower_lt_compat_l_inv (2 # 1)) in C; [lia|reflexivity].
Qed.

(** ** Monotonicity of rounding *)

Lemma rv_eq (q : Q) : Qnum q <> 0 -> (rv q == grid (ulp_exp q) q)%Q.
Proof. intros H. unfold rv. apply Z.eqb_neq in H. rewrite H. apply Qred_correct. Qed.

Lemma rv_0 (q : Q) : Qnum q = 0 -> rv q = 0%Q.
Proof. intros H. unfold rv. apply Z.eqb_eq in H. now rewrite H. Qed.

Lemma Qnum_pos (q : Q) : (0 < q)%Q <-> 0 < Qnum q.
Proof. unfold Qlt; simpl. lia. Qed.

(** On positive rationals a larger exponent dominates every smaller one. *)
Lemma rv_mono_pos (p q : Q) : (0 < p)%Q -> (p <= q)%Q -> (rv p <= rv q)%Q.
Proof.
  intros Hp Hpq.
  assert (Hq : (0 < q)%Q) by lra.
  assert (Np : Qnum p <> 0) by (apply Qnum_pos in Hp; lia).
  assert (Nq : Qnum q <> 0) by (apply Qnum_pos in Hq; lia).
  rewrite !rv_eq by assumption.
  assert (Ap : (Qabs p == p)%Q) by (apply Qabs_pos; lra).
  assert (Aq : (Qabs q == q)%Q) by (apply Qabs_pos; lra).
  pose proof (expo_mono p q Np Nq ltac:(rewrite Ap, Aq; exact Hpq)) as He.
  destruct (Z.eq_dec (ulp_exp p) (ulp_exp q)) as [->|Hk]; [now apply grid_mono|].
  unfold ulp_exp in *.
  assert (Hlt : expo p + 1 <= expo q) by lia.
  assert (Hkp : Z.max (expo p - 52) (-1074) <= expo q) by lia.
  assert (Hkq : Z.max (expo q - 52) (-1074) <= expo q) by lia.
  destruct (expo_spec p Np) as [_ Up], (expo_spec q Nq) as [Lq _].
  rewrite Ap in Up. rewrite Aq in Lq.
  pose proof (pow2_le _ _ Hlt) as Hpow.
  apply (Qle_trans _ (pow2 (expo q))).
  - rewrite <- (grid_pow2 _ _ Hkp). apply grid_mono. lra.
  - rewrite <- (grid_pow2 _ _ Hkq). now apply grid_mono.
Qed.

Lemma ulp_exp_opp (q : Q) : ulp_exp (- q) = ulp_exp q.
Proof.
  destruct q as [n d]. unfold ulp_exp, expo, Qabs, Qopp. cbn [Qnum Qden].
  now rewrite Z.abs_opp.
Qed.

Lemma rv_opp (q : Q) : (rv (- q) == - rv q)%Q.
Proof.
  destruct (Z.eq_dec (Qnum q) 0) as [H|H].
  - rewrite !rv_0 by (simpl; lia). reflexivity.
  - rewrite !rv_eq, ulp_exp_opp by (simpl; lia). apply grid_opp.
Qed.

Lemma rv_nonneg (q : Q) : (0 <= q)%Q -> (0 <= rv q)%Q.
Proof.
  intros H. destruct (Z.eq_dec (Qnum q) 0) as [E|E]; [now rewrite rv_0|].
  rewrite rv_eq by assumption. rewrite <- (grid_0 (ulp_exp q)). now apply grid_mono.
Qed.

Lemma rv_mono (p q : Q) : (p <= q)%Q -> (rv p <= rv q)%Q.
Proof.
  intros H. destruct (Qlt_le_dec 0 p) as [Hp|Hp]; [now apply rv_mono_pos|].
  assert (Rp : (rv p <= 0)%Q).
  { pose proof (rv_nonneg (- p) ltac:(lra)) as X. rewrite rv_opp in X. lra. }
  destruct (Qlt_le_dec q 0) as [Hq|Hq].
  - pose proof (rv_mono_pos (- q) (- p) ltac:(lra) ltac:(lra)) as X.
    rewrite !rv_opp in X. lra.
  - pose proof (rv_nonneg q Hq). lra.
Qed.

Lemma rv_comp (p q : Q) : (p == q)%Q -> (rv p == rv q)%Q.
Proof. intros H. apply Qle_antisym; apply rv_mono; rewrite H; apply Qle_refl. Qed.

(** ** Order of floats *)

Definition is_fin (x : float) : bool := match x with Fin _ => true | _ => false end.

Lemma fle_refl (x : float) : x <> NaN -> fle x x = true.
Proof. destruct x as [|[]|q]; simpl; try congruence. intros _. apply Qle_bool_iff, Qle_refl. Qed.

Lemma fle_trans (x y z : float) : fle x y = true -> fle y z = true -> fle x z = true.
Proof.
  destruct x as [|[]|a], y as [|[]|b], z as [|[]|c]; simpl; try congruence.
  rewrite !Qle_bool_iff. apply Qle_trans.
Qed.

Lemma flt_fle (x y : float) : flt x y = true -> fle x y = true.
Proof.
  destruct x as [|[]|a], y as [|[]|b]; simpl; try congruence.
  rewrite negb_true_iff, Qle_bool_iff. intros H.
  apply Qlt_le_weak, Qnot_le_lt. intros C. apply Qle_bool_iff in C. congruence.
Qed.

Lemma flt_false_fle (x y : float) : x <> NaN -> y <> NaN -> flt x y = false -> fle y x = true.
Proof.
  destruct x as [|[]|a], y as [|[]|b]; simpl; try congruence.
  intros _ _. now rewrite negb_false_iff.
Qed.

Lemma fle_flt_false (x y : float) : fle y x = true -> flt x y = false.
Proof.
  intros H. unfold flt. destruct x as [|[]|a], y as [|[]|b]; try reflexivity; now rewrite H.
Qed.

Lemma flt_Fin (a b : Q) : flt (Fin a) (Fin b) = true <-> (a < b)%Q.
Proof.
  simpl. rewrite negb_true_iff. split; intros H.
  - apply Qnot_le_lt. intros C. apply Qle_bool_iff in C. congruence.
  - destruct (Qle_bool b a) eqn:E; [|reflexivity].
    apply Qle_bool_iff in E. exfalso. revert H E. apply Qlt_not_le.
Qed.

Lemma fle_lt_trans (x y z : float) : fle x y = true -> flt y z = true -> flt x z = true.
Proof.
  destruct x as [|[]|a], y as [|[]|b], z as [|[]|c];
    try (simpl; congruence); rewrite ?flt_Fin; simpl; rewrite ?Qle_bool_iff.
  intros H1 H2. eapply Qle_lt_trans; eassumption.
Qed.

Lemma rnd_neq_NaN (q : Q) : rnd q <> NaN.
Proof.
  unfold rnd. destruct (Qle_bool huge (rv q)); [discriminate|].
  destruct (Qle_bool (rv q) (- huge)); discriminate.
Qed.

Lemma huge_pos : (0 < huge)%Q.
Proof. reflexivity. Qed.

(** Correct rounding preserves order. *)
Lemma rnd_mono (p q : Q) : (p <= q)%Q -> fle (rnd p) (rnd q) = true.
Proof.
  intros H. apply rv_mono in H. unfold rnd. pose proof huge_pos as Hh.
  destruct (Qle_bool huge (rv p)) eqn:E1, (Qle_bool huge (rv q)) eqn:E2,
    (Qle_bool (rv p) (- huge)) eqn:E3, (Qle_bool (rv q) (- huge)) eqn:E4; simpl; try reflexivity;
    repeat match goal with
    | E : Qle_bool _ _ = true |- _ => apply Qle_bool_iff in E
    | E : Qle_bool ?a ?b = false |- _ =>
        assert (~ (a <= b)%Q) by (intros C; apply Qle_bool_iff in C; congruence); clear E
    end; rewrite ?Qle_bool_iff; try lra; exfalso; lra.
Qed.

Lemma rnd_comp_le (p q : Q) : (p == q)%Q -> fle (rnd p) (rnd q) = true.
Proof. intros H. apply rnd_mono. rewrite H. apply Qle_refl. Qed.

(** Subtraction is monotone in its first argument and antitone in its second. *)
Lemma fsub_mono (a b c d : Q) :
  (a <= b)%Q -> (d <= c)%Q -> fle (fsub (Fin a) (Fin c)) (fsub (Fin b) (Fin d)) = true.
Proof. intros H1 H2. apply rnd_mono. lra. Qed.

Lemma fsub_nonneg (a b : Q) : (b <= a)%Q -> fle (Fin 0) (fsub (Fin a) (Fin b)) = true.
Proof. intros H. change (Fin 0) with (rnd 0). apply rnd_mono. lra. Qed.

Lemma fsub_0_r_le (q p : Q) : (q <= p)%Q -> fle (fsub (Fin q) (Fin 0)) (rnd p) = true.
Proof. intros H. apply rnd_mono. lra. Qed.

Create HintDb pyfloat.
#[export] Hint Resolve fle_refl fle_trans flt_fle rnd_mono rnd_neq_NaN fsub_mono fsub_nonneg : pyfloat.

(** ** Integers are exact up to 53 bits *)

Lemma Qred_inject (z : Z) : Qred (inject_Z z) = inject_Z z.
Proof. apply Qcanon.Qred_identity. simpl. apply Z.gcd_1_r. Qed.

Lemma rv_Z (z : Z) : Z.abs z < 2 ^ 53 -> rv (inject_Z z) = inject_Z z.
Proof.
  intros Hz. unfold rv. simpl Qnum. destruct (Z.eqb_spec z 0) as [->|Hne]; [reflexivity|].
  transitivity (Qred (inject_Z z)); [apply Qred_complete|apply Qred_inject].
  destruct (expo_spec (inject_Z z) Hne) as [L _].
  assert (He : expo (inject_Z z) <= 52).
  { assert (C : (pow2 (expo (inject_Z z)) < pow2 53)%Q).
    { eapply Qle_lt_trans; [exact L|]. rewrite <- pow2_inject by lia.
      change (Qabs (inject_Z z)) with (inject_Z (Z.abs z)). now rewrite <- Zlt_Qlt. }
    apply (Qpower_lt_compat_l_inv (2 # 1)) in C; [lia|reflexivity]. }
  set (k := ulp_exp (inject_Z z)). assert (Hk : k <= 0) by (unfold k, ulp_exp; lia).
  assert (E : (inject_Z z == inject_Z (z * 2 ^ (- k)) * pow2 k)%Q).
  { rewrite inject_Z_mult, pow2_inject, <- Qmult_assoc, pow2_opp by lia. ring. }
  rewrite E at 1. rewrite grid_fix, <- E. reflexivity.
Qed.

Lemma rnd_Z (z : Z) : Z.abs z < 2 ^ 53 -> rnd (inject_Z z) = Fin (inject_Z z).
Proof.
  intros Hz. unfold rnd. rewrite rv_Z by exact Hz.
  assert (Hh : (inject_Z (2 ^ 53) <= huge)%Q) by (apply Qle_bool_iff; reflexivity).
  assert (H1 : (inject_Z z < inject_Z (2 ^ 53))%Q) by (rewrite <- Zlt_Qlt; lia).
  assert (H2 : (- inject_Z (2 ^ 53) < inject_Z z)%Q) by (rewrite <- inject_Z_opp, <- Zlt_Qlt; lia).
  destruct (Qle_bool huge (inject_Z z)) eqn:E1; [apply Qle_bool_iff in E1; lra|].
  destruct (Qle_bool (inject_Z z) (- huge)) eqn:E2; [apply Qle_bool_iff in E2; lra|]. reflexivity.
Qed.

(** A deadline [p + t] is past one second after the exact sum. *)
Lemma deadline_past (p t q : Q) :
  (0 <= p)%Q -> (0 <= t)%Q -> (p + t <= inject_Z (2 ^ 52))%Q -> (p + t + 1 <= q)%Q ->
  flt (Fin q) (fadd (Fin p) (Fin t)) = false.
Proof.
  intros Hp Ht Hb Hq. apply fle_flt_false. unfold fadd.
  set (z := Qceiling (p + t)). pose proof (Qle_ceiling (p + t)) as H1. fold z in H1.
  assert (H2 : (inject_Z z < p + t + 1)%Q).
  { pose proof (Qceiling_lt (p + t)) as H. fold z in H.
    assert (K : (inject_Z (z - 1) == inject_Z z - 1)%Q) by (unfold Z.sub; rewrite inject_Z_plus; reflexivity). lra. }
  assert (Hz : Z.abs z < 2 ^ 53).
  { assert (A : (inject_Z z < inject_Z (2 ^ 53))%Q).
    { assert (C : (inject_Z (2 ^ 52) + 1 <= inject_Z (2 ^ 53))%Q) by (apply Qle_bool_iff; reflexivity).
      revert Hb C. generalize (inject_Z (2 ^ 52)) (inject_Z (2 ^ 53)). intros a b Hb C. lra. }
    assert (B : (inject_Z (-1) < inject_Z z)%Q) by (assert (inject_Z (-1) < 0)%Q by reflexivity; lra).
    rewrite <- Zlt_Qlt in A, B. lia. }
  eapply fle_trans; [apply (rnd_mono _ (inject_Z z)); exact H1|].
  rewrite rnd_Z by exact Hz. simpl. apply Qle_bool_iff. lra.
Qed.

(** ** Rounding is a projection *)

Lemma rv_fix_pos (q : Q) : (0 < q)%Q -> (rv (rv q) == rv q)%Q.
Proof.
  intros Hq. pose proof (rv_nonneg q (Qlt_le_weak _ _ Hq)) as Hv. remember (rv q) as v eqn:Ev.
  destruct (Qeq_dec v 0) as [E0|N0]; [rewrite (rv_comp v 0 E0), E0; reflexivity|].
  assert (Hv' : (0 < v)%Q) by lra. clear Hv N0. pose proof (proj1 (Qnum_pos _) Hv') as Nv. pose proof (proj1 (Qnum_pos _) Hq) as Nq.
  assert (Gv : (v == grid (ulp_exp q) q)%Q) by (rewrite Ev; apply rv_eq; lia). clear Ev.
  rewrite rv_eq by lia. destruct (expo_spec v ltac:(lia)) as [L _], (expo_spec q ltac:(lia)) as [_ U].
  rewrite Qabs_pos in L, U by lra. destruct (Z.le_gt_cases (ulp_exp v) (ulp_exp q)) as [Hj|Hj].
  - clear L. set (j := ulp_exp v) in *. clearbody j. revert Gv. rewrite grid_eq. set (z := rheQ _). intros Gv.
    assert (E : (v == inject_Z (z * 2 ^ (ulp_exp q - j)) * pow2 j)%Q).
    { rewrite Gv, inject_Z_mult, pow2_inject, <- Qmult_assoc, <- pow2_add by lia.
      now replace (ulp_exp q - j + j) with (ulp_exp q) by lia. }
    rewrite E. apply grid_fix.
  - set (e := Z.max (expo q + 1) (ulp_exp q)).
    assert (Hve : (v <= pow2 e)%Q).
    { rewrite Gv, <- (grid_pow2 (ulp_exp q) e) by lia. apply grid_mono, Qlt_le_weak.
      eapply Qlt_le_trans; [exact U|]. apply pow2_le. lia. }
    assert (Hee : expo v <= e).
    { apply Z.nlt_ge. intros C. assert (H : (pow2 (e + 1) <= pow2 e)%Q) by (eapply Qle_trans; [apply pow2_le|eapply Qle_trans; eassumption]; lia).
      pose proof (pow2_pos e) as P. rewrite pow2_add in H. change (pow2 1) with 2%Q in H. lra. }
    assert (He : e = expo v) by (unfold e, ulp_exp in *; lia).
    assert (E : (v == pow2 (expo v))%Q) by (rewrite He in Hve; lra).
    assert (Hle : ulp_exp v <= expo v) by (unfold ulp_exp in *; lia). clear - E Hle.
    revert E Hle. generalize (expo v) (ulp_exp v). intros x j E Hle. rewrite E. now apply grid_pow2.
Qed.

Lemma rv_fix (q : Q) : (rv (rv q) == rv q)%Q.
Proof.
  destruct (Qlt_le_dec 0 q) as [H|H]; [now apply rv_fix_pos|].
  destruct (Qeq_dec q 0) as [E|N]; [rewrite (rv_comp (rv q) 0 (rv_comp q 0 E)), (rv_comp q 0 E); reflexivity|].
  assert (Hn : (0 < - q)%Q) by lra. pose proof (rv_fix_pos (- q) Hn) as K.
  rewrite (rv_comp _ _ (rv_opp q)), !rv_opp in K. lra.
Qed.

Lemma rv_canonical (q : Q) : Qred (rv q) = rv q.
Proof.
  unfold rv. destruct (Qnum q =? 0); [reflexivity|]. apply Qred_complete, Qred_correct.
Qed.

Lemma rv_idem (q : Q) : rv (rv q) = rv q.
Proof. pose proof (Qred_complete _ _ (rv_fix q)) as H. now rewrite !rv_canonical in H. Qed.

(** A float rounds to itself. *)
Lemma rnd_idem (q v : Q) : rnd q = Fin v -> rnd v = Fin v.
Proof.
  unfold rnd. destruct (Qle_bool huge (rv q)) eqn:E1; [discriminate|].
  destruct (Qle_bool (rv q) (- huge)) eqn:E2; [discriminate|]. intros [= <-]. now rewrite rv_idem, E1, E2.
Qed.
