(* ===== verification/PyStr.v ===== *)
(** * PyStr: Python's [str] operations

    A Python [str] is a Rocq [string] whose characters are read as the code
    points U+0000 to U+00FF.  The file gives the operations the sources use:
    splitting and joining, stripping, suffix tests, decimal conversion of
    integers in both directions, fixed-point formatting of floats and the
    [repr] of a string and of a list of strings. *)

From stdpp Require Import base list strings sorting pretty.
From Stdlib Require Import ZArith QArith Lia DecimalString DecimalZ.
From S2P Require Import Prelude PyFloat.

Local Open Scope Z_scope.
Local Open Scope string_scope.
Local Open Scope driftless_scope.

(** Characters given by their code point. *)
Definition chr (n : N) : Ascii.ascii := Ascii.ascii_of_N n.
Definition ord (c : Ascii.ascii) : N := Ascii.N_of_ascii c.
Definition char (c : Ascii.ascii) : string := String c EmptyString.

Definition newline : string := char (chr 10).
Definition quote : Ascii.ascii := chr 34.

(** ** Order of strings *)

(** Lexicographic on code points, as Python compares strings. *)
Definition str_leb (a b : string) : bool := String.leb a b.

(** [sorted] of a list of strings. *)
Definition sort_strings (l : list string) : list string := isort str_leb l.

(** ** Decimal conversion *)

(** [str(n)]. *)
Definition str_of_Z (z : Z) : string := NilZero.string_of_int (Z.to_int z).
Definition str_of_nat (n : nat) : string := str_of_Z (Z.of_nat n).

(** An optional minus sign and decimal digits. *)
Definition Z_of_str (s : string) : option Z := Z.of_int <$> NilZero.int_of_string s.

Lemma Z_of_str_of_Z (z : Z) : Z_of_str (str_of_Z z) = Some z.
Proof.
  unfold Z_of_str, str_of_Z. rewrite NilZero.isi.
  - simpl. f_equal. apply DecimalZ.of_to.
  - intros H. assert (Z.of_int (Z.to_int z) = Z.of_int (Decimal.Pos Decimal.Nil)) as E by by rewrite H.
    rewrite DecimalZ.of_to in E. simpl in E. subst. discriminate.
  - intros H. assert (Z.of_int (Z.to_int z) = Z.of_int (Decimal.Neg Decimal.Nil)) as E by by rewrite H.
    rewrite DecimalZ.of_to in E. simpl in E. subst. discriminate.
Qed.

#[export] Instance str_of_Z_inj : Inj (=) (=) str_of_Z.
Proof.
  intros a b H. apply (f_equal Z_of_str) in H. rewrite !Z_of_str_of_Z in H. by injection H.
Qed.

Definition is_digit (c : Ascii.ascii) : bool := (48 <=? ord c)%N && (ord c <=? 57)%N.

(** ** Splitting, joining, stripping *)

(** [s.split(c)] for a one-character separator. *)
Fixpoint split_on (c : Ascii.ascii) (s : string) : list string :=
  match s with
  | EmptyString => [EmptyString]
  | String a s' =>
      if Ascii.eqb a c then EmptyString :: split_on c s'
      else match split_on c s' with
           | [] => [char a]
           | w :: ws => String a w :: ws
           end
  end.

(** [sep.join(l)]. *)
Definition join (sep : string) (l : list string) : string := String.concat sep l.

(** [str.isspace] on an ASCII character.  The white space outside
    ASCII is not stripped. *)
Definition is_space (c : Ascii.ascii) : bool :=
  let n := ord c in ((9 <=? n) && (n <=? 13) || (28 <=? n) && (n <=? 32))%N.

Fixpoint lstrip (s : string) : string :=
  match s with
  | String c s' => if is_space c then lstrip s' else s
  | EmptyString => EmptyString
  end.

Fixpoint rstrip (s : string) : string :=
  match s with
  | EmptyString => EmptyString
  | String c s' =>
      match rstrip s' with
      | EmptyString => if is_space c then EmptyString else char c
      | t => String c t
      end
  end.

(** [s.strip()]. *)
Definition strip (s : string) : string := rstrip (lstrip s).

(** [s.endswith(t)]. *)
Definition endswith (s t : string) : bool :=
  (String.length t <=? String.length s)%nat &&
  String.eqb (String.substring (String.length s - String.length t) (String.length t) s) t.

(** [os.path.join(a, b)]. *)
Definition path_join (a b : string) : string :=
  if String.prefix "/" b then b
  else if String.eqb a "" || endswith a "/" then a ^^ b else a ^^ "/" ^^ b.

(** [os.path.dirname(p)]: up to the last slash, without trailing slashes unless
    there is nothing else. *)
Fixpoint drop_slashes (s : string) : string :=
  match s with
  | EmptyString => EmptyString
  | String c s' => match drop_slashes s' with
                   | EmptyString => if Ascii.eqb c (chr 47) then EmptyString else char c
                   | t => String c t
                   end
  end.

Definition dirname (p : string) : string :=
  match rev (split_on (chr 47) p) with
  | [] | [_] => EmptyString
  | _ :: front =>
      let head := join "/" (rev front) ^^ "/" in
      match drop_slashes head with EmptyString => head | t => t end
  end.

Example dirname_ex : map dirname ["a/b/c"; "/x"; "x"; "a//b"]%string = ["a/b"; "/"; ""; "a"]%string.
Proof. reflexivity. Qed.

(** [s[:n]]. *)
Definition prefix_of (n : nat) (s : string) : string := String.substring 0 n s.

(** [t in s]. *)
Fixpoint contains (t s : string) : bool :=
  String.prefix t s ||
  match s with EmptyString => false | String _ s' => contains t s' end.

(** [s] is not empty (Python truth value). *)
Definition truthy (s : string) : bool := negb (String.eqb s EmptyString).

(** [s * n]. *)
Fixpoint repeat_str (n : nat) (s : string) : string :=
  match n with O => EmptyString | S n => s ^^ repeat_str n s end.

(** ** [int(s)] on a string

    Surrounding white space, an optional sign, decimal digits with single
    underscores between them. *)

Fixpoint drop_underscores (after_digit : bool) (s : string) : option string :=
  match s with
  | EmptyString => if after_digit then Some EmptyString else None
  | String c s' =>
      if is_digit c then String c <$> drop_underscores true s'
      else if Ascii.eqb c (chr 95) && after_digit then drop_underscores false s'
      else None
  end.

Definition int_of_str (s : string) : option Z :=
  let t := strip s in
  let '(neg, digits) :=
    match t with
    | String c t' =>
        if Ascii.eqb c (chr 45) then (true, t')
        else if Ascii.eqb c (chr 43) then (false, t') else (false, t)
    | EmptyString => (false, t)
    end in
  d ← drop_underscores false digits;
  z ← Z_of_str d;
  Some (if (neg : bool) then - z else z).

(** ** Fixed-point formatting *)

(** At least [n] characters, padded on the left with zeros. *)
Definition zpad (n : nat) (s : string) : string :=
  repeat_str (n - String.length s) "0" ^^ s.

(** [f"{x:.df}"]: the exact value rounded to [d] decimals, ties to even. *)
Definition fmt_fixed (d : nat) (x : float) : string :=
  match x with
  | NaN => "nan"
  | Inf false => "inf"
  | Inf true => "-inf"
  | Fin q =>
      let n := rheQ (q * inject_Z (10 ^ Z.of_nat d)) in
      let a := Z.abs n in
      let ip := str_of_Z (a / 10 ^ Z.of_nat d) in
      let fp := zpad d (str_of_Z (a mod 10 ^ Z.of_nat d)) in
      (if qneg q then "-" else "") ^^ ip ^^ (if (d =? 0)%nat then "" else "." ^^ fp)
  end.

(** ** [repr] *)

Definition hex_digit (n : N) : Ascii.ascii :=
  if (n <? 10)%N then chr (48 + n) else chr (87 + n).

Definition hex2 (n : N) : string :=
  String (hex_digit (n / 16)) (char (hex_digit (n mod 16))).

Definition repr_char (q : Ascii.ascii) (c : Ascii.ascii) : string :=
  let n := ord c in
  if Ascii.eqb c q || (n =? 92)%N then String (chr 92) (char c)
  else if (n =? 9)%N then "\t"
  else if (n =? 10)%N then "\n"
  else if (n =? 13)%N then "\r"
  else if (n <? 32)%N || ((127 <=? n) && (n <=? 160))%N || (n =? 173)%N
       then "\x" ^^ hex2 n
       else char c.

Definition repr_with (q : Ascii.ascii) (s : string) : string :=
  String q (String.concat "" (map (repr_char q) (String.list_ascii_of_string s)) ^^ char q).

(** [repr(s)]: single quotes unless [s] has one and no double quote. *)
Definition repr_str (s : string) : string :=
  let sq := chr 39 in
  if contains (char sq) s && negb (contains (char quote) s)
  then repr_with quote s else repr_with sq s.

(** [str(l)] of a list of strings. *)
Definition repr_list (l : list string) : string := "[" ^^ join ", " (map repr_str l) ^^ "]".

(** ** Facts *)

Lemma join_app_inj_length (sep : string) (l : list string) :
  join sep l = match l with [] => "" | [x] => x | x :: l' => x ^^ sep ^^ join sep l' end.
Proof. destruct l as [|x [|y l]]; reflexivity. Qed.

Lemma sort_strings_perm (l : list string) : sort_strings l ≡ₚ l.
Proof. apply isort_perm. Qed.

Lemma str_leb_total (a b : string) : str_leb a b = true \/ str_leb b a = true.
Proof. apply String.leb_total. Qed.

(** Sorting forgets the order of its input. *)
Lemma sort_strings_eq (l1 l2 : list string) : l1 ≡ₚ l2 <-> sort_strings l1 = sort_strings l2.
Proof.
  split.
  - intros H.
    assert (Hs : forall l, Sorted String.le (sort_strings l)).
    { intros l. eapply Sorted_weaken; [|apply isort_sorted, str_leb_total].
      intros a b Hab. unfold String.le. by apply Is_true_true. }
    apply (Sorted_unique String.le); [apply Hs..|].
    unfold sort_strings. by rewrite !isort_perm.
  - intros H. rewrite <- (sort_strings_perm l1), H. apply sort_strings_perm.
Qed.

Lemma append_cons (x : Ascii.ascii) (a b : string) : String x a ^^ b = String x (a ^^ b).
Proof. reflexivity. Qed.

Lemma append_nil_l (a : string) : "" ^^ a = a.
Proof. reflexivity. Qed.

Lemma append_assoc (a b c : string) : (a ^^ b) ^^ c = a ^^ b ^^ c.
Proof. induction a as [|x a IH]; [done|]. by rewrite !append_cons, IH. Qed.

Lemma append_nil_r (a : string) : a ^^ "" = a.
Proof. induction a as [|x a IH]; [done|]. by rewrite append_cons, IH. Qed.

Lemma length_append (a b : string) : String.length (a ^^ b) = (String.length a + String.length b)%nat.
Proof. induction a as [|x a IH]; [done|]. rewrite append_cons. simpl. by rewrite IH. Qed.

#[export] Instance append_inj (a : string) : Inj (=) (=) (String.append a).
Proof.
  intros x y H. induction a as [|c a IH]; [done|].
  rewrite !append_cons in H. injection H. exact IH.
Qed.

#[export] Hint Rewrite append_cons append_nil_l append_assoc append_nil_r length_append : driftless.

(** Splitting undoes joining when no part has the separator. *)
Fixpoint no_char (c : Ascii.ascii) (s : string) : bool :=
  match s with EmptyString => true | String a s' => negb (Ascii.eqb a c) && no_char c s' end.

Lemma split_on_free (c : Ascii.ascii) (s : string) : no_char c s = true -> split_on c s = [s].
Proof.
  induction s as [|a s IH]; [done|]. simpl. intros [Ha Hs]%andb_true_iff.
  apply negb_true_iff in Ha. by rewrite Ha, IH.
Qed.

Lemma split_on_app (c : Ascii.ascii) (s r : string) :
  no_char c s = true -> split_on c (s ^^ String c r) = s :: split_on c r.
Proof.
  induction s as [|a s IH].
  - intros _. rewrite append_nil_l. simpl. by rewrite Ascii.eqb_refl.
  - rewrite append_cons. simpl. intros [Ha Hs]%andb_true_iff. apply negb_true_iff in Ha.
    by rewrite Ha, IH.
Qed.

Lemma split_join (c : Ascii.ascii) (l : list string) :
  l <> [] -> forallb (no_char c) l = true -> split_on c (join (char c) l) = l.
Proof.
  intros Hne. induction l as [|x l IH]; [done|]. simpl. intros [Hx Hl]%andb_true_iff.
  destruct l as [|y l]; [by apply split_on_free|].
  change (join (char c) (x :: y :: l)) with (x ^^ char c ^^ join (char c) (y :: l)).
  unfold char at 1. rewrite append_cons, append_nil_l, split_on_app by done.
  by rewrite IH.
Qed.

Example split_on_ex : split_on (chr 44) "a, b,,c" = ["a"; " b"; ""; "c"].
Proof. reflexivity. Qed.
Example strip_ex : strip "  a b  " = "a b".
Proof. reflexivity. Qed.
Example endswith_ex : endswith "raft-coordinator-dev-coordinator-a" "coordinator-a" = true.
Proof. reflexivity. Qed.
Example int_of_str_ex : map int_of_str [" 42 "; "-1_000"; "4 2"; ""; "_1"] = [Some 42; Some (-1000); None; None; None].
Proof. reflexivity. Qed.
Example fmt_fixed_ex :
  [fmt_fixed 1 (Fin (241 # 20)); fmt_fixed 0 (Fin (21 # 2)); fmt_fixed 2 (Fin (-1 # 8))] = ["12.0"; "10"; "-0.12"].
Proof. reflexivity. Qed.
Example repr_list_ex : repr_list ["a"; "it's"] = "['a', " ^^ repr_with quote "it's" ^^ "]".
Proof. reflexivity. Qed.

(** ** Comma-separated settings

    [[a.strip() for a in raw.split(",") if a.strip()]]. *)

Definition comma_list (raw : string) : list string :=
  map strip (List.filter (fun a => truthy (strip a)) (split_on (chr 44) raw)).

Lemma rstrip_idem (s : string) : rstrip (rstrip s) = rstrip s.
Proof.
  induction s as [|c s IH]; [done|]. simpl. destruct (rstrip s) as [|d t] eqn:E.
  - destruct (is_space c) eqn:Ec; [done|]. simpl. by rewrite Ec.
  - change (match rstrip (String d t) with EmptyString => if is_space c then EmptyString else char c
            | t' => String c t' end = String c (String d t)). by rewrite IH.
Qed.

Definition starts_space (s : string) : bool :=
  match s with String c _ => is_space c | EmptyString => false end.

Lemma lstrip_start (s : string) : starts_space (lstrip s) = false.
Proof. induction s as [|c s IH]; [done|]. simpl. destruct (is_space c) eqn:E; [done|]. simpl. done. Qed.

Lemma lstrip_fix (s : string) : starts_space s = false -> lstrip s = s.
Proof. destruct s as [|c s]; [done|]. simpl. by intros ->. Qed.

Lemma rstrip_start (s : string) : starts_space s = false -> starts_space (rstrip s) = false.
Proof.
  destruct s as [|c s]; [done|]. simpl. intros Hc. destruct (rstrip s); [by rewrite Hc|]. done.
Qed.

Lemma strip_idem (s : string) : strip (strip s) = strip s.
Proof.
  unfold strip. rewrite (lstrip_fix (rstrip (lstrip s))) by apply rstrip_start, lstrip_start.
  apply rstrip_idem.
Qed.

Lemma split_on_no_char (c : Ascii.ascii) (s w : string) : w ∈ split_on c s -> no_char c w = true.
Proof.
  revert w. induction s as [|a s IH]; intros w; simpl.
  - intros Hw. apply list_elem_of_singleton in Hw as ->. done.
  - destruct (Ascii.eqb a c) eqn:E.
    + intros [->|Hw]%elem_of_cons; [done|auto].
    + destruct (split_on c s) as [|w0 ws].
      * intros Hw. apply list_elem_of_singleton in Hw as ->. simpl. by rewrite E.
      * intros [->|Hw]%elem_of_cons; [|apply IH; by right]. simpl. rewrite E. apply IH. left.
Qed.

(** The elements of a setting: stripped, not empty. *)
Definition clean (w : string) : bool := String.eqb (strip w) w && truthy w.

Lemma comma_list_clean (raw w : string) : w ∈ comma_list raw -> clean w = true.
Proof.
  unfold comma_list. intros H. apply list_elem_of_fmap in H as (a & -> & Ha).
  apply filter_In_elem in Ha as [_ Ha]. unfold clean. by rewrite strip_idem, String.eqb_refl, Ha.
Qed.

Lemma comma_list_join (l : list string) :
  l <> [] -> forallb (fun w => clean w && no_char (chr 44) w) l = true -> comma_list (join "," l) = l.
Proof.
  intros Hne Hl. unfold comma_list. rewrite split_join.
  - clear Hne. induction l as [|w l IH]; [done|]. simpl in *. apply andb_true_iff in Hl as [Hw Hl].
    apply andb_true_iff in Hw as [Hw _]. unfold clean in Hw. apply andb_true_iff in Hw as [Hs Ht].
    apply String.eqb_eq in Hs. rewrite Hs, Ht. simpl. rewrite Hs, IH; done.
  - done.
  - rewrite forallb_forall in *. intros w Hw. specialize (Hl w Hw). by apply andb_true_iff in Hl as [_ ?].
Qed.
