(* ===== verification/PyDict.v ===== *)
(** * PyDict: Python's insertion-ordered dictionaries

    The sources iterate over dictionaries ([for term, leaders in
    leaders_by_term.items()]) and the order of the iteration shows in what they
    report, so a [dict] is an association list in insertion order with unique
    keys.  [dict_set] keeps the position of an existing key, as Python does;
    [dict_of_items] is what a dict literal or [json.loads] builds from a
    sequence of items. *)

From stdpp Require Import base list.
From S2P Require Import Prelude.

Section dict.
Context {K V : Type} `{EqDecision K}.
Implicit Types (d : list (K * V)) (k : K) (v : V).

(** [d.get(k)]. *)
Fixpoint dict_get d k : option V :=
  match d with
  | [] => None
  | (k', v) :: d' => if decide (k = k') then Some v else dict_get d' k
  end.

(** [d[k] = v]. *)
Fixpoint dict_set d k v : list (K * V) :=
  match d with
  | [] => [(k, v)]
  | (k', v') :: d' => if decide (k = k') then (k', v) :: d' else (k', v') :: dict_set d' k v
  end.

(** [k in d]. *)
Definition dict_has d k : bool :=
  match dict_get d k with Some _ => true | None => false end.

(** [d.setdefault(k, v)]: the dictionary afterwards. *)
Definition dict_setdefault d k v : list (K * V) :=
  if dict_has d k then d else dict_set d k v.

Definition dict_keys d : list K := map fst d.

Definition dict_of_items (l : list (K * V)) : list (K * V) :=
  fold_left (fun d kv => dict_set d (fst kv) (snd kv)) l [].

(** ** Laws *)

Lemma dict_get_set_eq d k v : dict_get (dict_set d k v) k = Some v.
Proof.
  induction d as [|[k' v'] d IH]; simpl; [by rewrite decide_True|].
  destruct (decide (k = k')) as [->|Hne]; simpl.
  - by rewrite decide_True.
  - by rewrite decide_False.
Qed.

Lemma dict_get_set_ne d k k' v : k' <> k -> dict_get (dict_set d k v) k' = dict_get d k'.
Proof.
  intros Hne. induction d as [|[k0 v0] d IH]; simpl; [by rewrite decide_False|].
  destruct (decide (k = k0)) as [->|]; simpl; case_decide; congruence.
Qed.

Lemma dict_get_set d k k' v :
  dict_get (dict_set d k v) k' = if decide (k' = k) then Some v else dict_get d k'.
Proof. case_decide; subst; [apply dict_get_set_eq|by apply dict_get_set_ne]. Qed.

Lemma dict_get_elem d k v : dict_get d k = Some v -> (k, v) ∈ d.
Proof.
  induction d as [|[k' v'] d IH]; simpl; [done|].
  case_decide; intros ?; simplify_eq; [left|right; auto].
Qed.

Lemma dict_get_None d k : dict_get d k = None <-> k ∉ dict_keys d.
Proof.
  induction d as [|[k' v'] d IH]; simpl; [split; [intros _ H; inv H|done]|].
  rewrite not_elem_of_cons. case_decide; naive_solver.
Qed.

Lemma dict_has_true d k : dict_has d k = true <-> k ∈ dict_keys d.
Proof.
  unfold dict_has. destruct (dict_get d k) eqn:E.
  - split; [intros _|done]. apply dict_get_elem in E.
    unfold dict_keys. apply list_elem_of_fmap. by exists (k, v).
  - apply dict_get_None in E. split; [done|intros; contradiction].
Qed.

(** With unique keys an item is a lookup. *)
Lemma elem_dict_get d k v : NoDup (dict_keys d) -> (k, v) ∈ d -> dict_get d k = Some v.
Proof.
  induction d as [|[k' v'] d IH]; simpl; [intros _ H; inv H|].
  rewrite NoDup_cons. intros [Hn Hd] H. apply elem_of_cons in H as [H|H].
  - simplify_eq. by rewrite decide_True.
  - rewrite decide_False; [auto|]. intros ->. apply Hn.
    unfold dict_keys. apply list_elem_of_fmap. by exists (k', v).
Qed.

Lemma dict_keys_set d k v :
  dict_keys (dict_set d k v) = if dict_has d k then dict_keys d else dict_keys d ++ [k].
Proof.
  unfold dict_has. induction d as [|[k' v'] d IH]; simpl; [done|].
  case_decide; [done|]. simpl. rewrite IH. by destruct (dict_get d k).
Qed.

Lemma dict_set_NoDup d k v : NoDup (dict_keys d) -> NoDup (dict_keys (dict_set d k v)).
Proof.
  intros H. rewrite dict_keys_set. destruct (dict_has d k) eqn:E; [done|].
  apply NoDup_app. split; [done|]. split; [|apply NoDup_singleton].
  intros x Hx Hk. apply list_elem_of_singleton in Hk as ->.
  apply dict_has_true in Hx. congruence.
Qed.

(** A new key goes to the end. *)
Lemma dict_set_new d k v : k ∉ dict_keys d -> dict_set d k v = d ++ [(k, v)].
Proof.
  induction d as [|[k' v'] d IH]; simpl; [done|]. rewrite not_elem_of_cons.
  intros [Hne Hn]. rewrite decide_False by done. by rewrite IH.
Qed.

Lemma dict_of_items_app (acc l : list (K * V)) :
  NoDup (dict_keys (acc ++ l)) ->
  fold_left (fun d kv => dict_set d (fst kv) (snd kv)) l acc = acc ++ l.
Proof.
  revert acc. induction l as [|[k v] l IH]; intros acc H; simpl; [by rewrite app_nil_r|].
  rewrite dict_set_new.
  - rewrite IH; rewrite <- app_assoc; [done|exact H].
  - intros Hk. unfold dict_keys in *. rewrite map_app in H. simpl in H.
    apply NoDup_app in H as (_ & H & _). apply (H k Hk). left.
Qed.

Lemma dict_of_items_id (l : list (K * V)) : NoDup (dict_keys l) -> dict_of_items l = l.
Proof. intros H. by apply (dict_of_items_app []). Qed.
End dict.

#[export] Hint Rewrite @dict_get_set_eq @dict_keys_set : driftless.
#[export] Hint Resolve dict_set_NoDup dict_get_elem : driftless.
