(* ===== verification/Json.v ===== *)
(** * Json: the [json] module as the recorder and the analysers use it

    [dumps] is [json.dumps] with its default separators and [ensure_ascii],
    [loads] is [json.loads]; a document is read back exactly
    ([loads_dumps]).  An escape above U+00FF has no character in the model and
    makes [loads] fail. *)

From stdpp Require Import base list strings.
From Stdlib Require Import ZArith QArith Lia DecimalString DecimalFacts DecimalN.
From S2P Require Import Prelude PyFloat PyStr PyDict.

Local Open Scope string_scope.
Local Open Scope driftless_scope.

(** A parsed document; an object keeps the order of its keys. *)
Inductive json : Type :=
| JNull
| JBool (b : bool)
| JInt (z : Z)
| JFloat (x : float)
| JStr (s : string)
| JArr (l : list json)
| JObj (d : list (string * json)).

(** ** Floats as text *)

(** The digits and decimal exponent of [q > 0] rounded to [p] significant digits:
    [q ~ m * 10^e] with [10^(p-1) <= m < 10^p]. *)
Definition pow10 (k : Z) : Q := if (0 <=? k)%Z then inject_Z (10 ^ k) else (1 # Z.to_pos (10 ^ (- k))).

Fixpoint log10_search (fuel : nat) (q : Q) (e : Z) : Z :=
  match fuel with
  | O => e
  | S f => if Qle_bool (pow10 (e + 1)) q then log10_search f q (e + 1)
           else if Qle_bool (pow10 e) q then e else log10_search f q (e - 1)
  end.

(** Decimal exponent of a positive double ([|exponent| <= 324]). *)
Definition log10 (q : Q) : Z := log10_search 700 q 0.

Definition digits_at (q : Q) (p : Z) : Z * Z :=
  let e := (log10 q - (p - 1))%Z in
  let m := rheQ (q * pow10 (- e)) in
  if (m =? 10 ^ p)%Z then ((m / 10)%Z, (e + 1)%Z) else (m, e).

(** The fewest digits that read back as the same double, at most 17. *)
Fixpoint shortest (fuel : nat) (q : Q) (p : Z) : Z * Z :=
  let '(m, e) := digits_at q p in
  match fuel with
  | O => (m, e)
  | S f =>
      match rnd (inject_Z m * pow10 e) with
      | Fin v => if Qeq_bool v q then (m, e) else shortest f q (p + 1)
      | _ => shortest f q (p + 1)
      end
  end.

(** [repr] of a finite non-negative double. *)
Definition repr_pos (q : Q) : string :=
  if (Qnum q =? 0)%Z then "0.0"
  else
    let '(m, e) := shortest 16 q 1 in
    let ds := str_of_Z m in
    let n := Z.of_nat (String.length ds) in
    let x := (n + e)%Z in   (* position of the decimal point *)
    if ((-4 <? x) && (x <=? 16))%Z then
      if (0 <? x)%Z then
        if (n <=? x)%Z then ds ^^ repeat_str (Z.to_nat (x - n)) "0" ^^ ".0"
        else String.substring 0 (Z.to_nat x) ds ^^ "." ^^
             String.substring (Z.to_nat x) (Z.to_nat (n - x)) ds
      else "0." ^^ repeat_str (Z.to_nat (- x)) "0" ^^ ds
    else
      String.substring 0 1 ds ^^
      (if (n =? 1)%Z then "" else "." ^^ String.substring 1 (String.length ds - 1) ds) ^^ "e" ^^
      (if (x - 1 <? 0)%Z then "-" else "+") ^^ zpad 2 (str_of_Z (Z.abs (x - 1))).

(** [repr(x)], which [json.dumps] uses with its own names for the specials. *)
Definition repr_float (x : float) : string :=
  match x with
  | NaN => "NaN"
  | Inf false => "Infinity"
  | Inf true => "-Infinity"
  | Fin q => if qneg q then "-" ^^ repr_pos (- q) else repr_pos q
  end.

(** ** [json.dumps] *)

(** One character of a string, with [ensure_ascii]. *)
Definition esc_char (c : Ascii.ascii) : string :=
  let n := ord c in
  if (n =? 34)%N then "\" ^^ char quote
  else if (n =? 92)%N then "\\"
  else if (n =? 8)%N then "\b"
  else if (n =? 9)%N then "\t"
  else if (n =? 10)%N then "\n"
  else if (n =? 12)%N then "\f"
  else if (n =? 13)%N then "\r"
  else if (n <? 32)%N || (126 <? n)%N then "\u00" ^^ hex2 n
  else char c.

Fixpoint esc_string (s : string) : string :=
  match s with
  | EmptyString => EmptyString
  | String c s' => esc_char c ^^ esc_string s'
  end.

Definition dumps_str (s : string) : string := String quote (esc_string s ^^ char quote).

Fixpoint dumps (v : json) : string :=
  match v with
  | JNull => "null"
  | JBool true => "true"
  | JBool false => "false"
  | JInt z => str_of_Z z
  | JFloat x => repr_float x
  | JStr s => dumps_str s
  | JArr l => "[" ^^ join ", " (map dumps l) ^^ "]"
  | JObj d => "{" ^^ join ", " (map (fun kv => dumps_str kv.1 ^^ ": " ^^ dumps kv.2) d) ^^ "}"
  end.

(** ** [json.loads] *)

Definition is_ws (c : Ascii.ascii) : bool :=
  let n := ord c in ((n =? 32) || (n =? 9) || (n =? 10) || (n =? 13))%N.

Fixpoint skip_ws (s : string) : string :=
  match s with
  | String c s' => if is_ws c then skip_ws s' else s
  | EmptyString => EmptyString
  end.

Definition hex_val (c : Ascii.ascii) : option N :=
  let n := ord c in
  if ((48 <=? n) && (n <=? 57))%N then Some (n - 48)%N
  else if ((97 <=? n) && (n <=? 102))%N then Some (n - 87)%N
  else if ((65 <=? n) && (n <=? 70))%N then Some (n - 55)%N
  else None.

(** The rest of a string after its opening quote. *)
Fixpoint parse_str (s : string) : option (string * string) :=
  match s with
  | EmptyString => None
  | String c r =>
      if (ord c =? 34)%N then Some (EmptyString, r)
      else if (ord c =? 92)%N then
        match r with
        | String e r1 =>
            if (ord e =? 117)%N then
              match r1 with
              | String h1 (String h2 (String h3 (String h4 r2))) =>
                  a ← hex_val h1; b ← hex_val h2; x ← hex_val h3; y ← hex_val h4;
                  if ((a =? 0) && (b =? 0))%N
                  then '(t, r') ← parse_str r2; Some (String (chr (16 * x + y)) t, r')
                  else None
              | _ => None
              end
            else
              d ← (if (ord e =? 34)%N then Some 34%N
                   else if (ord e =? 92)%N then Some 92%N
                   else if (ord e =? 47)%N then Some 47%N
                   else if (ord e =? 98)%N then Some 8%N
                   else if (ord e =? 102)%N then Some 12%N
                   else if (ord e =? 110)%N then Some 10%N
                   else if (ord e =? 114)%N then Some 13%N
                   else if (ord e =? 116)%N then Some 9%N
                   else None);
              '(t, r') ← parse_str r1; Some (String (chr d) t, r')
        | EmptyString => None
        end
      else if (ord c <? 32)%N then None
      else '(t, r') ← parse_str r; Some (String c t, r')
  end.

(** Characters of a number, and the longest prefix made of them. *)
Definition is_num_char (c : Ascii.ascii) : bool :=
  is_digit c || (let n := ord c in ((n =? 45) || (n =? 43) || (n =? 46) || (n =? 101) || (n =? 69))%N).

Fixpoint span_num (s : string) : string * string :=
  match s with
  | String c r => if is_num_char c then let '(a, b) := span_num r in (String c a, b) else (EmptyString, s)
  | EmptyString => (EmptyString, EmptyString)
  end.

Fixpoint span_digits (s : string) : string * string :=
  match s with
  | String c r => if is_digit c then let '(a, b) := span_digits r in (String c a, b) else (EmptyString, s)
  | EmptyString => (EmptyString, EmptyString)
  end.

Definition is_char (n : N) (c : Ascii.ascii) : bool := (ord c =? n)%N.

(** The exponent part of a number, [0] when absent; [None] when malformed. *)
Definition parse_exp (s : string) : option Z :=
  match s with
  | EmptyString => Some 0%Z
  | String c r =>
      if is_char 101 c || is_char 69 c then
        let '(neg, t) := match r with
                         | String d t => if is_char 45 d then (true, t)
                                         else if is_char 43 d then (false, t) else (false, r)
                         | EmptyString => (false, r)
                         end in
        let '(ds, rest) := span_digits t in
        if truthy ds && negb (truthy rest)
        then z ← Z_of_str ds; Some (if (neg : bool) then - z else z)%Z else None
      else None
  end.

(** A number token: an optional minus sign, an integer part without a leading
    zero, an optional fraction and an optional exponent. *)
Definition parse_num (tok : string) : option json :=
  let '(neg, t) := match tok with
                   | String c t => if is_char 45 c then (true, t) else (false, tok)
                   | EmptyString => (false, tok)
                   end in
  let '(ip, r) := span_digits t in
  if negb (truthy ip) || ((1 <? String.length ip)%nat && String.prefix "0" ip) then None
  else match r with
       | EmptyString => JInt <$> Z_of_str tok
       | String c r' =>
           '(fp, re) ← (if is_char 46 c
                        then let '(fp, re) := span_digits r' in
                             if truthy fp then Some (fp, re) else None
                        else Some (EmptyString, r));
           e ← parse_exp re;
           m ← Z_of_str (ip ^^ fp);
           let q := (inject_Z m * pow10 (e - Z.of_nat (String.length fp)))%Q in
           Some (JFloat (if (neg : bool) then rnd (- q) else rnd q))
       end.

(** ** [float(s)] on a string

    Surrounding white space, an optional sign, [inf], [infinity] or [nan] in any
    case, or decimal digits with a point and an exponent; underscores are allowed
    between digits. *)

Definition lower_char (c : Ascii.ascii) : Ascii.ascii :=
  let n := ord c in if ((65 <=? n) && (n <=? 90))%N then chr (n + 32) else c.

Fixpoint lower (s : string) : string :=
  match s with EmptyString => EmptyString | String c r => String (lower_char c) (lower r) end.

Fixpoint span_digits_us (s : string) : string * string :=
  match s with
  | String c r => if is_digit c || is_char 95 c
                  then let '(a, b) := span_digits_us r in (String c a, b) else (EmptyString, s)
  | EmptyString => (EmptyString, EmptyString)
  end.

(** A possibly empty digit group without its underscores. *)
Definition digit_group (s : string) : option string :=
  if truthy s then drop_underscores false s else Some EmptyString.

Definition float_of_str (s : string) : option float :=
  let '(neg, t) := match strip s with
                   | String c t => if is_char 45 c then (true, t) else
                                   if is_char 43 c then (false, t) else (false, String c t)
                   | EmptyString => (false, EmptyString)
                   end in
  let low := lower t in
  if String.eqb low "inf" || String.eqb low "infinity" then Some (Inf neg)
  else if String.eqb low "nan" then Some NaN
  else
    let '(ip, r) := span_digits_us t in
    let '(fp, re) := match r with
                     | String c r' => if is_char 46 c then span_digits_us r' else (EmptyString, r)
                     | EmptyString => (EmptyString, r)
                     end in
    ip ← digit_group ip;
    fp ← digit_group fp;
    if negb (truthy (ip ^^ fp)) then None
    else
      e ← match re with
          | String c r' =>
              if is_char 101 c || is_char 69 c
              then let '(eneg, et) := match r' with
                     | String d t' => if is_char 45 d then (true, t') else
                                      if is_char 43 d then (false, t') else (false, r')
                     | EmptyString => (false, r')
                     end in
                   ds ← drop_underscores false et;
                   z ← Z_of_str ds;
                   Some (if (eneg : bool) then - z else z)%Z
              else None
          | EmptyString => Some 0%Z
          end;
      m ← Z_of_str (ip ^^ fp);
      let q := (inject_Z m * pow10 (e - Z.of_nat (String.length fp)))%Q in
      Some (if (neg : bool) then rnd (- q) else rnd q).

(** Remove a literal prefix. *)
Fixpoint eat (t s : string) : option string :=
  match t, s with
  | EmptyString, _ => Some s
  | String a t', String b s' => if Ascii.eqb a b then eat t' s' else None
  | _, _ => None
  end.

Definition keywords : list (string * json) :=
  [("null", JNull); ("true", JBool true); ("false", JBool false);
   ("NaN", JFloat NaN); ("Infinity", JFloat (Inf false)); ("-Infinity", JFloat (Inf true))].

Fixpoint parse_keyword (ks : list (string * json)) (s : string) : option (json * string) :=
  match ks with
  | [] => None
  | (k, v) :: ks' => match eat k s with Some r => Some (v, r) | None => parse_keyword ks' s end
  end.

(** A value, the elements of a non-empty array after its bracket and the items
    of a non-empty object after its brace, each with what follows them.  Every call
    consumes a character, so the length of the text is enough fuel. *)
Fixpoint parse_value (fuel : nat) (s : string) {struct fuel} : option (json * string) :=
  match fuel with
  | O => None
  | S f =>
      match s with
      | EmptyString => None
      | String c r =>
          if is_char 34 c then '(t, r') ← parse_str r; Some (JStr t, r')
          else if is_char 91 c then
            match skip_ws r with
            | EmptyString => None
            | String d r' => if is_char 93 d then Some (JArr [], r')
                             else '(l, r'') ← parse_elems f (String d r'); Some (JArr l, r'')
            end
          else if is_char 123 c then
            match skip_ws r with
            | EmptyString => None
            | String d r' => if is_char 125 d then Some (JObj [], r')
                             else '(l, r'') ← parse_items f (String d r'); Some (JObj (dict_of_items l), r'')
            end
          else match parse_keyword keywords s with
               | Some vr => Some vr
               | None => let '(tok, r') := span_num s in v ← parse_num tok; Some (v, r')
               end
      end
  end
with parse_elems (fuel : nat) (s : string) {struct fuel} : option (list json * string) :=
  match fuel with
  | O => None
  | S f =>
      '(v, r) ← parse_value f s;
      match skip_ws r with
      | EmptyString => None
      | String c r' =>
          if is_char 93 c then Some ([v], r')
          else if is_char 44 c then '(l, r'') ← parse_elems f (skip_ws r'); Some (v :: l, r'')
          else None
      end
  end
with parse_items (fuel : nat) (s : string) {struct fuel} : option (list (string * json) * string) :=
  match fuel with
  | O => None
  | S f =>
      match s with
      | EmptyString => None
      | String c r =>
          if is_char 34 c then
            '(k, r1) ← parse_str r;
            match skip_ws r1 with
            | EmptyString => None
            | String c1 r2 =>
                if is_char 58 c1 then
                  '(v, r3) ← parse_value f (skip_ws r2);
                  match skip_ws r3 with
                  | EmptyString => None
                  | String c2 r4 =>
                      if is_char 125 c2 then Some ([(k, v)], r4)
                      else if is_char 44 c2
                           then '(l, r5) ← parse_items f (skip_ws r4); Some ((k, v) :: l, r5)
                           else None
                  end
                else None
            end
          else None
      end
  end.

(** [json.loads]; [None] where it raises [ValueError]. *)
Definition loads (s : string) : option json :=
  '(v, r) ← parse_value (S (String.length s)) (skip_ws s);
  if truthy (skip_ws r) then None else Some v.

Example dumps_ex :
  dumps (JArr [JFloat (rnd (1 # 10)); JFloat (rnd (23 # 1000000)); JFloat (Fin 2000); JFloat (rnd (10 ^ 23)); JInt (-7)])
  = "[0.1, 2.3e-05, 2000.0, 1e+23, -7]".
Proof. vm_compute. reflexivity. Qed.

Example loads_ex :
  loads " [1, -2.5,true , null, 0.1, {} ] " =
  Some (JArr [JInt 1; JFloat (Fin (-5 # 2)); JBool true; JNull; JFloat (rnd (1 # 10)); JObj []]).
Proof. vm_compute. reflexivity. Qed.

(** ** Reading back what was written *)

Fixpoint all_chars (p : Ascii.ascii -> bool) (s : string) : bool :=
  match s with String c r => p c && all_chars p r | EmptyString => true end.

(** [rest] does not start with a character of the class. *)
Definition stops (p : Ascii.ascii -> bool) (rest : string) : Prop :=
  match rest with String c _ => p c = false | EmptyString => True end.

(** Case analysis on the 256 characters. *)
Ltac by_char c := destruct c as [[] [] [] [] [] [] [] []]; first [discriminate | reflexivity].

Lemma span_num_all (a rest : string) :
  all_chars is_num_char a = true -> stops is_num_char rest -> span_num (a ^^ rest) = (a, rest).
Proof.
  intros Ha Hr. induction a as [|c a IH]; simpl in Ha.
  - rewrite append_nil_l. destruct rest as [|c rest]; [done|]. simpl in *. by rewrite Hr.
  - apply andb_true_iff in Ha as [Hc Ha]. rewrite append_cons. simpl. by rewrite Hc, IH.
Qed.

Lemma span_digits_all (a : string) :
  all_chars is_digit a = true -> span_digits a = (a, EmptyString).
Proof.
  induction a as [|c a IH]; simpl; [done|]. intros [Hc Ha]%andb_true_iff. by rewrite Hc, IH.
Qed.

Lemma all_chars_impl (p q : Ascii.ascii -> bool) (s : string) :
  (forall c, p c = true -> q c = true) -> all_chars p s = true -> all_chars q s = true.
Proof.
  intros H. induction s as [|c s IH]; simpl; [done|].
  intros [Hc Hs]%andb_true_iff. by rewrite H, IH.
Qed.

Lemma uint_digits (d : Decimal.uint) : all_chars is_digit (NilEmpty.string_of_uint d) = true.
Proof. induction d; simpl; done. Qed.

(** The digits of a natural number: not empty, no leading zero. *)
Lemma nat_digits (n : N) :
  exists c r, NilZero.string_of_uint (N.to_uint n) = String c r /\
    all_chars is_digit (String c r) = true /\ (is_char 48 c = true -> r = EmptyString).
Proof.
  assert (Hu : Decimal.unorm (N.to_uint n) = N.to_uint n).
  { rewrite <- DecimalN.Unsigned.to_of. by rewrite DecimalN.Unsigned.of_to. }
  destruct (N.to_uint n) as [|d|d|d|d|d|d|d|d|d|d] eqn:E; simpl.
  1: { exists (chr 48), EmptyString. repeat split. }
  1: { exists (chr 48), (NilEmpty.string_of_uint d). split; [done|].
       split; [simpl; apply uint_digits|]. intros _.
       unfold Decimal.unorm in Hu. simpl in Hu.
       destruct (Decimal.nzhead d) eqn:Hd; try discriminate; [by injection Hu as <-|].
       exfalso. apply (f_equal Decimal.nb_digits) in Hu.
       pose proof (DecimalFacts.nb_digits_nzhead d) as Hle. rewrite Hd in Hle.
       simpl in Hu, Hle. lia. }
  all: eexists _, _; split; [reflexivity|]; split; [apply uint_digits|discriminate].
Qed.

Lemma str_of_Z_shape (z : Z) :
  exists (neg : bool) c r, str_of_Z z = (if neg then "-" else "") ^^ String c r /\
    all_chars is_digit (String c r) = true /\ (is_char 48 c = true -> r = EmptyString).
Proof.
  unfold str_of_Z. destruct z as [|p|p]; simpl.
  - exists false, (chr 48), EmptyString. repeat split.
  - destruct (nat_digits (N.pos p)) as (c & r & E & H). exists false, c, r. split; [exact E|exact H].
  - destruct (nat_digits (N.pos p)) as (c & r & E & H). exists true, c, r.
    split; [rewrite append_cons, append_nil_l; f_equal; exact E|exact H].
Qed.

Lemma digit_num_char (c : Ascii.ascii) : is_digit c = true -> is_num_char c = true.
Proof. unfold is_num_char. by intros ->. Qed.

Lemma str_of_Z_num (z : Z) : all_chars is_num_char (str_of_Z z) = true.
Proof.
  destruct (str_of_Z_shape z) as (neg & c & r & -> & Hd & _).
  destruct neg; rewrite ?append_cons, append_nil_l; simpl;
    apply (all_chars_impl _ is_num_char) in Hd; auto using digit_num_char.
Qed.

Lemma parse_num_of_Z (z : Z) : parse_num (str_of_Z z) = Some (JInt z).
Proof.
  pose proof (Z_of_str_of_Z z) as Hz.
  destruct (str_of_Z_shape z) as (neg & c & r & E & Hd & H0). rewrite E in *.
  assert (Hlz : ((1 <? String.length (String c r))%nat && String.prefix "0" (String c r)) = false).
  { destruct (is_char 48 c) eqn:Ec; [rewrite (H0 eq_refl); done|].
    assert (Hp : String.prefix "0" (String c r) = false).
    { clear -Ec. by_char c. }
    rewrite Hp. apply andb_false_r. }
  pose proof (span_digits_all _ Hd) as Hs. unfold parse_num. destruct neg.
  - rewrite append_cons, append_nil_l in *.
    match goal with |- context [is_char 45 ?x] => change (is_char 45 x) with true end.
    cbv iota beta zeta. rewrite Hs, Hlz, Hz. done.
  - rewrite append_nil_l in *.
    assert (Hc : is_char 45 c = false).
    { simpl in Hd. apply andb_true_iff in Hd as [Hd _]. clear -Hd. by_char c. }
    rewrite Hc, Hs, Hlz, Hz. done.
Qed.

(** A number token: number characters, a digit first or after a minus sign. *)
Definition number_token (s : string) : bool :=
  all_chars is_num_char s &&
  match s with
  | String c r => is_digit c || (is_char 45 c && match r with String d _ => is_digit d | EmptyString => false end)
  | EmptyString => false
  end.

(** No keyword and no bracket starts like a number. *)
Lemma number_token_start (s rest : string) :
  number_token s = true ->
  exists c r, s = String c r /\ (is_digit c = true \/ c = chr 45) /\ parse_keyword keywords (s ^^ rest) = None.
Proof.
  intros [_ H]%andb_true_iff. destruct s as [|c r]; [done|]. exists c, r. split; [done|].
  apply orb_true_iff in H as [H|[Hc H]%andb_true_iff].
  - split; [by left|]. rewrite append_cons. clear -H. by_char c.
  - assert (c = chr 45) as -> by (clear -Hc; by_char c). split; [by right|]. destruct r as [|d r]; [done|].
    rewrite !append_cons. clear -H. by_char d.
Qed.

Lemma parse_value_number (f : nat) (tok rest : string) (v : json) :
  number_token tok = true -> parse_num tok = Some v -> stops is_num_char rest ->
  parse_value (S f) (tok ^^ rest) = Some (v, rest).
Proof.
  intros Ht Hp Hr. destruct (number_token_start tok rest Ht) as (c & r & -> & Hc & Hk).
  assert (Hn : span_num (String c r ^^ rest) = (String c r, rest)).
  { apply span_num_all; [|done]. by apply andb_true_iff in Ht as [Ht _]. }
  assert (Hb : is_char 34 c = false /\ is_char 91 c = false /\ is_char 123 c = false).
  { destruct Hc as [Hc| ->]; [|done]. clear -Hc. repeat split; by_char c. }
  destruct Hb as (H1 & H2 & H3). rewrite append_cons in *. cbn [parse_value]. rewrite H1, H2, H3, Hk, Hn. cbn. by rewrite Hp.
Qed.

Lemma number_token_of_Z (z : Z) : number_token (str_of_Z z) = true.
Proof.
  unfold number_token. rewrite str_of_Z_num. destruct (str_of_Z_shape z) as (neg & c & r & -> & Hd & _).
  simpl in Hd. apply andb_true_iff in Hd as [Hd _]. destruct neg; rewrite ?append_cons, append_nil_l; simpl; by rewrite Hd.
Qed.

(** A finite float whose text reads back.  Python's [repr] has this property for
    every float; here it is checked. *)
Definition same_float (x y : float) : bool :=
  match x, y with Fin p, Fin q => (Qnum p =? Qnum q)%Z && (Qden p =? Qden q)%positive | _, _ => false end.

Definition reads_back (x : float) : bool :=
  number_token (repr_float x) &&
  match parse_num (repr_float x) with Some (JFloat y) => same_float x y | _ => false end.

Lemma reads_back_spec (x : float) :
  reads_back x = true -> number_token (repr_float x) = true /\ parse_num (repr_float x) = Some (JFloat x).
Proof.
  intros [Ht Hp]%andb_true_iff. split; [done|]. destruct (parse_num (repr_float x)) as [[]|]; try done.
  destruct x as [| |[n d]], x0 as [| |[n' d']]; try done. cbn in Hp.
  apply andb_true_iff in Hp as [->%Z.eqb_eq ->%Pos.eqb_eq]. done.
Qed.

Lemma parse_esc (c : Ascii.ascii) (r : string) :
  parse_str (esc_char c ^^ r) = '(t, r') ← parse_str r; Some (String c t, r').
Proof. destruct c as [[] [] [] [] [] [] [] []]; reflexivity. Qed.

Lemma parse_str_esc (s rest : string) :
  parse_str (esc_string s ^^ String quote rest) = Some (s, rest).
Proof.
  induction s as [|c s IH]; [done|]. simpl. by rewrite append_assoc, parse_esc, IH.
Qed.

(** Documents whose floats read back and whose objects have unique keys. *)
Fixpoint plain (v : json) : bool :=
  match v with
  | JFloat x => reads_back x
  | JArr l => forallb plain l
  | JObj d => bool_decide (NoDup (dict_keys d)) && forallb (fun kv => plain kv.2) d
  | _ => true
  end.

(** Enough fuel for a document: one unit per value, element and item. *)
Fixpoint size (v : json) : nat :=
  match v with
  | JArr l => S (list_sum (map (fun x => S (size x)) l))
  | JObj d => S (list_sum (map (fun kv => S (size kv.2)) d))
  | _ => 1
  end.

(** What a value starts with: never white space, a closing bracket or nothing. *)
Lemma dumps_head (v : json) (rest : string) :
  plain v = true ->
  exists c r, dumps v ^^ rest = String c r /\ is_ws c = false /\ is_char 93 c = false.
Proof.
  assert (Hnum : forall s, number_token s = true -> exists c r, s ^^ rest = String c r /\ is_ws c = false /\ is_char 93 c = false).
  { intros s Hs. destruct (number_token_start s rest Hs) as (c & r & -> & Hc & _). rewrite append_cons.
    exists c, (r ^^ rest). split; [done|]. destruct Hc as [Hc| ->]; [|done]. clear -Hc. split; by_char c. }
  destruct v as [|[]|z|x|s|l|d]; intros Hp; cbn [dumps].
  4: apply Hnum, number_token_of_Z.
  4: { apply Hnum. cbn in Hp. by apply reads_back_spec in Hp as [? _]. }
  all: do 2 eexists; repeat split.
Qed.

Lemma skip_ws_dumps (v : json) (rest : string) :
  plain v = true -> skip_ws (dumps v ^^ rest) = dumps v ^^ rest.
Proof. intros Hp. destruct (dumps_head v rest Hp) as (c & r & -> & Hc & _). simpl. by rewrite Hc. Qed.

Lemma join_cons2 (sep x y : string) (l : list string) :
  join sep (x :: y :: l) = x ^^ sep ^^ join sep (y :: l).
Proof. reflexivity. Qed.

(** The three parsers on printed text, by induction on the fuel. *)
Definition value_ok (f : nat) : Prop := forall v rest,
  plain v = true -> size v <= f -> stops is_num_char rest ->
  parse_value f (dumps v ^^ rest) = Some (v, rest).

Definition elems_ok (f : nat) : Prop := forall l rest,
  l <> [] -> forallb plain l = true -> list_sum (map (fun x => S (size x)) l) <= f ->
  parse_elems f (join ", " (map dumps l) ^^ "]" ^^ rest) = Some (l, rest).

Definition items_ok (f : nat) : Prop := forall d rest,
  d <> [] -> forallb (fun kv => plain kv.2) d = true ->
  list_sum (map (fun kv : string * json => S (size kv.2)) d) <= f ->
  parse_items f (join ", " (map (fun kv => dumps_str kv.1 ^^ ": " ^^ dumps kv.2) d) ^^ "}" ^^ rest)
  = Some (d, rest).

(** The text after a first element: a comma, a space and the others. *)
Lemma after_value_comma (X : string) :
  match skip_ws (", " ^^ X) with
  | String c r => is_char 93 c = false /\ is_char 125 c = false /\ is_char 44 c = true /\ skip_ws r = skip_ws X
  | EmptyString => False
  end.
Proof. repeat split. Qed.

Lemma parse_elems_last (f : nat) (s r : string) (v : json) :
  parse_value f s = Some (v, "]" ^^ r) -> parse_elems (S f) s = Some ([v], r).
Proof. intros H. cbn [parse_elems]. by rewrite H. Qed.

Lemma parse_elems_more (f : nat) (s r r' : string) (v : json) (l : list json) :
  parse_value f s = Some (v, ", " ^^ r) -> parse_elems f (skip_ws r) = Some (l, r') ->
  parse_elems (S f) s = Some (v :: l, r').
Proof.
  intros H1 H2. cbn [parse_elems]. rewrite H1. cbn [mbind option_bind].
  pose proof (after_value_comma r) as Hc. destruct (skip_ws (", " ^^ r)); [done|].
  destruct Hc as (-> & _ & -> & ->). by rewrite H2.
Qed.

Lemma skip_ws_elems (l : list json) (rest : string) :
  l <> [] -> forallb plain l = true ->
  skip_ws (join ", " (map dumps l) ^^ rest) = join ", " (map dumps l) ^^ rest.
Proof.
  intros Hne Hp. destruct l as [|v [|w l]]; [done| |]; simpl in Hp;
    apply andb_true_iff in Hp as [Hv _]; cbn [map].
  - by apply skip_ws_dumps.
  - rewrite join_cons2, append_assoc. by apply skip_ws_dumps.
Qed.

Lemma elems_step (f : nat) : value_ok f -> elems_ok f -> elems_ok (S f).
Proof.
  intros HV HE [|v l] rest Hne Hp Hs; [done|]. clear Hne.
  simpl in Hp. apply andb_true_iff in Hp as [Hv Hl]. simpl in Hs.
  destruct l as [|w l].
  - apply parse_elems_last. apply HV; [done|lia|done].
  - cbn [map]. rewrite join_cons2, !append_assoc.
    eapply parse_elems_more; [apply HV; [done|lia|done]|].
    rewrite (skip_ws_elems (w :: l)) by done. apply HE; [done|done|simpl in *; lia].
Qed.

Lemma parse_items_last (f : nat) (k r r1 : string) (v : json) :
  parse_value f (skip_ws r1) = Some (v, "}" ^^ r) ->
  parse_items (S f) (dumps_str k ^^ ": " ^^ r1) = Some ([(k, v)], r).
Proof.
  intros H. cbn [parse_items]. unfold dumps_str. rewrite append_cons.
  change (is_char 34 quote) with true. cbv iota.
  rewrite append_assoc. change (char quote ^^ ": " ^^ r1) with (String quote (": " ^^ r1)).
  rewrite parse_str_esc. cbn [mbind option_bind].
  change (skip_ws (": " ^^ r1)) with (String (chr 58) (String (chr 32) r1)).
  change (is_char 58 (chr 58)) with true. cbv iota.
  change (skip_ws (String (chr 32) r1)) with (skip_ws r1). by rewrite H.
Qed.

Lemma parse_items_more (f : nat) (k r r1 r' : string) (v : json) (l : list (string * json)) :
  parse_value f (skip_ws r1) = Some (v, ", " ^^ r) -> parse_items f (skip_ws r) = Some (l, r') ->
  parse_items (S f) (dumps_str k ^^ ": " ^^ r1) = Some ((k, v) :: l, r').
Proof.
  intros H1 H2. cbn [parse_items]. unfold dumps_str. rewrite append_cons.
  change (is_char 34 quote) with true. cbv iota.
  rewrite append_assoc. change (char quote ^^ ": " ^^ r1) with (String quote (": " ^^ r1)).
  rewrite parse_str_esc. cbn [mbind option_bind].
  change (skip_ws (": " ^^ r1)) with (String (chr 58) (String (chr 32) r1)).
  change (is_char 58 (chr 58)) with true. cbv iota.
  change (skip_ws (String (chr 32) r1)) with (skip_ws r1). rewrite H1. cbn [mbind option_bind].
  pose proof (after_value_comma r) as Hc. destruct (skip_ws (", " ^^ r)); [done|].
  destruct Hc as (_ & -> & -> & ->). by rewrite H2.
Qed.

Lemma items_step (f : nat) : value_ok f -> items_ok f -> items_ok (S f).
Proof.
  intros HV HI [|[k v] d] rest Hne Hp Hs; [done|]. clear Hne.
  simpl in Hp. apply andb_true_iff in Hp as [Hv Hd]. simpl in Hs.
  destruct d as [|[k' v'] d].
  - cbn [map]. unfold join; cbn [String.concat fst snd]. rewrite !append_assoc.
    apply parse_items_last. rewrite skip_ws_dumps by done. apply HV; [done|lia|done].
  - cbn [map]. rewrite join_cons2, !append_assoc.
    eapply parse_items_more.
    + rewrite skip_ws_dumps by done. apply HV; [done|simpl; lia|done].
    + set (X := join ", " _ ^^ _). assert (HX : skip_ws X = X).
      { subst X. cbn [map]. destruct d as [|kv d]; [reflexivity|].
        cbn [map]. rewrite join_cons2. reflexivity. }
      rewrite HX. subst X. apply (HI ((k', v') :: d)); [done|done|simpl in *; lia].
Qed.

Lemma value_step (f : nat) : elems_ok f -> items_ok f -> value_ok (S f).
Proof.
  intros HE HI [|[]|z|x|s|l|d] rest Hp Hs Hr; try discriminate; try reflexivity.
  - apply parse_value_number; [apply number_token_of_Z|apply parse_num_of_Z|done].
  - cbn in Hp. apply reads_back_spec in Hp as [? ?]. by apply parse_value_number.
  - cbn [parse_value dumps]. unfold dumps_str. rewrite append_cons.
    change (is_char 34 quote) with true. cbv iota.
    rewrite append_assoc. change (char quote ^^ rest) with (String quote rest).
    by rewrite parse_str_esc.
  - cbn [dumps plain size] in *. destruct l as [|v l]; [reflexivity|].
    cbn [parse_value]. rewrite append_assoc.
    change ("[" ^^ ?x) with (String (chr 91) x).
    change (is_char 34 (chr 91)) with false. change (is_char 91 (chr 91)) with true. cbv iota.
    rewrite append_assoc, (skip_ws_elems (v :: l)) by done.
    pose proof (HE (v :: l) rest ltac:(done) Hp ltac:(lia)) as HE'.
    assert (Hh : exists c r, join ", " (map dumps (v :: l)) ^^ "]" ^^ rest = String c r /\ is_char 93 c = false).
    { simpl in Hp. apply andb_true_iff in Hp as [Hv _]. destruct l as [|w l]; cbn [map].
      - destruct (dumps_head v ("]" ^^ rest) Hv) as (c & r & E & _ & Hc). eauto.
      - rewrite join_cons2, append_assoc.
        destruct (dumps_head v ((", " ^^ join ", " (dumps w :: map dumps l)) ^^ "]" ^^ rest) Hv)
          as (c & r & E & _ & Hc). eauto. }
    destruct Hh as (c & r & E & Hc). rewrite E in *. rewrite Hc. by rewrite HE'.
  - cbn [dumps plain size] in *. apply andb_true_iff in Hp as [Hn Hp].
    apply bool_decide_eq_true in Hn. destruct d as [|[k v] d]; [reflexivity|].
    cbn [parse_value]. rewrite append_assoc.
    change ("{" ^^ ?x) with (String (chr 123) x).
    change (is_char 34 (chr 123)) with false. change (is_char 91 (chr 123)) with false.
    change (is_char 123 (chr 123)) with true. cbv iota. rewrite append_assoc.
    pose proof (HI ((k, v) :: d) rest ltac:(done) Hp ltac:(lia)) as HI'.
    assert (Hh : exists r, join ", " (map (fun kv => dumps_str kv.1 ^^ ": " ^^ dumps kv.2) ((k, v) :: d))
                           ^^ "}" ^^ rest = String quote r).
    { cbn [map]. destruct d as [|kv d]; cbn [map].
      - eexists. reflexivity.
      - rewrite join_cons2. eexists. reflexivity. }
    destruct Hh as (r & E). rewrite E in *.
    change (skip_ws (String quote r)) with (String quote r).
    change (is_char 125 quote) with false. cbv iota. rewrite HI'. cbn [mbind option_bind].
    by rewrite dict_of_items_id.
Qed.

Lemma parsers_ok (f : nat) : value_ok f /\ elems_ok f /\ items_ok f.
Proof.
  induction f as [|f (HV & HE & HI)].
  - split; [|split].
    + intros v rest _ Hs. destruct v; simpl in Hs; lia.
    + intros [|v l] rest Hne _ Hs; [done|simpl in Hs; lia].
    + intros [|kv d] rest Hne _ Hs; [done|simpl in Hs; lia].
  - split; [|split]; [apply value_step|apply elems_step|apply items_step]; done.
Qed.

(** Printed text is long enough to be its own fuel. *)
Lemma length_join (l : list string) :
  list_sum (map String.length l) + 2 * length l <= String.length (join ", " l) + 2.
Proof.
  induction l as [|x [|y l] IH]; [simpl; lia|simpl; lia|].
  rewrite join_cons2. autorewrite with driftless. cbn [map list_sum length] in *. simpl in *. lia.
Qed.

Fixpoint size_le_length (v : json) : plain v = true -> size v <= String.length (dumps v).
Proof.
  destruct v as [|[]|z|x|s|l|d]; intros Hp; try discriminate; try (simpl; lia).
  - cbn [size dumps]. destruct (str_of_Z_shape z) as (neg & c & r & -> & _).
    destruct neg; autorewrite with driftless; simpl; lia.
  - cbn [size dumps]. cbn in Hp. apply reads_back_spec in Hp as [Ht _].
    destruct (number_token_start _ "" Ht) as (c & r & -> & _). simpl. lia.
  - cbn [dumps size]. pose proof (length_join (map dumps l)) as Hj.
    autorewrite with driftless. rewrite length_map in Hj. cbn [plain] in Hp.
    assert (list_sum (map (fun x => S (size x)) l) <= list_sum (map String.length (map dumps l)) + length l).
    { clear Hj. induction l as [|v l IH]; [simpl; lia|]. simpl in Hp.
      apply andb_true_iff in Hp as [Hv Hl]. specialize (IH Hl). specialize (size_le_length v Hv).
      simpl in *. lia. }
    simpl String.length. destruct l; simpl in *; lia.
  - cbn [dumps size]. set (g := fun kv : string * json => dumps_str kv.1 ^^ ": " ^^ dumps kv.2).
    pose proof (length_join (map g d)) as Hj. autorewrite with driftless. rewrite length_map in Hj.
    cbn [plain] in Hp. apply andb_true_iff in Hp as [_ Hp].
    assert (list_sum (map (fun kv : string * json => S (size kv.2)) d)
            <= list_sum (map String.length (map g d)) + length d).
    { clear Hj. induction d as [|[k v] d IH]; [simpl; lia|]. simpl in Hp.
      apply andb_true_iff in Hp as [Hv Hl]. specialize (IH Hl). specialize (size_le_length v Hv).
      simpl in *. subst g. autorewrite with driftless. simpl. lia. }
    simpl String.length. destruct d; simpl in *; lia.
Qed.

(** [json.loads(json.dumps(v)) = v]. *)
Lemma loads_dumps (v : json) : plain v = true -> loads (dumps v) = Some v.
Proof.
  intros Hp. unfold loads. pose proof (skip_ws_dumps v "" Hp) as Hs.
  rewrite append_nil_r in Hs. rewrite Hs.
  destruct (parsers_ok (S (String.length (dumps v)))) as [HV _].
  specialize (HV v "" Hp). rewrite append_nil_r in HV. rewrite HV; [done| |done].
  pose proof (size_le_length v Hp). lia.
Qed.

(** A line read from the file is stripped before it is parsed. *)
Lemma dumps_truthy (v : json) : plain v = true -> truthy (dumps v) = true.
Proof.
  intros Hp. destruct (dumps_head v "" Hp) as (c & r & E & _).
  rewrite append_nil_r in E. by rewrite E.
Qed.

(** ** Printed documents are one line *)

Definition printable (c : Ascii.ascii) : bool := (32 <=? ord c)%N && (ord c <=? 126)%N.

Lemma all_chars_app (p : Ascii.ascii -> bool) (a b : string) :
  all_chars p (a ^^ b) = all_chars p a && all_chars p b.
Proof.
  induction a as [|c a IH]; [by rewrite append_nil_l|]. rewrite append_cons. simpl. by rewrite IH, andb_assoc.
Qed.

Lemma esc_char_printable (c : Ascii.ascii) : all_chars printable (esc_char c) = true.
Proof. destruct c as [[] [] [] [] [] [] [] []]; reflexivity. Qed.

Lemma dumps_str_printable (s : string) : all_chars printable (dumps_str s) = true.
Proof.
  unfold dumps_str. simpl. rewrite all_chars_app. simpl. rewrite andb_true_r.
  induction s as [|c s IH]; [done|]. simpl. by rewrite all_chars_app, esc_char_printable, IH.
Qed.

Lemma num_char_printable (c : Ascii.ascii) : is_num_char c = true -> printable c = true.
Proof. by_char c. Qed.

Lemma join_printable (l : list string) :
  forallb (all_chars printable) l = true -> all_chars printable (join ", " l) = true.
Proof.
  induction l as [|x [|y l] IH]; [done|simpl; by rewrite andb_true_r|].
  intros Hl. rewrite join_cons2, !all_chars_app. cbn [forallb] in *. apply andb_true_iff in Hl as [-> Hl].
  by rewrite (IH Hl).
Qed.

Fixpoint dumps_printable (v : json) : plain v = true -> all_chars printable (dumps v) = true.
Proof.
  destruct v as [|[]|z|x|s|l|d]; intros Hp; try discriminate; try reflexivity.
  - eapply all_chars_impl; [apply num_char_printable|apply str_of_Z_num].
  - cbn in Hp. apply reads_back_spec in Hp as [[Ht _]%andb_true_iff _].
    eapply all_chars_impl; [apply num_char_printable|exact Ht].
  - apply dumps_str_printable.
  - cbn [dumps plain] in *. rewrite !all_chars_app. simpl. rewrite andb_true_r. apply join_printable.
    induction l as [|v l IH]; [done|]. simpl in *. apply andb_true_iff in Hp as [Hv Hl].
    by rewrite (dumps_printable v Hv), IH.
  - cbn [dumps plain] in *. apply andb_true_iff in Hp as [_ Hp].
    rewrite !all_chars_app. simpl. rewrite andb_true_r. apply join_printable.
    induction d as [|[k v] d IH]; [done|]. cbn [map forallb fst snd] in *. apply andb_true_iff in Hp as [Hv Hl].
    rewrite !all_chars_app, dumps_str_printable, (dumps_printable v Hv). by rewrite (IH Hl).
Qed.

Lemma printable_no_newline (s : string) : all_chars printable s = true -> no_char (chr 10) s = true.
Proof.
  induction s as [|c s IH]; [done|]. cbn [all_chars no_char]. intros [Hc Hs]%andb_true_iff. rewrite (IH Hs).
  destruct (Ascii.eqb c (chr 10)) eqn:E; [|done]. apply Ascii.eqb_eq in E as ->. discriminate.
Qed.

Lemma rstrip_end (s : string) (c : Ascii.ascii) : is_space c = false -> rstrip (s ^^ char c) = s ^^ char c.
Proof.
  intros Hc. induction s as [|a s IH].
  - rewrite append_nil_l. simpl. by rewrite Hc.
  - rewrite append_cons. simpl. rewrite IH. by destruct s; rewrite ?append_nil_l, ?append_cons.
Qed.

(** An object's text has no white space around it. *)
Lemma strip_dumps_obj (d : list (string * json)) : strip (dumps (JObj d)) = dumps (JObj d).
Proof.
  cbn [dumps]. unfold strip. rewrite lstrip_fix by done. rewrite <- append_assoc. by apply rstrip_end.
Qed.

(** ** [int(str(z)) = z] *)

Lemma digits_no_space (s : string) : all_chars is_digit s = true -> strip s = s.
Proof.
  intros Hs. unfold strip. rewrite lstrip_fix.
  - induction s as [|c s IH]; [done|]. simpl in *. apply andb_true_iff in Hs as [Hc Hs].
    rewrite IH by done. destruct s; [|done]. destruct (is_space c) eqn:E; [|done].
    exfalso. revert Hc E. clear. by_char c.
  - destruct s as [|c s]; [done|]. simpl in *. apply andb_true_iff in Hs as [Hc _]. revert Hc. by_char c.
Qed.

Lemma drop_underscores_digits (s : string) (b : bool) :
  all_chars is_digit s = true -> (b || truthy s)%bool = true -> drop_underscores b s = Some s.
Proof.
  revert b. induction s as [|c s IH]; intros b; simpl; [rewrite orb_false_r; by intros _ ->|].
  intros [Hc Hs]%andb_true_iff _. by rewrite Hc, IH.
Qed.

Lemma str_of_pos_digits (p : positive) :
  all_chars is_digit (str_of_Z (Zpos p)) = true /\ truthy (str_of_Z (Zpos p)) = true.
Proof.
  unfold str_of_Z. simpl. destruct (nat_digits (N.pos p)) as (c & r & E & Hd & _).
  change (Pos.to_uint p) with (N.to_uint (N.pos p)). rewrite E. done.
Qed.

Lemma int_of_str_of_Z (z : Z) : int_of_str (str_of_Z z) = Some z.
Proof.
  destruct z as [|p|p]; [reflexivity| |].
  - destruct (str_of_pos_digits p) as [Hd Ht]. unfold int_of_str. rewrite digits_no_space by done.
    pose proof (Z_of_str_of_Z (Zpos p)) as Hz. destruct (str_of_Z (Zpos p)) as [|c r] eqn:E; [done|].
    assert (Hc : Ascii.eqb c (chr 45) = false /\ Ascii.eqb c (chr 43) = false).
    { simpl in Hd. apply andb_true_iff in Hd as [Hd _]. split; revert Hd; by_char c. }
    destruct Hc as [-> ->]. rewrite drop_underscores_digits by done. cbn [mbind option_bind]. by rewrite Hz.
  - destruct (str_of_pos_digits p) as [Hd Ht]. unfold int_of_str.
    change (str_of_Z (Zneg p)) with (String (chr 45) (str_of_Z (Zpos p))).
    assert (strip (String (chr 45) (str_of_Z (Zpos p))) = String (chr 45) (str_of_Z (Zpos p))) as ->.
    { pose proof (digits_no_space _ Hd) as Hs. unfold strip in *. rewrite (lstrip_fix (String _ _)) by done.
      rewrite lstrip_fix in Hs; [cbn [rstrip]; rewrite Hs; by destruct (str_of_Z (Zpos p))|].
      destruct (str_of_Z (Zpos p)) as [|c r]; [done|]. simpl in *. apply andb_true_iff in Hd as [Hc _]. revert Hc. by_char c. }
    cbn [Ascii.eqb]. change (Ascii.eqb (chr 45) (chr 45)) with true. cbv iota beta.
    rewrite drop_underscores_digits by done. cbn [mbind option_bind]. by rewrite Z_of_str_of_Z.
Qed.
