(* ===== verification/Draw.v ===== *)
(** * Draw: what the plotting programs hand to matplotlib

    A figure is the list of what is drawn, in the order of the calls; panels are
    numbered from 0.  Positions, heights, colours, labels and captions are kept;
    fonts, line styles, grids, margins and the places of legends are not.
    Captions are kept as the bytes of the source's UTF-8 text.  [num] is Python's
    [int] or [float]. *)

From stdpp Require Import base list strings.
From Stdlib Require Import ZArith QArith.QArith_base.
From S2P Require Import Prelude PyFloat PyStr Json.

Local Open Scope Z_scope.
Local Open Scope driftless_scope.

(** ** Numbers *)

Abbreviation num := (Z + float)%type.

Definition num_float (x : num) : float := match x with inl z => of_Z z | inr f => f end.

(** [a + b], [a * b] and comparisons; an [int] becomes a [float] next to one. *)
Definition num_add (a b : num) : num :=
  match a, b with inl x, inl y => inl (x + y) | _, _ => inr (fadd (num_float a) (num_float b)) end.
Definition num_mul (a b : num) : num :=
  match a, b with inl x, inl y => inl (x * y) | _, _ => inr (fmul (num_float a) (num_float b)) end.

(** Comparisons are exact, also between an [int] and a [float]. *)
Definition num_exact (x : num) : float := match x with inl z => Zval z | inr f => f end.
Definition num_lt (a b : num) : bool := flt (num_exact a) (num_exact b).
Definition num_le (a b : num) : bool := fle (num_exact a) (num_exact b).
Definition num_eq (a b : num) : bool := feq (num_exact a) (num_exact b).

(** [max(a, b)] and [max] of a list that is not empty: the first of the greatest. *)
Definition num_max (a b : num) : num := if num_lt a b then b else a.
Definition num_max_of (a : num) (l : list num) : num := fold_left num_max l a.

Definition num_str (x : num) : string :=
  match x with
  | inl z => str_of_Z z
  | inr NaN => "nan"
  | inr (Inf false) => "inf"
  | inr (Inf true) => "-inf"
  | inr f => repr_float f
  end.

(** ** Figures *)

(** A horizontal position: on the axis, a category, a bar of the last bars, or a
    fraction of the panel. *)
Inductive xpos : Type :=
| XNum (x : num)
| XCat (s : string)
| XBar (i : nat)
| XFrac (x : num).

Inductive artist : Type :=
| SupTitle (s : string)
| Axes (panel : nat) (title xlabel ylabel : string)
| Bars (panel : nat) (xs : list xpos) (width : float) (heights : list num) (colors : list string) (label : string)
| Text (panel : nat) (x : xpos) (y : num) (s : string) (color : string)
| Caption (x y : num) (s : string) (color : string)          (* in fractions of the figure *)
| VLine (panel : nat) (x : num) (color : string)
| HRule (panel : nat) (y : num) (color : string)              (* across the panel *)
| HLine (panel : nat) (y : num) (from to : num) (color : string)
| Point (panel : nat) (x y : num) (color : string)
| Fill (panel : nat) (xs : list num) (ys : list num) (color : string)
| Steps (panel : nat) (xs : list num) (ys : list num) (color label : string)
| Curve (panel : nat) (xs : list num) (ys : list num) (color : string)
| Ticks (panel : nat) (at_ : list num) (labels : list string)
| XLim (panel : nat) (from : num) (to : option num)
| YLim (panel : nat) (from : num) (to : option num)
| Table (panel : nat) (columns : list string) (cells : list (list (string * string))).

Abbreviation figure := (list artist).
