(* ===== verification/Argparse.v ===== *)
(** * Argparse: command lines as the programs declare them

    The part of Python's [argparse] that the command lines use: options with one
    value ([--rate 300], [--rate=300], unambiguous prefixes), positional arguments
    with choices, [-h], [--], and sub-commands.  Parsing ends in the namespace, or in
    [SystemExit] with 0 (help) or 2 (errors).  The texts of help and errors are not
    modelled, and [--option=--], which CPython 3.11 turns into an empty list, is an error
    here. *)

From stdpp Require Import base list strings.
From Stdlib Require Import ZArith.
From S2P Require Import Prelude PyFloat PyStr PyDict Json.

Local Open Scope driftless_scope.

(** ** Declarations *)

Inductive arg_type : Type := TStr | TInt | TFloat.

Inductive arg_value : Type :=
| VNone
| VStr (s : string)
| VInt (z : Z)
| VFloat (x : float).

(** [add_argument("--flag", type=..., default=..., required=...)]. *)
Record opt : Type := Opt { o_flag : string; o_type : arg_type; o_default : arg_value; o_required : bool }.

(** [add_argument("name", choices=...)]; a positional argument. *)
Record pos : Type := Pos { p_name : string; p_choices : option (list string) }.

(** A parser with at most one positional argument. *)
Record parser : Type := Parser { p_options : list opt; p_positional : option pos }.

(** [args.name] of an option: the flag without its dashes, with underscores. *)
Fixpoint underscores (s : string) : string :=
  match s with EmptyString => EmptyString | String c s' => String (if is_char 45 c then chr 95 else c) (underscores s') end.

Definition dest (o : opt) : string := underscores (String.substring 2 (String.length (o_flag o) - 2) (o_flag o)).

Abbreviation namespace := (list (string * arg_value)).

Inductive outcome : Type :=
| Exits (code : Z)
| Args (ns : namespace).

Definition fails : outcome := Exits 2.

(** [_get_value]. *)
Definition convert (t : arg_type) (s : string) : option arg_value :=
  match t with
  | TStr => Some (VStr s)
  | TInt => VInt <$> int_of_str s
  | TFloat => VFloat <$> float_of_str s
  end.

(** ** Classifying the arguments *)

Inductive action : Type := AHelp | AOpt (o : opt).

Inductive token : Type :=
| TArg (s : string)                                                   (* A *)
| TDash                                                               (* -- *)
| TOption (a : action) (flag : string) (explicit : option string)     (* O *)
| TUnknown (s : string).                                              (* O without action *)

Definition option_strings (p : parser) : list (string * action) :=
  [("-h", AHelp); ("--help", AHelp)]%string ++ map (fun o => (o_flag o, AOpt o)) (p_options p).

(** [s.split("=", 1)] of a string with an equals sign. *)
Fixpoint split_eq (s : string) : option (string * string) :=
  match s with
  | EmptyString => None
  | String c s' =>
      if is_char 61 c then Some (EmptyString, s')
      else '(a, b) ← split_eq s'; Some (String c a, b)
  end.

(** [s.startswith(t)]. *)
Definition startswith (s t : string) : bool := String.prefix t s.

(** [-\d+] and [-\d*\.\d+], up to a final newline. *)
Definition negative_number (s : string) : bool :=
  match s with
  | String c r =>
      is_char 45 c &&
      let r := if endswith r newline then String.substring 0 (String.length r - 1) r else r in
      let '(ip, rest) := span_digits r in
      match rest with
      | EmptyString => truthy ip
      | String d rest' => is_char 46 d && (let '(fp, end_) := span_digits rest' in truthy fp && negb (truthy end_))
      end
  | EmptyString => false
  end.

(** [_get_option_tuples] of an argument that starts with a dash and has another character. *)
Definition option_tuples (p : parser) (s : string) : list (action * string * option string) :=
  if startswith s "--" then
    let '(prefix, explicit) := match split_eq s with Some (a, b) => (a, Some b) | None => (s, None) end in
    omap (fun k => if startswith k.1 prefix then Some (k.2, k.1, explicit) else None) (option_strings p)
  else
    let short := String.substring 0 2 s in
    let rest := String.substring 2 (String.length s - 2) s in
    omap (fun k => if String.eqb k.1 short then Some (k.2, k.1, Some rest)
                   else if startswith k.1 s then Some (k.2, k.1, None) else None) (option_strings p).

(** [_parse_optional]; [None] where the option is ambiguous. *)
Definition classify (p : parser) (s : string) : option token :=
  match s with
  | EmptyString => Some (TArg s)
  | String c rest =>
      if negb (is_char 45 c) then Some (TArg s)
      else
        match dict_get (option_strings p) s with
        | Some a => Some (TOption a s None)
        | None =>
            if negb (truthy rest) then Some (TArg s)
            else
              match '(flag, explicit) ← split_eq s; a ← dict_get (option_strings p) flag; Some (a, flag, explicit) with
              | Some (a, flag, explicit) => Some (TOption a flag (Some explicit))
              | None =>
                  match option_tuples p s with
                  | [(a, flag, explicit)] => Some (TOption a flag explicit)
                  | _ :: _ :: _ => None
                  | [] => if negative_number s || contains " " s then Some (TArg s) else Some (TUnknown s)
                  end
              end
        end
  end.

Fixpoint tokens (p : parser) (argv : list string) : option (list token) :=
  match argv with
  | [] => Some []
  | s :: argv' =>
      if String.eqb s "--" then Some (TDash :: map TArg argv')
      else t ← classify p s; ts ← tokens p argv'; Some (t :: ts)
  end.

(** ** Consuming them *)

(** Where parsing stands: the values given, the positional argument if it was given,
    the arguments nobody wants. *)
Record progress : Type := mkProgress { pg_values : namespace; pg_positional : option string; pg_extras : list string }.

Definition extra (pg : progress) (s : string) : progress := mkProgress (pg_values pg) (pg_positional pg) (pg_extras pg ++ [s]).

(** [take_action] of an option with a value; [None] when the value does not convert. *)
Definition store (pg : progress) (o : opt) (s : string) : option progress :=
  v ← convert (o_type o) s;
  Some (mkProgress (dict_set (pg_values pg) (dest o) v) (pg_positional pg) (pg_extras pg)).

Definition take_positional (pg : progress) (q : pos) (s : string) : option progress :=
  if match p_choices q with None => true | Some l => existsb (String.eqb s) l end
  then Some (mkProgress (pg_values pg) (Some s) (pg_extras pg)) else None.

(** [-h] with something attached: more flags of the same kind, or an error. *)
Fixpoint only_h (s : string) : bool :=
  match s with EmptyString => true | String c s' => is_char 104 c && only_h s' end.

Definition help_exit (flag : string) (explicit : option string) : outcome :=
  match explicit with
  | None => Exits 0
  | Some s => if String.eqb flag "-h" && truthy s && only_h s then Exits 0 else fails
  end.

(** The positional argument of a parser while it is not given. *)
Definition awaited (p : parser) (pg : progress) : option pos :=
  match pg_positional pg with None => p_positional p | Some _ => None end.

Fixpoint consume (p : parser) (pg : progress) (ts : list token) : progress + outcome :=
  match ts with
  | [] => inl pg
  | TOption AHelp flag explicit :: _ => inr (help_exit flag explicit)
  | TOption (AOpt o) _ (Some s) :: ts' =>
      if String.eqb s "--" then inr fails
      else match store pg o s with Some pg => consume p pg ts' | None => inr fails end
  | TOption (AOpt o) _ None :: TArg s :: ts' =>
      match store pg o s with Some pg => consume p pg ts' | None => inr fails end
  | TOption (AOpt o) _ None :: _ => inr fails
  | TUnknown s :: ts' => consume p (extra pg s) ts'
  | TDash :: ts' =>
      match awaited p pg, ts' with
      | Some q, TArg s :: ts'' => match take_positional pg q s with Some pg => consume p pg ts'' | None => inr fails end
      | _, _ => consume p (extra pg "--") ts'
      end
  | TArg s :: ts' =>
      match awaited p pg with
      | Some q =>
          match take_positional pg q s with
          | Some pg => match ts' with TDash :: ts'' => consume p pg ts'' | _ => consume p pg ts' end
          | None => inr fails
          end
      | None => consume p (extra pg s) ts'
      end
  end.

(** The namespace: what was given, and the defaults of the rest. *)
Definition finish (p : parser) (pg : progress) : option namespace :=
  let given o := match dict_get (pg_values pg) (dest o) with Some _ => true | None => false end in
  if forallb (fun o => negb (o_required o) || given o) (p_options p) &&
     match p_positional p, pg_positional pg with Some _, None => false | _, _ => true end
  then Some (map (fun o => (dest o, default (o_default o) (dict_get (pg_values pg) (dest o)))) (p_options p)
             ++ match p_positional p, pg_positional pg with Some q, Some s => [(p_name q, VStr s)] | _, _ => [] end)
  else None.

(** [parser.parse_known_args]: the namespace and the extras. *)
Definition parse_known (p : parser) (argv : list string) : (namespace * list string) + outcome :=
  match tokens p argv with
  | None => inr fails
  | Some ts =>
      match consume p (mkProgress [] None []) ts with
      | inr o => inr o
      | inl pg => match finish p pg with Some ns => inl (ns, pg_extras pg) | None => inr fails end
      end
  end.

(** [parser.parse_args]. *)
Definition parse_args (p : parser) (argv : list string) : outcome :=
  match parse_known p argv with
  | inr o => o
  | inl (ns, []) => Args ns
  | inl (_, _ :: _) => fails
  end.

(** ** Sub-commands

    A parser of required sub-commands; the name of the command is [cmd]. *)

Abbreviation commands := (list (string * parser)).

Definition top_parser : parser := Parser [] None.

(** Look for the command among the arguments that the top parser classified. *)
Fixpoint find_command (cmds : commands) (extras : list string) (argv : list string) (ts : list token) : outcome :=
  match ts, argv with
  | TOption _ flag explicit :: _, _ => help_exit flag explicit
  | TUnknown s :: ts', _ :: argv' => find_command cmds (extras ++ [s]) argv' ts'
  | TArg s :: _, _ :: argv' =>
      match dict_get cmds s with
      | None => fails
      | Some p =>
          match parse_known p argv' with
          | inr o => o
          | inl (ns, more) => match extras ++ more with [] => Args (("cmd"%string, VStr s) :: ns) | _ => fails end
          end
      end
  | _, _ => fails
  end.

Definition parse_command (cmds : commands) (argv : list string) : outcome :=
  match tokens top_parser argv with
  | None => fails
  | Some ts => find_command cmds [] argv ts
  end.

(** ** Reading a command line back

    A command line that gives options with their values, in any order, is parsed to
    the last value of each option; the other options have their defaults. *)

(** A value that is not taken for an option. *)
Definition plain (s : string) : bool :=
  match s with String c _ => negb (is_char 45 c) | EmptyString => true end.

(** The command line of some options with their values. *)
Definition command_line (given : list (string * string)) : list string := concat (map (fun g => [g.1; g.2]) given).

(** The last value of an option. *)
Fixpoint last_text (given : list (string * string)) (flag : string) : option string :=
  match given with
  | [] => None
  | (f, s) :: given' =>
      match last_text given' flag with
      | Some t => Some t
      | None => if String.eqb f flag then Some s else None
      end
  end.

(** The value of an option of a command line. *)
Definition chosen (given : list (string * string)) (o : opt) : arg_value :=
  match last_text given (o_flag o) with
  | Some s => default VNone (convert (o_type o) s)
  | None => o_default o
  end.

(** The options of a parser that can be told apart; their flags are arguments that start with a dash. *)
Definition dashed (s : string) : bool :=
  match s with String c (String _ _) => is_char 45 c && negb (String.eqb s "--") | _ => false end.

Record distinct (p : parser) : Prop := {
  distinct_flags : NoDup (map o_flag (p_options p));
  distinct_dests : NoDup (map dest (p_options p));
  distinct_actions : Forall (fun o => dashed (o_flag o) = true /\
    dict_get (option_strings p) (o_flag o) = Some (AOpt o)) (p_options p);
}.

(** Options of the parser, each with a value of its type. *)
Definition options_of (p : parser) (given : list (string * string)) : Prop :=
  Forall (fun g => plain g.2 = true /\
    exists o, o ∈ p_options p /\ o_flag o = g.1 /\ is_Some (convert (o_type o) g.2)) given.

Definition requirements (p : parser) (given : list (string * string)) : Prop :=
  Forall (fun o => o_required o = true -> is_Some (last_text given (o_flag o))) (p_options p).

Lemma plain_not_dashes s : plain s = true -> String.eqb s "--" = false.
Proof. intros H. destruct (String.eqb_spec s "--") as [->|]; [done|done]. Qed.

Lemma classify_plain p s : plain s = true -> classify p s = Some (TArg s).
Proof. destruct s as [|c s]; [done|]. cbn. by intros ->. Qed.

Lemma classify_flag p s a :
  dashed s = true -> dict_get (option_strings p) s = Some a -> classify p s = Some (TOption a s None).
Proof. destruct s as [|c [|d s]]; [done..|]. cbn. intros [-> _]%andb_true_iff. by intros ->. Qed.

(** What the values of a command line are stored as. *)
Definition stored (p : parser) (d : namespace) (g : string * string) : namespace :=
  match dict_get (option_strings p) g.1 with
  | Some (AOpt o) => dict_set d (dest o) (default VNone (convert (o_type o) g.2))
  | _ => d
  end.

Section reading.
Context (p : parser) (Hp : distinct p).

Lemma flag_action o : o ∈ p_options p -> dashed (o_flag o) = true /\ dict_get (option_strings p) (o_flag o) = Some (AOpt o).
Proof. intros Ho. exact (proj1 (Forall_forall _ _) (distinct_actions p Hp) o Ho). Qed.

Lemma tokens_render given rest : options_of p given ->
  tokens p (command_line given ++ rest) =
    ts ← tokens p rest; Some (concat (map (fun g => match dict_get (option_strings p) g.1 with
                                                    | Some a => [TOption a g.1 None; TArg g.2]
                                                    | None => [] end) given) ++ ts).
Proof.
  induction given as [|[f s] given IH]; [intros _; cbn; by destruct (tokens p rest)|].
  intros [(Hs & o & Ho & Hf & _) H]%Forall_cons. cbn in Hs, Hf. subst f. destruct (flag_action o Ho) as [Hd Hg].
  assert (Hn : String.eqb (o_flag o) "--" = false).
  { destruct (String.eqb_spec (o_flag o) "--") as [E|]; [|done]. by rewrite E in Hd. }
  unfold command_line in *. cbn [map concat app fst snd tokens]. rewrite Hn, (classify_flag p _ _ Hd Hg). cbn [mbind option_bind].
  cbn [tokens]. rewrite (plain_not_dashes s Hs), (classify_plain p s Hs). cbn [mbind option_bind].
  rewrite (IH H), Hg. by destruct (tokens p rest).
Qed.

Lemma consume_render given pg ts : options_of p given ->
  consume p pg (concat (map (fun g => match dict_get (option_strings p) g.1 with
                                      | Some a => [TOption a g.1 None; TArg g.2]
                                      | None => [] end) given) ++ ts) =
  consume p (mkProgress (fold_left (stored p) given (pg_values pg)) (pg_positional pg) (pg_extras pg)) ts.
Proof.
  revert pg. induction given as [|[f s] given IH]; intros pg; [by destruct pg|].
  intros [(Hs & o & Ho & Hf & v & Hv) H]%Forall_cons. cbn in Hs, Hf, Hv. subst f. destruct (flag_action o Ho) as [_ Hg].
  cbn [map concat app fst snd fold_left]. unfold stored at 2. cbn [fst snd]. rewrite Hg. cbn [app consume].
  unfold store. rewrite Hv. cbn [mbind option_bind default]. exact (IH _ H).
Qed.

Lemma stored_get given d o : o ∈ p_options p -> options_of p given ->
  dict_get (fold_left (stored p) given d) (dest o) =
    match last_text given (o_flag o) with
    | Some s => Some (default VNone (convert (o_type o) s))
    | None => dict_get d (dest o)
    end.
Proof.
  intros Ho. revert d. induction given as [|[f s] given IH]; intros d; [done|].
  intros [(Hs & o' & Ho' & Hf & _) H]%Forall_cons. cbn in Hf. subst f. destruct (flag_action o' Ho') as [_ Hg].
  cbn [fold_left last_text]. rewrite (IH _ H). destruct (last_text given (o_flag o)) as [t|]; [done|].
  unfold stored. cbn [fst snd]. rewrite Hg, dict_get_set. destruct (String.eqb_spec (o_flag o') (o_flag o)) as [E|N].
  - assert (o' = o) as -> by (eapply (NoDup_map_eq o_flag); [apply Hp|done..]). by rewrite decide_True.
  - rewrite decide_False; [done|]. intros E. apply N. f_equal.
    symmetry. eapply (NoDup_map_eq dest); [apply Hp|done..].
Qed.
End reading.

Lemma last_text_given p given o : options_of p given -> o ∈ p_options p -> NoDup (map o_flag (p_options p)) ->
  forall s, last_text given (o_flag o) = Some s -> is_Some (convert (o_type o) s).
Proof.
  intros H Ho Hn s. induction given as [|[f t] given IH]; [done|].
  apply Forall_cons in H as [(_ & o' & Ho' & Hf & Hv) H]. cbn in Hf, Hv |- *.
  destruct (last_text given (o_flag o)) as [u|]; [by apply IH|].
  destruct (String.eqb_spec f (o_flag o)) as [E|]; [|done]. intros [= <-].
  assert (o' = o) as <- by (eapply (NoDup_map_eq o_flag); [exact Hn|done|done|congruence]). exact Hv.
Qed.

(** What [finish] makes of the values of a command line. *)
Lemma finish_given p given positional extras :
  distinct p -> options_of p given -> requirements p given ->
  finish p (mkProgress (fold_left (stored p) given []) positional extras) =
    match p_positional p, positional with
    | Some _, None => None
    | Some q, Some s => Some (map (fun o => (dest o, chosen given o)) (p_options p) ++ [(p_name q, VStr s)])
    | None, _ => Some (map (fun o => (dest o, chosen given o)) (p_options p))
    end.
Proof.
  intros Hp Hg Hr. unfold finish. cbn [pg_values pg_positional]. set (d := fold_left _ _ _).
  assert (Hd : forall o, o ∈ p_options p -> dict_get d (dest o) =
    (fun s => default VNone (convert (o_type o) s)) <$> last_text given (o_flag o)).
  { intros o Ho. subst d. rewrite (stored_get p Hp given _ o Ho Hg). by destruct (last_text _ _). }
  replace (forallb _ (p_options p)) with true.
  - replace (map _ (p_options p)) with (map (fun o => (dest o, chosen given o)) (p_options p)).
    + destruct (p_positional p), positional; cbn [andb]; rewrite ?app_nil_r; done.
    + apply map_ext_in. intros o Ho%list_elem_of_In. f_equal. rewrite (Hd o Ho). unfold chosen. by destruct (last_text given (o_flag o)).
  - symmetry. apply forallb_forall. intros o Ho%list_elem_of_In. rewrite (Hd o Ho).
    destruct (o_required o) eqn:E; [|done]. by destruct (proj1 (Forall_forall _ _) Hr o Ho E) as [s ->].
Qed.

(** The namespace of a command line of options, without a positional argument. *)
Lemma parse_known_render p given :
  distinct p -> options_of p given -> requirements p given -> p_positional p = None ->
  parse_known p (command_line given) = inl (map (fun o => (dest o, chosen given o)) (p_options p), []).
Proof.
  intros Hp Hg Hr Hq. unfold parse_known. rewrite <- (app_nil_r (command_line given)), (tokens_render p Hp given [] Hg).
  cbn [tokens mbind option_bind]. rewrite (consume_render p Hp given _ [] Hg). cbn [consume pg_values pg_positional pg_extras].
  by rewrite (finish_given p given None [] Hp Hg Hr), Hq.
Qed.

(** The same with a positional argument at the end. *)
Lemma parse_known_positional p q given s :
  distinct p -> options_of p given -> requirements p given -> p_positional p = Some q -> plain s = true ->
  match p_choices q with None => true | Some l => existsb (String.eqb s) l end = true ->
  parse_known p (command_line given ++ [s]) =
    inl (map (fun o => (dest o, chosen given o)) (p_options p) ++ [(p_name q, VStr s)], []).
Proof.
  intros Hp Hg Hr Hq Hs Hc. unfold parse_known. rewrite (tokens_render p Hp given [s] Hg).
  cbn [tokens]. rewrite (plain_not_dashes s Hs), (classify_plain p s Hs). cbn [mbind option_bind tokens].
  rewrite (consume_render p Hp given _ _ Hg). cbn [consume]. unfold awaited, take_positional. cbn [pg_positional pg_values pg_extras].
  rewrite Hq, Hc. cbn [consume pg_values pg_extras].
  by rewrite (finish_given p given (Some s) [] Hp Hg Hr), Hq.
Qed.

Lemma startswith_cons c d s t : startswith (String c s) (String d t) = Ascii.eqb d c && startswith s t.
Proof. unfold startswith. cbn [String.prefix]. destruct (Ascii.ascii_dec d c) as [->|N]; [by rewrite Ascii.eqb_refl|by apply Ascii.eqb_neq in N as ->]. Qed.

(** The top parser does not object to any argument. *)
Lemma classify_top s : is_Some (classify top_parser s).
Proof.
  destruct s as [|c r]; [done|]. cbn [classify]. destruct (is_char 45 c) eqn:Hc; cbn [negb]; [|done].
  destruct (dict_get (option_strings top_parser) (String c r)) eqn:Hg; [done|]. destruct r as [|d r]; [done|]. cbn [truthy negb].
  destruct (split_eq (String c (String d r)) ≫= _) as [[[a f] e]|]; [done|].
  enough (H : (length (option_tuples top_parser (String c (String d r))) <= 1)%nat).
  { destruct (option_tuples _ _) as [|[[a f] e] [|? ?]]; cbn in H; [destruct (negative_number _ || _); by eexists|by eexists|lia]. }
  assert (c = chr 45) as ->.
  { rewrite <- (Ascii.ascii_N_embedding c). unfold is_char, ord in Hc. by apply N.eqb_eq in Hc as ->. }
  unfold option_tuples.
  destruct (startswith _ "--") eqn:Hs.
  - assert (Hd : d = chr 45).
    { rewrite !startswith_cons in Hs. apply andb_true_iff in Hs as [_ [Hd _]%andb_true_iff]. by apply Ascii.eqb_eq in Hd. }
    subst d. cbn [split_eq]. change (is_char 61 (chr 45)) with false. cbv beta iota.
    destruct (split_eq r) as [[a b]|]; cbn [mbind option_bind option_strings top_parser p_options map app omap list_omap fst];
      rewrite !startswith_cons; change (Ascii.eqb (chr 45) (chr 104)) with false; rewrite ?andb_false_r; cbn [andb];
      match goal with |- context [if ?b then _ else _] => destruct b end; cbn; lia.
  - assert (Hd : Ascii.eqb d (Ascii.ascii_of_N 45) = false) by (destruct (Ascii.eqb_spec d (Ascii.ascii_of_N 45)) as [->|]; [by destruct r|done]).
    replace (String.substring 0 2 (String (chr 45) (String d r))) with (String (chr 45) (String d "")) by (by destruct r).
    cbn [option_strings top_parser p_options map app omap list_omap fst]. rewrite !startswith_cons.
    change (Ascii.Ascii true false true true false true false false) with (Ascii.ascii_of_N 45). rewrite Hd.
    cbn [String.eqb]. rewrite (Ascii.eqb_sym (Ascii.ascii_of_N 45) d), Hd. repeat case_match; cbn in *; (lia || done).
Qed.

Lemma tokens_top argv : is_Some (tokens top_parser argv).
Proof.
  induction argv as [|s argv [ts IH]]; [done|]. cbn [tokens]. destruct (String.eqb s "--"); [done|].
  destruct (classify_top s) as [t ->]. by rewrite IH.
Qed.

(** A command and its arguments. *)
Lemma parse_command_known cmds name p argv ns :
  plain name = true -> dict_get cmds name = Some p -> parse_known p argv = inl (ns, []) ->
  parse_command cmds (name :: argv) = Args (("cmd"%string, VStr name) :: ns).
Proof.
  intros Hn Hd Hk. unfold parse_command. destruct (tokens_top argv) as [ts Hts]. cbn [tokens].
  rewrite (plain_not_dashes name Hn), (classify_plain top_parser name Hn), Hts. cbn [mbind option_bind find_command].
  by rewrite Hd, Hk.
Qed.

(** An option whose value does not convert ends the parsing with an error. *)
Lemma parse_known_bad p given o bad rest :
  distinct p -> options_of p given -> o ∈ p_options p -> plain bad = true -> convert (o_type o) bad = None ->
  parse_known p (command_line given ++ o_flag o :: bad :: rest) = inr fails.
Proof.
  intros Hp Hg Ho Hb Hc. unfold parse_known. rewrite (tokens_render p Hp given _ Hg). destruct (flag_action p Hp o Ho) as [Hd Ha].
  assert (Hn : String.eqb (o_flag o) "--" = false).
  { destruct (String.eqb_spec (o_flag o) "--") as [E|]; [|done]. by rewrite E in Hd. }
  cbn [tokens]. rewrite Hn, (classify_flag p _ _ Hd Ha), (plain_not_dashes bad Hb), (classify_plain p bad Hb).
  cbn [mbind option_bind]. destruct (tokens p rest) as [ts|]; cbn [mbind option_bind]; [|done].
  rewrite (consume_render p Hp given _ _ Hg). cbn [consume]. unfold store. by rewrite Hc.
Qed.

Lemma parse_command_bad cmds name p given o bad rest :
  plain name = true -> dict_get cmds name = Some p -> distinct p -> options_of p given -> o ∈ p_options p ->
  plain bad = true -> convert (o_type o) bad = None ->
  parse_command cmds (name :: command_line given ++ o_flag o :: bad :: rest) = fails.
Proof.
  intros Hn Hd Hp Hg Ho Hb Hc. unfold parse_command. destruct (tokens_top (command_line given ++ o_flag o :: bad :: rest)) as [ts Hts].
  cbn [tokens]. rewrite (plain_not_dashes name Hn), (classify_plain top_parser name Hn), Hts. cbn [mbind option_bind find_command].
  by rewrite Hd, (parse_known_bad p given o bad rest).
Qed.

(** Parsers written down are distinct by computation. *)
Definition distinct_bool (p : parser) : bool :=
  bool_decide (NoDup (map o_flag (p_options p))) && bool_decide (NoDup (map dest (p_options p))) &&
  forallb (fun o => dashed (o_flag o)) (p_options p) &&
  negb (existsb (fun o => String.eqb (o_flag o) "-h" || String.eqb (o_flag o) "--help") (p_options p)).

Lemma distinct_by_computation p : distinct_bool p = true -> distinct p.
Proof.
  unfold distinct_bool. rewrite !andb_true_iff. intros [[[H1%bool_decide_eq_true H2%bool_decide_eq_true] H3] H4].
  split; [done..|]. apply Forall_forall. intros o Ho.
  assert (Hd : dashed (o_flag o) = true) by (apply (proj1 (forallb_forall _ _) H3), list_elem_of_In, Ho).
  split; [done|]. unfold option_strings. cbn [app dict_get].
  apply negb_true_iff in H4. assert (Hh : forall s, s = "-h"%string \/ s = "--help"%string -> o_flag o <> s).
  { intros s Hs <-. apply not_true_iff_false in H4. apply H4, existsb_exists. exists o. split; [by apply list_elem_of_In|].
    by destruct Hs as [-> | ->]. }
  rewrite decide_False by (apply Hh; by left). rewrite decide_False by (apply Hh; by right).
  clear H2 H3 H4 Hh Hd. induction (p_options p) as [|o' l IH]; [set_solver|]. cbn [map dict_get].
  apply NoDup_cons in H1 as [Hn Hl]. apply elem_of_cons in Ho as [->|Ho]; [by rewrite decide_True|].
  rewrite decide_False; [by apply IH|]. intros E. apply Hn. rewrite <- E. apply list_elem_of_In, in_map. by apply list_elem_of_In.
Qed.

(** A command without required options or positional arguments. *)
Lemma parse_command_options cmds name p given :
  dict_get cmds name = Some p -> plain name = true -> distinct_bool p = true -> p_positional p = None ->
  forallb (fun o => negb (o_required o)) (p_options p) = true -> options_of p given ->
  parse_command cmds (name :: command_line given) =
    Args (("cmd"%string, VStr name) :: map (fun o => (dest o, chosen given o)) (p_options p)).
Proof.
  intros Hd Hn Hp Hq Hr Hg. apply (parse_command_known _ _ p); [done..|].
  apply parse_known_render; [by apply distinct_by_computation|done| |done].
  apply Forall_forall. intros o Ho Hreq. apply list_elem_of_In in Ho. rewrite forallb_forall in Hr.
  specialize (Hr o Ho). by rewrite Hreq in Hr.
Qed.

Lemma parse_args_options p given :
  distinct_bool p = true -> p_positional p = None -> options_of p given -> requirements p given ->
  parse_args p (command_line given) = Args (map (fun o => (dest o, chosen given o)) (p_options p)).
Proof.
  intros Hp Hq Hg Hr. unfold parse_args. by rewrite (parse_known_render p given (distinct_by_computation p Hp) Hg Hr Hq).
Qed.

(** Command lines written down are checked by computation. *)
Definition options_bool (p : parser) (given : list (string * string)) : bool :=
  forallb (fun g => plain g.2 && existsb (fun o => String.eqb (o_flag o) g.1 &&
    match convert (o_type o) g.2 with Some _ => true | None => false end) (p_options p)) given.

Lemma options_by_computation p given : options_bool p given = true -> options_of p given.
Proof.
  intros H. apply Forall_forall. intros g Hg%list_elem_of_In. unfold options_bool in H. rewrite forallb_forall in H.
  apply H, andb_true_iff in Hg as [Hp (o & Ho & Hf)%existsb_exists]. split; [done|]. exists o.
  apply andb_true_iff in Hf as [Hf%String.eqb_eq Hv]. split; [by apply list_elem_of_In|]. split; [done|]. by destruct (convert _ _).
Qed.
