(* ===== verification/Runtime.v ===== *)
(** * Runtime: exceptions, the outside world and the method monad

    Everything the Python code asks of its surroundings (clocks, sleeping,
    AWS and HTTP clients, random choice, logging, files, thread events) is a
    [call] with a typed answer.  The surroundings are an [Env]: a function from
    the calls made so far and the next call to its answer.  Theorems quantify
    over all environments, so an answer may depend on everything that happened
    before, on other threads and on the remote services; a hypothesis on the
    environment is a hypothesis on its answers.

    A method is a computation in [M S A]: it reads and writes the object state
    [S], extends the log of calls, and returns a value, raises a Python
    exception or runs out of the fuel that bounds its [while] loops.  As in
    Python, what a method did to the state before it raised stays done. *)

From stdpp Require Import base gmap list strings.
From Stdlib Require Import ZArith QArith.QArith_base Lqa.
From S2P Require Import Prelude PyFloat PyStr PyDict Json Draw.


(** ** Exceptions *)

Inductive exn_class : Type :=
| KeyError | ValueError | TypeError | IndexError | ZeroDivisionError | OverflowError
| AttributeError | RuntimeError | TimeoutError | TimeoutExpired
| BotoCoreError
| ClientError (code : string)        (* e.response["Error"]["Code"] *)
| URLError
| OtherError.

(** An exception and its [str()]. *)
Record exn : Type := Exn { exn_cls : exn_class; exn_str : string }.

Inductive res (A : Type) : Type :=
| Ok (a : A)
| Raise (e : exn)
| NoFuel.
Arguments Ok {A} a.
Arguments Raise {A} e.
Arguments NoFuel {A}.

(** [except (BotoCoreError, ClientError)]. *)
Definition is_boto (e : exn) : bool :=
  match exn_cls e with BotoCoreError | ClientError _ => true | _ => false end.

(** ** Documents of the services *)

(** A DynamoDB attribute value; [{"S": ...}], [{"N": ...}], [{"BOOL": ...}]. *)
Inductive attr : Type :=
| AS (s : string)
| AN (s : string)
| ABOOL (b : bool)
| ANull.

(** A DynamoDB item; [item.get(k, {}).get("S")] and its siblings. *)
Abbreviation item := (gmap string attr).

Definition get_S (it : item) (k : string) : option string :=
  match it !! k with Some (AS s) => Some s | _ => None end.
Definition get_N (it : item) (k : string) : option string :=
  match it !! k with Some (AN s) => Some s | _ => None end.
Definition get_BOOL (it : item) (k : string) : option bool :=
  match it !! k with Some (ABOOL b) => Some b | _ => None end.

(** The body of a coordinator's [GET /state]: the keys that are present, with
    the types the coordinator writes; a JSON [null] counts as absent. *)
Record state_doc : Type := StateDoc {
  sd_node_id : option string;
  sd_state : option string;
  sd_current_term : option Z;
  sd_voted_for : option string;
  sd_commit_index : option Z;
  sd_last_applied : option Z;
  sd_log_length : option Z;
  sd_match_index : option (list (string * Z));
  sd_next_index : option (list (string * Z));
}.

(** A CloudWatch metric datum. *)
Record datum : Type := Datum {
  d_name : string;
  d_value : float;
  d_unit : string;
  d_timestamp : string;
  d_dimensions : option (list (string * string));   (* absent when empty *)
}.

(** A CloudWatch log event: [ev["timestamp"]] in ms and [ev.get("message", "")]. *)
Record log_event : Type := LogEvent { le_timestamp : Z; le_message : string }.

(** [BatchGetItem]: keys per table, items per table. *)
Abbreviation key_request := (list (string * list string)).

Inductive log_level : Type := DEBUG | INFO | WARNING | ERROR.

(** ** Calls and answers *)

(** Work handed to a thread pool, and named threads. *)
Inductive job : Type :=
| JSubmit
| JThread (name : string)
| JPoll (task_id : string) (submitted_ns : Z).

Inductive call : Type :=
(* time *)
| CTime                                      (* time.time() *)
| CTimeNs                                    (* time.time_ns() *)
| CMonotonic                                 (* time.monotonic(), loop.time() *)
| CSleep (s : float)                         (* time.sleep, asyncio.sleep *)
| CStrftime (fmt : string)                   (* formatted current date and time *)
(* threading.Event / asyncio.Event *)
| CEventIsSet
| CEventWait (timeout : float)               (* True when set within the timeout *)
| CEventSet
(* concurrent.futures *)
| CSpawn (j : job)                           (* pool.submit *)
| CJoin                                      (* pool.shutdown(wait=True), thread.join *)
| CDoneSet                                   (* bench_done.set() *)
| CDoneWait                                  (* bench_done.wait() *)
(* standard library *)
| CUuid4
| CRandomChoice (n : nat)                    (* index below n *)
| CLog (level : log_level) (msg : string)
| CWrite (text : string)                     (* append to the history file *)
| CReadFile (path : string)                  (* the text of a file *)
| CIsFile (path : string)                    (* os.path.isfile *)
| CDumpJson (path : string) (v : json)       (* json.dump to a file *)
| CPrintJson (v : json)                      (* print(json.dumps(v)) *)
| CStdout (text : string)                    (* sys.stdout.write *)
| CFileSize (path : string)                  (* the size of a file; None when it does not exist *)
| CAppendFile (path text : string)           (* open(path, "a").write(text) *)
| CGlob (dir prefix suffix : string)         (* matching paths with their modification times *)
| CSaveFig (path : string) (fig : figure)    (* plt.savefig; plt.close *)
| CSubprocess (args : list string)           (* subprocess.run: the return code *)
(* HTTP *)
| CHttpState (url : string)                  (* GET url, checked and decoded *)
| CHttpGet (url : string)                    (* GET url, decoded whatever its status *)
(* DynamoDB *)
| CDdbScan (table : string)                  (* resp.get("Items", []) *)
| CDdbScanPages (table filter : string)      (* the pages of a filtered scan *)
| CDdbGetItem (table key id : string)        (* resp.get("Item") *)
| CDdbBatchGet (request : key_request)       (* Responses and UnprocessedKeys *)
| CDdbPutItem (table : string) (it : item)
(* S3, SQS, SNS, ECS, CloudWatch *)
| CS3Put (bucket key body : string)
| CS3ListPage (bucket prefix : string) (token : option string)   (* keys and the next token *)
| CS3Delete (bucket : string) (keys : list string)
| CS3Head (bucket key : string)              (* ContentLength and str(LastModified) *)
| CSqsSend (url body : string)
| CSqsReceive (url : string) (max visibility : Z)   (* receipt handles *)
| CSqsVisibility (url receipt : string) (visibility : Z)
| CSnsPublish (topic subject message : string)
| CEcsListTasks (cluster service : string)
| CEcsStopTask (cluster task reason : string)
| CPutMetricData (namespace : string) (data : list datum)
| CHttpServer (port : Z)                     (* prometheus_client.start_http_server *)
| CFilterLogs (group : string) (start_ms : Z) (prefix pattern : string) (token : option string)
(* prometheus_client gauges: name, label values, value *)
| CGaugeSet (name : string) (labels : list string) (value : Z).

Definition resp (c : call) : Type :=
  match c with
  | CTime | CMonotonic => float
  | CTimeNs => Z
  | CSleep _ | CLog _ _ | CWrite _ | CGaugeSet _ _ _ | CEventSet | CSpawn _ | CJoin | CDoneSet | CDoneWait | CDumpJson _ _ | CPrintJson _ | CStdout _ | CSaveFig _ _ => unit
  | CStrftime _ | CUuid4 => string
  | CEventIsSet | CEventWait _ => bool
  | CRandomChoice _ => nat
  | CReadFile _ => exn + string
  | CIsFile _ => bool
  | CFileSize _ => option Z
  | CGlob _ _ _ => list (string * float)
  | CSubprocess _ => exn + Z
  | CHttpState _ | CHttpGet _ => exn + state_doc
  | CDdbScan _ => exn + list item
  | CDdbScanPages _ _ => exn + list (list item)
  | CDdbGetItem _ _ _ => exn + option item
  | CDdbBatchGet _ => exn + (list (string * list item) * option key_request)
  | CDdbPutItem _ _ | CS3Put _ _ _ | CS3Delete _ _ | CSqsSend _ _ | CSqsVisibility _ _ _
  | CSnsPublish _ _ _ | CEcsStopTask _ _ _ | CPutMetricData _ _ | CHttpServer _
  | CAppendFile _ _ => exn + unit
  | CSqsReceive _ _ _ | CEcsListTasks _ _ => exn + list string
  | CS3ListPage _ _ _ => exn + (list string * option string)
  | CS3Head _ _ => exn + (Z * string)
  | CFilterLogs _ _ _ _ _ => exn + (list log_event * option string)
  end.

Record event : Type := Ev { ev_call : call; ev_resp : resp ev_call }.

Abbreviation history := (list event).

(** The surroundings of a run. *)
Class Env : Type := answer : history -> forall c : call, resp c.

(** An environment of quiet services, from which concrete ones are built. *)
Definition default_answer (c : call) : resp c :=
  match c with
  | CTime | CMonotonic => Fin (0 # 1)
  | CTimeNs => 0%Z
  | CSleep _ | CLog _ _ | CWrite _ | CGaugeSet _ _ _ | CEventSet | CSpawn _ | CJoin | CDoneSet | CDoneWait | CDumpJson _ _ | CPrintJson _ | CStdout _ | CSaveFig _ _ => tt
  | CStrftime _ | CUuid4 => ""%string
  | CEventIsSet | CEventWait _ => true
  | CRandomChoice _ => O
  | CReadFile _ => inr ""%string
  | CIsFile _ => true
  | CFileSize _ => None
  | CGlob _ _ _ => []
  | CSubprocess _ => inr 0%Z
  | CHttpState _ | CHttpGet _ => inl (Exn OtherError "no route"%string)
  | CDdbScan _ | CDdbScanPages _ _ => inr []
  | CDdbGetItem _ _ _ => inr None
  | CDdbBatchGet _ => inr ([], None)
  | CDdbPutItem _ _ | CS3Put _ _ _ | CS3Delete _ _ | CSqsSend _ _ | CSqsVisibility _ _ _
  | CSnsPublish _ _ _ | CEcsStopTask _ _ _ | CPutMetricData _ _ | CHttpServer _
  | CAppendFile _ _ => inr tt
  | CSqsReceive _ _ _ | CEcsListTasks _ _ => inr []
  | CS3ListPage _ _ _ | CFilterLogs _ _ _ _ _ => inr ([], None)
  | CS3Head _ _ => inl (Exn (ClientError "404"%string) "Not Found"%string)
  end.

(** ** The method monad *)

Definition M (S A : Type) : Type := S -> history -> res A * S * history.

#[export] Instance M_ret {S} : MRet (M S) := fun A a s h => (Ok a, s, h).

#[export] Instance M_bind {S} : MBind (M S) := fun A B f m s h =>
  match m s h with
  | (Ok a, s', h') => f a s' h'
  | (Raise e, s', h') => (Raise e, s', h')
  | (NoFuel, s', h') => (NoFuel, s', h')
  end.

Section monad.
Context `{E : Env} {S : Type}.

Definition raise {A} (e : exn) : M S A := fun s h => (Raise e, s, h).
Definition no_fuel {A} : M S A := fun s h => (NoFuel, s, h).

Definition get : M S S := fun s h => (Ok s, s, h).
Definition put (s : S) : M S unit := fun _ h => (Ok tt, s, h).
Definition modify (f : S -> S) : M S unit := fun s h => (Ok tt, f s, h).

(** Make a call; its answer is logged. *)
Definition ask (c : call) : M S (resp c) :=
  fun s h => let r := answer h c in (Ok r, s, h ++ [Ev c r]).

(** Make a call that has no answer. *)
Definition tell (e : event) : M S unit := fun s h => (Ok tt, s, h ++ [e]).
Definition log_msg (level : log_level) (msg : string) : M S unit := tell (Ev (CLog level msg) tt).
Definition sleep (t : float) : M S unit := tell (Ev (CSleep t) tt).
Definition write_file (text : string) : M S unit := tell (Ev (CWrite text) tt).
Definition spawn (j : job) : M S unit := tell (Ev (CSpawn j) tt).
Definition join_threads : M S unit := tell (Ev CJoin tt).
Definition event_set : M S unit := tell (Ev CEventSet tt).
Definition gauge_set (name : string) (labels : list string) (v : Z) : M S unit :=
  tell (Ev (CGaugeSet name labels v) tt).

(** Calls whose answer may be an exception. *)
Definition check {A} (m : M S (exn + A)) : M S A :=
  r ← m; match r with inl e => raise e | inr a => mret a end.

(** [try: m except Exception as e: handler(e)]. *)
Definition try_except {A} (m : M S A) (handler : exn -> M S A) : M S A :=
  fun s h => match m s h with
             | (Raise e, s', h') => handler e s' h'
             | r => r
             end.

(** A [for] loop over a list. *)
Fixpoint for_each {A} (l : list A) (body : A -> M S unit) : M S unit :=
  match l with
  | [] => mret tt
  | a :: l' => body a;; for_each l' body
  end.

(** A [for] loop that threads the local variables of the method. *)
Fixpoint for_fold {A B} (l : list A) (body : B -> A -> M S B) (b : B) : M S B :=
  match l with
  | [] => mret b
  | a :: l' => b' ← body b a; for_fold l' body b'
  end.

(** A list comprehension with effects. *)
Fixpoint map_each {A B} (f : A -> M S B) (l : list A) : M S (list B) :=
  match l with
  | [] => mret []
  | a :: l' => b ← f a; bs ← map_each f l'; mret (b :: bs)
  end.

(** A [while] loop: the body continues with new locals or leaves with a value. *)
Fixpoint while_loop {A B} (fuel : nat) (body : A -> M S (A + B)) (a : A) : M S B :=
  match fuel with
  | O => no_fuel
  | Datatypes.S n => r ← body a; match r with inl a' => while_loop n body a' | inr b => mret b end
  end.

Definition of_option {A} (e : exn) (o : option A) : M S A :=
  match o with Some a => mret a | None => raise e end.
End monad.

(** A method of a component, run on the object that holds the component. *)
Definition zoom {T S A} (view : T -> S) (update : S -> T -> T) (m : M S A) : M T A := fun t h =>
  let '(r, s, h') := m (view t) h in (r, update s t, h').

(** [d[k]] on a dictionary without [k]. *)
Definition key_error (k : string) : exn := Exn KeyError (repr_str k).

(** The calls of a history, without their answers. *)
Definition calls (h : history) : list call := map ev_call h.

(** ** Reasoning about methods

    [wp m Q s h]: run from state [s] and log [h], the method ends in [Q], for
    every outcome.  The rules below follow the structure of a method. *)

Section wp.
Context `{E : Env} {S : Type}.
Implicit Types (s : S) (h : history).

Definition post (A : Type) : Type := res A -> S -> history -> Prop.

Definition wp {A} (m : M S A) (Q : post A) s h : Prop :=
  let '(r, s', h') := m s h in Q r s' h'.

Lemma wp_mono {A} (m : M S A) (Q R : post A) s h :
  (forall r s' h', Q r s' h' -> R r s' h') -> wp m Q s h -> wp m R s h.
Proof. unfold wp. destruct (m s h) as [[r s'] h']. auto. Qed.

Lemma wp_conj {A} (m : M S A) (Q R : post A) s h :
  wp m Q s h -> wp m R s h -> wp m (fun r s' h' => Q r s' h' /\ R r s' h') s h.
Proof. unfold wp. destruct (m s h) as [[r s'] h']. auto. Qed.

(** The outcome of a method, as a fact about its run. *)
Lemma wp_run {A} (m : M S A) (Q : post A) s h r s' h' :
  m s h = (r, s', h') -> wp m Q s h -> Q r s' h'.
Proof. unfold wp. by intros ->. Qed.

(** What a continuation has to establish after each kind of outcome. *)
Definition next {A B} (f : A -> M S B) (Q : post B) : post A := fun r s h =>
  match r with
  | Ok a => wp (f a) Q s h
  | Raise e => Q (Raise e) s h
  | NoFuel => Q NoFuel s h
  end.

Lemma wp_bind {A B} (m : M S A) (f : A -> M S B) (Q : post B) s h :
  wp (m ≫= f) Q s h <-> wp m (next f Q) s h.
Proof.
  unfold wp, next, mbind, M_bind. by destruct (m s h) as [[[a|e|] s'] h'].
Qed.

Lemma wp_ret {A} (a : A) (Q : post A) s h : wp (mret a) Q s h <-> Q (Ok a) s h.
Proof. done. Qed.

Lemma wp_raise {A} e (Q : post A) s h : wp (raise e) Q s h <-> Q (Raise e) s h.
Proof. done. Qed.

Lemma wp_get (Q : post S) s h : wp get Q s h <-> Q (Ok s) s h.
Proof. done. Qed.

Lemma wp_put s0 (Q : post unit) s h : wp (put s0) Q s h <-> Q (Ok tt) s0 h.
Proof. done. Qed.

Lemma wp_modify f (Q : post unit) s h : wp (modify f) Q s h <-> Q (Ok tt) (f s) h.
Proof. done. Qed.

Lemma wp_ask c (Q : post (resp c)) s h :
  wp (ask c) Q s h <-> Q (Ok (answer h c)) s (h ++ [Ev c (answer h c)]).
Proof. done. Qed.

Lemma wp_tell e (Q : post unit) s h : wp (tell e) Q s h <-> Q (Ok tt) s (h ++ [e]).
Proof. done. Qed.

Lemma wp_check {A} (m : M S (exn + A)) (Q : post A) s h :
  wp (check m) Q s h <->
  wp m (fun r s h => match r with
                     | Ok (inr a) => Q (Ok a) s h
                     | Ok (inl e) => Q (Raise e) s h
                     | Raise e => Q (Raise e) s h
                     | NoFuel => Q NoFuel s h
                     end) s h.
Proof.
  unfold check. rewrite wp_bind. unfold wp, next.
  by destruct (m s h) as [[[[e|a]|e|] s'] h'].
Qed.

Lemma wp_try {A} (m : M S A) handler (Q : post A) s h :
  wp (try_except m handler) Q s h <->
  wp m (fun r s h => match r with Raise e => wp (handler e) Q s h | _ => Q r s h end) s h.
Proof. unfold wp, try_except. by destruct (m s h) as [[[a|e|] s'] h']. Qed.

(** Loops: an invariant of the body. *)
Lemma wp_for_each {A} (l : list A) (body : A -> M S unit) (I : list A -> S -> history -> Prop)
    (Q : post unit) s h :
  (forall a l' s h, I (a :: l') s h ->
     wp (body a) (fun r s h => match r with Ok _ => I l' s h | Raise e => Q (Raise e) s h
                               | NoFuel => Q NoFuel s h end) s h) ->
  (forall s h, I [] s h -> Q (Ok tt) s h) ->
  I l s h -> wp (for_each l body) Q s h.
Proof.
  intros Hb He. revert s h. induction l as [|a l IH]; intros s h Hi; [by apply He|].
  simpl. apply wp_bind. eapply wp_mono; [|by apply Hb].
  intros [[]|e|] s' h' H; simpl; auto.
Qed.

Lemma wp_for_fold {A B} (l : list A) (body : B -> A -> M S B)
    (I : list A -> B -> S -> history -> Prop) (Q : post B) b s h :
  (forall a l' b s h, I (a :: l') b s h ->
     wp (body b a) (fun r s h => match r with Ok b' => I l' b' s h | Raise e => Q (Raise e) s h
                                 | NoFuel => Q NoFuel s h end) s h) ->
  (forall b s h, I [] b s h -> Q (Ok b) s h) ->
  I l b s h -> wp (for_fold l body b) Q s h.
Proof.
  intros Hb He. revert b s h. induction l as [|a l IH]; intros b s h Hi; [by apply He|].
  simpl. apply wp_bind. eapply wp_mono; [|by apply Hb].
  intros [b'|e|] s' h' H; simpl; auto.
Qed.

(** A [while] loop with a measure that the body decreases never runs out of
    a larger fuel. *)
Lemma wp_while {A B} (fuel : nat) (body : A -> M S (A + B))
    (I : A -> S -> history -> Prop) (mu : A -> S -> history -> nat) (Q : post B) a s h :
  (forall a s h, I a s h ->
     wp (body a) (fun r s' h' =>
       match r with
       | Ok (inl a') => I a' s' h' /\ mu a' s' h' < mu a s h
       | Ok (inr b) => Q (Ok b) s' h'
       | Raise e => Q (Raise e) s' h'
       | NoFuel => Q NoFuel s' h'
       end) s h) ->
  I a s h -> mu a s h < fuel -> wp (while_loop fuel body a) Q s h.
Proof.
  intros Hb. revert a s h. induction fuel as [|n IH]; intros a s h Hi Hf; [lia|].
  simpl. apply wp_bind. eapply wp_mono; [|by apply Hb].
  intros [[a'|b]|e|] s' h'; simpl; auto.
  intros [Hi' Hm]. apply IH; [done|lia].
Qed.

(** Partial correctness: whatever the fuel. *)
Lemma wp_while_inv {A B} (fuel : nat) (body : A -> M S (A + B))
    (I : A -> S -> history -> Prop) (Q : post B) a s h :
  (forall a s h, I a s h ->
     wp (body a) (fun r s' h' =>
       match r with
       | Ok (inl a') => I a' s' h'
       | Ok (inr b) => Q (Ok b) s' h'
       | Raise e => Q (Raise e) s' h'
       | NoFuel => Q NoFuel s' h'
       end) s h) ->
  (forall a s h, I a s h -> Q NoFuel s h) ->
  I a s h -> wp (while_loop fuel body a) Q s h.
Proof.
  intros Hb Hn. revert a s h. induction fuel as [|n IH]; intros a s h Hi; [by eapply Hn|].
  simpl. apply wp_bind. eapply wp_mono; [|by apply Hb].
  intros [[a'|b]|e|] s' h'; simpl; auto.
Qed.
End wp.

Lemma wp_zoom {T S A} (view : T -> S) (update : S -> T -> T) (m : M S A) (Q : post (S := T) A) t h :
  wp (zoom view update m) Q t h <-> wp m (fun r s' h' => Q r (update s' t) h') (view t) h.
Proof. unfold wp, zoom. by destruct (m (view t) h) as [[r s'] h']. Qed.

(** Symbolic execution: one rule per step, conditionals and matches split. *)
Ltac wp_step :=
  match goal with
  | |- wp (mbind _ _) _ _ _ => apply wp_bind
  | |- wp (mret _) _ _ _ => apply wp_ret
  | |- wp (raise _) _ _ _ => apply wp_raise
  | |- wp get _ _ _ => apply wp_get
  | |- wp (put _) _ _ _ => apply wp_put
  | |- wp (modify _) _ _ _ => apply wp_modify
  | |- wp (ask ?c) ?Q ?s ?h => apply (wp_ask c Q s h)
  | |- wp (tell _) _ _ _ => apply wp_tell
  | |- wp (log_msg _ _) _ _ _ => apply wp_tell
  | |- wp (sleep _) _ _ _ => apply wp_tell
  | |- wp (write_file _) _ _ _ => apply wp_tell
  | |- wp (gauge_set _ _ _) _ _ _ => apply wp_tell
  | |- wp (spawn _) _ _ _ => apply wp_tell
  | |- wp join_threads _ _ _ => apply wp_tell
  | |- wp event_set _ _ _ => apply wp_tell
  | |- wp (check _) _ _ _ => apply wp_check
  | |- wp (try_except _ _) _ _ _ => apply wp_try
  | |- wp (zoom _ _ _) _ _ _ => apply wp_zoom
  | |- next _ _ (Ok _) _ _ => unfold next
  | |- next _ _ (Raise _) _ _ => unfold next
  | |- next _ _ NoFuel _ _ => unfold next
  end; cbv beta iota.

Ltac wp_steps := cbv beta iota; repeat wp_step.

(** ** The log only grows *)

Class Extends `{Env} {S A} (m : M S A) : Prop :=
  extends : forall s h, exists l, (m s h).2 = h ++ l.

Section extends.
Context `{E : Env} {S : Type}.

#[export] Instance ext_ret {A} (a : A) : Extends (S := S) (mret a).
Proof. intros s h. exists []. by rewrite app_nil_r. Qed.
#[export] Instance ext_raise {A} e : Extends (S := S) (A := A) (raise e).
Proof. intros s h. exists []. by rewrite app_nil_r. Qed.
#[export] Instance ext_get : Extends (S := S) get.
Proof. intros s h. exists []. by rewrite app_nil_r. Qed.
#[export] Instance ext_put (s0 : S) : Extends (put s0).
Proof. intros s h. exists []. by rewrite app_nil_r. Qed.
#[export] Instance ext_modify (f : S -> S) : Extends (modify f).
Proof. intros s h. exists []. by rewrite app_nil_r. Qed.
#[export] Instance ext_tell e : Extends (S := S) (tell e).
Proof. intros s h. by eexists. Qed.
#[export] Instance ext_log level msg : Extends (S := S) (log_msg level msg) := ext_tell _.
#[export] Instance ext_sleep t : Extends (S := S) (sleep t) := ext_tell _.
#[export] Instance ext_write text : Extends (S := S) (write_file text) := ext_tell _.
#[export] Instance ext_gauge name labels v : Extends (S := S) (gauge_set name labels v) := ext_tell _.
#[export] Instance ext_ask c : Extends (S := S) (ask c).
Proof. intros s h. by eexists. Qed.

#[export] Instance ext_bind {A B} (m : M S A) (f : A -> M S B) :
  Extends m -> (forall a, Extends (f a)) -> Extends (m ≫= f).
Proof.
  intros Hm Hf s h. unfold mbind, M_bind. destruct (Hm s h) as [l Hl].
  destruct (m s h) as [[[a|e|] s'] h']; simpl in *; subst; [|by eexists..].
  destruct (Hf a s' (h ++ l)) as [l' Hl']. exists (l ++ l'). by rewrite Hl', app_assoc.
Qed.

#[export] Instance ext_check {A} (m : M S (exn + A)) : Extends m -> Extends (check m).
Proof. intros Hm. apply ext_bind; [done|]. intros [e|a]; apply _. Qed.

#[export] Instance ext_try {A} (m : M S A) handler :
  Extends m -> (forall e, Extends (handler e)) -> Extends (try_except m handler).
Proof.
  intros Hm Hh s h. unfold try_except. destruct (Hm s h) as [l Hl].
  destruct (m s h) as [[[a|e|] s'] h']; simpl in *; subst; [by eexists| |by eexists].
  destruct (Hh e s' (h ++ l)) as [l' Hl']. exists (l ++ l'). by rewrite Hl', app_assoc.
Qed.

#[export] Instance ext_for_each {A} (l : list A) body :
  (forall a, Extends (body a)) -> Extends (S := S) (for_each l body).
Proof. intros Hb. induction l; simpl; apply _. Qed.

#[export] Instance ext_for_fold {A B} (l : list A) (body : B -> A -> M S B) b :
  (forall b a, Extends (body b a)) -> Extends (for_fold l body b).
Proof. intros Hb. revert b. induction l; intros b; simpl; apply _. Qed.

#[export] Instance ext_map_each {A B} (l : list A) (f : A -> M S B) :
  (forall a, Extends (f a)) -> Extends (map_each f l).
Proof. intros Hb. induction l; simpl; apply _. Qed.

#[export] Instance ext_while {A B} fuel (body : A -> M S (A + B)) a :
  (forall a, Extends (body a)) -> Extends (while_loop fuel body a).
Proof.
  intros Hb. revert a. induction fuel as [|n IH]; intros a; simpl.
  - intros s h. exists []. by rewrite app_nil_r.
  - apply ext_bind; [done|]. intros [a'|b]; apply _.
Qed.
End extends.

(** ** Clock readings in a log *)

Definition mono_reading (e : event) : option float :=
  match e with
  | Ev c r => match c as c' return resp c' -> option float with
              | CMonotonic => fun r => Some r
              | _ => fun _ => None
              end r
  end.

(** The readings of [time.monotonic()], in order. *)
Definition mono_readings (h : history) : list float := omap mono_reading h.

Lemma mono_readings_app h1 h2 : mono_readings (h1 ++ h2) = mono_readings h1 ++ mono_readings h2.
Proof. apply omap_app. Qed.

(** Finite readings from [lo] on that never go back, the documented behaviour
    of the clock. *)
Fixpoint ascending (lo : Q) (rs : list float) : bool :=
  match rs with
  | [] => true
  | Fin q :: rs' => Qle_bool lo q && ascending q rs'
  | _ => false
  end.

Lemma ascending_elem lo rs x :
  ascending lo rs = true -> x ∈ rs -> exists q, x = Fin q /\ (lo <= q)%Q.
Proof.
  revert lo. induction rs as [|[|b|q] rs IH]; intros lo H Hx; try discriminate; [inv Hx|].
  simpl in H. apply andb_true_iff in H as [H1 H2]. apply Qle_bool_iff in H1.
  apply elem_of_cons in Hx as [->|Hx]; [eauto|].
  destruct (IH q H2 Hx) as (p & -> & Hp). exists p. split; [done|]. eapply Qle_trans; eassumption.
Qed.

Lemma ascending_snoc lo rs x :
  ascending lo (rs ++ [x]) = true ->
  ascending lo rs = true /\ exists q, x = Fin q /\ (lo <= q)%Q /\ forall p, Fin p ∈ rs -> (p <= q)%Q.
Proof.
  revert lo. induction rs as [|[|b|q] rs IH]; intros lo H; try discriminate.
  - destruct x as [|b|q]; try discriminate. simpl in H. rewrite andb_true_r in H.
    apply Qle_bool_iff in H. split; [done|]. exists q. repeat split; [done|]. intros p Hp. inv Hp.
  - simpl in H. apply andb_true_iff in H as [H1 H2]. destruct (IH q H2) as (H3 & q' & -> & H4 & H5).
    simpl. rewrite H1. split; [done|]. apply Qle_bool_iff in H1.
    exists q'. split; [done|]. split; [eapply Qle_trans; eassumption|].
    intros p [Hp|Hp]%elem_of_cons; [by simplify_eq|auto].
Qed.

Lemma ascending_app lo rs1 rs2 : ascending lo (rs1 ++ rs2) = true -> ascending lo rs1 = true.
Proof.
  revert lo. induction rs1 as [|[|b|q] rs1 IH]; intros lo H; try done.
  simpl in *. apply andb_true_iff in H as [-> H]. by apply IH in H.
Qed.

(** Shows that a method extends the log, following its structure. *)
Ltac ext_auto :=
  repeat first
    [ apply _
    | apply ext_ask
    | apply ext_tell
    | apply ext_bind; [|intros ?]
    | apply ext_check
    | apply ext_try; [|intros ?]
    | apply ext_for_each; intros ?
    | apply ext_for_fold; intros ? ?
    | apply ext_map_each; intros ?
    | apply ext_while; intros ?
    | match goal with |- context [match ?x with _ => _ end] => destruct x end
    | progress cbv beta iota zeta ].

(** ** Clocks and deadlines

    Sleeping takes time: a sleep or a timed-out wait of at least [d] seconds moves
    a clock on by at least half of it (clocks may be adjusted and have a
    resolution).  A loop that sleeps until a deadline then ends. *)

Definition pause (d : Q) (e : event) : bool :=
  match e with
  | Ev c r => match c as c' return resp c' -> bool with
              | CSleep (Fin t) => fun _ => Qle_bool d t
              | CEventWait (Fin t) => fun set => negb set && Qle_bool d t
              | _ => fun _ => false
              end r
  end.

Definition pauses (d : Q) (h : history) : nat := count (pause d) h.

Definition steady (clock : history -> float) : Prop :=
  forall h l d, (0 <= d)%Q ->
    exists p q, clock h = Fin p /\ clock (h ++ l) = Fin q /\
      (p + d * (1 # 2) * inject_Z (Z.of_nat (pauses d l)) <= q)%Q.

(** A deadline taken at [h] with time-out [t] is past after [n] pauses of [d]. *)
Lemma deadline_after (clock : history -> float) (h l : history) (p t d : Q) (n : nat) :
  steady clock -> clock h = Fin p -> (0 <= p)%Q -> (0 <= t)%Q -> (p + t <= inject_Z (2 ^ 52))%Q ->
  (0 <= d)%Q -> (t + 1 <= d * (1 # 2) * inject_Z (Z.of_nat n))%Q -> n <= pauses d l ->
  flt (clock (h ++ l)) (fadd (Fin p) (Fin t)) = false.
Proof.
  intros Hs Hp H0 Ht Hb Hd Hn Hl. destruct (Hs h l d Hd) as (p' & q & E & -> & Hq).
  rewrite Hp in E. injection E as <-. apply deadline_past; try done.
  assert (d * (1 # 2) * inject_Z (Z.of_nat n) <= d * (1 # 2) * inject_Z (Z.of_nat (pauses d l)))%Q.
  { assert (Hk : (inject_Z (Z.of_nat n) <= inject_Z (Z.of_nat (pauses d l)))%Q) by (rewrite <- Zle_Qle; lia).
    nra. }
  lra.
Qed.

(** Adjacent readings never go back. *)
Lemma steady_mono (clock : history -> float) h l : steady clock -> fle (clock h) (clock (h ++ l)) = true.
Proof.
  intros Hs. destruct (Hs h l 0%Q ltac:(discriminate)) as (p & q & -> & -> & H).
  apply Qle_bool_iff. lra.
Qed.

Local Open Scope Z_scope.

(** Time spent in the sleeps and timed-out waits of a log. *)
Definition pause_length (e : event) : Q :=
  match e with
  | Ev c r => match c as c' return resp c' -> Q with
              | CSleep (Fin t) => fun _ => if Qle_bool 0 t then t else 0%Q
              | CEventWait (Fin t) => fun set => if set then 0%Q else if Qle_bool 0 t then t else 0%Q
              | _ => fun _ => 0%Q
              end r
  end.

Definition paused (h : history) : Q := foldr (fun e q => pause_length e + q)%Q 0%Q h.

(** An environment in which exactly the pauses take time. *)
Definition pausing_env (start : Q) : Env := fun h c =>
  match c as c' return resp c' with
  | CMonotonic | CTime => Fin (start + paused h)
  | CEventIsSet | CEventWait _ => false
  | c' => default_answer c'
  end.

Lemma paused_app h l : (paused (h ++ l) == paused h + paused l)%Q.
Proof. induction h as [|e h IH]; simpl; [lra|]. rewrite IH. lra. Qed.

Lemma pause_time d t : (0 <= d)%Q ->
  (0 <= if Qle_bool 0 t then t else 0)%Q /\ (Qle_bool d t = true -> (d <= if Qle_bool 0 t then t else 0)%Q).
Proof.
  intros Hd. destruct (Qle_bool 0 t) eqn:E.
  - apply Qle_bool_iff in E. split; [done|]. by intros H%Qle_bool_iff.
  - split; [apply Qle_refl|]. intros H%Qle_bool_iff. exfalso.
    assert (Qle_bool 0 t = true) by (apply Qle_bool_iff; lra). congruence.
Qed.

Lemma pause_length_ge d e : (0 <= d)%Q -> (0 <= pause_length e)%Q /\ (pause d e = true -> (d <= pause_length e)%Q).
Proof.
  intros Hd. destruct e as [c r]. destruct c; simpl; try (split; [apply Qle_refl|done]).
  - destruct s; simpl; try (split; [apply Qle_refl|done]). by apply pause_time.
  - destruct timeout; simpl; try (split; [apply Qle_refl|done]).
    destruct r; simpl; [split; [apply Qle_refl|done]|]. by apply pause_time.
Qed.

Lemma paused_ge d l : (0 <= d)%Q -> (d * inject_Z (Z.of_nat (pauses d l)) <= paused l)%Q.
Proof.
  intros Hd. induction l as [|e l IH]; [change (d * 0 <= 0)%Q; lra|].
  unfold pauses in *. rewrite count_cons, Nat2Z.inj_add, inject_Z_plus. simpl paused.
  destruct (pause_length_ge d e Hd) as [H1 H2]. destruct (pause d e).
  - specialize (H2 eq_refl). assert (C : (inject_Z (Z.of_nat 1) == 1)%Q) by reflexivity. rewrite C. lra.
  - assert (C : (inject_Z (Z.of_nat 0) == 0)%Q) by reflexivity. rewrite C. lra.
Qed.

Lemma pausing_steady start : steady (fun h => Fin (start + paused h)).
Proof.
  intros h l d Hd. eexists _, _. split; [done|]. split; [done|].
  rewrite paused_app. pose proof (paused_ge d l Hd).
  assert (0 <= inject_Z (Z.of_nat (pauses d l)))%Q by (change 0%Q with (inject_Z 0); rewrite <- Zle_Qle; lia).
  nra.
Qed.

Local Close Scope Z_scope.

(** ** Methods without loops do not run out of fuel *)

Class Total {S A} (m : M S A) : Prop := total : forall s h, (m s h).1.1 <> NoFuel.

Section total.
Context `{E : Env} {S : Type}.

#[export] Instance total_ret {A} (a : A) : Total (S := S) (mret a).
Proof. done. Qed.
#[export] Instance total_raise {A} e : Total (S := S) (A := A) (raise e).
Proof. done. Qed.
#[export] Instance total_get : Total (S := S) get.
Proof. done. Qed.
#[export] Instance total_put (s0 : S) : Total (put s0).
Proof. done. Qed.
#[export] Instance total_modify (f : S -> S) : Total (modify f).
Proof. done. Qed.
#[export] Instance total_tell e : Total (S := S) (tell e).
Proof. done. Qed.
#[export] Instance total_log level msg : Total (S := S) (log_msg level msg) := total_tell _.
#[export] Instance total_sleep t : Total (S := S) (sleep t) := total_tell _.
#[export] Instance total_write text : Total (S := S) (write_file text) := total_tell _.
#[export] Instance total_gauge name labels v : Total (S := S) (gauge_set name labels v) := total_tell _.
#[export] Instance total_ask c : Total (S := S) (ask c).
Proof. done. Qed.

#[export] Instance total_bind {A B} (m : M S A) (f : A -> M S B) :
  Total m -> (forall a, Total (f a)) -> Total (m ≫= f).
Proof.
  intros Hm Hf s h. unfold mbind, M_bind. specialize (Hm s h).
  destruct (m s h) as [[[a|e|] s'] h']; [apply Hf|done|done].
Qed.

#[export] Instance total_check {A} (m : M S (exn + A)) : Total m -> Total (check m).
Proof. intros Hm. apply total_bind; [done|]. intros [e|a]; apply _. Qed.

#[export] Instance total_of_option {A} e (o : option A) : Total (S := S) (of_option e o).
Proof. destruct o; apply _. Qed.

#[export] Instance total_try {A} (m : M S A) handler :
  Total m -> (forall e, Total (handler e)) -> Total (try_except m handler).
Proof.
  intros Hm Hh s h. unfold try_except. specialize (Hm s h).
  destruct (m s h) as [[[a|e|] s'] h']; [done|apply Hh|done].
Qed.

#[export] Instance total_for_each {A} (l : list A) body :
  (forall a, Total (body a)) -> Total (S := S) (for_each l body).
Proof. intros Hb. induction l; simpl; apply _. Qed.

#[export] Instance total_for_fold {A B} (l : list A) (body : B -> A -> M S B) b :
  (forall b a, Total (body b a)) -> Total (for_fold l body b).
Proof. intros Hb. revert b. induction l; intros b; simpl; apply _. Qed.

#[export] Instance total_map_each {A B} (l : list A) (f : A -> M S B) :
  (forall a, Total (f a)) -> Total (map_each f l).
Proof. intros Hb. induction l; simpl; apply _. Qed.

#[export] Instance total_zoom {T A} (view : S -> T) update (m : M T A) :
  Total m -> Total (zoom view update m).
Proof.
  intros Hm s h. unfold zoom. specialize (Hm (view s) h). by destruct (m (view s) h) as [[[a|e|] s'] h'].
Qed.
End total.

Ltac total_auto :=
  repeat first
    [ apply _
    | match goal with |- Total (ask ?c) => exact (total_ask c) end
    | apply total_tell
    | apply total_bind; [|intros ?]
    | apply total_check
    | apply total_try; [|intros ?]
    | apply total_for_each; intros ?
    | apply total_for_fold; intros ? ?
    | apply total_map_each; intros ?
    | apply total_zoom
    | match goal with |- context [match ?x with _ => _ end] => destruct x end
    | progress cbv beta iota zeta ].

(** A caught and logged failure: the method always returns. *)
Lemma try_log_ok `{E : Env} {S} (m : M S unit) (level : log_level) (text : exn -> string) s h :
  Total m -> (try_except m (fun exc => log_msg level (text exc)) s h).1.1 = Ok tt.
Proof. intros Hm. unfold try_except. specialize (Hm s h). by destruct (m s h) as [[[[]|e|] s'] h']. Qed.

(** ** Pure code that may raise *)

#[export] Instance res_ret : MRet res := fun A a => Ok a.
#[export] Instance res_bind : MBind res := fun A B f m =>
  match m with Ok a => f a | Raise e => Raise e | NoFuel => NoFuel end.

Definition res_of_option {A} (e : exn) (o : option A) : res A :=
  match o with Some a => Ok a | None => Raise e end.

(** A [for] loop over a list that updates local variables. *)
Fixpoint fold_res {A B} (f : B -> A -> res B) (b : B) (l : list A) : res B :=
  match l with
  | [] => mret b
  | a :: l' => b' ← f b a; fold_res f b' l'
  end.

Lemma fold_res_app {A B} (f : B -> A -> res B) b l1 l2 :
  fold_res f b (l1 ++ l2) = (b' ← fold_res f b l1; fold_res f b' l2).
Proof.
  revert b. induction l1 as [|a l1 IH]; intros b; [done|]. simpl.
  destruct (f b a) as [b'|e|]; simpl; [apply IH|done|done].
Qed.

(** A loop whose body never raises is a fold. *)
Lemma fold_res_pure {A B} (f : B -> A -> res B) (g : B -> A -> B) b l :
  (forall b a, f b a = Ok (g b a)) -> fold_res f b l = Ok (fold_left g l b).
Proof. intros H. revert b. induction l as [|a l IH]; intros b; simpl; [done|]. rewrite H. apply IH. Qed.

(** A list comprehension that may raise. *)
Fixpoint map_res {A B} (f : A -> res B) (l : list A) : res (list B) :=
  match l with
  | [] => mret []
  | a :: l' => b ← f a; bs ← map_res f l'; mret (b :: bs)
  end.

Lemma map_res_ok {A B} (f : A -> res B) (g : A -> B) l : (forall a, a ∈ l -> f a = Ok (g a)) -> map_res f l = Ok (map g l).
Proof.
  induction l as [|a l IH]; intros H; [done|]. cbn [map_res map]. rewrite H by by left.
  rewrite IH by (intros; apply H; by right). done.
Qed.

(** Code that returns a value of a kind. *)
Definition returns {A} (P : A -> Prop) (r : res A) : Prop := exists a, r = Ok a /\ P a.
Definition any {A} (a : A) : Prop := True.

Lemma returns_ret {A} (P : A -> Prop) (a : A) : P a -> returns P (mret a).
Proof. intros H. by exists a. Qed.

Lemma returns_bind {A B} (P : A -> Prop) (Q : B -> Prop) (m : res A) (f : A -> res B) :
  returns P m -> (forall a, P a -> returns Q (f a)) -> returns Q (mbind f m).
Proof. intros (a & -> & Ha) Hf. by apply Hf. Qed.

Lemma returns_map {A B} (P : B -> Prop) (f : A -> res B) l :
  (forall a, a ∈ l -> returns P (f a)) -> returns (Forall P) (map_res f l).
Proof.
  induction l as [|a l IH]; intros H; [by apply returns_ret|]. cbn [map_res].
  apply (returns_bind P); [apply H; by left|]. intros b Hb. apply (returns_bind (Forall P)).
  - apply IH. intros x Hx. apply H. by right.
  - intros bs Hbs. by apply returns_ret, Forall_cons.
Qed.

(** A pure computation as a method. *)
Definition lift {S A} (r : res A) : M S A := fun s h => (r, s, h).

(** The outcome of a method that keeps the state, as an equation. *)
Lemma run_of_wp `{E : Env} {S A} (m : M S A) (P : res A -> history -> Prop) s h :
  wp m (fun r s' h' => s' = s /\ exists l, h' = h ++ l /\ P r l) s h ->
  exists r l, m s h = (r, s, h ++ l) /\ P r l.
Proof. unfold wp. destruct (m s h) as [[r s'] h']. intros (-> & l & -> & H). by exists r, l. Qed.

(** [kept P s h]: the state is [s] and the log grew from [h] by what [P] allows. *)
Ltac kept := split; [done|]; eexists; split; [repeat rewrite <- app_assoc; reflexivity|].

(** A log of calls that satisfy [p] satisfies what follows from it. *)
Lemma calls_weaken (p q : call -> bool) (l : history) :
  (forall c, p c = true -> q c = true) ->
  forallb (fun e => p (ev_call e)) l = true -> forallb (fun e => q (ev_call e)) l = true.
Proof. intros H. rewrite !forallb_forall. auto. Qed.

(** ** Which calls a method makes

    [Only p m]: the method leaves the object state alone and makes only calls
    that satisfy [p]. *)

Class Only `{E : Env} (p : call -> bool) {S A} (m : M S A) : Prop :=
  only_run : forall s h, exists r l, m s h = (r, s, h ++ l) /\ forallb (fun e => p (ev_call e)) l = true.

Section only.
Context `{E : Env} (p : call -> bool) {S : Type}.

Lemma only_ret {A} (a : A) : Only p (S := S) (mret a).
Proof. intros s h. exists (Ok a), []. by rewrite app_nil_r. Qed.

Lemma only_raise {A} e : Only p (S := S) (A := A) (raise e).
Proof. intros s h. exists (Raise e), []. by rewrite app_nil_r. Qed.

Lemma only_lift {A} (r : res A) : Only p (S := S) (lift r).
Proof. intros s h. exists r, []. by rewrite app_nil_r. Qed.

Lemma only_no_fuel {A} : Only p (S := S) (A := A) no_fuel.
Proof. intros s h. exists NoFuel, []. by rewrite app_nil_r. Qed.

Lemma only_ask c : p c = true -> Only p (S := S) (ask c).
Proof. intros Hc s h. eexists _, _. split; [done|]. simpl. by rewrite Hc. Qed.

Lemma only_tell e : p (ev_call e) = true -> Only p (S := S) (tell e).
Proof. intros Hc s h. eexists _, _. split; [done|]. simpl. by rewrite Hc. Qed.

Lemma only_bind {A B} (m : M S A) (f : A -> M S B) : Only p m -> (forall a, Only p (f a)) -> Only p (m ≫= f).
Proof.
  intros Hm Hf s h. destruct (Hm s h) as (r & l & H & Hl). unfold mbind, M_bind. rewrite H.
  destruct r as [a|e|]; [|by eexists _, _..].
  destruct (Hf a s (h ++ l)) as (r & l' & H' & Hl'). rewrite H'. exists r, (l ++ l').
  by rewrite app_assoc, forallb_app, Hl, Hl'.
Qed.

Lemma only_check {A} (m : M S (exn + A)) : Only p m -> Only p (check m).
Proof. intros Hm. apply only_bind; [done|]. intros [e|a]; [apply only_raise|apply only_ret]. Qed.

Lemma only_of_option {A} e (o : option A) : Only p (S := S) (of_option e o).
Proof. destruct o; [apply only_ret|apply only_raise]. Qed.

Lemma only_try {A} (m : M S A) handler : Only p m -> (forall e, Only p (handler e)) -> Only p (try_except m handler).
Proof.
  intros Hm Hh s h. destruct (Hm s h) as (r & l & H & Hl). unfold try_except. rewrite H.
  destruct r as [a|e|]; [by eexists _, _| |by eexists _, _].
  destruct (Hh e s (h ++ l)) as (r & l' & H' & Hl'). rewrite H'. exists r, (l ++ l').
  by rewrite app_assoc, forallb_app, Hl, Hl'.
Qed.

Lemma only_for_each {A} (l : list A) body : (forall a, Only p (body a)) -> Only p (S := S) (for_each l body).
Proof. intros Hb. induction l; simpl; [apply only_ret|]. by apply only_bind. Qed.

Lemma only_for_fold {A B} (l : list A) (body : B -> A -> M S B) b : (forall b a, Only p (body b a)) -> Only p (for_fold l body b).
Proof. intros Hb. revert b. induction l; intros b; simpl; [apply only_ret|]. by apply only_bind. Qed.

Lemma only_while {A B} fuel (body : A -> M S (A + B)) a : (forall a, Only p (body a)) -> Only p (while_loop fuel body a).
Proof.
  intros Hb. revert a. induction fuel; intros a; simpl; [apply only_no_fuel|].
  apply only_bind; [done|]. intros [a'|b]; [done|apply only_ret].
Qed.
End only.

Lemma only_weaken `{E : Env} (p q : call -> bool) {S A} (m : M S A) :
  (forall c, p c = true -> q c = true) -> Only p m -> Only q m.
Proof.
  intros Hpq Hm s h. destruct (Hm s h) as (r & l & H & Hl). exists r, l. split; [done|]. by eapply calls_weaken.
Qed.

Lemma only_at `{E : Env} (p : call -> bool) {S A} (m : M S A) s h r s' l :
  Only p m -> m s h = (r, s', h ++ l) -> forallb (fun e => p (ev_call e)) l = true.
Proof. intros Hm H. destruct (Hm s h) as (r' & l' & H' & Hl). rewrite H in H'. by simplify_eq. Qed.

Ltac only_auto :=
  repeat first
    [ eassumption
    | apply only_ret | apply only_raise | apply only_lift | apply only_of_option | apply only_no_fuel
    | match goal with |- Only ?p (ask ?c) => exact (only_ask p c eq_refl) end
    | apply only_tell; reflexivity
    | apply only_check
    | apply only_try; [|intros ?]
    | apply only_for_each; intros ?
    | apply only_for_fold; intros ? ?
    | apply only_while; intros ?
    | apply only_bind; [|intros ?]
    | match goal with |- context [match ?x with _ => _ end] => destruct x end
    | progress cbv beta iota zeta ].
