(* ===== verification/Csv.v ===== *)
(** * Csv: the [csv] module as the collector and the plots use it

    The writer's dialect is the default one (commas, double quotes, [\r\n], quoting
    where it is needed); the reader is the character automaton of CPython's
    [_csv.c], fed line by line from a file opened in text mode.  What the writer
    wrote is read back ([read_written]).  The limit on the length of a field
    (131072) is not modelled. *)

From stdpp Require Import base list strings.
From Stdlib Require Import ZArith.
From S2P Require Import Prelude PyFloat PyStr PyDict Json Runtime.

Local Open Scope driftless_scope.

Definition comma : Ascii.ascii := chr 44.
Definition cr : Ascii.ascii := chr 13.
Definition lf : Ascii.ascii := chr 10.

(** ** Writing *)

Definition special (c : Ascii.ascii) : bool :=
  Ascii.eqb c comma || Ascii.eqb c quote || Ascii.eqb c cr || Ascii.eqb c lf.

Fixpoint has_special (s : string) : bool :=
  match s with EmptyString => false | String c s' => special c || has_special s' end.

(** A quote within a quoted field is written twice. *)
Fixpoint doubled (s : string) : string :=
  match s with
  | EmptyString => EmptyString
  | String c s' => if Ascii.eqb c quote then String c (String c (doubled s')) else String c (doubled s')
  end.

(** A field; an empty one is quoted when it is [alone] in its row. *)
Definition field_text (alone : bool) (f : string) : string :=
  if has_special f || (alone && String.eqb f "") then String quote (doubled f ^^ char quote) else f.

Definition row_text (fields : list string) : string :=
  join (char comma) (map (field_text (length fields =? 1)%nat) fields).

(** [writer.writerow]. *)
Definition writerow (fields : list string) : string := row_text fields ^^ String cr (char lf).

(** ** Reading *)

(** Universal newlines: what a text-mode file yields. *)
Fixpoint universal (s : string) : string :=
  match s with
  | EmptyString => EmptyString
  | String c s' =>
      if Ascii.eqb c cr then
        match s' with
        | String d s'' => if Ascii.eqb d lf then String lf (universal s'') else String lf (universal s')
        | EmptyString => char lf
        end
      else String c (universal s')
  end.

Inductive rd_state : Type :=
| START_RECORD | START_FIELD | IN_FIELD | IN_QUOTED_FIELD | QUOTE_IN_QUOTED_FIELD | EAT_CRNL.

Record reader : Type := mkReader { rd_at : rd_state; rd_field : string; rd_fields : list string }.

Definition rd_start : reader := mkReader START_RECORD "" [].

Definition add_char (c : Ascii.ascii) (st : rd_state) (r : reader) : reader :=
  mkReader st (rd_field r ^^ char c) (rd_fields r).
Definition save_field (st : rd_state) (r : reader) : reader :=
  mkReader st "" (rd_fields r ++ [rd_field r]).
Definition goto (st : rd_state) (r : reader) : reader := mkReader st (rd_field r) (rd_fields r).

Definition is_crlf (c : Ascii.ascii) : bool := Ascii.eqb c lf || Ascii.eqb c cr.

Definition new_line_error : exn :=
  Exn OtherError "new-line character seen in unquoted field - do you need to open the file in universal-newline mode?".

(** A character at the start of a field. *)
Definition start_field (r : reader) (c : Ascii.ascii) : reader :=
  if is_crlf c then save_field EAT_CRNL r
  else if Ascii.eqb c quote then goto IN_QUOTED_FIELD r
  else if Ascii.eqb c comma then save_field START_FIELD r
  else add_char c IN_FIELD r.

(** [parse_process_char] on a character. *)
Definition process_char (r : reader) (c : Ascii.ascii) : res reader :=
  match rd_at r with
  | START_RECORD => Ok (if is_crlf c then goto EAT_CRNL r else start_field r c)
  | START_FIELD => Ok (start_field r c)
  | IN_FIELD =>
      Ok (if is_crlf c then save_field EAT_CRNL r
          else if Ascii.eqb c comma then save_field START_FIELD r
          else add_char c IN_FIELD r)
  | IN_QUOTED_FIELD =>
      Ok (if Ascii.eqb c quote then goto QUOTE_IN_QUOTED_FIELD r else add_char c IN_QUOTED_FIELD r)
  | QUOTE_IN_QUOTED_FIELD =>
      Ok (if Ascii.eqb c quote then add_char c IN_QUOTED_FIELD r
          else if Ascii.eqb c comma then save_field START_FIELD r
          else if is_crlf c then save_field EAT_CRNL r
          else add_char c IN_FIELD r)
  | EAT_CRNL => if is_crlf c then Ok r else Raise new_line_error
  end.

(** [parse_process_char] at the end of a line. *)
Definition process_eol (r : reader) : reader :=
  match rd_at r with
  | START_RECORD => r
  | START_FIELD | IN_FIELD | QUOTE_IN_QUOTED_FIELD => save_field START_RECORD r
  | IN_QUOTED_FIELD => r
  | EAT_CRNL => goto START_RECORD r
  end.

Definition record_done (r : reader) : bool := match rd_at r with START_RECORD => true | _ => false end.

(** The file ends inside a record. *)
Definition at_eof (r : reader) : list (list string) :=
  if truthy (rd_field r) || match rd_at r with IN_QUOTED_FIELD => true | _ => false end
  then [rd_fields r ++ [rd_field r]] else [].

(** The records of the rest of a file; [fresh] when a line has just ended. *)
Fixpoint read_rows (r : reader) (fresh : bool) (s : string) : res (list (list string)) :=
  match s with
  | EmptyString =>
      if fresh then Ok (at_eof r)
      else let r := process_eol r in Ok (if record_done r then [rd_fields r] else at_eof r)
  | String c s' =>
      r ← process_char r c;
      if Ascii.eqb c lf then
        let r := process_eol r in
        if record_done r then rows ← read_rows rd_start true s'; mret (rd_fields r :: rows)
        else read_rows r true s'
      else read_rows r false s'
  end.

(** [list(csv.reader(f))] of a file opened in text mode. *)
Definition csv_reader (text : string) : res (list (list string)) := read_rows rd_start true (universal text).

(** A row of [csv.DictReader]: the columns, [None] where the record is too short, and
    the fields beyond the header. *)
Record dict_row : Type := mkDictRow { dr_cells : list (string * option string); dr_rest : list string }.

Definition dict_row_of (fieldnames row : list string) : dict_row :=
  mkDictRow (fold_left (fun d k => dict_set d k None) (drop (length row) fieldnames)
               (dict_of_items (zip fieldnames (map Some row))))
            (drop (length fieldnames) row).

(** [list(csv.DictReader(f))]. *)
Definition dict_reader (text : string) : res (list dict_row) :=
  rows ← csv_reader text;
  match rows with
  | [] => mret []
  | fieldnames :: rows => mret (map (dict_row_of fieldnames) (filter (fun row => row <> []) rows))
  end.

(** [writer.writeheader(); writer.writerow(d) ...] of a [csv.DictWriter] whose rows have
    its columns. *)
Definition csv_text (fieldnames : list string) (rows : list (list string)) : string :=
  writerow fieldnames ^^ foldr String.append "" (map writerow rows).

(** ** Reading what was written *)

Definition no_cr (s : string) : bool := no_char cr s.

Lemma no_char_app c a b : no_char c (a ^^ b) = no_char c a && no_char c b.
Proof. induction a as [|x a IH]; [done|]. rewrite append_cons. simpl. by rewrite IH, andb_assoc. Qed.

Lemma universal_app a b : no_cr a = true -> universal (a ^^ b) = a ^^ universal b.
Proof.
  induction a as [|c a IH]; [done|]. unfold no_cr. simpl. intros [Hc Ha]%andb_prop. apply negb_true_iff in Hc.
  rewrite !append_cons. simpl. by rewrite Hc, IH.
Qed.

Lemma doubled_no_cr f : no_cr f = true -> no_cr (doubled f) = true.
Proof.
  induction f as [|c f IH]; [done|]. unfold no_cr in *. simpl. intros [Hc Hf]%andb_prop.
  destruct (Ascii.eqb_spec c quote) as [->|]; simpl; rewrite IH by done; [done|by rewrite Hc].
Qed.

Lemma field_text_no_cr alone f : no_cr f = true -> no_cr (field_text alone f) = true.
Proof.
  intros H. unfold field_text. case_if; [|done]. unfold no_cr. simpl. rewrite no_char_app.
  fold (no_cr (doubled f)). by rewrite doubled_no_cr.
Qed.

Lemma join_no_cr l : forallb no_cr l = true -> no_cr (join (char comma) l) = true.
Proof.
  induction l as [|x l IH]; [done|]. intros [Hx Hl]%andb_prop. destruct l as [|y l]; [exact Hx|].
  rewrite join_cons2. unfold no_cr in *. rewrite !no_char_app. rewrite Hx. simpl. by apply IH.
Qed.

Lemma row_text_no_cr l : forallb no_cr l = true -> no_cr (row_text l) = true.
Proof.
  intros H. apply join_no_cr. generalize (length l =? 1)%nat. intros b. induction l as [|x l IH]; [done|].
  simpl in *. apply andb_prop in H as [Hx Hl]. by rewrite field_text_no_cr, IH.
Qed.

Lemma universal_row l s : forallb no_cr l = true -> universal (writerow l ^^ s) = row_text l ^^ String lf (universal s).
Proof.
  intros H. unfold writerow. rewrite append_assoc, universal_app by by apply row_text_no_cr. done.
Qed.

(** One character: within a line, and at its end. *)
Lemma read_in_line st b c s r :
  process_char st c = Ok r -> Ascii.eqb c lf = false -> read_rows st b (String c s) = read_rows r false s.
Proof. intros H Hc. cbn [read_rows]. rewrite H. cbn [mbind res_bind]. by rewrite Hc. Qed.

Lemma read_line_end st b s r : process_char st lf = Ok r -> record_done (process_eol r) = false ->
  read_rows st b (String lf s) = read_rows (process_eol r) true s.
Proof. intros H Hd. cbn [read_rows]. rewrite H. cbn [mbind res_bind]. rewrite Ascii.eqb_refl. cbv zeta. by rewrite Hd. Qed.

Lemma read_record_end st b s r : process_char st lf = Ok r -> record_done (process_eol r) = true ->
  read_rows st b (String lf s) = rows ← read_rows rd_start true s; mret (rd_fields (process_eol r) :: rows).
Proof. intros H Hd. cbn [read_rows]. rewrite H. cbn [mbind res_bind]. rewrite Ascii.eqb_refl. cbv zeta. by rewrite Hd. Qed.

(** Whether a line has just ended matters at the end of the file only. *)
Lemma read_fresh st b b' c s : read_rows st b (String c s) = read_rows st b' (String c s).
Proof. done. Qed.

(** Characters of an unquoted field. *)
Lemma read_plain f : forall acc fs b c r, has_special f = false ->
  read_rows (mkReader IN_FIELD acc fs) b (f ^^ String c r) = read_rows (mkReader IN_FIELD (acc ^^ f) fs) b (String c r).
Proof.
  induction f as [|x f IH]; intros acc fs b c r H; [by rewrite append_nil_r|].
  simpl in H. apply orb_false_iff in H as [Hx Hf]. rewrite append_cons. unfold special in Hx.
  apply orb_false_iff in Hx as [[[H1 H2]%orb_false_iff H3]%orb_false_iff H4].
  erewrite read_in_line; [|unfold process_char, is_crlf; cbn [rd_at]; by rewrite H1, H3, H4|exact H4].
  unfold add_char. cbn [orb rd_field rd_fields]. rewrite IH, append_assoc by done. apply read_fresh.
Qed.

(** Characters of a quoted field. *)
Lemma read_quoted f : forall acc fs b c r,
  read_rows (mkReader IN_QUOTED_FIELD acc fs) b (doubled f ^^ String c r) =
  read_rows (mkReader IN_QUOTED_FIELD (acc ^^ f) fs) b (String c r).
Proof.
  induction f as [|x f IH]; intros acc fs b c r; [by rewrite append_nil_r|]. simpl doubled.
  destruct (Ascii.eqb_spec x quote) as [->|Hq]; rewrite !append_cons.
  - rewrite (read_in_line (mkReader IN_QUOTED_FIELD acc fs) _ quote _ (mkReader QUOTE_IN_QUOTED_FIELD acc fs) eq_refl eq_refl).
    rewrite (read_in_line (mkReader QUOTE_IN_QUOTED_FIELD acc fs) _ quote _ (mkReader IN_QUOTED_FIELD (acc ^^ char quote) fs) eq_refl eq_refl).
    rewrite IH, append_assoc. apply read_fresh.
  - apply Ascii.eqb_neq in Hq.
    assert (Hs : process_char (mkReader IN_QUOTED_FIELD acc fs) x = Ok (mkReader IN_QUOTED_FIELD (acc ^^ char x) fs)).
    { unfold process_char. cbn [rd_at]. by rewrite Hq. }
    destruct (Ascii.eqb_spec x lf) as [->|Hl].
    + rewrite (read_line_end (mkReader IN_QUOTED_FIELD acc fs) _ _ (mkReader IN_QUOTED_FIELD (acc ^^ char lf) fs) Hs eq_refl). cbn [process_eol rd_at]. rewrite IH, append_assoc. apply read_fresh.
    + apply Ascii.eqb_neq in Hl. rewrite (read_in_line _ _ _ _ _ Hs Hl). rewrite IH, append_assoc. apply read_fresh.
Qed.

(** A field that starts where one may start. *)
Definition at_start (st : rd_state) : Prop := st = START_RECORD \/ st = START_FIELD.

Lemma start_plain st fs c : at_start st -> special c = false ->
  process_char (mkReader st "" fs) c = Ok (mkReader IN_FIELD (char c) fs).
Proof.
  unfold special. intros Hst [[[H1 H2]%orb_false_iff H3]%orb_false_iff H4]%orb_false_iff.
  destruct Hst as [-> | ->]; unfold process_char, start_field, is_crlf; cbn [rd_at]; by rewrite ?H1, ?H2, ?H3, ?H4.
Qed.

(** The end of a field: a comma saves it, the end of the line saves the record. *)
Definition after_field (c : Ascii.ascii) : rd_state := if Ascii.eqb c comma then START_FIELD else EAT_CRNL.

Lemma read_field st fs alone f b c r :
  at_start st -> (st = START_RECORD -> alone = true \/ c = comma) -> c = comma \/ c = lf ->
  exists st' b', read_rows (mkReader st "" fs) b (field_text alone f ^^ String c r) = read_rows st' b' (String c r) /\
    process_char st' c = Ok (mkReader (after_field c) "" (fs ++ [f])).
Proof.
  intros Hst Hal Hc. unfold field_text. destruct (has_special f || (alone && String.eqb f "")) eqn:E.
  - exists (mkReader QUOTE_IN_QUOTED_FIELD f fs), false. split; [|by destruct Hc as [-> | ->]].
    rewrite append_cons, append_assoc. unfold char. rewrite append_cons, append_nil_l.
    rewrite (read_in_line _ _ _ _ (mkReader IN_QUOTED_FIELD "" fs)); [|by destruct Hst as [-> | ->]|done].
    rewrite read_quoted, append_nil_l. by rewrite (read_in_line (mkReader IN_QUOTED_FIELD f fs) _ quote _ (mkReader QUOTE_IN_QUOTED_FIELD f fs) eq_refl eq_refl).
  - apply orb_false_iff in E as [Hs Ha]. destruct f as [|x f].
    + exists (mkReader st "" fs), b. split; [done|]. destruct Hst as [-> | ->]; [|by destruct Hc as [-> | ->]].
      destruct (Hal eq_refl) as [-> | ->]; done.
    + exists (mkReader IN_FIELD (String x f) fs), false. split; [|by destruct Hc as [-> | ->]].
      cbn in Hs. apply orb_false_iff in Hs as [Hx Hf]. rewrite append_cons. erewrite read_in_line; [|by apply start_plain|].
      * by rewrite read_plain.
      * unfold special in Hx. by apply orb_false_iff in Hx as [_ Hx].
Qed.

(** The rest of a row. *)
Lemma read_fields alone fields : forall st fs b r,
  fields <> [] -> at_start st -> (st = START_RECORD -> alone = true \/ (1 < length fields)%nat) ->
  read_rows (mkReader st "" fs) b (join (char comma) (map (field_text alone) fields) ^^ String lf r) =
  rows ← read_rows rd_start true r; mret ((fs ++ fields) :: rows).
Proof.
  induction fields as [|f fields IH]; intros st fs b r Hne Hst Hal; [done|]. destruct fields as [|g fields].
  - destruct (read_field st fs alone f b lf r Hst) as (st' & b' & E & Hp); [|by right|].
    { intros Hs. destruct (Hal Hs) as [?|Hl]; [by left|simpl in Hl; lia]. }
    change (join (char comma) (map (field_text alone) [f])) with (field_text alone f). rewrite E.
    by rewrite (read_record_end _ _ _ _ Hp eq_refl).
  - cbn [map]. rewrite join_cons2. unfold char at 1. rewrite !append_assoc, append_cons, append_nil_l.
    destruct (read_field st fs alone f b comma (join (char comma) (map (field_text alone) (g :: fields)) ^^ String lf r) Hst)
      as (st' & b' & E & Hp); [by right|by left|].
    change (field_text alone g :: map (field_text alone) fields) with (map (field_text alone) (g :: fields)). rewrite E.
    rewrite (read_in_line _ _ _ _ _ Hp eq_refl). change (after_field comma) with START_FIELD.
    rewrite IH; [|done|by right|done]. by rewrite <- app_assoc.
Qed.

Lemma read_row fields b r : fields <> [] ->
  read_rows rd_start b (row_text fields ^^ String lf r) = rows ← read_rows rd_start true r; mret (fields :: rows).
Proof.
  intros Hne. unfold row_text. apply (read_fields _ fields START_RECORD []); [done|by left|]. intros _.
  destruct fields as [|f [|g fields]]; [done|by left|right; simpl; lia].
Qed.

(** Every record is read back as it was written, whatever the fields contain,
    but for the carriage returns that text mode rewrites. *)
Lemma read_written rows : forallb (fun row => negb (length row =? 0)%nat && forallb no_cr row) rows = true ->
  csv_reader (foldr String.append "" (map writerow rows)) = Ok rows.
Proof.
  unfold csv_reader. induction rows as [|row rows IH]; [done|]. intros [[Hne Hc]%andb_prop Hr]%andb_prop. cbn [map foldr].
  rewrite universal_row by done. rewrite read_row by by destruct row. by rewrite IH.
Qed.

Lemma dict_row_full fieldnames row : NoDup fieldnames -> length row = length fieldnames ->
  dict_row_of fieldnames row = mkDictRow (zip fieldnames (map Some row)) [].
Proof.
  intros Hn Hl. unfold dict_row_of. rewrite Hl, !drop_ge by lia. cbn [fold_left]. rewrite dict_of_items_id; [done|].
  unfold dict_keys. change (map fst) with (fmap (M := list) (A := string * option string) fst).
  rewrite fst_zip; [done|]. rewrite length_map. lia.
Qed.

(** A file of one table is read back as its rows. *)
Lemma dict_reader_written fieldnames rows :
  fieldnames <> [] -> NoDup fieldnames -> forallb no_cr fieldnames = true ->
  (forall row, row ∈ rows -> length row = length fieldnames /\ forallb no_cr row = true) ->
  dict_reader (csv_text fieldnames rows) = Ok (map (fun row => mkDictRow (zip fieldnames (map Some row)) []) rows).
Proof.
  intros Hne Hnd Hcr Hrows. unfold dict_reader, csv_text.
  change (writerow fieldnames ^^ foldr String.append "" (map writerow rows))
    with (foldr String.append "" (map writerow (fieldnames :: rows))). rewrite read_written.
  - cbn [mbind res_bind]. unfold mret, res_ret. f_equal.
    induction rows as [|row rows IH]; [done|]. destruct (Hrows row) as [Hl _]; [by left|].
    rewrite filter_cons_True by (destruct row, fieldnames; done). cbn [map]. rewrite dict_row_full by done. f_equal.
    apply IH. intros row' Hr. apply Hrows. by right.
  - apply forallb_forall. intros row [<-|Hr]; [by destruct fieldnames|]. destruct (Hrows row) as [Hl ->]; [by apply list_elem_of_In|].
    destruct row, fieldnames; done.
Qed.
