(* ===== verification/RaftClient.v ===== *)
(** * RaftClient: polling the coordinators (state-observer/raft_client.py)

    [NodeState] and [ClusterSnapshot] are the dataclasses, [poll] the
    concurrent poll.  The contract of a snapshot is stated on its list of nodes
    ([leaders_at]); the dictionary of leaders by term that the code builds is
    shown to implement it. *)

From stdpp Require Import base list strings.
From Stdlib Require Import ZArith.
From S2P Require Import Prelude PyFloat PyStr PyDict Json Runtime.

Local Open Scope Z_scope.
Local Open Scope driftless_scope.

(** ** Data *)

Record NodeState : Type := mkNodeState {
  node_id : string;
  state : string;               (* leader | follower | candidate | unreachable *)
  current_term : Z;
  voted_for : string;
  commit_index : Z;
  last_applied : Z;
  log_length : Z;
  match_index : option (list (string * Z));
  next_index : option (list (string * Z));
  addr : string;
  reachable : bool;
  error : option string;
  polled_at : float;
}.

(** [NodeState.from_dict]; [polled_at] defaults to a reading of the clock. *)
Definition from_dict `{Env} {S} (d : state_doc) (addr : string) : M S NodeState :=
  t ← ask CMonotonic;
  mret {|
    node_id := default addr (sd_node_id d);
    state := default "unknown"%string (sd_state d);
    current_term := default 0 (sd_current_term d);
    voted_for := default ""%string (sd_voted_for d);
    commit_index := default 0 (sd_commit_index d);
    last_applied := default 0 (sd_last_applied d);
    log_length := default 0 (sd_log_length d);
    match_index := sd_match_index d;
    next_index := sd_next_index d;
    addr := addr;
    reachable := true;
    error := None;
    polled_at := t
  |}.

(** [NodeState.unreachable]. *)
Definition unreachable `{Env} {S} (addr err : string) : M S NodeState :=
  t ← ask CMonotonic;
  mret {|
    node_id := addr;
    state := "unreachable"%string;
    current_term := 0;
    voted_for := ""%string;
    commit_index := 0;
    last_applied := 0;
    log_length := 0;
    match_index := None;
    next_index := None;
    addr := addr;
    reachable := false;
    error := Some err;
    polled_at := t
  |}.

Definition is_leader (n : NodeState) : bool := String.eqb (state n) "leader".

(** [None] and the empty dictionary are both false in Python. *)
Definition replication_lags (n : NodeState) : list (string * Z) :=
  let mi := default [] (match_index n) in
  if negb (is_leader n) || (length mi =? 0)%nat then []
  else map (fun pm => (pm.1, Z.max 0 (commit_index n - pm.2))) mi.

Record ClusterSnapshot : Type := mkClusterSnapshot {
  nodes : list NodeState;
  snap_polled_at : float;
}.

Definition leaders (c : ClusterSnapshot) : list NodeState := List.filter is_leader (nodes c).

Definition reachable_count (c : ClusterSnapshot) : nat := count reachable (nodes c).

Definition leader (c : ClusterSnapshot) : option NodeState :=
  match leaders c with [n] => Some n | _ => None end.

(** Python's [max] of a non-empty list of ints. *)
Definition max_list (l : list Z) : Z :=
  match l with [] => 0 | x :: l' => fold_left Z.max l' x end.

Definition snap_current_term (c : ClusterSnapshot) : Z :=
  let terms := map current_term (List.filter reachable (nodes c)) in
  match terms with [] => 0 | _ => max_list terms end.

(** [leaders_by_term.setdefault(n.current_term, []).append(n.node_id)]. *)
Definition add_leader (d : list (Z * list string)) (n : NodeState) : list (Z * list string) :=
  if is_leader n then
    let d' := dict_setdefault d (current_term n) [] in
    dict_set d' (current_term n) (default [] (dict_get d' (current_term n)) ++ [node_id n])
  else d.

Definition leaders_by_term (l : list NodeState) : list (Z * list string) := fold_left add_leader l [].

Definition split_brain_text (term : Z) (ids : list string) : string :=
  "SPLIT-BRAIN DETECTED: term=" ^^ str_of_Z term ^^ " multiple leaders: " ^^ join ", " (sort_strings ids).

(** The first term, in dictionary order, with more than one leader. *)
Fixpoint first_split (d : list (Z * list string)) : option string :=
  match d with
  | [] => None
  | (term, ids) :: d' => if (1 <? length ids)%nat then Some (split_brain_text term ids) else first_split d'
  end.

Definition split_brain_message (c : ClusterSnapshot) : option string :=
  first_split (leaders_by_term (nodes c)).

(** ** The client *)

Record RaftClusterClient : Type := mkClient { _addrs : list string }.

Definition _poll_one `{Env} {S} (addr : string) : M S NodeState :=
  let url := "http://" ^^ addr ^^ "/state" in
  try_except
    (doc ← check (ask (CHttpState url)); from_dict doc addr)
    (fun exc => unreachable addr (exn_str exc)).

(** [asyncio.gather] returns the results in the order of the addresses. *)
Definition poll `{Env} : M RaftClusterClient ClusterSnapshot :=
  self ← get;
  ns ← map_each _poll_one (_addrs self);
  t ← ask CMonotonic;
  mret {| nodes := ns; snap_polled_at := t |}.

(** ** Abstract view: the leaders of a term *)

Definition leads (t : Z) (n : NodeState) : bool := is_leader n && (current_term n =? t).

Definition leaders_at (t : Z) (l : list NodeState) : list string := map node_id (List.filter (leads t) l).

(** A term with two leaders violates Raft's election safety. *)
Definition split_term (t : Z) (l : list NodeState) : Prop := (2 <= length (leaders_at t l))%nat.

Lemma leaders_at_app t l1 l2 : leaders_at t (l1 ++ l2) = leaders_at t l1 ++ leaders_at t l2.
Proof. unfold leaders_at. by rewrite List.filter_app, map_app. Qed.

Lemma leaders_at_count t l : length (leaders_at t l) = count (leads t) l.
Proof. unfold leaders_at, count. by rewrite length_map. Qed.

(** The dictionary holds exactly the non-empty groups. *)
Definition groups_ok (d : list (Z * list string)) (l : list NodeState) : Prop :=
  NoDup (dict_keys d) /\
  forall t, dict_get d t = match leaders_at t l with [] => None | ids => Some ids end.

Lemma dict_get_setdefault {K V} `{EqDecision K} (d : list (K * V)) k k' v :
  dict_get (dict_setdefault d k v) k' =
  if decide (k' = k) then Some (default v (dict_get d k)) else dict_get d k'.
Proof.
  unfold dict_setdefault, dict_has. destruct (dict_get d k) as [w|] eqn:E.
  - case_decide; [by subst|done].
  - rewrite dict_get_set. case_decide; by rewrite ?E.
Qed.

Lemma leaders_at_snoc t l n :
  leaders_at t (l ++ [n]) = leaders_at t l ++ (if leads t n then [node_id n] else []).
Proof. rewrite leaders_at_app. unfold leaders_at at 2. simpl. by destruct (leads t n). Qed.

Lemma add_leader_ok d l n : groups_ok d l -> groups_ok (add_leader d n) (l ++ [n]).
Proof.
  intros [Hn Hg]. unfold add_leader. destruct (is_leader n) eqn:E.
  - split.
    + apply dict_set_NoDup. unfold dict_setdefault. destruct (dict_has d (current_term n)); auto with driftless.
    + intros t. rewrite dict_get_set, leaders_at_snoc. unfold leads. rewrite E. simpl.
      rewrite dict_get_setdefault. case_decide as Ht.
      * subst t. rewrite Z.eqb_refl, decide_True by done. simpl. rewrite Hg.
        by destruct (leaders_at (current_term n) l).
      * rewrite dict_get_setdefault, decide_False by done.
        assert (current_term n =? t = false) as -> by (apply Z.eqb_neq; congruence).
        by rewrite app_nil_r, Hg.
  - split; [done|]. intros t. rewrite leaders_at_snoc. unfold leads. rewrite E. simpl.
    by rewrite app_nil_r, Hg.
Qed.

Lemma groups_fold d l0 l : groups_ok d l0 -> groups_ok (fold_left add_leader l d) (l0 ++ l).
Proof.
  revert d l0. induction l as [|n l IH]; intros d l0 H; simpl; [by rewrite app_nil_r|].
  replace (l0 ++ n :: l) with ((l0 ++ [n]) ++ l) by by rewrite <- app_assoc.
  apply IH. by apply add_leader_ok.
Qed.

Lemma leaders_by_term_ok l : groups_ok (leaders_by_term l) l.
Proof. apply (groups_fold [] []). split; [constructor|done]. Qed.

Lemma leaders_by_term_item l t ids :
  (t, ids) ∈ leaders_by_term l <-> ids = leaders_at t l /\ ids <> [].
Proof.
  destruct (leaders_by_term_ok l) as [Hn Hg]. split.
  - intros H. apply elem_dict_get in H; [|done]. rewrite Hg in H.
    destruct (leaders_at t l); [done|]. by simplify_eq.
  - intros [-> Hne]. apply dict_get_elem. rewrite Hg. by destruct (leaders_at t l).
Qed.

Lemma first_split_None d :
  first_split d = None <-> forall t ids, (t, ids) ∈ d -> (length ids <= 1)%nat.
Proof.
  induction d as [|[t ids] d IH]; simpl; [split; [intros _ ?? H; inv H|done]|].
  destruct (Nat.ltb_spec 1 (length ids)) as [H|H].
  - split; [done|]. intros Hd. specialize (Hd t ids ltac:(left)). lia.
  - rewrite IH. split.
    + intros Hd t' ids' [Heq|Hin]%elem_of_cons; [by simplify_eq|eauto].
    + intros Hd t' ids' Hin. apply (Hd t' ids'). by right.
Qed.

Lemma split_brain_None c :
  split_brain_message c = None <-> forall t, ~ split_term t (nodes c).
Proof.
  unfold split_brain_message, split_term. rewrite first_split_None. split.
  - intros H t Hs. assert (Hin : (t, leaders_at t (nodes c)) ∈ leaders_by_term (nodes c)).
    { apply leaders_by_term_item. split; [done|]. intros E. rewrite E in Hs. simpl in Hs. lia. }
    specialize (H _ _ Hin). lia.
  - intros H t ids Hin. apply leaders_by_term_item in Hin as [-> _]. specialize (H t). lia.
Qed.

(** The keys appear in the order of the first leader of each term. *)
Definition order_ok (ks : list Z) (l : list NodeState) : Prop :=
  forall k1 t k2, ks = k1 ++ t :: k2 ->
  exists pre n post, l = pre ++ n :: post /\ is_leader n = true /\ current_term n = t /\
    forall n', n' ∈ pre -> is_leader n' = true -> current_term n' ∈ k1.

Lemma dict_keys_setdefault {V} (d : list (Z * V)) k v :
  dict_keys (dict_setdefault d k v) = if dict_has d k then dict_keys d else dict_keys d ++ [k].
Proof.
  unfold dict_setdefault. destruct (dict_has d k) eqn:E; [done|]. by rewrite dict_keys_set, E.
Qed.

Lemma dict_has_setdefault {V} (d : list (Z * V)) k v : dict_has (dict_setdefault d k v) k = true.
Proof. unfold dict_has. by rewrite dict_get_setdefault, decide_True. Qed.

Lemma add_leader_keys d n :
  dict_keys (add_leader d n) =
  if is_leader n && negb (dict_has d (current_term n)) then dict_keys d ++ [current_term n] else dict_keys d.
Proof.
  unfold add_leader. destruct (is_leader n); [|done]. simpl.
  rewrite dict_keys_set, dict_has_setdefault, dict_keys_setdefault.
  by destruct (dict_has d (current_term n)).
Qed.

Lemma order_ok_snoc ks l n : order_ok ks l -> order_ok ks (l ++ [n]).
Proof.
  intros H k1 t k2 Hk. destruct (H k1 t k2 Hk) as (pre & m & post & -> & Hm & Ht & Hp).
  exists pre, m, (post ++ [n]). by rewrite <- app_assoc.
Qed.

Lemma add_leader_order d l n :
  groups_ok d l -> order_ok (dict_keys d) l -> order_ok (dict_keys (add_leader d n)) (l ++ [n]).
Proof.
  intros [Hn Hg] Ho. rewrite add_leader_keys.
  destruct (is_leader n) eqn:El; simpl; [|by apply order_ok_snoc].
  destruct (dict_has d (current_term n)) eqn:E; simpl; [by apply order_ok_snoc|].
  intros k1 t k2 Hk. destruct k2 as [|x k2 _] using rev_ind.
  - apply app_inj_tail in Hk as [<- <-]. exists l, n, []. repeat split; [done..|].
    intros n' Hn' Hl. apply dict_has_true. unfold dict_has. rewrite Hg.
    destruct (leaders_at (current_term n') l) eqn:Ee; [|done].
    exfalso. assert (Hin : node_id n' ∈ leaders_at (current_term n') l).
    { unfold leaders_at. apply list_elem_of_fmap. exists n'. split; [done|].
      apply filter_In_elem. split; [done|]. unfold leads. by rewrite Hl, Z.eqb_refl. }
    rewrite Ee in Hin. inv Hin.
  - rewrite app_comm_cons, app_assoc in Hk. apply app_inj_tail in Hk as [Hk _].
    by apply (order_ok_snoc _ _ n Ho k1 t k2).
Qed.

Lemma order_fold d l0 l :
  groups_ok d l0 -> order_ok (dict_keys d) l0 ->
  order_ok (dict_keys (fold_left add_leader l d)) (l0 ++ l).
Proof.
  revert d l0. induction l as [|n l IH]; intros d l0 Hg Ho; simpl; [by rewrite app_nil_r|].
  replace (l0 ++ n :: l) with ((l0 ++ [n]) ++ l) by by rewrite <- app_assoc.
  apply IH; [by apply add_leader_ok|by apply add_leader_order].
Qed.

Lemma leaders_by_term_order l : order_ok (dict_keys (leaders_by_term l)) l.
Proof. apply (order_fold [] []); [by split; [constructor|]|]. intros [|??] t k2 H; discriminate. Qed.

Lemma first_split_Some d msg :
  first_split d = Some msg ->
  exists d1 t ids d2, d = d1 ++ (t, ids) :: d2 /\ (2 <= length ids)%nat /\
    msg = split_brain_text t ids /\ forall t' ids', (t', ids') ∈ d1 -> (length ids' <= 1)%nat.
Proof.
  induction d as [|[t ids] d IH]; simpl; [done|].
  destruct (Nat.ltb_spec 1 (length ids)) as [H|H]; intros E.
  - simplify_eq. exists [], t, ids, d. repeat split; [lia|]. intros ?? Hin. inv Hin.
  - destruct (IH E) as (d1 & t' & ids' & d2 & -> & Hl & Hm & Hd).
    exists ((t, ids) :: d1), t', ids', d2. repeat split; [done..|].
    intros t1 ids1 [Heq|Hin]%elem_of_cons; [by simplify_eq|eauto].
Qed.

Lemma split_term_two t l :
  split_term t l <-> exists i j n1 n2, (i < j)%nat /\ l !! i = Some n1 /\ l !! j = Some n2 /\
    is_leader n1 = true /\ is_leader n2 = true /\ current_term n1 = t /\ current_term n2 = t.
Proof.
  unfold split_term. rewrite leaders_at_count, count_ge_2. unfold leads.
  setoid_rewrite andb_true_iff. setoid_rewrite Z.eqb_eq. naive_solver.
Qed.

(** ** Properties *)

(** C1: the split-brain verdict is exactly the violation of Raft's election
    safety: no message is produced iff no two nodes of the snapshot report
    "leader" in the same term. *)
Theorem split_brain_sound_complete (c : ClusterSnapshot) :
  split_brain_message c = None <->
  forall i j n1 n2, i <> j -> nodes c !! i = Some n1 -> nodes c !! j = Some n2 ->
    is_leader n1 = true -> is_leader n2 = true -> current_term n1 <> current_term n2.
Proof.
  rewrite split_brain_None. setoid_rewrite split_term_two. split.
  - intros H i j n1 n2 Hij H1 H2 L1 L2 Ht.
    destruct (Nat.lt_total i j) as [?|[?|?]]; [|done|]; eapply H; eauto 15.
  - intros H t (i & j & n1 & n2 & Hij & H1 & H2 & L1 & L2 & T1 & T2).
    apply (H i j n1 n2); [lia|congruence..].
Qed.

(** The message names the split term whose first leader is polled first, and
    lists exactly the leaders of that term, sorted. *)
Theorem split_brain_report (c : ClusterSnapshot) (msg : string) :
  split_brain_message c = Some msg ->
  exists pre n post, nodes c = pre ++ n :: post /\ is_leader n = true /\
    split_term (current_term n) (nodes c) /\
    msg = split_brain_text (current_term n) (leaders_at (current_term n) (nodes c)) /\
    forall n', n' ∈ pre -> is_leader n' = true -> ~ split_term (current_term n') (nodes c).
Proof.
  unfold split_brain_message. intros H.
  apply first_split_Some in H as (d1 & t & ids & d2 & Hd & Hlen & -> & Hsmall).
  assert (Hin : (t, ids) ∈ leaders_by_term (nodes c)) by (rewrite Hd; set_solver).
  apply leaders_by_term_item in Hin as [-> _].
  destruct (leaders_by_term_order (nodes c) (dict_keys d1) t (dict_keys d2)) as (pre & n & post & Hc & Hl & <- & Hp).
  { unfold dict_keys. rewrite Hd, map_app. done. }
  exists pre, n, post. repeat split; [done..|].
  intros n' Hn' Hl' Hs. specialize (Hp n' Hn' Hl').
  unfold dict_keys in Hp. apply list_elem_of_fmap in Hp as ([t' ids'] & Ht & Hin). simpl in Ht. subst t'.
  pose proof (Hsmall _ _ Hin) as Hle.
  assert (Hin' : (current_term n', ids') ∈ leaders_by_term (nodes c)) by (rewrite Hd; set_solver).
  apply leaders_by_term_item in Hin' as [-> _]. unfold split_term in Hs. lia.
Qed.

(** A node for concrete instances. *)
Definition sample_node (id st : string) (term : Z) (up : bool) : NodeState :=
  {| node_id := id; state := st; current_term := term; voted_for := ""%string; commit_index := 10;
     last_applied := 10; log_length := 11; match_index := None; next_index := None;
     addr := id; reachable := up; error := None; polled_at := Fin (QArith_base.Qmake 0 1) |}.

Definition sample_split : ClusterSnapshot :=
  {| nodes := [sample_node "b" "leader" 7 true; sample_node "c" "follower" 7 true;
               sample_node "a" "leader" 7 true]%string;
     snap_polled_at := Fin (QArith_base.Qmake 0 1) |}.

Lemma split_brain_report_witness :
  exists pre n post, nodes sample_split = pre ++ n :: post /\ is_leader n = true /\
    split_term (current_term n) (nodes sample_split) /\
    "SPLIT-BRAIN DETECTED: term=7 multiple leaders: a, b"%string =
      split_brain_text (current_term n) (leaders_at (current_term n) (nodes sample_split)) /\
    forall n', n' ∈ pre -> is_leader n' = true -> ~ split_term (current_term n') (nodes sample_split).
Proof. apply (split_brain_report sample_split). reflexivity. Defined.

Lemma max_list_spec (x : Z) (l : list Z) :
  (forall y, y ∈ x :: l -> y <= max_list (x :: l)) /\ max_list (x :: l) ∈ x :: l.
Proof.
  simpl. revert x. induction l as [|z l IH]; intros x; simpl.
  - split; [|left]. intros y Hy. apply list_elem_of_singleton in Hy. lia.
  - destruct (IH (Z.max x z)) as [Hle Hin]. split.
    + intros y Hy. assert (Z.max x z <= fold_left Z.max l (Z.max x z)) by (apply Hle; left).
      apply elem_of_cons in Hy as [->|[->|Hy]%elem_of_cons]; [lia|lia|]. apply Hle. by right.
    + apply elem_of_cons in Hin as [->|Hin].
      * destruct (Z.max_spec x z) as [[_ ->]|[_ ->]]; [right; left|left].
      * by do 2 right.
Qed.

(** The reported term is an upper bound of the terms of the reachable nodes,
    is the term of one of them when there is one, and is 0 otherwise. *)
Theorem current_term_is_max (c : ClusterSnapshot) :
  (forall n, n ∈ nodes c -> reachable n = true -> current_term n <= snap_current_term c) /\
  ((exists n, n ∈ nodes c /\ reachable n = true /\ current_term n = snap_current_term c) \/
   (snap_current_term c = 0 /\ forall n, n ∈ nodes c -> reachable n = false)).
Proof.
  unfold snap_current_term. set (ts := map current_term (List.filter reachable (nodes c))).
  assert (Hts : forall n, n ∈ nodes c -> reachable n = true -> current_term n ∈ ts).
  { intros n Hn Hr. apply list_elem_of_fmap. exists n. split; [done|]. by apply filter_In_elem. }
  assert (Hback : forall t, t ∈ ts -> exists n, n ∈ nodes c /\ reachable n = true /\ current_term n = t).
  { intros t Ht. apply list_elem_of_fmap in Ht as (n & -> & Hn).
    apply filter_In_elem in Hn as [Hn Hr]. eauto. }
  destruct ts as [|t ts'].
  - split; [intros n Hn Hr; specialize (Hts n Hn Hr); inv Hts|]. right. split; [done|].
    intros n Hn. destruct (reachable n) eqn:Hr; [|done]. specialize (Hts n Hn Hr). inv Hts.
  - destruct (max_list_spec t ts') as [Hle Hin]. split; [eauto|]. left. by apply Hback.
Qed.

(** The answers of the [/state] requests in a log. *)
Definition http_answer (e : event) : option (string * (exn + state_doc)) :=
  match e with
  | Ev c r => match c as c' return resp c' -> option (string * (exn + state_doc)) with
              | CHttpState url => fun r => Some (url, r)
              | _ => fun _ => None
              end r
  end.

Definition http_answers (h : history) : list (string * (exn + state_doc)) := omap http_answer h.

(** What an answer makes of the node at an address. *)
Definition node_of (addr : string) (ans : exn + state_doc) (n : NodeState) : Prop :=
  RaftClient.addr n = addr /\
  match ans with
  | inr d => reachable n = true /\ node_id n = default addr (sd_node_id d) /\
             state n = default "unknown"%string (sd_state d) /\
             current_term n = default 0 (sd_current_term d) /\
             commit_index n = default 0 (sd_commit_index d) /\ match_index n = sd_match_index d
  | inl e => reachable n = false /\ node_id n = addr /\ is_leader n = false /\
             current_term n = 0 /\ error n = Some (exn_str e)
  end.

Definition state_url (addr : string) : string := "http://" ^^ addr ^^ "/state".

Lemma poll_one_run `{E : Env} {S} (a : string) (s : S) (h : history) :
  exists n l ans, _poll_one a s h = (Ok n, s, h ++ l) /\
    http_answers l = [(state_url a, ans)] /\ node_of a ans n.
Proof.
  unfold _poll_one, try_except, check, from_dict, unreachable, ask, mbind, M_bind, raise, mret, M_ret.
  fold (state_url a). simpl.
  set (r := answer h (CHttpState (state_url a))) in *.
  destruct r as [e|d] eqn:Er; simpl; rewrite <- app_assoc; simpl;
    do 3 eexists; (split; [reflexivity|]); simpl; split; try reflexivity; repeat split.
Qed.

Lemma poll_each_run `{E : Env} {S} (addrs : list string) (s : S) (h : history) :
  exists ns l anss, map_each _poll_one addrs s h = (Ok ns, s, h ++ l) /\
    http_answers l = zip (map state_url addrs) anss /\ length anss = length addrs /\
    Forall2 (fun aa n => node_of aa.1 aa.2 n) (zip addrs anss) ns.
Proof.
  revert h. induction addrs as [|a addrs IH]; intros h; simpl.
  - exists [], [], []. unfold mret, M_ret. rewrite app_nil_r. repeat split; constructor.
  - destruct (poll_one_run a s h) as (n & l1 & ans & H1 & A1 & N1).
    destruct (IH (h ++ l1)) as (ns & l2 & anss & H2 & A2 & Hl & F2).
    exists (n :: ns), (l1 ++ l2), (ans :: anss).
    unfold mbind, M_bind. rewrite H1, H2. unfold mret, M_ret. rewrite app_assoc.
    split; [done|]. split; [|split; [simpl; congruence|by constructor]].
    unfold http_answers in *. by rewrite omap_app, A1, A2.
Qed.

(** A poll never fails.  It requests [/state] of every address in order, and
    the snapshot has one node per address: the node the answer describes, or an
    unreachable node that can neither lead nor raise the term when the request
    failed; the reachable count is the number of successful requests. *)
Theorem poll_spec `{E : Env} (cl : RaftClusterClient) (h : history) :
  exists c l anss, poll cl h = (Ok c, cl, h ++ l) /\
    http_answers l = zip (map state_url (_addrs cl)) anss /\ length anss = length (_addrs cl) /\
    Forall2 (fun aa n => node_of aa.1 aa.2 n) (zip (_addrs cl) anss) (nodes c) /\
    reachable_count c = count (fun ans => match ans with inr _ => true | inl _ => false end) anss.
Proof.
  destruct (poll_each_run (_addrs cl) cl h) as (ns & l & anss & H & A & Hl & F).
  unfold poll, get, ask, mbind, M_bind. rewrite H. unfold mret, M_ret.
  eexists _, _, anss. split; [by rewrite <- app_assoc|]. split; [|split; [done|split; [done|]]].
  - unfold http_answers in *. rewrite omap_app, A. simpl. by rewrite app_nil_r.
  - unfold reachable_count. simpl. clear H A.
    revert anss Hl ns F. generalize (_addrs cl). intros addrs.
    induction addrs as [|a addrs IH]; intros [|ans anss] Hl ns F; simpl in *; try discriminate; inv F; [done|].
    rewrite !count_cons. rewrite (IH anss) by (done || lia).
    destruct H1 as [_ H1]. simpl in H1. destruct ans; destruct H1 as [-> _]; done.
Qed.
