(* ===== verification/Alerts.v ===== *)
(** * Alerts: anomaly detection and SNS notification (state-observer/alerts.py)

    [AlertManager] is the object state, one definition per method.  A method
    that appends to the caller's list of alerts returns the messages it
    appends.  Log lines are calls, so a run's log shows which alerts were
    raised ([ALERT: ...]), which were published and when the clock was read. *)

From stdpp Require Import base gmap list strings.
From Stdlib Require Import ZArith QArith.QArith_base.
From S2P Require Import Prelude PyFloat PyStr PyDict Json Runtime RaftClient.

Local Open Scope Z_scope.
Local Open Scope driftless_scope.

Definition _COOLDOWN_S : float := Fin (120 # 1).
Definition _NO_LEADER_TIMEOUT_S : float := Fin (10 # 1).

Record AlertManager : Type := mkAlertManager {
  _topic_arn : string;
  _disable_sns : bool;
  _last_sent : gmap string float;
  _leaderless_since : option float;
  _sns : bool;                       (* whether the SNS client was created *)
}.

Definition with_last_sent (m : gmap string float) (a : AlertManager) : AlertManager :=
  {| _topic_arn := _topic_arn a; _disable_sns := _disable_sns a; _last_sent := m;
     _leaderless_since := _leaderless_since a; _sns := _sns a |}.

Definition with_leaderless (o : option float) (a : AlertManager) : AlertManager :=
  {| _topic_arn := _topic_arn a; _disable_sns := _disable_sns a; _last_sent := _last_sent a;
     _leaderless_since := o; _sns := _sns a |}.

(** The object [AlertManager.__init__] builds; [construct] is the constructor with
    its log line. *)
Definition init (sns_topic_arn : string) (disable_sns : bool) : AlertManager :=
  let disabled := disable_sns || negb (truthy sns_topic_arn) in
  {| _topic_arn := sns_topic_arn; _disable_sns := disabled; _last_sent := ∅;
     _leaderless_since := None; _sns := negb disabled |}.

Definition construct {S} (sns_topic_arn : string) (disable_sns : bool) : M S AlertManager :=
  let self := init sns_topic_arn disable_sns in
  (if negb (_disable_sns self) then log_msg INFO ("SNS alerts enabled (topic=" ^^ sns_topic_arn ^^ ")")
   else
     let reason := if truthy sns_topic_arn then "SNS disabled" else "no SNS_TOPIC_ARN set" in
     log_msg INFO ("SNS alerts disabled (" ^^ reason ^^ ")"));;
  mret self.

Definition sent_text (key : string) : string := "SNS alert sent: " ^^ key.
Definition alert_text (subject : string) : string := "ALERT: " ^^ subject.

Definition _maybe_send `{Env} (key subject body : string) : M AlertManager bool :=
  now ← ask CMonotonic;
  self ← get;
  let last := default (Fin (0 # 1)) (_last_sent self !! key) in
  if flt (fsub now last) _COOLDOWN_S then mret false
  else
    modify (with_last_sent (<[key := now]> (_last_sent self)));;
    log_msg WARNING (alert_text subject);;
    if _disable_sns self || negb (_sns self) then mret false
    else
      try_except
        (check (ask (CSnsPublish (_topic_arn self) (prefix_of 100 subject) body));;
         log_msg INFO (sent_text key);;
         mret true)
        (fun exc => if is_boto exc
                    then log_msg ERROR ("SNS publish failed: " ^^ exn_str exc);; mret false
                    else raise exc).

(** [msg + (" [alert sent]" if fired else " [suppressed]")]. *)
Definition tagged (msg : string) (fired : bool) : string :=
  msg ^^ (if fired then " [alert sent]" else " [suppressed]").

Definition split_key (term : Z) (ids : list string) : string :=
  "split-brain:term=" ^^ str_of_Z term ^^ ":leaders=" ^^ join "," (sort_strings ids).

Definition split_subject (term : Z) : string :=
  "[Driftless] SPLIT-BRAIN DETECTED in term " ^^ str_of_Z term.

Definition split_body (msg : string) (snap : ClusterSnapshot) : string :=
  msg ^^ newline ^^ newline ^^
  "This means the Raft safety invariant (at most one leader per term) " ^^
  "has been violated.  Immediate investigation required." ^^ newline ^^ newline ^^
  "Nodes queried: " ^^ repr_list (map node_id (nodes snap)).

(** The body of the loop over the leaders by term. *)
Definition alert_term `{Env} (msg : string) (snap : ClusterSnapshot)
    (alerts : list string) (tl : Z * list string) : M AlertManager (list string) :=
  let '(term, ids) := tl in
  if (1 <? length ids)%nat then
    fired ← _maybe_send (split_key term ids) (split_subject term) (split_body msg snap);
    mret (alerts ++ [tagged msg fired])
  else mret alerts.

Definition _check_split_brain `{Env} (snap : ClusterSnapshot) (alerts : list string)
    : M AlertManager (list string) :=
  match split_brain_message snap with
  | None => mret alerts
  | Some msg => for_fold (leaders_by_term (nodes snap)) (alert_term msg snap) alerts
  end.

Definition no_leader_key (term : Z) : string := "no-leader:" ^^ str_of_Z term.
Definition no_leader_subject : string := "[Driftless] No Raft leader elected".

Definition no_leader_body (elapsed : float) (up : list string) (term : Z) : string :=
  "No leader has been elected for " ^^ fmt_fixed 1 elapsed ^^ "s." ^^ newline ^^
  "Reachable nodes: " ^^ repr_list up ^^ newline ^^
  "Highest term seen: " ^^ str_of_Z term ^^ newline ^^ newline ^^
  "Possible causes: network partition, all nodes crashed, " ^^ "persistent split-vote.".

Definition no_leader_msg (elapsed : float) (term : Z) : string :=
  "No leader for " ^^ fmt_fixed 0 elapsed ^^ "s (term=" ^^ str_of_Z term ^^ ")".

Definition _check_no_leader `{Env} (snap : ClusterSnapshot) (alerts : list string)
    : M AlertManager (list string) :=
  match leader snap with
  | Some _ => modify (with_leaderless None);; mret alerts
  | None =>
      now ← ask CMonotonic;
      self ← get;
      match _leaderless_since self with
      | None => modify (with_leaderless (Some now));; mret alerts
      | Some since =>
          let elapsed := fsub now since in
          if flt elapsed _NO_LEADER_TIMEOUT_S then mret alerts
          else
            let up := map node_id (List.filter reachable (nodes snap)) in
            let term := snap_current_term snap in
            fired ← _maybe_send (no_leader_key term) no_leader_subject (no_leader_body elapsed up term);
            mret (alerts ++ [tagged (no_leader_msg elapsed term) fired])
      end
  end.

Definition quorum_key (up total : Z) : string :=
  "quorum-loss:" ^^ str_of_Z up ^^ "/" ^^ str_of_Z total.
Definition quorum_subject : string :=
  "[Driftless] Quorum loss " ^^ String (chr 226) (String (chr 128) (char (chr 148))) ^^
  " cluster cannot make progress".

Definition quorum_body (up total quorum : Z) : string :=
  "Only " ^^ str_of_Z up ^^ "/" ^^ str_of_Z total ^^ " nodes are reachable; " ^^
  "quorum requires " ^^ str_of_Z quorum ^^ "." ^^ newline ^^
  "The cluster cannot commit new log entries until " ^^ "enough nodes are restored.".

Definition quorum_msg (up total quorum : Z) : string :=
  "Quorum loss: " ^^ str_of_Z up ^^ "/" ^^ str_of_Z total ^^ " nodes up (need " ^^
  str_of_Z quorum ^^ ")".

Definition _check_quorum_loss `{Env} (snap : ClusterSnapshot) (alerts : list string)
    : M AlertManager (list string) :=
  let total := Z.of_nat (length (nodes snap)) in
  if total =? 0 then mret alerts
  else
    let quorum := total / 2 + 1 in
    let up := Z.of_nat (reachable_count snap) in
    if quorum <=? up then mret alerts
    else
      fired ← _maybe_send (quorum_key up total) quorum_subject (quorum_body up total quorum);
      mret (alerts ++ [tagged (quorum_msg up total quorum) fired]).

Definition check_alerts `{Env} (snap : ClusterSnapshot) : M AlertManager (list string) :=
  a1 ← _check_split_brain snap [];
  a2 ← _check_no_leader snap a1;
  _check_quorum_loss snap a2.

(** A monitoring session: one check per snapshot; an exception that escapes a
    check is caught by the observer's loop, which goes on with the next poll. *)
Fixpoint session `{Env} (snaps : list ClusterSnapshot) : M AlertManager (list (list string)) :=
  match snaps with
  | [] => mret []
  | snap :: snaps' =>
      a ← try_except (check_alerts snap) (fun _ => mret []);
      rest ← session snaps';
      mret (a :: rest)
  end.

(** ** What a log shows *)

(** The informational log lines with the latest clock reading before them: every
    published alert leaves one, [SNS alert sent: <key>]. *)
Fixpoint sends (now : float) (h : history) : list (float * string) :=
  match h with
  | [] => []
  | Ev c r :: h' =>
      match c as c' return resp c' -> list (float * string) with
      | CMonotonic => fun r => sends r h'
      | CLog INFO msg => fun _ => (now, msg) :: sends now h'
      | _ => fun _ => sends now h'
      end r
  end.

Definition published (h : history) : list (float * string) := sends (Fin (0 # 1)) h.

Fixpoint last_mono (now : float) (h : history) : float :=
  match h with
  | [] => now
  | Ev c r :: h' =>
      last_mono (match c as c' return resp c' -> float with
                 | CMonotonic => fun r => r
                 | _ => fun _ => now
                 end r) h'
  end.

Lemma sends_app now h1 h2 : sends now (h1 ++ h2) = sends now h1 ++ sends (last_mono now h1) h2.
Proof.
  revert now. induction h1 as [|[c r] h1 IH]; intros now; [done|].
  destruct c; simpl; try apply IH. destruct level; simpl; rewrite IH; done.
Qed.

(** Calls that neither read the clock nor report a published alert. *)
Definition neutral (c : call) : bool :=
  match c with CMonotonic | CLog INFO _ => false | _ => true end.

Lemma published_neutral h c r : neutral c = true -> published (h ++ [Ev c r]) = published h.
Proof.
  intros Hc. unfold published. rewrite sends_app.
  destruct c; try discriminate; try (simpl; by rewrite app_nil_r).
  destruct level; try discriminate; simpl; by rewrite app_nil_r.
Qed.

Lemma published_mono h r : published (h ++ [Ev CMonotonic r]) = published h.
Proof. unfold published. rewrite sends_app. simpl. by rewrite app_nil_r. Qed.

Lemma mono_neutral h c r : c <> CMonotonic -> mono_readings (h ++ [Ev c r]) = mono_readings h.
Proof.
  intros Hc. rewrite mono_readings_app. destruct c; try done; simpl; by rewrite app_nil_r.
Qed.

(** ** The cooldown invariant

    Every publication of a key is no later than the time the manager remembers
    for it, the remembered times are clock readings, and two publications of
    one key are a cooldown apart. *)
Definition spaced (ps : list (float * string)) : Prop :=
  forall i j ti tj m, (i < j)%nat -> ps !! i = Some (ti, m) -> ps !! j = Some (tj, m) ->
    fle _COOLDOWN_S (fsub tj ti) = true.

Record cooldown_inv (a : AlertManager) (h : history) : Prop := CooldownInv {
  ci_remembered : forall t m, (t, m) ∈ published h ->
    exists key q p, m = sent_text key /\ t = Fin q /\ _last_sent a !! key = Some (Fin p) /\ (q <= p)%Q;
  ci_reading : forall key t, _last_sent a !! key = Some t -> t ∈ mono_readings h;
  ci_spaced : spaced (published h);
}.

(** The invariant of a run, for logs in which the clock never goes back. *)
Definition good (a : AlertManager) (h : history) : Prop :=
  ascending 0 (mono_readings h) = true -> cooldown_inv a h.

Lemma good_same a a' h h' :
  _last_sent a' = _last_sent a -> published h' = published h -> mono_readings h' = mono_readings h ->
  good a h -> good a' h'.
Proof.
  intros Ha Hp Hm H Hasc. rewrite Hm in Hasc. destruct (H Hasc) as [H1 H2 H3].
  constructor; rewrite ?Ha, ?Hp, ?Hm; done.
Qed.

Lemma good_leaderless a h o : good a h -> good (with_leaderless o a) h.
Proof. by apply good_same. Qed.

Lemma good_mono a h r : good a h -> good a (h ++ [Ev CMonotonic r]).
Proof.
  intros H Hasc. rewrite mono_readings_app in Hasc. apply ascending_snoc in Hasc as [Hasc _].
  destruct (H Hasc) as [H1 H2 H3]. constructor; rewrite ?published_mono; [done| |done].
  intros key t Ht. rewrite mono_readings_app. apply elem_of_app. left. eauto.
Qed.

Lemma good_neutral a h c r :
  neutral c = true -> good a h -> good a (h ++ [Ev c r]).
Proof.
  intros Hc. apply good_same; [done|by apply published_neutral|].
  apply mono_neutral. by intros ->.
Qed.

Definition last_for (a : AlertManager) (key : string) : float :=
  default (Fin (0 # 1)) (_last_sent a !! key).

Definition remember (a : AlertManager) (key : string) (now : float) : AlertManager :=
  with_last_sent (<[key := now]> (_last_sent a)) a.

Lemma good_remember a h key now :
  good a h -> good (remember a key now) (h ++ [Ev CMonotonic now]).
Proof.
  intros H Hasc. rewrite mono_readings_app in Hasc.
  apply ascending_snoc in Hasc as [Hasc (qn & -> & Hq0 & Hqn)].
  destruct (H Hasc) as [H1 H2 H3]. constructor; rewrite ?published_mono; [| |done].
  - intros t m Hin. destruct (H1 t m Hin) as (k & q & p & -> & -> & Hk & Hqp). simpl.
    destruct (decide (k = key)) as [->|Hne].
    + exists key, q, qn. rewrite lookup_insert_eq. repeat split; try done.
      eapply Qle_trans; [exact Hqp|]. apply Hqn. eauto.
    + exists k, q, p. by rewrite lookup_insert_ne.
  - intros k t Hk. simpl in Hk. rewrite mono_readings_app. simpl.
    rewrite elem_of_app. destruct (decide (k = key)) as [->|Hne].
    + rewrite lookup_insert_eq in Hk. simplify_eq. right. left.
    + rewrite lookup_insert_ne in Hk by done. left. eauto.
Qed.

Lemma spaced_snoc ps t m :
  spaced ps -> (forall t', (t', m) ∈ ps -> fle _COOLDOWN_S (fsub t t') = true) -> spaced (ps ++ [(t, m)]).
Proof.
  intros H Hm i j ti tj m' Hij Hi Hj.
  apply lookup_snoc_Some in Hj as [[Hj Hjp]|[Hj Heq]].
  - apply lookup_snoc_Some in Hi as [[Hi Hip]|[Hi _]]; [exact (H i j ti tj m' Hij Hip Hjp)|lia].
  - simplify_eq. apply lookup_snoc_Some in Hi as [[Hi Hip]|[Hi _]]; [|lia].
    apply Hm. by eapply list_elem_of_lookup_2.
Qed.

Lemma sends_neutral now l : forallb (fun e => neutral (ev_call e)) l = true ->
  sends now l = [] /\ last_mono now l = now /\ mono_readings l = [].
Proof.
  induction l as [|[c r] l IH]; [done|]. simpl. intros [Hc Hl]%andb_true_iff.
  destruct (IH Hl) as (I1 & I2 & I3).
  destruct c; try discriminate; try done. destruct level; try discriminate; done.
Qed.

(** A clock reading, quiet calls, then the report of a publication. *)
Definition send_log (now : float) (l : history) (key : string) : history :=
  Ev CMonotonic now :: l ++ [Ev (CLog INFO (sent_text key)) tt].

Lemma published_send h now l key :
  forallb (fun e => neutral (ev_call e)) l = true ->
  published (h ++ send_log now l key) = published h ++ [(now, sent_text key)].
Proof.
  intros Hl. destruct (sends_neutral now l Hl) as (H1 & H2 & _).
  unfold published. rewrite sends_app. f_equal. simpl. by rewrite sends_app, H1, H2.
Qed.

Lemma good_send a h now l key :
  forallb (fun e => neutral (ev_call e)) l = true ->
  flt (fsub now (last_for a key)) _COOLDOWN_S = false ->
  good a h -> good (remember a key now) (h ++ send_log now l key).
Proof.
  intros Hl Hgap H Hasc. destruct (sends_neutral now l Hl) as (_ & _ & Hm).
  assert (Hr : mono_readings (h ++ send_log now l key) = mono_readings h ++ [now]).
  { rewrite mono_readings_app. f_equal. simpl. by rewrite mono_readings_app, Hm. }
  rewrite Hr in Hasc. pose proof (good_remember a h key now H) as H'.
  unfold good in H'. rewrite mono_readings_app in H'. destruct (H' Hasc) as [R1 R2 _].
  apply ascending_snoc in Hasc as [Hasc (qn & -> & Hq0 & Hqn)].
  destruct (H Hasc) as [H1 H2 H3].
  assert (Hps := published_send h (Fin qn) l key Hl). constructor.
  - intros t m Hin. rewrite Hps in Hin. rewrite published_mono in R1.
    apply elem_of_app in Hin as [Hin|Hin]; [eauto|].
    apply list_elem_of_singleton in Hin. simplify_eq.
    exists key, qn, qn. simpl. rewrite lookup_insert_eq. repeat split. apply Qle_refl.
  - intros k t Hk. rewrite Hr. specialize (R2 k t Hk). by rewrite mono_readings_app in R2.
  - rewrite Hps. apply spaced_snoc; [done|]. intros t' Hin.
    destruct (H1 t' _ Hin) as (k & q & p & Hk & -> & Hlast & Hqp).
    assert (k = key) as -> by (unfold sent_text in Hk; by simplify_eq).
    unfold last_for in Hgap. rewrite Hlast in Hgap. simpl in Hgap.
    apply flt_false_fle in Hgap; [|apply rnd_neq_NaN|discriminate].
    eapply fle_trans; [exact Hgap|]. apply fsub_mono; [apply Qle_refl|done].
Qed.

Lemma good_neutrals a h l :
  forallb (fun e => neutral (ev_call e)) l = true -> good a h -> good a (h ++ l).
Proof.
  intros Hl. destruct (sends_neutral (last_mono (Fin (0 # 1)) h) l Hl) as (H1 & _ & H3).
  apply good_same; [done| |].
  - unfold published. by rewrite sends_app, H1, app_nil_r.
  - by rewrite mono_readings_app, H3, app_nil_r.
Qed.

(** ** [_maybe_send], branch by branch *)

Section maybe_send.
Context `{E : Env}.

(** The calls of an attempt after the clock reading [now], and the answer to
    the publication. *)
Definition attempt_log (now : float) (subject : string) : history :=
  [Ev CMonotonic now; Ev (CLog WARNING (alert_text subject)) tt].

Definition publish_call (a : AlertManager) (subject body : string) : call :=
  CSnsPublish (_topic_arn a) (prefix_of 100 subject) body.

Definition maybe_send_outcome (a : AlertManager) (h : history) (key subject body : string)
    (r : res bool) (a' : AlertManager) (h' : history) : Prop :=
  let now := answer h CMonotonic in
  let h1 := h ++ attempt_log now subject in
  if flt (fsub now (last_for a key)) _COOLDOWN_S then
    r = Ok false /\ a' = a /\ h' = h ++ [Ev CMonotonic now]
  else
    a' = remember a key now /\
    if _disable_sns a || negb (_sns a) then r = Ok false /\ h' = h1
    else
      match answer h1 (publish_call a subject body) with
      | inr tt =>
          r = Ok true /\
          h' = h1 ++ [Ev (publish_call a subject body) (inr tt); Ev (CLog INFO (sent_text key)) tt]
      | inl exc =>
          if is_boto exc then
            r = Ok false /\
            h' = h1 ++ [Ev (publish_call a subject body) (inl exc);
                        Ev (CLog ERROR ("SNS publish failed: " ^^ exn_str exc)) tt]
          else r = Raise exc /\ h' = h1 ++ [Ev (publish_call a subject body) (inl exc)]
      end.

Lemma maybe_send_run a h key subject body r a' h' :
  _maybe_send key subject body a h = (r, a', h') ->
  maybe_send_outcome a h key subject body r a' h'.
Proof.
  unfold _maybe_send, maybe_send_outcome, attempt_log, publish_call, last_for.
  unfold mbind, M_bind, ask, log_msg, tell, get, modify, check, raise, mret, M_ret, try_except.
  destruct (flt _ _) eqn:Ef; [intros [= <- <- <-]; done|].
  rewrite <- !app_assoc. simpl.
  destruct (_disable_sns a || negb (_sns a)) eqn:Ed; [intros [= <- <- <-]; done|].
  unfold mbind, M_bind. rewrite <- !app_assoc. simpl.
  destruct (answer _ (CSnsPublish _ _ _)) as [exc|[]] eqn:Ep; simpl.
  - destruct (is_boto exc) eqn:Eb; intros [= <- <- <-]; rewrite <- !app_assoc; done.
  - intros [= <- <- <-]. rewrite <- !app_assoc. done.
Qed.
End maybe_send.

(** ** Invariants of a session

    An invariant of the manager and its log that clock readings, the leaderless
    timer and [_maybe_send] preserve holds throughout a session. *)

Section session_invariant.
Context `{E : Env} (I : AlertManager -> history -> Prop).
Context (I_mono : forall a h r, I a h -> I a (h ++ [Ev CMonotonic r])).
Context (I_leaderless : forall a h o, I a h -> I (with_leaderless o a) h).
Context (I_send : forall a h key subject body,
  I a h -> wp (_maybe_send key subject body) (fun _ a' h' => I a' h') a h).

Let keeps {A} (m : M AlertManager A) : Prop := forall a h, I a h -> wp m (fun _ a' h' => I a' h') a h.

Lemma keeps_bind {A B} (m : M AlertManager A) (f : A -> M AlertManager B) :
  keeps m -> (forall x, keeps (f x)) -> keeps (m ≫= f).
Proof.
  intros Hm Hf a h H. apply wp_bind. eapply wp_mono; [|by apply Hm].
  intros [x|e|] a' h' H'; simpl; [by apply Hf|done|done].
Qed.

Lemma keeps_ret {A} (x : A) : keeps (mret x).
Proof. by intros a h H. Qed.

Lemma keeps_tagged (alerts : list string) msg key subject body :
  keeps (fired ← _maybe_send key subject body; mret (alerts ++ [tagged msg fired])).
Proof using I_send. apply keeps_bind; [intros a h; apply I_send|intros x; apply keeps_ret]. Qed.

Lemma keeps_split snap alerts : keeps (_check_split_brain snap alerts).
Proof using I_send.
  unfold _check_split_brain. destruct (split_brain_message snap) as [msg|]; [|apply keeps_ret].
  revert alerts. induction (leaders_by_term (nodes snap)) as [|[t ids] d IH]; intros alerts; simpl; [apply keeps_ret|].
  apply keeps_bind; [|done]. case_if; [apply keeps_tagged|apply keeps_ret].
Qed.

Lemma keeps_no_leader snap alerts : keeps (_check_no_leader snap alerts).
Proof using I_send I_mono I_leaderless.
  unfold _check_no_leader. destruct (leader snap); [intros a h H; wp_steps; auto|].
  intros a h H. apply wp_bind, wp_ask. simpl. apply wp_bind, wp_get. simpl.
  destruct (_leaderless_since a) as [since|]; [|wp_steps; auto].
  case_if; [wp_steps; auto|]. apply keeps_tagged. auto.
Qed.

Lemma keeps_quorum snap alerts : keeps (_check_quorum_loss snap alerts).
Proof using I_send.
  unfold _check_quorum_loss. case_if; [apply keeps_ret|]. case_if; [apply keeps_ret|]. apply keeps_tagged.
Qed.

Lemma keeps_check snap : keeps (check_alerts snap).
Proof using I_send I_mono I_leaderless.
  unfold check_alerts. apply keeps_bind; [apply keeps_split|intros a1].
  apply keeps_bind; [apply keeps_no_leader|intros a2]. apply keeps_quorum.
Qed.

Lemma keeps_session snaps : keeps (session snaps).
Proof using I_send I_mono I_leaderless.
  induction snaps as [|snap snaps IH]; simpl; [apply keeps_ret|].
  apply keeps_bind; [|intros x; apply keeps_bind; [done|intros y; apply keeps_ret]].
  intros a h H. apply wp_try. eapply wp_mono; [|by apply (keeps_check snap)].
  intros [x|e|] a' h' H'; [done|by apply keeps_ret|done].
Qed.
End session_invariant.

Lemma maybe_send_good `{Env} a h key subject body :
  good a h -> wp (_maybe_send key subject body) (fun _ a' h' => good a' h') a h.
Proof.
  intros Hg. unfold wp. destruct (_maybe_send key subject body a h) as [[r a'] h'] eqn:Er.
  apply maybe_send_run in Er. unfold maybe_send_outcome in Er. cbv zeta in Er.
  set (now := answer h CMonotonic) in *.
  destruct (flt _ _) eqn:Hgap; [destruct Er as (_ & -> & ->); by apply good_mono|].
  destruct Er as [-> Er].
  assert (Hatt : good (remember a key now) (h ++ attempt_log now subject)).
  { change (attempt_log now subject) with ([Ev CMonotonic now] ++ [Ev (CLog WARNING (alert_text subject)) tt]).
    rewrite app_assoc. apply good_neutral; [done|]. by apply good_remember. }
  destruct (_disable_sns a || negb (_sns a)); [by destruct Er as [_ ->]|].
  destruct (answer _ (publish_call a subject body)) as [exc|[]].
  - destruct (is_boto exc); destruct Er as [_ ->]; by apply good_neutrals.
  - destruct Er as [_ ->]. rewrite <- app_assoc.
    by apply (good_send a h now
      [Ev (CLog WARNING (alert_text subject)) tt; Ev (publish_call a subject body) (inr tt)] key).
Qed.

Lemma good_init arn dis : good (init arn dis) [].
Proof.
  intros _. constructor.
  - intros t m Hin. inv Hin.
  - intros key t Ht. simpl in Ht. by rewrite lookup_empty in Ht.
  - intros i j ti tj m _ Hi. by destruct i.
Qed.

(** ** Properties *)

(** C7: alerts are deduplicated.  Over a whole session, whatever the snapshots, the
    failures of SNS and the rest of the environment, two published
    notifications with the same key are never less than the cooldown apart, as
    long as the monotonic clock does not go back. *)
Theorem cooldown_respected `{E : Env} (snaps : list ClusterSnapshot) (arn : string) (dis : bool) :
  let h := (session snaps (init arn dis) []).2 in
  ascending 0 (mono_readings h) = true ->
  forall i j ti tj m, (i < j)%nat -> published h !! i = Some (ti, m) -> published h !! j = Some (tj, m) ->
    flt (fsub tj ti) _COOLDOWN_S = false.
Proof.
  intros h Hasc i j ti tj m Hij Hi Hj. apply fle_flt_false.
  assert (Hg : good (session snaps (init arn dis) []).1.2 h).
  { pose proof (keeps_session good good_mono good_leaderless maybe_send_good snaps
                  (init arn dis) [] (good_init arn dis)) as K.
    unfold wp in K. subst h. by destruct (session snaps (init arn dis) []) as [[r a] h']. }
  by apply (ci_spaced _ _ (Hg Hasc) i j ti tj m).
Qed.

(** A clock that advances by [step] seconds at every reading, services that answer. *)
Definition ticking_env (start step : Z) : Env := fun h c =>
  match c as c' return resp c' with
  | CMonotonic => Fin (inject_Z (start + step * Z.of_nat (length (mono_readings h))))
  | c' => default_answer c'
  end.

Definition topic : string := "arn:aws:sns:us-east-1:123456789012:alerts".

Lemma cooldown_respected_witness :
  flt (fsub (Fin (350 # 1)) (Fin (200 # 1))) _COOLDOWN_S = false.
Proof.
  apply (cooldown_respected (E := ticking_env 200 30) [sample_split; sample_split; sample_split; sample_split]
           topic false ltac:(vm_compute; reflexivity)
           0 2 (Fin (200 # 1)) (Fin (350 # 1)) (sent_text (split_key 7 ["b"; "a"]%string)));
    [lia|vm_compute; reflexivity..].
Defined.

(** C?: [_maybe_send] on every branch.  Within the cooldown of the key nothing
    happens but a clock reading; otherwise the key is remembered with the
    current time and the alert logged; with SNS off that is all; else one
    notification is published, its subject cut to 100 characters, and the
    result is [True] exactly when SNS accepts it; boto errors are logged and
    give [False], other exceptions propagate. *)
Theorem maybe_send_spec `{E : Env} (a : AlertManager) (h : history) (key subject body : string) :
  let '(r, a', h') := _maybe_send key subject body a h in
  maybe_send_outcome a h key subject body r a' h'.
Proof.
  destruct (_maybe_send key subject body a h) as [[r a'] h'] eqn:Er. by apply maybe_send_run.
Qed.

(** A notification that SNS refuses still starts the cooldown: after a boto
    failure the same key is not retried until 120 s have passed, although
    nothing was delivered. *)
Theorem failed_publish_burns_cooldown `{E : Env} (a : AlertManager) (h : history)
    (key subject body subject' body' : string) (exc : exn) :
  let now := answer h CMonotonic in
  let h1 := h ++ attempt_log now subject in
  flt (fsub now (last_for a key)) _COOLDOWN_S = false ->
  _disable_sns a = false -> _sns a = true ->
  answer h1 (publish_call a subject body) = inl exc -> is_boto exc = true ->
  exists a2 h2, _maybe_send key subject body a h = (Ok false, a2, h2) /\
    forall h3, flt (fsub (answer h3 CMonotonic) now) _COOLDOWN_S = true ->
      _maybe_send key subject' body' a2 h3 = (Ok false, a2, h3 ++ [Ev CMonotonic (answer h3 CMonotonic)]).
Proof.
  intros now h1 Hgap Hd Hs Hans Hb.
  destruct (_maybe_send key subject body a h) as [[r a2] h2] eqn:Er.
  apply maybe_send_run in Er. unfold maybe_send_outcome in Er. cbv zeta in Er.
  subst now h1. rewrite Hgap, Hd, Hs in Er. simpl in Er. rewrite Hans, Hb in Er.
  destruct Er as (-> & -> & ->). eexists _, _. split; [done|]. intros h3 Hgap3.
  destruct (_maybe_send key subject' body' _ h3) as [[r' a3] h4] eqn:Er.
  apply maybe_send_run in Er. unfold maybe_send_outcome, last_for in Er. cbv zeta in Er.
  simpl in Er. rewrite lookup_insert_eq in Er. simpl in Er.
  rewrite Hgap3 in Er. by destruct Er as (-> & -> & ->).
Qed.

Definition throttled : exn := Exn (ClientError "Throttling") "rate exceeded".

Definition throttling_env : Env := fun h c =>
  match c as c' return resp c' with
  | CMonotonic => Fin (200 # 1)
  | CSnsPublish _ _ _ => inl throttled
  | c' => default_answer c'
  end.

Lemma failed_publish_burns_cooldown_witness :
  exists a2 h2, @_maybe_send throttling_env "k" "s" "b" (init topic false) [] = (Ok false, a2, h2) /\
    forall h3, flt (fsub (throttling_env h3 CMonotonic) (Fin (200 # 1))) _COOLDOWN_S = true ->
      @_maybe_send throttling_env "k" "s" "b" a2 h3
      = (Ok false, a2, h3 ++ [Ev CMonotonic (throttling_env h3 CMonotonic)]).
Proof.
  apply (failed_publish_burns_cooldown (E := throttling_env) (init topic false) [] "k" "s" "b" "s" "b" throttled);
    vm_compute; reflexivity.
Defined.

(** An alert raises only what SNS raises outside the boto classes. *)
Definition one_alert (alerts : list string) (msg : string) : post (S := AlertManager) (list string) :=
  fun r _ _ => match r with
               | Ok l => exists fired, l = alerts ++ [tagged msg fired]
               | Raise e => is_boto e = false
               | NoFuel => False
               end.

Lemma send_tagged `{Env} alerts msg key subject body a h :
  wp (fired ← _maybe_send key subject body; mret (alerts ++ [tagged msg fired])) (one_alert alerts msg) a h.
Proof.
  apply wp_bind. unfold wp, next. destruct (_maybe_send _ _ _ a h) as [[r a'] h'] eqn:Er.
  apply maybe_send_run in Er. unfold maybe_send_outcome in Er. cbv zeta in Er.
  destruct (flt _ _); [destruct Er as (-> & _); by eexists|]. apply proj2 in Er.
  destruct (_disable_sns a || negb (_sns a)); [destruct Er as [-> _]; by eexists|].
  destruct (answer _ (publish_call _ _ _)) as [exc|[]]; [|destruct Er as [-> _]; by eexists].
  destruct (is_boto exc) eqn:Eb; destruct Er as [-> _]; [by eexists|done].
Qed.

(** C39: the quorum alarm.  One message is appended exactly when no strict majority
    of a non-empty cluster is reachable; otherwise the check makes no call and
    changes nothing.  Only an exception SNS raises outside the boto classes
    escapes. *)
Theorem quorum_alert_spec `{E : Env} (snap : ClusterSnapshot) (alerts : list string)
    (a : AlertManager) (h : history) :
  let n := Z.of_nat (length (nodes snap)) in
  let up := Z.of_nat (reachable_count snap) in
  if (n =? 0) || (n <? 2 * up) then _check_quorum_loss snap alerts a h = (Ok alerts, a, h)
  else wp (_check_quorum_loss snap alerts) (one_alert alerts (quorum_msg up n (n / 2 + 1))) a h.
Proof.
  intros n up. unfold _check_quorum_loss. fold n up.
  destruct (Z.eqb_spec n 0) as [Hn|Hn]; [done|]. simpl.
  pose proof (Z.div_mod n 2 ltac:(lia)). pose proof (Z.mod_pos_bound n 2 ltac:(lia)).
  destruct (Z.ltb_spec n (2 * up)), (Z.leb_spec (n / 2 + 1) up); try lia; [done|].
  apply send_tagged.
Qed.

Definition publishes (c : call) : bool := match c with CSnsPublish _ _ _ => true | _ => false end.

(** Alerts raised soon after boot are lost.  [_last_sent.get(key, 0.0)] takes
    the origin of the monotonic clock for a previous notification: while that
    clock reads under 120 s, no session publishes anything, whatever the state
    of the cluster. *)
Theorem no_alert_right_after_boot `{E : Env} (snaps : list ClusterSnapshot) (arn : string) (dis : bool) :
  (forall h, exists q, answer h CMonotonic = Fin q /\ (0 <= q)%Q /\ (q <= 119)%Q) ->
  forall c, c ∈ calls (session snaps (init arn dis) []).2 -> publishes c = false.
Proof.
  intros Hclock.
  set (I := fun (a : AlertManager) (h : history) =>
              _last_sent a = ∅ /\ forall c, c ∈ calls h -> publishes c = false).
  assert (Imono : forall a h r, I a h -> I a (h ++ [Ev CMonotonic r])).
  { intros a h r [H1 H2]. split; [done|]. intros c. unfold calls. rewrite map_app.
    intros [Hc|Hc]%elem_of_app; [auto|]. by apply list_elem_of_singleton in Hc as ->. }
  pose proof (keeps_session I Imono) as K. specialize (K ltac:(intros a h o [H1 H2]; by split)).
  assert (Isend : forall a h key subject body, I a h ->
            wp (_maybe_send key subject body) (fun _ a' h' => I a' h') a h).
  { intros a h key subject body HI. destruct (Hclock h) as (q & Hq & Hq0 & Hq1).
    unfold wp. destruct (_maybe_send key subject body a h) as [[r a'] h'] eqn:Er.
    apply maybe_send_run in Er. unfold maybe_send_outcome, last_for in Er. cbv zeta in Er.
    pose proof HI as [HL _]. rewrite HL, lookup_empty, Hq in Er.
    assert (Hf : flt (fsub (Fin q) (default (Fin (0 # 1)) None)) _COOLDOWN_S = true).
    { eapply fle_lt_trans; [by apply (fsub_0_r_le q 119)|reflexivity]. }
    rewrite Hf in Er. destruct Er as (_ & -> & ->). by apply Imono. }
  specialize (K Isend snaps (init arn dis) []). unfold wp in K.
  assert (H0 : I (init arn dis) []) by (split; [done|intros c Hc; inv Hc]).
  specialize (K H0). destruct (session snaps (init arn dis) []) as [[r a] h]. apply K.
Qed.

Lemma no_alert_right_after_boot_witness :
  existsb publishes
    (calls (session (H := ticking_env 60 0) [sample_split; sample_split] (init topic false) []).2) = false.
Proof.
  destruct (existsb publishes _) eqn:Ex; [|reflexivity].
  apply existsb_exists in Ex as (c & Hc & Hp). apply list_elem_of_In in Hc.
  rewrite (no_alert_right_after_boot (E := ticking_env 60 0) [sample_split; sample_split] topic false) in Hp;
    [discriminate| |exact Hc].
  intros h. exists (inject_Z (60 + 0 * Z.of_nat (length (mono_readings h)))).
  split; [reflexivity|]. rewrite Z.mul_0_l. split; unfold Qle; simpl; lia.
Defined.

(** An incident is identified by its term and its set of leaders: two
    incidents get the same deduplication key exactly when the terms agree and
    the leaders are the same up to the order of the poll (node ids have no
    comma and an incident has leaders). *)
Theorem incident_key_identity (t t' : Z) (ids ids' : list string) :
  forallb (no_char (chr 44)) ids = true -> forallb (no_char (chr 44)) ids' = true ->
  ids <> [] -> ids' <> [] ->
  split_key t ids = split_key t' ids' <-> t = t' /\ ids ≡ₚ ids'.
Proof.
  intros Hc Hc' Hn Hn'. split.
  - unfold split_key. intros H. apply (inj (String.append _)) in H.
    assert (Hsp : forall z x, span_num (str_of_Z z ^^ ":leaders=" ^^ x) = (str_of_Z z, ":leaders=" ^^ x)).
    { intros z x. apply span_num_all; [apply str_of_Z_num|done]. }
    pose proof (f_equal span_num H) as Hs. rewrite !Hsp in Hs. injection Hs as Ht Hj.
    apply (inj str_of_Z) in Ht as ->. split; [done|].
    apply sort_strings_eq. assert (Hall : forall l, l <> [] -> forallb (no_char (chr 44)) l = true ->
      split_on (chr 44) (join "," (sort_strings l)) = sort_strings l).
    { intros l Hne Hl. apply split_join.
      - intros E. pose proof (sort_strings_perm l) as Hp. rewrite E in Hp.
        by apply Permutation_nil_l in Hp.
      - rewrite forallb_forall in *. intros x Hx. apply Hl.
        apply list_elem_of_In. rewrite <- (sort_strings_perm l). by apply list_elem_of_In. }
    rewrite <- (Hall ids), <- (Hall ids') by done. change (join "," (sort_strings ids) = join "," (sort_strings ids')) in Hj. by rewrite Hj.
  - intros [-> H]. unfold split_key. by apply sort_strings_eq in H as ->.
Qed.

Lemma incident_key_identity_witness :
  split_key 3 ["a"; "b"]%string = split_key 3 ["b"; "a"]%string <-> 3 = 3 /\ ["a"; "b"]%string ≡ₚ ["b"; "a"]%string.
Proof. apply incident_key_identity; [reflexivity..|discriminate|discriminate]. Defined.

(** ** The leaderless timer *)

Definition has_leader (snap : ClusterSnapshot) : bool :=
  match leader snap with Some _ => true | None => false end.

Arguments has_leader : simpl never.

(** A single leader excludes a split. *)
Lemma leader_no_split snap : has_leader snap = true -> split_brain_message snap = None.
Proof.
  unfold has_leader, leader, leaders. intros H. apply split_brain_None. intros t Ht.
  unfold split_term in Ht. rewrite leaders_at_count in Ht.
  assert (Hle : (count (leads t) (nodes snap) <= count is_leader (nodes snap))%nat).
  { induction (nodes snap) as [|n l IH]; [done|]. rewrite !count_cons.
    assert (count (leads t) l <= count is_leader l)%nat.
    { clear. induction l as [|m l IH]; [done|]. rewrite !count_cons. unfold leads at 1.
      destruct (is_leader m), (current_term m =? t); simpl; lia. }
    unfold leads at 1. destruct (is_leader n), (current_term n =? t); simpl; lia. }
  unfold count in Hle at 2. destruct (List.filter is_leader (nodes snap)) as [|x [|y l]]; simpl in *; try discriminate. lia.
Qed.

(** The part of a method that concerns the timer: it leaves it alone. *)
Definition timer_kept {A} `{Env} (m : M AlertManager A) : Prop :=
  forall a h, wp m (fun r a' _ => _leaderless_since a' = _leaderless_since a /\ r <> NoFuel) a h.

Section timer.
Context `{E : Env}.

Lemma timer_ret {A} (x : A) : timer_kept (mret x).
Proof. by intros a h. Qed.

Lemma timer_bind {A B} (m : M AlertManager A) (f : A -> M AlertManager B) :
  timer_kept m -> (forall x, timer_kept (f x)) -> timer_kept (m ≫= f).
Proof.
  intros Hm Hf a h. apply wp_bind. eapply wp_mono; [|apply Hm].
  intros [x|e|] a' h' [Ha Hr]; simpl; [|done|done].
  eapply wp_mono; [|apply Hf]. intros r a'' h'' [Ha' Hr']. by rewrite Ha', Ha.
Qed.

Lemma timer_send key subject body : timer_kept (_maybe_send key subject body).
Proof.
  intros a h. unfold wp. destruct (_maybe_send key subject body a h) as [[r a'] h'] eqn:Er.
  apply maybe_send_run in Er. unfold maybe_send_outcome in Er. cbv zeta in Er.
  destruct (flt _ _); [by destruct Er as (-> & -> & _)|]. destruct Er as [-> Er].
  destruct (_disable_sns a || negb (_sns a)); [by destruct Er as [-> _]|].
  destruct (answer _ (publish_call _ _ _)) as [exc|[]]; [|by destruct Er as [-> _]].
  destruct (is_boto exc); by destruct Er as [-> _].
Qed.

Lemma timer_tagged (alerts : list string) msg key subject body :
  timer_kept (fired ← _maybe_send key subject body; mret (alerts ++ [tagged msg fired])).
Proof. apply timer_bind; [apply timer_send|intros x; apply timer_ret]. Qed.

Lemma timer_split snap alerts : timer_kept (_check_split_brain snap alerts).
Proof.
  unfold _check_split_brain. destruct (split_brain_message snap) as [msg|]; [|apply timer_ret].
  revert alerts. induction (leaders_by_term (nodes snap)) as [|[t ids] d IH]; intros alerts; simpl; [apply timer_ret|].
  apply timer_bind; [|done]. case_if; [apply timer_tagged|apply timer_ret].
Qed.

Lemma timer_quorum snap alerts : timer_kept (_check_quorum_loss snap alerts).
Proof.
  unfold _check_quorum_loss. case_if; [apply timer_ret|]. case_if; [apply timer_ret|]. apply timer_tagged.
Qed.

(** What one check makes of the timer. *)
Definition timer_step (snap : ClusterSnapshot) (a a' : AlertManager) (l : history) : Prop :=
  if has_leader snap then _leaderless_since a' = None
  else _leaderless_since a' = _leaderless_since a \/
       (_leaderless_since a = None /\
        exists t, _leaderless_since a' = Some t /\ t ∈ mono_readings l).

#[local] Instance ext_maybe_send key subject body : Extends (_maybe_send key subject body).
Proof. unfold _maybe_send. ext_auto. Qed.
#[local] Instance ext_split snap alerts : Extends (_check_split_brain snap alerts).
Proof. unfold _check_split_brain, alert_term. ext_auto. Qed.
#[local] Instance ext_no_leader snap alerts : Extends (_check_no_leader snap alerts).
Proof. unfold _check_no_leader. ext_auto. Qed.
#[local] Instance ext_quorum snap alerts : Extends (_check_quorum_loss snap alerts).
Proof. unfold _check_quorum_loss. ext_auto. Qed.
#[export] Instance ext_check_alerts snap : Extends (check_alerts snap).
Proof. unfold check_alerts. ext_auto. Qed.
End timer.

Section timer_session.
Context `{E : Env}.

Lemma check_no_leader_timer snap alerts a h :
  wp (_check_no_leader snap alerts)
     (fun r a' h' => r <> NoFuel /\ exists l, h' = h ++ l /\ timer_step snap a a' l) a h.
Proof.
  assert (Hx := ext_no_leader snap alerts a h). destruct Hx as [l Hl].
  enough (Hw : wp (_check_no_leader snap alerts)
    (fun r a' _ => r <> NoFuel /\ timer_step snap a a' l) a h).
  { unfold wp in *. destruct (_check_no_leader snap alerts a h) as [[r a'] h']. simpl in Hl. naive_solver. }
  revert Hl. unfold _check_no_leader, timer_step, has_leader. destruct (leader snap) eqn:El.
  - intros _. wp_steps. done.
  - unfold wp, mbind, M_bind, ask, get. simpl.
    destruct (_leaderless_since a) as [since|] eqn:Es.
    + case_if; [intros _; unfold mret, M_ret; split; [done|by left]|].
      intros _. pose proof (timer_tagged alerts
        (no_leader_msg (fsub (answer h CMonotonic) since) (snap_current_term snap))
        (no_leader_key (snap_current_term snap)) no_leader_subject
        (no_leader_body (fsub (answer h CMonotonic) since)
           (map node_id (List.filter reachable (nodes snap))) (snap_current_term snap))
        a (h ++ [Ev CMonotonic (answer h CMonotonic)])) as K.
      unfold wp in K. unfold mbind, M_bind in K. unfold mbind, M_bind.
      destruct (_maybe_send _ _ _ a _) as [[[x|e|] a'] h']; simpl in *; destruct K as [K1 K2];
        (split; [done|left; congruence]).
    + unfold modify, mret, M_ret. simpl. intros Hl. apply app_inv_head in Hl as <-.
      split; [done|]. right. split; [done|]. eexists. split; [done|]. left.
Qed.

Lemma check_timer snap a h :
  wp (check_alerts snap)
     (fun r a' h' => r <> NoFuel /\ exists l, h' = h ++ l /\ timer_step snap a a' l) a h.
Proof.
  unfold check_alerts. apply wp_bind.
  destruct (ext_split snap [] a h) as [l1 E1]. pose proof (timer_split snap [] a h) as T1.
  destruct (has_leader snap) eqn:Hl.
  { unfold _check_split_brain, wp in *. rewrite leader_no_split in * by done.
    simpl in *. clear E1 T1. apply wp_bind. eapply wp_mono; [|apply check_no_leader_timer].
    intros [a2|e|] a' h' [Hr (l & -> & Hs)]; simpl; [|by eauto|done].
    destruct (ext_quorum snap a2 a' (h ++ l)) as [l2 E2]. pose proof (timer_quorum snap a2 a' (h ++ l)) as T2.
    unfold wp in *. destruct (_check_quorum_loss snap a2 a' (h ++ l)) as [[r a''] h'']. simpl in *. subst.
    destruct T2 as [T2 ?]. split; [done|]. exists (l ++ l2). split; [by rewrite app_assoc|].
    unfold timer_step in *. rewrite Hl in *. congruence. }
  unfold wp in *. destruct (_check_split_brain snap [] a h) as [[[a1|e|] a'] h']; simpl in *; destruct T1 as [T1 T1']; subst.
  2: { split; [done|]. eexists; split; [done|]. unfold timer_step. rewrite Hl. by left. }
  2: done.
  pose proof (check_no_leader_timer snap a1 a' (h ++ l1)) as K. unfold wp, mbind, M_bind in *.
  destruct (_check_no_leader snap a1 a' (h ++ l1)) as [[[a2|e|] a''] h''] ; simpl in *;
    destruct K as [K (l & -> & Hs)].
  2: { split; [done|]. exists (l1 ++ l). split; [by rewrite app_assoc|]. revert Hs. unfold timer_step. rewrite Hl, T1.
       intros [Hs|(Hn & t & Hs & Ht)]; [by left|right]. split; [done|]. exists t. split; [done|].
       rewrite mono_readings_app. apply elem_of_app. by right. }
  2: done.
  destruct (ext_quorum snap a2 a'' ((h ++ l1) ++ l)) as [l2 E2].
  pose proof (timer_quorum snap a2 a'' ((h ++ l1) ++ l)) as T2. unfold wp in T2.
  destruct (_check_quorum_loss snap a2 a'' _) as [[r a3] h3]. simpl in *. subst. destruct T2 as [T2 ?].
  split; [done|]. exists (l1 ++ l ++ l2). split; [by rewrite !app_assoc|]. revert Hs. unfold timer_step. rewrite Hl, T1, T2.
  intros [Hs|(Hn & t & Hs & Ht)]; [by left|right]. split; [done|]. exists t. split; [done|].
  rewrite !mono_readings_app, !elem_of_app. by right; left.
Qed.
End timer_session.

(** Since when the cluster of a session is leaderless: the trailing run of
    snapshots without a leader, and the readings made during it. *)
Definition leaderless_run `{Env} (snaps : list ClusterSnapshot) (a : AlertManager) (h : history)
    (t : float) (h' : history) : Prop :=
  exists s1 s2 l2, snaps = s1 ++ s2 /\ s2 <> [] /\ forallb (fun c => negb (has_leader c)) s2 = true /\
    h' = (session s1 a h).2 ++ l2 /\ t ∈ mono_readings l2.

Lemma session_cons `{Env} snap snaps a h :
  exists x a1 h1, (check_alerts snap a h).1.2 = a1 /\ (check_alerts snap a h).2 = h1 /\
    try_except (check_alerts snap) (fun _ => mret []) a h = (x, a1, h1) /\
    (forall ss, (session (snap :: ss) a h).2 = match x with Ok _ => (session ss a1 h1).2 | _ => h1 end) /\
    (x <> NoFuel -> (session (snap :: snaps) a h).1.2 = (session snaps a1 h1).1.2) /\
    (x <> NoFuel <-> (check_alerts snap a h).1.1 <> NoFuel) /\ (forall e, x <> Raise e).
Proof.
  simpl. unfold try_except, mbind, M_bind.
  destruct (check_alerts snap a h) as [[[y|e|] a1] h1]; simpl; do 3 eexists; (split; [done|]); (split; [done|]);
    (split; [done|]); simpl; (split; [intros ss; simpl; destruct (session ss a1 h1) as [[[?|?|] ?] ?]; done|]);
    (split; [intros ?; try done; destruct (session snaps a1 h1) as [[[?|?|] ?] ?]; done|]); done.
Qed.

Lemma session_timer `{E : Env} (snaps : list ClusterSnapshot) (a : AlertManager) (h : history) t :
  _leaderless_since (session snaps a h).1.2 = Some t ->
  (_leaderless_since a = Some t /\ forallb (fun c => negb (has_leader c)) snaps = true) \/
  leaderless_run snaps a h t (session snaps a h).2.
Proof.
  revert a h. induction snaps as [|snap snaps IH]; intros a h Ht; [by left|].
  destruct (session_cons snap snaps a h) as (x & a1 & h1 & Ha1 & Hh1 & _ & Hlog & Hst & Hf & Hnr).
  pose proof (check_timer snap a h) as K. unfold wp in K.
  destruct (check_alerts snap a h) as [[r a'] h']. cbn [fst snd] in *. subst a' h'.
  destruct K as [Hr (l & -> & Hs)]. assert (Hx : x <> NoFuel) by tauto.
  rewrite (Hst Hx) in Ht. destruct x as [xs|e|]; [|by destruct (Hnr e)|done].
  rewrite Hlog. unfold timer_step in Hs. destruct (IH _ _ Ht) as [[H1 H2]|H1].
  - destruct (has_leader snap) eqn:Hl; [congruence|]. destruct Hs as [Hs|(Hn & t' & Hs & Hin)].
    + left. split; [congruence|]. simpl. by rewrite Hl, H2.
    + right. exists [], (snap :: snaps), (l ++ drop (length (h ++ l)) (session snaps a1 (h ++ l)).2).
      assert (Extends (session snaps)) as Hext.
      { clear. induction snaps as [|c cs IH]; simpl; ext_auto. }
      destruct (Hext a1 (h ++ l)) as [l2 E2]. simpl. rewrite E2, drop_app_length.
      repeat split; [|simpl; by rewrite Hl, H2|by rewrite app_assoc|].
      * done.
      * rewrite mono_readings_app. apply elem_of_app. left. congruence.
  - right. destruct H1 as (s1 & s2 & l2 & -> & Hne & Hall & El & Hin).
    exists (snap :: s1), s2, l2. rewrite Hlog. done.
Qed.

(** C36: the leaderless timer is honest.  After any session, a running timer was
    started by a clock reading made during the current, uninterrupted run of
    leaderless snapshots, so the elapsed time the no-leader alert reports never
    includes a period with a leader; and it is off after a snapshot with a
    leader. *)
Theorem leaderless_timer_honest `{E : Env} (snaps : list ClusterSnapshot) (arn : string) (dis : bool) :
  let '(_, a, h) := session snaps (init arn dis) [] in
  match _leaderless_since a with
  | Some t => leaderless_run snaps (init arn dis) [] t h
  | None => True
  end /\
  (forall s snap, snaps = s ++ [snap] -> has_leader snap = true -> _leaderless_since a = None).
Proof.
  pose proof (session_timer snaps (init arn dis) []) as K.
  destruct (session snaps (init arn dis) []) as [[r a] h] eqn:Es. simpl in K. split.
  - destruct (_leaderless_since a) as [t|]; [|done]. destruct (K t eq_refl) as [[H _]|H]; done.
  - intros s snap -> Hl. destruct (_leaderless_since a) as [t|]; [|done].
    destruct (K t eq_refl) as [[H _]|(s1 & s2 & l2 & Heq & Hne & Hall & _)]; [done|].
    destruct s2 as [|y s2 _] using rev_ind; [done|].
    rewrite app_assoc in Heq. apply app_inj_tail in Heq as [_ <-].
    rewrite forallb_app in Hall. cbn [forallb] in Hall. rewrite Hl in Hall. by rewrite andb_comm in Hall.
Qed.

Lemma leaderless_timer_honest_witness :
  let snaps := [sample_split; sample_split; sample_split] in
  match _leaderless_since (session (H := ticking_env 200 30) snaps (init topic false) []).1.2 with
  | Some t => leaderless_run (H := ticking_env 200 30) snaps (init topic false) [] t
                (session (H := ticking_env 200 30) snaps (init topic false) []).2
  | None => True
  end.
Proof.
  intros snaps. pose proof (leaderless_timer_honest (E := ticking_env 200 30) snaps topic false) as K.
  destruct (session snaps (init topic false) []) as [[r a] h]. apply K.
Defined.

(** The no-leader check on every branch.  With exactly one leader the timer is
    cleared; otherwise the first such poll starts it, and later ones alert
    exactly when ten seconds have passed since, naming the elapsed time and the
    highest reachable term. *)
Theorem no_leader_spec `{E : Env} (snap : ClusterSnapshot) (alerts : list string)
    (a : AlertManager) (h : history) :
  let now := answer h CMonotonic in
  let h1 := h ++ [Ev CMonotonic now] in
  match leader snap, _leaderless_since a with
  | Some _, _ => _check_no_leader snap alerts a h = (Ok alerts, with_leaderless None a, h)
  | None, None => _check_no_leader snap alerts a h = (Ok alerts, with_leaderless (Some now) a, h1)
  | None, Some since =>
      if flt (fsub now since) _NO_LEADER_TIMEOUT_S then _check_no_leader snap alerts a h = (Ok alerts, a, h1)
      else wp (_check_no_leader snap alerts)
              (one_alert alerts (no_leader_msg (fsub now since) (snap_current_term snap))) a h
  end.
Proof.
  intros now h1. unfold _check_no_leader. destruct (leader snap); [done|].
  destruct (_leaderless_since a) as [since|] eqn:Es.
  - destruct (flt (fsub now since) _NO_LEADER_TIMEOUT_S) eqn:Ef.
    + unfold mbind, M_bind, ask, get. fold now h1. by rewrite Es, Ef.
    + apply wp_bind, wp_ask. simpl. apply wp_bind, wp_get. simpl. fold now h1. rewrite Es, Ef. apply send_tagged.
  - unfold mbind, M_bind, ask, get. fold now h1. by rewrite Es.
Qed.


(** The terms of a snapshot with more than one leader. *)
Definition split_terms (snap : ClusterSnapshot) : nat :=
  count (fun tl => (1 <? length tl.2)%nat) (leaders_by_term (nodes snap)).

(** One alert per split term, but every text is that of the first split term:
    with two terms split at once the second alert is sent under the key and
    subject of its own term and with the message of the first. *)
Theorem split_alert_texts `{E : Env} (snap : ClusterSnapshot) (alerts : list string) (msg : string)
    (a : AlertManager) (h : history) :
  split_brain_message snap = Some msg ->
  wp (_check_split_brain snap alerts)
     (fun r _ _ => match r with
                   | Ok l => exists fired, length fired = split_terms snap /\ l = alerts ++ map (tagged msg) fired
                   | Raise e => is_boto e = false
                   | NoFuel => False
                   end) a h.
Proof.
  intros Hm. unfold _check_split_brain, split_terms. rewrite Hm. clear Hm.
  revert alerts a h. induction (leaders_by_term (nodes snap)) as [|[t ids] d IH]; intros alerts a h; simpl.
  - apply wp_ret. exists []. by rewrite app_nil_r.
  - rewrite count_cons. simpl. apply wp_bind. destruct (1 <? length ids)%nat.
    + eapply wp_mono; [|apply send_tagged]. intros [l|e|] a' h'; simpl; [|done|done].
      intros [f ->]. eapply wp_mono; [|apply IH]. intros [l|e|] a'' h''; [|done|done].
      intros (fs & Hl & ->). exists (f :: fs). split; [simpl; lia|]. by rewrite <- app_assoc.
    + apply wp_ret. simpl. apply IH.
Qed.

Definition double_split : ClusterSnapshot :=
  {| nodes := [sample_node "a" "leader" 7 true; sample_node "b" "leader" 7 true;
               sample_node "c" "leader" 8 true; sample_node "d" "leader" 8 true]%string;
     snap_polled_at := Fin (0 # 1) |}.

Lemma split_alert_texts_witness :
  match (_check_split_brain (H := ticking_env 200 30) double_split [] (init topic false) []).1.1 with
  | Ok l => exists fired, length fired = 2%nat /\
              l = map (tagged "SPLIT-BRAIN DETECTED: term=7 multiple leaders: a, b") fired
  | _ => False
  end.
Proof.
  pose proof (split_alert_texts (E := ticking_env 200 30) double_split [] _ (init topic false) [] eq_refl) as K.
  unfold wp in K. destruct (_check_split_brain double_split [] (init topic false) []) as [[[l|e|] a] h] eqn:Er;
    simpl; [|by vm_compute in Er..].
  destruct K as (fs & Hl & ->). exists fs. split; [by rewrite Hl|done].
Defined.
