(* ===== verification/Metrics.v ===== *)
(** * Metrics: Prometheus gauges and CloudWatch batches (state-observer/metrics.py)

    [MetricsPublisher] is the object state.  The gauges live in the client
    library; a [gauge_set] is a call, and [gauges] reads the exposed values back
    from the log of calls. *)

From stdpp Require Import base gmap list strings.
From Stdlib Require Import ZArith.
From S2P Require Import Prelude PyFloat PyStr PyDict Json Runtime RaftClient.

Local Open Scope Z_scope.
Local Open Scope driftless_scope.

Record MetricsPublisher : Type := mkPublisher {
  _namespace : string;
  _cw_interval : float;
  _disable_cw : bool;
  _last_cw_publish : float;
  _pending_metrics : list datum;
}.

Definition with_pending (l : list datum) (p : MetricsPublisher) : MetricsPublisher :=
  {| _namespace := _namespace p; _cw_interval := _cw_interval p; _disable_cw := _disable_cw p;
     _last_cw_publish := _last_cw_publish p; _pending_metrics := l |}.

Definition with_last_publish (t : float) (p : MetricsPublisher) : MetricsPublisher :=
  {| _namespace := _namespace p; _cw_interval := _cw_interval p; _disable_cw := _disable_cw p;
     _last_cw_publish := t; _pending_metrics := _pending_metrics p |}.

(** [MetricsPublisher.__init__]: the object, and the calls of its construction. *)
Definition init `{Env} {S} (prometheus_port : Z) (cw_namespace : string)
    (cw_publish_interval_s : float) (disable_cloudwatch : bool) : M S MetricsPublisher :=
  check (ask (CHttpServer prometheus_port));;
  log_msg INFO ("Prometheus /metrics available on port " ^^ str_of_Z prometheus_port);;
  (if disable_cloudwatch then log_msg INFO "CloudWatch publishing disabled"
   else log_msg INFO ("CloudWatch publisher ready (namespace=" ^^ cw_namespace ^^ ")"));;
  mret {| _namespace := cw_namespace; _cw_interval := cw_publish_interval_s;
          _disable_cw := disable_cloudwatch; _last_cw_publish := Fin (QArith_base.Qmake 0 1);
          _pending_metrics := [] |}.

(** [_cw_datum]; every value is an int of the observer, converted by [float], which
    refuses an int beyond the range of floats. *)
Definition _cw_datum (metric_name : string) (value : Z) (unit_ : string)
    (dimensions : list (string * string)) (timestamp : string) : res datum :=
  match of_Z value with
  | Fin q =>
      Ok {| d_name := metric_name; d_value := Fin q; d_unit := unit_; d_timestamp := timestamp;
            d_dimensions := match dimensions with [] => None | _ => Some dimensions end |}
  | _ => Raise (Exn OverflowError "int too large to convert to float")
  end.

Definition bit (b : bool) : Z := if b then 1 else 0.

(** [1 if snap.split_brain_message() else 0]: the text is never empty. *)
Definition split_bit (snap : ClusterSnapshot) : Z :=
  match split_brain_message snap with Some msg => bit (truthy msg) | None => 0 end.

Definition leader_bit (snap : ClusterSnapshot) : Z :=
  match leader snap with Some _ => 1 | None => 0 end.

Definition leader_term (snap : ClusterSnapshot) : Z :=
  match leader snap with Some n => current_term n | None => 0 end.

Definition node_gauges {S} (n : NodeState) : M S unit :=
  let nid := node_id n in
  gauge_set "raft_current_term" [nid] (current_term n);;
  gauge_set "raft_commit_index" [nid] (commit_index n);;
  gauge_set "raft_log_length" [nid] (log_length n);;
  gauge_set "raft_is_leader" [nid] (bit (is_leader n));;
  gauge_set "raft_node_up" [nid] (bit (reachable n));;
  for_each (replication_lags n) (fun pl => gauge_set "raft_replication_lag" [nid; pl.1] pl.2).

Definition _update_prometheus {S} (snap : ClusterSnapshot) : M S unit :=
  for_each (nodes snap) node_gauges;;
  gauge_set "raft_has_leader" [] (leader_bit snap);;
  gauge_set "raft_split_brain" [] (split_bit snap);;
  gauge_set "raft_leader_term" [] (leader_term snap);;
  gauge_set "raft_nodes_up" [] (Z.of_nat (reachable_count snap)).

(** [self._pending_metrics += l]. *)
Definition stage (l : list datum) : M MetricsPublisher unit :=
  modify (fun p => with_pending (_pending_metrics p ++ l) p).

(** The data of a list are made, from the first to the last, before any is staged. *)
Definition stage_all (l : list (res datum)) : M MetricsPublisher unit :=
  data ← lift (map_res (fun r => r) l); stage data.

Definition stage_node (ts : string) (n : NodeState) : M MetricsPublisher unit :=
  let nid := node_id n in
  let dim := [("NodeId", nid)]%string in
  stage_all [_cw_datum "CurrentTerm" (current_term n) "Count" dim ts;
         _cw_datum "CommitIndex" (commit_index n) "Count" dim ts;
         _cw_datum "LogLength" (log_length n) "Count" dim ts;
         _cw_datum "IsLeader" (bit (is_leader n)) "Count" dim ts;
         _cw_datum "NodeUp" (bit (reachable n)) "Count" dim ts];;
  for_each (replication_lags n) (fun pl =>
    let rep_dim := [("LeaderId", nid); ("PeerId", pl.1)]%string in
    stage_all [_cw_datum "ReplicationLag" pl.2 "Count" rep_dim ts]).

Definition _buffer_cloudwatch `{Env} (snap : ClusterSnapshot) : M MetricsPublisher unit :=
  ts ← ask (CStrftime "%Y-%m-%dT%H:%M:%SZ");
  for_each (nodes snap) (stage_node ts);;
  stage_all [_cw_datum "HasLeader" (leader_bit snap) "Count" [] ts;
         _cw_datum "SplitBrain" (split_bit snap) "Count" [] ts;
         _cw_datum "LeaderTerm" (leader_term snap) "Count" [] ts;
         _cw_datum "NodesUp" (Z.of_nat (reachable_count snap)) "Count" [] ts].

Definition batch_size : nat := 1000.

Definition publish_batch `{Env} (batch : list datum) : M MetricsPublisher unit :=
  self ← get;
  try_except
    (check (ask (CPutMetricData (_namespace self) batch));;
     log_msg DEBUG ("CloudWatch: published " ^^ str_of_nat (length batch) ^^ " metrics"))
    (fun exc => if is_boto exc then log_msg WARNING ("CloudWatch publish failed: " ^^ exn_str exc)
                else raise exc).

Definition _flush_cloudwatch `{Env} : M MetricsPublisher unit :=
  self ← get;
  match _pending_metrics self with
  | [] => mret tt
  | pending =>
      let batches := batches_of batch_size pending in
      modify (with_pending []);;
      now ← ask CMonotonic;
      modify (with_last_publish now);;
      for_each batches publish_batch
  end.

Definition update `{Env} (snapshot : ClusterSnapshot) : M MetricsPublisher unit :=
  _update_prometheus snapshot;;
  self ← get;
  if _disable_cw self then mret tt
  else
    _buffer_cloudwatch snapshot;;
    now ← ask CMonotonic;
    self ← get;
    if fle (_cw_interval self) (fsub now (_last_cw_publish self)) then _flush_cloudwatch else mret tt.

(** ** Abstract view: the data of a snapshot, the data sent *)

(** A point: name, value and dimensions; the points of a snapshot, in the groups in
    which they are staged. *)
Abbreviation point := (string * Z * list (string * string))%type.

Definition node_points (n : NodeState) : list (list point) :=
  let dim := [("NodeId", node_id n)]%string in
  [("CurrentTerm", current_term n, dim); ("CommitIndex", commit_index n, dim); ("LogLength", log_length n, dim);
   ("IsLeader", bit (is_leader n), dim); ("NodeUp", bit (reachable n), dim)]%string ::
  map (fun pl => [("ReplicationLag"%string, pl.2, [("LeaderId", node_id n); ("PeerId", pl.1)]%string)]) (replication_lags n).

Definition snapshot_points (snap : ClusterSnapshot) : list (list point) :=
  concat (map node_points (nodes snap)) ++
  [[("HasLeader", leader_bit snap, []); ("SplitBrain", split_bit snap, []);
    ("LeaderTerm", leader_term snap, []); ("NodesUp", Z.of_nat (reachable_count snap), [])]%string].

Definition datum_at (ts : string) (x : point) : datum :=
  let '(name, value, dims) := x in
  {| d_name := name; d_value := of_Z value; d_unit := "Count"; d_timestamp := ts;
     d_dimensions := match dims with [] => None | _ => Some dims end |}.

(** The data of a snapshot. *)
Definition snapshot_data (ts : string) (snap : ClusterSnapshot) : list datum :=
  map (datum_at ts) (concat (snapshot_points snap)).

(** What is staged: the groups before the first that holds an int beyond the range
    of floats, and whether that is all. *)
Definition in_range (x : point) : bool := is_fin (of_Z x.1.2).

Fixpoint staged (ts : string) (groups : list (list point)) : list datum * bool :=
  match groups with
  | [] => ([], true)
  | g :: groups' =>
      if forallb in_range g then let '(l, all) := staged ts groups' in (map (datum_at ts) g ++ l, all) else ([], false)
  end.

Definition staged_data (ts : string) (snap : ClusterSnapshot) : list datum := (staged ts (snapshot_points snap)).1.

Definition representable (snap : ClusterSnapshot) : bool := forallb (forallb in_range) (snapshot_points snap).

Definition overflow : exn := Exn OverflowError "int too large to convert to float".

(** The batches handed to [PutMetricData], with their namespace. *)
Definition put_call (e : event) : option (string * list datum) :=
  match ev_call e with CPutMetricData ns b => Some (ns, b) | _ => None end.

Definition puts (h : history) : list (string * list datum) := omap put_call h.

(** The timestamps read, one per staged snapshot. *)
Definition stamp (e : event) : option string :=
  match e with
  | Ev c r => match c as c' return resp c' -> option string with
              | CStrftime _ => fun r => Some r
              | _ => fun _ => None
              end r
  end.

Definition stamps (h : history) : list string := omap stamp h.

Create HintDb metrics.

Lemma puts_app h1 h2 : puts (h1 ++ h2) = puts h1 ++ puts h2.
Proof. apply omap_app. Qed.

Lemma stamps_app h1 h2 : stamps (h1 ++ h2) = stamps h1 ++ stamps h2.
Proof. apply omap_app. Qed.

#[local] Hint Rewrite puts_app stamps_app app_nil_r : metrics.

Lemma stage_run l p h : stage l p h = (Ok tt, with_pending (_pending_metrics p ++ l) p, h).
Proof. done. Qed.

Lemma with_pending_twice l l' p : with_pending l (with_pending l' p) = with_pending l p.
Proof. done. Qed.

Lemma concat_singletons {A B} (g : A -> B) (l : list A) : concat (map (fun x => [g x]) l) = map g l.
Proof. induction l; simpl; congruence. Qed.

(** Staging a group of points. *)
Definition stage_points (ts : string) (g : list point) : M MetricsPublisher unit :=
  stage_all (map (fun x => _cw_datum x.1.1 x.1.2 "Count" x.2 ts) g).

Lemma point_datum ts (x : point) :
  _cw_datum x.1.1 x.1.2 "Count" x.2 ts = if in_range x then Ok (datum_at ts x) else Raise overflow.
Proof. destruct x as [[name v] dims]. unfold _cw_datum, in_range, datum_at. cbn [fst snd]. by destruct (of_Z v). Qed.

Lemma points_data ts (g : list point) :
  map_res (fun r => r) (map (fun x => _cw_datum x.1.1 x.1.2 "Count" x.2 ts) g) =
  if forallb in_range g then Ok (map (datum_at ts) g) else Raise overflow.
Proof.
  induction g as [|x g IH]; [done|]. cbn [map map_res forallb]. rewrite point_datum.
  destruct (in_range x); [|done]. cbn [mbind res_bind andb]. rewrite IH. by destruct (forallb in_range g).
Qed.

Lemma stage_groups ts (groups : list (list point)) p h :
  for_each groups (stage_points ts) p h =
  ((if (staged ts groups).2 then Ok tt else Raise overflow),
   with_pending (_pending_metrics p ++ (staged ts groups).1) p, h).
Proof.
  revert p. induction groups as [|g groups IH]; intros p.
  - simpl. rewrite app_nil_r. by destruct p.
  - cbn [for_each staged]. unfold mbind at 1, M_bind at 1. unfold stage_points at 1, stage_all, lift, mbind, M_bind.
    rewrite points_data. destruct (forallb in_range g).
    + rewrite stage_run, IH, with_pending_twice. cbn [_pending_metrics with_pending].
      destruct (staged ts groups) as [l all]. cbn [fst snd]. by rewrite <- app_assoc.
    + cbn [fst snd]. rewrite app_nil_r. by destruct p.
Qed.

(** Loops one after the other. *)
Lemma for_each_app {S A} (l1 l2 : list A) (body : A -> M S unit) s h :
  for_each (l1 ++ l2) body s h = (for_each l1 body;; for_each l2 body) s h.
Proof.
  revert s h. induction l1 as [|x l1 IH]; intros s h; [done|]. cbn [app for_each]. unfold mbind, M_bind in *.
  destruct (body x s h) as [[[[]|e|] s'] h']; [apply IH|done|done].
Qed.

Lemma for_each_ext {S A} (l : list A) (b1 b2 : A -> M S unit) s h :
  (forall x s h, b1 x s h = b2 x s h) -> for_each l b1 s h = for_each l b2 s h.
Proof.
  intros Hb. revert s h. induction l as [|x l IH]; intros s h; [done|]. cbn [for_each]. unfold mbind, M_bind.
  rewrite Hb. destruct (b2 x s h) as [[[[]|e|] s'] h']; [apply IH|done|done].
Qed.

Lemma for_each_concat {S A B} (f : A -> list B) (l : list A) (body : B -> M S unit) s h :
  for_each (concat (map f l)) body s h = for_each l (fun x => for_each (f x) body) s h.
Proof.
  revert s h. induction l as [|x l IH]; intros s h; [done|]. cbn [map concat for_each]. rewrite for_each_app.
  unfold mbind, M_bind. destruct (for_each (f x) body s h) as [[[[]|e|] s'] h']; [apply IH|done|done].
Qed.

Lemma for_each_map {S A B} (f : A -> B) (l : list A) (body : B -> M S unit) s h :
  for_each (map f l) body s h = for_each l (fun x => body (f x)) s h.
Proof.
  revert s h. induction l as [|x l IH]; intros s h; [done|]. cbn [map for_each]. unfold mbind, M_bind.
  destruct (body (f x) s h) as [[[[]|e|] s'] h']; [apply IH|done|done].
Qed.

Lemma stage_node_points ts n p h : stage_node ts n p h = for_each (node_points n) (stage_points ts) p h.
Proof.
  unfold stage_node, node_points. cbn [for_each]. unfold mbind, M_bind.
  change (stage_points ts [_; _; _; _; _]) with (stage_all [_cw_datum "CurrentTerm" (current_term n) "Count" [("NodeId"%string, node_id n)] ts;
    _cw_datum "CommitIndex" (commit_index n) "Count" [("NodeId"%string, node_id n)] ts;
    _cw_datum "LogLength" (log_length n) "Count" [("NodeId"%string, node_id n)] ts;
    _cw_datum "IsLeader" (bit (is_leader n)) "Count" [("NodeId"%string, node_id n)] ts;
    _cw_datum "NodeUp" (bit (reachable n)) "Count" [("NodeId"%string, node_id n)] ts]).
  destruct (stage_all _ p h) as [[[[]|e|] p'] h']; [|done|done]. by rewrite for_each_map.
Qed.

Lemma buffer_run `{E : Env} snap p h :
  let ts := answer h (CStrftime "%Y-%m-%dT%H:%M:%SZ") in
  _buffer_cloudwatch snap p h =
  ((if representable snap then Ok tt else Raise overflow),
   with_pending (_pending_metrics p ++ staged_data ts snap) p,
   h ++ [Ev (CStrftime "%Y-%m-%dT%H:%M:%SZ") ts]).
Proof.
  intros ts. transitivity (for_each (snapshot_points snap) (stage_points ts) p (h ++ [Ev (CStrftime "%Y-%m-%dT%H:%M:%SZ") ts])).
  - unfold _buffer_cloudwatch, snapshot_points. rewrite for_each_app. unfold ask. unfold mbind, M_bind. fold ts.
    rewrite for_each_concat, (for_each_ext _ (stage_node ts) (fun n => for_each (node_points n) (stage_points ts)))
      by (intros; apply stage_node_points).
    destruct (for_each (nodes snap) _ p _) as [[[[]|e|] p'] h']; [|done|done].
    cbn [for_each]. unfold mbind, M_bind.
    change (stage_points ts [_; _; _; _]) with (stage_all [_cw_datum "HasLeader" (leader_bit snap) "Count" [] ts;
      _cw_datum "SplitBrain" (split_bit snap) "Count" [] ts; _cw_datum "LeaderTerm" (leader_term snap) "Count" [] ts;
      _cw_datum "NodesUp" (Z.of_nat (reachable_count snap)) "Count" [] ts]).
    by destruct (stage_all _ p' h') as [[[[]|e|] p''] h''].
  - rewrite stage_groups. unfold staged_data. f_equal. f_equal. unfold representable.
    generalize (snapshot_points snap). intros gs. replace (staged ts gs).2 with (forallb (forallb in_range) gs); [done|].
    induction gs as [|g gs IH]; [done|]. cbn [forallb staged]. destruct (forallb in_range g); [|done].
    rewrite IH. by destruct (staged ts gs).
Qed.

#[export] Instance total_buffer `{E : Env} snap : Total (_buffer_cloudwatch snap).
Proof. intros p h. rewrite buffer_run. by destruct (representable snap). Qed.

(** Where every int is in range, all of the snapshot's data are staged. *)
Lemma staged_all ts snap : representable snap = true -> staged_data ts snap = snapshot_data ts snap.
Proof.
  unfold representable, staged_data, snapshot_data. generalize (snapshot_points snap). intros gs.
  induction gs as [|g gs IH]; [done|]. cbn [forallb staged concat]. intros [-> Hgs]%andb_true_iff.
  rewrite map_app, <- (IH Hgs). by destruct (staged ts gs).
Qed.

(** The gauge updates make no other call and leave the publisher alone. *)
Definition is_gauge (e : event) : bool := match ev_call e with CGaugeSet _ _ _ => true | _ => false end.

Definition gauge_ev (g : string * list string * Z) : event := Ev (CGaugeSet g.1.1 g.1.2 g.2) tt.

Definition node_series (n : NodeState) : list (string * list string * Z) :=
  let nid := node_id n in
  [("raft_current_term", [nid], current_term n); ("raft_commit_index", [nid], commit_index n);
   ("raft_log_length", [nid], log_length n); ("raft_is_leader", [nid], bit (is_leader n));
   ("raft_node_up", [nid], bit (reachable n))]%string ++
  map (fun pl => ("raft_replication_lag"%string, [nid; pl.1], pl.2)) (replication_lags n).

Definition snapshot_series (snap : ClusterSnapshot) : list (string * list string * Z) :=
  concat (map node_series (nodes snap)) ++
  [("raft_has_leader", [], leader_bit snap); ("raft_split_brain", [], split_bit snap);
   ("raft_leader_term", [], leader_term snap); ("raft_nodes_up", [], Z.of_nat (reachable_count snap))]%string.

Lemma tell_each {S A} (f : A -> history) (body : A -> M S unit) (l : list A) s h :
  (forall x s h, body x s h = (Ok tt, s, h ++ f x)) ->
  for_each l body s h = (Ok tt, s, h ++ concat (map f l)).
Proof.
  intros Hb. revert h. induction l as [|x l IH]; intros h; simpl; [by rewrite app_nil_r|].
  unfold mbind, M_bind. rewrite Hb, IH. by rewrite <- app_assoc.
Qed.

Lemma node_gauges_run {S} n (s : S) h :
  node_gauges n s h = (Ok tt, s, h ++ map gauge_ev (node_series n)).
Proof.
  unfold node_gauges, mbind, M_bind, gauge_set, tell.
  rewrite (tell_each (fun pl => [gauge_ev ("raft_replication_lag"%string, [node_id n; pl.1], pl.2)])) by done.
  rewrite concat_singletons. unfold node_series. rewrite map_app, map_map, <- !app_assoc. done.
Qed.

Lemma update_prometheus_run {S} snap (s : S) h :
  _update_prometheus snap s h = (Ok tt, s, h ++ map gauge_ev (snapshot_series snap)).
Proof.
  unfold _update_prometheus, mbind, M_bind.
  rewrite (tell_each (fun n => map gauge_ev (node_series n))) by (intros; apply node_gauges_run).
  unfold gauge_set, tell, snapshot_series. rewrite map_app, concat_map, map_map, <- !app_assoc. done.
Qed.

(** CloudWatch fails only with the boto exceptions its client documents. *)
Definition boto_only (E : Env) : Prop :=
  forall h ns b e, answer h (CPutMetricData ns b) = inl e -> is_boto e = true.

(** A stretch of log that sends [bs] under [ns], and stages nothing. *)
Definition sends_batches (ns : string) (bs : list (list datum)) (l : history) : Prop :=
  puts l = map (pair ns) bs /\ stamps l = [].

Lemma publish_batch_run `{E : Env} b p h :
  boto_only E -> exists l, publish_batch b p h = (Ok tt, p, h ++ l) /\ sends_batches (_namespace p) [b] l.
Proof.
  intros HE. unfold publish_batch, try_except, check, ask, log_msg, tell, raise, get, mbind, M_bind, mret, M_ret.
  destruct (answer h (CPutMetricData (_namespace p) b)) as [e|[]] eqn:Ea.
  - rewrite (HE _ _ _ _ Ea). rewrite <- app_assoc. simpl. by eexists.
  - rewrite <- app_assoc. simpl. by eexists.
Qed.

Lemma publish_batches_run `{E : Env} bs p h :
  boto_only E ->
  exists l, for_each bs publish_batch p h = (Ok tt, p, h ++ l) /\ sends_batches (_namespace p) bs l.
Proof.
  intros HE. revert h. induction bs as [|b bs IH]; intros h; simpl.
  - exists []. by rewrite app_nil_r.
  - destruct (publish_batch_run b p h HE) as (l1 & H1 & P1 & S1).
    destruct (IH (h ++ l1)) as (l2 & H2 & P2 & S2).
    exists (l1 ++ l2). unfold mbind, M_bind. rewrite H1, H2, app_assoc. split; [done|].
    split; autorewrite with metrics; [by rewrite P1, P2|by rewrite S1, S2].
Qed.

Lemma flush_run `{E : Env} p h :
  boto_only E ->
  exists l, _flush_cloudwatch p h =
      (Ok tt, match _pending_metrics p with
              | [] => p
              | _ => with_last_publish (answer h CMonotonic) (with_pending [] p)
              end, h ++ l) /\
    sends_batches (_namespace p) (batches_of batch_size (_pending_metrics p)) l.
Proof.
  intros HE. unfold _flush_cloudwatch, get, modify, ask, mbind, M_bind.
  destruct (_pending_metrics p) as [|d ds] eqn:Ep.
  - exists []. by rewrite app_nil_r, batches_nil.
  - destruct (publish_batches_run (batches_of batch_size (d :: ds))
      (with_last_publish (answer h CMonotonic) (with_pending [] p))
      (h ++ [Ev CMonotonic (answer h CMonotonic)]) HE) as (l & H & P & S).
    eexists. rewrite H, <- app_assoc. split; [done|]. split; [by rewrite puts_app, P|by rewrite stamps_app, S].
Qed.

Lemma gauges_quiet l : puts (map gauge_ev l) = [] /\ stamps (map gauge_ev l) = [].
Proof. by induction l. Qed.

(** ** Properties *)

(** The staged points of a snapshot are never nothing once all are staged. *)
Lemma snapshot_data_some ts snap : snapshot_data ts snap <> [].
Proof. unfold snapshot_data, snapshot_points. rewrite concat_app, map_app. by destruct (map _ (concat (concat _))). Qed.

(** One update on every branch.  All gauges of the snapshot are set first.
    With CloudWatch off that is all; otherwise the snapshot's data are staged,
    and exactly when the publish interval has passed since the last flush
    everything staged is sent, in batches, and the buffer is emptied; boto
    failures never escape.  An int that no float holds ends the update while
    the data before its group are staged, and nothing is sent. *)
Theorem update_spec `{E : Env} (snap : ClusterSnapshot) (p : MetricsPublisher) (h : history) :
  boto_only E ->
  let h1 := h ++ map gauge_ev (snapshot_series snap) in
  let stamp_call := CStrftime "%Y-%m-%dT%H:%M:%SZ" in
  let ts := answer h1 stamp_call in
  let h2 := h1 ++ [Ev stamp_call ts] in
  let now := answer h2 CMonotonic in
  let h3 := h2 ++ [Ev CMonotonic now] in
  let staged := _pending_metrics p ++ snapshot_data ts snap in
  if _disable_cw p then update snap p h = (Ok tt, p, h1)
  else if negb (representable snap) then
    update snap p h = (Raise overflow, with_pending (_pending_metrics p ++ staged_data ts snap) p, h2)
  else if fle (_cw_interval p) (fsub now (_last_cw_publish p)) then
    exists l, update snap p h =
        (Ok tt, with_last_publish (answer h3 CMonotonic) (with_pending [] p), h3 ++ l) /\
      sends_batches (_namespace p) (batches_of batch_size staged) l
  else update snap p h = (Ok tt, with_pending staged p, h3).
Proof.
  intros HE h1 stamp_call ts h2 now h3 staged.
  unfold update, mbind, M_bind, get, ask. rewrite update_prometheus_run. fold h1.
  destruct (_disable_cw p); [done|]. rewrite buffer_run. fold stamp_call ts h2.
  destruct (representable snap) eqn:Er; cbn [negb]; [|done]. rewrite staged_all by done. fold now h3 staged. simpl.
  case_if; [|done].
  destruct (flush_run (with_pending staged p) h3 HE) as (l & H & HP). exists l. rewrite H. simpl.
  split; [|done]. destruct staged eqn:Es; [|done].
  exfalso. apply (snapshot_data_some ts snap). subst staged. by apply app_eq_nil in Es as [_ ?].
Qed.

Definition boto_env : Env := fun h c =>
  match c as c' return resp c' with
  | CMonotonic => Fin (QArith_base.Qmake 100 1)
  | CPutMetricData _ _ => inl (Exn BotoCoreError "timeout")
  | c' => default_answer c'
  end.

Definition fresh : MetricsPublisher :=
  {| _namespace := "Driftless/Raft"; _cw_interval := Fin (QArith_base.Qmake 60 1); _disable_cw := false;
     _last_cw_publish := Fin (QArith_base.Qmake 0 1); _pending_metrics := [] |}.

Lemma boto_env_ok : boto_only boto_env.
Proof. by intros h ns b e [= <-]. Qed.

Lemma update_spec_witness :
  exists l, update (H := boto_env) sample_split fresh [] =
    (Ok tt, with_last_publish (Fin (QArith_base.Qmake 100 1)) (with_pending [] fresh),
     (map gauge_ev (snapshot_series sample_split) ++ [Ev (CStrftime "%Y-%m-%dT%H:%M:%SZ") ""%string]) ++
     [Ev CMonotonic (Fin (QArith_base.Qmake 100 1))] ++ l) /\
    sends_batches "Driftless/Raft" (batches_of batch_size (snapshot_data "" sample_split)) l.
Proof.
  pose proof (update_spec (E := boto_env) sample_split fresh [] boto_env_ok) as K. cbv zeta in K.
  assert (Er : representable sample_split = true) by (vm_compute; reflexivity).
  assert (Ef : fle (_cw_interval fresh) (fsub (Fin (QArith_base.Qmake 100 1)) (_last_cw_publish fresh)) = true) by (vm_compute; reflexivity).
  change (_disable_cw fresh) with false in K. rewrite Er in K. cbn [negb] in K. unfold answer at 1 in K.
  cbn [boto_env] in K. rewrite Ef in K. destruct K as (l & H & HS). exists l. rewrite H. split; [by rewrite app_assoc|exact HS].
Defined.

(** Monitoring: one update per snapshot, in a loop that reports what it catches. *)
Definition updates `{Env} (snaps : list ClusterSnapshot) : M MetricsPublisher unit :=
  for_each snaps (fun snap => try_except (update snap) (fun exc => log_msg ERROR ("poll error: " ^^ exn_str exc))).

Definition sent_data (h : history) : list datum := concat (map snd (puts h)).

(** What the log and the buffer of a publisher hold. *)
Record conserved (p0 : MetricsPublisher) (snaps : list ClusterSnapshot) (p : MetricsPublisher) (l : history) : Prop := {
  co_data : sent_data l ++ _pending_metrics p =
            _pending_metrics p0 ++ concat (zip_with staged_data (stamps l) snaps);
  co_stamps : length (stamps l) = length snaps;
  co_sizes : forall ns b, (ns, b) ∈ puts l -> ns = _namespace p0 /\ (0 < length b <= 1000)%nat;
  co_ns : _namespace p = _namespace p0;
  co_on : _disable_cw p = false;
}.

Lemma update_conserved `{E : Env} snap p h :
  boto_only E -> _disable_cw p = false ->
  exists p' l, update snap p h = ((if representable snap then Ok tt else Raise overflow), p', h ++ l) /\ conserved p [snap] p' l.
Proof.
  intros HE Hd. unfold update, mbind, M_bind, get, ask. rewrite update_prometheus_run, Hd, buffer_run.
  set (h1 := h ++ _). set (ts := answer h1 _).
  destruct (gauges_quiet (snapshot_series snap)) as [G1 G2].
  destruct (representable snap).
  2: { subst h1. rewrite <- !app_assoc. eexists _, _. split; [done|]. constructor; simpl; try done.
    + unfold sent_data. rewrite !puts_app, !stamps_app, G1, G2. simpl. by rewrite !app_nil_r.
    + rewrite !stamps_app, G2. done.
    + intros ns b. rewrite !puts_app, G1. simpl. intros Hb. inv Hb. }
  simpl. case_if.
  - match goal with |- context [_flush_cloudwatch ?p1 ?h2] =>
      destruct (flush_run p1 h2 HE) as (l & H & HP & HS) end.
    rewrite H. subst h1. rewrite <- !app_assoc. eexists _, _. split; [done|]. simpl in HP, HS.
    constructor.
    + unfold sent_data. rewrite !puts_app, !stamps_app, G1, G2, HP, HS. simpl.
      rewrite map_map. simpl. rewrite map_id, batches_concat by (unfold batch_size; lia).
      destruct (_pending_metrics p ++ _) eqn:Es; simpl; rewrite ?app_nil_r; done.
    + rewrite !stamps_app, G2, HS. done.
    + intros ns b. rewrite !puts_app, G1, HP. simpl. intros Hb.
      apply list_elem_of_fmap in Hb as (b' & [= -> ->] & Hb). split; [done|].
      by apply (batches_size batch_size) in Hb; [|unfold batch_size; lia].
    + by destruct (_pending_metrics p ++ _).
    + by destruct (_pending_metrics p ++ _).
  - subst h1. rewrite <- !app_assoc. eexists _, _. split; [done|]. constructor; simpl; try done.
    + unfold sent_data. rewrite !puts_app, !stamps_app, G1, G2. simpl. by rewrite !app_nil_r.
    + rewrite !stamps_app, G2. done.
    + intros ns b. rewrite !puts_app, G1. simpl. intros Hb. inv Hb.
Qed.

Lemma conserved_nil p : _disable_cw p = false -> conserved p [] p [].
Proof. intros Hd. constructor; simpl; try done; [by rewrite !app_nil_r|]. intros ns b Hb. inv Hb. Qed.

Lemma conserved_cons p p1 p2 snap snaps l1 l2 :
  conserved p [snap] p1 l1 -> conserved p1 snaps p2 l2 -> conserved p (snap :: snaps) p2 (l1 ++ l2).
Proof.
  intros [D1 S1 Z1 N1 O1] [D2 S2 Z2 N2 O2]. constructor; [| | |congruence|done].
  - unfold sent_data in *. rewrite puts_app, stamps_app, map_app, concat_app, <- app_assoc, D2, app_assoc, D1, <- app_assoc.
    f_equal. destruct (stamps l1) as [|t [|]]; simpl in S1; try lia. simpl. by rewrite app_nil_r.
  - rewrite stamps_app, length_app. simpl in *. lia.
  - intros ns b. rewrite puts_app, elem_of_app. intros [Hb|Hb]; [by apply Z1|].
    destruct (Z2 ns b Hb) as [-> ?]. by rewrite N1.
Qed.

(** A message of the log is neither a call to CloudWatch nor a stamp. *)
Lemma conserved_logged p snaps p' l e : put_call e = None -> stamp e = None -> conserved p snaps p' l -> conserved p snaps p' (l ++ [e]).
Proof.
  intros Hp Hs [D S Z N O].
  assert (Ep : puts (l ++ [e]) = puts l) by (rewrite puts_app; cbn; by rewrite Hp, app_nil_r).
  assert (Es : stamps (l ++ [e]) = stamps l) by (rewrite stamps_app; cbn; by rewrite Hs, app_nil_r).
  constructor; unfold sent_data; rewrite ?Ep, ?Es; done.
Qed.

(** C12: CloudWatch data are sent exactly once and in order.  Over any run of
    updates, whatever CloudWatch answers, the data of the calls made followed by
    the data still staged are the data of the snapshots, each once, in order;
    and every call carries between 1 and 1000 data, the service's limit.  Of a
    snapshot with an int that no float holds these are the data staged before it
    (the loop catches the OverflowError and goes on); where there is none, no
    update fails and they are all of the snapshot's data. *)
Theorem data_sent_once `{E : Env} (snaps : list ClusterSnapshot) (p : MetricsPublisher) (h : history) :
  boto_only E -> _disable_cw p = false ->
  exists p' l, updates snaps p h = (Ok tt, p', h ++ l) /\ conserved p snaps p' l /\
    (forallb representable snaps = true ->
      for_each snaps update p h = (Ok tt, p', h ++ l) /\
      sent_data l ++ _pending_metrics p' = _pending_metrics p ++ concat (zip_with snapshot_data (stamps l) snaps)).
Proof.
  intros HE. revert p h. induction snaps as [|snap snaps IH]; intros p h Hd.
  - exists p, []. rewrite app_nil_r. split; [done|]. split; [by apply conserved_nil|]. intros _. split; [done|].
    by rewrite !app_nil_r.
  - destruct (update_conserved snap p h HE Hd) as (p1 & l1 & H1 & C1).
    unfold updates in *. cbn [for_each forallb]. unfold mbind at 1 2, M_bind at 1 2. unfold try_except at 1. rewrite H1.
    destruct (representable snap) eqn:Er; cbn [andb].
    + destruct (IH p1 (h ++ l1) (co_on _ _ _ _ C1)) as (p2 & l2 & H2 & C2 & R2).
      exists p2, (l1 ++ l2). rewrite H2, app_assoc. split; [done|]. split; [by eapply conserved_cons|].
      intros Hs. destruct (R2 Hs) as [R3 _]. rewrite R3. split; [done|].
      rewrite (co_data _ _ _ _ (conserved_cons _ _ _ _ _ _ _ C1 C2)). f_equal. f_equal.
      assert (Hall : forallb representable (snap :: snaps) = true) by (cbn [forallb]; by rewrite Er).
      generalize (stamps (l1 ++ l2)). revert Hall. generalize (snap :: snaps). clear. intros l Hl ts. revert l Hl.
      induction ts as [|t ts IHt]; intros [|c l] Hl; try done. cbn [zip_with]. cbn [forallb] in Hl.
      apply andb_true_iff in Hl as [Hc Hl]. by rewrite staged_all, IHt.
    + change (log_msg ERROR ?m p1 ?h') with (Ok tt, p1, h' ++ [Ev (CLog ERROR m) tt]). cbn beta iota. rewrite <- app_assoc.
      match goal with |- context [for_each snaps _ p1 (h ++ ?l)] =>
        destruct (IH p1 (h ++ l) (co_on _ _ _ _ C1)) as (p2 & l2 & H2 & C2 & _); exists p2, (l ++ l2) end.
      rewrite H2. split; [by rewrite <- !app_assoc|]. split; [|done]. eapply conserved_cons; [|exact C2]. by apply conserved_logged.
Qed.

Lemma data_sent_once_witness :
  exists p' l, updates (H := boto_env) [sample_split; sample_split] fresh [] = (Ok tt, p', l) /\
    for_each (S := MetricsPublisher) [sample_split; sample_split] (@update boto_env) fresh [] = (Ok tt, p', l) /\
    sent_data l ++ _pending_metrics p' = concat (zip_with snapshot_data (stamps l) [sample_split; sample_split]).
Proof.
  destruct (data_sent_once (E := boto_env) [sample_split; sample_split] fresh [] boto_env_ok eq_refl) as (p' & l & H1 & _ & H3).
  exists p', l. split; [exact H1|]. apply H3. vm_compute. reflexivity.
Defined.

(** ** The exposed gauges *)

Abbreviation series := (string * list string)%type.

Definition set_series (m : gmap series Z) (g : series * Z) : gmap series Z := <[g.1 := g.2]> m.

Definition gauge_setting (e : event) : option (series * Z) :=
  match ev_call e with CGaugeSet name labels v => Some ((name, labels), v) | _ => None end.

(** The values a scrape of [/metrics] sees after a log. *)
Definition gauges (h : history) : gmap series Z := fold_left set_series (omap gauge_setting h) ∅.

Lemma gauges_app h l : gauges (h ++ map gauge_ev l) = fold_left set_series l (gauges h).
Proof.
  unfold gauges. rewrite omap_app, fold_left_app. f_equal.
  induction l as [|[[n ls] v] l IH]; [done|]. cbn. by f_equal.
Qed.

Lemma set_series_other (l : list (series * Z)) m k : k ∉ map fst l -> fold_left set_series l m !! k = m !! k.
Proof.
  revert m. induction l as [|[k' v] l IH]; intros m Hk; simpl in *; [done|].
  apply not_elem_of_cons in Hk as [Hne Hk]. rewrite IH by done. unfold set_series. by rewrite lookup_insert_ne.
Qed.

Lemma set_series_unique (l : list (series * Z)) m k v :
  (k, v) ∈ l -> (forall v', (k, v') ∈ l -> v' = v) -> fold_left set_series l m !! k = Some v.
Proof.
  induction l as [|[k' v'] l IH] using rev_ind; [intros H; inv H|].
  intros Hin Hu. rewrite fold_left_app. simpl. unfold set_series at 1. simpl.
  destruct (decide (k' = k)) as [->|Hne].
  - rewrite lookup_insert_eq. f_equal. apply Hu. apply elem_of_app. right. left.
  - rewrite lookup_insert_ne by done. apply IH; [|intros w Hw; apply Hu; apply elem_of_app; by left].
    apply elem_of_app in Hin as [Hin|Hin]; [done|]. apply list_elem_of_singleton in Hin. congruence.
Qed.

(** Every series of a node carries its id, the cluster's series carry no label. *)
Lemma node_series_label n k v : (k, v) ∈ node_series n -> exists rest, k.2 = node_id n :: rest.
Proof.
  unfold node_series. intros [H|H]%elem_of_app.
  - repeat (apply elem_of_cons in H as [H|H]; [injection H as -> ->; by eexists|]). inv H.
  - apply list_elem_of_fmap in H as (pl & [= -> ->] & _). by eexists.
Qed.

(** Distinct nodes, each with at most one lag per peer. *)
Definition distinct_nodes (snap : ClusterSnapshot) : Prop :=
  NoDup (map node_id (nodes snap)) /\
  forall n, n ∈ nodes snap -> NoDup (map fst (replication_lags n)).

Lemma NoDup_map_inj {A B} (f : A -> B) (l : list A) x y :
  NoDup (map f l) -> x ∈ l -> y ∈ l -> f x = f y -> x = y.
Proof.
  induction l as [|z l IH]; intros Hn Hx Hy Hf; [inv Hx|]. simpl in Hn. apply NoDup_cons in Hn as [Hz Hn].
  apply elem_of_cons in Hx as [->|Hx], Hy as [->|Hy]; auto.
  - exfalso. apply Hz. rewrite Hf. by apply list_elem_of_fmap_2.
  - exfalso. apply Hz. rewrite <- Hf. by apply list_elem_of_fmap_2.
Qed.

Lemma node_series_unique n k v v' :
  NoDup (map fst (replication_lags n)) -> (k, v) ∈ node_series n -> (k, v') ∈ node_series n -> v = v'.
Proof.
  intros Hn. unfold node_series. rewrite !elem_of_app.
  assert (Hlag : forall w, (k, w) ∈ map (fun pl : string * Z => ("raft_replication_lag"%string, [node_id n; pl.1], pl.2)) (replication_lags n) ->
            exists pl, pl ∈ replication_lags n /\ k = ("raft_replication_lag"%string, [node_id n; pl.1]) /\ w = pl.2).
  { intros w H. apply list_elem_of_fmap in H as (pl & [= -> ->] & Hin). by exists pl. }
  intros [H|H] [H'|H'].
  - repeat (apply elem_of_cons in H as [H|H];
      [injection H as -> ->; repeat (apply elem_of_cons in H' as [H'|H']; [by simplify_eq|]); inv H'|]). inv H.
  - apply Hlag in H' as (pl & _ & -> & _). repeat (apply elem_of_cons in H as [H|H]; [by simplify_eq|]). inv H.
  - apply Hlag in H as (pl & _ & -> & _). repeat (apply elem_of_cons in H' as [H'|H']; [by simplify_eq|]). inv H'.
  - apply Hlag in H as (pl & Hin & -> & ->), H' as (pl' & Hin' & Hk & ->). injection Hk as Hk.
    by rewrite (NoDup_map_inj fst _ pl pl' Hn Hin Hin' Hk).
Qed.

(** After an update the exposed gauges are those of the snapshot: every
    per-node, per-peer and cluster series has the snapshot's value, when node ids
    are distinct. *)
Theorem gauges_current {S} (snap : ClusterSnapshot) (s : S) (h : history) k v :
  distinct_nodes snap -> (k, v) ∈ snapshot_series snap ->
  gauges (_update_prometheus snap s h).2 !! k = Some v.
Proof.
  intros [Hn Hl] Hin. rewrite update_prometheus_run. simpl. rewrite gauges_app.
  apply set_series_unique; [done|]. intros v' Hin'.
  assert (Hcase : forall w, (k, w) ∈ snapshot_series snap ->
    (exists n, n ∈ nodes snap /\ (k, w) ∈ node_series n) \/
    (k.2 = [] /\ (k, w) ∈ [("raft_has_leader", [], leader_bit snap); ("raft_split_brain", [], split_bit snap);
      ("raft_leader_term", [], leader_term snap); ("raft_nodes_up", [], Z.of_nat (reachable_count snap))]%string)).
  { intros w H. unfold snapshot_series in H. apply elem_of_app in H as [H|H].
    - left. apply elem_of_concat in H as (sr & Hs & H).
      apply list_elem_of_fmap in Hs as (n & -> & Hs). eauto.
    - right. split; [|done].
      repeat (apply elem_of_cons in H as [H|H]; [by injection H as -> ->|]). inv H. }
  destruct (Hcase _ Hin) as [(n & H1 & H2)|[H1 H2]], (Hcase _ Hin') as [(n' & H1' & H2')|[H1' H2']].
  - destruct (node_series_label _ _ _ H2) as [r Hr], (node_series_label _ _ _ H2') as [r' Hr'].
    assert (n = n') as <- by (apply (NoDup_map_inj node_id (nodes snap)); congruence || done).
    by eapply node_series_unique; [apply Hl|..].
  - destruct (node_series_label _ _ _ H2) as [r Hr]. congruence.
  - destruct (node_series_label _ _ _ H2') as [r Hr]. congruence.
  - clear Hin Hin' Hcase. repeat (apply elem_of_cons in H2 as [H2|H2];
      [injection H2 as -> ->; repeat (apply elem_of_cons in H2' as [H2'|H2']; [by simplify_eq|]); inv H2'|]). inv H2.
Qed.

Lemma gauges_current_witness :
  gauges (_update_prometheus sample_split tt []).2 !! ("raft_split_brain", [])%string = Some 1.
Proof.
  apply (gauges_current sample_split tt []).
  - split; [apply (bool_decide_unpack _); vm_compute; reflexivity|].
    intros n Hn. repeat (apply elem_of_cons in Hn as [->|Hn]; [constructor|]). inv Hn.
  - apply (bool_decide_unpack _). vm_compute. reflexivity.
Defined.

(** A series outlives its node.  An unreachable node is reported under its
    address, so the gauges labelled with its id are no longer touched: once a
    node was up, [raft_node_up] of its id stays 1 through any snapshots in which
    the id does not appear. *)
Theorem node_up_goes_stale {S} (snap : ClusterSnapshot) (later : list ClusterSnapshot) (n : NodeState)
    (s : S) (h : history) :
  distinct_nodes snap -> n ∈ nodes snap -> reachable n = true ->
  (forall c, c ∈ later -> node_id n ∉ map node_id (nodes c)) ->
  gauges (for_each (snap :: later) _update_prometheus s h).2 !! ("raft_node_up"%string, [node_id n]) = Some 1.
Proof.
  intros [Hd Hl] Hn Hr Hlater.
  rewrite (tell_each (fun c => map gauge_ev (snapshot_series c))) by (intros; apply update_prometheus_run).
  simpl. rewrite app_assoc.
  replace (concat (map (fun c => map gauge_ev (snapshot_series c)) later))
    with (map gauge_ev (concat (map snapshot_series later))) by (by rewrite concat_map, map_map).
  rewrite !gauges_app, set_series_other.
  - apply set_series_unique.
    + apply elem_of_app. left. apply elem_of_concat. exists (node_series n). split; [by apply list_elem_of_fmap_2|].
      unfold node_series. rewrite Hr. apply elem_of_app. left. do 4 right. left.
    + intros v' H. unfold snapshot_series in H. apply elem_of_app in H as [H|H].
      * apply elem_of_concat in H as (sr & Hs & H).
        apply list_elem_of_fmap in Hs as (n' & -> & Hs). destruct (node_series_label _ _ _ H) as [r Hr'].
        injection Hr' as Hid _. assert (n = n') as <- by (by apply (NoDup_map_inj node_id (nodes snap))).
        unfold node_series in H. apply elem_of_app in H as [H|H];
          [|by apply list_elem_of_fmap in H as (pl & [=] & _)].
        repeat (apply elem_of_cons in H as [H|H]; [by simplify_eq/=; rewrite ?Hr|]). inv H.
      * repeat (apply elem_of_cons in H as [H|H]; [by simplify_eq|]). inv H.
  - intros H. apply list_elem_of_fmap in H as ([k v] & Hk & H). simpl in Hk. subst k.
    apply elem_of_concat in H as (sr & Hs & H).
    apply list_elem_of_fmap in Hs as (c & -> & Hs). unfold snapshot_series in H. apply elem_of_app in H as [H|H].
    + apply elem_of_concat in H as (sr & Hs' & H).
      apply list_elem_of_fmap in Hs' as (n' & -> & Hs'). destruct (node_series_label _ _ _ H) as [r Hr'].
      injection Hr' as Hid _. apply (Hlater c Hs). rewrite Hid. by apply list_elem_of_fmap_2.
    + repeat (apply elem_of_cons in H as [H|H]; [by simplify_eq|]). inv H.
Qed.

Definition up_then_down : list ClusterSnapshot :=
  [ {| nodes := [sample_node "coordinator-a" "follower" 3 true]; snap_polled_at := Fin (QArith_base.Qmake 0 1) |};
    {| nodes := [sample_node "coordinator-a:8080" "unreachable" 0 false]; snap_polled_at := Fin (QArith_base.Qmake 2 1) |} ]%string.

Lemma node_up_goes_stale_witness :
  gauges (for_each up_then_down _update_prometheus tt []).2 !! ("raft_node_up", ["coordinator-a"])%string = Some 1.
Proof.
  apply (node_up_goes_stale (List.hd sample_split up_then_down) (List.tl up_then_down)
           (sample_node "coordinator-a" "follower" 3 true) tt []); [|left|reflexivity|].
  - split; [apply (bool_decide_unpack _); vm_compute; reflexivity|].
    intros n Hn. repeat (apply elem_of_cons in Hn as [->|Hn]; [constructor|]). inv Hn.
  - intros c Hc. apply list_elem_of_singleton in Hc as ->. apply (bool_decide_unpack _). vm_compute. reflexivity.
Defined.
