(* ===== verification/ObserverConfig.v ===== *)
(** * ObserverConfig: settings and addresses (state-observer/config.py, peers.py)

    [from_env] reads the settings of the observer from the environment variables,
    a partial function from names to values; [resolve_addrs] reads the
    coordinators' addresses from the peers table. *)

From stdpp Require Import base gmap list strings.
From Stdlib Require Import ZArith.
From S2P Require Import Prelude PyFloat PyStr PyDict Json Runtime.

Local Open Scope Z_scope.
Local Open Scope driftless_scope.

(** ** config.py *)

Record Config : Type := mkConfig {
  coordinator_addrs : list string;
  peers_table : string;
  coordinator_node_ids : list string;
  poll_interval_s : float;
  cw_namespace : string;
  cw_publish_interval_s : float;
  prometheus_port : Z;
  aws_region : string;
  sns_topic_arn : string;
  disable_cloudwatch : bool;
  disable_sns : bool;
}.

(** [os.environ.get(name, default)]. *)
Definition getenv (env : string -> option string) (name dflt : string) : string := default dflt (env name).

Definition bad_float (s : string) : exn :=
  Exn ValueError ("could not convert string to float: " ^^ repr_str s).
Definition bad_int (s : string) : exn :=
  Exn ValueError ("invalid literal for int() with base 10: " ^^ repr_str s).

(** [Config.from_env]; the conversions may raise [ValueError], the first one first. *)
Definition from_env (env : string -> option string) : exn + Config :=
  let raw := getenv env "COORDINATOR_ADDRS" "localhost:8080" in
  let addrs := comma_list raw in
  let ids_raw := getenv env "COORDINATOR_NODE_IDS" "" in
  let node_ids := comma_list ids_raw in
  let poll_s := getenv env "POLL_INTERVAL_S" "2" in
  let cw_s := getenv env "CW_PUBLISH_INTERVAL_S" "60" in
  let port_s := getenv env "PROMETHEUS_PORT" "9090" in
  match float_of_str poll_s with
  | None => inl (bad_float poll_s)
  | Some poll =>
      match float_of_str cw_s with
      | None => inl (bad_float cw_s)
      | Some cw =>
          match int_of_str port_s with
          | None => inl (bad_int port_s)
          | Some port =>
              inr {| coordinator_addrs := addrs;
                     peers_table := getenv env "PEERS_TABLE" "";
                     coordinator_node_ids := node_ids;
                     poll_interval_s := poll;
                     cw_namespace := getenv env "CW_NAMESPACE" "Driftless/Raft";
                     cw_publish_interval_s := cw;
                     prometheus_port := port;
                     aws_region := getenv env "AWS_REGION" "us-east-1";
                     sns_topic_arn := getenv env "SNS_TOPIC_ARN" "";
                     disable_cloudwatch := String.eqb (getenv env "DISABLE_CLOUDWATCH" "0") "1";
                     disable_sns := String.eqb (getenv env "DISABLE_SNS" "0") "1" |}
          end
      end
  end.

(** [Config.__str__]. *)
Definition config_str (c : Config) : string :=
  "coordinators=" ^^ repr_list (coordinator_addrs c) ^^ " " ^^
  "poll=" ^^ repr_float (poll_interval_s c) ^^ "s " ^^
  "prometheus=:" ^^ str_of_Z (prometheus_port c) ^^ " " ^^
  "cw_namespace=" ^^ cw_namespace c ^^ " " ^^
  "sns=" ^^ (if disable_sns c then "disabled"
             else if truthy (sns_topic_arn c) then sns_topic_arn c else "not set").

(** ** peers.py *)

(** One id of the loop of [resolve_addrs]. *)
Definition resolve_one `{Env} {S} (table_name : string) (addrs : list string) (nid : string)
    : M S (list string) :=
  resp ← ask (CDdbGetItem table_name "node_id" nid);
  match resp with
  | inl exc =>
      log_msg WARNING ("peers: get_item " ^^ nid ^^ " failed: " ^^ exn_str exc);;
      mret addrs
  | inr None => mret addrs
  | inr (Some it) =>
      if bool_decide (it = ∅) then mret addrs
      else match get_S it "http_addr" with
           | Some http_addr => if truthy http_addr then mret (addrs ++ [http_addr]) else mret addrs
           | None => mret addrs
           end
  end.

Definition resolve_addrs `{Env} {S} (table_name : string) (node_ids : list string) : M S (list string) :=
  for_fold node_ids (resolve_one table_name) [].

(** ** Properties *)

Section config.
Context (env : string -> option string) (c : Config).
Context (Hc : from_env env = inr c).

Lemma from_env_fields :
  coordinator_addrs c = comma_list (getenv env "COORDINATOR_ADDRS" "localhost:8080") /\
  coordinator_node_ids c = comma_list (getenv env "COORDINATOR_NODE_IDS" "") /\
  float_of_str (getenv env "POLL_INTERVAL_S" "2") = Some (poll_interval_s c) /\
  float_of_str (getenv env "CW_PUBLISH_INTERVAL_S" "60") = Some (cw_publish_interval_s c) /\
  int_of_str (getenv env "PROMETHEUS_PORT" "9090") = Some (prometheus_port c).
Proof using Hc.
  revert Hc. unfold from_env.
  destruct (float_of_str (getenv env "POLL_INTERVAL_S" "2")); [|done].
  destruct (float_of_str (getenv env "CW_PUBLISH_INTERVAL_S" "60")); [|done].
  destruct (int_of_str (getenv env "PROMETHEUS_PORT" "9090")); [|done].
  by intros [= <-].
Qed.
End config.

(** The address lists survive the environment.  A list of coordinator addresses
    and one of node ids (stripped, not empty, without commas) written with commas
    into the variables are read back unchanged; and whatever the variables hold,
    every address and id read is stripped and not empty. *)
Theorem from_env_lists (env : string -> option string) (c : Config) :
  from_env env = inr c ->
  (forall w, w ∈ coordinator_addrs c \/ w ∈ coordinator_node_ids c -> clean w = true) /\
  (forall l, l <> [] -> forallb (fun w => clean w && no_char (chr 44) w) l = true ->
    (env "COORDINATOR_ADDRS" = Some (join "," l) -> coordinator_addrs c = l) /\
    (env "COORDINATOR_NODE_IDS" = Some (join "," l) -> coordinator_node_ids c = l)).
Proof.
  intros Hc. destruct (from_env_fields env c Hc) as (-> & -> & _). split.
  - intros w [H|H]; by apply comma_list_clean in H.
  - intros l Hne Hl. unfold getenv. split; intros ->; by apply comma_list_join.
Qed.

Definition sample_env (name : string) : option string :=
  if String.eqb name "COORDINATOR_ADDRS" then Some "10.0.1.5:8080,10.0.1.6:8080"%string
  else if String.eqb name "DISABLE_SNS" then Some "1"%string else None.

Definition sample_config : Config :=
  match from_env sample_env with
  | inr c => c
  | inl _ => {| coordinator_addrs := []; peers_table := ""; coordinator_node_ids := []; poll_interval_s := NaN;
                cw_namespace := ""; cw_publish_interval_s := NaN; prometheus_port := 0; aws_region := "";
                sns_topic_arn := ""; disable_cloudwatch := false; disable_sns := false |}
  end.

Lemma from_env_lists_witness :
  (forall w, w ∈ coordinator_addrs sample_config \/ w ∈ coordinator_node_ids sample_config -> clean w = true) /\
  coordinator_addrs sample_config = ["10.0.1.5:8080"; "10.0.1.6:8080"]%string.
Proof.
  destruct (from_env_lists sample_env sample_config ltac:(vm_compute; reflexivity)) as [H1 H2].
  split; [exact H1|]. apply H2; [discriminate|vm_compute; reflexivity|reflexivity].
Defined.

(** The answers of the [GetItem] requests in a log. *)
Definition get_answer (e : event) : option (exn + option item) :=
  match e with
  | Ev c r => match c as c' return resp c' -> option (exn + option item) with
              | CDdbGetItem _ _ _ => fun r => Some r
              | _ => fun _ => None
              end r
  end.

Definition get_answers (h : history) : list (exn + option item) := omap get_answer h.

(** The address a row yields. *)
Definition row_addr (ans : exn + option item) : option string :=
  match ans with
  | inr (Some it) => a ← get_S it "http_addr"; if truthy a then Some a else None
  | _ => None
  end.

Definition get_key (e : event) : option (string * string) :=
  match ev_call e with CDdbGetItem table key nid => Some (table, nid) | _ => None end.

(** Calls of a resolution: look-ups and log lines. *)
Definition lookup_or_log (e : event) : bool :=
  match ev_call e with CDdbGetItem _ _ _ | CLog _ _ => true | _ => false end.

Lemma lookups_no_pause l d : forallb lookup_or_log l = true -> pauses d l = O.
Proof.
  induction l as [|[c r] l IH]; [done|]. intros [Hc Hl]%andb_true_iff. unfold pauses in *.
  rewrite count_cons, IH by done. by destruct c.
Qed.

Lemma resolve_one_run `{E : Env} {S} table addrs nid (s : S) h :
  exists l ans, resolve_one table addrs nid s h =
      (Ok (addrs ++ option_list (row_addr ans)), s, h ++ l) /\
    get_answers l = [ans] /\ omap get_key l = [(table, nid)] /\
    forallb lookup_or_log l = true.
Proof.
  unfold resolve_one, ask, log_msg, tell, mbind, M_bind, mret, M_ret.
  destruct (answer h (CDdbGetItem table "node_id" nid)) as [exc|[it|]] eqn:Ea.
  - eexists _, (inl exc). rewrite <- app_assoc. simpl. rewrite app_nil_r. repeat split.
  - exists [Ev (CDdbGetItem table "node_id" nid) (inr (Some it))], (inr (Some it)).
    split; [|repeat split]. case_bool_decide as He.
    + subst it. unfold row_addr, get_S. rewrite lookup_empty. simpl. by rewrite app_nil_r.
    + simpl. destruct (get_S it "http_addr") as [a|]; simpl; [|by rewrite app_nil_r].
      destruct (truthy a); simpl; by rewrite ?app_nil_r.
  - exists [Ev (CDdbGetItem table "node_id" nid) (inr None)], (inr None). simpl. rewrite app_nil_r. repeat split.
Qed.

Lemma resolve_fold_run `{E : Env} {S} table ids addrs (s : S) h :
  exists l anss, for_fold ids (resolve_one table) addrs s h = (Ok (addrs ++ omap row_addr anss), s, h ++ l) /\
    get_answers l = anss /\ omap get_key l = map (pair table) ids /\ forallb lookup_or_log l = true.
Proof.
  revert addrs h. induction ids as [|nid ids IH]; intros addrs h; simpl.
  - exists [], []. unfold mret, M_ret. simpl. by rewrite !app_nil_r.
  - destruct (resolve_one_run table addrs nid s h) as (l1 & ans & H1 & A1 & K1 & P1).
    destruct (IH (addrs ++ option_list (row_addr ans)) (h ++ l1)) as (l2 & anss & H2 & A2 & K2 & P2).
    exists (l1 ++ l2), (ans :: anss). unfold mbind, M_bind. rewrite H1, H2, <- !app_assoc.
    split; [|unfold get_answers in *; split; [|split]].
    + simpl. by destruct (row_addr ans).
    + by rewrite omap_app, A1, A2.
    + by rewrite omap_app, K1, K2.
    + by rewrite forallb_app, P1, P2.
Qed.

(** Resolution never fails.  [resolve_addrs] asks for the row of every node id
    in order and returns, in that order, exactly the non-empty addresses of the
    rows that are there; missing, malformed and failing rows are skipped. *)
Theorem resolve_addrs_spec `{E : Env} {S} (table : string) (ids : list string) (s : S) (h : history) :
  exists l anss, resolve_addrs table ids s h = (Ok (omap row_addr anss), s, h ++ l) /\
    get_answers l = anss /\ omap get_key l = map (pair table) ids.
Proof.
  destruct (resolve_fold_run table ids [] s h) as (l & anss & H1 & H2 & H3 & _). by exists l, anss.
Qed.
