(* ===== verification/Dashboard.v ===== *)
(** * Dashboard: the terminal view (state-observer/dashboard.py)

    The widgets of the Rich library are kept as the arguments the code gives
    them ([renderable]).  An attribute of the object that [__init__] has not
    assigned yet is absent, and reading it raises [AttributeError]: the object's
    fields are options. *)

From stdpp Require Import base gmap list strings.
From Stdlib Require Import ZArith Lqa.
From S2P Require Import Prelude PyFloat PyStr PyDict Json Runtime RaftClient.

Local Open Scope Z_scope.
Local Open Scope driftless_scope.

Definition _THROUGHPUT_WINDOW : float := Fin (QArith_base.Qmake 10 1).

(** Spans of a [Text]: characters and style. *)
Abbreviation spans := (list (string * string)).

Inductive renderable : Type :=
| RText (t : spans)
| RTable (columns : list string) (rows : list (list spans))
| RPanel (body : renderable) (title border_style : string)
| RLayout (parts : list (string * option Z * renderable)).

Record Dashboard : Type := mkDashboard {
  _poll_interval : option float;
  _live : option renderable;                       (* what [Live] shows *)
  _commit_history : option (list (float * Z));     (* deque(maxlen=64) *)
  _latest_snapshot : option ClusterSnapshot;
  _latest_alerts : list string;
}.

(** The object before [__init__]. *)
Definition blank : Dashboard :=
  {| _poll_interval := None; _live := None; _commit_history := None; _latest_snapshot := None;
     _latest_alerts := [] |}.

Definition attribute_error (name : string) : exn :=
  Exn AttributeError ("'Dashboard' object has no attribute '" ^^ name ^^ "'").

Definition read_attr {A} (name : string) (field : Dashboard -> option A) : M Dashboard A :=
  self ← get;
  of_option (attribute_error name) (field self).

(** [deque.append] on a deque of 64. *)
Definition maxlen : nat := 64.
Definition deque_append {A} (l : list A) (x : A) : list A :=
  let l' := l ++ [x] in drop (length l' - maxlen) l'.

(** ** Throughput *)

(** An int that no float holds cannot be divided by a float. *)
Definition rate_overflow : exn := Exn OverflowError "int too large to convert to float".

Definition _commit_rate `{Env} : M Dashboard (option float) :=
  hist ← read_attr "_commit_history" _commit_history;
  if (length hist <? 2)%nat then mret None
  else
    now ← ask CMonotonic;
    let cutoff := fsub now _THROUGHPUT_WINDOW in
    let window := List.filter (fun tc => fle cutoff tc.1) hist in
    match window with
    | first :: (_ :: _) as rest =>
        let lst := List.last rest first in
        let dt := fsub lst.1 first.1 in
        let dc := lst.2 - first.2 in
        if fle dt (Fin (QArith_base.Qmake 0 1)) then mret None
        else match of_Z dc with
             | Fin q =>
                 match fdiv (Fin q) dt with
                 | Some r => mret (Some (fmax (Fin (QArith_base.Qmake 0 1)) r))
                 | None => raise (Exn ZeroDivisionError "float division by zero")
                 end
             | _ => raise rate_overflow
             end
    | _ => mret None
    end.

(** ** Rendering *)

Definition _format_state (state : string) : string * string :=
  if String.eqb state "leader" then ("★ LEADER", "bold green")%string
  else if String.eqb state "candidate" then ("◆ candidate", "bold yellow")%string
  else if String.eqb state "follower" then ("  follower", "")%string
  else if String.eqb state "unreachable" then ("  unreachable", "dim red")%string
  else (state, "dim"%string).

Definition _header `{Env} : M Dashboard renderable :=
  now ← ask (CStrftime "%H:%M:%S");
  interval ← read_attr "_poll_interval" _poll_interval;
  mret (RText [("refreshed ", "dim"); (now, "bold white");
               ("  ·  poll every " ^^ fmt_fixed 1 interval ^^ "s", "dim")]%string).

Definition leader_spans (snap : ClusterSnapshot) : spans :=
  match leader snap with
  | Some n => [("Leader: ", "dim"); (node_id n, "bold green"); ("  ·  Term: ", "dim");
               (str_of_Z (current_term n), "bold white")]%string
  | None => if (1 <? length (leaders snap))%nat then [("⚠  SPLIT-BRAIN — multiple leaders", "bold red")]%string
            else [("⚠  No leader elected", "bold yellow")]%string
  end.

Definition _summary (snap : option ClusterSnapshot) : renderable :=
  match snap with
  | None => RPanel (RText [("Waiting for first poll…", "dim")]%string) "" ""
  | Some snap =>
      let up_total := str_of_nat (reachable_count snap) ^^ "/" ^^ str_of_nat (length (nodes snap)) in
      let up_color := if (reachable_count snap =? length (nodes snap))%nat then "green"%string else "yellow"%string in
      RPanel (RText (leader_spans snap ++ [("  ·  Nodes up: ", "dim"%string); (up_total, "bold " ^^ up_color)]))
             "Cluster Summary" "blue"
  end.

Definition node_columns : list string :=
  ["Node"; "State"; "Term"; "Commit"; "Applied"; "Log Len"; "Status"]%string.

Definition node_row (n : NodeState) : list spans :=
  let '(state_text, state_style) := _format_state (state n) in
  let status_text := if reachable n then [("✓ up", "green")]%string else [("✗ down", "red")]%string in
  [[(node_id n, if is_leader n then "bold" else "")]%string; [(state_text, state_style)];
   [(str_of_Z (current_term n), "")]%string; [(str_of_Z (commit_index n), "")]%string;
   [(str_of_Z (last_applied n), "")]%string; [(str_of_Z (log_length n), "")]%string; status_text].

Definition by_node_id (l : list NodeState) : list NodeState :=
  isort (fun a b => str_leb (node_id a) (node_id b)) l.

Definition _node_table (snap : option ClusterSnapshot) : renderable :=
  let rows := match snap with None => [] | Some snap => map node_row (by_node_id (nodes snap)) end in
  RPanel (RTable node_columns rows) "Node Status" "blue".

Definition lag_style (lag : Z) : string :=
  if lag =? 0 then "green" else if lag <=? 3 then "yellow" else "red".

Definition lag_row (n : NodeState) (lags : list (string * Z)) (peer_id : string) : list spans :=
  let lag := default 0 (dict_get lags peer_id) in
  let mtch := default 0 (dict_get (default [] (match_index n)) peer_id) in
  let bar := repeat_str (Z.to_nat (Z.min lag 20)) "█" in
  [[(peer_id, "")]; [(str_of_Z mtch, "")]; [(str_of_Z lag, lag_style lag)]; [(bar, lag_style lag)]]%string.

Definition _replication_table (snap : option ClusterSnapshot) : renderable :=
  match snap ≫= leader with
  | None => RPanel (RText [("─  No leader; replication lag unavailable", "dim")]%string) "Replication Lag" "blue"
  | Some n =>
      let lags := replication_lags n in
      let title := "Replication Lag  (leader: " ^^ node_id n ^^ ")" in
      match lags with
      | [] => RPanel (RText [("─  No peer replication data (single-node cluster?)", "dim")]%string) title "blue"
      | _ => RPanel (RTable ["Peer"; "Match Index"; "Lag"; ""]%string
                       (map (lag_row n lags) (sort_strings (dict_keys lags)))) title "blue"
      end
  end.

Definition _throughput_panel `{Env} : M Dashboard renderable :=
  rate ← _commit_rate;
  let tail := match rate with
              | None => ("calculating…", "dim italic")%string
              | Some r => (fmt_fixed 1 r ^^ " entries/s",
                           "bold " ^^ (if flt (Fin (QArith_base.Qmake 0 1)) r then "green" else "dim"))
              end in
  mret (RPanel (RText [("Commit rate: ", "dim")%string; tail]) "Throughput" "blue").

Definition _alerts_panel (alerts : list string) : renderable :=
  let text := match alerts with
              | [] => [("✓  No active alerts", "green")]%string
              | _ => map (fun alert =>
                       ("⚠  " ^^ alert ^^ newline,
                        if contains "SPLIT-BRAIN" alert || contains "Quorum" alert then "red" else "yellow")%string) alerts
              end in
  RPanel (RText text) "Alerts" (match alerts with [] => "blue" | _ => "red" end).

Definition _render `{Env} (snap : option ClusterSnapshot) (alerts : list string) : M Dashboard renderable :=
  header ← _header;
  throughput ← _throughput_panel;
  let layout := RLayout [("header", Some 3, header); ("summary", Some 4, _summary snap);
                         ("nodes", None, _node_table snap); ("replication", None, _replication_table snap);
                         ("throughput", Some 3, throughput);
                         ("alerts_section", Some (Z.max 3 (Z.of_nat (length alerts) + 2)), _alerts_panel alerts)]%string in
  mret (RPanel layout "[bold cyan]DRIFTLESS[/bold cyan]  ·  Raft Cluster Monitor" "bright_blue").

(** [Dashboard.__init__], its assignments in the order of the code. *)
Definition init `{Env} (poll_interval_s : float) : M Dashboard unit :=
  modify (fun d => {| _poll_interval := Some poll_interval_s; _live := _live d;
    _commit_history := _commit_history d; _latest_snapshot := _latest_snapshot d; _latest_alerts := _latest_alerts d |});;
  first ← _render None [];
  modify (fun d => {| _poll_interval := _poll_interval d; _live := Some first;
    _commit_history := _commit_history d; _latest_snapshot := _latest_snapshot d; _latest_alerts := _latest_alerts d |});;
  modify (fun d => {| _poll_interval := _poll_interval d; _live := _live d;
    _commit_history := Some []; _latest_snapshot := _latest_snapshot d; _latest_alerts := _latest_alerts d |});;
  modify (fun d => {| _poll_interval := _poll_interval d; _live := _live d;
    _commit_history := _commit_history d; _latest_snapshot := None; _latest_alerts := [] |}).

Definition set_latest (snapshot : ClusterSnapshot) (alerts : list string) (d : Dashboard) : Dashboard :=
  {| _poll_interval := _poll_interval d; _live := _live d; _commit_history := _commit_history d;
     _latest_snapshot := Some snapshot; _latest_alerts := alerts |}.

Definition set_history (l : list (float * Z)) (d : Dashboard) : Dashboard :=
  {| _poll_interval := _poll_interval d; _live := _live d; _commit_history := Some l;
     _latest_snapshot := _latest_snapshot d; _latest_alerts := _latest_alerts d |}.

Definition set_live (r : renderable) (d : Dashboard) : Dashboard :=
  {| _poll_interval := _poll_interval d; _live := Some r; _commit_history := _commit_history d;
     _latest_snapshot := _latest_snapshot d; _latest_alerts := _latest_alerts d |}.

Definition update `{Env} (snapshot : ClusterSnapshot) (alerts : list string) : M Dashboard unit :=
  modify (set_latest snapshot alerts);;
  (match leader snapshot with
   | Some n =>
       hist ← read_attr "_commit_history" _commit_history;
       t ← ask CMonotonic;
       modify (set_history (deque_append hist (t, commit_index n)))
   | None => mret tt
   end);;
  read_attr "_live" _live;;
  r ← _render (Some snapshot) alerts;
  modify (set_live r).

(** ** Properties *)

(** The dashboard cannot be constructed.  [__init__] renders the first frame
    before it assigns [_commit_history], which the throughput panel of that frame
    reads: on every run the constructor ends in [AttributeError]. *)
Theorem dashboard_init_raises `{E : Env} (poll_interval_s : float) (h : history) :
  let '(r, d, _) := init poll_interval_s blank h in
  r = Raise (attribute_error "_commit_history") /\ _live d = None.
Proof. done. Qed.

(** The samples of the trailing window. *)
Definition window (now : float) (hist : list (float * Z)) : list (float * Z) :=
  List.filter (fun tc => fle (fsub now _THROUGHPUT_WINDOW) tc.1) hist.

(** Entries per second between the first and the last sample. *)
Definition rate_between (a b : float * Z) (r : float) : Prop :=
  let dt := fsub b.1 a.1 in
  fle dt (Fin (QArith_base.Qmake 0 1)) = false /\
  exists q, fdiv (of_Z (b.2 - a.2)) dt = Some q /\ r = fmax (Fin (QArith_base.Qmake 0 1)) q.

Lemma fmax_0_nonneg x : fle (Fin (QArith_base.Qmake 0 1)) (fmax (Fin (QArith_base.Qmake 0 1)) x) = true.
Proof. unfold fmax. destruct (flt _ x) eqn:E; [by apply flt_fle|reflexivity]. Qed.

Lemma fdiv_nonzero x dt : fle dt (Fin (QArith_base.Qmake 0 1)) = false -> exists q, fdiv x dt = Some q.
Proof.
  intros H. destruct x as [|xb|xq], dt as [|b|q]; simpl in *; eauto.
  all: destruct (Z.eqb_spec (QArith_base.Qnum q) 0) as [Hq|Hq]; simpl; eauto.
  all: unfold QArith_base.Qle_bool in H; simpl in H; rewrite Hq in H; simpl in H; discriminate.
Qed.

(** The commit rate.  With the history in place a rate is reported only from at
    least two samples of the last ten seconds whose clock readings increase, it is
    the quotient of the commit-index and time differences of the first and last of
    them, and it is never negative.  The computation fails only where the difference
    of the indices is beyond the range of floats. *)
Theorem commit_rate_spec `{E : Env} (d : Dashboard) (h : history) (hist : list (float * Z)) :
  _commit_history d = Some hist ->
  exists res l, _commit_rate d h = (res, d, h ++ l) /\
    match res with
    | Ok None => True
    | Ok (Some r) => (2 <= length hist)%nat /\ fle (Fin (QArith_base.Qmake 0 1)) r = true /\
        exists a mid b, window (answer h CMonotonic) hist = a :: mid ++ [b] /\ rate_between a b r
    | Raise e => e = rate_overflow /\
        exists a mid b, window (answer h CMonotonic) hist = a :: mid ++ [b] /\ is_fin (of_Z (b.2 - a.2)) = false
    | NoFuel => False
    end.
Proof.
  intros Hh. unfold _commit_rate, read_attr, get, ask, mbind, M_bind, of_option. rewrite Hh.
  cbn -[fdiv fle fsub of_Z Nat.ltb List.last List.filter].
  destruct (Nat.ltb_spec (length hist) 2) as [Hl|Hl].
  { exists (Ok None), []. by rewrite app_nil_r. }
  fold (window (answer h CMonotonic) hist).
  destruct (window (answer h CMonotonic) hist) as [|a [|b rest]] eqn:Ew; try (by exists (Ok None); eexists).
  destruct (@exists_last _ (b :: rest) ltac:(done)) as (mid & z & Ez). rewrite Ez, last_last.
  case_if; [by exists (Ok None); eexists|].
  destruct (of_Z (z.2 - a.2)) as [| |q0] eqn:Eq; [|by eexists (Raise _), _; split; [done|]; split; [done|]; exists a, mid, z; rewrite Eq..|].
  { by eexists (Raise _), _; split; [done|]; split; [done|]; exists a, mid, z; rewrite Eq. }
  destruct (fdiv_nonzero (Fin q0) _ Hif) as [q Hq]. rewrite Hq.
  eexists (Ok (Some _)), _. split; [done|]. split; [done|]. split; [apply fmax_0_nonneg|].
  exists a, mid, z. split; [done|]. split; [done|]. exists q. by rewrite Eq.
Qed.

Definition running : Dashboard :=
  {| _poll_interval := Some (Fin (QArith_base.Qmake 2 1)); _live := Some (RText []);
     _commit_history := Some [(Fin (QArith_base.Qmake 100 1), 10); (Fin (QArith_base.Qmake 102 1), 17)];
     _latest_snapshot := None; _latest_alerts := [] |}.

Definition at_104 : Env := fun h c =>
  match c as c' return resp c' with
  | CMonotonic => Fin (QArith_base.Qmake 104 1)
  | c' => default_answer c'
  end.

Lemma commit_rate_spec_witness :
  exists res l, @_commit_rate at_104 running [] = (res, running, l) /\
    match res with
    | Ok None => True
    | Ok (Some r) => (2 <= 2)%nat /\ fle (Fin (QArith_base.Qmake 0 1)) r = true /\
        exists a mid b, window (Fin (QArith_base.Qmake 104 1))
          [(Fin (QArith_base.Qmake 100 1), 10); (Fin (QArith_base.Qmake 102 1), 17)] = a :: mid ++ [b] /\ rate_between a b r
    | Raise e => e = rate_overflow /\
        exists a mid b, window (Fin (QArith_base.Qmake 104 1))
          [(Fin (QArith_base.Qmake 100 1), 10); (Fin (QArith_base.Qmake 102 1), 17)] = a :: mid ++ [b] /\
          is_fin (of_Z (b.2 - a.2)) = false
    | NoFuel => False
    end.
Proof. exact (commit_rate_spec (E := at_104) running [] _ eq_refl). Defined.

(** A rate of 3.5 entries per second: 7 entries in 2 s. *)
Example commit_rate_sample :
  (@_commit_rate at_104 running []).1.1 = Ok (Some (Fin (QArith_base.Qmake 7 2))).
Proof. vm_compute. reflexivity. Qed.
