(* ===== verification/Observer.v ===== *)
(** * Observer: start-up and the observation loop (state-observer/main.py)

    [Observer] holds the four components; each step of the loop runs a method of
    one of them ([zoom]).  The two coroutines [observe] and
    [_refresh_addrs_loop] only share the client's address list; each is modelled
    on its own.  Loops take fuel: the start-up loop is bounded by its deadline,
    the others run until the stop event. *)

From stdpp Require Import base gmap list strings.
From Stdlib Require Import ZArith QArith.QArith_base Lqa.
From S2P Require Import Prelude PyFloat PyStr PyDict Json Runtime RaftClient Alerts Metrics Dashboard ObserverConfig.

Local Open Scope Z_scope.
Local Open Scope driftless_scope.

Record Observer : Type := mkObserver {
  client : RaftClusterClient;
  alerter : AlertManager;
  metrics : MetricsPublisher;
  dashboard : Dashboard;
}.

Definition on_client {A} : M RaftClusterClient A -> M Observer A :=
  zoom client (fun c o => mkObserver c (alerter o) (metrics o) (dashboard o)).
Definition on_alerter {A} : M AlertManager A -> M Observer A :=
  zoom alerter (fun a o => mkObserver (client o) a (metrics o) (dashboard o)).
Definition on_metrics {A} : M MetricsPublisher A -> M Observer A :=
  zoom metrics (fun m o => mkObserver (client o) (alerter o) m (dashboard o)).
Definition on_dashboard {A} : M Dashboard A -> M Observer A :=
  zoom dashboard (fun d o => mkObserver (client o) (alerter o) (metrics o) d).

(** [not cfg.peers_table or not cfg.coordinator_node_ids]. *)
Definition no_registry (cfg : Config) : bool :=
  negb (truthy (peers_table cfg)) || (length (coordinator_node_ids cfg) =? 0)%nat.

(** One turn of the start-up loop: addresses, or another turn. *)
Definition resolve_turn `{Env} {S} (cfg : Config) (deadline : float) (_ : unit) : M S (unit + list string) :=
  now ← ask CMonotonic;
  if flt now deadline then
    addrs ← resolve_addrs (peers_table cfg) (coordinator_node_ids cfg);
    match addrs with
    | _ :: _ =>
        log_msg WARNING ("resolved coordinators from peers table: " ^^ repr_list addrs);;
        mret (inr addrs)
    | [] => sleep (Fin (2 # 1));; mret (inl tt)
    end
  else
    log_msg WARNING "peers table yielded no coordinators; falling back to static addrs";;
    mret (inr (coordinator_addrs cfg)).

Definition _resolve_initial_addrs `{Env} {S} (fuel : nat) (cfg : Config) : M S (list string) :=
  if no_registry cfg then mret (coordinator_addrs cfg)
  else
    t0 ← ask CMonotonic;
    let deadline := fadd t0 (Fin (120 # 1)) in
    while_loop fuel (resolve_turn cfg deadline) tt.

(** [set(a) != set(b)]. *)
Definition sets_differ (a b : list string) : bool :=
  negb (bool_decide ((list_to_set a : gset string) = list_to_set b)).

(** The attempt of one turn of the refresh loop. *)
Definition refresh_once `{Env} (cfg : Config) : M RaftClusterClient unit :=
  try_except
    (new_addrs ← resolve_addrs (peers_table cfg) (coordinator_node_ids cfg);
     self ← get;
     match new_addrs with
     | _ :: _ =>
         if sets_differ new_addrs (_addrs self)
         then log_msg WARNING ("coordinator addresses changed: " ^^ repr_list new_addrs);;
              put (mkClient new_addrs)
         else mret tt
     | [] => mret tt
     end)
    (fun exc => log_msg ERROR ("addr refresh failed: " ^^ exn_str exc)).

Definition refresh_turn `{Env} (cfg : Config) (_ : unit) : M RaftClusterClient (unit + unit) :=
  stop ← ask CEventIsSet;
  if (stop : bool) then mret (inr tt)
  else
    woken ← ask (CEventWait (Fin (30 # 1)));
    if (woken : bool) then mret (inr tt)
    else refresh_once cfg;; mret (inl tt).

Definition _refresh_addrs_loop `{Env} (fuel : nat) (cfg : Config) : M RaftClusterClient unit :=
  if no_registry cfg then mret tt else while_loop fuel (refresh_turn cfg) tt.

(** The body of the observation loop: the attempt, then its handler. *)
Definition poll_and_publish `{Env} : M Observer unit :=
  snapshot ← on_client poll;
  active_alerts ← on_alerter (check_alerts snapshot);
  on_metrics (Metrics.update snapshot);;
  on_dashboard (Dashboard.update snapshot active_alerts).

Definition observe_once `{Env} : M Observer unit :=
  try_except poll_and_publish
    (fun exc => log_msg ERROR ("poll error: " ^^ exn_str exc)).

Definition observe_turn `{Env} (cfg : Config) (_ : unit) : M Observer (unit + unit) :=
  stop ← ask CEventIsSet;
  if (stop : bool) then mret (inr tt)
  else observe_once;; ask (CEventWait (poll_interval_s cfg));; mret (inl tt).

Definition observe_loop `{Env} (fuel : nat) (cfg : Config) : M Observer unit :=
  while_loop fuel (observe_turn cfg) tt.

Definition set_client (c : RaftClusterClient) (o : Observer) : Observer :=
  mkObserver c (alerter o) (metrics o) (dashboard o).
Definition set_metrics (m : MetricsPublisher) (o : Observer) : Observer :=
  mkObserver (client o) (alerter o) m (dashboard o).
Definition set_alerter (a : AlertManager) (o : Observer) : Observer :=
  mkObserver (client o) a (metrics o) (dashboard o).

(** [observe]: construct the components, then loop.  The dashboard's context
    manager and the final clean-up make no difference to the components. *)
Definition observe `{Env} (fuel : nat) (cfg : Config) : M Observer unit :=
  addrs ← _resolve_initial_addrs fuel cfg;
  modify (set_client (mkClient addrs));;
  m ← Metrics.init (prometheus_port cfg) (cw_namespace cfg) (cw_publish_interval_s cfg) (disable_cloudwatch cfg);
  modify (set_metrics m);;
  a ← Alerts.construct (sns_topic_arn cfg) (disable_sns cfg);
  modify (set_alerter a);;
  on_dashboard (Dashboard.init (poll_interval_s cfg));;
  observe_loop fuel cfg.

(** [main]: the settings, then the observer until the stop event is set; signals set
    the event, the event loop is not modelled. *)
Definition main `{Env} (fuel : nat) (env : string -> option string) : M Observer unit :=
  match from_env env with
  | inl e => raise e
  | inr cfg => observe fuel cfg
  end.

(** ** Start-up *)

Definition mono_clock (E : Env) : history -> float := fun h => answer h CMonotonic.

(** A plausible reading: not negative, under 2^51 seconds. *)
Definition plausible (t : float) : Prop := exists p, t = Fin p /\ (0 <= p)%Q /\ (p <= inject_Z (2 ^ 51))%Q.

Definition no_http (l : history) : Prop := http_answers l = [].

Lemma lookups_no_http l : forallb lookup_or_log l = true -> no_http l.
Proof.
  induction l as [|[c r] l IH]; [done|]. intros [Hc Hl]%andb_true_iff. unfold no_http, http_answers in *.
  by destruct c; try discriminate; apply IH.
Qed.

Lemma no_http_app l1 l2 : no_http l1 -> no_http l2 -> no_http (l1 ++ l2).
Proof. unfold no_http, http_answers. by rewrite omap_app; intros -> ->. Qed.

(** Where the start-up loop is: after [l] since [h1]. *)
Definition since (h1 h : history) (l : history) : Prop := h = h1 ++ l /\ no_http l.

(** Outcome of a start-up. *)
Definition addrs_ok (cfg : Config) (h1 : history) {S} (s : S) (r : res (list string)) (s' : S) (h' : history) : Prop :=
  s' = s /\ (exists l, since h1 h' l) /\
  exists addrs, r = Ok addrs /\
    (addrs = coordinator_addrs cfg \/ (addrs <> [] /\ forall a, a ∈ addrs -> truthy a = true)).

Lemma omap_row_truthy (anss : list (exn + option item)) (a : string) : a ∈ omap row_addr anss -> truthy a = true.
Proof.
  intros Ha. apply list_elem_of_omap in Ha as (ans & _ & Hr).
  destruct ans as [e|[it|]]; simpl in Hr; try done.
  destruct (get_S it "http_addr"); simpl in Hr; [|done]. by destruct (truthy s) eqn:E; simplify_eq.
Qed.

Lemma resolve_turn_spec `{E : Env} {S} cfg deadline (s : S) h1 h l :
  since h1 h l ->
  wp (resolve_turn cfg deadline tt)
     (fun r s' h' => match r with
        | Ok (inl _) => s' = s /\ flt (mono_clock E h) deadline = true /\
            exists l', since h1 h' (l ++ l') /\ (1 <= pauses 2 l')%nat
        | Ok (inr addrs) => addrs_ok cfg h1 s (Ok addrs) s' h'
        | _ => False
        end) s h.
Proof.
  intros [-> Hn]. unfold resolve_turn. apply wp_bind, wp_ask. simpl. fold (mono_clock E (h1 ++ l)).
  set (now := mono_clock E (h1 ++ l)). destruct (flt now deadline) eqn:Hf.
  - apply wp_bind. unfold wp, next.
    destruct (resolve_fold_run (peers_table cfg) (coordinator_node_ids cfg) [] s ((h1 ++ l) ++ [Ev CMonotonic now]))
      as (l2 & anss & Hr & _ & _ & Hq).
    unfold resolve_addrs. simpl. rewrite Hr. simpl.
    assert (Hh : no_http l2) by by apply lookups_no_http.
    destruct (omap row_addr anss) as [|a as_] eqn:Eo.
    + wp_steps. split; [done|]. split; [done|].
      exists ([Ev CMonotonic now] ++ l2 ++ [Ev (CSleep (Fin (2 # 1))) tt]). split.
      * split; [by rewrite <- !app_assoc|]. repeat apply no_http_app; done.
      * unfold pauses. rewrite !count_app, !count_cons. simpl. lia.
    + wp_steps. unfold addrs_ok. split; [done|]. split.
      * exists (l ++ [Ev CMonotonic now] ++ l2 ++ [Ev (CLog WARNING ("resolved coordinators from peers table: " ^^ repr_list (a :: as_))) tt]).
        split; [by rewrite <- !app_assoc|]. repeat apply no_http_app; done.
      * eexists. split; [done|]. right. split; [done|]. intros b Hb. apply (omap_row_truthy anss). by rewrite Eo.
  - wp_steps. unfold addrs_ok. split; [done|]. split; [|eexists; split; [done|by left]].
    eexists (l ++ [_; _]). split; [by rewrite <- !app_assoc|]. apply no_http_app; done.
Qed.

(** Polls of the registry that fit before the deadline, and one to spare. *)
Definition startup_fuel : nat := 122.

Lemma resolve_loop `{E : Env} {S} (fuel : nat) (cfg : Config) (s : S) (h : history) :
  steady (mono_clock E) -> plausible (mono_clock E h) -> (startup_fuel <= fuel)%nat ->
  wp (_resolve_initial_addrs fuel cfg) (addrs_ok cfg h s) s h.
Proof.
  intros Hs (p & Hp & Hp0 & Hp1) Hfuel. unfold _resolve_initial_addrs.
  destruct (no_registry cfg).
  { apply wp_ret. split; [done|]. split; [exists []; split; [by rewrite app_nil_r|done]|].
    eexists; split; [done|by left]. }
  apply wp_bind, wp_ask. simpl. fold (mono_clock E h). rewrite Hp.
  set (deadline := fadd (Fin p) (Fin (120 # 1))).
  apply (wp_while fuel (resolve_turn cfg deadline)
    (fun _ s' h' => s' = s /\ exists l, since h h' l)
    (fun _ _ h' => 121 - pauses 2 (drop (length h) h'))%nat).
  - intros [] s' h' [-> (l & Hl)]. pose proof (resolve_turn_spec cfg deadline s h h' l Hl) as K.
    eapply wp_mono; [|exact K]. clear K. intros [[[]|addrs]|e|] s'' h''; try done.
    intros (-> & Hf & l' & Hl' & Hone). split; [split; [done|by eexists]|].
    destruct Hl as [-> _], Hl' as [-> _]. rewrite !drop_app_length.
    assert (Hlt : (pauses 2 l < 121)%nat).
    { destruct (Nat.lt_ge_cases (pauses 2 l) 121) as [?|Hge]; [done|]. exfalso.
      pose proof (deadline_after (mono_clock E) h l p (120 # 1) 2 121 Hs Hp Hp0 ltac:(discriminate)) as D.
      unfold deadline in Hf. rewrite D in Hf; try done; [].
      clear - Hp1. assert (C : (inject_Z (2 ^ 51) + (120 # 1) <= inject_Z (2 ^ 52))%Q) by (apply Qle_bool_iff; reflexivity).
      revert Hp1 C. generalize (inject_Z (2 ^ 51)) (inject_Z (2 ^ 52)). intros. lra. }
    unfold pauses in *. rewrite count_app. lia.
  - split; [done|]. eexists [_]. done.
  - unfold startup_fuel in Hfuel. lia.
Qed.

(** C35: start-up ends.  With a clock that moves on during sleeps, resolving the
    coordinators takes at most [startup_fuel] looks at the peers table, never
    fails, and yields the static addresses or a non-empty list of non-empty
    addresses from the table. *)
Theorem startup_terminates `{E : Env} {S} (fuel : nat) (cfg : Config) (s : S) (h : history) :
  steady (mono_clock E) -> plausible (mono_clock E h) -> (startup_fuel <= fuel)%nat ->
  exists addrs h', _resolve_initial_addrs fuel cfg s h = (Ok addrs, s, h') /\
    (addrs = coordinator_addrs cfg \/ (addrs <> [] /\ forall a, a ∈ addrs -> truthy a = true)).
Proof.
  intros Hs Hp Hf. pose proof (resolve_loop fuel cfg s h Hs Hp Hf) as K. unfold wp in K.
  destruct (_resolve_initial_addrs fuel cfg s h) as [[r s'] h'].
  destruct K as (-> & _ & addrs & -> & Ha). by exists addrs, h'.
Qed.

Definition registry_config : Config :=
  {| coordinator_addrs := ["localhost:8080"]%string; peers_table := "peers";
     coordinator_node_ids := ["coordinator-a"]%string; poll_interval_s := Fin (2 # 1);
     cw_namespace := "Driftless/Raft"; cw_publish_interval_s := Fin (60 # 1); prometheus_port := 9090;
     aws_region := "us-east-1"; sns_topic_arn := ""; disable_cloudwatch := true; disable_sns := true |}.

Lemma startup_terminates_witness :
  exists addrs h', _resolve_initial_addrs (H := pausing_env 1000) 122 registry_config tt [] = (Ok addrs, tt, h') /\
    (addrs = ["localhost:8080"]%string \/ (addrs <> [] /\ forall a, a ∈ addrs -> truthy a = true)).
Proof.
  apply (startup_terminates (E := pausing_env 1000) 122 registry_config tt []).
  - apply pausing_steady.
  - exists (1000 + 0)%Q. split; [reflexivity|]. split; apply Qle_bool_iff; reflexivity.
  - unfold startup_fuel. lia.
Defined.

Lemma init_run `{E : Env} t h :
  Dashboard.init t blank h =
  (Raise (attribute_error "_commit_history"),
   {| _poll_interval := Some t; _live := None; _commit_history := None; _latest_snapshot := None; _latest_alerts := [] |},
   h ++ [Ev (CStrftime "%H:%M:%S") (answer h (CStrftime "%H:%M:%S"))]).
Proof. done. Qed.

(** C34: the observer does not come up.  Whenever start-up gets past the metrics
    server, [observe] ends in the [AttributeError] of the dashboard's constructor:
    no coordinator is ever polled. *)
Theorem observe_never_observes `{E : Env} (fuel : nat) (cfg : Config) (o : Observer) (h : history) :
  steady (mono_clock E) -> plausible (mono_clock E h) -> (startup_fuel <= fuel)%nat ->
  (forall h port, answer h (CHttpServer port) = inr tt) -> dashboard o = blank ->
  exists o' l, observe fuel cfg o h = (Raise (attribute_error "_commit_history"), o', h ++ l) /\ http_answers l = [].
Proof.
  intros Hs Hp Hf Hport Hd. pose proof (resolve_loop fuel cfg o h Hs Hp Hf) as K. unfold wp in K.
  unfold observe. unfold mbind at 1, M_bind at 1.
  destruct (_resolve_initial_addrs fuel cfg o h) as [[r s'] h1].
  destruct K as (-> & (l & -> & Hl) & addrs & -> & _).
  unfold modify, Metrics.init, check, ask. unfold mbind, M_bind. rewrite Hport. simpl.
  unfold construct, mbind, M_bind. destruct (disable_cloudwatch cfg), (negb (_disable_sns _)); simpl; unfold on_dashboard, zoom; simpl; rewrite Hd;
    rewrite init_run; (eexists _, _; split; [by rewrite <- !app_assoc|]);
    unfold no_http, http_answers in *; by rewrite omap_app, Hl.
Qed.

Definition fresh_observer : Observer :=
  {| client := mkClient []; alerter := Alerts.init "" true; metrics := Metrics.fresh; dashboard := blank |}.

Lemma observe_never_observes_witness :
  exists o' l, observe (H := pausing_env 1000) 200 registry_config fresh_observer [] =
    (Raise (attribute_error "_commit_history"), o', l) /\ http_answers l = [].
Proof.
  apply (observe_never_observes (E := pausing_env 1000) 200 registry_config fresh_observer []).
  - apply pausing_steady.
  - exists (1000 + 0)%Q. split; [reflexivity|]. split; apply Qle_bool_iff; reflexivity.
  - unfold startup_fuel. lia.
  - reflexivity.
  - reflexivity.
Defined.

(** ** The observation loop *)

#[local] Instance total_poll_and_publish `{E : Env} : Total poll_and_publish.
Proof.
  unfold poll_and_publish, on_client, on_alerter, on_metrics, on_dashboard, poll, _poll_one, from_dict, unreachable,
    Metrics.update, _update_prometheus, node_gauges, _flush_cloudwatch,
    publish_batch, Dashboard.update, _render, _header, _throughput_panel, _commit_rate, read_attr.
  apply total_bind; [total_auto|intros snap].
  apply total_bind; [|intros; total_auto].
  apply total_zoom. intros a h. pose proof (check_timer snap a h) as K. unfold wp in K.
  destruct (check_alerts snap a h) as [[r a'] h']. apply K.
Qed.

Lemma observe_once_ok `{E : Env} o h : (observe_once o h).1.1 = Ok tt.
Proof. apply try_log_ok, _. Qed.

(** C37: a poll error never stops the observer.  Whatever the coordinators, SNS,
    CloudWatch and the components do, the loop never raises; it returns only
    when it has just seen the stop event set. *)
Theorem observe_loop_survives `{E : Env} (fuel : nat) (cfg : Config) (o : Observer) (h : history) :
  let '(r, _, h') := observe_loop fuel cfg o h in
  r = NoFuel \/ (r = Ok tt /\ exists h0, h' = h0 ++ [Ev CEventIsSet true]).
Proof.
  enough (wp (observe_loop fuel cfg)
    (fun r _ h' => r = NoFuel \/ (r = Ok tt /\ exists h0, h' = h0 ++ [Ev CEventIsSet true])) o h) as W by exact W.
  unfold observe_loop. apply (wp_while_inv fuel (observe_turn cfg) (fun _ _ _ => True)); [|by left|done].
  intros [] o' h' _. unfold observe_turn. apply wp_bind, wp_ask. simpl.
  destruct (answer h' CEventIsSet) eqn:Es.
  - wp_steps. right. split; [done|]. by eexists.
  - apply wp_bind. pose proof (observe_once_ok o' (h' ++ [Ev CEventIsSet false])) as K.
    unfold wp, next. destruct (observe_once o' _) as [[r o''] h'']. simpl in K. subst r. by wp_steps.
Qed.

(** ** The refresh loop *)

(** One refresh never fails and never loses the coordinators: the client's
    addresses become those of the peers table exactly when the table yields some
    and they differ as a set from the current ones; otherwise they stay. *)
Theorem refresh_once_spec `{E : Env} (cfg : Config) (c : RaftClusterClient) (h : history) :
  exists c' h' anss, refresh_once cfg c h = (Ok tt, c', h') /\
    let new := omap row_addr anss in
    _addrs c' = match new with
                | [] => _addrs c
                | _ => if sets_differ new (_addrs c) then new else _addrs c
                end /\
    (_addrs c <> [] -> _addrs c' <> []).
Proof.
  unfold refresh_once, try_except.
  destruct (resolve_fold_run (peers_table cfg) (coordinator_node_ids cfg) [] c h) as (l & anss & Hr & _).
  unfold mbind at 1, M_bind at 1. unfold resolve_addrs. rewrite Hr. simpl. unfold mbind at 1, M_bind at 1. simpl.
  destruct (omap row_addr anss) as [|a new] eqn:En.
  - eexists _, _, anss. split; [done|]. rewrite En. done.
  - case_if.
    + eexists _, _, anss. split; [done|]. rewrite En, Hif. done.
    + eexists _, _, anss. split; [done|]. rewrite En, Hif. done.
Qed.
