(* ===== verification/History.v ===== *)
(** * History: the JSONL history of a run (chaos-bench/recorder.py)

    [record] writes one line per operation; the analysers read the file line by
    line.  The lock of the recorder makes a line atomic, so a file written by
    several threads is the lines of some sequence of records.  Text files are
    read with newlines as separators. *)

From stdpp Require Import base gmap list strings.
From Stdlib Require Import ZArith.
From S2P Require Import Prelude PyFloat PyStr PyDict Json Runtime.

Local Open Scope driftless_scope.

(** An event of the history: the fields of its line. *)
Abbreviation fields := (list (string * json)).

(** [HistoryRecorder.record]. *)
Definition record `{Env} {S} (ev : fields) : M S unit :=
  wall ← ask CTimeNs;
  let ev := dict_setdefault ev "wall_ns" (JInt wall) in
  let line := dumps (JObj ev) in
  write_file (line ^^ newline).

(** ** Reading a history *)

(** [for line in f], without the newlines. *)
Definition lines_of (text : string) : list string := split_on (chr 10) text.

Definition bad_json (line : string) : exn := Exn ValueError ("JSONDecodeError: " ^^ line).

(** [json.loads(line)]. *)
Definition parse_line (line : string) : res json := res_of_option (bad_json line) (loads line).

(** A parsed value where the code calls its [get]. *)
Definition with_get (v : json) : res fields :=
  match v with JObj d => Ok d | _ => Raise (Exn AttributeError "object has no attribute 'get'") end.

(** The loop of every reader: strip the line, skip blanks, parse, process. *)
Definition fold_lines {B} (text : string) (process : B -> json -> res B) (b : B) : res B :=
  fold_res (fun b line =>
    let line := strip line in
    if truthy line then v ← parse_line line; process b v else mret b) b (lines_of text).

(** The readers that look into the value at once, with [get]. *)
Definition fold_history {B} (text : string) (process : B -> fields -> res B) (b : B) : res B :=
  fold_lines text (fun b v => ev ← with_get v; process b ev) b.

(** [plot.load]: whatever the lines hold. *)
Definition load (text : string) : res (list json) :=
  fold_lines text (fun events ev => mret (events ++ [ev])) [].

(** [ev.get(k)] and [ev[k]]. *)
Definition field (ev : fields) (k : string) : json := default JNull (dict_get ev k).
Definition field_or (ev : fields) (k : string) (dflt : json) : json := default dflt (dict_get ev k).
Definition item_of (ev : fields) (k : string) : res json := res_of_option (key_error k) (dict_get ev k).

(** [ev.get("op") == name]. *)
Definition op_is (ev : fields) (name : string) : bool :=
  match field ev "op" with JStr s => String.eqb s name | _ => false end.

(** [if x:] for a parsed value. *)
Definition json_truthy (v : json) : bool :=
  match v with
  | JNull => false
  | JBool b => b
  | JInt z => negb (z =? 0)%Z
  | JFloat x => negb (feq x (Fin (QArith_base.Qmake 0 1)))
  | JStr s => truthy s
  | JArr l => negb (length l =? 0)
  | JObj d => negb (length d =? 0)
  end.

(** A parsed value as a key of a Python [dict] or [set]: scalars are told apart by
    their text, containers are not hashable. *)
Definition hash_key (v : json) : res string :=
  match v with
  | JArr _ => Raise (Exn TypeError "unhashable type: 'list'")
  | JObj _ => Raise (Exn TypeError "unhashable type: 'dict'")
  | _ => Ok (dumps v)
  end.

(** [int(v)]. *)
Definition int_of_json (v : json) : res Z :=
  match v with
  | JInt z => Ok z
  | JBool b => Ok (if b then 1 else 0)%Z
  | JFloat x => match ftrunc x with
                | Some z => Ok z
                | None => Raise (match x with NaN => Exn ValueError "cannot convert float NaN to integer"
                                 | _ => Exn OverflowError "cannot convert float infinity to integer" end)
                end
  | JStr s => match int_of_str s with
              | Some z => Ok z
              | None => Raise (Exn ValueError ("invalid literal for int() with base 10: " ^^ repr_str s))
              end
  | _ => Raise (Exn TypeError "int() argument must be a string or a number")
  end.

(** [x + v] of numbers; [True] counts as 1. *)
Definition as_number (v : json) : option (Z + float) :=
  match v with
  | JInt z => Some (inl z)
  | JBool b => Some (inl (if b then 1 else 0)%Z)
  | JFloat x => Some (inr x)
  | _ => None
  end.

(** An int next to a float: converted, or refused. *)
Definition float_of_int (z : Z) : res float :=
  match of_Z z with
  | Fin q => Ok (Fin q)
  | _ => Raise (Exn OverflowError "int too large to convert to float")
  end.

Definition json_add (a b : json) : res json :=
  match as_number a, as_number b with
  | Some (inl x), Some (inl y) => Ok (JInt (x + y))
  | Some (inl x), Some (inr y) => x ← float_of_int x; mret (JFloat (fadd x y))
  | Some (inr x), Some (inl y) => y ← float_of_int y; mret (JFloat (fadd x y))
  | Some (inr x), Some (inr y) => Ok (JFloat (fadd x y))
  | _, _ => Raise (Exn TypeError "unsupported operand type(s) for +=")
  end.

(** [open(path).read()]. *)
Definition read_file `{Env} {S} (path : string) : M S string := check (ask (CReadFile path)).
Definition dump_json `{Env} {S} (path : string) (v : json) : M S unit := tell (Ev (CDumpJson path v) tt).

(** ** What a log has written *)

Definition written_text (e : event) : option string :=
  match ev_call e with CWrite text => Some text | _ => None end.

Definition texts (h : history) : list string := omap written_text h.

Definition written (h : history) : string := foldr String.append "" (texts h).

Lemma texts_app h1 h2 : texts (h1 ++ h2) = texts h1 ++ texts h2.
Proof. apply omap_app. Qed.

Definition no_write (c : call) : bool := match c with CWrite _ => false | _ => true end.

Lemma no_write_texts l : forallb (fun e => no_write (ev_call e)) l = true -> texts l = [].
Proof.
  induction l as [|[c r] l IH]; [done|]. cbn [forallb]. intros [Hc Hl]%andb_true_iff. unfold texts in *. cbn.
  by destruct c; try discriminate; apply IH.
Qed.

(** The line of a record stamped with a wall-clock reading. *)
Definition stamped (ev : fields) (wall : Z) : fields := dict_setdefault ev "wall_ns" (JInt wall).
Definition line_text (ev : fields) : string := dumps (JObj ev) ^^ newline.

Lemma record_run `{E : Env} {S} (ev : fields) (s : S) h :
  record ev s h =
  (Ok tt, s, h ++ [Ev CTimeNs (answer h CTimeNs); Ev (CWrite (line_text (stamped ev (answer h CTimeNs)))) tt]).
Proof. unfold record, mbind, M_bind, ask, write_file, tell. by rewrite <- app_assoc. Qed.

(** The file of some events. *)
Definition file_of (evs : list fields) : string := foldr String.append "" (map line_text evs).

(** Fields that survive printing: distinct keys, floats whose text reads back. *)
Definition plain_fields (ev : fields) : bool := plain (JObj ev).

Lemma plain_stamped ev wall : plain_fields ev = true -> plain_fields (stamped ev wall) = true.
Proof.
  unfold plain_fields, stamped, dict_setdefault. intros Hp. destruct (dict_has ev "wall_ns") eqn:Eh; [done|].
  cbn [plain] in *. apply andb_true_iff in Hp as [Hn Hv]. apply bool_decide_eq_true in Hn.
  assert (Hk : "wall_ns"%string ∉ dict_keys ev) by (rewrite <- dict_has_true; congruence).
  rewrite dict_set_new by done. apply andb_true_iff. split.
  - apply bool_decide_eq_true. rewrite <- (dict_set_new ev "wall_ns" (JInt wall)) by done. by apply dict_set_NoDup.
  - by rewrite forallb_app, Hv.
Qed.

Lemma parse_line_text ev : plain_fields ev = true ->
  strip (dumps (JObj ev)) = dumps (JObj ev) /\ truthy (dumps (JObj ev)) = true /\
  parse_line (dumps (JObj ev)) = Ok (JObj ev).
Proof.
  intros Hp. split; [apply strip_dumps_obj|]. split; [by apply dumps_truthy|].
  unfold parse_line. by rewrite loads_dumps.
Qed.

(** Reading the text of some lines processes their values in order. *)
Lemma fold_lines_text {B} (process : B -> json -> res B) (b : B) (evs : list fields) :
  forallb plain_fields evs = true ->
  fold_lines (foldr String.append "" (map line_text evs)) process b = fold_res process b (map JObj evs).
Proof.
  unfold fold_lines, lines_of. revert b. induction evs as [|ev evs IH]; intros b Hp; [done|].
  cbn [forallb map foldr] in *. apply andb_true_iff in Hp as [Hp Hps].
  destruct (parse_line_text ev Hp) as (H1 & H2 & H3).
  unfold line_text at 1. rewrite append_assoc. change (newline ^^ ?r) with (String (chr 10) ("" ^^ r)).
  rewrite append_nil_l, split_on_app by (apply printable_no_newline, dumps_printable, Hp).
  cbn [fold_res]. rewrite H1, H2, H3. cbn [mbind res_bind].
  destruct (process b (JObj ev)) as [b'|e|]; simpl; [by apply IH|done|done].
Qed.

Lemma fold_with_get {B} (process : B -> fields -> res B) (b : B) (evs : list fields) :
  fold_res (fun b v => ev ← with_get v; process b ev) b (map JObj evs) = fold_res process b evs.
Proof.
  revert b. induction evs as [|ev evs IH]; intros b; [done|]. cbn [map fold_res with_get mbind res_bind].
  destruct (process b ev) as [b'|e|]; cbn [mbind res_bind]; [apply IH|done|done].
Qed.

Lemma fold_history_lines {B} (process : B -> fields -> res B) (b : B) (evs : list fields) :
  forallb plain_fields evs = true ->
  fold_history (foldr String.append "" (map line_text evs)) process b = fold_res process b evs.
Proof. intros Hp. unfold fold_history. by rewrite fold_lines_text, fold_with_get. Qed.

Lemma fold_append {A} (evs acc : list A) :
  fold_res (fun events ev => mret (events ++ [ev])) acc evs = Ok (acc ++ evs).
Proof.
  revert acc. induction evs as [|ev evs IH]; intros acc; simpl; [by rewrite app_nil_r|].
  by rewrite IH, <- app_assoc.
Qed.

Lemma load_file (evs : list fields) : forallb plain_fields evs = true -> load (file_of evs) = Ok (map JObj evs).
Proof. intros Hp. unfold load, file_of. by rewrite fold_lines_text, fold_append. Qed.

(** Reading ends. *)
Lemma load_total (text : string) : load text <> NoFuel.
Proof.
  unfold load, fold_lines. generalize (@nil json) at 2. induction (lines_of text) as [|line l IH]; intros acc; [done|].
  cbn [fold_res]. destruct (truthy (strip line)); cbn [mbind res_bind mret res_ret]; [|apply IH].
  unfold parse_line. destruct (loads (strip line)); cbn [mbind res_bind res_of_option mret res_ret]; [apply IH|done].
Qed.

(** ** Properties *)

(** C9: a history reads back as it was recorded.  Whatever the sequence of records
    the threads of a run made, the file they wrote loads as exactly those events,
    in order, each with its wall-clock stamp. *)
Theorem history_roundtrip `{E : Env} {S} (evs : list fields) (s : S) (h : history) :
  forallb plain_fields evs = true ->
  exists l walls, for_each evs record s h = (Ok tt, s, h ++ l) /\
    length walls = length evs /\ load (written l) = Ok (map JObj (zip_with stamped evs walls)).
Proof.
  intros Hp.
  enough (exists l walls, for_each evs record s h = (Ok tt, s, h ++ l) /\
    length walls = length evs /\ texts l = map line_text (zip_with stamped evs walls)) as (l & walls & H1 & H2 & H3).
  { exists l, walls. split; [done|]. split; [done|]. unfold written. rewrite H3.
    apply load_file.
    clear - Hp H2. revert walls H2. induction evs as [|ev evs IH]; intros [|w walls] Hl; try done.
    cbn [zip_with forallb] in *. apply andb_true_iff in Hp as [Hp Hps].
    rewrite plain_stamped by done. apply IH; [done|]. simpl in Hl. lia. }
  clear Hp. revert h. induction evs as [|ev evs IH]; intros h.
  - exists [], []. by rewrite app_nil_r.
  - cbn [for_each]. unfold mbind, M_bind. rewrite record_run.
    destruct (IH (h ++ [Ev CTimeNs (answer h CTimeNs);
      Ev (CWrite (line_text (stamped ev (answer h CTimeNs)))) tt])) as (l & walls & H1 & H2 & H3).
    rewrite H1. eexists (_ :: _ :: l), (_ :: walls). rewrite <- app_assoc. split; [done|].
    split; [simpl; lia|]. cbn [zip_with map]. rewrite <- H3. done.
Qed.

Definition sample_events : list fields :=
  [[("op", JStr "submit"); ("task_id", JStr "t-1"); ("submitted_ns", JInt 5)];
   [("op", JStr "complete"); ("task_id", JStr "t-1"); ("status", JStr "COMPLETED")]]%string.

Lemma history_roundtrip_witness :
  exists l walls, for_each (S := unit) sample_events (@record (fun _ => default_answer) unit) tt [] = (Ok tt, tt, l) /\
    length walls = 2 /\ load (written l) = Ok (map JObj (zip_with stamped sample_events walls)).
Proof. apply (history_roundtrip (E := fun _ => default_answer) sample_events tt []). vm_compute. reflexivity. Defined.
