(* ===== verification/BenchConfig.v ===== *)
(** * BenchConfig: settings of the chaos bench (chaos-bench/config.py)

    [bench_from_env] reads the settings from the environment variables; names that
    are not set follow from the project, the environment and the account. *)

From stdpp Require Import base list strings.
From Stdlib Require Import ZArith.
From S2P Require Import Prelude PyFloat PyStr PyDict Json Runtime ObserverConfig.

Local Open Scope driftless_scope.

Record BenchConfig : Type := mkBenchConfig {
  b_aws_region : string;
  b_account_id : string;
  cluster_name : string;
  tasks_table : string;
  b_peers_table : string;
  payload_bucket : string;
  snapshot_bucket : string;
  ingest_queue_url : string;
  coordinator_services : list string;
  worker_service : string;
  ingest_service : string;
  history_dir : string;
}.

(** [Config.from_env]. *)
Definition bench_from_env (env : string -> option string) : BenchConfig :=
  let region := getenv env "AWS_REGION" "us-east-1" in
  let account := getenv env "AWS_ACCOUNT_ID" "" in
  let env_ := getenv env "DRIFTLESS_ENV" "dev" in
  let project := getenv env "DRIFTLESS_PROJECT" "raft-coordinator" in
  let prefix := project ^^ "-" ^^ env_ in
  let coord_ids := getenv env "COORDINATOR_SERVICES" (prefix ^^ "-coordinator-a") in
  {| b_aws_region := region;
     b_account_id := account;
     cluster_name := getenv env "CLUSTER_NAME" (prefix ^^ "-cluster");
     tasks_table := getenv env "TASKS_TABLE" (prefix ^^ "-tasks");
     b_peers_table := getenv env "PEERS_TABLE" (prefix ^^ "-peers");
     payload_bucket := getenv env "PAYLOAD_BUCKET" (prefix ^^ "-task-data-" ^^ account);
     snapshot_bucket := getenv env "SNAPSHOT_BUCKET" (prefix ^^ "-raft-snapshots-" ^^ account);
     ingest_queue_url := getenv env "INGEST_QUEUE_URL"
       ("https://sqs." ^^ region ^^ ".amazonaws.com/" ^^ account ^^ "/" ^^ prefix ^^ "-ingest");
     coordinator_services := comma_list coord_ids;
     worker_service := getenv env "WORKER_SERVICE" (prefix ^^ "-worker");
     ingest_service := getenv env "INGEST_SERVICE" (prefix ^^ "-ingest");
     history_dir := getenv env "HISTORY_DIR" "./histories" |}.

(** A configuration for concrete instances: three coordinators. *)
Definition three_coordinators : BenchConfig :=
  bench_from_env (fun name =>
    if String.eqb name "COORDINATOR_SERVICES"
    then Some "dev-coordinator-a, dev-coordinator-b, dev-coordinator-c"%string else None).

Example three_services :
  coordinator_services three_coordinators = ["dev-coordinator-a"; "dev-coordinator-b"; "dev-coordinator-c"]%string.
Proof. vm_compute. reflexivity. Qed.
