(* ===== verification/LeaderDetect.v ===== *)
(** * LeaderDetect: who leads, and which service to stop (chaos-bench/leader_detect.py)

    [find_leader] reads the peers table and takes the first row flagged as leader
    whose service is known; without one it asks every node's [/state]. *)

From stdpp Require Import base gmap list strings.
From Stdlib Require Import ZArith.
From S2P Require Import Prelude PyFloat PyStr PyDict Json Runtime BenchConfig.

Local Open Scope Z_scope.
Local Open Scope driftless_scope.

Record LeaderInfo : Type := mkLeaderInfo {
  li_node_id : string;
  li_http_addr : string;
  li_ecs_service : string;
  li_term : Z;
}.

(** A row that names a node: id, address, leader flag. *)
Abbreviation peer_row := (string * string * bool)%type.

Fixpoint _ecs_service_for (node_id : string) (known_services : list string) : option string :=
  match known_services with
  | [] => None
  | s :: rest => if endswith s node_id then Some s else _ecs_service_for node_id rest
  end.

(** [except (URLError, TimeoutError, ValueError)]. *)
Definition fetch_caught (e : exn) : bool :=
  match exn_cls e with URLError | TimeoutError | ValueError => true | _ => false end.

Definition _fetch_state `{Env} {S} (http_addr : string) : M S (option state_doc) :=
  try_except
    (doc ← check (ask (CHttpState (http_addr ^^ "/state"))); mret (Some doc))
    (fun exc => if fetch_caught exc then mret None else raise exc).

(** The loop over the items: a leader, or the rows gathered. *)
Fixpoint scan_rows (services : list string) (items : list item) (rows : list peer_row)
    : LeaderInfo + list peer_row :=
  match items with
  | [] => inr rows
  | it :: items' =>
      match get_S it "node_id", get_S it "http_addr" with
      | Some node_id, Some http_addr =>
          if negb (truthy node_id) || negb (truthy http_addr) then scan_rows services items' rows
          else
            let is_leader := default false (get_BOOL it "is_leader") in
            let rows' := rows ++ [(node_id, http_addr, is_leader)] in
            if is_leader then
              match _ecs_service_for node_id services with
              | Some svc =>
                  if truthy svc then
                    inl {| li_node_id := node_id; li_http_addr := "http://" ^^ http_addr;
                           li_ecs_service := svc; li_term := 0 |}
                  else scan_rows services items' rows'
              | None => scan_rows services items' rows'
              end
            else scan_rows services items' rows'
      | _, _ => scan_rows services items' rows
      end
  end.

(** The fallback loop. *)
Fixpoint poll_rows `{Env} {S} (services : list string) (rows : list peer_row) : M S (option LeaderInfo) :=
  match rows with
  | [] => mret None
  | (node_id, http_addr, _) :: rows' =>
      state ← _fetch_state ("http://" ^^ http_addr);
      match state with
      | Some d =>
          if String.eqb (default ""%string (sd_state d)) "leader" then
            match _ecs_service_for node_id services with
            | Some svc =>
                if truthy svc then
                  mret (Some {| li_node_id := node_id; li_http_addr := "http://" ^^ http_addr;
                                li_ecs_service := svc; li_term := default 0 (sd_current_term d) |})
                else poll_rows services rows'
            | None => poll_rows services rows'
            end
          else poll_rows services rows'
      | None => poll_rows services rows'
      end
  end.

Definition find_leader `{Env} {S} (cfg : BenchConfig) : M S (option LeaderInfo) :=
  items ← check (ask (CDdbScan (b_peers_table cfg)));
  match scan_rows (coordinator_services cfg) items [] with
  | inl info => mret (Some info)
  | inr rows => poll_rows (coordinator_services cfg) rows
  end.

(** ** Abstract view *)

(** The row an item describes. *)
Definition row_of (it : item) : option peer_row :=
  match get_S it "node_id", get_S it "http_addr" with
  | Some n, Some a => if truthy n && truthy a then Some (n, a, default false (get_BOOL it "is_leader")) else None
  | _, _ => None
  end.

(** The answer a row stands for when its node leads in [term]. *)
Definition info_of (services : list string) (term : Z) (r : peer_row) : option LeaderInfo :=
  match _ecs_service_for r.1.1 services with
  | Some svc => if truthy svc then
      Some {| li_node_id := r.1.1; li_http_addr := "http://" ^^ r.1.2; li_ecs_service := svc; li_term := term |}
      else None
  | None => None
  end.

Definition flagged (services : list string) (r : peer_row) : option LeaderInfo :=
  if r.2 then info_of services 0 r else None.

(** The first result of a partial function. *)
Fixpoint first_some {A B} (f : A -> option B) (l : list A) : option B :=
  match l with [] => None | x :: l' => match f x with Some y => Some y | None => first_some f l' end end.

Lemma first_some_Some {A B} (f : A -> option B) l y :
  first_some f l = Some y -> exists l1 x l2, l = l1 ++ x :: l2 /\ f x = Some y /\ forall z, z ∈ l1 -> f z = None.
Proof.
  induction l as [|x l IH]; simpl; [done|]. destruct (f x) eqn:Ef; intros H.
  - simplify_eq. exists [], x, l. repeat split; [done|]. intros z Hz. inv Hz.
  - destruct (IH H) as (l1 & x' & l2 & -> & Hx & Hl). exists (x :: l1), x', l2. repeat split; [done|].
    intros z [->|Hz]%elem_of_cons; auto.
Qed.

Lemma scan_rows_spec services items rows :
  scan_rows services items rows =
  match first_some (flagged services) (omap row_of items) with
  | Some info => inl info
  | None => inr (rows ++ omap row_of items)
  end.
Proof.
  revert rows. induction items as [|it items IH]; intros rows; cbn [scan_rows omap list_omap].
  - simpl. by rewrite app_nil_r.
  - destruct (row_of it) as [[[n a] f]|] eqn:Er; unfold row_of in Er.
    + destruct (get_S it "node_id") as [n'|]; [|done]. destruct (get_S it "http_addr") as [a'|]; [|done].
      destruct (truthy n') eqn:En; simpl in Er; [|done]. destruct (truthy a') eqn:Ea; simpl in Er; [|done].
      simplify_eq. cbn [first_some negb orb]. unfold flagged at 1, info_of. simpl.
      destruct (default false (get_BOOL it "is_leader")); simpl; [|by rewrite IH, <- app_assoc].
      destruct (_ecs_service_for n services) as [svc|]; [|by rewrite IH, <- app_assoc].
      destruct (truthy svc); [done|]. by rewrite IH, <- app_assoc.
    + destruct (get_S it "node_id") as [n'|]; [|apply IH]. destruct (get_S it "http_addr") as [a'|]; [|apply IH].
      destruct (truthy n'); simpl in *; [|apply IH]. destruct (truthy a'); simpl in *; [done|apply IH].
Qed.

(** The service found ends with the node's id and is one of the known ones. *)
Lemma ecs_service_for_spec node services svc :
  _ecs_service_for node services = Some svc -> svc ∈ services /\ endswith svc node = true.
Proof.
  induction services as [|s l IH]; simpl; [done|]. destruct (endswith s node) eqn:E; intros H.
  - simplify_eq. split; [left|done].
  - destruct (IH H). split; [by right|done].
Qed.

(** The [/state] answers a fallback run got, and what a node answered. *)
Definition leads_in (ans : exn + state_doc) : option Z :=
  match ans with
  | inr d => if String.eqb (default ""%string (sd_state d)) "leader" then Some (default 0 (sd_current_term d)) else None
  | inl _ => None
  end.

(** Rows tried in order until one leads and has a service. *)
Inductive fallback (services : list string) : list peer_row -> list (exn + state_doc) -> res (option LeaderInfo) -> Prop :=
| fallback_none : fallback services [] [] (Ok None)
| fallback_found r rows ans term info :
    leads_in ans = Some term -> info_of services term r = Some info ->
    fallback services (r :: rows) [ans] (Ok (Some info))
| fallback_next r rows ans anss out :
    (forall term, leads_in ans = Some term -> info_of services term r = None) ->
    (forall e, ans = inl e -> fetch_caught e = true) ->
    fallback services rows anss out -> fallback services (r :: rows) (ans :: anss) out
| fallback_error r rows e :
    fetch_caught e = false -> fallback services (r :: rows) [inl e] (Raise e).

(** The [/state] requests of a log with their answers. *)
Definition state_answer (e : event) : option (string * (exn + state_doc)) :=
  match e with
  | Ev c r => match c as c' return resp c' -> option (string * (exn + state_doc)) with
              | CHttpState url => fun r => Some (url, r)
              | _ => fun _ => None
              end r
  end.

Definition state_answers (h : history) : list (string * (exn + state_doc)) := omap state_answer h.

Definition row_url (r : peer_row) : string := ("http://" ^^ r.1.2) ^^ "/state".

Lemma fetch_state_run `{E : Env} {S} addr (s : S) h :
  let ans := answer h (CHttpState (addr ^^ "/state")) in
  _fetch_state addr s h =
  (match ans with
   | inr d => Ok (Some d)
   | inl e => if fetch_caught e then Ok None else Raise e
   end, s, h ++ [Ev (CHttpState (addr ^^ "/state")) ans]).
Proof.
  intros ans. unfold _fetch_state, try_except, check, ask, mbind, M_bind, raise, mret, M_ret. subst ans.
  destruct (answer h (CHttpState (addr ^^ "/state"))) as [e|d]; [|done]. by destruct (fetch_caught e).
Qed.

Lemma poll_rows_run `{E : Env} {S} services rows (s : S) h :
  exists out l anss, poll_rows services rows s h = (out, s, h ++ l) /\
    state_answers l = zip (map row_url rows) anss /\ fallback services rows anss out.
Proof.
  revert h. induction rows as [|[[n a] f] rows IH]; intros h; cbn [poll_rows].
  - exists (Ok None), [], []. rewrite app_nil_r. split; [done|]. split; [done|constructor].
  - unfold mbind, M_bind. rewrite fetch_state_run.
    set (ans := answer h _). set (h1 := h ++ _).
    assert (Hone : forall l, state_answers (Ev (CHttpState (("http://" ^^ a) ^^ "/state")) ans :: l) =
              (row_url (n, a, f), ans) :: state_answers l) by done.
    assert (Hnext : (forall term, leads_in ans = Some term -> info_of services term (n, a, f) = None) ->
      (forall e, ans = inl e -> fetch_caught e = true) ->
      exists out l anss, poll_rows services rows s h1 = (out, s, h ++ l) /\
        state_answers l = zip (map row_url ((n, a, f) :: rows)) anss /\ fallback services ((n, a, f) :: rows) anss out).
    { intros Hf He. destruct (IH h1) as (out & l & anss & Hr & Ha & Hfb). exists out, (Ev _ ans :: l), (ans :: anss).
      rewrite Hr. subst h1. rewrite <- app_assoc. split; [done|]. split; [by rewrite Hone, Ha|]. by constructor. }
    destruct ans as [e|d] eqn:Ea.
    + destruct (fetch_caught e) eqn:Ec; [apply Hnext; [done|by intros ? [= <-]]|].
      exists (Raise e), [Ev _ ans], [inl e]. rewrite Ea. split; [done|]. split; [rewrite Hone; simpl; by destruct rows|]. by constructor.
    + cbn [leads_in] in *. destruct (String.eqb _ "leader") eqn:El.
      * destruct (_ecs_service_for n services) as [svc|] eqn:Es;
          [|apply Hnext; [intros; unfold info_of; simpl; by rewrite Es|done]].
        destruct (truthy svc) eqn:Et; [|apply Hnext; [intros; unfold info_of; simpl; by rewrite Es, Et|done]].
        eexists (Ok (Some _)), [Ev _ ans], [inr d]. rewrite Ea. split; [done|]. split; [rewrite Hone; simpl; by destruct rows|].
        eapply fallback_found; cbn [leads_in]; [by rewrite El|]. unfold info_of. cbn [fst snd]. by rewrite Es, Et.
      * apply Hnext; done.
Qed.

(** Detection only scans the table and asks nodes. *)
Definition detect_call (c : call) : bool := match c with CDdbScan _ | CHttpState _ => true | _ => false end.

Lemma poll_rows_only `{E : Env} {S} services rows : Only detect_call (S := S) (poll_rows services rows).
Proof. induction rows as [|[[n a] f] rows IH]; cbn [poll_rows]; unfold _fetch_state; only_auto. Qed.

Lemma find_leader_only `{E : Env} {S} cfg : Only detect_call (S := S) (find_leader cfg).
Proof.
  unfold find_leader. apply only_bind; [only_auto|]. intros items.
  destruct (scan_rows _ items []); [apply only_ret|apply poll_rows_only].
Qed.

Lemma poll_rows_total `{E : Env} {S} services rows : Total (S := S) (poll_rows services rows).
Proof. induction rows as [|[[n a] f] rows IH]; cbn [poll_rows]; unfold _fetch_state; total_auto. Qed.

#[export] Instance find_leader_total `{E : Env} {S} cfg : Total (S := S) (find_leader cfg).
Proof.
  unfold find_leader. apply total_bind; [total_auto|]. intros items.
  destruct (scan_rows _ items []); [apply total_ret|apply poll_rows_total].
Qed.

(** ** Properties *)

(** C38: leader detection on every branch.  A failing scan raises; if some row is
    flagged and has a service, the first such row in the order of the scan is
    returned without asking any node; otherwise the nodes are asked in order,
    and the first that says it leads and has a service is returned. *)
Theorem find_leader_spec `{E : Env} {S} (cfg : BenchConfig) (s : S) (h : history) :
  let services := coordinator_services cfg in
  let scan := CDdbScan (b_peers_table cfg) in
  let h1 := h ++ [Ev scan (answer h scan)] in
  match answer h scan with
  | inl e => find_leader cfg s h = (Raise e, s, h1)
  | inr items =>
      match first_some (flagged services) (omap row_of items) with
      | Some info => find_leader cfg s h = (Ok (Some info), s, h1)
      | None => exists out l anss, find_leader cfg s h = (out, s, h1 ++ l) /\
          state_answers l = zip (map row_url (omap row_of items)) anss /\
          fallback services (omap row_of items) anss out
      end
  end.
Proof.
  intros services scan h1. unfold find_leader, check, ask. fold scan. unfold mbind, M_bind. fold h1.
  destruct (answer h scan) as [e|items]; [done|]. cbn. rewrite scan_rows_spec. fold services.
  destruct (first_some (flagged services) (omap row_of items)); [done|]. apply poll_rows_run.
Qed.
