(* ===== verification/LeaderTracker.v ===== *)
(** * LeaderTracker: leader changes seen during a run (chaos-bench/leader_tracker.py)

    The tracker thread scans the peers table and records a line whenever the node
    holding the leader flag changes.  Rows with a stale heartbeat do not count. *)

From stdpp Require Import base gmap list strings.
From Stdlib Require Import ZArith.
From S2P Require Import Prelude PyFloat PyStr PyDict Json Runtime History BenchConfig LeaderDetect.

Local Open Scope Z_scope.
Local Open Scope driftless_scope.

Definition STALE_HB_S : float := Fin (QArith_base.Qmake 3 1).

(** Whether the loop over the items skips a flagged row for its heartbeat: too old
    or not a number.  A row without heartbeat is not skipped. *)
Definition heartbeat_skips (now : float) (it : item) : bool :=
  match get_N it "heartbeat_ts" with
  | Some hb_v => match int_of_str hb_v with
                 | Some hb => flt STALE_HB_S (fsub now (of_Z hb))
                 | None => true
                 end
  | None => false
  end.

(** The node a row makes the leader. *)
Definition fresh_leader (now : float) (it : item) : option string :=
  if negb (default false (get_BOOL it "is_leader")) then None
  else if heartbeat_skips now it then None
  else match get_S it "node_id" with
       | Some node_id => if truthy node_id then Some node_id else None
       | None => None
       end.

Fixpoint leader_in (now : float) (items : list item) : option string :=
  match items with
  | [] => None
  | it :: items' => match fresh_leader now it with Some n => Some n | None => leader_in now items' end
  end.

(** [_scan_once]; [table] is [cfg.peers_table]. *)
Definition _scan_once `{Env} {S} (table : string) : M S (option string) :=
  resp ← ask (CDdbScan table);
  match resp with
  | inl _ => mret None
  | inr items => now ← ask CTime; mret (leader_in now items)
  end.

(** The event of a change of leader. *)
Definition change_event (leader : option string) : fields :=
  match leader with
  | Some n => [("op", JStr "leader_observed"); ("node_id", JStr n)]%string
  | None => [("op", JStr "leader_gap")]%string
  end.

(** One turn of [_run]; the local variable is [last_leader]. *)
Definition track_turn `{Env} {S} (table : string) (poll_s : float) (last_leader : option string)
    : M S (option string + unit) :=
  stop ← ask CEventIsSet;
  if (stop : bool) then mret (inr tt)
  else
    t0 ← ask CTime;
    leader ← _scan_once table;
    (if bool_decide (leader = last_leader) then mret tt else record (change_event leader));;
    now ← ask CTime;
    let elapsed := fsub now t0 in
    (if flt elapsed poll_s then ask (CEventWait (fsub poll_s elapsed));; mret tt else mret tt);;
    mret (inl leader).

Definition _run `{Env} {S} (fuel : nat) (table : string) (poll_s : float) : M S unit :=
  while_loop fuel (track_turn table poll_s) None.

(** [start] and [stop]; the argument tells whether [_thread] is set, and [start]
    returns its new value. *)
Definition tracker_start `{Env} {S} (started : bool) : M S bool :=
  if started then raise (Exn RuntimeError "already started")
  else spawn (JThread "leader-tracker");; mret true.

Definition tracker_stop `{Env} {S} (started : bool) : M S unit :=
  event_set;;
  if started then join_threads else mret tt.

(** ** What a log shows *)

Definition scan_answer (e : event) : option (exn + list item) :=
  match e with
  | Ev c r => match c as c' return resp c' -> option (exn + list item) with
              | CDdbScan _ => fun r => Some r
              | _ => fun _ => None
              end r
  end.

Definition time_reading (e : event) : option float :=
  match e with
  | Ev c r => match c as c' return resp c' -> option float with
              | CTime => fun r => Some r
              | _ => fun _ => None
              end r
  end.

(** The leader each scan of a log shows: none when it failed, else the one its
    rows make at the clock reading that follows. *)
Fixpoint observations (h : history) : list (option string) :=
  match h with
  | [] => []
  | e :: h' =>
      match scan_answer e with
      | Some (inl _) => None :: observations h'
      | Some (inr items) =>
          match h' with
          | e' :: _ => match time_reading e' with
                       | Some now => leader_in now items :: observations h'
                       | None => observations h'
                       end
          | [] => []
          end
      | None => observations h'
      end
  end.

(** The changes in a sequence of observations. *)
Fixpoint changes (last : option string) (obs : list (option string)) : list (option string) :=
  match obs with
  | [] => []
  | o :: obs' => if bool_decide (o = last) then changes last obs' else o :: changes o obs'
  end.

(** Calls that are neither scans nor writes. *)
Definition quiet (e : event) : bool :=
  match ev_call e with CDdbScan _ | CWrite _ => false | _ => true end.

Lemma quiet_observations l l' : forallb quiet l = true -> observations (l ++ l') = observations l'.
Proof.
  induction l as [|[c r] l IH]; [done|]. cbn [forallb app]. intros [Hc Hl]%andb_true_iff.
  cbn [observations]. by destruct c; try discriminate; apply IH.
Qed.

(** A turn: its observation, and the record it makes. *)
Definition turn_writes (last leader : option string) (wall : Z) : list string :=
  if bool_decide (leader = last) then [] else [line_text (stamped (change_event leader) wall)].

Lemma scan_once_run `{E : Env} {S} table (s : S) h :
  exists l leader, _scan_once table s h = (Ok leader, s, h ++ l) /\ texts l = [] /\
    forall l', observations (l ++ l') = leader :: observations l'.
Proof.
  unfold _scan_once, ask, mbind, M_bind. destruct (answer h (CDdbScan table)) as [e|items] eqn:Ea.
  - exists [Ev (CDdbScan table) (inl e)], None. split; [done|]. split; [done|].
    done.
  - set (now := answer _ CTime).
    exists [Ev (CDdbScan table) (inr items); Ev CTime now], (leader_in now items).
    split; [by rewrite <- app_assoc|]. split; [done|].
    done.
Qed.

(** The outcome of a turn that started in [s] with the log [h]. *)
Definition turn_outcome {S} (last : option string) (s : S) (h : history) : post (S := S) (option string + unit) :=
  fun r s' h' => s' = s /\ exists l, h' = h ++ l /\
    match r with
    | Ok (inr _) => texts l = [] /\ forall l', observations (l ++ l') = observations l'
    | Ok (inl leader) => (exists wall, texts l = turn_writes last leader wall) /\
        forall l', observations (l ++ l') = leader :: observations l'
    | _ => False
    end.

Lemma track_turn_run `{E : Env} {S} table poll_s last (s : S) h :
  wp (track_turn table poll_s last) (turn_outcome last s h) s h.
Proof.
  unfold track_turn. apply wp_bind, wp_ask. simpl. destruct (answer h CEventIsSet) eqn:Es.
  { apply wp_ret. split; [done|]. by eexists. }
  apply wp_bind, wp_ask. simpl. apply wp_bind. unfold wp at 1.
  set (h1 := (h ++ _) ++ _). destruct (scan_once_run table s h1) as (l1 & leader & -> & T1 & O1). simpl.
  apply wp_bind.
  assert (Hrec : exists l2 wall, (if bool_decide (leader = last) then mret tt else record (change_event leader)) s (h1 ++ l1)
      = (Ok tt, s, (h1 ++ l1) ++ l2) /\ texts l2 = turn_writes last leader wall /\
        forall l', observations (l2 ++ l') = observations l').
  { unfold turn_writes. case_bool_decide; [exists [], 0; by rewrite app_nil_r|].
    rewrite record_run. eexists _, _. split; [done|]. split; done. }
  destruct Hrec as (l2 & wall & H2 & T2 & O2). unfold wp at 1. rewrite H2. simpl. subst h1.
  apply wp_bind, wp_ask. simpl. apply wp_bind.
  destruct (flt _ poll_s); [apply wp_bind, wp_ask; simpl; apply wp_ret; simpl|apply wp_ret; simpl];
    apply wp_ret; (split; [done|]); eexists; (split; [repeat rewrite <- app_assoc; reflexivity|]);
    (split; [exists wall; rewrite !texts_app, T1, T2; simpl; by rewrite ?app_nil_r|]);
    intros l'; repeat rewrite <- app_assoc; cbn; by rewrite O1, O2.
Qed.

(** What a run has written: a stamped line per change. *)
Definition tracked (last : option string) (l : history) : Prop :=
  exists walls, length walls = length (changes last (observations l)) /\
    texts l = map line_text (zip_with stamped (map change_event (changes last (observations l))) walls).

Lemma track_loop `{E : Env} {S} fuel table poll_s last (s : S) h :
  exists r l, while_loop fuel (track_turn table poll_s) last s h = (r, s, h ++ l) /\
    (r = Ok tt \/ r = NoFuel) /\ tracked last l.
Proof.
  revert last h. induction fuel as [|n IH]; intros last h; cbn [while_loop].
  - exists NoFuel, []. rewrite app_nil_r. split; [done|]. split; [by right|]. by exists [].
  - pose proof (track_turn_run table poll_s last s h) as K. unfold wp in K. unfold mbind, M_bind.
    destruct (track_turn table poll_s last s h) as [[[[leader|[]]|e|] s'] h'];
      destruct K as (-> & l & -> & K); try done; [destruct K as [[wall T] O]|destruct K as [T O]].
    + destruct (IH leader (h ++ l)) as (r & l' & H' & Hr & walls & Hw & T'). rewrite H', <- app_assoc.
      exists r, (l ++ l'). split; [done|]. split; [done|]. unfold tracked. rewrite O, texts_app, T, T'.
      cbn [changes]. unfold turn_writes. case_bool_decide as Hc.
      * subst leader. by exists walls.
      * exists (wall :: walls). split; [simpl; lia|]. done.
    + exists (Ok tt), l. split; [done|]. split; [by left|]. exists [].
      specialize (O []). rewrite app_nil_r in O. rewrite O, T. done.
Qed.

(** ** Properties *)

(** C28: the tracker records exactly the leader changes.  Over any run it never
    fails, and the lines it writes are, in order, one [leader_observed] or
    [leader_gap] for each scan whose leader differs from that of the scan before
    (none before the first). *)
Theorem tracker_records_changes `{E : Env} {S} (fuel : nat) (table : string) (poll_s : float) (s : S) (h : history) :
  exists r l walls, _run fuel table poll_s s h = (r, s, h ++ l) /\ (r = Ok tt \/ r = NoFuel) /\
    let cs := changes None (observations l) in
    length walls = length cs /\
    texts l = map line_text (zip_with stamped (map change_event cs) walls).
Proof.
  destruct (track_loop fuel table poll_s None s h) as (r & l & H & Hr & walls & Hw & T).
  by exists r, l, walls.
Qed.

(** No two consecutive records name the same leader. *)
Lemma changes_differ last obs i a b :
  changes last obs !! i = Some a -> changes last obs !! (S i) = Some b -> a <> b.
Proof.
  revert last i. induction obs as [|o obs IH]; intros last i; cbn [changes]; [done|].
  case_bool_decide; [apply IH|]. destruct i as [|i]; cbn; [|apply IH].
  intros [= ->]. clear H IH. revert a. induction obs as [|o obs IH]; intros a; cbn [changes]; [done|].
  case_bool_decide as Hc; [apply IH|]. intros [= ->]. congruence.
Qed.

(** A flagged row with a heartbeat. *)
Definition peer_item (node addr : string) (hb : Z) : item :=
  {[ "node_id"%string := AS node; "http_addr"%string := AS addr; "is_leader"%string := ABOOL true;
     "heartbeat_ts"%string := AN (str_of_Z hb) ]}.

(** The detector and the tracker disagree on a dead leader.  While the row of
    a killed leader keeps its flag, the tracker skips it once its heartbeat is
    more than three seconds old and reports the new leader, but [find_leader],
    which the kill loops use, still returns the dead node when its row is scanned
    first. *)
Theorem detector_ignores_heartbeat (services : list string) (now : float) (dead new addr addr' : string)
    (hb hb' : Z) (info : LeaderInfo) :
  truthy dead = true -> truthy addr = true -> truthy new = true ->
  info_of services 0 (dead, addr, true) = Some info ->
  flt STALE_HB_S (fsub now (of_Z hb)) = true -> flt STALE_HB_S (fsub now (of_Z hb')) = false ->
  let items := [peer_item dead addr hb; peer_item new addr' hb'] in
  leader_in now items = Some new /\ scan_rows services items [] = inl info.
Proof.
  intros Hd Ha Hn Hi Hold Hnew items. split.
  - subst items. cbn [leader_in]. unfold fresh_leader, heartbeat_skips, get_BOOL, get_N, get_S, peer_item.
    simplify_map_eq. rewrite !int_of_str_of_Z, Hold, Hnew. simpl. by rewrite Hn.
  - rewrite scan_rows_spec. subst items. cbn [omap list_omap].
    assert (row_of (peer_item dead addr hb) = Some (dead, addr, true)) as ->.
    { unfold row_of, get_S, get_BOOL, peer_item. simplify_map_eq. by rewrite Hd, Ha. }
    cbn [first_some]. unfold flagged. cbn [snd]. by rewrite Hi.
Qed.

Lemma detector_ignores_heartbeat_witness :
  let items := [peer_item "coordinator-a" "10.0.0.1:8080" 10; peer_item "coordinator-b" "10.0.0.2:8080" 99] in
  leader_in (Fin (QArith_base.Qmake 100 1)) items = Some "coordinator-b"%string /\
  scan_rows (coordinator_services three_coordinators) items [] =
    inl {| li_node_id := "coordinator-a"; li_http_addr := "http://10.0.0.1:8080";
           li_ecs_service := "dev-coordinator-a"; li_term := 0 |}.
Proof. apply detector_ignores_heartbeat; vm_compute; reflexivity. Defined.
