(* ===== verification/Faults.v ===== *)
(** * Faults: fault injection through the ECS control plane (chaos-bench/chaos.py)

    One definition per method of [ChaosInjector].  [stopped] reads from a log which
    tasks were stopped and under which service ECS had listed them. *)

From stdpp Require Import base list strings.
From Stdlib Require Import ZArith.
From S2P Require Import Prelude PyFloat PyStr PyDict Json Runtime BenchConfig.

Local Open Scope Z_scope.
Local Open Scope driftless_scope.

Record KillResult : Type := mkKillResult { kr_service : string; kr_task_arn : string; kr_killed_ns : Z }.

Section injector.
Context `{E : Env} {S : Type} (cfg : BenchConfig).

Definition _running_tasks (service : string) : M S (list string) :=
  check (ask (CEcsListTasks (cluster_name cfg) service)).

(** [random.choice]: an element of a non-empty list. *)
Definition choice (l : list string) : M S string :=
  i ← ask (CRandomChoice (length l));
  of_option (Exn IndexError "Cannot choose from an empty sequence") (l !! i).

Definition stop_random_task (service reason : string) : M S (option KillResult) :=
  arns ← _running_tasks service;
  match arns with
  | [] => mret None
  | _ =>
      victim ← choice arns;
      check (ask (CEcsStopTask (cluster_name cfg) victim reason));;
      killed_ns ← ask CTimeNs;
      mret (Some {| kr_service := service; kr_task_arn := victim; kr_killed_ns := killed_ns |})
  end.

Definition kill_leader (leader_service : string) : M S (option KillResult) :=
  stop_random_task leader_service "chaos: leader kill".

Definition kill_follower (non_leader_services : list string) : M S (option KillResult) :=
  match non_leader_services with
  | [] => mret None
  | _ =>
      svc ← choice non_leader_services;
      stop_random_task svc "chaos: follower kill"
  end.

Definition kill_worker : M S (option KillResult) :=
  stop_random_task (worker_service cfg) "chaos: worker kill".

(** A refusal of a receipt handle that is no longer valid. *)
Definition stale_receipt (e : exn) : bool :=
  match exn_cls e with
  | ClientError code => String.eqb code "InvalidParameterValue" || String.eqb code "ReceiptHandleIsInvalid"
  | _ => false
  end.

Definition redeliver_one (queue_url : string) (redelivered : Z) (receipt : string) : M S Z :=
  try_except
    (check (ask (CSqsVisibility queue_url receipt 0));; mret (redelivered + 1))
    (fun e => if stale_receipt e then mret redelivered else raise e).

Definition inject_sqs_redelivery (queue_url : string) (count : Z) : M S Z :=
  msgs ← check (ask (CSqsReceive queue_url (Z.min count 10) 10));
  for_fold msgs (redeliver_one queue_url) 0.
End injector.

(** The services other than the leader's, as the callers of [kill_follower] compute them. *)
Definition followers_of (cfg : BenchConfig) (leader_service : string) : list string :=
  List.filter (fun s => negb (String.eqb s leader_service)) (coordinator_services cfg).

(** ** Abstract view *)

(** The tasks a log stopped, each with the service it was listed under. *)
Definition listing (e : event) : option (string * (exn + list string)) :=
  match e with
  | Ev c r => match c as c' return resp c' -> option (string * (exn + list string)) with
              | CEcsListTasks _ service => fun r => Some (service, r)
              | _ => fun _ => None
              end r
  end.

Fixpoint stopped (current : option (string * list string)) (h : history) : list (string * string * bool) :=
  match h with
  | [] => []
  | e :: h' =>
      match listing e with
      | Some (service, inr arns) => stopped (Some (service, arns)) h'
      | Some (service, inl _) => stopped None h'
      | None =>
          match ev_call e with
          | CEcsStopTask _ task _ =>
              match current with
              | Some (service, arns) => (service, task, bool_decide (task ∈ arns)) :: stopped current h'
              | None => (""%string, task, false) :: stopped current h'
              end
          | _ => stopped current h'
          end
      end
  end.

(** What an attempt on a service leaves: at most one stop, of a running task of
    that service; a result names what was stopped. *)
Definition one_kill (service : string) (r : res (option KillResult)) (l : history) : Prop :=
  match r with
  | Ok (Some k) => kr_service k = service /\ stopped None l = [(service, kr_task_arn k, true)]
  | Ok None => stopped None l = []
  | Raise _ => exists ts, stopped None l = ts /\ (length ts <= 1)%nat /\ forall t, t ∈ ts -> t.1.1 = service /\ t.2 = true
  | NoFuel => False
  end.

(** A log whose stops all follow a listing of its own. *)
Definition guarded (l : history) : Prop :=
  forall c l', exists c', stopped c (l ++ l') = stopped None l ++ stopped c' l'.

Lemma guarded_nil : guarded [].
Proof. intros c l'. by exists c. Qed.

Lemma guarded_stopped c l : guarded l -> stopped c l = stopped None l.
Proof. intros H. destruct (H c []) as [c' Hc]. rewrite app_nil_r in Hc. by rewrite Hc, app_nil_r. Qed.

Lemma guarded_app l1 l2 : guarded l1 -> guarded l2 ->
  guarded (l1 ++ l2) /\ stopped None (l1 ++ l2) = stopped None l1 ++ stopped None l2.
Proof.
  intros G1 G2. assert (E : stopped None (l1 ++ l2) = stopped None l1 ++ stopped None l2).
  { destruct (G1 None l2) as [c ->]. by rewrite (guarded_stopped c l2). }
  split; [|done]. intros c l'. rewrite <- app_assoc, E. destruct (G1 c (l2 ++ l')) as [c1 ->].
  destruct (G2 c1 l') as [c2 ->]. exists c2. by rewrite app_assoc.
Qed.

(** Calls that neither list nor stop tasks. *)
Definition no_fault (c : call) : bool :=
  match c with CEcsListTasks _ _ | CEcsStopTask _ _ _ => false | _ => true end.

Lemma no_fault_stopped c l l' :
  forallb (fun e => no_fault (ev_call e)) l = true -> stopped c (l ++ l') = stopped c l'.
Proof.
  revert c. induction l as [|[cl r] l IH]; intros c; [done|]. cbn [forallb app]. intros [Hc Hl]%andb_true_iff.
  cbn [stopped]. by destruct cl; try discriminate; apply IH.
Qed.

Lemma no_fault_guarded l :
  forallb (fun e => no_fault (ev_call e)) l = true -> guarded l /\ stopped None l = [].
Proof.
  intros H. assert (E : forall c, stopped c l = []).
  { intros c. rewrite <- (app_nil_r l). by apply no_fault_stopped. }
  split; [|apply E]. intros c l'. exists c. by rewrite E, no_fault_stopped.
Qed.

(** Injections only list and stop tasks, choose and read the clock. *)
Definition fault_call (c : call) : bool :=
  match c with CEcsListTasks _ _ | CEcsStopTask _ _ _ | CRandomChoice _ | CTimeNs => true | _ => false end.

Lemma stop_random_task_only `{E : Env} {S} cfg service reason :
  Only fault_call (S := S) (stop_random_task cfg service reason).
Proof. unfold stop_random_task, _running_tasks, choice. only_auto. Qed.

Lemma kill_follower_only `{E : Env} {S} cfg services : Only fault_call (S := S) (kill_follower cfg services).
Proof.
  unfold kill_follower, choice. destruct services; [apply only_ret|].
  apply only_bind; [only_auto|]. intros svc. apply stop_random_task_only.
Qed.

Lemma stop_random_task_run `{E : Env} {S} cfg service reason (s : S) h :
  exists r l, stop_random_task cfg service reason s h = (r, s, h ++ l) /\ one_kill service r l /\ guarded l.
Proof.
  apply (run_of_wp _ (fun r l => one_kill service r l /\ guarded l)). unfold stop_random_task, _running_tasks, choice, of_option. wp_steps.
  destruct (answer h (CEcsListTasks (cluster_name cfg) service)) as [e|arns] eqn:Ea.
  { wp_steps. kept. split; [|by exists None]. exists []. split; [done|]. split; [simpl; lia|]. intros t Ht. inv Ht. }
  destruct arns as [|a arns]; wp_steps; [kept; split; [done|by eexists]|].
  set (i := answer _ (CRandomChoice _)). destruct ((a :: arns) !! i) as [victim|] eqn:Ei; wp_steps.
  - assert (Hin : bool_decide (victim ∈ a :: arns) = true).
    { apply bool_decide_eq_true. by eapply list_elem_of_lookup_2. }
    destruct (answer _ (CEcsStopTask _ _ _)) as [e|[]] eqn:Es; wp_steps.
    + kept. split; [|by eexists]. eexists. split; [done|]. cbn. rewrite Hin. split; [lia|].
      intros t Ht. apply list_elem_of_singleton in Ht as ->. done.
    + kept. split; [|by eexists]. split; [done|]. cbn. by rewrite Hin.
  - kept. split; [|by eexists]. exists []. split; [done|]. split; [simpl; lia|]. intros t Ht. inv Ht.
Qed.

(** ** Properties *)

(** One stop per fault, of the right service.  An injection on a service stops
    at most one task, which ECS listed as running under that service, and
    reports exactly the task it stopped; without running tasks nothing is
    stopped. *)
Theorem stop_random_task_spec `{E : Env} {S} (cfg : BenchConfig) (service reason : string) (s : S) (h : history) :
  exists r l, stop_random_task cfg service reason s h = (r, s, h ++ l) /\ one_kill service r l.
Proof. destruct (stop_random_task_run cfg service reason s h) as (r & l & H & K & _). by exists r, l. Qed.

(** A follower kill spares the leader.  Whatever the random choices, the tasks
    stopped by [kill_follower] on the followers of a leader service all belong to
    one coordinator service that is not the leader's. *)
Theorem kill_follower_spares_leader `{E : Env} {S} (cfg : BenchConfig) (leader : string) (s : S) (h : history) :
  exists r l, kill_follower cfg (followers_of cfg leader) s h = (r, s, h ++ l) /\
    forall t, t ∈ stopped None l -> t.1.1 <> leader /\ t.1.1 ∈ coordinator_services cfg /\ t.2 = true.
Proof.
  apply (run_of_wp _ (fun _ l => forall t, t ∈ stopped None l ->
    t.1.1 <> leader /\ t.1.1 ∈ coordinator_services cfg /\ t.2 = true)).
  assert (Hfol : forall svc, svc ∈ followers_of cfg leader -> svc <> leader /\ svc ∈ coordinator_services cfg).
  { intros svc [Hin Hne]%filter_In_elem. split; [|done]. intros ->. by rewrite String.eqb_refl in Hne. }
  unfold kill_follower, choice, of_option.
  destruct (followers_of cfg leader) as [|f fs]; wp_steps.
  { split; [done|]. exists []. rewrite app_nil_r. split; [done|]. intros t Ht. inv Ht. }
  set (i := answer h _). destruct ((f :: fs) !! i) as [svc|] eqn:Ei; wp_steps.
  - set (h1 := h ++ _). destruct (stop_random_task_run cfg svc "chaos: follower kill" s h1) as (r & l & H & K & _).
    unfold wp. rewrite H. subst h1. kept. apply list_elem_of_lookup_2, Hfol in Ei.
    intros t Ht. cbn [stopped listing ev_call app] in Ht. destruct r as [[k|]|e|]; cbn in K.
    + destruct K as [_ K]. rewrite K in Ht. apply list_elem_of_singleton in Ht as ->. naive_solver.
    + rewrite K in Ht. inv Ht.
    + destruct K as (ts & <- & _ & K). destruct (K t Ht) as [-> Hb]. naive_solver.
    + done.
  - kept. intros t Ht. inv Ht.
Qed.

(** The receipts a log reset, with what SQS answered. *)
Definition reset_answer (e : event) : option (string * (exn + unit)) :=
  match e with
  | Ev c r => match c as c' return resp c' -> option (string * (exn + unit)) with
              | CSqsVisibility _ receipt 0 => fun r => Some (receipt, r)
              | _ => fun _ => None
              end r
  end.

Definition reset_answers (h : history) : list (string * (exn + unit)) := omap reset_answer h.

Definition reset_ok (a : string * (exn + unit)) : bool := match a.2 with inr _ => true | inl _ => false end.
Definition reset_fatal (a : string * (exn + unit)) : bool :=
  match a.2 with inl e => negb (stale_receipt e) | inr _ => false end.

Lemma redeliver_one_run `{E : Env} {S} url n rc (s : S) h :
  (exists m a, redeliver_one url n rc s h = (Ok m, s, h ++ [Ev (CSqsVisibility url rc 0) a]) /\
     m = n + (if reset_ok (rc, a) then 1 else 0) /\ reset_fatal (rc, a) = false) \/
  (exists e, redeliver_one url n rc s h = (Raise e, s, h ++ [Ev (CSqsVisibility url rc 0) (inl e)]) /\
     stale_receipt e = false).
Proof.
  unfold redeliver_one, try_except, check, ask, raise, mbind, M_bind, mret, M_ret.
  destruct (answer h (CSqsVisibility url rc 0)) as [e|[]] eqn:Ea; simpl.
  - destruct (stale_receipt e) eqn:Es; [left|right; by exists e].
    exists n, (inl e). unfold reset_fatal. cbn. rewrite Es. split; [done|]. split; [lia|done].
  - left. by exists (n + 1), (inr tt).
Qed.

Lemma redeliver_run `{E : Env} {S} url n receipts (s : S) h :
  exists r l, for_fold receipts (redeliver_one url) n s h = (r, s, h ++ l) /\
    match r with
    | Ok m => map fst (reset_answers l) = receipts /\ m = n + Z.of_nat (count reset_ok (reset_answers l)) /\
              count reset_fatal (reset_answers l) = O
    | Raise e => exists pre receipt post, receipts = pre ++ receipt :: post /\
              map fst (reset_answers l) = pre ++ [receipt] /\ stale_receipt e = false
    | NoFuel => False
    end.
Proof.
  revert n h. induction receipts as [|rc receipts IH]; intros n h; cbn [for_fold].
  - exists (Ok n), []. rewrite app_nil_r. split; [done|]. cbn. split; [done|]. split; [lia|done].
  - assert (Hone : forall a l, reset_answers (Ev (CSqsVisibility url rc 0) a :: l) = (rc, a) :: reset_answers l) by done.
    destruct (redeliver_one_run url n rc s h) as [(m & a & H & Hm & Hfat)|(e & H & He)].
    + destruct (IH m (h ++ [Ev (CSqsVisibility url rc 0) a])) as (r & l & H' & K).
      unfold mbind, M_bind. rewrite H, H'. eexists r, (_ :: l). split; [by rewrite <- app_assoc|].
      rewrite Hone. cbn [map fst]. destruct r as [z|e|]; [| |done].
      * destruct K as (-> & -> & Hf). rewrite !count_cons, Hfat, Hf. split; [done|]. split; [|done].
        rewrite Hm. destruct (reset_ok (rc, a)); lia.
      * destruct K as (pre & rc' & post & -> & -> & Hs). by exists (rc :: pre), rc', post.
    + unfold mbind, M_bind. rewrite H. eexists _, _. split; [done|]. by exists [], rc, receipts.
Qed.

(** Forced redelivery counts what it forced.  At most ten messages are
    received; when the injection returns, every received message was reset once,
    in order, the result is the number of resets SQS accepted, and the refused
    ones were stale receipts; any other refusal stops it with that exception. *)
Theorem sqs_redelivery_spec `{E : Env} {S} (url : string) (count_ : Z) (s : S) (h : history) :
  let receive := CSqsReceive url (Z.min count_ 10) 10 in
  match answer h receive with
  | inl e => inject_sqs_redelivery url count_ s h = (Raise e, s, h ++ [Ev receive (inl e)])
  | inr receipts =>
      exists r l, inject_sqs_redelivery url count_ s h = (r, s, (h ++ [Ev receive (inr receipts)]) ++ l) /\
      match r with
      | Ok m => map fst (reset_answers l) = receipts /\ m = Z.of_nat (count reset_ok (reset_answers l)) /\
                count reset_fatal (reset_answers l) = O
      | Raise e => exists pre receipt post, receipts = pre ++ receipt :: post /\
                map fst (reset_answers l) = pre ++ [receipt] /\ stale_receipt e = false
      | NoFuel => False
      end
  end.
Proof.
  intros receive. unfold inject_sqs_redelivery, check, ask, mbind, M_bind. fold receive.
  destruct (answer h receive) as [e|receipts]; [done|]. cbn.
  destruct (redeliver_run url 0 receipts s (h ++ [Ev receive (inr receipts)])) as (r & l & H & K).
  exists r, l. by rewrite H.
Qed.
