(* ===== verification/Ledger.v ===== *)
(** * Ledger: fault-injection loops and the records they leave
    (the kill loops of chaos-bench/exp1.py and exp3.py)

    A fault loop makes an attempt per period: detect the leader, stop a task,
    record the outcome.  [led] says that a log is that of such a loop: waits and
    attempts, each of which detects the leader and acts on what it detected.  What
    such a log adds up to ([led_totals]): the records are those of the attempts, in
    order, and the tasks stopped are exactly theirs. *)

From stdpp Require Import base list strings.
From Stdlib Require Import ZArith.
From S2P Require Import Prelude PyFloat PyStr PyDict Json Runtime History BenchConfig LeaderDetect Faults.

Local Open Scope driftless_scope.

(** A loop that makes an attempt, then waits for the next period or the stop report. *)
Definition periodic_turn `{Env} {S} (attempt : M S unit) (period_s : float) (_ : unit) : M S (unit + unit) :=
  stop ← ask CEventIsSet;
  if (stop : bool) then mret (inr tt)
  else
    attempt;;
    stop ← ask (CEventWait period_s);
    if (stop : bool) then mret (inr tt) else mret (inl tt).

Definition periodic_loop `{Env} {S} (fuel : nat) (attempt : M S unit) (offset_s period_s : float) : M S unit :=
  stop ← ask (CEventWait offset_s);
  if (stop : bool) then mret tt
  else while_loop fuel (periodic_turn attempt period_s) tt.

(** ** Attempts *)

(** A stopped task: its service, its name, whether ECS had listed it there. *)
Abbreviation stop := (string * string * bool)%type.

Inductive attempt : Type :=
| NoLeader
| NoTask (info : LeaderInfo)
| Killed (info : LeaderInfo) (k : KillResult)
| Failed (e : exn) (stops : list stop).

Definition kill_stop (k : KillResult) : stop := (kr_service k, kr_task_arn k, true).

Definition attempt_stops (a : attempt) : list stop :=
  match a with
  | Killed _ k => [kill_stop k]
  | Failed _ stops => stops
  | _ => []
  end.

(** Stops an exception kept from being recorded as a kill: one at most. *)
Definition at_most_one (extra : list stop) : Prop := (length extra <= 1)%nat /\ forall t, t ∈ extra -> t.2 = true.

Lemma at_most_one_nil : at_most_one [].
Proof. split; [simpl; lia|]. intros t Ht. inv Ht. Qed.

(** What an injection does when it is asked to kill for [info]; [target] tells the
    services it may hit. *)
Definition injects (target : LeaderInfo -> string -> Prop) (info : LeaderInfo) (r : res (option KillResult)) (l : history) : Prop :=
  match r with
  | Ok (Some k) => target info (kr_service k) /\ stopped None l = [kill_stop k]
  | Ok None => stopped None l = []
  | Raise _ => at_most_one (stopped None l) /\ forall t, t ∈ stopped None l -> target info t.1.1
  | NoFuel => False
  end.

(** Calls of a loop between its attempts. *)
Definition idle (c : call) : bool := match c with CEventIsSet | CEventWait _ => true | _ => false end.

Section ledger.
Context `{E : Env} {S : Type} (cfg : BenchConfig).
(** How an attempt is recorded, whether exceptions are, and whom it may hit. *)
Context (report : attempt -> fields) (catches : bool) (target : LeaderInfo -> string -> Prop).

(** The stops of an attempt that an exception cut short, [d] being what the detection
    of the leader gave: none without a leader, else one at most, of its target. *)
Definition cut_short (d : res (option LeaderInfo)) (stops : list stop) : Prop :=
  ((exists e, d = Raise e) /\ stops = []) \/
  exists info, d = Ok (Some info) /\ at_most_one stops /\ forall t, t ∈ stops -> target info t.1.1.

(** An attempt is the one its detection asks for. *)
Definition sound (d : res (option LeaderInfo)) (a : attempt) : Prop :=
  match a with
  | NoLeader => d = Ok None
  | NoTask info => d = Ok (Some info)
  | Killed info k => d = Ok (Some info) /\ target info (kr_service k)
  | Failed _ stops => catches = true /\ cut_short d stops
  end.

(** The log of an injection that stopped [stops]. *)
Definition injection (l : history) (stops : list stop) : Prop :=
  forallb (fun e => fault_call (ev_call e)) l = true /\ guarded l /\ stopped None l = stops.

(** The log of a loop that starts at [h]: waits, and attempts.  An attempt detects
    the leader, acts on what it detected there and then, and ends in its record; an
    exception may break the last one off. *)
Inductive led (s : S) : history -> list attempt -> list stop -> history -> Prop :=
| led_idle h l : forallb (fun e => idle (ev_call e)) l = true -> led s h [] [] l
| led_attempt h l1 l2 d a wall :
    find_leader cfg s h = (d, s, h ++ l1) -> sound d a -> injection l2 (attempt_stops a) ->
    led s h [a] [] (l1 ++ l2 ++ [Ev CTimeNs wall; Ev (CWrite (line_text (stamped (report a) wall))) tt])
| led_broken h l1 l2 d stops :
    find_leader cfg s h = (d, s, h ++ l1) -> cut_short d stops -> injection l2 stops -> led s h [] stops (l1 ++ l2)
| led_app h l1 l2 a1 a2 extra :
    led s h a1 [] l1 -> led s (h ++ l1) a2 extra l2 -> led s h (a1 ++ a2) extra (l1 ++ l2).

Lemma find_leader_quiet (s : S) h d l :
  find_leader cfg s h = (d, s, h ++ l) -> guarded l /\ stopped None l = [] /\ texts l = [].
Proof.
  intros H. pose proof (only_at _ _ _ _ _ _ _ (find_leader_only cfg) H) as Hl.
  destruct (no_fault_guarded l) as [G N]; [eapply calls_weaken; [|exact Hl]; by intros []|].
  split; [done|]. split; [done|]. apply no_write_texts. eapply calls_weaken; [|exact Hl]. by intros [].
Qed.

Lemma cut_short_one d stops : cut_short d stops -> at_most_one stops.
Proof. intros [[_ ->]|(info & _ & H & _)]; [apply at_most_one_nil|done]. Qed.

(** What a log of attempts adds up to: the stops are theirs, the records too. *)
Lemma led_totals (s : S) h atts extra l :
  led s h atts extra l ->
  guarded l /\ stopped None l = concat (map attempt_stops atts) ++ extra /\ at_most_one extra /\
  exists walls, length walls = length atts /\ texts l = map line_text (zip_with stamped (map report atts) walls).
Proof.
  induction 1 as [h l Hl|h l1 l2 d a wall Hd Ha (Hc & G2 & S2)|h l1 l2 d stops Hd Hx (Hc & G2 & S2)
    |h l1 l2 a1 a2 extra _ (G1 & S1 & _ & w1 & L1 & T1) _ (G2 & S2 & X2 & w2 & L2 & T2)].
  - destruct (no_fault_guarded l) as [G N]; [eapply calls_weaken; [|exact Hl]; by intros []|].
    split; [done|]. split; [done|]. split; [apply at_most_one_nil|]. exists []. split; [done|].
    apply no_write_texts. eapply calls_weaken; [|exact Hl]. by intros [].
  - destruct (find_leader_quiet _ _ _ _ Hd) as (G1 & S1 & T1). set (lr := [_; _]).
    assert (T2 : texts l2 = []) by (apply no_write_texts; eapply calls_weaken; [|exact Hc]; by intros []).
    destruct (no_fault_guarded lr eq_refl) as [Gr Sr]. destruct (guarded_app _ _ G2 Gr) as [G3 S3]. destruct (guarded_app _ _ G1 G3) as [G4 S4].
    split; [done|]. split; [rewrite S4, S3, S1, S2, Sr; cbn [concat map app]; by rewrite !app_nil_r|]. split; [apply at_most_one_nil|].
    exists [wall]. split; [done|]. by rewrite !texts_app, T1, T2.
  - destruct (find_leader_quiet _ _ _ _ Hd) as (G1 & S1 & T1).
    assert (T2 : texts l2 = []) by (apply no_write_texts; eapply calls_weaken; [|exact Hc]; by intros []).
    destruct (guarded_app _ _ G1 G2) as [G3 S3]. split; [done|]. split; [by rewrite S3, S1, S2|]. split; [by eapply cut_short_one|].
    exists []. split; [done|]. by rewrite texts_app, T1, T2.
  - destruct (guarded_app l1 l2 G1 G2) as [G E']. split; [done|].
    split; [by rewrite E', S1, S2, app_nil_r, map_app, concat_app, app_assoc|]. split; [done|].
    exists (w1 ++ w2). rewrite !length_app, L1, L2. split; [done|].
    by rewrite texts_app, T1, T2, map_app, zip_with_app, map_app by (rewrite length_map; lia).
Qed.

(** ** Accounts along a run *)

Definition accounted {A} (r : res A) (s s' : S) (h h' : history) : Prop :=
  s' = s /\ exists l atts extra, h' = h ++ l /\ led s h atts extra l /\
    match r with Raise _ => True | _ => extra = [] end.

Lemma accounted_nil {A} (r : res A) (s : S) h : accounted r s s h h.
Proof. split; [done|]. exists [], [], []. rewrite app_nil_r. split; [done|]. split; [by apply led_idle|by destruct r]. Qed.

Lemma accounted_trans {A B} (v : A) (r : res B) (s s1 s2 : S) h h1 h2 :
  accounted (Ok v) s s1 h h1 -> accounted r s1 s2 h1 h2 -> accounted r s s2 h h2.
Proof.
  intros (-> & l1 & a1 & x1 & -> & A1 & E1) (-> & l2 & a2 & x2 & -> & A2 & E2). cbn in E1. subst x1.
  split; [done|]. exists (l1 ++ l2), (a1 ++ a2), x2. rewrite app_assoc. split; [done|]. split; [by apply led_app|done].
Qed.

Definition accountable {A} (m : M S A) : Prop := forall s h, wp m (fun r s' h' => accounted r s s' h h') s h.

Lemma accountable_ret {A} (a : A) : accountable (mret a).
Proof. intros s h. apply accounted_nil. Qed.

Lemma accountable_idle {A} (m : M S A) : Only idle m -> accountable m.
Proof.
  intros Hm s h. destruct (Hm s h) as (r & l & H & Hl). unfold wp. rewrite H. split; [done|]. exists l, [], [].
  split; [done|]. split; [by apply led_idle|by destruct r].
Qed.

Lemma accountable_bind {A B} (m : M S A) (f : A -> M S B) :
  accountable m -> (forall v, accountable (f v)) -> accountable (m ≫= f).
Proof.
  intros Hm Hf s h. apply wp_bind. eapply wp_mono; [|apply Hm]. intros [v|e|] s' h' H; simpl.
  - eapply wp_mono; [|apply Hf]. intros r s2 h2. by apply accounted_trans with v.
  - destruct H as (-> & l & a & x & -> & ? & ?). split; [done|]. by exists l, a, x.
  - destruct H as (-> & l & a & x & -> & ? & ?). split; [done|]. by exists l, a, x.
Qed.

Lemma accountable_while {A B} fuel (body : A -> M S (A + B)) a :
  (forall a, accountable (body a)) -> accountable (while_loop fuel body a).
Proof.
  intros Hb. revert a. induction fuel as [|n IH]; intros a; cbn [while_loop]; [intros s h; apply accounted_nil|].
  apply accountable_bind; [done|]. intros [a'|b]; [done|apply accountable_ret].
Qed.

Lemma periodic_loop_accountable fuel (att : M S unit) offset_s period_s :
  accountable att -> accountable (periodic_loop fuel att offset_s period_s).
Proof.
  intros Hatt. unfold periodic_loop. apply accountable_bind; [apply accountable_idle; only_auto|]. intros [].
  { apply accountable_ret. }
  apply accountable_while. intros []. unfold periodic_turn. apply accountable_bind; [apply accountable_idle; only_auto|].
  intros []; [apply accountable_ret|]. apply accountable_bind; [done|]. intros []. apply accountable_idle. only_auto.
Qed.

(** ** Attempts of the loops *)

Context (inject : LeaderInfo -> M S (option KillResult)).
Context (inject_only : forall info, Only fault_call (inject info)).
Context (inject_run : forall info s h, wp (inject info) (fun r _ h' => exists l, h' = h ++ l /\ guarded l /\ injects target info r l) s h).

Definition leader_attempt : M S unit :=
  info ← find_leader cfg;
  match info with
  | None => record (report NoLeader)
  | Some info =>
      res ← inject info;
      match res with
      | None => record (report (NoTask info))
      | Some k => record (report (Killed info k))
      end
  end.

(** The log of one attempt: recorded, or broken off by an exception. *)
Definition broken (s : S) (h l : history) : Prop :=
  exists l1 l2 d stops, l = l1 ++ l2 /\ find_leader cfg s h = (d, s, h ++ l1) /\ cut_short d stops /\ injection l2 stops.

Lemma leader_attempt_run (s : S) h :
  exists r l, leader_attempt s h = (r, s, h ++ l) /\
    match r with
    | Ok _ => exists a, led s h [a] [] l
    | Raise _ => broken s h l
    | NoFuel => False
    end.
Proof using inject_only inject_run.
  unfold leader_attempt, mbind, M_bind. pose proof (find_leader_total cfg s h) as Hnf.
  destruct (find_leader_only cfg s h) as (r & l & H & Hl). rewrite H in Hnf |- *.
  assert (I0 : injection [] []) by (split; [done|]; split; [apply guarded_nil|done]).
  destruct r as [[info|]|e|]; [| | |done].
  2: { rewrite record_run. eexists _, _. split; [by rewrite <- app_assoc|]. exists NoLeader. by apply (led_attempt s h l [] (Ok None)). }
  2: { eexists _, _. split; [done|]. exists l, [], (Raise e), []. rewrite app_nil_r. split; [done|]. split; [done|]. split; [|done].
       left. split; [by exists e|done]. }
  destruct (inject_only info s (h ++ l)) as (r & l2 & H2 & Ho). pose proof (inject_run info s (h ++ l)) as K. unfold wp in K.
  rewrite H2 in K |- *. destruct K as (l3 & E3 & G & K). apply app_inv_head in E3 as <-.
  destruct r as [[k|]|e|]; cbn in K; [| | |done].
  - destruct K as [Ht Hst]. rewrite record_run. eexists _, _. split; [by rewrite <- !app_assoc|]. exists (Killed info k).
    by apply (led_attempt s h l l2 (Ok (Some info))).
  - rewrite record_run. eexists _, _. split; [by rewrite <- !app_assoc|]. exists (NoTask info).
    by apply (led_attempt s h l l2 (Ok (Some info))).
  - destruct K as [Hx Hst]. eexists _, _. split; [by rewrite <- app_assoc|]. exists l, l2, (Ok (Some info)), (stopped None l2).
    split; [done|]. split; [done|]. split; [|done]. right. by exists info.
Qed.

Lemma leader_attempt_accountable : accountable leader_attempt.
Proof using inject_only inject_run.
  intros s h. destruct (leader_attempt_run s h) as (r & l & H & K). unfold wp. rewrite H. split; [done|].
  destruct r as [v|e|]; [| |done].
  - destruct K as [a Ha]. by exists l, [a], [].
  - destruct K as (l1 & l2 & d & stops & -> & Hd & Hc & Hi). exists (l1 ++ l2), [], stops. split; [done|]. split; [|done].
    by eapply led_broken.
Qed.

(** An attempt whose exceptions are recorded. *)
Definition guarded_attempt (on_error : exn -> fields) : M S unit :=
  try_except leader_attempt (fun e => record (on_error e)).

Lemma guarded_attempt_accountable on_error :
  catches = true -> (forall e stops, report (Failed e stops) = on_error e) -> accountable (guarded_attempt on_error).
Proof using inject_only inject_run.
  intros Hc He s h. destruct (leader_attempt_run s h) as (r & l & H & K). unfold wp, guarded_attempt, try_except. rewrite H.
  destruct r as [v|e|]; [| |done].
  - split; [done|]. destruct K as [a Ha]. by exists l, [a], [].
  - destruct K as (l1 & l2 & d & stops & -> & Hd & Hx & Hi). rewrite record_run, <- (He e stops). split; [done|].
    eexists _, [Failed e stops], []. rewrite <- app_assoc. split; [done|]. split; [|done]. rewrite <- app_assoc.
    eapply led_attempt; [exact Hd|by split|done].
Qed.

Lemma guarded_attempt_ok on_error (s : S) h : exists s' h', guarded_attempt on_error s h = (Ok tt, s', h').
Proof using catches target inject_only inject_run.
  destruct (leader_attempt_run s h) as (r & l & H & K). unfold guarded_attempt, try_except. rewrite H.
  destruct r as [[]|e|]; [by eexists _, _| |done]. rewrite record_run. by eexists _, _.
Qed.
End ledger.

(** ** The injections *)

(** The service of the leader; a coordinator service other than the leader's. *)
Definition on_leader (info : LeaderInfo) (service : string) : Prop := service = li_ecs_service info.

Lemma kill_leader_injects `{E : Env} {S} cfg info (s : S) h :
  wp (kill_leader cfg (li_ecs_service info)) (fun r _ h' => exists l, h' = h ++ l /\ guarded l /\ injects on_leader info r l) s h.
Proof.
  destruct (stop_random_task_run cfg (li_ecs_service info) "chaos: leader kill" s h) as (r & l & H & K & G).
  unfold wp, kill_leader. rewrite H. exists l. split; [done|]. split; [done|]. destruct r as [[k|]|e|]; cbn in *; [|done| |done].
  - destruct K as [Hs Hst]. unfold on_leader, kill_stop. by rewrite Hst, Hs.
  - destruct K as (ts & -> & Hn & Ht). split; [split; [done|]; intros t Hin; by apply Ht|]. intros t Hin. by apply Ht.
Qed.

Definition on_follower (cfg : BenchConfig) (info : LeaderInfo) (service : string) : Prop :=
  service <> li_ecs_service info /\ service ∈ coordinator_services cfg.

Lemma kill_follower_injects `{E : Env} {S} cfg info (s : S) h :
  wp (kill_follower cfg (followers_of cfg (li_ecs_service info)))
    (fun r _ h' => exists l, h' = h ++ l /\ guarded l /\ injects (on_follower cfg) info r l) s h.
Proof.
  assert (Hfol : forall svc, svc ∈ followers_of cfg (li_ecs_service info) ->
    svc <> li_ecs_service info /\ svc ∈ coordinator_services cfg).
  { intros svc [Hin Hne]%filter_In_elem. split; [|done]. intros ->. by rewrite String.eqb_refl in Hne. }
  unfold kill_follower, choice, of_option. destruct (followers_of cfg _) as [|f fs]; wp_steps.
  { exists []. rewrite app_nil_r. split; [done|]. split; [apply guarded_nil|done]. }
  set (i := answer h _). assert (G0 : guarded [Ev (CRandomChoice (length (f :: fs))) i]) by (by apply no_fault_guarded).
  destruct ((f :: fs) !! i) as [svc|] eqn:Ei; wp_steps.
  - set (h1 := h ++ _). destruct (stop_random_task_run cfg svc "chaos: follower kill" s h1) as (r & l & H & K & G).
    unfold wp. rewrite H. eexists. subst h1. rewrite <- app_assoc. split; [done|]. destruct (guarded_app _ _ G0 G) as [G1 _].
    split; [done|]. apply list_elem_of_lookup_2, Hfol in Ei.
    destruct r as [[k|]|e|]; cbn in K |- *; [| | |done].
    + destruct K as [Hs Hst]. rewrite Hst. unfold on_follower, kill_stop. by rewrite Hs.
    + by rewrite K.
    + destruct K as (ts & Hts & Hn & Ht). rewrite Hts. split; [split; [done|]; intros t Hin; by apply Ht|].
      intros t Hin. destruct (Ht t Hin) as [-> _]. done.
  - eexists. split; [done|]. split; [done|]. split; [apply at_most_one_nil|]. intros t Hin. inv Hin.
Qed.

(** ** Loops that record their exceptions *)

(** The loop never raises; it waits and makes attempts, each aimed at what its own
    detection found; and all it did is on record. *)
Definition on_record `{E : Env} {S} (cfg : BenchConfig) (report : attempt -> fields) (target : LeaderInfo -> string -> Prop) (m : M S unit) : Prop :=
  forall s h, exists r l atts walls, m s h = (r, s, h ++ l) /\ (r = Ok tt \/ r = NoFuel) /\
    led cfg report true target s h atts [] l /\
    length walls = length atts /\ texts l = map line_text (zip_with stamped (map report atts) walls) /\
    stopped None l = concat (map attempt_stops atts).

Lemma periodic_loop_keeps_going `{E : Env} {S} fuel (att : M S unit) offset_s period_s (s : S) h :
  (forall s h, exists s' h', att s h = (Ok tt, s', h')) ->
  exists r s' h', periodic_loop fuel att offset_s period_s s h = (r, s', h') /\ (r = Ok tt \/ r = NoFuel).
Proof.
  intros Hatt. unfold periodic_loop, mbind at 1, M_bind at 1, ask at 1. destruct (answer h (CEventWait offset_s));
    [by eexists _, _, _; split; [|left]|]. generalize (h ++ [Ev (CEventWait offset_s) false]). clear h. revert s.
  induction fuel as [|n IH]; intros s h; cbn [while_loop]; [by eexists _, _, _; split; [|right]|].
  assert (Hturn : exists r s' h', periodic_turn att period_s tt s h = (Ok r, s', h')).
  { unfold periodic_turn, mbind, M_bind, ask. destruct (answer h CEventIsSet); [by eexists _, _, _|].
    destruct (Hatt s (h ++ [Ev CEventIsSet false])) as (s' & h' & ->).
    destruct (answer h' (CEventWait period_s)); by eexists _, _, _. }
  destruct Hturn as (r & s' & h' & H). unfold mbind, M_bind. rewrite H.
  destruct r as [[]|[]]; [apply IH|by eexists _, _, _; split; [|left]].
Qed.

Lemma periodic_on_record `{E : Env} {S} cfg fuel report target (att : M S unit) offset_s period_s :
  accountable cfg report true target att -> (forall s h, exists s' h', att s h = (Ok tt, s', h')) ->
  on_record cfg report target (periodic_loop fuel att offset_s period_s).
Proof.
  intros Ha Hk s h. destruct (periodic_loop_keeps_going fuel att offset_s period_s s h Hk) as (r & s' & h' & H & Hr).
  pose proof (periodic_loop_accountable cfg report true target fuel att offset_s period_s Ha s h) as K. unfold wp in K. rewrite H in K.
  destruct K as (-> & l & atts & extra & -> & Hled & Hx). assert (extra = []) as -> by (by destruct Hr as [-> | ->]).
  destruct (led_totals cfg report true target s h atts [] l Hled) as (_ & Hs & _ & walls & Hw & Ht).
  exists r, l, atts, walls. rewrite app_nil_r in Hs. done.
Qed.
