(* ===== verification/Submitter.v ===== *)
(** * Submitter: task submission and status (chaos-bench/submitter.py)

    A submission stores the payload in S3, writes the task's row and announces the
    task on the ingest queue, in this order. *)

From stdpp Require Import base gmap list strings.
From Stdlib Require Import ZArith.
From S2P Require Import Prelude PyFloat PyStr PyDict Json Runtime BenchConfig.

Local Open Scope Z_scope.
Local Open Scope driftless_scope.

Record SubmitResult : Type := mkSubmitResult { sr_task_id : string; sr_submitted_ns : Z }.

Definition payload_key (task_id : string) : string := "tasks/" ^^ task_id ^^ "/payload".

(** The row of a submitted task. *)
Definition task_item (task_id key now : string) (priority : Z) : item :=
  {[ "task_id"%string := AS task_id; "status"%string := AS "PENDING"%string;
     "priority"%string := AN (str_of_Z priority); "s3_key"%string := AS key;
     "created_at"%string := AS now; "updated_at"%string := AS now ]}.

(** The message of a submitted task. *)
Definition message_body (task_id : string) (priority : Z) : string :=
  "{" ^^ char quote ^^ "task_id" ^^ char quote ^^ ":" ^^ char quote ^^ task_id ^^ char quote ^^ "," ^^
  char quote ^^ "priority" ^^ char quote ^^ ":" ^^ str_of_Z priority ^^ "}".

Definition submit `{Env} {S} (cfg : BenchConfig) (payload : string) (priority : Z) : M S SubmitResult :=
  task_id ← ask CUuid4;
  let key := payload_key task_id in
  now ← ask (CStrftime "%Y-%m-%dT%H:%M:%SZ");
  check (ask (CS3Put (payload_bucket cfg) key payload));;
  check (ask (CDdbPutItem (tasks_table cfg) (task_item task_id key now priority)));;
  check (ask (CSqsSend (ingest_queue_url cfg) (message_body task_id priority)));;
  ns ← ask CTimeNs;
  mret {| sr_task_id := task_id; sr_submitted_ns := ns |}.

Definition poll_status `{Env} {S} (cfg : BenchConfig) (task_id : string) : M S (option string) :=
  resp ← check (ask (CDdbGetItem (tasks_table cfg) "task_id" task_id));
  match resp with
  | None => mret None
  | Some it => if bool_decide (it = ∅) then mret None else mret (get_S it "status")
  end.

(** ** Abstract view: the effects of a submission *)

(** A successful write: the payload, the row, the message. *)
Inductive effect : Type :=
| Stored (bucket key body : string)
| Row (table : string) (it : item)
| Sent (url body : string).

Definition effect_of (e : event) : option effect :=
  match e with
  | Ev c r => match c as c' return resp c' -> option effect with
              | CS3Put b k body => fun r => match r with inr _ => Some (Stored b k body) | inl _ => None end
              | CDdbPutItem t it => fun r => match r with inr _ => Some (Row t it) | inl _ => None end
              | CSqsSend url body => fun r => match r with inr _ => Some (Sent url body) | inl _ => None end
              | _ => fun _ => None
              end r
  end.

Definition effects (h : history) : list effect := omap effect_of h.

Definition submit_effects (cfg : BenchConfig) (payload : string) (priority : Z) (id now : string) : list effect :=
  [Stored (payload_bucket cfg) (payload_key id) payload;
   Row (tasks_table cfg) (task_item id (payload_key id) now priority);
   Sent (ingest_queue_url cfg) (message_body id priority)].

(** ** Properties *)

(** A task is announced only when it is complete.  The effects of a submission
    are a prefix of: payload stored, row written, message sent, all under one
    task id; the submission returns that id exactly when all three took place,
    and raises otherwise. *)
Theorem submit_in_order `{E : Env} {S} (cfg : BenchConfig) (payload : string) (priority : Z) (s : S) (h : history) :
  exists r l, submit cfg payload priority s h = (r, s, h ++ l) /\
    exists id now n, effects l = take n (submit_effects cfg payload priority id now) /\
      match r with
      | Ok res => sr_task_id res = id /\ n = 3%nat
      | Raise _ => (n < 3)%nat
      | NoFuel => False
      end.
Proof.
  apply run_of_wp. unfold submit. wp_steps. set (id := answer h CUuid4). set (now := answer _ (CStrftime _)).
  destruct (answer _ (CS3Put _ _ _)) as [e|[]]; wp_steps;
    [|destruct (answer _ (CDdbPutItem _ _)) as [e|[]]; wp_steps;
      [|destruct (answer _ (CSqsSend _ _)) as [e|[]]; wp_steps]].
  - kept. exists id, now, 0%nat. split; [done|lia].
  - kept. exists id, now, 1%nat. split; [done|lia].
  - kept. exists id, now, 2%nat. split; [done|lia].
  - kept. exists id, now, 3%nat. done.
Qed.
