(* ===== verification/Bench.v ===== *)
(** * Bench: workload runs (chaos-bench/bench.py)

    [_poll_to_completion] follows one task to its terminal record; [run_bench]
    hands submissions to a thread pool at a target rate.  Work handed to a pool
    is a [CSpawn] call; the job itself ([do_submit], [_poll_to_completion]) is a
    method of its own. *)

From stdpp Require Import base gmap list strings.
From Stdlib Require Import ZArith QArith.QArith_base Lqa.
From S2P Require Import Prelude PyFloat PyStr PyDict Json Runtime History BenchConfig Submitter.

Local Open Scope Z_scope.
Local Open Scope driftless_scope.

Record RunParams : Type := mkRunParams {
  rate_per_min : float;
  duration_s : float;
  payload_bytes : Z;
  priority : Z;
  poll_interval_s : float;
  completion_timeout_s : float;
}.

Definition is_terminal (status : string) : bool :=
  String.eqb status "COMPLETED" || String.eqb status "FAILED".

Definition complete_event (task_id : string) (submitted_ns completed_ns : Z) (status : string) : fields :=
  [("op", JStr "complete"); ("task_id", JStr task_id); ("submitted_ns", JInt submitted_ns);
   ("completed_ns", JInt completed_ns); ("status", JStr status)]%string.

Definition timeout_event (task_id : string) (submitted_ns completed_ns : Z) : fields :=
  [("op", JStr "timeout"); ("task_id", JStr task_id); ("submitted_ns", JInt submitted_ns);
   ("completed_ns", JInt completed_ns); ("status", JStr "TIMEOUT")]%string.

Definition submit_event (task_id : string) (submitted_ns : Z) : fields :=
  [("op", JStr "submit"); ("task_id", JStr task_id); ("submitted_ns", JInt submitted_ns)]%string.

(** One turn of the polling loop: [true] when the task is done. *)
Definition poll_turn `{Env} {S} (cfg : BenchConfig) (task_id : string) (submitted_ns : Z)
    (deadline poll_s : float) (_ : unit) : M S (unit + bool) :=
  now ← ask CTime;
  if flt now deadline then
    status ← poll_status cfg task_id;
    match status with
    | Some st =>
        if is_terminal st then
          completed_ns ← ask CTimeNs;
          record (complete_event task_id submitted_ns completed_ns st);;
          mret (inr true)
        else sleep poll_s;; mret (inl tt)
    | None => sleep poll_s;; mret (inl tt)
    end
  else mret (inr false).

Definition _poll_to_completion `{Env} {S} (fuel : nat) (cfg : BenchConfig) (task_id : string)
    (submitted_ns : Z) (timeout_s poll_s : float) : M S unit :=
  t0 ← ask CTime;
  let deadline := fadd t0 timeout_s in
  fin ← while_loop fuel (poll_turn cfg task_id submitted_ns deadline poll_s) tt;
  if (fin : bool) then mret tt
  else
    completed_ns ← ask CTimeNs;
    record (timeout_event task_id submitted_ns completed_ns).

(** The inner function [do_submit]. *)
Definition do_submit `{Env} {S} (cfg : BenchConfig) (params : RunParams) : M S unit :=
  let payload := repeat_str (Z.to_nat (payload_bytes params)) "x" in
  r ← submit cfg payload (priority params);
  record (submit_event (sr_task_id r) (sr_submitted_ns r));;
  spawn (JPoll (sr_task_id r) (sr_submitted_ns r)).

(** [60.0 / rate if rate > 0 else 0.0]. *)
Definition submit_interval (params : RunParams) : float :=
  if flt (Fin (0 # 1)) (rate_per_min params)
  then default NaN (fdiv (Fin (60 # 1)) (rate_per_min params)) else Fin (0 # 1).

(** One turn of the submission loop; the local variable is [next_submit]. *)
Definition bench_turn `{Env} {S} (params : RunParams) (t0 next_submit : float) : M S (float + unit) :=
  now ← ask CTime;
  if flt (fsub now t0) (duration_s params) then
    spawn JSubmit;;
    let next_submit := fadd next_submit (submit_interval params) in
    now ← ask CTime;
    let sleep_s := fsub next_submit now in
    (if flt (Fin (0 # 1)) sleep_s then sleep sleep_s else mret tt);;
    mret (inl next_submit)
  else mret (inr tt).

(** [params.__dict__]. *)
Definition params_json (p : RunParams) : json :=
  JObj [("rate_per_min", JFloat (rate_per_min p)); ("duration_s", JFloat (duration_s p));
        ("payload_bytes", JInt (payload_bytes p)); ("priority", JInt (priority p));
        ("poll_interval_s", JFloat (poll_interval_s p)); ("completion_timeout_s", JFloat (completion_timeout_s p))]%string.

(** [run_bench], without the opening and closing of the file. *)
Definition run_bench `{Env} {S} (fuel : nat) (cfg : BenchConfig) (params : RunParams) (run_name : string) : M S string :=
  let run_dir := path_join (history_dir cfg) run_name in
  let history_path := path_join run_dir "history.jsonl" in
  record [("op", JStr "run_start"); ("params", params_json params)]%string;;
  t0 ← ask CTime;
  while_loop fuel (bench_turn params t0) t0;;
  join_threads;;
  join_threads;;
  record [("op", JStr "run_end")]%string;;
  mret history_path.

(** ** The polling of one task *)

Definition time_clock (E : Env) : history -> float := fun h => answer h CTime.

(** The terminal records of a task. *)
Definition terminal_event (task_id : string) (submitted_ns : Z) (ev : fields) : Prop :=
  exists ns, (exists st, is_terminal st = true /\ ev = complete_event task_id submitted_ns ns st) \/
             ev = timeout_event task_id submitted_ns ns.

(** Whether DynamoDB showed a terminal status. *)
Definition terminal_shown (e : event) : bool :=
  match e with
  | Ev c r => match c as c' return resp c' -> bool with
              | CDdbGetItem _ _ _ => fun r =>
                  match r with inr (Some it) => match get_S it "status" with Some st => is_terminal st | None => false end
                  | _ => false end
              | _ => fun _ => false
              end r
  end.
Definition terminal_seen (l : history) : bool := existsb terminal_shown l.

Lemma terminal_seen_app l1 l2 : terminal_seen (l1 ++ l2) = terminal_seen l1 || terminal_seen l2.
Proof. apply existsb_app. Qed.

Lemma poll_status_run `{E : Env} {S} cfg task_id (s : S) h :
  exists r l, poll_status cfg task_id s h = (r, s, h ++ l) /\ texts l = [] /\ (forall d, pauses d l = O) /\ r <> NoFuel /\
    terminal_seen l = match r with Ok (Some st) => is_terminal st | _ => false end.
Proof.
  apply (run_of_wp _ (fun r l => texts l = [] /\ (forall d, pauses d l = O) /\ r <> NoFuel /\
    terminal_seen l = match r with Ok (Some st) => is_terminal st | _ => false end)).
  unfold poll_status. wp_steps. destruct (answer _ (CDdbGetItem _ _ _)) as [e|[it|]]; wp_steps; [by kept| |by kept].
  case_bool_decide as Hit; wp_steps; kept; (split; [done|]); (split; [done|]); (split; [done|]); cbn; rewrite orb_false_r; [by subst|].
  by destruct (get_S it "status").
Qed.

(** A turn: a pause, the terminal record of the task, or the end of the wait. *)
Definition poll_outcome {S} (E : Env) (task_id : string) (submitted_ns : Z) (deadline : float) (d : Q)
    (s : S) (h : history) : post (S := S) (unit + bool) :=
  fun r s' h' => s' = s /\ exists l, h' = h ++ l /\
    match r with
    | Ok (inl _) => texts l = [] /\ flt (time_clock E h) deadline = true /\ (1 <= pauses d l)%nat
    | Ok (inr true) => exists ns st wall, is_terminal st = true /\
        texts l = [line_text (stamped (complete_event task_id submitted_ns ns st) wall)]
    | Ok (inr false) => texts l = []
    | Raise _ => texts l = []
    | NoFuel => False
    end.

Lemma poll_turn_run `{E : Env} {S} cfg task_id ns deadline d (s : S) h :
  wp (poll_turn cfg task_id ns deadline (Fin d) tt) (poll_outcome E task_id ns deadline d s h) s h.
Proof.
  unfold poll_turn. wp_steps. fold (time_clock E h). destruct (flt (time_clock E h) deadline) eqn:Hf; wp_steps; [|by kept].
  destruct (poll_status_run cfg task_id s (h ++ [Ev CTime (time_clock E h)])) as (r & l & H & T & Pz & Hr & _).
  unfold wp at 1. rewrite H. destruct r as [o|e|]; wp_steps; [|by kept|done].
  assert (Hsleep : wp (sleep (Fin d);; mret (inl tt)) (poll_outcome E task_id ns deadline d s h) s
                      ((h ++ [Ev CTime (time_clock E h)]) ++ l)).
  { wp_steps. kept. rewrite !texts_app, T. split; [done|]. split; [done|].
    unfold pauses. rewrite !count_app. unfold count at 3. simpl.
    assert (Qle_bool d d = true) as -> by (apply Qle_bool_iff; lra). simpl. lia. }
  destruct o as [st|]; [|done]. destruct (is_terminal st) eqn:Et; [|done]. wp_steps.
  unfold wp at 1. rewrite record_run. wp_steps. kept.
  eexists _, st, _. split; [done|]. rewrite !texts_app, T. done.
Qed.

(** Reasonable waits: finite, and short against the range of the clock. *)
Definition wait_ok (t d : Q) (n : nat) : Prop :=
  (0 <= t)%Q /\ (t <= inject_Z (2 ^ 51))%Q /\ (0 <= d)%Q /\ (t + 1 <= d * (1 # 2) * inject_Z (Z.of_nat n))%Q.

Definition reading_ok (x : float) : Prop := exists p, x = Fin p /\ (0 <= p)%Q /\ (p <= inject_Z (2 ^ 51))%Q.

Lemma sum_2_51 (p t : Q) : (p <= inject_Z (2 ^ 51))%Q -> (t <= inject_Z (2 ^ 51))%Q -> (p + t <= inject_Z (2 ^ 52))%Q.
Proof.
  intros Hp Ht. assert (C : (inject_Z (2 ^ 51) + inject_Z (2 ^ 51) <= inject_Z (2 ^ 52))%Q) by (apply Qle_bool_iff; reflexivity).
  revert Hp Ht C. generalize (inject_Z (2 ^ 51)) (inject_Z (2 ^ 52)). intros. lra.
Qed.

(** A polling loop that pauses [d] per turn ends within [n] turns of its deadline;
    [I] holds of the local variables and the log of the turns that did not leave. *)
Lemma wp_poll_loop_at `{E : Env} {S A B} (body : A -> M S (A + B)) (I : A -> history -> Prop)
    (R : post (S := S) B) (fuel n : nat) (h : history) (p t d : Q) (s : S) :
  steady (time_clock E) -> time_clock E h = Fin p -> (0 <= p)%Q -> (p <= inject_Z (2 ^ 51))%Q ->
  wait_ok t d n -> (n < fuel)%nat ->
  (forall a l, I a l -> wp (body a) (fun r s' h' => match r with
      | Ok (inl a') => s' = s /\ flt (time_clock E (h ++ l)) (fadd (Fin p) (Fin t)) = true /\
          exists l', h' = h ++ l ++ l' /\ I a' (l ++ l') /\ (1 <= pauses d l')%nat
      | Ok (inr b) => R (Ok b) s' h'
      | Raise e => R (Raise e) s' h'
      | NoFuel => False
      end) s (h ++ l)) ->
  forall a0 l0, I a0 l0 -> pauses d l0 = O -> wp (while_loop fuel body a0) R s (h ++ l0).
Proof.
  intros Hs Hp Hp0 Hp1 (Ht0 & Ht1 & Hd & Hn) Hfuel Hbody a0 l0 Hl0 Hpz.
  apply (wp_while fuel body (fun a s' h' => s' = s /\ exists l, h' = h ++ l /\ I a l)
           (fun _ _ h' => n - pauses d (drop (length h) h'))%nat).
  - intros a s' h' [-> (l & -> & Hl)]. eapply wp_mono; [|by apply Hbody].
    intros [[a'|b]|e|] s'' h''; try done.
    intros (-> & Hf & l' & -> & Hl' & Hone). split; [split; [done|by eexists]|].
    rewrite !drop_app_length. assert (Hlt : (pauses d l < n)%nat).
    { destruct (Nat.lt_ge_cases (pauses d l) n) as [?|Hge]; [done|]. exfalso.
      pose proof (deadline_after (time_clock E) h l p t d n Hs Hp Hp0 Ht0 (sum_2_51 p t Hp1 Ht1) Hd Hn Hge). congruence. }
    unfold pauses in *. rewrite count_app. lia.
  - split; [done|]. by exists l0.
  - rewrite drop_app_length, Hpz. lia.
Qed.

(** A loop without local variables. *)
Lemma wp_poll_loop_inv `{E : Env} {S B} (body : unit -> M S (unit + B)) (I : history -> Prop)
    (R : post (S := S) B) (fuel n : nat) (h : history) (p t d : Q) (s : S) :
  steady (time_clock E) -> time_clock E h = Fin p -> (0 <= p)%Q -> (p <= inject_Z (2 ^ 51))%Q ->
  wait_ok t d n -> (n < fuel)%nat ->
  (forall l, I l -> wp (body tt) (fun r s' h' => match r with
      | Ok (inl _) => s' = s /\ flt (time_clock E (h ++ l)) (fadd (Fin p) (Fin t)) = true /\
          exists l', h' = h ++ l ++ l' /\ I (l ++ l') /\ (1 <= pauses d l')%nat
      | Ok (inr b) => R (Ok b) s' h'
      | Raise e => R (Raise e) s' h'
      | NoFuel => False
      end) s (h ++ l)) ->
  forall l0, I l0 -> pauses d l0 = O -> wp (while_loop fuel body tt) R s (h ++ l0).
Proof.
  intros Hs Hp Hp0 Hp1 Hw Hfuel Hbody l0.
  apply (wp_poll_loop_at body (fun _ => I) R fuel n h p t d s Hs Hp Hp0 Hp1 Hw Hfuel). intros []. apply Hbody.
Qed.

(** Turns that write nothing until the loop is left. *)
Lemma wp_poll_loop `{E : Env} {S B} (body : unit -> M S (unit + B)) (R : post (S := S) B) (fuel n : nat) (h : history) (p t d : Q) (s : S) :
  steady (time_clock E) -> time_clock E h = Fin p -> (0 <= p)%Q -> (p <= inject_Z (2 ^ 51))%Q ->
  wait_ok t d n -> (n < fuel)%nat ->
  (forall l, wp (body tt) (fun r s' h' => match r with
      | Ok (inl _) => s' = s /\ flt (time_clock E (h ++ l)) (fadd (Fin p) (Fin t)) = true /\
          exists l', h' = h ++ l ++ l' /\ texts l' = [] /\ (1 <= pauses d l')%nat
      | Ok (inr b) => texts l = [] -> R (Ok b) s' h'
      | Raise e => texts l = [] -> R (Raise e) s' h'
      | NoFuel => False
      end) s (h ++ l)) ->
  forall l0, texts l0 = [] -> pauses d l0 = O -> wp (while_loop fuel body tt) R s (h ++ l0).
Proof.
  intros Hs Hp Hp0 Hp1 Hw Hfuel Hbody. apply (wp_poll_loop_inv body (fun l => texts l = []) R fuel n h p t d s Hs Hp Hp0 Hp1 Hw Hfuel).
  intros l Hl. eapply wp_mono; [|apply Hbody]. intros [[[]|b]|e|] s' h'; auto.
  intros (-> & Hf & l' & -> & Hl' & Hone). split; [done|]. split; [done|]. exists l'. by rewrite texts_app, Hl, Hl'.
Qed.

(** Whatever the clock does, a poll that ends wrote one terminal record, or raised
    and wrote none. *)
Lemma poll_records `{E : Env} {S} fuel cfg task_id submitted_ns timeout_s d (s : S) h :
  exists r l, _poll_to_completion fuel cfg task_id submitted_ns timeout_s (Fin d) s h = (r, s, h ++ l) /\
    match r with
    | Ok _ => exists ev wall, terminal_event task_id submitted_ns ev /\ texts l = [line_text (stamped ev wall)]
    | _ => texts l = []
    end.
Proof.
  apply (run_of_wp _ (fun r l => match r with
    | Ok _ => exists ev wall, terminal_event task_id submitted_ns ev /\ texts l = [line_text (stamped ev wall)]
    | _ => texts l = [] end)).
  unfold _poll_to_completion. wp_steps.
  apply (wp_while_inv fuel _ (fun _ s' h' => s' = s /\ exists l, h' = h ++ l /\ texts l = [])).
  - intros [] s' h' [-> (l & -> & Hl)]. eapply wp_mono; [|apply poll_turn_run].
    intros r s' h' (-> & l' & -> & K). destruct r as [[[]|[]]|e|]; [| | | |done].
    + split; [done|]. eexists. rewrite <- app_assoc. split; [done|]. rewrite texts_app, Hl. apply K.
    + destruct K as (ns & st & wall & Ht & K). wp_steps. kept. eexists _, wall.
      split; [exists ns; left; by exists st|]. by rewrite texts_app, Hl, K.
    + wp_steps. unfold wp. rewrite record_run. kept. eexists _, _. split; [eexists; by right|]. by rewrite !texts_app, Hl, K.
    + wp_steps. kept. by rewrite texts_app, Hl, K.
  - intros [] s' h' [-> (l & -> & Hl)]. wp_steps. by kept.
  - split; [done|]. by eexists.
Qed.

(** ** Properties *)

(** C8: one terminal record per polled task.  With a clock that moves on while the
    poll sleeps, polling a task ends within its time-out: it writes exactly one
    line, the [complete] event of a terminal status or the [timeout] event of
    the task, or DynamoDB raises and it writes none. *)
Theorem poll_one_terminal_record `{E : Env} {S} (fuel n : nat) (cfg : BenchConfig) (task_id : string)
    (submitted_ns : Z) (t d : Q) (s : S) (h : history) :
  steady (time_clock E) -> reading_ok (time_clock E h) -> wait_ok t d n -> (n < fuel)%nat ->
  exists r l, _poll_to_completion fuel cfg task_id submitted_ns (Fin t) (Fin d) s h = (r, s, h ++ l) /\
    match r with
    | Ok _ => exists ev wall, terminal_event task_id submitted_ns ev /\ texts l = [line_text (stamped ev wall)]
    | Raise _ => texts l = []
    | NoFuel => False
    end.
Proof.
  intros Hs (p & Hp & Hp0 & Hp1) Hw Hfuel.
  apply (run_of_wp _ (fun r l => match r with
    | Ok _ => exists ev wall, terminal_event task_id submitted_ns ev /\ texts l = [line_text (stamped ev wall)]
    | Raise _ => texts l = [] | NoFuel => False end)).
  unfold _poll_to_completion. wp_steps. fold (time_clock E h). rewrite Hp.
  eapply (wp_poll_loop _ _ fuel n h p t d s Hs Hp Hp0 Hp1 Hw Hfuel); [|done|done].
  intros l. eapply wp_mono; [|apply poll_turn_run].
  intros r s' h' (-> & l' & -> & K). destruct r as [[[]|[]]|e|].
  - destruct K as (Hl' & Hf & Hone). split; [done|]. split; [done|]. exists l'. by rewrite app_assoc.
  - destruct K as (ns & st & wall & Ht & K). intros Hl. wp_steps. kept.
    eexists _, wall. split; [exists ns; left; by exists st|]. by rewrite texts_app, Hl, K.
  - intros Hl. wp_steps. unfold wp. rewrite record_run. kept. eexists _, _. split; [eexists; by right|].
    rewrite !texts_app, Hl, K. done.
  - intros Hl. wp_steps. kept. by rewrite texts_app, Hl, K.
  - done.
Qed.

Lemma poll_one_terminal_record_witness :
  exists r l, _poll_to_completion (H := pausing_env 1000) 300 three_coordinators "t-1" 5 (Fin (60 # 1)) (Fin (1 # 2)) tt [] = (r, tt, l) /\
    match r with
    | Ok _ => exists ev wall, terminal_event "t-1" 5 ev /\ texts l = [line_text (stamped ev wall)]
    | Raise _ => texts l = []
    | NoFuel => False
    end.
Proof.
  apply (poll_one_terminal_record (E := pausing_env 1000) 300 244 three_coordinators "t-1" 5 (60 # 1) (1 # 2) tt []).
  - apply pausing_steady.
  - exists (1000 + 0)%Q. split; [reflexivity|]. split; apply Qle_bool_iff; reflexivity.
  - repeat split; apply Qle_bool_iff; reflexivity.
  - lia.
Defined.
