(* ===== verification/Regex.v ===== *)
(** * Regex: the regular expressions of the log readers

    The patterns of chaos-bench/follower_recovery.py and exp4.py are sequences of
    literals and of repeated character classes.  [match_here] is Python's
    backtracking match of such a sequence at the start of a text, [search] tries
    every start from the left.  [fits] says declaratively which splits of a text a
    pattern describes; the matcher finds one exactly when there is one. *)

From stdpp Require Import base list strings.
From S2P Require Import Prelude PyStr.

Local Open Scope driftless_scope.

(** A piece of a pattern: a literal, or a class repeated greedily or lazily, at
    least [min] times. *)
Inductive piece : Type :=
| Lit (s : string)
| Rep (greedy : bool) (min : nat) (p : Ascii.ascii -> bool).

(** The characters [.], [\d], [\w] and [\s] stand for, in ASCII. *)
Definition any_char (c : Ascii.ascii) : bool := negb (Ascii.eqb c (chr 10)).
Definition word_char (c : Ascii.ascii) : bool :=
  is_digit c || ((65 <=? ord c)%N && (ord c <=? 90)%N) || ((97 <=? ord c)%N && (ord c <=? 122)%N) || (ord c =? 95)%N.

(** The text after a literal. *)
Fixpoint after_lit (t s : string) : option string :=
  match t, s with
  | EmptyString, _ => Some s
  | String a t', String b s' => if Ascii.eqb a b then after_lit t' s' else None
  | _, _ => None
  end.

(** Repetitions: how the class is extended decides which split is found first.  The
    continuation [k] matches the rest of the pattern; the captures are the texts
    of the repetitions. *)
Definition or_else {A} (a : option A) (b : unit -> option A) : option A :=
  match a with Some x => Some x | None => b tt end.

Fixpoint rep_here (greedy : bool) (min : nat) (p : Ascii.ascii -> bool) (k : string -> option (list string))
    (taken s : string) : option (list string) :=
  let stop (_ : unit) := match min with O => caps ← k s; Some (taken :: caps) | _ => None end in
  match s with
  | EmptyString => stop tt
  | String c s' =>
      let more (_ : unit) := if p c then rep_here greedy (Nat.pred min) p k (taken ^^ char c) s' else None in
      if greedy then or_else (more tt) stop else or_else (stop tt) more
  end.

Fixpoint match_here (pat : list piece) (s : string) : option (list string) :=
  match pat with
  | [] => Some []
  | Lit t :: pat' => s' ← after_lit t s; match_here pat' s'
  | Rep greedy min p :: pat' => rep_here greedy min p (match_here pat') "" s
  end.

Fixpoint search (pat : list piece) (s : string) : option (list string) :=
  or_else (match_here pat s) (fun _ => match s with String _ s' => search pat s' | EmptyString => None end).

(** ** The declarative reading *)

Fixpoint all_in (p : Ascii.ascii -> bool) (s : string) : bool :=
  match s with String c s' => p c && all_in p s' | EmptyString => true end.

(** [fits pat s caps]: a prefix of [s] splits along the pattern, [caps] being the
    parts of the repetitions. *)
Inductive fits : list piece -> string -> list string -> Prop :=
| fits_nil s : fits [] s []
| fits_lit t pat s caps : fits pat s caps -> fits (Lit t :: pat) (t ^^ s) caps
| fits_rep greedy min p pat part s caps :
    all_in p part = true -> min <= String.length part -> fits pat s caps ->
    fits (Rep greedy min p :: pat) (part ^^ s) (part :: caps).

Lemma after_lit_spec t s s' : after_lit t s = Some s' <-> s = t ^^ s'.
Proof.
  revert s. induction t as [|a t IH]; intros s; [cbn; rewrite append_nil_l; naive_solver|].
  rewrite append_cons. destruct s as [|b s]; [by cbn|]. cbn.
  destruct (Ascii.eqb_spec a b) as [->|Hne]; [rewrite IH; naive_solver|naive_solver].
Qed.

(** What a repetition finds, whatever its preference. *)
Lemma rep_here_sound greedy min p k taken s caps :
  rep_here greedy min p k taken s = Some caps ->
  exists part s' caps', s = part ^^ s' /\ all_in p part = true /\ min <= String.length part /\
    k s' = Some caps' /\ caps = (taken ^^ part) :: caps'.
Proof.
  revert min taken. induction s as [|c s IH]; intros min taken H; cbn [rep_here] in H.
  - destruct min; [|done]. destruct (k "") as [caps'|] eqn:Ek; [|done]. injection H as <-.
    exists "", "", caps'. rewrite append_nil_l, append_nil_r. repeat split; [cbn; lia|done].
  - assert (Hstop : forall m, match m with O => caps' ← k (String c s); Some (taken :: caps') | _ => None end = Some caps ->
      exists part s' caps', String c s = part ^^ s' /\ all_in p part = true /\ m <= String.length part /\
        k s' = Some caps' /\ caps = (taken ^^ part) :: caps').
    { intros [|m] Hm; [|done]. destruct (k (String c s)) as [caps'|] eqn:Ek; [|done]. injection Hm as <-.
      exists "", (String c s), caps'. rewrite append_nil_l, append_nil_r. repeat split; [cbn; lia|done]. }
    assert (Hmore : (if p c then rep_here greedy (Nat.pred min) p k (taken ^^ char c) s else None) = Some caps ->
      exists part s' caps', String c s = part ^^ s' /\ all_in p part = true /\ min <= String.length part /\
        k s' = Some caps' /\ caps = (taken ^^ part) :: caps').
    { destruct (p c) eqn:Ep; [|done]. intros Hm. destruct (IH _ _ Hm) as (part & s' & caps' & -> & Ha & Hl & Hk & ->).
      exists (String c part), s', caps'. rewrite append_cons. cbn. rewrite Ep, Ha. split; [done|]. split; [done|].
      split; [lia|]. split; [done|]. by rewrite append_assoc. }
    destruct greedy; unfold or_else in H.
    + destruct (if p c then _ else _) as [x|] eqn:E; [injection H as ->; by apply Hmore|by apply Hstop].
    + destruct (match min with O => _ | _ => _ end) as [x|] eqn:E; [injection H as ->; by apply Hstop|by apply Hmore].
Qed.

Lemma rep_here_complete greedy min p k taken part s' :
  all_in p part = true -> min <= String.length part -> k s' <> None -> rep_here greedy min p k taken (part ^^ s') <> None.
Proof.
  revert min taken. induction part as [|c part IH]; intros min taken Ha Hl Hk.
  - rewrite append_nil_l. assert (min = O) as -> by (cbn in Hl; lia). destruct (k s') as [caps|] eqn:Ek; [|done].
    destruct s' as [|c s']; cbn [rep_here]; rewrite Ek; [done|]. destruct greedy; cbn; [|done].
    by destruct (if p c then _ else _).
  - rewrite append_cons. cbn in Ha. apply andb_true_iff in Ha as [Hc Ha]. cbn [rep_here]. rewrite Hc.
    specialize (IH (Nat.pred min) (taken ^^ char c) Ha ltac:(cbn in Hl; lia) Hk).
    destruct (rep_here greedy (Nat.pred min) p k (taken ^^ char c) (part ^^ s')) as [caps|]; [|done].
    destruct greedy; cbn; [done|]. by destruct (match min with O => _ | _ => _ end).
Qed.

Lemma match_here_sound pat s caps : match_here pat s = Some caps -> fits pat s caps.
Proof.
  revert s caps. induction pat as [|[t|greedy min p] pat IH]; intros s caps H; cbn [match_here] in H.
  - injection H as <-. constructor.
  - destruct (after_lit t s) as [s'|] eqn:E; [|done]. apply after_lit_spec in E as ->. constructor. by apply IH.
  - apply rep_here_sound in H as (part & s' & caps' & -> & Ha & Hl & Hk & ->). constructor; [done|done|by apply IH].
Qed.

Lemma match_here_complete pat s caps : fits pat s caps -> match_here pat s <> None.
Proof.
  induction 1 as [s|t pat s caps _ IH|greedy min p pat part s caps Ha Hl _ IH]; cbn [match_here]; [done| |].
  - rewrite (proj2 (after_lit_spec t (t ^^ s) s) eq_refl). done.
  - by apply rep_here_complete.
Qed.

Lemma search_sound pat s caps : search pat s = Some caps -> exists pre post, s = pre ^^ post /\ fits pat post caps.
Proof.
  revert caps. induction s as [|c s IH]; intros caps H; cbn [search] in H; unfold or_else in H.
  - destruct (match_here pat "") as [x|] eqn:E; [|done]. injection H as <-. exists "", "". by apply match_here_sound in E.
  - destruct (match_here pat (String c s)) as [x|] eqn:E.
    + injection H as <-. exists "", (String c s). by apply match_here_sound in E.
    + destruct (IH caps H) as (pre & post & -> & Hf). by exists (String c pre), post.
Qed.

Lemma search_complete pat s : search pat s = None -> forall pre post caps, s = pre ^^ post -> ~ fits pat post caps.
Proof.
  induction s as [|c s IH]; intros H pre post caps Hs Hf; cbn [search] in H; unfold or_else in H.
  - destruct pre; [|done]. rewrite append_nil_l in Hs. subst post. apply match_here_complete in Hf.
    by destruct (match_here pat "").
  - destruct pre as [|c' pre].
    + rewrite append_nil_l in Hs. subst post. apply match_here_complete in Hf. by destruct (match_here pat (String c s)).
    + rewrite append_cons in Hs. injection Hs as <- ->. destruct (match_here pat (String c (pre ^^ post))); [done|].
      by apply (IH H pre post caps).
Qed.

(** A pattern that starts with a literal the text does not contain is not found. *)
Lemma prefix_app t s : String.prefix t (t ^^ s) = true.
Proof.
  induction t as [|c t IH]; [rewrite append_nil_l; by destruct s|]. rewrite append_cons. cbn.
  destruct (Ascii.ascii_dec c c); [done|congruence].
Qed.

Lemma contains_app t pre s : contains t (pre ^^ (t ^^ s)) = true.
Proof.
  induction pre as [|c pre IH]; [|rewrite append_cons; cbn [contains]; rewrite IH; apply orb_true_r].
  rewrite append_nil_l. pose proof (prefix_app t s) as H. destruct (t ^^ s); cbn [contains]; by rewrite H.
Qed.

Lemma search_absent t pat s : contains t s = false -> search (Lit t :: pat) s = None.
Proof.
  intros Hc. destruct (search (Lit t :: pat) s) as [caps|] eqn:E; [|done]. exfalso.
  apply search_sound in E as (pre & post & -> & Hf). inv Hf. by rewrite contains_app in Hc.
Qed.

(** ** Properties *)

(** Pattern search is sound and complete.  A search returns the captures of a
    split of some suffix of the text along the pattern, and it fails only when no
    suffix splits so. *)
Theorem search_correct (pat : list piece) (s : string) :
  match search pat s with
  | Some caps => exists pre post, s = pre ^^ post /\ fits pat post caps
  | None => forall pre post caps, s = pre ^^ post -> ~ fits pat post caps
  end.
Proof. destruct (search pat s) eqn:E; [by apply search_sound|by apply search_complete]. Qed.
