(* ===== verification/LogPages.v ===== *)
(** * LogPages: reading CloudWatch logs page by page
    ([FollowerRecoveryObserver._filter_events] of chaos-bench/follower_recovery.py,
    the loop of [_latest_leader_commit] in exp4.py)

    A reader asks for pages of log events until a page has no next token.  The
    consumer may leave the loop at an event, and then no further page is asked
    for.  [paginated] is the contract of the service: its pages come to an end. *)

From stdpp Require Import base list strings.
From Stdlib Require Import ZArith.
From S2P Require Import Prelude PyStr Json Runtime History Regex.

Local Open Scope Z_scope.
Local Open Scope driftless_scope.

Section read.
Context `{E : Env} {S B : Type}.
Context (group : string) (start_ms : Z) (prefix pattern : string).
Context (step : B -> log_event -> B * bool).

(** The loop over the events of a page, left when [step] says so. *)
Fixpoint consume (b : B) (evs : list log_event) : B * bool :=
  match evs with
  | [] => (b, false)
  | ev :: evs' => let '(b', stop) := step b ev in if stop then (b', true) else consume b' evs'
  end.

(** One page; the local variables are those of the consumer and the token. *)
Definition page_turn (st : B * option string) : M S (B * option string + B) :=
  let '(b, token) := st in
  page ← check (ask (CFilterLogs group start_ms prefix pattern token));
  let '(b, stop) := consume b page.1 in
  if stop then mret (inr b)
  else match page.2 with
       | Some t => if truthy t then mret (inl (b, Some t)) else mret (inr b)
       | None => mret (inr b)
       end.

Definition read_log (fuel : nat) (b : B) : M S B := while_loop fuel page_turn (b, None).
End read.

(** [int(m.group(i))] of a group of digits. *)
Definition int_group (caps : list string) (i : nat) : Z := default 0 (caps !! i ≫= int_of_str).

(** [ev["timestamp"] * 1_000_000]. *)
Definition ev_ns (ev : log_event) : Z := le_timestamp ev * 1000000.

(** ** The events a log delivered *)

Definition page_of (pattern : string) (e : event) : option (list log_event) :=
  match e with
  | Ev c r => match c as c' return resp c' -> option (list log_event) with
              | CFilterLogs _ _ _ p _ => fun r => match r with
                  | inr page => if String.eqb p pattern then Some page.1 else None
                  | inl _ => None end
              | _ => fun _ => None
              end r
  end.

Definition delivered (pattern : string) (l : history) : list log_event := concat (omap (page_of pattern) l).

Lemma delivered_app pattern l1 l2 : delivered pattern (l1 ++ l2) = delivered pattern l1 ++ delivered pattern l2.
Proof. unfold delivered. by rewrite omap_app, concat_app. Qed.

(** Calls that read the log with a pattern. *)
Definition log_call (pattern : string) (c : call) : bool :=
  match c with CFilterLogs _ _ _ p _ => String.eqb p pattern | _ => false end.

Definition reads (pattern : string) (l : history) : Prop := forallb (fun e => log_call pattern (ev_call e)) l = true.

Lemma reads_app pattern l1 l2 : reads pattern l1 -> reads pattern l2 -> reads pattern (l1 ++ l2).
Proof. unfold reads. rewrite forallb_app. by intros -> ->. Qed.

Lemma reads_no_write pattern l : reads pattern l -> texts l = [].
Proof. intros H. apply no_write_texts. revert H. apply calls_weaken. by intros []. Qed.

Lemma reads_no_pause pattern d l : reads pattern l -> pauses d l = O.
Proof.
  intros H. unfold reads in H. induction l as [|[c r] l IH]; [done|]. cbn [forallb] in H.
  apply andb_true_iff in H as [Hc H]. unfold pauses in *. rewrite count_cons, (IH H). by destruct c.
Qed.

Lemma reads_other pattern other l : reads pattern l -> String.eqb pattern other = false -> delivered other l = [].
Proof.
  intros H Hne. unfold reads in H. induction l as [|[c r] l IH]; [done|]. cbn [forallb] in H.
  apply andb_true_iff in H as [Hc H]. change (Ev c r :: l) with ([Ev c r] ++ l). rewrite delivered_app, (IH H), app_nil_r.
  destruct c; try done. cbn in Hc. apply String.eqb_eq in Hc as ->. unfold delivered. cbn.
  destruct r as [e|pg]; [done|]. by rewrite Hne.
Qed.

(** ** A whole reading

    [pages l token]: the calls of [l] read one page after the other, from the first,
    and [token] is that of the next page; [whole l]: they read all of them. *)
Section pages.
Context (group : string) (start_ms : Z) (prefix pattern : string).

Inductive pages : history -> option string -> Prop :=
| pages_first : pages [] None
| pages_next l token evs t :
    pages l token -> truthy t = true ->
    pages (l ++ [Ev (CFilterLogs group start_ms prefix pattern token) (inr (evs, Some t))]) (Some t).

Inductive whole : history -> Prop :=
| whole_last l token evs last :
    pages l token -> (forall t, last = Some t -> truthy t = false) ->
    whole (l ++ [Ev (CFilterLogs group start_ms prefix pattern token) (inr (evs, last))]).
End pages.

(** ** Pages come to an end *)

(** A token is worth a number of pages that each answer decreases. *)
Definition paginated (E : Env) (k : nat) : Prop :=
  exists rest : string -> nat, forall h g t p f token,
    match answer h (CFilterLogs g t p f token) with
    | inr (_, Some t') => (rest t' < match token with None => k | Some t0 => rest t0 end)%nat
    | _ => True
    end.

Section reading.
Context `{E : Env} {S B : Type}.
Context (group : string) (start_ms : Z) (prefix pattern : string).
Context (step : B -> log_event -> B * bool).

Lemma consume_app b evs1 evs2 :
  consume step b (evs1 ++ evs2) =
  let '(b1, stop) := consume step b evs1 in if stop then (b1, true) else consume step b1 evs2.
Proof.
  revert b. induction evs1 as [|ev evs1 IH]; intros b; [done|]. cbn [app consume].
  destruct (step b ev) as [b' []]; [done|apply IH].
Qed.

(** Reading consumes what the pages delivered, whatever their number and wherever
    the consumer left; if it did not leave, it has read all of them. *)
Lemma read_log_whole (fuel k : nat) (b : B) (s : S) h :
  paginated E k -> (k < fuel)%nat ->
  exists r l, read_log group start_ms prefix pattern step fuel b s h = (r, s, h ++ l) /\ reads pattern l /\
    match r with
    | Ok b' => b' = (consume step b (delivered pattern l)).1 /\
        (whole group start_ms prefix pattern l \/ (consume step b (delivered pattern l)).2 = true)
    | Raise _ => True
    | NoFuel => False
    end.
Proof.
  intros [rest Hrest] Hk.
  apply (run_of_wp _ (fun r l => reads pattern l /\ match r with
    | Ok b' => b' = (consume step b (delivered pattern l)).1 /\
        (whole group start_ms prefix pattern l \/ (consume step b (delivered pattern l)).2 = true)
    | Raise _ => True | NoFuel => False end)).
  apply (wp_while fuel _
    (fun st s' h' => s' = s /\ exists l, h' = h ++ l /\ reads pattern l /\ consume step b (delivered pattern l) = (st.1, false) /\
       pages group start_ms prefix pattern l st.2)
    (fun st _ _ => match st.2 with None => k | Some t => rest t end)).
  2: { split; [done|]. exists []. rewrite app_nil_r. split; [done|]. split; [done|]. split; [done|]. constructor. }
  2: done.
  intros [b0 token] s1 h1 [-> (l & -> & Hl & Hc & Hpg)]. cbn [snd] in Hpg. unfold page_turn. wp_steps.
  specialize (Hrest (h ++ l) group start_ms prefix pattern token).
  assert (Hr : forall r, reads pattern (l ++ [Ev (CFilterLogs group start_ms prefix pattern token) r])).
  { intros r. apply reads_app; [done|]. unfold reads. cbn. by rewrite String.eqb_refl. }
  destruct (answer (h ++ l) (CFilterLogs group start_ms prefix pattern token)) as [e|[evs next_]] eqn:Ea; wp_steps.
  { by kept. }
  assert (Hd : delivered pattern (l ++ [Ev (CFilterLogs group start_ms prefix pattern token) (inr (evs, next_))]) = delivered pattern l ++ evs).
  { rewrite delivered_app. f_equal. unfold delivered. cbn. rewrite String.eqb_refl. cbn. apply app_nil_r. }
  pose proof (consume_app b (delivered pattern l) evs) as Hca. rewrite Hc in Hca. cbn [fst snd] in *.
  destruct (consume step b0 evs) as [b1 stop] eqn:Ec.
  set (l1 := l ++ [Ev (CFilterLogs group start_ms prefix pattern token) (inr (evs, next_))]) in *.
  assert (Hb1 : (consume step b (delivered pattern l1)).1 = b1) by (by rewrite Hd, Hca).
  assert (Hw : (forall t, next_ = Some t -> truthy t = false) -> whole group start_ms prefix pattern l1).
  { intros Hn. by apply (whole_last _ _ _ _ l token evs next_). }
  destruct stop; wp_steps; [kept; split; [apply Hr|]; split; [done|]; right; fold l1; by rewrite Hd, Hca|].
  destruct next_ as [t|]; [|wp_steps; kept; split; [apply Hr|]; split; [done|]; left; by apply Hw].
  destruct (truthy t) eqn:Et; wp_steps; [|kept; split; [apply Hr|]; split; [done|]; left; apply Hw; by intros ? [= <-]].
  split; [|done]. split; [done|].
  eexists. split; [by rewrite <- app_assoc|]. split; [apply Hr|]. cbn [fst snd]. fold l1. split; [by rewrite Hd, Hca|].
  by apply pages_next.
Qed.

Lemma read_log_run (fuel k : nat) (b : B) (s : S) h :
  paginated E k -> (k < fuel)%nat ->
  exists r l, read_log group start_ms prefix pattern step fuel b s h = (r, s, h ++ l) /\ reads pattern l /\
    match r with
    | Ok b' => b' = (consume step b (delivered pattern l)).1
    | Raise _ => True
    | NoFuel => False
    end.
Proof.
  intros Hp Hk. destruct (read_log_whole fuel k b s h Hp Hk) as (r & l & H & Hr & K). exists r, l.
  split; [done|]. split; [done|]. destruct r as [b'|e|]; [apply K|done..].
Qed.
End reading.
