(* ===== verification/Scans.v ===== *)
(** * Scans: duplicate dispatches and diverging statuses
    (chaos-bench/dup_scan.py, divergence_scan.py)

    Both scans read the submitted ids out of a history and fetch the rows of the
    tasks in batches of 100, asking again for the keys DynamoDB left
    unprocessed.  [serves] is the contract of [BatchGetItem] they rely on. *)

From stdpp Require Import base gmap list strings.
From Stdlib Require Import ZArith.
From S2P Require Import Prelude PyFloat PyStr PyDict Json Runtime History BenchConfig.

Local Open Scope Z_scope.
Local Open Scope driftless_scope.

(** ** The submitted ids *)

(** One event of the loop; the local variables are [ids] and [seen]. *)
Definition collect_id (acc : list json * list string) (ev : fields) : res (list json * list string) :=
  let '(ids, seen) := acc in
  if negb (op_is ev "submit") then mret acc
  else
    let tid := field ev "task_id" in
    if json_truthy tid then
      k ← hash_key tid;
      if bool_decide (k ∈ seen) then mret acc else mret (ids ++ [tid], seen ++ [k])
    else mret acc.

Definition _task_ids_from_history (text : string) : res (list json) :=
  acc ← fold_history text collect_id ([], []);
  mret acc.1.

(** A key of a request must be a string. *)
Definition request_key (tid : json) : res string :=
  match tid with
  | JStr s => Ok s
  | _ => Raise (Exn OtherError "Parameter validation failed")
  end.

Fixpoint request_keys (l : list json) : res (list string) :=
  match l with
  | [] => Ok []
  | v :: l' => k ← request_key v; ks ← request_keys l'; mret (k :: ks)
  end.

(** [item["task_id"]["S"]]. *)
Definition item_id (it : item) : res string := res_of_option (key_error "task_id") (get_S it "task_id").

(** ** Fetching *)

Section fetch.
Context `{E : Env} {S B : Type} (table : string) (process : B -> item -> res B).

(** One turn of the loop that drains [UnprocessedKeys]. *)
Definition fetch_turn (st : B * key_request) : M S (B * key_request + B) :=
  let '(b, to_fetch) := st in
  match to_fetch with
  | [] => mret (inr b)
  | _ =>
      resp ← check (ask (CDdbBatchGet to_fetch));
      b' ← lift (fold_res process b (default [] (dict_get resp.1 table)));
      mret (inl (b', default [] resp.2))
  end.

Definition fetch_chunk (fuel : nat) (b : B) (chunk : list json) : M S B :=
  keys ← lift (request_keys chunk);
  while_loop fuel fetch_turn (b, [(table, keys)]).

(** The loop over the chunks of 100 ids. *)
Definition fetch_all (fuel : nat) (b : B) (ids : list json) : M S B :=
  for_fold (batches_of 100 ids) (fetch_chunk fuel) b.
End fetch.

(** ** dup_scan.py *)

Record DupScanResult : Type := mkDup {
  total_scanned : Z;
  duplicate_count : Z;
  duplicate_task_ids : list string;
  max_receive_count : Z;
}.

Definition dup_to_dict (r : DupScanResult) : fields :=
  [("total_scanned", JInt (total_scanned r)); ("duplicate_count", JInt (duplicate_count r));
   ("max_receive_count", JInt (max_receive_count r));
   ("duplicate_task_ids_sample", JArr (map JStr (take 20 (duplicate_task_ids r))))]%string.

(** The body of the loop over the items; the local variables are [max_rc] and [dup_ids]. *)
Definition dup_item (acc : Z * list string) (it : item) : res (Z * list string) :=
  let '(max_rc, dup_ids) := acc in
  match get_N it "receive_count" with
  | None => mret acc
  | Some rc_attr =>
      match int_of_str rc_attr with
      | None => mret acc
      | Some rc =>
          let max_rc := if max_rc <? rc then rc else max_rc in
          if 1 <? rc then tid ← item_id it; mret (max_rc, dup_ids ++ [tid]) else mret (max_rc, dup_ids)
      end
  end.

Definition dup_scan `{Env} {S} (fuel : nat) (cfg : BenchConfig) (text : string) : M S DupScanResult :=
  task_ids ← lift (_task_ids_from_history text);
  acc ← fetch_all (tasks_table cfg) dup_item fuel (0, []) task_ids;
  mret {| total_scanned := Z.of_nat (length task_ids);
          duplicate_count := Z.of_nat (length acc.2);
          duplicate_task_ids := acc.2;
          max_receive_count := acc.1 |}.

(** ** divergence_scan.py *)

Record DivergenceScanResult : Type := mkDivergence {
  dv_total_scanned : Z;
  stuck_pending : Z;
  stuck_assigned : Z;
  missing : Z;
  stuck_pending_sample : list string;
  stuck_assigned_sample : list string;
  missing_sample : list string;
}.

Definition divergence_to_dict (r : DivergenceScanResult) : fields :=
  [("total_scanned", JInt (dv_total_scanned r)); ("stuck_pending", JInt (stuck_pending r));
   ("stuck_assigned", JInt (stuck_assigned r)); ("missing", JInt (missing r));
   ("stuck_pending_sample", JArr (map JStr (take 20 (stuck_pending_sample r))));
   ("stuck_assigned_sample", JArr (map JStr (take 20 (stuck_assigned_sample r))));
   ("missing_sample", JArr (map JStr (take 20 (missing_sample r))))]%string.

(** The local variables of the loop. *)
Record div_acc : Type := mkDiv { dv_pending : list string; dv_assigned : list string; dv_found : gset string }.

Definition div_item (acc : div_acc) (it : item) : res div_acc :=
  tid ← item_id it;
  let found := {[ tid ]} ∪ dv_found acc in
  let status := default ""%string (get_S it "status") in
  if String.eqb status "PENDING" then mret (mkDiv (dv_pending acc ++ [tid]) (dv_assigned acc) found)
  else if String.eqb status "ASSIGNED" then mret (mkDiv (dv_pending acc) (dv_assigned acc ++ [tid]) found)
  else mret (mkDiv (dv_pending acc) (dv_assigned acc) found).

Definition divergence_scan `{Env} {S} (fuel : nat) (cfg : BenchConfig) (text : string) : M S DivergenceScanResult :=
  task_ids ← lift (_task_ids_from_history text);
  match task_ids with
  | [] => mret (mkDivergence 0 0 0 0 [] [] [])
  | _ =>
      acc ← fetch_all (tasks_table cfg) div_item fuel (mkDiv [] [] ∅) task_ids;
      tids ← lift (request_keys task_ids);
      let missing := List.filter (fun tid => negb (bool_decide (tid ∈ dv_found acc))) tids in
      mret {| dv_total_scanned := Z.of_nat (length task_ids);
              stuck_pending := Z.of_nat (length (dv_pending acc));
              stuck_assigned := Z.of_nat (length (dv_assigned acc));
              missing := Z.of_nat (length missing);
              stuck_pending_sample := dv_pending acc;
              stuck_assigned_sample := dv_assigned acc;
              missing_sample := missing |}
  end.

(** ** The contract of [BatchGetItem]

    A request for distinct keys of the table, at least one and at most 100, answers
    the rows of the keys it processed, in any order, and names the keys it left; it
    processes at least one (or raises, which is not the case described here).  Of
    other requests, which the service refuses, nothing is assumed. *)

Definition serves (E : Env) (table : string) (store : string -> option item) : Prop :=
  forall h keys, keys <> [] -> (length keys <= 100)%nat -> NoDup keys ->
    exists processed rest items, answer h (CDdbBatchGet [(table, keys)]) =
        inr ([(table, items)], match rest with [] => None | _ => Some [(table, rest)] end) /\
      processed ++ rest ≡ₚ keys /\ processed <> [] /\ items ≡ₚ omap store processed.

(** The rows of the table carry their own id. *)
Definition keyed (store : string -> option item) : Prop :=
  forall id it, store id = Some it -> get_S it "task_id" = Some id.

(** ** The ids read are the submitted ones *)

(** Keep the first occurrences. *)
Definition add_new (acc : list string) (x : string) : list string :=
  if bool_decide (x ∈ acc) then acc else acc ++ [x].
Definition first_occurrences (l : list string) : list string := fold_left add_new l [].

Lemma add_new_spec acc l x :
  (x ∈ fold_left add_new l acc <-> x ∈ acc \/ x ∈ l) /\ (NoDup acc -> NoDup (fold_left add_new l acc)).
Proof.
  revert acc. induction l as [|y l IH]; intros acc; simpl; [split; [set_solver|done]|].
  destruct (IH (add_new acc y)) as [IH1 IH2]. split.
  - rewrite IH1. unfold add_new. case_bool_decide; set_solver.
  - intros Hn. apply IH2. unfold add_new. case_bool_decide; [done|].
    apply NoDup_app. split; [done|]. split; [set_solver|apply NoDup_singleton].
Qed.

Lemma first_NoDup l : NoDup (first_occurrences l).
Proof. apply (add_new_spec [] l EmptyString), NoDup_nil_2. Qed.

(** The non-empty ids of the submit events, in order. *)
Definition submit_id (ev : fields) : option string :=
  if op_is ev "submit" then match field ev "task_id" with JStr s => if truthy s then Some s else None | _ => None end
  else None.

(** Submit events carry strings as ids. *)
Definition string_ids (ev : fields) : bool :=
  negb (op_is ev "submit") || match field ev "task_id" with JStr _ => true | v => negb (json_truthy v) end.

Lemma dumps_str_inj s t : dumps (JStr s) = dumps (JStr t) -> s = t.
Proof.
  intros H. pose proof (loads_dumps (JStr s) eq_refl) as Hs. rewrite H, (loads_dumps (JStr t) eq_refl) in Hs. congruence.
Qed.

Lemma elem_dumps_str s l : dumps (JStr s) ∈ map (fun x => dumps (JStr x)) l <-> s ∈ l.
Proof.
  split.
  - intros H. apply list_elem_of_fmap in H as (t & Ht & Hin). by apply dumps_str_inj in Ht as ->.
  - intros H. apply list_elem_of_fmap. by exists s.
Qed.

(** The loop's variables for the ids [acc]. *)
Definition id_state (acc : list string) : list json * list string :=
  (map JStr acc, map (fun x => dumps (JStr x)) acc).

Lemma collect_id_step acc ev :
  string_ids ev = true ->
  collect_id (id_state acc) ev =
  Ok (id_state (match submit_id ev with Some x => add_new acc x | None => acc end)).
Proof.
  unfold collect_id, id_state, submit_id, string_ids. destruct (op_is ev "submit"); [|done]. cbn [negb orb].
  destruct (field ev "task_id") as [| | | |s| |] eqn:Ef; try (intros H; simpl in H; try rewrite negb_true_iff in H; simpl; by rewrite ?H).
  intros _. cbn [negb json_truthy hash_key mbind res_bind]. destruct (truthy s) eqn:Et; [|done]. unfold add_new.
  assert (bool_decide (dumps (JStr s) ∈ map (fun x => dumps (JStr x)) acc) = bool_decide (s ∈ acc)) as ->.
  { apply bool_decide_ext. apply elem_dumps_str. }
  case_bool_decide; [done|]. by rewrite !map_app.
Qed.

Lemma collect_ids evs acc :
  forallb string_ids evs = true ->
  fold_res collect_id (id_state acc) evs = Ok (id_state (fold_left add_new (omap submit_id evs) acc)).
Proof.
  revert acc. induction evs as [|ev evs IH]; intros acc Hs; [done|]. cbn [forallb] in Hs.
  apply andb_true_iff in Hs as [He Hs]. cbn [fold_res]. rewrite collect_id_step by done. cbn [mbind res_bind].
  rewrite IH by done. f_equal. f_equal. cbn [omap list_omap]. by destruct (submit_id ev).
Qed.

Lemma task_ids_of_file evs :
  forallb plain_fields evs = true -> forallb string_ids evs = true ->
  _task_ids_from_history (file_of evs) = Ok (map JStr (first_occurrences (omap submit_id evs))).
Proof.
  intros Hp Hs. unfold _task_ids_from_history, file_of. rewrite fold_history_lines by done.
  change ([], []) with (id_state []). by rewrite collect_ids.
Qed.

(** ** Every row is fetched exactly once *)

Lemma request_keys_app a b ids :
  request_keys (a ++ b) = Ok ids ->
  exists i1 i2, ids = i1 ++ i2 /\ request_keys a = Ok i1 /\ request_keys b = Ok i2.
Proof.
  revert ids. induction a as [|v a IH]; intros ids; cbn [app request_keys]; [intros H; by exists [], ids|].
  destruct (request_key v) as [k|e|]; cbn; [|done|done].
  destruct (request_keys (a ++ b)) as [ks|e|] eqn:Er; cbn; [|done|done]. intros [= <-].
  destruct (IH ks eq_refl) as (i1 & i2 & -> & H1 & H2). exists (k :: i1), i2. by rewrite H1.
Qed.

Lemma request_keys_str ids : request_keys (map JStr ids) = Ok ids.
Proof. induction ids as [|i ids IH]; [done|]. cbn. by rewrite IH. Qed.

Lemma request_keys_length l ids : request_keys l = Ok ids -> length ids = length l.
Proof.
  revert ids. induction l as [|v l IH]; intros ids; cbn; [by intros [= <-]|].
  destruct (request_key v); cbn; [|done|done]. destruct (request_keys l) eqn:E; cbn; [|done|done].
  intros [= <-]. simpl. f_equal. by apply IH.
Qed.

Lemma fold_res_pure_in {A B} (f : B -> A -> res B) (g : B -> A -> B) b l :
  (forall b a, a ∈ l -> f b a = Ok (g b a)) -> fold_res f b l = Ok (fold_left g l b).
Proof.
  revert b. induction l as [|a l IH]; intros b H; [done|]. cbn. rewrite H by left. cbn.
  apply IH. intros b' a' Ha. apply H. by right.
Qed.

Section drain.
Context `{E : Env} {S B : Type} (table : string) (store : string -> option item).
Context (Hserves : serves E table store).
Context (process : B -> item -> res B) (g : B -> item -> B).
Context (Hprocess : forall b it id, store id = Some it -> process b it = Ok (g b it)).

Lemma process_rows b items keys :
  items ≡ₚ omap store keys -> fold_res process b items = Ok (fold_left g items b).
Proof using Hprocess.
  intros Hi. apply fold_res_pure_in. intros b' it Hit. rewrite Hi in Hit.
  apply list_elem_of_omap in Hit as (id & _ & Hid). by eapply Hprocess.
Qed.

Lemma drain_keys fuel b keys (s : S) h :
  keys <> [] -> (length keys <= 100)%nat -> NoDup keys -> (length keys < fuel)%nat ->
  exists items l, while_loop fuel (fetch_turn table process) (b, [(table, keys)]) s h =
      (Ok (fold_left g items b), s, h ++ l) /\ items ≡ₚ omap store keys.
Proof using Hserves Hprocess.
  revert b keys h. induction fuel as [|n IH]; intros b keys h Hne H100 Hnd Hf; [lia|].
  destruct (Hserves h keys Hne H100 Hnd) as (processed & rest & items & Ha & Hperm & Hpne & Hitems).
  assert (Hlen : (length processed + length rest = length keys)%nat) by (rewrite <- length_app; by apply Permutation_length).
  assert (Hturn : fetch_turn table process (b, [(table, keys)]) s h =
    (Ok (inl (fold_left g items b, match rest with [] => [] | _ => [(table, rest)] end)), s,
     h ++ [Ev (CDdbBatchGet [(table, keys)]) (answer h (CDdbBatchGet [(table, keys)]))])).
  { unfold fetch_turn, check, ask, lift, mbind, M_bind. rewrite Ha. cbn [fst snd dict_get mret M_ret].
    rewrite decide_True by done. cbn [from_option id]. rewrite (process_rows b items processed Hitems).
    cbn. by destruct rest. }
  cbn [while_loop]. unfold mbind, M_bind. rewrite Hturn.
  destruct rest as [|k rest].
  - rewrite app_nil_r in Hperm. destruct n as [|n]; [destruct keys; simpl in *; [done|lia]|].
    cbn. eexists items, _. split; [done|]. by rewrite Hitems, Hperm.
  - destruct (IH (fold_left g items b) (k :: rest)
      (h ++ [Ev (CDdbBatchGet [(table, keys)]) (answer h (CDdbBatchGet [(table, keys)]))])) as (items2 & l & H2 & Hp2).
    { done. } { lia. } { rewrite <- Hperm in Hnd. by apply NoDup_app in Hnd as (_ & _ & ?). }
    { destruct processed; simpl in *; [done|lia]. }
    rewrite H2. exists (items ++ items2). eexists. rewrite fold_left_app, <- app_assoc. split; [done|].
    rewrite Hitems, Hp2, <- Hperm. by rewrite omap_app.
Qed.

Lemma fetch_chunk_keys fuel b c ids (s : S) h :
  request_keys c = Ok ids ->
  fetch_chunk table process fuel b c s h = while_loop fuel (fetch_turn table process) (b, [(table, ids)]) s h.
Proof. intros H. unfold fetch_chunk, lift, mbind, M_bind. by rewrite H. Qed.

Lemma drain_chunks fuel b cs ids (s : S) h :
  (forall c, c ∈ cs -> (0 < length c <= 100)%nat) -> (100 < fuel)%nat -> request_keys (concat cs) = Ok ids -> NoDup ids ->
  exists items l, for_fold cs (fetch_chunk table process fuel) b s h = (Ok (fold_left g items b), s, h ++ l) /\
    items ≡ₚ omap store ids.
Proof using Hserves Hprocess.
  revert b ids h. induction cs as [|c cs IH]; intros b ids h Hc Hf Hr Hnd.
  - cbn in *. injection Hr as <-. exists [], []. by rewrite app_nil_r.
  - cbn [concat] in Hr. apply request_keys_app in Hr as (i1 & i2 & -> & H1 & H2).
    pose proof (request_keys_length _ _ H1) as Hl. destruct (Hc c ltac:(left)) as [Hpos Hlt].
    apply NoDup_app in Hnd as (Hnd1 & _ & Hnd2).
    destruct (drain_keys fuel b i1 s h) as (items & l & Hd & Hp); [destruct i1; simpl in *; [lia|done]|lia|done|lia|].
    destruct (IH (fold_left g items b) i2 (h ++ l)) as (items2 & l2 & Hd2 & Hp2); [intros c' Hc'; apply Hc; by right|done..|].
    exists (items ++ items2), (l ++ l2). cbn [for_fold]. unfold mbind, M_bind. rewrite (fetch_chunk_keys fuel b c i1 s h H1), Hd, Hd2.
    rewrite fold_left_app, app_assoc. split; [done|]. by rewrite Hp, Hp2, omap_app.
Qed.

Lemma fetch_all_run fuel b js ids (s : S) h :
  (100 < fuel)%nat -> request_keys js = Ok ids -> NoDup ids ->
  exists items l, fetch_all table process fuel b js s h = (Ok (fold_left g items b), s, h ++ l) /\
    items ≡ₚ omap store ids.
Proof using Hserves Hprocess.
  intros Hf Hr Hnd. unfold fetch_all. apply drain_chunks; [|done|by rewrite batches_concat by lia|done].
  intros c Hc. apply batches_size in Hc; lia.
Qed.
End drain.

(** ** What the rows say *)

Definition item_rc (it : item) : option Z := a ← get_N it "receive_count"; int_of_str a.
Definition receive_count (store : string -> option item) (id : string) : option Z := store id ≫= item_rc.
Definition dispatched_twice (store : string -> option item) (id : string) : bool :=
  match receive_count store id with Some rc => 1 <? rc | None => false end.

Definition row_status (store : string -> option item) (id : string) : option string :=
  it ← store id; Some (default ""%string (get_S it "status")).
Definition has_status (store : string -> option item) (st id : string) : bool :=
  bool_decide (row_status store id = Some st).

(** The loops on rows that carry an id. *)
Definition dup_step (acc : Z * list string) (it : item) : Z * list string :=
  match item_rc it with
  | None => acc
  | Some rc => (Z.max acc.1 rc, if 1 <? rc then acc.2 ++ [default ""%string (get_S it "task_id")] else acc.2)
  end.

Lemma dup_item_step acc it id : get_S it "task_id" = Some id -> dup_item acc it = Ok (dup_step acc it).
Proof.
  intros Hid. destruct acc as [m ids]. unfold dup_item, dup_step, item_rc, item_id. rewrite Hid.
  destruct (get_N it "receive_count") as [a|]; [|done]. cbn. destruct (int_of_str a) as [rc|]; [|done].
  destruct (Z.ltb_spec m rc); [rewrite Z.max_r by lia|rewrite Z.max_l by lia]; by destruct (1 <? rc).
Qed.

Definition dup_of (it : item) : option string :=
  rc ← item_rc it; if 1 <? rc then Some (default ""%string (get_S it "task_id")) else None.

Lemma dup_fold m ids items :
  fold_left dup_step items (m, ids) = (fold_left Z.max (omap item_rc items) m, ids ++ omap dup_of items).
Proof.
  revert m ids. induction items as [|it items IH]; intros m ids; cbn; [by rewrite app_nil_r|].
  unfold dup_step at 2, dup_of at 1. destruct (item_rc it) as [rc|] eqn:E; cbn; [|apply IH].
  destruct (1 <? rc); cbn; rewrite IH; [by rewrite <- app_assoc|done].
Qed.

Lemma fold_max_spec (l : list Z) m :
  m <= fold_left Z.max l m /\ (forall x, x ∈ l -> x <= fold_left Z.max l m) /\
  (fold_left Z.max l m = m \/ fold_left Z.max l m ∈ l).
Proof.
  revert m. induction l as [|y l IH]; intros m; cbn; [split; [lia|]; split; [intros x Hx; inv Hx|by left]|].
  destruct (IH (Z.max m y)) as (H1 & H2 & H3). split; [lia|]. split.
  - intros x [->|Hx]%elem_of_cons; [lia|auto].
  - destruct H3 as [H3|H3]; [|right; by right]. destruct (Z.max_spec m y) as [[_ E]|[_ E]]; rewrite H3, E; [right; left|by left].
Qed.

Lemma omap_omap {A B C} (f : A -> option B) (k : B -> option C) (l : list A) :
  omap k (omap f l) = omap (fun x => f x ≫= k) l.
Proof. induction l as [|x l IH]; [done|]. cbn. destruct (f x); cbn; [|done]. by destruct (k b); rewrite <- IH. Qed.

Lemma omap_keep {A} (p : A -> bool) (f : A -> option A) (l : list A) :
  (forall x, f x = if p x then Some x else None) -> omap f l = List.filter p l.
Proof. intros H. induction l as [|x l IH]; [done|]. cbn. rewrite H, IH. by destruct (p x). Qed.

(** ** Properties *)

Section scans.
Context `{E : Env} {S : Type} (cfg : BenchConfig) (store : string -> option item).
Context (Hserves : serves E (tasks_table cfg) store) (Hkeyed : keyed store).

Lemma dup_rows m ids0 items ids :
  items ≡ₚ omap store ids ->
  fold_left dup_step items (m, ids0) = (fold_left Z.max (omap item_rc items) m, ids0 ++ omap dup_of items) /\
  omap dup_of items ≡ₚ List.filter (dispatched_twice store) ids /\
  (forall rc, rc ∈ omap item_rc items <-> exists id, id ∈ ids /\ receive_count store id = Some rc).
Proof using Hkeyed.
  intros Hi. split; [apply dup_fold|]. split.
  - rewrite Hi, omap_omap. apply reflexive_eq. apply omap_keep. intros id. unfold dispatched_twice, receive_count, dup_of.
    destruct (store id) as [it|] eqn:Es; [|done]. cbn. destruct (item_rc it) as [rc|]; [|done]. cbn.
    rewrite (Hkeyed id it Es). done.
  - intros rc. rewrite Hi, omap_omap. unfold receive_count. apply list_elem_of_omap.
Qed.

(** The scan of a history folds over the rows of its ids, each once. *)
Lemma dup_scan_run fuel evs (s : S) h :
  (100 < fuel)%nat -> forallb plain_fields evs = true -> forallb string_ids evs = true ->
  let ids := first_occurrences (omap submit_id evs) in
  exists items l, items ≡ₚ omap store ids /\ dup_scan fuel cfg (file_of evs) s h =
    (Ok {| total_scanned := Z.of_nat (length ids);
           duplicate_count := Z.of_nat (length (omap dup_of items));
           duplicate_task_ids := omap dup_of items;
           max_receive_count := fold_left Z.max (omap item_rc items) 0 |}, s, h ++ l).
Proof using Hserves Hkeyed.
  intros Hf Hp Hs ids. unfold dup_scan, lift, mbind, M_bind. rewrite task_ids_of_file by done. fold ids.
  destruct (fetch_all_run (tasks_table cfg) store Hserves dup_item dup_step
    ltac:(intros b it id Hid; eapply dup_item_step, Hkeyed, Hid) fuel (0, []) (map JStr ids) ids s h Hf (request_keys_str ids) (first_NoDup _))
    as (items & l & Hrun & Hi).
  exists items, l. split; [done|]. rewrite Hrun, length_map. by rewrite (proj1 (dup_rows 0 [] items ids Hi)).
Qed.
End scans.

(** C6: the duplicate scan is exact.  Against a table that serves batch reads, with
    any throttling, the scan of a history ends and reports precisely the
    submitted tasks whose receive count exceeds one, each once, their number, and
    the greatest receive count (0 when none is positive). *)
Theorem dup_scan_exact `{E : Env} {S} (fuel : nat) (cfg : BenchConfig) (store : string -> option item)
    (evs : list fields) (s : S) (h : history) :
  serves E (tasks_table cfg) store -> keyed store -> (100 < fuel)%nat ->
  forallb plain_fields evs = true -> forallb string_ids evs = true ->
  let ids := first_occurrences (omap submit_id evs) in
  exists r l, dup_scan fuel cfg (file_of evs) s h = (Ok r, s, h ++ l) /\
    total_scanned r = Z.of_nat (length ids) /\
    duplicate_task_ids r ≡ₚ List.filter (dispatched_twice store) ids /\
    duplicate_count r = Z.of_nat (length (duplicate_task_ids r)) /\
    (forall id rc, id ∈ ids -> receive_count store id = Some rc -> rc <= max_receive_count r) /\
    (max_receive_count r = 0 \/ exists id, id ∈ ids /\ receive_count store id = Some (max_receive_count r)).
Proof.
  intros Hserves Hkeyed Hf Hp Hs ids. destruct (dup_scan_run cfg store Hserves Hkeyed fuel evs s h Hf Hp Hs) as (items & l & Hi & Hrun).
  destruct (dup_rows store Hkeyed 0 [] items ids Hi) as (_ & Hdup & Hrc).
  eexists _, l. split; [exact Hrun|]. cbn. split; [done|]. split; [done|]. split; [done|].
  destruct (fold_max_spec (omap item_rc items) 0) as (H1 & H2 & H3). split.
  - intros id rc Hid Hid'. apply H2, Hrc. by exists id.
  - destruct H3 as [H3|H3]; [by left|right]. by apply Hrc in H3.
Qed.

(** The loop of the divergence scan on rows that carry an id. *)
Definition div_step (acc : div_acc) (it : item) : div_acc :=
  let tid := default ""%string (get_S it "task_id") in
  let status := default ""%string (get_S it "status") in
  {| dv_pending := if String.eqb status "PENDING" then dv_pending acc ++ [tid] else dv_pending acc;
     dv_assigned := if String.eqb status "PENDING" then dv_assigned acc
                    else if String.eqb status "ASSIGNED" then dv_assigned acc ++ [tid] else dv_assigned acc;
     dv_found := {[ tid ]} ∪ dv_found acc |}.

Lemma div_item_step acc it id : get_S it "task_id" = Some id -> div_item acc it = Ok (div_step acc it).
Proof.
  intros Hid. unfold div_item, div_step, item_id. rewrite Hid. cbn.
  destruct (String.eqb _ "PENDING"); [done|]. by destruct (String.eqb _ "ASSIGNED").
Qed.

(** The id of a row with a status. *)
Definition with_status (st : string) (it : item) : option string :=
  if String.eqb (default ""%string (get_S it "status")) st then Some (default ""%string (get_S it "task_id")) else None.

Lemma with_status_cons st it items :
  omap (with_status st) (it :: items) =
  (if String.eqb (default ""%string (get_S it "status")) st then [default ""%string (get_S it "task_id")] else [])
  ++ omap (with_status st) items.
Proof. cbn. unfold with_status at 1. by destruct (String.eqb _ st). Qed.

Lemma div_fold acc items :
  let r := fold_left div_step items acc in
  dv_pending r = dv_pending acc ++ omap (with_status "PENDING") items /\
  dv_assigned r = dv_assigned acc ++ omap (with_status "ASSIGNED") items /\
  (forall id, id ∈ dv_found r <-> id ∈ dv_found acc \/ exists it, it ∈ items /\ id = default ""%string (get_S it "task_id")).
Proof.
  revert acc. induction items as [|it items IH]; intros acc; cbn [fold_left].
  - cbn. rewrite !app_nil_r. split; [done|]. split; [done|]. intros id. split; [by left|]. intros [H|(it & Hit & _)]; [done|inv Hit].
  - generalize (IH (div_step acc it)). cbv zeta. generalize (fold_left div_step items (div_step acc it)).
    intros r (H1 & H2 & H3). rewrite H1, H2, !with_status_cons. clear H1 H2 IH.
    unfold div_step in *. cbn [dv_pending dv_assigned dv_found] in *.
    set (st := default ""%string (get_S it "status")). set (tid := default ""%string (get_S it "task_id")) in *. clearbody st.
    split; [by destruct (String.eqb st "PENDING"); rewrite <- ?app_assoc|]. split.
    + destruct (String.eqb_spec st "PENDING") as [->|Hne]; [done|]. by destruct (String.eqb st "ASSIGNED"); rewrite <- ?app_assoc.
    + intros id. rewrite H3, elem_of_union, elem_of_singleton. setoid_rewrite elem_of_cons. subst tid. naive_solver.
Qed.

Lemma status_rows store st items ids :
  keyed store -> items ≡ₚ omap store ids ->
  omap (with_status st) items ≡ₚ List.filter (has_status store st) ids.
Proof.
  intros Hk Hi. rewrite Hi, omap_omap. apply reflexive_eq, omap_keep. intros id.
  unfold has_status, row_status, with_status. destruct (store id) as [it|] eqn:Es; cbn.
  - rewrite (Hk id it Es). cbn. destruct (String.eqb_spec (default ""%string (get_S it "status")) st) as [->|Hne].
    + by rewrite bool_decide_eq_true_2.
    + rewrite bool_decide_eq_false_2; [done|congruence].
  - by rewrite bool_decide_eq_false_2.
Qed.

(** Every task is pending, assigned, missing or settled. *)
Lemma statuses_partition store ids :
  (count (has_status store "PENDING") ids + count (has_status store "ASSIGNED") ids
   + count (fun id => bool_decide (store id = None)) ids
   + count (fun id => negb (bool_decide (store id = None)) && negb (has_status store "PENDING" id)
                      && negb (has_status store "ASSIGNED" id)) ids = length ids)%nat.
Proof.
  induction ids as [|id ids IH]; [done|]. rewrite !count_cons. cbn [length]. rewrite <- IH. clear IH.
  assert (has_status store "PENDING" id = true -> has_status store "ASSIGNED" id = false).
  { unfold has_status. rewrite bool_decide_eq_true, bool_decide_eq_false. congruence. }
  assert (store id = None -> has_status store "PENDING" id = false /\ has_status store "ASSIGNED" id = false).
  { unfold has_status, row_status. intros ->. done. }
  destruct (decide (store id = None)) as [Hn|Hn].
  - destruct (H0 Hn) as [-> ->]. rewrite (bool_decide_eq_true_2 _ Hn). cbn. lia.
  - rewrite (bool_decide_eq_false_2 _ Hn). destruct (has_status store "PENDING" id); [rewrite H by done; cbn; lia|].
    destruct (has_status store "ASSIGNED" id); cbn; lia.
Qed.

(** The scan reports the rows of the submitted ids by their status. *)
Lemma divergence_scan_run `{E : Env} {S : Type} (cfg : BenchConfig) (store : string -> option item) fuel evs (s : S) h :
  serves E (tasks_table cfg) store -> keyed store ->
  (100 < fuel)%nat -> forallb plain_fields evs = true -> forallb string_ids evs = true ->
  let ids := first_occurrences (omap submit_id evs) in
  exists r l, divergence_scan fuel cfg (file_of evs) s h = (Ok r, s, h ++ l) /\
    stuck_pending_sample r ≡ₚ List.filter (has_status store "PENDING") ids /\
    stuck_assigned_sample r ≡ₚ List.filter (has_status store "ASSIGNED") ids /\
    missing_sample r = List.filter (fun id => bool_decide (store id = None)) ids /\
    dv_total_scanned r = Z.of_nat (length ids) /\ stuck_pending r = Z.of_nat (length (stuck_pending_sample r)) /\
    stuck_assigned r = Z.of_nat (length (stuck_assigned_sample r)) /\ missing r = Z.of_nat (length (missing_sample r)).
Proof.
  intros Hserves Hkeyed Hf Hp Hs ids. unfold divergence_scan, lift, mbind at 1, M_bind at 1.
  rewrite task_ids_of_file by done. fold ids.
  destruct (map JStr ids) as [|j js] eqn:Ej.
  { apply map_eq_nil in Ej. rewrite Ej. eexists _, []. rewrite app_nil_r. split; [done|]. done. }
  rewrite <- Ej. clear j js Ej.
  destruct (fetch_all_run (tasks_table cfg) store Hserves div_item div_step
    ltac:(intros b it id Hid; eapply div_item_step, Hkeyed, Hid) fuel (mkDiv [] [] ∅) (map JStr ids) ids s h Hf (request_keys_str ids) (first_NoDup _))
    as (items & l & Hrun & Hi).
  unfold mbind, M_bind. rewrite Hrun, request_keys_str. cbn.
  destruct (div_fold (mkDiv [] [] ∅) items) as (H1 & H2 & H3). cbn in H1, H2, H3.
  assert (Hpend := status_rows store "PENDING" items ids Hkeyed Hi). rewrite <- H1 in Hpend.
  assert (Hasgn := status_rows store "ASSIGNED" items ids Hkeyed Hi). rewrite <- H2 in Hasgn.
  assert (Hmiss : List.filter (fun tid => negb (bool_decide (tid ∈ dv_found (fold_left div_step items (mkDiv [] [] ∅))))) ids
                  = List.filter (fun id => bool_decide (store id = None)) ids).
  { apply List.filter_ext_in. intros id Hid%list_elem_of_In. destruct (store id) as [it|] eqn:Es.
    - rewrite (bool_decide_eq_false_2 (Some it = None)) by done. rewrite bool_decide_eq_true_2; [done|].
      apply H3. right. exists it. rewrite Hi. split; [apply list_elem_of_omap; by exists id|]. by rewrite (Hkeyed id it Es).
    - rewrite (bool_decide_eq_true_2 (None = None)) by done. rewrite bool_decide_eq_false_2; [done|].
      intros [Hin|(it & Hit & Heq)]%H3; [set_solver|]. rewrite Hi in Hit. apply list_elem_of_omap in Hit as (id' & _ & Hid').
      rewrite (Hkeyed id' it Hid') in Heq. cbn in Heq. congruence. }
  rewrite Hmiss. eexists _, l. split; [done|]. cbn. by rewrite length_map.
Qed.

(** C20: the divergence scan is exact.  Against a table that serves batch reads the
    scan ends and reports precisely the submitted tasks still PENDING, those still
    ASSIGNED and, in order, those without a row; the three are disjoint, so with
    the tasks in any other status they add up to the total. *)
Theorem divergence_scan_exact `{E : Env} {S} (fuel : nat) (cfg : BenchConfig) (store : string -> option item)
    (evs : list fields) (s : S) (h : history) :
  serves E (tasks_table cfg) store -> keyed store -> (100 < fuel)%nat ->
  forallb plain_fields evs = true -> forallb string_ids evs = true ->
  let ids := first_occurrences (omap submit_id evs) in
  let settled id := negb (bool_decide (store id = None)) && negb (has_status store "PENDING" id)
                    && negb (has_status store "ASSIGNED" id) in
  exists r l, divergence_scan fuel cfg (file_of evs) s h = (Ok r, s, h ++ l) /\
    stuck_pending_sample r ≡ₚ List.filter (has_status store "PENDING") ids /\
    stuck_assigned_sample r ≡ₚ List.filter (has_status store "ASSIGNED") ids /\
    missing_sample r = List.filter (fun id => bool_decide (store id = None)) ids /\
    dv_total_scanned r = Z.of_nat (length ids) /\
    dv_total_scanned r = stuck_pending r + stuck_assigned r + missing r + Z.of_nat (count settled ids).
Proof.
  intros Hserves Hkeyed Hf Hp Hs ids settled.
  destruct (divergence_scan_run cfg store fuel evs s h Hserves Hkeyed Hf Hp Hs) as (r & l & Hrun & H1 & H2 & H3 & H4 & C1 & C2 & C3).
  exists r, l. split; [done|]. split; [done|]. split; [done|]. split; [done|]. split; [done|].
  rewrite H4, C1, C2, C3, H1, H2, H3. fold ids. rewrite <- (statuses_partition store ids). unfold count. subst settled. lia.
Qed.

(** ** A table that serves one key at a time *)

Section throttled.
Context (table : string) (store : string -> option item).

Definition throttled : Env := fun _ c =>
  match c as c' return resp c' with
  | CDdbBatchGet ((_, k :: rest) :: _) =>
      if (100 <=? length rest)%nat then inl (Exn (ClientError "ValidationException") "Too many items requested for the BatchGetItem call")
      else inr ([(table, omap store [k])], match rest with [] => None | _ => Some [(table, rest)] end)
  | c' => default_answer c'
  end.

Lemma throttled_serves : serves throttled table store.
Proof using.
  intros h [|k rest] Hne Hl _; [done|]. exists [k], rest, (omap store [k]). unfold answer, throttled.
  simpl in Hl. destruct (Nat.leb_spec 100 (length rest)); [lia|]. done.
Qed.
End throttled.

Definition sample_row (id status rc : string) : item :=
  {["task_id" := AS id; "status" := AS status; "receive_count" := AN rc]}%string.

Definition sample_store (id : string) : option item :=
  if String.eqb id "t-1" then Some (sample_row "t-1" "COMPLETED" "2")
  else if String.eqb id "t-2" then Some (sample_row "t-2" "PENDING" "0") else None.

Lemma sample_store_keyed : keyed sample_store.
Proof.
  intros id it. unfold sample_store. destruct (String.eqb_spec id "t-1") as [->|_]; [by intros [= <-]|].
  destruct (String.eqb_spec id "t-2") as [->|_]; [by intros [= <-]|done].
Qed.

Definition sample_submits : list fields :=
  map (fun id => [("op", JStr "submit"); ("task_id", JStr id)])%string ["t-1"; "t-2"; "t-3"; "t-1"]%string.

Definition sample_table : string := tasks_table three_coordinators.

Lemma dup_scan_exact_witness :
  exists r l, dup_scan (H := throttled sample_table sample_store) 101 three_coordinators (file_of sample_submits) tt [] = (Ok r, tt, l) /\
    total_scanned r = 3 /\ duplicate_task_ids r ≡ₚ ["t-1"%string] /\ duplicate_count r = Z.of_nat (length (duplicate_task_ids r)) /\
    (forall id rc, id ∈ first_occurrences (omap submit_id sample_submits) ->
       receive_count sample_store id = Some rc -> rc <= max_receive_count r) /\
    (max_receive_count r = 0 \/ exists id, id ∈ first_occurrences (omap submit_id sample_submits) /\
       receive_count sample_store id = Some (max_receive_count r)).
Proof.
  apply (dup_scan_exact (E := throttled sample_table sample_store) 101 three_coordinators sample_store sample_submits tt []).
  - apply throttled_serves.
  - apply sample_store_keyed.
  - lia.
  - reflexivity.
  - reflexivity.
Defined.

Lemma divergence_scan_exact_witness :
  exists r l, divergence_scan (H := throttled sample_table sample_store) 101 three_coordinators (file_of sample_submits) tt [] = (Ok r, tt, l) /\
    stuck_pending_sample r ≡ₚ ["t-2"%string] /\ stuck_assigned_sample r ≡ₚ [] /\ missing_sample r = ["t-3"%string] /\
    dv_total_scanned r = 3 /\ dv_total_scanned r = stuck_pending r + stuck_assigned r + missing r + 1.
Proof.
  apply (divergence_scan_exact (E := throttled sample_table sample_store) 101 three_coordinators sample_store sample_submits tt []).
  - apply throttled_serves.
  - apply sample_store_keyed.
  - lia.
  - reflexivity.
  - reflexivity.
Defined.
