(* ===== verification/Stats.v ===== *)
(** * Stats: percentiles, mean and extremes of the analysers
    (the inner [pct] of chaos-bench/exp1.py, [pct] of
    experiments/metrics-collector/collect.py)

    Samples are lists of floats.  The facts are stated for lists of finite
    numbers, which is what the analysers collect. *)

From stdpp Require Import base list.
From Stdlib Require Import ZArith QArith.QArith_base QArith.Qround QArith.Qreduction QArith.Qpower QArith.Qabs Lqa.
From S2P Require Import Prelude PyFloat.

Local Open Scope Z_scope.
Local Open Scope driftless_scope.

(** [sorted(xs)]. *)
Definition sorted (xs : list float) : list float := isort fle xs.

(** [max(0, min(n - 1, int(round(p / 100 * (n - 1)))))]. *)
Definition nearest_rank (n p : Z) : Z :=
  Z.max 0 (Z.min (n - 1) (default 0 (fround (fmul (Zdivf p 100) (of_Z (n - 1)))))).

(** [pct] of exp1.py. *)
Definition pct_nearest (xs : list float) (p : Z) : float :=
  match xs with
  | [] => Fin 0
  | _ => default (Fin 0) (sorted xs !! Z.to_nat (nearest_rank (Z.of_nat (length xs)) p))
  end.

(** [min(int(n * p / 100.0), n - 1)]. *)
Definition floor_rank (n p : Z) : Z :=
  Z.min (default 0 (ftrunc (default NaN (fdiv (of_Z (n * p)) (Fin 100))))) (n - 1).

(** [pct] of collect.py; the data is sorted by the caller. *)
Definition pct_floor (data : list float) (p : Z) : float :=
  match data with
  | [] => Fin 0
  | _ => default (Fin 0) (data !! Z.to_nat (floor_rank (Z.of_nat (length data)) p))
  end.

(** [max(xs)] and [min(xs)] of a non-empty list. *)
Definition max_of (xs : list float) : option float :=
  match xs with [] => None | x :: xs' => Some (fold_left fmax xs' x) end.

Definition fmin (x y : float) : float := if flt y x then y else x.
Definition min_of (xs : list float) : option float :=
  match xs with [] => None | x :: xs' => Some (fold_left fmin xs' x) end.

(** [statistics.mean(xs)] of finite numbers: the exact mean, rounded once. *)
Definition exact (x : float) : Q := match x with Fin q => q | _ => 0%Q end.
Definition sumQ (qs : list Q) : Q := fold_right Qplus 0%Q qs.
Definition mean (xs : list float) : float :=
  rnd (sumQ (map exact xs) / inject_Z (Z.of_nat (length xs))).

(** ** Sorting finite numbers *)

Lemma isort_map {A B} (f : A -> B) (lea : A -> A -> bool) (leb : B -> B -> bool) (l : list A) :
  (forall x y, leb (f x) (f y) = lea x y) -> isort leb (map f l) = map f (isort lea l).
Proof.
  intros H. induction l as [|x l IH]; [done|]. simpl. rewrite IH. clear IH.
  induction (isort lea l) as [|y k IHk]; [done|]. simpl. rewrite H. destruct (lea x y); simpl; [done|]. by rewrite IHk.
Qed.

Lemma Qle_bool_total x y : Qle_bool x y = true \/ Qle_bool y x = true.
Proof. rewrite !Qle_bool_iff. destruct (Qlt_le_dec x y); [left; by apply Qlt_le_weak|by right]. Qed.

Lemma sorted_map (qs : list Q) : sorted (map Fin qs) = map Fin (isort Qle_bool qs).
Proof. by apply isort_map. Qed.

Lemma sorted_perm (xs : list float) : sorted xs ≡ₚ xs.
Proof. apply isort_perm. Qed.

(** Elements of a sorted list grow with their index. *)
Lemma sorted_lookup (qs : list Q) (i j : nat) a b :
  (i <= j)%nat -> isort Qle_bool qs !! i = Some a -> isort Qle_bool qs !! j = Some b -> (a <= b)%Q.
Proof.
  intros Hij Ha Hb. assert (Hs : StronglySorted Qle (isort Qle_bool qs)).
  { apply Sorted_StronglySorted; [intros x y z; apply Qle_trans|].
    eapply Sorted_weaken, isort_sorted, Qle_bool_total. intros x y. apply Qle_bool_iff. }
  revert i j Hij Ha Hb. induction Hs as [|x l Hs IH Hx]; intros [|i] [|j] Hij Ha Hb; simpl in *; try done; simplify_eq.
  - apply Qle_refl.
  - rewrite Forall_forall in Hx. apply Hx. by eapply list_elem_of_lookup_2.
  - lia.
  - eapply IH; [|done..]. lia.
Qed.

(** ** Ranks *)

Lemma rnd_between (q : Q) (a b : Z) :
  Z.abs a < 2 ^ 53 -> Z.abs b < 2 ^ 53 -> (inject_Z a <= q)%Q -> (q <= inject_Z b)%Q ->
  exists v, rnd q = Fin v /\ (inject_Z a <= v)%Q /\ (v <= inject_Z b)%Q.
Proof.
  intros Ha Hb H1 H2. pose proof (rnd_mono _ _ H1) as E1. pose proof (rnd_mono _ _ H2) as E2.
  rewrite rnd_Z in E1, E2 by done. destruct (rnd q) as [|[]|v]; try done.
  exists v. by rewrite <- !Qle_bool_iff.
Qed.

Lemma nearest_rank_bounds n p : 0 < n -> 0 <= nearest_rank n p < n.
Proof. unfold nearest_rank. lia. Qed.

(** The sizes for which integers are exact. *)
Definition small (n : Z) : Prop := 0 < n < 2 ^ 52.

Lemma nearest_rank_mono n p q : small n -> 0 <= p <= q -> q <= 100 -> nearest_rank n p <= nearest_rank n q.
Proof.
  intros [Hn Hb] [Hp Hpq] Hq. unfold nearest_rank, Zdivf, of_Z. rewrite (rnd_Z (n - 1)) by lia.
  assert (Hle : (p # 100 <= q # 100)%Q) by (unfold Qle; simpl; lia).
  destruct (rnd_between (p # 100) 0 1) as (v & Ev & Hv0 & Hv1); [lia|lia|unfold Qle; simpl; lia|unfold Qle; simpl; lia|].
  destruct (rnd_between (q # 100) 0 1) as (w & Ew & Hw0 & Hw1); [lia|lia|unfold Qle; simpl; lia|unfold Qle; simpl; lia|].
  pose proof (rnd_mono _ _ Hle) as Hvw. rewrite Ev, Ew in *. cbn [fmul]. simpl in Hvw. apply Qle_bool_iff in Hvw.
  assert (Hm : (0 <= inject_Z (n - 1))%Q) by (change 0%Q with (inject_Z 0); rewrite <- Zle_Qle; lia).
  change (inject_Z 0) with 0%Q in *. change (inject_Z 1) with 1%Q in *.
  assert (Hvm : (v * inject_Z (n - 1) <= w * inject_Z (n - 1))%Q) by (apply Qmult_le_compat_r; done).
  destruct (rnd_between (v * inject_Z (n - 1)) 0 (n - 1)) as (x & Ex & _); [lia|lia|change (inject_Z 0) with 0%Q; nra|nra|].
  destruct (rnd_between (w * inject_Z (n - 1)) 0 (n - 1)) as (y & Ey & _); [lia|lia|change (inject_Z 0) with 0%Q; nra|nra|].
  pose proof (rnd_mono _ _ Hvm) as Hxy. rewrite Ex, Ey in *. simpl in *. apply Qle_bool_iff in Hxy.
  apply rheQ_mono in Hxy. lia.
Qed.

(** ** Percentiles of finite samples *)

Lemma pct_nearest_at (qs : list Q) (p : Z) :
  qs <> [] -> exists a, pct_nearest (map Fin qs) p = Fin a /\ a ∈ qs /\
    isort Qle_bool qs !! Z.to_nat (nearest_rank (Z.of_nat (length qs)) p) = Some a.
Proof.
  intros Hne. unfold pct_nearest. rewrite sorted_map, length_map.
  destruct (nearest_rank_bounds (Z.of_nat (length qs)) p) as [H0 H1]; [destruct qs; simpl; [done|lia]|].
  destruct (lookup_lt_is_Some_2 (isort Qle_bool qs) (Z.to_nat (nearest_rank (Z.of_nat (length qs)) p))) as [a Ha];
    [rewrite isort_length; lia|].
  exists a. rewrite list_lookup_fmap, Ha. destruct qs; [done|]. split; [done|]. split; [|done].
  rewrite <- (isort_perm Qle_bool). by eapply list_elem_of_lookup_2.
Qed.

Lemma pct_nearest_mono (qs : list Q) (p q : Z) :
  small (Z.of_nat (length qs)) -> 0 <= p <= q -> q <= 100 ->
  fle (pct_nearest (map Fin qs) p) (pct_nearest (map Fin qs) q) = true.
Proof.
  intros Hs Hp Hq. assert (Hne : qs <> []) by (intros ->; unfold small in Hs; simpl in Hs; lia).
  destruct (pct_nearest_at qs p Hne) as (a & -> & _ & Ha). destruct (pct_nearest_at qs q Hne) as (b & -> & _ & Hb).
  simpl. apply Qle_bool_iff. eapply sorted_lookup; [|done..].
  pose proof (nearest_rank_mono _ _ _ Hs Hp Hq). lia.
Qed.

(** ** Extremes *)

Lemma fold_fmax (qs : list Q) (m : Q) :
  exists r, fold_left fmax (map Fin qs) (Fin m) = Fin r /\ (m <= r)%Q /\ (forall x, x ∈ qs -> (x <= r)%Q) /\ (r = m \/ r ∈ qs).
Proof.
  revert m. induction qs as [|q qs IH]; intros m; simpl.
  - exists m. split; [done|]. split; [apply Qle_refl|]. split; [intros x Hx; inv Hx|by left].
  - unfold fmax at 2. simpl. destruct (Qle_bool q m) eqn:E; simpl.
    + destruct (IH m) as (r & Hr & H1 & H2 & H3). exists r. split; [done|]. split; [done|]. split; [|set_solver].
      apply Qle_bool_iff in E. intros x [->|Hx]%elem_of_cons; [by eapply Qle_trans|auto].
    + destruct (IH q) as (r & Hr & H1 & H2 & H3). exists r. split; [done|].
      assert ((m <= q)%Q) by (destruct (Qle_bool_total q m) as [?|?%Qle_bool_iff]; [congruence|done]).
      split; [by eapply Qle_trans|]. split; [|set_solver]. intros x [->|Hx]%elem_of_cons; auto.
Qed.

Lemma max_of_spec (qs : list Q) :
  qs <> [] -> exists r, max_of (map Fin qs) = Some (Fin r) /\ r ∈ qs /\ forall x, x ∈ qs -> (x <= r)%Q.
Proof.
  destruct qs as [|q qs]; [done|]. intros _. destruct (fold_fmax qs q) as (r & Hr & H1 & H2 & H3). exists r.
  simpl. rewrite Hr. split; [done|]. split; [set_solver|]. intros x [->|Hx]%elem_of_cons; auto.
Qed.

(** A percentile is a sample and at most the maximum. *)
Lemma pct_le_max (qs : list Q) (p : Z) :
  qs <> [] -> fle (pct_nearest (map Fin qs) p) (default (Fin 0) (max_of (map Fin qs))) = true.
Proof.
  intros Hne. destruct (pct_nearest_at qs p Hne) as (a & -> & Ha & _).
  destruct (max_of_spec qs Hne) as (r & -> & _ & Hr). simpl. apply Qle_bool_iff, Hr, Ha.
Qed.

(** ** The mean *)

Lemma sumQ_bounds (qs : list Q) (a b : Q) :
  (forall x, x ∈ qs -> (a <= x)%Q /\ (x <= b)%Q) ->
  (a * inject_Z (Z.of_nat (length qs)) <= sumQ qs)%Q /\ (sumQ qs <= b * inject_Z (Z.of_nat (length qs)))%Q.
Proof.
  induction qs as [|q qs IH]; intros H.
  - cbn [length sumQ fold_right]. change (inject_Z (Z.of_nat 0)) with 0%Q. split; lra.
  - destruct IH as [H1 H2]; [intros x Hx; apply H; by right|]. destruct (H q ltac:(left)) as [H3 H4].
    cbn [length sumQ fold_right]. fold (sumQ qs). rewrite Nat2Z.inj_succ. unfold Z.succ. rewrite inject_Z_plus.
    change (inject_Z 1) with 1%Q. revert H1 H2. generalize (inject_Z (Z.of_nat (length qs))) (sumQ qs). intros k s H1 H2.
    split; lra.
Qed.

(** The mean of floats is between two floats that bound them. *)
Lemma mean_between (qs : list Q) (a b : Q) :
  qs <> [] -> rnd a = Fin a -> rnd b = Fin b -> (forall x, x ∈ qs -> (a <= x)%Q /\ (x <= b)%Q) ->
  fle (Fin a) (mean (map Fin qs)) = true /\ fle (mean (map Fin qs)) (Fin b) = true.
Proof.
  intros Hne Ea Eb H. unfold mean. rewrite map_map, map_id, length_map by done.
  destruct (sumQ_bounds qs a b H) as [H1 H2].
  assert (Hn : (0 < inject_Z (Z.of_nat (length qs)))%Q).
  { change 0%Q with (inject_Z 0). rewrite <- Zlt_Qlt. destruct qs; simpl; [done|lia]. }
  rewrite <- Ea at 1. rewrite <- Eb. split; apply rnd_mono; [by apply Qle_shift_div_l|by apply Qle_shift_div_r].
Qed.

(** ** Percentiles of sorted data *)

(** Sizes for which the products are exact. *)
Definition countable_size (n : Z) : Prop := 0 < n < 2 ^ 46.

Lemma floor_rank_at n p : countable_size n -> 0 <= p <= 100 ->
  exists v, rnd (inject_Z (n * p) / inject_Z 100) = Fin v /\ (0 <= v)%Q /\ floor_rank n p = Z.min (Qfloor v) (n - 1).
Proof.
  intros [H0 H1] Hp. destruct (rnd_between (inject_Z (n * p) / inject_Z 100) 0 n) as (v & Ev & Hv0 & _); [lia|lia| | |].
  - apply Qle_shift_div_l; [done|]. rewrite <- inject_Z_mult, <- Zle_Qle. lia.
  - apply Qle_shift_div_r; [done|]. rewrite <- inject_Z_mult, <- Zle_Qle. nia.
  - exists v. split; [done|]. split; [done|]. unfold floor_rank, of_Z. rewrite rnd_Z by nia.
    change (fdiv (Fin (inject_Z (n * p))) (Fin 100)) with (Some (rnd (inject_Z (n * p) / inject_Z 100))).
    rewrite Ev. cbn [default ftrunc from_option id]. f_equal. unfold Qle in Hv0. simpl in Hv0.
    rewrite Z.quot_div_nonneg by lia. by destruct v.
Qed.

Lemma floor_rank_mono n p q : countable_size n -> 0 <= p <= q -> q <= 100 ->
  0 <= floor_rank n p <= floor_rank n q /\ floor_rank n q < n.
Proof.
  intros Hn Hp Hq. destruct (floor_rank_at n p Hn) as (v & Ev & Hv & ->); [lia|].
  destruct (floor_rank_at n q Hn) as (w & Ew & Hw & ->); [lia|]. destruct Hn as [Hn _].
  assert (Hle : (inject_Z (n * p) / inject_Z 100 <= inject_Z (n * q) / inject_Z 100)%Q).
  { apply Qmult_le_compat_r; [|done]. rewrite <- Zle_Qle. nia. }
  pose proof (rnd_mono _ _ Hle) as H. rewrite Ev, Ew in H. simpl in H. apply Qle_bool_iff in H.
  apply Qfloor_resp_le in H. apply Qfloor_resp_le in Hv. change (Qfloor 0) with 0 in Hv. lia.
Qed.

Lemma pct_floor_at (qs : list Q) (p : Z) :
  countable_size (Z.of_nat (length qs)) -> 0 <= p <= 100 ->
  exists a, pct_floor (sorted (map Fin qs)) p = Fin a /\ a ∈ qs /\
    isort Qle_bool qs !! Z.to_nat (floor_rank (Z.of_nat (length qs)) p) = Some a.
Proof.
  intros Hn Hp. destruct (floor_rank_mono _ p p Hn) as [H1 H2]; [lia|lia|].
  rewrite sorted_map. unfold pct_floor. rewrite length_map, isort_length.
  destruct (lookup_lt_is_Some_2 (isort Qle_bool qs) (Z.to_nat (floor_rank (Z.of_nat (length qs)) p))) as [a Ha];
    [rewrite isort_length; lia|].
  exists a. rewrite list_lookup_fmap, Ha. split; [|split; [|done]].
  - destruct (isort Qle_bool qs) eqn:E; [|done]. by rewrite lookup_nil in Ha.
  - rewrite <- (isort_perm Qle_bool). by eapply list_elem_of_lookup_2.
Qed.

Lemma pct_floor_mono (qs : list Q) (p q : Z) :
  countable_size (Z.of_nat (length qs)) -> 0 <= p <= q -> q <= 100 ->
  fle (pct_floor (sorted (map Fin qs)) p) (pct_floor (sorted (map Fin qs)) q) = true.
Proof.
  intros Hn Hp Hq. destruct (pct_floor_at qs p Hn) as (a & -> & _ & Ha); [lia|].
  destruct (pct_floor_at qs q Hn) as (b & -> & _ & Hb); [lia|].
  simpl. apply Qle_bool_iff. eapply sorted_lookup; [|done..].
  destruct (floor_rank_mono _ p q Hn Hp Hq). lia.
Qed.

Lemma fold_fmin (qs : list Q) (m : Q) :
  exists r, fold_left fmin (map Fin qs) (Fin m) = Fin r /\ (r <= m)%Q /\ (forall x, x ∈ qs -> (r <= x)%Q) /\ (r = m \/ r ∈ qs).
Proof.
  revert m. induction qs as [|q qs IH]; intros m; simpl.
  - exists m. split; [done|]. split; [apply Qle_refl|]. split; [intros x Hx; inv Hx|by left].
  - unfold fmin at 2. simpl. destruct (Qle_bool m q) eqn:E; simpl.
    + destruct (IH m) as (r & Hr & H1 & H2 & H3). exists r. split; [done|]. split; [done|]. split; [|set_solver].
      apply Qle_bool_iff in E. intros x [->|Hx]%elem_of_cons; [by eapply Qle_trans|auto].
    + destruct (IH q) as (r & Hr & H1 & H2 & H3). exists r. split; [done|].
      assert ((q <= m)%Q) by (destruct (Qle_bool_total m q) as [?|?%Qle_bool_iff]; [congruence|done]).
      split; [by eapply Qle_trans|]. split; [|set_solver]. intros x [->|Hx]%elem_of_cons; auto.
Qed.

Lemma min_of_spec (qs : list Q) :
  qs <> [] -> exists r, min_of (map Fin qs) = Some (Fin r) /\ r ∈ qs /\ forall x, x ∈ qs -> (r <= x)%Q.
Proof.
  destruct qs as [|q qs]; [done|]. intros _. destruct (fold_fmin qs q) as (r & Hr & H1 & H2 & H3). exists r.
  simpl. rewrite Hr. split; [done|]. split; [set_solver|]. intros x [->|Hx]%elem_of_cons; auto.
Qed.

(** A percentile lies between the extremes. *)
Lemma pct_floor_extremes (qs : list Q) (p : Z) :
  countable_size (Z.of_nat (length qs)) -> 0 <= p <= 100 ->
  fle (default (Fin 0) (min_of (sorted (map Fin qs)))) (pct_floor (sorted (map Fin qs)) p) = true /\
  fle (pct_floor (sorted (map Fin qs)) p) (default (Fin 0) (max_of (sorted (map Fin qs)))) = true.
Proof.
  intros Hn Hp. destruct (pct_floor_at qs p Hn Hp) as (a & -> & Ha & _). rewrite sorted_map.
  assert (Hin : a ∈ isort Qle_bool qs) by by rewrite isort_perm.
  assert (Hne : isort Qle_bool qs <> []) by (intros E; rewrite E in Hin; inv Hin).
  destruct (max_of_spec _ Hne) as (r & -> & _ & Hr), (min_of_spec _ Hne) as (m & -> & _ & Hm).
  simpl. rewrite !Qle_bool_iff. auto.
Qed.

(** ** Ranks [int(n * p)] *)

Definition exact_at (q v : Q) : Prop := rnd q = Fin v /\ (v == q)%Q.

(** [z * 2^-k] is a float for a [z] of at most 53 bits. *)
Lemma rnd_dyadic (k z : Z) : 0 <= k <= 1000 -> 0 <= z < 2 ^ 53 -> exists v, exact_at (inject_Z z * pow2 (- k)) v.
Proof.
  intros Hk Hz. set (q := (inject_Z z * pow2 (- k))%Q).
  assert (P : (0 < pow2 (- k))%Q) by apply pow2_pos.
  destruct (Z.eq_dec z 0) as [->|Hnz].
  { exists 0%Q. assert (E : (q == 0)%Q) by (unfold q; change (inject_Z 0) with 0%Q; lra).
    split; [|by rewrite E]. unfold rnd. by rewrite rv_0. }
  assert (Hq : (0 < q)%Q) by (apply Qmult_lt_0_compat; [unfold Qlt; simpl; lia|done]).
  assert (Hn : Qnum q <> 0) by (apply Qnum_pos in Hq; lia). destruct (expo_spec q Hn) as [L _].
  assert (Hz53 : (inject_Z z < pow2 53)%Q) by (rewrite <- pow2_inject, <- Zlt_Qlt by lia; lia).
  assert (Hq53 : (q < pow2 (53 - k))%Q).
  { unfold Z.sub. rewrite pow2_add. by apply Qmult_lt_compat_r. }
  assert (He : expo q <= 52 - k).
  { assert (C : (pow2 (expo q) < pow2 (53 - k))%Q) by (eapply Qle_lt_trans; [exact L|]; rewrite Qabs_pos by lra; done).
    apply (Qpower_lt_compat_l_inv (2 # 1)) in C; [lia|reflexivity]. }
  assert (Hu : ulp_exp q <= - k) by (unfold ulp_exp; lia).
  assert (E : (q == inject_Z (z * 2 ^ (- k - ulp_exp q)) * pow2 (ulp_exp q))%Q).
  { rewrite inject_Z_mult, pow2_inject, <- Qmult_assoc, <- pow2_add by lia.
    by replace (- k - ulp_exp q + ulp_exp q) with (- k) by lia. }
  assert (V : (rv q == q)%Q).
  { rewrite rv_eq by done. etransitivity; [|symmetry; exact E]. rewrite <- grid_fix. by apply grid_proper. }
  assert (Hh : (pow2 53 <= huge)%Q) by (apply Qle_bool_iff; reflexivity).
  assert (H53 : (pow2 (53 - k) <= pow2 53)%Q) by (apply pow2_le; lia).
  exists (rv q). split; [|exact V]. unfold rnd.
  destruct (Qle_bool huge (rv q)) eqn:E1; [apply Qle_bool_iff in E1; lra|].
  destruct (Qle_bool (rv q) (- huge)) eqn:E2; [apply Qle_bool_iff in E2; lra|]. done.
Qed.

Lemma exact_at_le q v p w : exact_at q v -> rnd p = Fin w -> (p <= q)%Q -> (w <= q)%Q.
Proof. intros [E V] Ew H. apply rnd_mono in H. rewrite E, Ew in H. apply Qle_bool_iff in H. lra. Qed.
Lemma exact_at_ge q v p w : exact_at q v -> rnd p = Fin w -> (q <= p)%Q -> (q <= w)%Q.
Proof. intros [E V] Ew H. apply rnd_mono in H. rewrite E, Ew in H. apply Qle_bool_iff in H. lra. Qed.

(** Where [2^-k] separates floats, rounding moves a number by less than that. *)
Lemma rnd_near (k : Z) (q : Q) :
  0 <= k <= 1000 -> (0 <= q)%Q -> (q * pow2 k <= inject_Z (2 ^ 53 - 2))%Q ->
  exists v, rnd q = Fin v /\ (0 <= v)%Q /\ (q - pow2 (- k) <= v)%Q /\ (v <= q + pow2 (- k))%Q.
Proof.
  intros Hk Hq Hb. pose proof (pow2_pos k) as Pk. pose proof (pow2_pos (- k)) as Pk'. pose proof (pow2_opp k) as Ho.
  set (z := Qfloor (q * pow2 k)).
  assert (Hz0 : 0 <= z).
  { change 0 with (Qfloor 0). apply Qfloor_resp_le, Qmult_le_0_compat; [done|by apply Qlt_le_weak]. }
  assert (Hz1 : z <= 2 ^ 53 - 2).
  { rewrite <- (Qfloor_Z (2 ^ 53 - 2)). by apply Qfloor_resp_le. }
  pose proof (Qfloor_le (q * pow2 k)) as F1. pose proof (Qlt_floor (q * pow2 k)) as F2. fold z in F1, F2.
  assert (Eq : (q == q * pow2 k * pow2 (- k))%Q) by (rewrite <- Qmult_assoc, (Qmult_comm (pow2 k)), Ho; ring).
  assert (L : (inject_Z z * pow2 (- k) <= q)%Q) by (rewrite Eq at 1; apply Qmult_le_compat_r; [done|by apply Qlt_le_weak]).
  assert (U : (q <= inject_Z (z + 1) * pow2 (- k))%Q).
  { rewrite Eq at 1; apply Qmult_le_compat_r; by apply Qlt_le_weak. }
  destruct (rnd_dyadic k z) as (lo & Elo); [done|lia|]. destruct (rnd_dyadic k (z + 1)) as (hi & Ehi); [done|lia|].
  pose proof (rnd_mono _ _ L) as R1. pose proof (rnd_mono _ _ U) as R2. rewrite (proj1 Elo) in R1. rewrite (proj1 Ehi) in R2.
  destruct (rnd q) as [|[]|v] eqn:Ev; try done. exists v. split; [done|].
  pose proof (exact_at_ge _ _ _ _ Elo Ev L) as V1. pose proof (exact_at_le _ _ _ _ Ehi Ev U) as V2.
  assert (Hlo : (0 <= inject_Z z * pow2 (- k))%Q).
  { apply Qmult_le_0_compat; [|by apply Qlt_le_weak]. change 0%Q with (inject_Z 0). by rewrite <- Zle_Qle. }
  rewrite inject_Z_plus in *. change (inject_Z 1) with 1%Q in *. lra.
Qed.

(** Multiples of 1/128 below [2^46] are floats. *)
Lemma rnd_128 (z : Z) : 0 < z < 2 ^ 53 -> exists v, exact_at (z # 128) v.
Proof.
  intros Hz. destruct (rnd_dyadic 7 z) as (v & Ev & Vv); [lia|lia|].
  assert (E : (z # 128 == inject_Z z * pow2 (- (7)))%Q) by (unfold Qeq; simpl; lia).
  pose proof (rnd_comp_le _ _ E) as H1. symmetry in E. pose proof (rnd_comp_le _ _ E) as H2.
  rewrite Ev in H1, H2. destruct (rnd (z # 128)) as [|[]|w] eqn:Ew; try done. exists w. split; [done|].
  apply Qle_bool_iff in H1, H2. lra.
Qed.

(** Rounding to an integer moves by at most a half. *)
Lemma rheQ_half (q : Q) : (inject_Z (rheQ q) - (1 # 2) <= q)%Q /\ (q <= inject_Z (rheQ q) + (1 # 2))%Q.
Proof.
  destruct (rhe_spec (Qnum q) (Qden q)) as [[H1 H2] _]. fold (rheQ q) in *. destruct q as [n d]. revert H1 H2.
  generalize (rheQ (n # d)). intros r. unfold Qle, Qminus, Qplus, Qopp, inject_Z; simpl. lia.
Qed.

(** The rank of [pct] is exact: the nearest integer to [p / 100 * (n - 1)], in
    spite of the two roundings on the way. *)
Lemma nearest_rank_exact (n p : Z) :
  0 < n < 2 ^ 40 -> 0 <= p <= 100 -> Z.abs (100 * nearest_rank n p - p * (n - 1)) <= 50.
Proof.
  intros Hn Hp. unfold nearest_rank, Zdivf, of_Z. rewrite (rnd_Z (n - 1)) by lia.
  assert (Hx : (0 <= p # 100)%Q /\ (p # 100 <= 1)%Q) by (unfold Qle; simpl; lia).
  destruct (rnd_near 50 (p # 100)) as (v & -> & V0 & V1 & V2); [lia|tauto|unfold Qle; simpl; lia|].
  change (pow2 (- (50))) with (1 # 1125899906842624) in *. cbn [fmul].
  assert (Hm : (0 <= inject_Z (n - 1))%Q /\ (inject_Z (n - 1) <= inject_Z (2 ^ 40))%Q)
    by (change 0%Q with (inject_Z 0); rewrite <- !Zle_Qle; lia).
  change (inject_Z (2 ^ 40)) with 1099511627776%Q in Hm.
  assert (Ep : ((p # 100) * inject_Z (n - 1) == (p * (n - 1)) # 100)%Q) by (unfold Qeq; simpl; lia).
  set (m := inject_Z (n - 1)) in *. set (x := ((p * (n - 1)) # 100)%Q) in *.
  assert (B1 : (x - (1 # 1024) <= v * m)%Q) by nra. assert (B2 : (v * m <= x + (1 # 1024))%Q) by nra.
  assert (B3 : (x <= m)%Q) by nra.
  destruct (rnd_near 12 (v * m)) as (w & -> & W0 & W1 & W2); [lia|nra| |].
  { change (pow2 12) with 4096%Q. change (inject_Z (2 ^ 53 - 2)) with 9007199254740990%Q. lra. }
  change (pow2 (- (12))) with (1 # 4096) in *. cbn [fround default from_option id].
  destruct (rheQ_half w) as [R1 R2]. set (r := rheQ w) in *.
  assert (Hd1 : (inject_Z (100 * r - p * (n - 1)) < inject_Z 51)%Q).
  { unfold Z.sub. rewrite inject_Z_plus, inject_Z_mult, inject_Z_opp.
    assert (Ex : (x == inject_Z (p * (n - 1)) * (1 # 100))%Q) by (unfold x, Qeq; simpl; lia).
    change (inject_Z 100) with 100%Q. change (inject_Z 51) with 51%Q.
    change (n + - (1)) with (n - 1). lra. }
  assert (Hd2 : (inject_Z (-51) < inject_Z (100 * r - p * (n - 1)))%Q).
  { unfold Z.sub. rewrite inject_Z_plus, inject_Z_mult, inject_Z_opp.
    assert (Ex : (x == inject_Z (p * (n - 1)) * (1 # 100))%Q) by (unfold x, Qeq; simpl; lia).
    change (inject_Z 100) with 100%Q. change (inject_Z (-51)) with (-51)%Q.
    change (n + - (1)) with (n - 1). lra. }
  rewrite <- Zlt_Qlt in Hd1, Hd2. nia.
Qed.

(** The rank of a fraction at most 0.9902: within the list, and growing with the fraction. *)
Lemma rank_at (n : Z) (c : Q) : countable_size n -> (0 <= c)%Q -> (c <= 9902 # 10000)%Q ->
  exists v, fmul (of_Z n) (Fin c) = Fin v /\ (0 <= v)%Q /\ (v < inject_Z n)%Q.
Proof.
  intros [H0 H1] Hc0 Hc1. unfold of_Z. rewrite rnd_Z by lia. cbn [fmul].
  destruct (rnd_128 (128 * n - 1)) as (w & Ew & Vw); [lia|].
  assert (Hn : (inject_Z 1 <= inject_Z n)%Q) by (rewrite <- Zle_Qle; lia). change (inject_Z 1) with 1%Q in Hn.
  assert (Hw : ((128 * n - 1) # 128 == inject_Z n - (1 # 128))%Q) by (unfold Qeq; simpl; lia).
  assert (Hx : (inject_Z n * c <= (128 * n - 1) # 128)%Q) 
    by (rewrite Hw; apply (Qmult_le_compat_r _ _ (inject_Z n)) in Hc1; lra).
  assert (Hx0 : (0 <= inject_Z n * c)%Q) by nra.
  pose proof (rnd_mono _ _ Hx) as R1. pose proof (rnd_mono _ _ Hx0) as R0. rewrite Ew in R1. change (rnd 0) with (Fin 0) in R0.
  destruct (rnd (inject_Z n * c)) as [|[]|v]; try done. exists v. apply Qle_bool_iff in R0, R1. split; [done|]. split; [done|].
  rewrite Vw, Hw in R1. lra.
Qed.
