(* ===== verification/Exp1Analysis.v ===== *)
(** * Exp1Analysis: the metrics of a leader-kill run (chaos-bench/exp1.py, [analyze])

    One pass over the history collects the submitted, completed and timed-out
    tasks, the kills and the leader sightings; the metrics follow from them. *)

From stdpp Require Import base gmap list strings.
From Stdlib Require Import ZArith QArith.QArith_base Lqa.
From S2P Require Import Prelude PyFloat PyStr PyDict Json Runtime History Stats.

Local Open Scope Z_scope.
Local Open Scope driftless_scope.

(** The local variables of the loop.  The keys of the dictionaries are parsed
    values, see [hash_key]. *)
Record collected : Type := mkCollected {
  submits : gmap string json;
  completes : gmap string json;
  timeouts : gset string;
  kills : list Z;
  leader_events : list (Z * json);
}.

Definition task_key (ev : fields) : res string := tid ← item_of ev "task_id"; hash_key tid.

(** The body of the loop over the events. *)
Definition collect (c : collected) (ev : fields) : res collected :=
  if op_is ev "submit" then
    k ← task_key ev;
    mret (mkCollected (<[k := field_or ev "submitted_ns" (JInt 0)]> (submits c)) (completes c) (timeouts c) (kills c) (leader_events c))
  else if op_is ev "complete" then
    k ← task_key ev;
    mret (mkCollected (submits c) (<[k := field_or ev "completed_ns" (JInt 0)]> (completes c)) (timeouts c) (kills c) (leader_events c))
  else if op_is ev "timeout" then
    k ← task_key ev;
    mret (mkCollected (submits c) (completes c) ({[ k ]} ∪ timeouts c) (kills c) (leader_events c))
  else if op_is ev "chaos.kill_leader" then
    ns ← int_of_json (field_or ev "killed_ns" (field_or ev "wall_ns" (JInt 0)));
    mret (mkCollected (submits c) (completes c) (timeouts c) (kills c ++ [ns]) (leader_events c))
  else if op_is ev "leader_observed" then
    ns ← int_of_json (field_or ev "wall_ns" (JInt 0));
    node ← item_of ev "node_id";
    mret (mkCollected (submits c) (completes c) (timeouts c) (kills c) (leader_events c ++ [(ns, node)]))
  else mret c.

(** [d / 1_000_000] of two ints. *)
Definition ns_to_ms (d : Z) : res float :=
  match Zdivf d 1000000 with
  | Fin q => Ok (Fin q)
  | _ => Raise (Exn OverflowError "integer division result too large for a float")
  end.

(** The inner loop: the first sighting after a kill. *)
Fixpoint first_after (k : Z) (seen : list (Z * json)) : option Z :=
  match seen with
  | [] => None
  | (ts, _) :: seen' => if k <? ts then Some ts else first_after k seen'
  end.

Definition convergence_step (seen : list (Z * json)) (acc : list float) (k : Z) : res (list float) :=
  match first_after k seen with
  | Some ts => ms ← ns_to_ms (ts - k); mret (acc ++ [ms])
  | None => mret acc
  end.

Record Exp1Stats : Type := mkExp1Stats {
  kill_count : Z;
  convergence_samples : Z;
  convergence_p50_ms : float;
  convergence_p95_ms : float;
  convergence_mean_ms : float;
  convergence_max_ms : float;
  submitted : Z;
  completed : Z;
  timed_out : Z;
  lost : Z;
  leader_change_count : Z;
}.

(** What follows the loops. *)
Definition metrics (c : collected) (convergence_ms : list float) : Exp1Stats :=
  let submitted := Z.of_nat (base.size (submits c)) in
  let completed := Z.of_nat (base.size (completes c)) in
  let timed_out := Z.of_nat (base.size (timeouts c)) in
  {| kill_count := Z.of_nat (length (kills c));
     convergence_samples := Z.of_nat (length convergence_ms);
     convergence_p50_ms := pct_nearest convergence_ms 50;
     convergence_p95_ms := pct_nearest convergence_ms 95;
     convergence_mean_ms := match convergence_ms with [] => Fin 0 | _ => mean convergence_ms end;
     convergence_max_ms := default (Fin 0) (max_of convergence_ms);
     submitted := submitted; completed := completed; timed_out := timed_out;
     lost := Z.max 0 (submitted - completed - timed_out);
     leader_change_count := Z.of_nat (length (leader_events c)) |}.

Definition analyze (text : string) : res Exp1Stats :=
  c ← fold_history text collect (mkCollected ∅ ∅ ∅ [] []);
  convergence_ms ← fold_res (convergence_step (leader_events c)) [] (kills c);
  mret (metrics c convergence_ms).

Definition stats_fields (st : Exp1Stats) : fields :=
  [("kill_count", JInt (kill_count st)); ("convergence_samples", JInt (convergence_samples st));
   ("convergence_p50_ms", JFloat (convergence_p50_ms st)); ("convergence_p95_ms", JFloat (convergence_p95_ms st));
   ("convergence_mean_ms", JFloat (convergence_mean_ms st)); ("convergence_max_ms", JFloat (convergence_max_ms st));
   ("submitted", JInt (submitted st)); ("completed", JInt (completed st)); ("timed_out", JInt (timed_out st));
   ("lost", JInt (lost st)); ("leader_change_count", JInt (leader_change_count st))]%string.

(** ** What a history says *)

(** The ids of the events of one kind. *)
Definition id_in (op : string) (ev : fields) : option string :=
  if op_is ev op then match field ev "task_id" with JStr s => Some s | _ => None end else None.
Definition ids_of (op : string) (evs : list fields) : gset string := list_to_set (omap (id_in op) evs).

Definition int_in (op k : string) (ev : fields) : option Z :=
  if op_is ev op then match field ev k with JInt z => Some z | _ => None end else None.
Definition kills_of (evs : list fields) : list Z := omap (int_in "chaos.kill_leader" "killed_ns") evs.
Definition sightings_of (evs : list fields) : list Z := omap (int_in "leader_observed" "wall_ns") evs.

(** The nanoseconds from each kill to the first sighting after it, where there is one. *)
Definition first_sighting (seen : list Z) (k : Z) : option Z := List.find (fun ts => k <? ts) seen.
Definition delays (evs : list fields) : list Z :=
  omap (fun k => ts ← first_sighting (sightings_of evs) k; Some (ts - k)) (kills_of evs).

(** The leader events, with the node each names. *)
Definition sighted_in (ev : fields) : option (Z * string) :=
  if op_is ev "leader_observed" then
    match field ev "wall_ns", field ev "node_id" with JInt z, JStr n => Some (z, n) | _, _ => None end
  else None.
Definition sighted_of (evs : list fields) : list (Z * string) := omap sighted_in evs.

(** Convergence as the module comment of exp1.py defines it: from the kill to
    the first sighting of a node other than the one sighted last before it. *)
Definition leader_at (seen : list (Z * string)) (k : Z) : option string :=
  last (map snd (List.filter (fun x => x.1 <=? k) seen)).
Definition documented_sighting (seen : list (Z * string)) (k : Z) : option Z :=
  n0 ← leader_at seen k; x ← List.find (fun x => (k <? x.1) && negb (x.2 =? n0)%string) seen; Some x.1.

(** Sightings in the order of time, each of another node than the one before. *)
Definition changing (seen : list (Z * string)) : Prop :=
  StronglySorted Z.le (map fst seen) /\
  forall i x y, seen !! i = Some x -> seen !! S i = Some y -> x.2 <> y.2.

(** [x] is the sample of [sample] nearest to rank [p / 100 * (n - 1)]. *)
Definition at_rank (sample : list Q) (p : Z) (x : float) : Prop :=
  exists (i : nat) q, sample !! i = Some q /\ x = Fin q /\
    Z.abs (100 * Z.of_nat i - p * (Z.of_nat (length sample) - 1)) <= 50.

Definition ns_ok (v : json) : bool := match v with JInt z => (0 <=? z) && (z <? 2 ^ 63) | _ => false end.
Definition is_str (v : json) : bool := match v with JStr _ => true | _ => false end.

(** Events as the experiment writes them. *)
Definition well_formed (ev : fields) : bool :=
  (negb (op_is ev "submit" || op_is ev "complete" || op_is ev "timeout") || is_str (field ev "task_id")) &&
  (negb (op_is ev "chaos.kill_leader") || ns_ok (field ev "killed_ns")) &&
  (negb (op_is ev "leader_observed") || (ns_ok (field ev "wall_ns") && is_str (field ev "node_id"))).

(** ** The collection loop *)

Definition key_of (id : string) : string := dumps (JStr id).

#[export] Instance key_of_inj : Inj (=) (=) key_of.
Proof.
  intros s t H. unfold key_of in H. pose proof (loads_dumps (JStr s) eq_refl) as Hs.
  rewrite H, (loads_dumps (JStr t) eq_refl) in Hs. congruence.
Qed.

Lemma size_keys (X : gset string) : base.size (set_map key_of X : gset string) = base.size X.
Proof.
  induction X as [|x X Hx IH] using set_ind_L; [by rewrite set_map_empty|].
  rewrite set_map_union_L, set_map_singleton_L, !size_union, !size_singleton, IH; [done|set_solver|].
  apply disjoint_singleton_l. intros (y & Hy%(inj key_of) & Hin)%elem_of_map. by subst.
Qed.

(** The loop's variables agree with what the events say. *)
Record agrees (c : collected) (S C T : gset string) (ks ts : list Z) : Prop := {
  ag_submits : dom (submits c) = set_map key_of S;
  ag_completes : dom (completes c) = set_map key_of C;
  ag_timeouts : timeouts c = set_map key_of T;
  ag_kills : kills c = ks;
  ag_sightings : map fst (leader_events c) = ts;
}.

Lemma set_map_add (X : gset string) (x : string) :
  ({[ key_of x ]} ∪ set_map key_of X : gset string) = set_map key_of ({[ x ]} ∪ X).
Proof. by rewrite set_map_union_L, set_map_singleton_L. Qed.

Lemma field_item ev k v : field ev k = v -> v <> JNull -> item_of ev k = Ok v.
Proof. unfold field, item_of. by destruct (dict_get ev k); cbn; intros -> ?. Qed.

Lemma task_key_str ev id : field ev "task_id" = JStr id -> task_key ev = Ok (key_of id).
Proof. intros H. unfold task_key. by rewrite (field_item _ _ _ H). Qed.

Definition add_opt (o : option string) (X : gset string) : gset string :=
  match o with Some x => {[ x ]} ∪ X | None => X end.

Lemma collect_step c ev (X C T : gset string) ks ts :
  well_formed ev = true -> agrees c X C T ks ts ->
  exists c', collect c ev = Ok c' /\
    agrees c' (add_opt (id_in "submit" ev) X) (add_opt (id_in "complete" ev) C) (add_opt (id_in "timeout" ev) T)
      (ks ++ option_list (int_in "chaos.kill_leader" "killed_ns" ev))
      (ts ++ option_list (int_in "leader_observed" "wall_ns" ev)).
Proof.
  unfold well_formed, collect, id_in, int_in, op_is. intros [[Hid Hk]%andb_true_iff Hl]%andb_true_iff [H1 H2 H3 H4 H5].
  destruct (field ev "op") as [| | | |op| |];
    try (exists c; cbn; rewrite !app_nil_r; split; [done|split; done]).
  destruct (String.eqb_spec op "submit") as [E|N1]; [|destruct (String.eqb_spec op "complete") as [E|N2];
    [|destruct (String.eqb_spec op "timeout") as [E|N3]; [|destruct (String.eqb_spec op "chaos.kill_leader") as [E|N4];
    [|destruct (String.eqb_spec op "leader_observed") as [E|N5]]]]]; try rewrite E; try clear E; cbn in Hid, Hk, Hl;
    cbn [String.eqb Ascii.eqb Bool.eqb add_opt option_list]; rewrite ?app_nil_r.
  1-3: destruct (field ev "task_id") as [| | | |id| |] eqn:Ef; try discriminate; rewrite (task_key_str _ _ Ef);
    eexists; (split; [done|]); split; cbn; try done; rewrite ?dom_insert_L, ?H1, ?H2, ?H3; apply set_map_add.
  - destruct (field ev "killed_ns") as [| |z| | | |] eqn:Ef; try discriminate.
    assert (field_or ev "killed_ns" (field_or ev "wall_ns" (JInt 0)) = JInt z) as -> by
      (unfold field, field_or in *; destruct (dict_get ev "killed_ns"); [done|discriminate]).
    eexists. split; [done|]. split; cbn; try done; congruence.
  - apply andb_true_iff in Hl as [Hw Hn]. destruct (field ev "wall_ns") as [| |z| | | |] eqn:Ef; try discriminate.
    assert (field_or ev "wall_ns" (JInt 0) = JInt z) as -> by
      (unfold field, field_or in *; destruct (dict_get ev "wall_ns"); [done|discriminate]).
    destruct (field ev "node_id") as [| | | |n| |] eqn:En; try discriminate. rewrite (field_item _ _ _ En) by done.
    eexists. split; [done|]. split; cbn; try done. by rewrite map_app, H5.
  - exists c. split; [done|]. by split.
Qed.

Lemma collect_all evs c (X C T : gset string) ks ts :
  forallb well_formed evs = true -> agrees c X C T ks ts ->
  exists c', fold_res collect c evs = Ok c' /\
    agrees c' (ids_of "submit" evs ∪ X) (ids_of "complete" evs ∪ C) (ids_of "timeout" evs ∪ T)
      (ks ++ kills_of evs) (ts ++ sightings_of evs).
Proof.
  revert c X C T ks ts. induction evs as [|ev evs IH]; intros c X C T ks ts Hwf Hag.
  - exists c. split; [done|]. unfold ids_of, kills_of, sightings_of. cbn. rewrite !app_nil_r, !union_empty_l_L. by destruct Hag.
  - cbn [forallb] in Hwf. apply andb_true_iff in Hwf as [He Hs]. destruct (collect_step c ev X C T ks ts He Hag) as (c1 & H1 & A1).
    destruct (IH c1 _ _ _ _ _ Hs A1) as (c2 & H2 & A2). exists c2. cbn [fold_res]. rewrite H1. split; [done|].
    assert (Hu : forall op (Y : gset string), ids_of op evs ∪ add_opt (id_in op ev) Y = ids_of op (ev :: evs) ∪ Y).
    { intros op Y. unfold ids_of. cbn [omap list_omap]. destruct (id_in op ev); cbn; set_solver. }
    assert (Ho : forall (f : fields -> option Z) l, l ++ omap f (ev :: evs) = (l ++ option_list (f ev)) ++ omap f evs).
    { intros f l. rewrite <- app_assoc. cbn. by destruct (f ev). }
    rewrite !Hu in A2. unfold kills_of, sightings_of in *. by rewrite !Ho.
Qed.

(** ** Convergence *)

Lemma first_after_sighting k seen : first_after k seen = first_sighting (map fst seen) k.
Proof. induction seen as [|[ts n] seen IH]; [done|]. cbn. by destruct (k <? ts). Qed.

(** In milliseconds, for delays that clocks can show. *)
Definition ms_of (d : Z) : Q := match Zdivf d 1000000 with Fin q => q | _ => 0%Q end.

Lemma ns_to_ms_ok d : 0 < d < 2 ^ 63 ->
  ns_to_ms d = Ok (Fin (ms_of d)) /\ rnd (ms_of d) = Fin (ms_of d) /\ (0 < ms_of d)%Q.
Proof.
  intros Hd. unfold ns_to_ms, ms_of, Zdivf.
  assert (Hpow : (2 ^ 63 : Z) = 9223372036854775808) by reflexivity.
  destruct (rnd_between (d # 1000000) 0 9223372036855) as (v & Ev & Hv & _); [lia|lia|unfold Qle; simpl; lia|unfold Qle; simpl; lia|].
  rewrite Ev. split; [done|]. split; [by eapply rnd_idem|].
  assert (Hm : fle (rnd (1 # 1000000)) (rnd (d # 1000000)) = true) by (apply rnd_mono; unfold Qle; simpl; lia).
  rewrite Ev in Hm. assert (E1 : exists w, rnd (1 # 1000000) = Fin w /\ (0 < w)%Q) by (eexists; split; [vm_compute; reflexivity|reflexivity]).
  destruct E1 as (w & Ew & Hw). rewrite Ew in Hm. simpl in Hm. apply Qle_bool_iff in Hm. lra.
Qed.

Definition in_range (z : Z) : Prop := 0 <= z < 2 ^ 63.

Lemma convergence_run seen ks acc :
  Forall in_range ks -> Forall in_range (map fst seen) ->
  fold_res (convergence_step seen) acc ks =
  Ok (acc ++ map (fun d => Fin (ms_of d)) (omap (fun k => ts ← first_sighting (map fst seen) k; Some (ts - k)) ks)).
Proof.
  intros Hks Hseen. revert acc. induction Hks as [|k ks Hk Hks IH]; intros acc; [by rewrite app_nil_r|].
  cbn [fold_res omap list_omap].
  assert (convergence_step seen acc k = match first_sighting (map fst seen) k with
    | Some ts => ms ← ns_to_ms (ts - k); mret (acc ++ [ms]) | None => mret acc end) as ->
    by (unfold convergence_step; by rewrite first_after_sighting).
  destruct (first_sighting (map fst seen) k) as [ts|] eqn:Ef; [|apply IH].
  unfold first_sighting in Ef. apply List.find_some in Ef as [Hin Hlt%Z.ltb_lt].
  rewrite Forall_forall in Hseen. apply list_elem_of_In in Hin. pose proof (Hseen ts Hin) as Hts. unfold in_range in *.
  destruct (ns_to_ms_ok (ts - k)) as (-> & _); [lia|]. cbn. rewrite IH, <- app_assoc. done.
Qed.

Lemma ints_in_range op k evs :
  (forall ev, well_formed ev = true -> op_is ev op = true -> ns_ok (field ev k) = true) ->
  forallb well_formed evs = true -> Forall in_range (omap (int_in op k) evs).
Proof.
  intros H Hwf. apply Forall_forall. intros z Hz. apply list_elem_of_omap in Hz as (ev & Hev & Hz).
  rewrite forallb_forall in Hwf. apply list_elem_of_In, Hwf in Hev. unfold int_in in Hz.
  destruct (op_is ev op) eqn:Eo; [|done]. specialize (H ev Hev Eo). destruct (field ev k) as [| |z'| | | |]; try done.
  injection Hz as ->. unfold ns_ok in H. unfold in_range. lia.
Qed.

Lemma kills_in_range evs : forallb well_formed evs = true -> Forall in_range (kills_of evs).
Proof.
  apply ints_in_range. intros ev Hw Ho. unfold well_formed in Hw. rewrite Ho in Hw.
  apply andb_true_iff in Hw as [[_ Hk]%andb_true_iff _]. done.
Qed.

Lemma sightings_in_range evs : forallb well_formed evs = true -> Forall in_range (sightings_of evs).
Proof.
  apply ints_in_range. intros ev Hw Ho. unfold well_formed in Hw. rewrite Ho in Hw.
  apply andb_true_iff in Hw as [_ Hl]. by apply andb_true_iff in Hl as [Hl _].
Qed.

Lemma delays_positive evs d : forallb well_formed evs = true -> d ∈ delays evs -> 0 < d < 2 ^ 63.
Proof.
  intros Hwf Hd. apply list_elem_of_omap in Hd as (k & Hk & Hd).
  pose proof (proj1 (Forall_forall _ _) (kills_in_range evs Hwf) k Hk) as Rk.
  destruct (first_sighting (sightings_of evs) k) as [ts|] eqn:Ef; [|done]. injection Hd as <-.
  apply List.find_some in Ef as [Hin Hlt%Z.ltb_lt]. apply list_elem_of_In in Hin.
  pose proof (proj1 (Forall_forall _ _) (sightings_in_range evs Hwf) ts Hin) as Rt. unfold in_range in *. lia.
Qed.

(** The analysis of a well-formed history. *)
Lemma analyze_run evs :
  forallb plain_fields evs = true -> forallb well_formed evs = true ->
  exists c, agrees c (ids_of "submit" evs) (ids_of "complete" evs) (ids_of "timeout" evs) (kills_of evs) (sightings_of evs) /\
    analyze (file_of evs) = Ok (metrics c (map Fin (map ms_of (delays evs)))).
Proof.
  intros Hp Hwf. destruct (collect_all evs (mkCollected ∅ ∅ ∅ [] []) ∅ ∅ ∅ [] [] Hwf) as (c & Hc & Ha).
  { split; cbn; by rewrite ?set_map_empty, ?dom_empty_L. }
  rewrite !union_empty_r_L in Ha. exists c. split; [done|]. unfold analyze, file_of.
  rewrite fold_history_lines, Hc by done. cbn [mbind res_bind]. destruct Ha as [_ _ _ Hk Hl]. cbn in Hk, Hl.
  rewrite Hk, convergence_run; [|by apply kills_in_range|rewrite Hl; by apply sightings_in_range].
  rewrite Hl. unfold delays. cbn [mbind res_bind app]. by rewrite map_map.
Qed.

(** ** Properties *)

(** C40: lost tasks are counted, and never over-counted.  The analysis of a history
    returns the numbers of distinct tasks submitted, completed and timed out;
    the losses it reports are at most the submitted tasks without a terminal
    record, and exactly those when terminal records belong to submitted tasks and
    no task has both kinds. *)
Theorem losses_counted (evs : list fields) :
  forallb plain_fields evs = true -> forallb well_formed evs = true ->
  let sub := ids_of "submit" evs in let fin := ids_of "complete" evs in let out := ids_of "timeout" evs in
  exists st, analyze (file_of evs) = Ok st /\
    submitted st = Z.of_nat (base.size sub) /\ completed st = Z.of_nat (base.size fin) /\
    timed_out st = Z.of_nat (base.size out) /\
    lost st <= Z.of_nat (base.size (sub ∖ (fin ∪ out))) /\
    (fin ∪ out ⊆ sub -> fin ## out -> lost st = Z.of_nat (base.size (sub ∖ (fin ∪ out)))).
Proof.
  intros Hp Hwf sub fin out. destruct (analyze_run evs Hp Hwf) as (c & Ha & Hr). eexists. split; [exact Hr|].
  cbn [submitted completed timed_out lost metrics]. destruct Ha as [H1 H2 H3 _ _]. fold sub fin out in H1, H2, H3.
  rewrite <- !size_dom, H1, H2, H3, !size_keys. split; [done|]. split; [done|]. split; [done|].
  assert (Hu : (base.size (fin ∪ out) <= base.size fin + base.size out)%nat).
  { rewrite size_union_alt. apply Nat.add_le_mono_l, subseteq_size. set_solver. }
  assert (Hd : (base.size sub <= base.size (sub ∖ (fin ∪ out)) + base.size (fin ∪ out))%nat).
  { rewrite <- size_union by set_solver. apply subseteq_size. intros x Hx. destruct (decide (x ∈ fin ∪ out)); set_solver. }
  split; [lia|]. intros Hsub Hdis. rewrite size_difference by done. rewrite size_union by done.
  pose proof (subseteq_size _ _ Hsub) as Hle. rewrite size_union in Hle by done. lia.
Qed.

Lemma filter_later (k : Z) (seen : list (Z * string)) :
  Forall (fun ts => k < ts) (map fst seen) -> List.filter (fun x => x.1 <=? k) seen = [].
Proof.
  induction seen as [|x seen IH]; [done|]. cbn [map]. intros [H1 H2]%Forall_cons. cbn [List.filter].
  destruct (Z.leb_spec x.1 k); [lia|]. auto.
Qed.

(** Where every sighting names another node than the one before, the first
    sighting after a kill is the documented one. *)
Lemma documented_is_first (seen : list (Z * string)) (k : Z) (n0 : string) :
  changing seen -> leader_at seen k = Some n0 -> documented_sighting seen k = first_sighting (map fst seen) k.
Proof.
  intros [Hs Hc] Hl. unfold documented_sighting. rewrite Hl. cbn [mbind option_bind]. revert Hs Hc Hl.
  induction seen as [|[ts n] seen IH]; intros Hs Hc Hl; [done|].
  cbn [map fst] in Hs. inversion Hs as [|? ? Hs' Hle]; subst. unfold leader_at in Hl. cbn [List.filter fst] in Hl.
  destruct (Z.leb_spec ts k) as [Hk|Hk].
  - cbn [map snd List.find fst first_sighting]. unfold first_sighting. cbn [List.find].
    destruct (Z.ltb_spec k ts); [lia|]. cbn [andb].
    destruct (leader_at seen k) as [n1|] eqn:E1.
    + pose proof E1 as E2. unfold leader_at in E2. cbn [map snd] in Hl. rewrite last_cons, E2 in Hl. injection Hl as ->.
      apply IH; [done| |done]. intros i x y Hi Hj. by apply (Hc (S i)).
    + unfold leader_at in E1. apply last_None in E1. cbn [map snd] in Hl. rewrite E1 in Hl. injection Hl as <-.
      destruct seen as [|[t1 n1] seen]; [done|]. cbn [List.filter fst] in E1.
      destruct (Z.leb_spec t1 k); [done|]. cbn [map List.find fst snd].
      assert (Hn : n <> n1) by (apply (Hc 0%nat (ts, n) (t1, n1)); done).
      destruct (Z.ltb_spec k t1); [|lia]. apply not_eq_sym, String.eqb_neq in Hn. by rewrite Hn.
  - rewrite filter_later in Hl; [done|]. eapply Forall_impl; [exact Hle|]. intros x Hx. simpl in Hx. lia.
Qed.

Lemma sighted_times (evs : list fields) :
  forallb well_formed evs = true -> map fst (sighted_of evs) = sightings_of evs.
Proof.
  unfold sighted_of, sightings_of. induction evs as [|ev evs IH]; [done|]. cbn [forallb].
  intros [Hw Hws]%andb_true_iff. cbn [omap list_omap]. rewrite <- (IH Hws). unfold sighted_in, int_in.
  unfold well_formed in Hw. destruct (op_is ev "leader_observed"); [|done].
  apply andb_true_iff in Hw as [_ Hl]. cbn in Hl. apply andb_true_iff in Hl as [Hw Hn].
  destruct (field ev "wall_ns"); try done. by destruct (field ev "node_id").
Qed.

(** A percentile of exp1.py is the sample nearest to its rank. *)
Lemma pct_at_rank (qs : list Q) (p : Z) :
  qs <> [] -> Z.of_nat (length qs) < 2 ^ 40 -> 0 <= p <= 100 ->
  at_rank (isort Qle_bool qs) p (pct_nearest (map Fin qs) p).
Proof.
  intros Hne Hlen Hp. destruct (pct_nearest_at qs p Hne) as (a & Ea & _ & Ia).
  assert (Hn : 0 < Z.of_nat (length qs)) by (destruct qs; simpl; [done|lia]).
  exists (Z.to_nat (nearest_rank (Z.of_nat (length qs)) p)), a. split; [done|]. split; [done|].
  rewrite isort_length, Z2Nat.id by apply nearest_rank_bounds, Hn. by apply nearest_rank_exact.
Qed.

(** C24: convergence metrics.  There is one sample per kill followed by a later
    sighting of a leader, the positive delay to the first such sighting in
    milliseconds.  With the samples sorted, each reported percentile is the
    sample whose rank is nearest to p / 100 * (n - 1), the mean is the exact
    mean rounded once, and the maximum is the last sample; so
    0 < p50 <= p95 <= max and the mean does not exceed the maximum.

    The first sighting is that of any node, as the comment at the loop says; the
    module comment of exp1.py asks for a different node.  The two agree on a
    history where each sighting names another node than the one before, for a
    kill that has a sighting before it. *)
Theorem convergence_exact (evs : list fields) :
  forallb plain_fields evs = true -> forallb well_formed evs = true ->
  delays evs <> [] -> Z.of_nat (length (delays evs)) < 2 ^ 40 ->
  exists st sample p50 p95 m, analyze (file_of evs) = Ok st /\
    kill_count st = Z.of_nat (length (kills_of evs)) /\
    convergence_samples st = Z.of_nat (length (delays evs)) /\
    Sorted Qle sample /\ sample ≡ₚ map ms_of (delays evs) /\
    convergence_p50_ms st = Fin p50 /\ convergence_p95_ms st = Fin p95 /\ convergence_max_ms st = Fin m /\
    at_rank sample 50 (Fin p50) /\ at_rank sample 95 (Fin p95) /\
    (m ∈ sample /\ forall x, x ∈ sample -> (x <= m)%Q) /\
    convergence_mean_ms st = rnd (sumQ (map ms_of (delays evs)) / inject_Z (Z.of_nat (length (delays evs)))) /\
    (0 < p50)%Q /\ (p50 <= p95)%Q /\ (p95 <= m)%Q /\ fle (convergence_mean_ms st) (convergence_max_ms st) = true /\
    (changing (sighted_of evs) -> forall k n0, leader_at (sighted_of evs) k = Some n0 ->
       documented_sighting (sighted_of evs) k = first_sighting (sightings_of evs) k).
Proof.
  intros Hp Hwf Hne Hlen. destruct (analyze_run evs Hp Hwf) as (c & Ha & Hr). set (qs := map ms_of (delays evs)) in *.
  assert (Hqs : qs <> []) by (unfold qs; by destruct (delays evs)).
  assert (Hql : length qs = length (delays evs)) by (unfold qs; apply length_map).
  assert (Hpos : forall x, x ∈ qs -> rnd x = Fin x /\ (0 < x)%Q).
  { intros x (d & -> & Hd)%list_elem_of_fmap. destruct (ns_to_ms_ok d) as (_ & ? & ?); [|done]. by eapply delays_positive. }
  destruct (pct_nearest_at qs 50 Hqs) as (p50 & E50 & I50 & _). destruct (pct_nearest_at qs 95 Hqs) as (p95 & E95 & I95 & _).
  pose proof (pct_at_rank qs 50 Hqs ltac:(lia) ltac:(lia)) as R50. pose proof (pct_at_rank qs 95 Hqs ltac:(lia) ltac:(lia)) as R95.
  destruct (max_of_spec qs Hqs) as (m & Em & Im & Hm).
  assert (Hmono : fle (pct_nearest (map Fin qs) 50) (pct_nearest (map Fin qs) 95) = true).
  { apply pct_nearest_mono; [|lia|lia]. unfold small. destruct qs; [done|]. simpl length in *. lia. }
  rewrite E50, E95 in *. simpl in Hmono. apply Qle_bool_iff in Hmono.
  exists (metrics c (map Fin qs)), (isort Qle_bool qs), p50, p95, m. split; [exact Hr|].
  destruct Ha as [_ _ _ Hk _]. cbn [kill_count convergence_samples convergence_p50_ms convergence_p95_ms convergence_max_ms convergence_mean_ms metrics].
  rewrite Hk, E50, E95, Em, length_map, Hql.
  assert (Hmean : match map Fin qs with [] => Fin 0 | _ => mean (map Fin qs) end = mean (map Fin qs)) by (by destruct qs).
  rewrite Hmean. repeat (split; [done|]).
  split; [eapply Sorted_weaken, isort_sorted, Qle_bool_total; intros x y; apply Qle_bool_iff|]. split; [apply isort_perm|].
  repeat (split; [done|]). split; [split; [by rewrite isort_perm|intros x Hx; apply Hm; by rewrite <- (isort_perm Qle_bool)]|].
  split; [unfold mean; rewrite map_map, map_id, length_map, Hql; done|].
  split; [by apply Hpos|]. split; [done|]. split; [by apply Hm|]. split.
  - destruct (mean_between qs 0%Q m Hqs) as [_ H]; [reflexivity|by apply Hpos| |done].
    intros x Hx. split; [by apply Qlt_le_weak, Hpos|by apply Hm].
  - intros Hc k n0 Hl. rewrite <- sighted_times by done. by eapply documented_is_first.
Qed.

(** A history with a kill, a re-election and a loss. *)
Definition sample_run : list fields :=
  [[("op", JStr "submit"); ("task_id", JStr "t-1"); ("submitted_ns", JInt 5)];
   [("op", JStr "submit"); ("task_id", JStr "t-2"); ("submitted_ns", JInt 6)];
   [("op", JStr "chaos.kill_leader"); ("killed_ns", JInt 1000000000); ("wall_ns", JInt 1000000001)];
   [("op", JStr "leader_observed"); ("node_id", JStr "b"); ("wall_ns", JInt 1250000000)];
   [("op", JStr "complete"); ("task_id", JStr "t-1"); ("status", JStr "COMPLETED")]]%string.

Lemma losses_counted_witness :
  exists st, analyze (file_of sample_run) = Ok st /\ submitted st = 2 /\ completed st = 1 /\ timed_out st = 0 /\ lost st = 1.
Proof.
  destruct (losses_counted sample_run) as (st & H & H1 & H2 & H3 & _ & H4); [reflexivity|reflexivity|].
  exists st. split; [exact H|]. split; [exact H1|]. split; [exact H2|]. split; [exact H3|].
  apply H4; apply (bool_decide_unpack _); vm_compute; exact I.
Defined.

Lemma convergence_exact_witness :
  exists st p50, analyze (file_of sample_run) = Ok st /\
    kill_count st = 1 /\ convergence_samples st = 1 /\ convergence_p50_ms st = Fin p50 /\ p50 = 250%Q.
Proof.
  destruct (convergence_exact sample_run) as (st & sample & p50 & p95 & m & H1 & H2 & H3 & _ & H5 & H6 & _ & _ & H9 & _);
    [reflexivity|reflexivity|discriminate|reflexivity|].
  exists st, p50. split; [exact H1|]. split; [exact H2|]. split; [exact H3|]. split; [exact H6|].
  destruct H9 as (i & q & Hi & [= ->] & _).
  assert (Hs : map ms_of (delays sample_run) = [250%Q]) by (vm_compute; reflexivity). rewrite Hs in H5.
  apply Permutation_singleton_r in H5. subst sample. destruct i as [|i]; [|destruct i; discriminate Hi].
  injection Hi as <-. reflexivity.
Defined.
