(* ===== verification/Plot.v ===== *)
(** * Plot: the summary of a history (chaos-bench/plot.py)

    [analyze] counts the terminal statuses and measures the tasks of a history;
    [render] writes the summary and draws the latencies and the throughput.
    Percentiles and mean are numpy's, a parameter. *)

From stdpp Require Import base list strings.
From Stdlib Require Import ZArith QArith.QArith_base QArith.Qround Lqa.
From S2P Require Import Prelude PyFloat PyStr PyDict Json Draw Runtime History Stats Exp1Analysis.

Local Open Scope Z_scope.
Local Open Scope driftless_scope.

(** numpy's [percentile] and [mean] of an array of floats. *)
Record numpy : Type := Numpy { np_percentile : list float -> Z -> float; np_mean : list float -> float }.

(** [d[k] += 1] of a [defaultdict(int)]. *)
Definition bump {K : Type} `{EqDecision K} (d : list (K * Z)) (k : K) : list (K * Z) :=
  dict_set d k (default 0 (dict_get d k) + 1).

(** [a - b] of parsed values; [True] counts as 1. *)
Definition json_sub (a b : json) : res (Z + float) :=
  match as_number a, as_number b with
  | Some (inl x), Some (inl y) => Ok (inl (x - y))
  | Some (inl x), Some (inr y) => x ← float_of_int x; mret (inr (fsub x y))
  | Some (inr x), Some (inl y) => y ← float_of_int y; mret (inr (fsub x y))
  | Some (inr x), Some (inr y) => Ok (inr (fsub x y))
  | _, _ => Raise (Exn TypeError "unsupported operand type(s) for -")
  end.

(** [d / k] for a positive constant. *)
Definition number_div (d : Z + float) (k : positive) : res float :=
  match d with
  | inl z => match Zdivf z k with
             | Fin q => Ok (Fin q)
             | _ => Raise (Exn OverflowError "integer division result too large for a float")
             end
  | inr x => Ok (default NaN (fdiv x (of_Z (Zpos k))))
  end.

(** The local variables of [analyze]. *)
Record plot_acc : Type := mkAcc {
  pa_latencies_ms : list float;
  pa_completions_by_sec : list (Z * Z);
  pa_run_start_ns : json;
  pa_status_counts : list (string * Z);
}.

Definition plot_event (acc : plot_acc) (e : fields) : res plot_acc :=
  let '(mkAcc lats secs start counts) := acc in
  if op_is e "run_start" then mret (mkAcc lats secs (field e "wall_ns") counts)
  else if op_is e "complete" || op_is e "timeout" then
    status ← hash_key (field_or e "status" (JStr "?"));
    let counts := bump counts status in
    if op_is e "complete" then
      completed ← item_of e "completed_ns";
      submitted ← item_of e "submitted_ns";
      d_ns ← json_sub completed submitted;
      ms ← number_div d_ns 1000000;
      let lats := lats ++ [ms] in
      match start with
      | JNull => mret (mkAcc lats secs start counts)
      | _ =>
          since ← json_sub completed start;
          sec ← number_div since 1000000000;
          s ← int_of_json (JFloat sec);
          mret (mkAcc lats (bump secs s) start counts)
      end
    else mret (mkAcc lats secs start counts)
  else mret acc.

Record plot_stats : Type := mkPlotStats {
  completed_count : Z;
  failed_count : Z;
  timeout_count : Z;
  plot_p50_ms : float;
  plot_p95_ms : float;
  plot_p99_ms : float;
  plot_mean_ms : float;
  completions_by_sec : list (Z * Z);
  latencies_ms : list float;
}.

Definition status_count (acc : plot_acc) (status : string) : Z :=
  default 0 (dict_get (pa_status_counts acc) (dumps (JStr status))).

Definition plot_stats_of (np : numpy) (acc : plot_acc) : plot_stats :=
  let lat := match pa_latencies_ms acc with [] => [Fin 0] | l => l end in
  {| completed_count := status_count acc "COMPLETED";
     failed_count := status_count acc "FAILED";
     timeout_count := status_count acc "TIMEOUT";
     plot_p50_ms := np_percentile np lat 50; plot_p95_ms := np_percentile np lat 95;
     plot_p99_ms := np_percentile np lat 99; plot_mean_ms := np_mean np lat;
     completions_by_sec := pa_completions_by_sec acc; latencies_ms := pa_latencies_ms acc |}.

Definition analyze (np : numpy) (events : list json) : res plot_stats :=
  acc ← fold_res (fun acc v => e ← with_get v; plot_event acc e) (mkAcc [] [] JNull []) events;
  mret (plot_stats_of np acc).

(** The summary that [render] writes. *)
Definition summary (st : plot_stats) : fields :=
  [("completed_count", JInt (completed_count st)); ("failed_count", JInt (failed_count st));
   ("timeout_count", JInt (timeout_count st)); ("p50_ms", JFloat (plot_p50_ms st)); ("p95_ms", JFloat (plot_p95_ms st));
   ("p99_ms", JFloat (plot_p99_ms st)); ("mean_ms", JFloat (plot_mean_ms st))]%string.

(** The cumulative distribution of the latencies. *)
Definition latency_figure (latencies : list float) : figure :=
  let xs := sorted latencies in
  let n := length xs in
  [Curve 0 (map inr xs) (map (fun i => inr (default NaN (fdiv (of_Z (Z.of_nat i)) (of_Z (Z.of_nat n))))) (seq 1 n)) "";
   Axes 0 "End-to-end task latency" "submit→complete latency (ms)" "CDF"]%string.

(** [0.8], the width of bars by default. *)
Definition bar_width : float := default NaN (fdiv (Fin (8 # 1)) (Fin (10 # 1))).

Definition throughput_figure (by_sec : list (Z * Z)) : figure :=
  let secs := isort Z.leb (dict_keys by_sec) in
  let counts := map (fun s => inl (default 0 (dict_get by_sec s))) secs in
  [Bars 0 (map (fun s => XNum (inl s)) secs) bar_width counts [] "";
   Axes 0 "Throughput" "seconds since run_start" "completions / s"]%string.

Definition save_figure `{Env} {S} (path : string) (fig : figure) : M S unit := tell (Ev (CSaveFig path fig) tt).

Definition render `{Env} {S} (np : numpy) (path : string) : M S unit :=
  text ← read_file path;
  events ← lift (load text);
  stats ← lift (analyze np events);
  let out_dir := match dirname path with EmptyString => "."%string | d => d end in
  dump_json (path_join out_dir "summary.json") (JObj (summary stats));;
  match latencies_ms stats with
  | [] => mret tt
  | latencies => save_figure (path_join out_dir "latency.png") (latency_figure latencies)
  end;;
  match completions_by_sec stats with
  | [] => mret tt
  | by_sec => save_figure (path_join out_dir "throughput.png") (throughput_figure by_sec)
  end;;
  tell (Ev (CPrintJson (JObj (summary stats))) tt).

(** ** Counting *)

Definition total_count {K : Type} (d : list (K * Z)) : Z := foldr (fun p n => p.2 + n) 0 d.

Lemma bump_total {K : Type} `{EqDecision K} (d : list (K * Z)) k : total_count (bump d k) = total_count d + 1.
Proof.
  unfold bump. enough (forall n, total_count (dict_set d k (default 0 (dict_get d k) + n)) = total_count d + n) by done.
  intros n. unfold total_count. induction d as [|[k' v] d IH]; [cbn; lia|]. cbn [dict_get dict_set].
  destruct (decide (k = k')); cbn [foldr fst snd from_option id default]; [lia|]. rewrite IH. lia.
Qed.

Lemma bump_get {K : Type} `{EqDecision K} (d : list (K * Z)) k k' :
  default 0 (dict_get (bump d k) k') = default 0 (dict_get d k') + (if decide (k' = k) then 1 else 0).
Proof. unfold bump. rewrite dict_get_set. destruct (decide (k' = k)) as [->|]; simpl; lia. Qed.

(** ** What a history says *)

Definition with_status (op status : string) (e : fields) : bool :=
  op_is e op && match field e "status" with JStr s => String.eqb s status | _ => false end.

(** Events as the bench writes them. *)
Definition bench_event (e : fields) : bool :=
  (negb (op_is e "complete") ||
    ((with_status "complete" "COMPLETED" e || with_status "complete" "FAILED" e) &&
     ns_ok (field e "completed_ns") && ns_ok (field e "submitted_ns"))) &&
  (negb (op_is e "timeout") || with_status "timeout" "TIMEOUT" e) &&
  (negb (op_is e "run_start") || ns_ok (field e "wall_ns")).

(** The nanoseconds a completed task took. *)
Definition duration (e : fields) : option Z :=
  if op_is e "complete" then
    match field e "completed_ns", field e "submitted_ns" with JInt c, JInt s => Some (c - s) | _, _ => None end
  else None.

Definition float_ms (d : Z) : float := Zdivf d 1000000.

(** ** The loop *)

Lemma op_is_other e a b : op_is e a = true -> String.eqb a b = false -> op_is e b = false.
Proof.
  unfold op_is. destruct (field e "op"); try done. intros ->%String.eqb_eq. done.
Qed.

Lemma number_div_ok (d : Z) (k : positive) : Z.abs d < 2 ^ 63 -> exists q, number_div (inl d) k = Ok (Fin q) /\ Zdivf d k = Fin q.
Proof.
  intros Hd. unfold number_div, Zdivf.
  assert (Hb : (inject_Z (- 2 ^ 63) <= d # k)%Q /\ (d # k <= inject_Z (2 ^ 63))%Q).
  { unfold Qle. cbn [Qnum Qden inject_Z]. revert Hd. generalize (2 ^ 63). intros b Hd. pose proof (Pos2Z.is_pos k). split; nia. }
  destruct Hb as [Ha Hb]. apply rnd_mono in Ha, Hb.
  assert (E1 : exists a, rnd (inject_Z (- 2 ^ 63)) = Fin a) by (eexists; vm_compute; reflexivity).
  assert (E2 : exists b, rnd (inject_Z (2 ^ 63)) = Fin b) by (eexists; vm_compute; reflexivity).
  destruct E1 as [a Ea], E2 as [b Eb]. rewrite Ea in Ha. rewrite Eb in Hb. clear Ea Eb.
  revert Ha Hb. generalize (rnd (d # k)). intros [|[]|q] Ha Hb; [done|done|done|]. by exists q.
Qed.

(** What the loop keeps, for the events [evs] seen. *)
Record tallies (acc : plot_acc) (evs : list fields) : Prop := {
  t_lats : pa_latencies_ms acc = map float_ms (omap duration evs);
  t_completed : status_count acc "COMPLETED" = Z.of_nat (count (with_status "complete" "COMPLETED") evs);
  t_failed : status_count acc "FAILED" = Z.of_nat (count (with_status "complete" "FAILED") evs);
  t_timeout : status_count acc "TIMEOUT" = Z.of_nat (count (with_status "timeout" "TIMEOUT") evs);
  t_start : pa_run_start_ns acc = JNull \/ ns_ok (pa_run_start_ns acc) = true;
}.

Lemma op_is_field e a : op_is e a = true -> field e "op" = JStr a.
Proof. unfold op_is. destruct (field e "op"); try done. by intros ->%String.eqb_eq. Qed.

Lemma field_get e k v : field e k = v -> v <> JNull -> dict_get e k = Some v.
Proof. unfold field. destruct (dict_get e k); simpl; congruence. Qed.

Lemma with_status_field op status e :
  with_status op status e = true -> field e "op" = JStr op /\ dict_get e "status" = Some (JStr status).
Proof.
  unfold with_status. intros [Ho Hs]%andb_prop. split; [by apply op_is_field|]. apply field_get; [|done].
  destruct (field e "status"); try done. by apply String.eqb_eq in Hs as ->.
Qed.

Lemma ns_field e k : ns_ok (field e k) = true -> exists z, dict_get e k = Some (JInt z) /\ field e k = JInt z /\ 0 <= z < 2 ^ 63.
Proof.
  intros H. destruct (field e k) as [| |z| | | |] eqn:E; try done. exists z. split; [by apply field_get|]. split; [done|].
  simpl in H. apply andb_prop in H as [?%Z.leb_le ?%Z.ltb_lt]. done.
Qed.

Lemma count_snoc {A} (p : A -> bool) l x : Z.of_nat (count p (l ++ [x])) = Z.of_nat (count p l) + (if p x then 1 else 0).
Proof. rewrite count_app, count_cons. cbn [count List.filter length]. destruct (p x); unfold count; simpl; lia. Qed.

Lemma status_count_bump lats secs start counts s status :
  status_count (mkAcc lats secs start (bump counts (dumps (JStr s)))) status =
  default 0 (dict_get counts (dumps (JStr status))) + (if String.eqb s status then 1 else 0).
Proof.
  unfold status_count. cbn [pa_status_counts]. rewrite bump_get. f_equal.
  destruct (String.eqb_spec s status) as [->|Hne]; [by rewrite decide_True|].
  rewrite decide_False; [done|]. intros E. apply Hne. pose proof (loads_dumps (JStr status) eq_refl) as H1.
  rewrite E, (loads_dumps (JStr s) eq_refl) in H1. congruence.
Qed.

(** The number of sorted-out completions keeps up once the start is known. *)
Definition seconds_ok (acc : plot_acc) : Prop :=
  pa_run_start_ns acc <> JNull /\ total_count (pa_completions_by_sec acc) = Z.of_nat (length (pa_latencies_ms acc)).

Definition step_ok (acc : plot_acc) (evs : list fields) (e : fields) : Prop :=
  exists acc', plot_event acc e = Ok acc' /\ tallies acc' (evs ++ [e]) /\ (seconds_ok acc -> seconds_ok acc').

(** The events that are not terminal change no tally. *)
Lemma tallies_skip lats secs start start' counts evs e :
  op_is e "complete" = false -> op_is e "timeout" = false -> start' = JNull \/ ns_ok start' = true ->
  tallies (mkAcc lats secs start counts) evs -> tallies (mkAcc lats secs start' counts) (evs ++ [e]).
Proof.
  intros Hc Ht Hs [H1 H2 H3 H4 _]. split; [| | | |done].
  - rewrite omap_app. cbn [pa_latencies_ms] in *. rewrite H1. cbn. unfold duration. by rewrite Hc, app_nil_r.
  - rewrite count_snoc. unfold with_status at 2. rewrite Hc. cbn [andb]. rewrite Z.add_0_r. exact H2.
  - rewrite count_snoc. unfold with_status at 2. rewrite Hc. cbn [andb]. rewrite Z.add_0_r. exact H3.
  - rewrite count_snoc. unfold with_status at 2. rewrite Ht. cbn [andb]. rewrite Z.add_0_r. exact H4.
Qed.

Lemma start_step acc evs e : op_is e "run_start" = true -> ns_ok (field e "wall_ns") = true -> tallies acc evs -> step_ok acc evs e.
Proof.
  intros Ho Hw H. destruct acc as [lats secs start counts]. eexists. unfold plot_event. rewrite Ho. split; [done|]. split.
  - eapply tallies_skip; [by apply (op_is_other e "run_start")..|by right|exact H].
  - intros [_ Hs]. split; [|done]. cbn. intros E. by rewrite E in Hw.
Qed.

(** A terminal event adds one to its status and, when it is a completion, its duration. *)
Lemma tallies_bump lats lats' secs secs' start counts evs e op s :
  field e "op" = JStr op -> dict_get e "status" = Some (JStr s) ->
  (op = "complete" /\ s <> "TIMEOUT" \/ op = "timeout" /\ s = "TIMEOUT")%string ->
  lats' = lats ++ map float_ms (omap duration [e]) ->
  tallies (mkAcc lats secs start counts) evs ->
  tallies (mkAcc lats' secs' start (bump counts (dumps (JStr s)))) (evs ++ [e]).
Proof.
  intros Ho Hs Hop Hl [H1 H2 H3 H4 H5]. unfold status_count in H2, H3, H4. cbn [pa_latencies_ms pa_status_counts] in *.
  assert (W : forall op' s', with_status op' s' e = String.eqb op op' && String.eqb s s').
  { intros op' s'. unfold with_status, op_is. rewrite Ho. unfold field. by rewrite Hs. }
  split; rewrite ?status_count_bump, ?count_snoc, ?W; cbn [pa_latencies_ms pa_run_start_ns]; [| | | |done].
  - by rewrite Hl, H1, omap_app, map_app.
  - rewrite H2. destruct Hop as [[-> _]|[-> ->]]; done.
  - rewrite H3. destruct Hop as [[-> _]|[-> ->]]; done.
  - rewrite H4. destruct Hop as [[-> Hne]|[-> ->]]; [|done]. by apply String.eqb_neq in Hne as ->.
Qed.

Lemma timeout_step acc evs e : with_status "timeout" "TIMEOUT" e = true -> tallies acc evs -> step_ok acc evs e.
Proof.
  intros [Ho Hs]%with_status_field H. destruct acc as [lats secs start counts]. unfold step_ok, plot_event, op_is, field_or.
  rewrite Ho, Hs. cbn. eexists. split; [done|]. split; [|done].
  eapply tallies_bump; [done..|by right| |exact H]. cbn. unfold duration, op_is. rewrite Ho. cbn. by rewrite app_nil_r.
Qed.

Lemma complete_step acc evs e s :
  with_status "complete" s e = true -> s <> "TIMEOUT"%string ->
  ns_ok (field e "completed_ns") = true -> ns_ok (field e "submitted_ns") = true -> tallies acc evs -> step_ok acc evs e.
Proof.
  intros [Ho Hs]%with_status_field Hne (c & Hc & Hc' & Rc)%ns_field (b & Hb & Hb' & Rb)%ns_field H.
  destruct acc as [lats secs start counts]. unfold step_ok, plot_event, op_is, field_or, item_of.
  rewrite Ho, Hs, Hc, Hb. cbn -[number_div Z.pow]. destruct (number_div_ok (c - b) 1000000) as (q & E & Eq); [lia|].
  rewrite E. cbn -[number_div Z.pow].
  assert (T : forall secs', tallies (mkAcc (lats ++ [Fin q]) secs' start (bump counts (dumps (JStr s)))) (evs ++ [e])).
  { intros secs'. eapply tallies_bump; [done..|by left| |exact H]. cbn. unfold duration, op_is. rewrite Ho, Hc', Hb'. cbn.
    unfold float_ms. by rewrite Eq. }
  destruct (t_start _ _ H) as [E0|Hst]; cbn [pa_run_start_ns] in *.
  - subst start. eexists. split; [done|]. split; [apply T|]. by intros [? _].
  - destruct start as [| |z| | | |]; try done. simpl in Hst. apply andb_prop in Hst as [?%Z.leb_le ?%Z.ltb_lt].
    cbn -[number_div Z.pow]. destruct (number_div_ok (c - z) 1000000000) as (r & -> & _); [lia|]. cbn -[Z.pow].
    eexists. split; [done|]. split; [apply T|]. intros [_ Hn]. split; [done|]. cbn [pa_completions_by_sec pa_latencies_ms] in *.
    rewrite bump_total, Hn, length_app. simpl. lia.
Qed.

Lemma plot_step acc evs e : bench_event e = true -> tallies acc evs -> step_ok acc evs e.
Proof.
  unfold bench_event. intros [[Hc Ht]%andb_prop Hr]%andb_prop H.
  destruct (op_is e "run_start") eqn:Er; [by apply start_step|]. destruct (op_is e "complete") eqn:Ec.
  - cbn [negb orb] in Hc. apply andb_prop in Hc as [[Hw Hc]%andb_prop Hb].
    apply orb_prop in Hw as [Hw|Hw]; by eapply complete_step.
  - destruct (op_is e "timeout") eqn:Et; [by apply timeout_step|]. destruct acc as [lats secs start counts].
    exists (mkAcc lats secs start counts). unfold plot_event. rewrite Er, Ec, Et. split; [done|]. split; [|done].
    eapply tallies_skip; [done..| |exact H]. apply (t_start _ _ H).
Qed.

Lemma plot_fold acc evs es :
  forallb bench_event es = true -> tallies acc evs ->
  exists acc', fold_res plot_event acc es = Ok acc' /\ tallies acc' (evs ++ es) /\ (seconds_ok acc -> seconds_ok acc').
Proof.
  revert acc evs. induction es as [|e es IH]; intros acc evs He H; [exists acc; by rewrite app_nil_r|].
  simpl in He. apply andb_prop in He as [He Hes]. destruct (plot_step acc evs e He H) as (a1 & E1 & T1 & S1).
  destruct (IH a1 (evs ++ [e]) Hes T1) as (a2 & E2 & T2 & S2). exists a2. cbn [fold_res]. rewrite E1. cbn [mbind res_bind].
  rewrite E2. rewrite <- app_assoc in T2. auto.
Qed.

Lemma bench_durations es :
  forallb bench_event es = true ->
  length (omap duration es) = (count (with_status "complete" "COMPLETED") es + count (with_status "complete" "FAILED") es)%nat.
Proof.
  induction es as [|e es IH]; [done|]. intros [He Hes]%andb_prop. rewrite !count_cons. cbn [omap list_omap].
  specialize (IH Hes). unfold bench_event in He. apply andb_prop in He as [[Hc _]%andb_prop _].
  unfold duration at 1. destruct (op_is e "complete") eqn:Ec; cbn [negb orb] in Hc.
  - apply andb_prop in Hc as [[Hw (c & _ & -> & _)%ns_field]%andb_prop (b & _ & -> & _)%ns_field]. cbn [length]. setoid_rewrite IH.
    unfold with_status in Hw |- *. rewrite Ec in *. cbn [andb] in *. destruct (field e "status"); try done.
    apply orb_prop in Hw as [Hw|Hw]; apply String.eqb_eq in Hw as ->; cbn; lia.
  - setoid_rewrite IH. unfold with_status. rewrite Ec. cbn [andb]. lia.
Qed.

Lemma tallies_start : tallies (mkAcc [] [] JNull []) [].
Proof. split; try done. by left. Qed.

(** ** The second of a completion *)

(** The completions of second [s] of a run that began at [start]. *)
Definition in_second (start s : Z) (e : fields) : bool :=
  op_is e "complete" &&
  match field e "completed_ns" with
  | JInt c => (start + s * 10 ^ 9 <=? c) && (c <? start + (s + 1) * 10 ^ 9)
  | _ => false
  end.

(** A later event of a run that began at [start] and lasts at most 8000000 seconds. *)
Definition later_in_run (start : Z) (e : fields) : bool :=
  negb (op_is e "run_start") &&
  (negb (op_is e "complete") ||
   match field e "completed_ns" with JInt c => (start <=? c) && (c <? start + 8000000 * 10 ^ 9) | _ => false end).

(** The rounded quotient never reaches the next second. *)
Lemma second_exact (d : Z) : 0 <= d < 8000000 * 10 ^ 9 ->
  exists q, number_div (inl d) 1000000000 = Ok (Fin q) /\ int_of_json (JFloat (Fin q)) = Ok (d / 10 ^ 9).
Proof.
  intros Hd. assert (H9 : 10 ^ 9 = 1000000000) by reflexivity. rewrite H9 in *.
  pose proof (Z.div_mod d 1000000000 ltac:(lia)) as Ed. pose proof (Z.mod_pos_bound d 1000000000 ltac:(lia)) as Em.
  set (s := d / 1000000000) in *. set (r := d mod 1000000000) in *. assert (Hs : 0 <= s < 8000000) by lia.
  assert (L : (inject_Z s <= d # 1000000000)%Q) by (unfold Qle; simpl; lia).
  assert (U : (d # 1000000000 <= inject_Z ((s + 1) * 2 ^ 30 - 1) * pow2 (- (30)))%Q).
  { change (pow2 (- (30))) with (1 # 1073741824). unfold Qle; simpl. lia. }
  destruct (rnd_dyadic 30 ((s + 1) * 2 ^ 30 - 1)) as (hi & Ehi); [lia|lia|].
  pose proof (rnd_mono _ _ L) as R1. rewrite rnd_Z in R1 by lia. pose proof (rnd_mono _ _ U) as R2. rewrite (proj1 Ehi) in R2.
  unfold number_div, Zdivf. destruct (rnd (d # 1000000000)) as [|[]|q] eqn:Eq; try done. exists q. split; [done|].
  pose proof (exact_at_le _ _ _ _ Ehi Eq U) as V2. apply Qle_bool_iff in R1.
  change (pow2 (- (30))) with (1 # 1073741824) in V2.
  destruct q as [n m]. unfold int_of_json, ftrunc. unfold Qle in R1, V2. simpl in R1, V2. simpl Qnum. simpl Qden.
  rewrite Z.quot_div_nonneg by nia. f_equal. symmetry. apply (Z.div_unique_pos n (Zpos m) s (n - Zpos m * s)); nia.
Qed.

Definition seconds_of (start : Z) (acc : plot_acc) (evs : list fields) : Prop :=
  pa_run_start_ns acc = JInt start /\
  forall s, default 0 (dict_get (pa_completions_by_sec acc) s) = Z.of_nat (count (in_second start s) evs).

Lemma seconds_step start acc acc' evs e :
  bench_event e = true -> later_in_run start e = true -> plot_event acc e = Ok acc' ->
  seconds_of start acc evs -> seconds_of start acc' (evs ++ [e]).
Proof.
  intros Hb Hl Hp [Hs Hc]. destruct acc as [lats secs st counts]. cbn [pa_run_start_ns pa_completions_by_sec] in Hs, Hc. subst st.
  unfold later_in_run in Hl. apply andb_prop in Hl as [Hr%negb_true_iff Hl]. unfold plot_event in Hp. rewrite Hr in Hp.
  destruct (op_is e "complete") eqn:Ec; cbn [negb orb] in Hl, Hp.
  - unfold bench_event in Hb. rewrite Ec in Hb. cbn [negb orb] in Hb. apply andb_prop in Hb as [[Hb _]%andb_prop _].
    apply andb_prop in Hb as [[Hw (c & Hc1 & Hc2 & _)%ns_field]%andb_prop (b & Hb1 & _ & Rb)%ns_field].
    rewrite Hc2 in Hl. apply andb_prop in Hl as [?%Z.leb_le ?%Z.ltb_lt]. unfold item_of in Hp. rewrite Hc1, Hb1 in Hp.
    destruct (hash_key (field_or e "status" (JStr "?"))) as [k| |]; try discriminate. cbn -[number_div int_of_json Z.pow] in Hp.
    destruct (number_div (inl (c - b)) 1000000) as [ms| |]; try discriminate. cbn -[number_div int_of_json Z.pow] in Hp.
    destruct (second_exact (c - start)) as (q & Eq & Es); [lia|]. rewrite Eq in Hp. cbn [mbind res_bind] in Hp. rewrite Es in Hp.
    injection Hp as <-. split; [done|]. intros s. cbn [pa_completions_by_sec]. rewrite bump_get, Hc, count_snoc. f_equal.
    unfold in_second. rewrite Ec, Hc2. cbn [andb].
    pose proof (Z.div_mod (c - start) (10 ^ 9) ltac:(lia)) as Ed. pose proof (Z.mod_pos_bound (c - start) (10 ^ 9) ltac:(lia)) as Em.
    destruct (decide (s = (c - start) / 10 ^ 9)) as [E|N].
    + destruct (Z.leb_spec (start + s * 10 ^ 9) c); [|nia]. destruct (Z.ltb_spec c (start + (s + 1) * 10 ^ 9)); [done|nia].
    + destruct (Z.leb_spec (start + s * 10 ^ 9) c), (Z.ltb_spec c (start + (s + 1) * 10 ^ 9)); try done. exfalso. apply N.
      apply (Z.div_unique_pos (c - start) (10 ^ 9) s (c - start - 10 ^ 9 * s)); lia.
  - assert (Hsame : pa_run_start_ns acc' = JInt start /\ pa_completions_by_sec acc' = secs).
    { destruct (op_is e "timeout"); [|by injection Hp as <-].
      destruct (hash_key (field_or e "status" (JStr "?"))) as [k| |]; try discriminate. by injection Hp as <-. }
    destruct Hsame as [H1 H2]. split; [done|]. intros s. rewrite H2, Hc, count_snoc. unfold in_second at 3. rewrite Ec. cbn [andb]. lia.
Qed.

Lemma seconds_fold start es acc acc' evs :
  forallb bench_event es = true -> forallb (later_in_run start) es = true -> fold_res plot_event acc es = Ok acc' ->
  seconds_of start acc evs -> seconds_of start acc' (evs ++ es).
Proof.
  revert acc evs. induction es as [|e es IH]; intros acc evs Hb Hl Hf H; [injection Hf as <-; by rewrite app_nil_r|].
  cbn [forallb fold_res] in *. apply andb_prop in Hb as [Hb Hbs], Hl as [Hl Hls].
  destruct (plot_event acc e) as [a1| |] eqn:E1; try discriminate. cbn [mbind res_bind] in Hf.
  change (e :: es) with ([e] ++ es). rewrite app_assoc. eapply IH; [done..|by eapply seconds_step].
Qed.

(** C25: over the history of a run [analyze] counts each terminal status exactly, measures each completed or failed
    task once (the difference of its timestamps in milliseconds, correctly rounded) and nothing else, and, when the
    history opens with its [run_start], sorts every one of them into a second of the run: where the other events are
    later events of that run, the count of second [s] is exactly the number of completions whose [completed_ns] is at
    least [s] and less than [s + 1] seconds after the start. *)
Theorem plot_counts_exact (np : numpy) (evs : list fields) (Hb : forallb bench_event evs = true) :
  exists st, analyze np (map JObj evs) = Ok st /\
    completed_count st = Z.of_nat (count (with_status "complete" "COMPLETED") evs) /\
    failed_count st = Z.of_nat (count (with_status "complete" "FAILED") evs) /\
    timeout_count st = Z.of_nat (count (with_status "timeout" "TIMEOUT") evs) /\
    latencies_ms st = map float_ms (omap duration evs) /\
    Z.of_nat (length (latencies_ms st)) = completed_count st + failed_count st /\
    (forall e rest, evs = e :: rest -> op_is e "run_start" = true ->
      total_count (completions_by_sec st) = completed_count st + failed_count st /\
      forall start, field e "wall_ns" = JInt start -> forallb (later_in_run start) rest = true ->
        forall s, default 0 (dict_get (completions_by_sec st) s) = Z.of_nat (count (in_second start s) evs)).
Proof.
  destruct (plot_fold _ [] evs Hb tallies_start) as (acc & E & [T1 T2 T3 T4 _] & _). cbn [app] in *.
  exists (plot_stats_of np acc). unfold analyze. rewrite fold_with_get, E.
  cbn [mbind res_bind mret plot_stats_of completed_count failed_count
    timeout_count latencies_ms completions_by_sec]. rewrite T1, T2, T3, T4. split; [done|]. do 4 (split; [done|]).
  assert (L : Z.of_nat (length (map float_ms (omap duration evs))) =
    Z.of_nat (count (with_status "complete" "COMPLETED") evs) + Z.of_nat (count (with_status "complete" "FAILED") evs)).
  { rewrite length_map, bench_durations by done. lia. }
  split; [exact L|]. intros e rest -> Ho. cbn [forallb] in Hb. apply andb_prop in Hb as [He Hr].
  assert (Hw : ns_ok (field e "wall_ns") = true).
  { unfold bench_event in He. rewrite Ho in He. by apply andb_prop in He as [_ ?]. }
  destruct (plot_step _ [] e He tallies_start) as (a1 & E1 & R1 & _).
  destruct (plot_fold a1 [e] rest Hr R1) as (a2 & E2 & R2 & S2). cbn [fold_res] in E. rewrite E1 in E. cbn [mbind res_bind] in E.
  assert (a2 = acc) as -> by congruence. unfold plot_event in E1. rewrite Ho in E1. injection E1 as <-. split.
  - rewrite <- L, <- T1. apply S2. split; [|done]. cbn. intros N. by rewrite N in Hw.
  - intros start Est Hl. apply (seconds_fold start rest _ acc [e] Hr Hl E2). split; [exact Est|]. intros s.
    rewrite count_cons. unfold in_second at 1. by rewrite (op_is_other e "run_start" "complete" Ho).
Qed.

Definition ex_history : list fields :=
  [[("op", JStr "run_start"); ("wall_ns", JInt 1000000000)];
   [("op", JStr "submit"); ("task_id", JStr "a")];
   [("op", JStr "complete"); ("status", JStr "COMPLETED"); ("submitted_ns", JInt 2000000000); ("completed_ns", JInt 2002500000)];
   [("op", JStr "complete"); ("status", JStr "FAILED"); ("submitted_ns", JInt 2000000000); ("completed_ns", JInt 4001000000)];
   [("op", JStr "timeout"); ("status", JStr "TIMEOUT")]]%string.

Definition ex_numpy : numpy := Numpy (fun l _ => default NaN (head l)) (fun l => default NaN (head l)).

Lemma plot_counts_exact_witness :
  forallb bench_event ex_history = true /\
  exists st, analyze ex_numpy (map JObj ex_history) = Ok st /\ latencies_ms st = map float_ms [2500000; 2001000000] /\
    total_count (completions_by_sec st) = 2 /\
    map (fun s => default 0 (dict_get (completions_by_sec st) s)) [0; 1; 2; 3] = [0; 1; 0; 1].
Proof.
  assert (H : forallb bench_event ex_history = true) by (vm_compute; reflexivity).
  split; [exact H|].
  destruct (plot_counts_exact ex_numpy ex_history H) as (st & E & C & F & _ & L & _ & T). exists st. split; [exact E|].
  split; [exact L|]. destruct (T _ _ eq_refl eq_refl) as [T1 T2]. split; [rewrite T1, C, F; reflexivity|].
  cbn [map]. rewrite !(T2 1000000000 eq_refl eq_refl). reflexivity.
Defined.
