(* ===== verification/PlotExp2.v ===== *)
(** * PlotExp2: the graphs of experiment 2 (experiments/exp2/plot_exp2.py)

    The collector's CSV files are read back ([load_csv]), a figure is looked up by
    rate and column ([get]), and five figures are drawn.  [fig_*] are the figures
    as lists of what is drawn ([Draw]). *)

From stdpp Require Import base list strings.
From Stdlib Require Import ZArith QArith.QArith_base.
From S2P Require Import Prelude PyFloat PyStr PyDict Json Draw Runtime Csv History.

Local Open Scope Z_scope.
Local Open Scope driftless_scope.

(** ** Loading *)

Definition RESULTS : string := "experiments/exp2/results".

Definition load_csv `{Env} {S} (path : string) : M S (list dict_row) :=
  text ← read_file path;
  lift (dict_reader text).

(** The candidate last modified; of several, the last the directory lists. *)
Definition newest (candidates : list (string * float)) : option string :=
  fst <$> last (isort (fun p q => fle p.2 q.2) candidates).

Definition latest `{Env} {S} (prefix : string) : M S string :=
  candidates ← ask (CGlob RESULTS (prefix ^^ "_") ".csv");
  of_option (Exn OtherError ("No " ^^ prefix ^^ "_*.csv in " ^^ RESULTS)) (newest candidates).

Definition RATES : list Z := [100; 500; 1000].

(** [r[k]] of a row, and the string methods that fail on [None]. *)
Definition cell (r : dict_row) (k : string) : res (option string) :=
  res_of_option (key_error k) (dict_get (dr_cells r) k).

Definition has_rate (r : dict_row) (rate : Z) : res bool :=
  label ← cell r "label";
  match label with
  | Some l => mret (endswith l ("_" ^^ str_of_Z rate ^^ "tpm"))
  | None => Raise (Exn AttributeError "'NoneType' object has no attribute 'endswith'")
  end.

Definition float_cell (r : dict_row) (k : string) : res float :=
  v ← cell r k;
  match v with
  | Some s => res_of_option (Exn ValueError ("could not convert string to float: " ^^ repr_str s)) (float_of_str s)
  | None => Raise (Exn TypeError "float() argument must be a string or a real number, not 'NoneType'")
  end.

Fixpoint get (rows : list dict_row) (rate : Z) (field : string) : res float :=
  match rows with
  | [] => mret (Fin 0)
  | r :: rows' =>
      here ← has_rate r rate;
      if (here : bool) then float_cell r field else get rows' rate field
  end.

Definition at_rates (rows : list dict_row) (field : string) : res (list float) := map_res (fun r => get rows r field) RATES.

(** [max] of floats, from the first on. *)
Definition greatest (l : list float) : float :=
  match l with [] => NaN | x :: l' => fold_left fmax l' x end.

Definition p50_max (five_node : list dict_row) : res float :=
  vs ← at_rates five_node "p50_ms"; mret (greatest vs).

Definition five_valid (p50 : float) : bool := flt p50 (Fin (60000 # 1)).

(** ** Style *)

Definition BLUE3 : string := "#2980b9".
Definition GREEN5 : string := "#27ae60".
Definition ORANGE : string := "#e67e22".
Definition RED : string := "#e74c3c".
Definition GRAY : string := "#95a5a6".
Definition DARK : string := "#2c3e50".

(** A float literal of the source. *)
Definition lit (q : Q) : float := rnd q.
Definition half (w : float) : float := default NaN (fdiv w (Fin (2 # 1))).

(** [np.arange(n) + d]. *)
Definition arange_plus (n : nat) (d : float) : list xpos :=
  map (fun i => XNum (inr (fadd (Zval (Z.of_nat i)) d))) (seq 0 n).

Definition same_color {A} (l : list A) (c : string) : list string := map (fun _ => c) l.

Definition bars_at (panel : nat) (shift w : float) (heights : list float) (color label : string) : artist :=
  Bars panel (arange_plus (length heights) shift) w (map inr heights) (same_color heights color) label.

(** [ax.text] over the centres of bars, from the [first] of the panel on. *)
Definition over_bars (panel first : nat) (dy : float -> num) (text : float -> string) (color : string)
    (heights : list float) : figure :=
  imap (fun i h => Text panel (XBar (first + i)) (num_add (inr h) (dy h)) (text h) color) heights.

Definition ticks (panel : nat) (labels : list string) : artist :=
  Ticks panel (map (fun i => inl (Z.of_nat i)) (seq 0 (length labels))) labels.

(** [v / 1000]. *)
Definition thousandth (v : float) : float := default NaN (fdiv v (Fin (1000 # 1))).

(** ** Figure 1: throughput *)

Definition rate_line (w : float) (i : nat) (rate : Z) : artist :=
  HLine 0 (inl rate) (inr (fsub (Zval (Z.of_nat i)) w)) (inr (fadd (Zval (Z.of_nat i)) w)) GRAY.

Definition fail_text (x : float) (s f : float) : res artist :=
  n ← int_of_json (JFloat f);
  mret (Text 1 (XNum (inr x)) (num_add (inr s) (inl 15)) ("fail=" ^^ str_of_Z n) GREEN5).

(** The two failure counts over the bars of a rate. *)
Definition fail_texts (w : float) (s3 s5 : list float) (iab : nat * (float * float)) : res figure :=
  let '(i, (a, b)) := iab in
  let x := Zval (Z.of_nat i) in
  t3 ← fail_text (fsub x (half w)) (nth i s3 NaN) a;
  t5 ← fail_text (fadd x (half w)) (nth i s5 NaN) b;
  mret [t3; t5].

Definition fig_throughput (three_node five_node : list dict_row) : res figure :=
  let w := lit (3 # 10) in
  t3 ← at_rates three_node "actual_rate_tpm";
  t5 ← at_rates five_node "actual_rate_tpm";
  let top :=
    [bars_at 0 (fneg (half w)) w t3 BLUE3 "3-node"; bars_at 0 (half w) w t5 GREEN5 "5-node"]
    ++ imap (rate_line w) RATES
    ++ over_bars 0 0 (fun _ => inl 8) (fmt_fixed 0) DARK t3 ++ over_bars 0 3 (fun _ => inl 8) (fmt_fixed 0) DARK t5
    ++ [ticks 0 (map (fun r => str_of_Z r ^^ " tpm") RATES);
        Axes 0 "A. Actual Throughput Achieved" "Target rate" "Actual tasks/min"; YLim 0 (inl 0) (Some (inl 1150))] in
  s3 ← at_rates three_node "submitted";
  s5 ← at_rates five_node "submitted";
  f3 ← at_rates three_node "failed";
  f5 ← at_rates five_node "failed";
  texts ← map_res (fail_texts w s3 s5) (imap pair (zip f3 f5));
  mret ([SupTitle "Experiment 2 — Throughput vs. Coordinator Cluster Size"] ++ top ++
    [bars_at 1 (fneg (half w)) w s3 BLUE3 "3-node"; bars_at 1 (half w) w s5 GREEN5 "5-node"] ++ concat texts ++
    [ticks 1 (map (fun r => str_of_Z r ^^ " tpm") RATES);
     Axes 1 "B. Tasks Submitted — 0% Failure Rate" "Target rate" "Tasks submitted"; YLim 1 (inl 0) (Some (inl 2400))]).

(** ** Figure 2: latency percentiles *)

Definition latency_panel (three_node five_node : list dict_row) (valid : bool) (k : nat * (string * string)) : res figure :=
  let '(panel, (field, label)) := k in
  let w := if valid then lit (3 # 10) else lit (45 # 100) in
  v3 ← at_rates three_node field;
  drawn ← (if valid then
    v5 ← at_rates five_node field;
    mret ([bars_at panel (fneg (half w)) w v3 BLUE3 "3-node"; bars_at panel (half w) w v5 GREEN5 "5-node"]
            ++ over_bars panel 0 (fun _ => inl 8) (fmt_fixed 0) DARK (v3 ++ v5),
          fmax (greatest v3) (greatest v5))
  else
    mret ([bars_at panel (Fin 0) w v3 BLUE3 ""] ++ over_bars panel 0 (fun _ => inl 8) (fmt_fixed 0) DARK v3, greatest v3));
  let '(bars, y_max) := drawn in
  mret (bars ++ [ticks panel (map (fun r => str_of_Z r ^^ newline ^^ "tpm") RATES);
                 Axes panel (label ^^ " Latency (ms)") "Submission rate" "ms";
                 YLim panel (inl 0) (Some (num_max (inr (fmul y_max (lit (145 # 100)))) (inl 50)))]).

(** [("p50_ms", "p50")] and so on, with the labels in upper case. *)
Definition latency_metrics : list (string * string) :=
  [("p50_ms", "P50"); ("p95_ms", "P95"); ("p99_ms", "P99")]%string.

Definition fig_latency (three_node five_node : list dict_row) (valid : bool) : res figure :=
  let note := if valid then "3-node vs 5-node, per-measurement-window"
              else "3-node only — 5-node excluded (election storm)" in
  panels ← map_res (latency_panel three_node five_node valid) (imap pair latency_metrics);
  mret (SupTitle ("Experiment 2 — Assignment Latency" ^^ newline ^^ "(" ^^ note ^^ ")") :: concat panels).

(** ** Figure 3: latency breakdown *)

Definition breakdown_fields : list string := ["p50_ms"; "p95_ms"; "p99_ms"; "max_ms"]%string.
Definition breakdown_labels : list string := ["p50"; "p95"; "p99"; "max"]%string.

Definition latency_label (v : float) : string :=
  if fle (Fin (1000 # 1)) v then fmt_fixed 0 (thousandth v) ^^ "s" else fmt_fixed 0 v ^^ "ms".

(** Bars with a label only where they are visible. *)
Definition positive_labels (panel : nat) (dy : float -> num) (text : float -> string) (heights : list float) : figure :=
  concat (imap (fun i v => if flt (Fin 0) v then [Text panel (XBar i) (num_add (inr v) (dy v)) (text v) DARK] else []) heights).

Definition breakdown_panel (three_node five_node : list dict_row) (valid : bool) (k : nat * Z) : res figure :=
  let '(panel, rate) := k in
  let w := lit (35 # 100) in
  v3 ← map_res (get three_node rate) breakdown_fields;
  v5 ← (if valid then map_res (get five_node rate) breakdown_fields else mret []);
  let five_max : num := if valid then inr (greatest v5) else inl 0 in
  let y_top := num_add (num_mul (num_max (inr (greatest v3)) five_max) (inr (lit (135 # 100)))) (inl 200) in
  outlier ← (if rate =? 1000 then
    m ← get three_node 1000 "max_ms"; mret (flt (Fin (10000 # 1)) m) else mret false);
  mret ([bars_at panel (fneg (half w)) w v3 BLUE3 "3-node"] ++
        (if valid then [bars_at panel (half w) w v5 GREEN5 "5-node"] else []) ++
        positive_labels panel (fun v => num_max (inr (fmul v (lit (3 # 100)))) (inl 20)) latency_label (v3 ++ v5) ++
        [ticks panel breakdown_labels; Axes panel (str_of_Z rate ^^ " tpm") "Percentile" "Latency (ms)";
         YLim panel (inl 0) (Some (num_max y_top (inl 1500)))] ++
        (if 500 <=? rate then
          [Text panel (XFrac (inr (lit (97 # 100)))) (inr (lit (72 # 100)))
             ("SQS long-poll" ^^ newline ^^ "batch artifact" ^^ newline ^^ "(~1 s)") ORANGE] else []) ++
        (if (outlier : bool) then
          [Text panel (XFrac (inr (lit (97 # 100)))) (inr (lit (95 # 100)))
             ("3-node max:" ^^ newline ^^ "election stall" ^^ newline ^^ "outlier (†)") RED] else [])).

Definition fig_latency_breakdown (three_node five_node : list dict_row) (valid : bool) : res figure :=
  panels ← map_res (breakdown_panel three_node five_node valid) (imap pair RATES);
  mret ([SupTitle ("Experiment 2 — Assignment Latency Distribution by Rate" ^^ newline ^^
                   "(p50=0 ms everywhere; p95 step driven by SQS long-poll batching)")] ++ concat panels ++
        [Caption (inr (lit (5 # 10))) (inr (fneg (lit (2 # 100))))
           ("† 3-node 1000 tpm max = 128 s: single task stalled during 3→5-node redeployment. " ^^
            "Not a steady-state value.") GRAY]).

(** ** Figure 4: scorecard *)

Definition _fmt (val_ms : float) : string :=
  if feq val_ms (Fin 0) then "0 ms"
  else if fle (Fin (60000 # 1)) val_ms then "N/A †"
  else if fle (Fin (1000 # 1)) val_ms then
    if flt val_ms (Fin (10000 # 1)) then fmt_fixed 0 (thousandth val_ms) ^^ ",000 ms"
    else fmt_fixed 0 (thousandth val_ms) ^^ " s"
  else fmt_fixed 0 val_ms ^^ " ms".

(** [str(int(v))]. *)
Definition int_text (v : float) : res string := n ← int_of_json (JFloat v); mret (str_of_Z n).

Definition score_cell (rows : list dict_row) (field : string) (fmt_fn : float -> res string) (rate : Z) : res string :=
  v ← get rows rate field; fmt_fn v.

Definition row (three_node five_node : list dict_row) (metric field : string) (fmt_fn : float -> res string) : res (list string) :=
  c3 ← map_res (score_cell three_node field fmt_fn) RATES;
  c5 ← map_res (score_cell five_node field fmt_fn) RATES;
  mret (metric :: c3 ++ c5).

Definition rows_data (three_node five_node : list dict_row) : res (list (list string)) :=
  let r := row three_node five_node in
  submitted ← r "Submitted" "submitted" int_text;
  failed ← r "Failed" "failed" int_text;
  rate ← r "Actual rate tpm" "actual_rate_tpm" (fun v => mret (fmt_fixed 1 v));
  p50 ← r "p50 latency" "p50_ms" (fun v => mret (_fmt v));
  p95 ← r "p95 latency" "p95_ms" (fun v => mret (_fmt v));
  p99 ← r "p99 latency" "p99_ms" (fun v => mret (_fmt v));
  max_ ← r "max latency" "max_ms" (fun v => mret (_fmt v));
  mret [submitted; failed; rate; ["Failure rate"; "0%"; "0%"; "0%"; "0%"; "0%"; "0%"]%string; p50; p95; p99; max_].

Definition cell_color (val : string) : string :=
  if String.eqb val "0" || String.eqb val "0%" || String.eqb val "0 ms" then "#d5f5e3"
  else if contains "N/A" val then "#fef9e7"
  else "#fdfefe".

(** Each row with its colours; the first column has its own. *)
Definition colored_row (cells : list string) : list (string * string) :=
  match cells with
  | [] => []
  | metric :: vals => (metric, "#ecf0f1"%string) :: map (fun v => (v, cell_color v)) vals
  end.

Definition score_columns : list string :=
  "Metric"%string :: map (fun p => p.1 ^^ newline ^^ str_of_Z p.2 ^^ " tpm")
    (map (pair "3-node"%string) RATES ++ map (pair "5-node"%string) RATES).

Definition fig_scorecard (three_node five_node : list dict_row) (valid : bool) : res figure :=
  rows ← rows_data three_node five_node;
  let footnote :=
    if valid then "† 3-node 1000 tpm max = 128 s: single election-stall outlier during " ^^
                  "3→5-node redeployment, not steady-state."
    else "† 5-node latency invalid: election storm — dispatched_at set " ^^ "~12 h after task creation." in
  mret [Table 0 score_columns (map colored_row rows);
        Axes 0 "Experiment 2 — Full Results Scorecard" "" "";
        Text 0 (XFrac (inr (lit (1 # 100)))) (inr (fneg (lit (4 # 100)))) footnote GRAY].

(** ** Figure 5: the two clusters compared *)

Definition comparison_fields : list string := ["p50_ms"; "p95_ms"; "p99_ms"]%string.
Definition comparison_labels : list string := ["p50"; "p95"; "p99"]%string.

(** Rates with their two colours and their offset in widths. *)
Definition rate_styles : list (Z * (string * string) * Q) :=
  [(100, ("#2980b9", "#1abc9c"), -2 # 1); (500, ("#8e44ad", "#16a085"), 0%Q); (1000, ("#c0392b", "#d35400"), 2 # 1)]%string.

Definition offset_of (w : float) (k : Q) : float := fmul (Fin k) w.

(** [x + d - h] of an axis position. *)
Definition shifted_bars (panel : nat) (d h w : float) (heights : list float) (color label : string) : artist :=
  Bars panel (map (fun i => XNum (inr (fadd (fadd (Zval (Z.of_nat i)) d) h))) (seq 0 (length heights))) w
    (map inr heights) (same_color heights color) label.

(** The labels over the visible ones of the bars from the [first] on. *)
Definition visible_labels (first : nat) (dy : Z) (heights : list float) : figure :=
  concat (imap (fun i v => if flt (Fin 0) v then [Text 0 (XBar (first + i)) (num_add (inr v) (inl dy)) (fmt_fixed 0 v) DARK] else [])
               heights).

Definition pair_of_bars (three_node five_node : list dict_row) (k : nat * (Z * (string * string) * Q)) : res figure :=
  let '(i, (rate, (c3, c5), off)) := k in
  let w := lit (13 # 100) in
  v3 ← map_res (get three_node rate) comparison_fields;
  v5 ← map_res (get five_node rate) comparison_fields;
  mret ([shifted_bars 0 (offset_of w off) (fneg (half w)) w v3 c3 ("3-node " ^^ str_of_Z rate ^^ "tpm");
         shifted_bars 0 (offset_of w off) (half w) w v5 c5 ("5-node " ^^ str_of_Z rate ^^ "tpm")]
        ++ visible_labels (6 * i) 8 (v3 ++ v5)).

Definition divergence_note (v3 v5 : float) : figure :=
  let w := lit (13 # 100) in
  if feq v5 v3 then []
  else
    [Text 0 (XNum (inr (fsub (Fin (1 # 1)) (lit (3 # 10))))) (inl 700)
       ("Only divergence:" ^^ newline ^^ "5-node p95 = " ^^ fmt_fixed 0 v5 ^^ " ms" ^^ newline ^^ "3-node p95 = " ^^
        fmt_fixed 0 v3 ^^ " ms" ^^ newline ^^ "(extra follower RTT" ^^ newline ^^ "crosses SQS batch threshold)") DARK;
     Point 0 (inr (fadd (fadd (Fin (1 # 1)) (offset_of w (-2 # 1))) (half w))) (inr v5) DARK].

Definition rate_colors : list (Z * string * Q) :=
  [(100, "#2980b9", -1 # 1); (500, "#8e44ad", 0%Q); (1000, "#c0392b", 1 # 1)]%string.

Definition single_bars (three_node : list dict_row) (k : nat * (Z * string * Q)) : res figure :=
  let '(i, (rate, c, off)) := k in
  let w := lit (25 # 100) in
  vals ← map_res (get three_node rate) comparison_fields;
  mret (shifted_bars 0 (offset_of w off) (Fin 0) w vals c (str_of_Z rate ^^ " tpm") :: visible_labels (3 * i) 10 vals).

Definition fig_cluster_comparison (three_node five_node : list dict_row) (valid : bool) : res figure :=
  if valid then
    bars ← map_res (pair_of_bars three_node five_node) (imap pair rate_styles);
    v3_100_p95 ← get three_node 100 "p95_ms";
    v5_100_p95 ← get five_node 100 "p95_ms";
    mret (concat bars ++ divergence_note v3_100_p95 v5_100_p95 ++
      [ticks 0 comparison_labels;
       Axes 0 ("3-node vs 5-node: Latency Identical at p95/p99 for ≥500 tpm" ^^ newline ^^
               "(only divergence: 5-node p95 = 1,000 ms at 100 tpm vs 0 ms for 3-node)") "" "Latency (ms)";
       YLim 0 (inl 0) (Some (inl 1500))])
  else
    bars ← map_res (single_bars three_node) (imap pair rate_colors);
    mret (concat bars ++
      [ticks 0 comparison_labels;
       Axes 0 "3-node Latency by Rate (5-node excluded — election storm)" "" "Latency (ms)";
       YLim 0 (inl 0) (Some (inl 1400))]).

(** ** The script *)

Definition save `{Env} {S} (name : string) (fig : res figure) : M S unit :=
  f ← lift fig; tell (Ev (CSaveFig (path_join RESULTS name) f) tt).

(** The two files named, or the newest ones. *)
Definition input_paths `{Env} {S} (argv : list string) : M S (string * string) :=
  match argv with
  | a :: b :: _ => mret (a, b)
  | _ => a ← latest "3node"; b ← latest "5node"; mret (a, b)
  end.

Definition plot_exp2 `{Env} {S} (argv : list string) : M S unit :=
  paths ← input_paths argv;
  let '(three_node_path, five_node_path) := paths in
  three_node ← load_csv three_node_path;
  five_node ← load_csv five_node_path;
  p50 ← lift (p50_max five_node);
  let valid := five_valid p50 in
  save "fig1_throughput.png" (fig_throughput three_node five_node);;
  save "fig2_latency_percentiles.png" (fig_latency three_node five_node valid);;
  save "fig3_latency_breakdown.png" (fig_latency_breakdown three_node five_node valid);;
  save "fig4_scorecard.png" (fig_scorecard three_node five_node valid);;
  save "fig5_cluster_comparison.png" (fig_cluster_comparison three_node five_node valid).

(** ** The figures can always be drawn

    A data set is [sound] when every figure the plots look up is a finite number. *)

Definition plotted_fields : list string :=
  ["p50_ms"; "p95_ms"; "p99_ms"; "max_ms"; "submitted"; "failed"; "actual_rate_tpm"]%string.

Definition sound (rows : list dict_row) : Prop :=
  forall field rate, field ∈ plotted_fields -> exists q, get rows rate field = Ok (Fin q).

Definition finite (x : float) : Prop := is_fin x = true.
Lemma sound_get rows rate field : sound rows -> field ∈ plotted_fields -> returns finite (get rows rate field).
Proof. intros H Hf. destruct (H field rate Hf) as (q & ->). by exists (Fin q). Qed.

Ltac plotted := unfold plotted_fields; rewrite ?elem_of_cons; tauto.

(** The steps of a figure: looked-up values, then what is drawn from them. *)
Ltac figure_steps :=
  repeat first
    [ apply returns_ret; exact I
    | eapply returns_bind; [apply (returns_map finite); intros ? _; apply sound_get; [done|plotted]|intros ? ?]
    | eapply returns_bind; [apply sound_get; [done|plotted]|intros ? ?] ].

Lemma int_text_returns x : finite x -> returns any (int_text x).
Proof. destruct x as [| |q]; [done|done|]. intros _. by eexists. Qed.

Lemma fail_text_returns x s f : finite f -> returns any (fail_text x s f).
Proof. destruct f as [| |q]; [done|done|]. intros _. by eexists. Qed.

Lemma at_rates_returns rows field : sound rows -> field ∈ plotted_fields -> returns (Forall finite) (at_rates rows field).
Proof. intros H Hf. apply returns_map. intros rate _. by apply sound_get. Qed.

Lemma fail_texts_returns w s3 s5 f3 f5 k : Forall finite f3 -> Forall finite f5 -> k ∈ imap pair (zip f3 f5) ->
  returns any (fail_texts w s3 s5 k).
Proof.
  rewrite !Forall_forall. intros H3 H5 Hk. apply elem_of_lookup_imap in Hk as (j & [x y] & -> & Hl).
  apply list_elem_of_lookup_2, list_elem_of_In in Hl. unfold fail_texts.
  apply (returns_bind any); [apply fail_text_returns, H3|intros t3 _; apply (returns_bind any)].
  - apply in_combine_l in Hl. by apply list_elem_of_In.
  - apply fail_text_returns, H5. apply in_combine_r in Hl. by apply list_elem_of_In.
  - intros t5 _. by apply returns_ret.
Qed.

Lemma fig_throughput_returns three five : sound three -> sound five -> returns any (fig_throughput three five).
Proof.
  intros H3 H5. unfold fig_throughput.
  do 4 (eapply returns_bind; [apply at_rates_returns; [done|plotted]|intros ? _]).
  eapply returns_bind; [apply at_rates_returns; [done|plotted]|intros f3 F3].
  eapply returns_bind; [apply at_rates_returns; [done|plotted]|intros f5 F5].
  eapply returns_bind; [apply (returns_map any); intros k Hk; by apply (fail_texts_returns _ _ _ f3 f5)|intros ts _].
  by apply returns_ret.
Qed.

Lemma latency_panel_returns three five valid k : sound three -> sound five -> k ∈ imap pair latency_metrics ->
  returns any (latency_panel three five valid k).
Proof.
  intros H3 H5 Hk. assert (Hf : k.2.1 ∈ plotted_fields).
  { apply elem_of_lookup_imap in Hk as (j & [f l] & -> & Hl). apply list_elem_of_lookup_2 in Hl. unfold latency_metrics in Hl.
    rewrite !elem_of_cons, elem_of_nil in Hl. destruct Hl as [[= -> ->]|[[= -> ->]|[[= -> ->]|[]]]]; plotted. }
  destruct k as [panel [field label]]. unfold latency_panel, at_rates. cbn [fst snd] in Hf.
  eapply returns_bind; [apply (returns_map finite); intros ? _; by apply sound_get|intros v3 _].
  apply (returns_bind any); [|intros [bars y_max] _; by apply returns_ret]. destruct valid; [|by apply returns_ret].
  eapply returns_bind; [apply (returns_map finite); intros ? _; by apply sound_get|intros v5 _]. by apply returns_ret.
Qed.

Lemma fields_sound rows rate (fields : list string) : sound rows -> forallb (fun f => existsb (String.eqb f) plotted_fields) fields = true ->
  returns (Forall finite) (map_res (get rows rate) fields).
Proof.
  intros H Hf. apply returns_map. intros f Hin. apply sound_get; [done|]. apply list_elem_of_In in Hin.
  rewrite forallb_forall in Hf. specialize (Hf f Hin). apply existsb_exists in Hf as (g & Hg & ->%String.eqb_eq). by apply list_elem_of_In.
Qed.

Lemma breakdown_panel_returns three five valid k : sound three -> sound five -> returns any (breakdown_panel three five valid k).
Proof.
  intros H3 H5. destruct k as [panel rate]. unfold breakdown_panel.
  eapply returns_bind; [by apply fields_sound|intros v3 _]. apply (returns_bind any).
  { destruct valid; [|by apply returns_ret]. destruct (fields_sound five rate breakdown_fields H5 eq_refl) as (vs & -> & _). by exists vs. }
  intros v5 _. apply (returns_bind any); [|intros o _; by apply returns_ret].
  destruct (rate =? 1000); [|by apply returns_ret]. figure_steps.
Qed.

Lemma score_row_returns three five metric field fmt_fn : sound three -> sound five -> field ∈ plotted_fields ->
  (forall v, finite v -> returns any (fmt_fn v)) -> returns any (row three five metric field fmt_fn).
Proof.
  intros H3 H5 Hf Hfmt. assert (K : forall rows, sound rows -> returns (Forall any) (map_res (score_cell rows field fmt_fn) RATES)).
  { intros rows Hs. apply returns_map. intros rate _. unfold score_cell. eapply returns_bind; [by apply sound_get|exact Hfmt]. }
  unfold row. eapply returns_bind; [by apply K|intros c3 _]. eapply returns_bind; [by apply K|intros c5 _]. by apply returns_ret.
Qed.

Lemma fig_scorecard_returns three five valid : sound three -> sound five -> returns any (fig_scorecard three five valid).
Proof.
  intros H3 H5. unfold fig_scorecard. apply (returns_bind any); [|intros rows _; by apply returns_ret]. unfold rows_data.
  repeat (eapply returns_bind; [apply score_row_returns; [done|done|plotted|intros; first [by apply int_text_returns|by apply returns_ret]]|intros ? _]).
  by apply returns_ret.
Qed.

Lemma fig_comparison_returns three five valid : sound three -> sound five -> returns any (fig_cluster_comparison three five valid).
Proof.
  intros H3 H5. unfold fig_cluster_comparison. destruct valid.
  - eapply returns_bind; [apply (returns_map any); intros [i [[rate [c3 c5]] off]] _|intros bars _; figure_steps].
    unfold pair_of_bars. eapply returns_bind; [by apply fields_sound|intros v3 _]. eapply returns_bind; [by apply fields_sound|intros v5 _].
    by apply returns_ret.
  - eapply returns_bind; [apply (returns_map any); intros [i [[rate c] off]] _|intros bars _; by apply returns_ret].
    unfold single_bars. eapply returns_bind; [by apply fields_sound|intros v _]. by apply returns_ret.
Qed.

(** The figures a log saved. *)
Definition saved (e : event) : option string := match ev_call e with CSaveFig path _ => Some path | _ => None end.
Definition figures_saved (h : history) : list string := omap saved h.

Lemma save_run `{E : Env} {S} name (fig : res figure) (s : S) h : returns any fig ->
  exists f, save name fig s h = (Ok tt, s, h ++ [Ev (CSaveFig (path_join RESULTS name) f) tt]).
Proof. intros (f & -> & _). by exists f. Qed.

(** From sound data sets the script draws its five figures. *)
Lemma plot_exp2_run `{E : Env} {S} p3 p5 rest t3 t5 three five (s : S) h :
  (forall h, answer h (CReadFile p3) = inr t3) -> (forall h, answer h (CReadFile p5) = inr t5) ->
  dict_reader t3 = Ok three -> dict_reader t5 = Ok five -> sound three -> sound five ->
  exists l, plot_exp2 (p3 :: p5 :: rest) s h = (Ok tt, s, h ++ l) /\
    figures_saved l = map (path_join RESULTS) ["fig1_throughput.png"; "fig2_latency_percentiles.png";
      "fig3_latency_breakdown.png"; "fig4_scorecard.png"; "fig5_cluster_comparison.png"]%string.
Proof.
  intros A3 A5 R3 R5 H3 H5. unfold plot_exp2, input_paths, load_csv, read_file, check, ask, lift. unfold mbind, M_bind, mret, M_ret.
  rewrite A3, R3, A5, R5. assert (Hp : returns any (p50_max five)).
  { unfold p50_max, at_rates. figure_steps. }
  destruct Hp as (p50 & -> & _). cbv zeta. set (valid := five_valid p50).
  set (h0 := (h ++ _) ++ _). destruct (save_run "fig1_throughput.png" (fig_throughput three five) s h0) as (f1 & ->); [by apply fig_throughput_returns|].
  set (h1 := h0 ++ _). destruct (save_run "fig2_latency_percentiles.png" (fig_latency three five valid) s h1) as (f2 & ->).
  { unfold fig_latency. eapply returns_bind; [apply (returns_map any); intros k Hk; by apply latency_panel_returns|intros ? _; by apply returns_ret]. }
  set (h2 := h1 ++ _). destruct (save_run "fig3_latency_breakdown.png" (fig_latency_breakdown three five valid) s h2) as (f3 & ->).
  { unfold fig_latency_breakdown. eapply returns_bind; [apply (returns_map any); intros k _; by apply breakdown_panel_returns|intros ? _; by apply returns_ret]. }
  set (h3 := h2 ++ _). destruct (save_run "fig4_scorecard.png" (fig_scorecard three five valid) s h3) as (f4 & ->); [by apply fig_scorecard_returns|].
  set (h4 := h3 ++ _). destruct (save_run "fig5_cluster_comparison.png" (fig_cluster_comparison three five valid) s h4) as (f5 & ->);
    [by apply fig_comparison_returns|].
  eexists. subst h4 h3 h2 h1 h0. rewrite <- !app_assoc. split; [reflexivity|]. reflexivity.
Qed.
