(* ===== verification/Recovery.v ===== *)
(** * Recovery: a follower's recovery read from CloudWatch
    (chaos-bench/follower_recovery.py)

    [observe] polls the log group of the coordinators for three kinds of lines
    and fills a timeline.  [timeline_of] says what the timeline should be, as a
    function of the events the service delivered; the two agree, and the polling
    ends.  The patterns expect the lines of Go's text handler. *)

From stdpp Require Import base list strings.
From Stdlib Require Import ZArith QArith.QArith_base Lqa.
From S2P Require Import Prelude PyFloat PyStr PyDict Json Runtime History BenchConfig Submitter Bench Regex LogPages Exp1Analysis.

Local Open Scope Z_scope.
Local Open Scope driftless_scope.

(** [role=(\w+).*?commit_index=(\d+).*?last_applied=(\d+)]: the groups are the
    first, third and fifth repetition. *)
Definition RAFT_TICK_RE : list piece :=
  [Lit "role="; Rep true 1 word_char; Rep false 0 any_char; Lit "commit_index="; Rep true 1 is_digit;
   Rep false 0 any_char; Lit "last_applied="; Rep true 1 is_digit].

(** [last_included_index=(\d+)]. *)
Definition SNAPSHOT_RESTORED_RE : list piece := [Lit "last_included_index="; Rep true 1 is_digit].

Record RecoveryTimeline : Type := mkTimeline {
  tl_node_id : string;
  tl_killed_ns : Z;
  tl_leader_commit_at_kill : Z;
  tl_restart_ns : option Z;
  tl_snapshot_restored_ns : option Z;
  tl_snapshot_last_index : option Z;
  tl_catchup_ns : option Z;
  tl_final_commit_index : option Z;
}.

(** The inner function [ms] of [to_dict]. *)
Definition ms_after (killed_ns : Z) (end_ : option Z) : res json :=
  match end_ with
  | None => mret JNull
  | Some e => ms ← ns_to_ms (e - killed_ns); mret (JFloat ms)
  end.

Definition json_opt (o : option Z) : json := match o with Some z => JInt z | None => JNull end.

Definition to_dict (tl : RecoveryTimeline) : res fields :=
  restart ← ms_after (tl_killed_ns tl) (tl_restart_ns tl);
  restored ← ms_after (tl_killed_ns tl) (tl_snapshot_restored_ns tl);
  catchup ← ms_after (tl_killed_ns tl) (tl_catchup_ns tl);
  mret [("node_id", JStr (tl_node_id tl)); ("killed_ns", JInt (tl_killed_ns tl));
        ("leader_commit_at_kill", JInt (tl_leader_commit_at_kill tl));
        ("restart_ms", restart); ("snapshot_restored_ms", restored);
        ("snapshot_last_index", json_opt (tl_snapshot_last_index tl)); ("catchup_ms", catchup);
        ("final_commit_index", json_opt (tl_final_commit_index tl));
        ("used_snapshot", JBool (bool_decide (tl_snapshot_restored_ns tl <> None)))]%string.

Record FollowerRecoveryObserver : Type := mkRecovery {
  fr_log_group : string;
  fr_node_id : string;
  fr_killed_ns : Z;
  fr_leader_commit : Z;
  fr_tol : Z;
}.

Definition _filter_events `{Env} {S B} (fuel : nat) (self : FollowerRecoveryObserver) (start_ms : Z) (pattern : string)
    (step : B -> log_event -> B * bool) (b : B) : M S B :=
  read_log (fr_log_group self) start_ms (fr_node_id self) pattern step fuel b.

(** The bodies of the three loops over events: the locals, and whether to break. *)
Definition restart_step (killed_ns : Z) (restart_ns : option Z) (ev : log_event) : option Z * bool :=
  if killed_ns <? ev_ns ev then (Some (ev_ns ev), true) else (restart_ns, false).

Definition snapshot_index (ev : log_event) : option Z :=
  caps ← search SNAPSHOT_RESTORED_RE (le_message ev); Some (int_group caps 0).

Definition snapshot_step (killed_ns : Z) (st : option Z * option Z) (ev : log_event) : (option Z * option Z) * bool :=
  if killed_ns <? ev_ns ev then
    ((Some (ev_ns ev), match snapshot_index ev with Some i => Some i | None => st.2 end), true)
  else (st, false).

Definition commit_in (ev : log_event) : option Z :=
  caps ← search RAFT_TICK_RE (le_message ev); Some (int_group caps 2).

Definition tick_step (killed_ns target : Z) (st : option Z * option Z) (ev : log_event) : (option Z * option Z) * bool :=
  if ev_ns ev <=? killed_ns then (st, false)
  else match commit_in ev with
       | None => (st, false)
       | Some ci => if target <=? ci then ((Some (ev_ns ev), Some ci), true) else ((st.1, Some ci), false)
       end.

Definition started_pat : string := char quote ^^ "coordinator started" ^^ char quote.
Definition restored_pat : string := char quote ^^ "snapshot restored" ^^ char quote.
Definition tick_pat : string := char quote ^^ "raft tick" ^^ char quote.

Definition observe_turn `{Env} {S} (fuel : nat) (self : FollowerRecoveryObserver) (start_ms : Z)
    (deadline poll_interval_s : float) (tl : RecoveryTimeline) : M S (RecoveryTimeline + RecoveryTimeline) :=
  now ← ask CTime;
  if flt now deadline then
    let '(mkTimeline node killed leader restart snap snap_idx catchup final) := tl in
    restart ← match restart with
              | None => _filter_events fuel self start_ms started_pat (restart_step (fr_killed_ns self)) None
              | Some _ => mret restart
              end;
    r ← match snap with
        | None => _filter_events fuel self start_ms restored_pat (snapshot_step (fr_killed_ns self)) (None, snap_idx)
        | Some _ => mret (snap, snap_idx)
        end;
    let '(snap, snap_idx) := r in
    r ← match catchup with
        | None =>
            let target := Z.max 0 (fr_leader_commit self - fr_tol self) in
            _filter_events fuel self start_ms tick_pat (tick_step (fr_killed_ns self) target) (None, final)
        | Some _ => mret (catchup, final)
        end;
    let '(catchup, final) := r in
    let tl := mkTimeline node killed leader restart snap snap_idx catchup final in
    match restart, catchup with
    | Some _, Some _ => mret (inr tl)
    | _, _ => sleep poll_interval_s;; mret (inl tl)
    end
  else mret (inr tl).

Definition observe `{Env} {S} (fuel : nat) (self : FollowerRecoveryObserver) (timeout_s poll_interval_s : float)
    : M S RecoveryTimeline :=
  let tl := mkTimeline (fr_node_id self) (fr_killed_ns self) (fr_leader_commit self) None None None None None in
  let start_ms := fr_killed_ns self / 1000000 - 1000 in
  now ← ask CTime;
  let deadline := fadd now timeout_s in
  while_loop fuel (observe_turn fuel self start_ms deadline poll_interval_s) tl.

(** ** What the timeline should be *)

Definition after_kill (killed_ns : Z) (ev : log_event) : bool := killed_ns <? ev_ns ev.

(** The tick counts from the kill on, as the code has it; the module comment counts
    from the restart, see [documented_rejoin]. *)
Definition caught_up (killed_ns target : Z) (ev : log_event) : bool :=
  after_kill killed_ns ev && match commit_in ev with Some ci => target <=? ci | None => false end.

(** The commit index of the tick that caught up, or else of the last tick. *)
Definition final_commit (killed_ns target : Z) (ticks : list log_event) : option Z :=
  match List.find (caught_up killed_ns target) ticks with
  | Some ev => commit_in ev
  | None => last (omap (fun ev => if after_kill killed_ns ev then commit_in ev else None) ticks)
  end.

Definition target_of (self : FollowerRecoveryObserver) : Z := Z.max 0 (fr_leader_commit self - fr_tol self).

(** The milestones are the first events of their kind after the kill. *)
Definition timeline_of (self : FollowerRecoveryObserver) (l : history) : RecoveryTimeline :=
  let k := fr_killed_ns self in
  let restored := List.find (after_kill k) (delivered restored_pat l) in
  let ticks := delivered tick_pat l in
  mkTimeline (fr_node_id self) k (fr_leader_commit self)
    (ev_ns <$> List.find (after_kill k) (delivered started_pat l))
    (ev_ns <$> restored) (restored ≫= snapshot_index)
    (ev_ns <$> List.find (caught_up k (target_of self)) ticks) (final_commit k (target_of self) ticks).

(** Rejoin as the module comment of follower_recovery.py defines it: the first raft
    tick after the restart that reaches the target. *)
Definition documented_rejoin (self : FollowerRecoveryObserver) (restart_ns : Z) (l : history) : option log_event :=
  List.find (fun ev => (restart_ns <? ev_ns ev) && caught_up (fr_killed_ns self) (target_of self) ev) (delivered tick_pat l).

(** What the reported catch-up is of the documented one: the same, unless a tick at
    or before the restart, of the dying process, counted. *)
Definition rejoin_or_early (self : FollowerRecoveryObserver) (l : history) (tl : RecoveryTimeline) : Prop :=
  forall restart, tl_restart_ns tl = Some restart ->
    tl_catchup_ns tl = ev_ns <$> documented_rejoin self restart l \/
    exists ev, ev ∈ delivered tick_pat l /\ caught_up (fr_killed_ns self) (target_of self) ev = true /\
      ev_ns ev <= restart /\ tl_catchup_ns tl = Some (ev_ns ev).

Definition complete (tl : RecoveryTimeline) : Prop := tl_restart_ns tl <> None /\ tl_catchup_ns tl <> None.

(** ** The three loops compute it *)

Lemma find_app {A} (f : A -> bool) l1 l2 :
  List.find f (l1 ++ l2) = match List.find f l1 with Some x => Some x | None => List.find f l2 end.
Proof. induction l1 as [|x l1 IH]; [done|]. simpl. by destruct (f x). Qed.

(** A loop that follows a function [F] of the events seen, until [found]. *)
Class Follows {B} (step : B -> log_event -> B * bool) (F : list log_event -> B) (found : B -> bool) : Prop := {
  follows_step evs ev : found (F evs) = false -> step (F evs) ev = (F (evs ++ [ev]), found (F (evs ++ [ev])));
  follows_done evs evs' : found (F evs) = true -> F (evs ++ evs') = F evs;
}.

Lemma follows_consume {B} step F found `{!Follows (B := B) step F found} evs1 evs2 :
  found (F evs1) = false -> (consume step (F evs1) evs2).1 = F (evs1 ++ evs2).
Proof.
  revert evs1. induction evs2 as [|ev evs2 IH]; intros evs1 Hf; [by rewrite app_nil_r|].
  cbn [consume]. rewrite follows_step by done. change (ev :: evs2) with ([ev] ++ evs2). rewrite app_assoc.
  destruct (found (F (evs1 ++ [ev]))) eqn:E; [|by apply IH]. by rewrite (follows_done (evs1 ++ [ev]) evs2 E).
Qed.

Definition seen (o : option Z) : bool := match o with Some _ => true | None => false end.

Section steps.
Context (k target : Z).

Lemma find_none_snoc f (evs : list log_event) ev :
  List.find f evs = None -> List.find f (evs ++ [ev]) = if f ev then Some ev else None.
Proof. intros H. rewrite find_app, H. simpl. by destruct (f ev). Qed.

Lemma find_some_app f (evs evs' : list log_event) x : List.find f evs = Some x -> List.find f (evs ++ evs') = Some x.
Proof. intros H. by rewrite find_app, H. Qed.

#[export] Instance restart_follows :
  Follows (restart_step k) (fun evs => ev_ns <$> List.find (after_kill k) evs) seen.
Proof.
  split; intros evs ev; (destruct (List.find _ evs) as [x|] eqn:E; [try done|try done]); intros _.
  - rewrite (find_none_snoc _ _ _ E). unfold restart_step, after_kill. by destruct (k <? ev_ns ev).
  - by rewrite (find_some_app _ _ _ _ E).
Qed.

#[export] Instance snapshot_follows :
  Follows (snapshot_step k)
    (fun evs => (ev_ns <$> List.find (after_kill k) evs, List.find (after_kill k) evs ≫= snapshot_index)) (fun st => seen st.1).
Proof.
  split; intros evs ev; (destruct (List.find _ evs) as [x|] eqn:E; [try done|try done]); intros _.
  - rewrite (find_none_snoc _ _ _ E). unfold snapshot_step, after_kill. destruct (k <? ev_ns ev); [|done].
    simpl. by destruct (snapshot_index ev).
  - by rewrite (find_some_app _ _ _ _ E).
Qed.

#[export] Instance tick_follows :
  Follows (tick_step k target) (fun evs => (ev_ns <$> List.find (caught_up k target) evs, final_commit k target evs))
    (fun st => seen st.1).
Proof.
  split; intros evs ev; unfold final_commit; (destruct (List.find _ evs) as [x|] eqn:E; [try done|try done]); intros _.
  - rewrite (find_none_snoc _ _ _ E), omap_app. unfold tick_step, caught_up, after_kill. simpl.
    rewrite Z.ltb_antisym. destruct (ev_ns ev <=? k); simpl; [by rewrite app_nil_r|].
    destruct (commit_in ev) as [ci|] eqn:Ec; simpl; [|by rewrite app_nil_r].
    destruct (target <=? ci); simpl; [by rewrite Ec|]. by rewrite last_snoc.
  - by rewrite (find_some_app _ _ _ _ E).
Qed.
End steps.

Section observing.
Context `{E : Env} {S : Type} (self : FollowerRecoveryObserver) (fuel k : nat) (start_ms : Z).
Context (Hpages : paginated E k) (Hfuel : (k < fuel)%nat).

(** A log grown from [lb] as the history grew from [hb], without writing. *)
Definition along (lb hb l h : history) : Prop := exists l', h = hb ++ l' /\ l = lb ++ l' /\ texts l' = [].

(** A stage of a turn: its milestone is known, or the log is read for it. *)
Lemma stage_next {B C} step F found `{!Follows (B := B) step F found} pat lb hb l (m : M S B) (cont : B -> M S C)
    (Q : post (S := S) C) (s : S) h :
  m = (if found (F (delivered pat l)) then mret (F (delivered pat l))
       else _filter_events fuel self start_ms pat step (F (delivered pat l))) ->
  along lb hb l h ->
  (forall l', along lb hb (l ++ l') (h ++ l') -> reads pat l' ->
     wp (cont (F (delivered pat (l ++ l')))) Q s (h ++ l')) ->
  (forall e l', texts l' = [] -> Q (Raise e) s (hb ++ l')) ->
  wp m (next cont Q) s h.
Proof using Hpages Hfuel.
  intros -> (l1 & -> & -> & T) Hok Hraise. wp_steps. destruct (found (F (delivered pat (lb ++ l1)))) eqn:Ef; wp_steps.
  - specialize (Hok []). rewrite !app_nil_r in Hok. apply Hok; [by exists l1|done].
  - destruct (read_log_run (fr_log_group self) start_ms (fr_node_id self) pat step fuel k (F (delivered pat (lb ++ l1))) s
      (hb ++ l1) Hpages Hfuel) as (r & l' & H & Hr & K). unfold wp at 1, _filter_events. rewrite H.
    pose proof (reads_no_write _ _ Hr) as Tr. destruct r as [b|e|]; [|wp_steps|done].
    + wp_steps. rewrite K, (follows_consume step F found) by done. rewrite <- delivered_app. apply Hok; [|done].
      exists (l1 ++ l'). by rewrite !app_assoc, texts_app, T, Tr.
    + rewrite <- app_assoc. apply Hraise. by rewrite texts_app, T, Tr.
Qed.

(** The reads of a stage leave the other milestones alone. *)
Lemma delivered_after pat other l l' :
  String.eqb pat other = false -> reads pat l' -> delivered other (l ++ l') = delivered other l.
Proof. intros Hne Hr. by rewrite delivered_app, (reads_other pat other l' Hr Hne), app_nil_r. Qed.

Lemma delivered_not_read pat l e : page_of pat e = None -> delivered pat (l ++ [e]) = delivered pat l.
Proof. intros H. rewrite delivered_app. unfold delivered. cbn. rewrite H. by rewrite app_nil_r. Qed.

(** One turn keeps the timeline true to the log. *)
Lemma observe_turn_run deadline d l (s : S) h :
  wp (observe_turn fuel self start_ms deadline (Fin d) (timeline_of self l))
    (fun r s' h' => s' = s /\ exists l', h' = h ++ l' /\ texts l' = [] /\
       match r with
       | Ok (inl tl) => tl = timeline_of self (l ++ l') /\ flt (time_clock E h) deadline = true /\ (1 <= pauses d l')%nat
       | Ok (inr tl) => tl = timeline_of self (l ++ l') /\
           (complete tl \/ l' = [Ev CTime (time_clock E h)] /\ flt (time_clock E h) deadline = false)
       | Raise _ => True
       | NoFuel => False
       end) s h.
Proof using Hpages Hfuel.
  unfold observe_turn, timeline_of at 1. wp_steps. fold (time_clock E h).
  destruct (flt (time_clock E h) deadline) eqn:Hf; wp_steps.
  2: { kept. unfold timeline_of. rewrite !delivered_not_read by done. split; [done|]. split; [done|]. by right. }
  rewrite <- !(delivered_not_read _ l (Ev CTime (time_clock E h)) eq_refl).
  assert (A0 : along l h (l ++ [Ev CTime (time_clock E h)]) (h ++ [Ev CTime (time_clock E h)])) by by eexists.
  revert A0. generalize (l ++ [Ev CTime (time_clock E h)]) (h ++ [Ev CTime (time_clock E h)]). intros l0 h0 A0.
  apply (stage_next (restart_step (fr_killed_ns self)) _ seen started_pat l h l0);
    [by destruct (ev_ns <$> _)|done| |by intros e l' T; kept].
  intros l1 A1 R1. rewrite <- (delivered_after started_pat restored_pat l0 l1 eq_refl R1), <- (delivered_after started_pat tick_pat l0 l1 eq_refl R1).
  set (restart := ev_ns <$> List.find _ (delivered started_pat _)).
  wp_steps. apply (stage_next (snapshot_step (fr_killed_ns self)) _ (fun st => seen st.1) restored_pat l h (l0 ++ l1)); [|done| |by intros e l' T; kept].
  { by destruct (List.find _ (delivered restored_pat (l0 ++ l1))). }
  intros l2 A2 R2. rewrite <- (delivered_after restored_pat tick_pat (l0 ++ l1) l2 eq_refl R2).
  set (restored := List.find _ (delivered restored_pat _)). cbv beta iota.
  wp_steps. apply (stage_next (tick_step (fr_killed_ns self) (target_of self)) _ (fun st => seen st.1) tick_pat l h ((l0 ++ l1) ++ l2)); [|done| |by intros e l' T; kept].
  { unfold final_commit. by destruct (List.find _ (delivered tick_pat ((l0 ++ l1) ++ l2))). }
  intros l3 (l4 & Eh & El & T) R3. cbv beta iota.
  set (tl := mkTimeline _ _ _ _ _ _ _ _).
  assert (Htl : tl = timeline_of self (l ++ l4)).
  { rewrite <- El. unfold tl, restart, restored, timeline_of.
    rewrite !(delivered_after tick_pat started_pat _ l3 eq_refl R3), (delivered_after restored_pat started_pat _ l2 eq_refl R2),
      (delivered_after tick_pat restored_pat _ l3 eq_refl R3). done. }
  assert (Hgo : wp (sleep (Fin d);; mret (inl tl)) (fun r s' h' => s' = s /\ exists l', h' = h ++ l' /\ texts l' = [] /\
     match r with Ok (inl tl) => tl = timeline_of self (l ++ l') /\ true = true /\ (1 <= pauses d l')%nat
     | Ok (inr tl) => tl = timeline_of self (l ++ l') /\ (complete tl \/ l' = [Ev CTime (time_clock E h)] /\ true = false)
     | Raise _ => True | NoFuel => False end) s (((h0 ++ l1) ++ l2) ++ l3)).
  { rewrite Eh. wp_steps. kept. rewrite texts_app, T. split; [done|]. split.
    - rewrite Htl. unfold timeline_of. by rewrite app_assoc, !delivered_not_read.
    - split; [done|]. unfold pauses. rewrite count_app. unfold count at 2. cbn.
      assert (Qle_bool d d = true) as -> by (apply Qle_bool_iff; lra). simpl. lia. }
  destruct restart as [a|] eqn:Er; [|exact Hgo].
  destruct (ev_ns <$> List.find _ (delivered tick_pat _)) as [b|] eqn:Ec; [|exact Hgo].
  wp_steps. rewrite Eh. kept. split; [done|]. split; [done|]. left. done.
Qed.
End observing.

(** The run ended at a reading of the clock past the deadline. *)
Definition expired (deadline : float) (l : history) : Prop :=
  exists pre now, l = pre ++ [Ev CTime now] /\ flt now deadline = false.

Lemma observe_run `{E : Env} {S} (fuel n k : nat) (self : FollowerRecoveryObserver) (t d : Q) (s : S) (h : history) :
  steady (time_clock E) -> reading_ok (time_clock E h) -> wait_ok t d n -> paginated E k -> (n < fuel)%nat -> (k < fuel)%nat ->
  exists r l, observe fuel self (Fin t) (Fin d) s h = (r, s, h ++ l) /\ texts l = [] /\
    match r with
    | Ok tl => tl = timeline_of self l /\ (complete tl \/ expired (fadd (time_clock E h) (Fin t)) l)
    | Raise _ => True
    | NoFuel => False
    end.
Proof.
  intros Hs (p & Hp & Hp0 & Hp1) Hw Hpages Hn Hk.
  apply (run_of_wp _ (fun r l => texts l = [] /\ match r with
    | Ok tl => tl = timeline_of self l /\ (complete tl \/ expired (fadd (time_clock E h) (Fin t)) l)
    | Raise _ => True | NoFuel => False end)).
  unfold observe. wp_steps. fold (time_clock E h). rewrite Hp.
  eapply (wp_poll_loop_at _ (fun tl l => tl = timeline_of self l /\ texts l = []) _ fuel n h p t d s Hs Hp Hp0 Hp1 Hw Hn);
    [|by split|done].
  intros tl l [-> T]. eapply wp_mono; [|by apply (observe_turn_run self fuel k _ Hpages Hk)].
  intros r s' h' (-> & l' & -> & T' & K). destruct r as [[tl|tl]|e|]; [| | |done].
  - destruct K as (-> & Hf & Hone). split; [done|]. split; [done|]. exists l'. by rewrite app_assoc, texts_app, T, T'.
  - destruct K as [-> K]. kept. rewrite texts_app, T, T'. split; [done|]. split; [done|].
    destruct K as [K|[-> Hf]]; [by left|right]. eexists _, _. split; [done|]. done.
  - kept. by rewrite texts_app, T, T'.
Qed.

(** ** Properties *)

Lemma find_narrow {A} (f g : A -> bool) (l : list A) :
  match List.find f l with
  | Some x => g x = true -> List.find (fun y => g y && f y) l = Some x
  | None => List.find (fun y => g y && f y) l = None
  end.
Proof.
  induction l as [|y l IH]; [done|]. cbn [List.find]. destruct (f y) eqn:Ef.
  - rewrite andb_true_r. by intros ->.
  - rewrite andb_false_r. exact IH.
Qed.

Lemma timeline_rejoin (self : FollowerRecoveryObserver) (l : history) : rejoin_or_early self l (timeline_of self l).
Proof.
  intros restart _. unfold timeline_of, documented_rejoin. cbn [tl_catchup_ns].
  pose proof (find_narrow (caught_up (fr_killed_ns self) (target_of self)) (fun ev => restart <? ev_ns ev) (delivered tick_pat l)) as H.
  destruct (List.find _ (delivered tick_pat l)) as [ev|] eqn:E; [|left; by rewrite H].
  apply find_some in E as [Hin Hc]. apply list_elem_of_In in Hin.
  destruct (Z.ltb_spec restart (ev_ns ev)) as [Hl|Hl]; [left; rewrite H by done; done|right].
  by exists ev.
Qed.

(** C14: the recovery timeline is the one the logs tell.  With a clock that moves on
    while the observer sleeps and a log that comes in finitely many pages, the
    observation ends; the milestones it returns are the first events of their
    kind after the kill among everything the service delivered, and it returns
    before the time-out only with restart and catch-up both seen.

    The module comment defines rejoin as the first raft tick after the restart; the
    code takes the first one after the kill that reaches the target.  The catch-up
    reported with a restart is the documented rejoin or else the time of a tick
    that is not later than the restart, which a process on its way out can still
    write (see [early_tick_counts]). *)
Theorem observe_spec `{E : Env} {S} (fuel n k : nat) (self : FollowerRecoveryObserver) (t d : Q) (s : S) (h : history) :
  steady (time_clock E) -> reading_ok (time_clock E h) -> wait_ok t d n -> paginated E k -> (n < fuel)%nat -> (k < fuel)%nat ->
  exists r l, observe fuel self (Fin t) (Fin d) s h = (r, s, h ++ l) /\ texts l = [] /\
    match r with
    | Ok tl => tl = timeline_of self l /\ (complete tl \/ expired (fadd (time_clock E h) (Fin t)) l) /\
               rejoin_or_early self l tl
    | Raise _ => True
    | NoFuel => False
    end.
Proof.
  intros H1 H2 H3 H4 H5 H6. destruct (observe_run fuel n k self t d s h H1 H2 H3 H4 H5 H6) as (r & l & Hr & Ht & K).
  exists r, l. split; [done|]. split; [done|]. destruct r as [tl|e|]; [|done..]. destruct K as [-> K].
  split; [done|]. split; [done|]. apply timeline_rejoin.
Qed.

(** Lines of text ticks carry [role=...]; the JSON handler writes another form. *)
Definition no_text_ticks (l : history) : Prop :=
  forall ev, ev ∈ delivered tick_pat l -> contains "role=" (le_message ev) = false.

Lemma no_commit_in ev : contains "role=" (le_message ev) = false -> commit_in ev = None.
Proof. intros H. unfold commit_in, RAFT_TICK_RE. by rewrite search_absent. Qed.

Lemma no_ticks_seen k target evs :
  (forall ev, ev ∈ evs -> commit_in ev = None) ->
  List.find (caught_up k target) evs = None /\ final_commit k target evs = None.
Proof.
  intros H. assert (K : List.find (caught_up k target) evs = None /\
    omap (fun ev => if after_kill k ev then commit_in ev else None) evs = []).
  { induction evs as [|ev evs IH]; [done|]. destruct IH as [IH1 IH2]; [intros ev' ?; apply H; by right|].
    simpl. unfold caught_up. rewrite (H ev) by left. rewrite andb_false_r. split; [done|]. by destruct (after_kill k ev). }
  destruct K as [K1 K2]. split; [done|]. unfold final_commit. by rewrite K1, K2.
Qed.

(** C33: structured logs hide the catch-up.  When the raft ticks delivered are not
    text lines with [role=...], as those of the JSON handler the coordinator
    installs, the observation cannot see the follower catch up: it returns
    without catch-up and commit index, and only at the time-out. *)
Theorem json_logs_never_catch_up `{E : Env} {S} (fuel n k : nat) (self : FollowerRecoveryObserver) (t d : Q) (s : S) (h : history) :
  steady (time_clock E) -> reading_ok (time_clock E h) -> wait_ok t d n -> paginated E k -> (n < fuel)%nat -> (k < fuel)%nat ->
  exists r l, observe fuel self (Fin t) (Fin d) s h = (r, s, h ++ l) /\
    (no_text_ticks l ->
     match r with
     | Ok tl => tl_catchup_ns tl = None /\ tl_final_commit_index tl = None /\ expired (fadd (time_clock E h) (Fin t)) l
     | Raise _ => True
     | NoFuel => False
     end).
Proof.
  intros Hs Hr Hw Hp Hn Hk. destruct (observe_run fuel n k self t d s h Hs Hr Hw Hp Hn Hk) as (r & l & H & _ & K).
  exists r, l. split; [done|]. intros Ht. destruct r as [tl|e|]; [|done..]. destruct K as [-> K].
  destruct (no_ticks_seen (fr_killed_ns self) (target_of self) (delivered tick_pat l)) as [H1 H2].
  { intros ev Hev. by apply no_commit_in, Ht. }
  unfold complete in K. cbn in *. rewrite H1, H2 in *. split; [done|]. split; [done|]. by destruct K as [[_ []]|].
Qed.

(** A milestone, in milliseconds after the kill. *)
Definition reported (v : json) : Prop := v = JNull \/ exists q, v = JFloat (Fin q) /\ (0 < q)%Q.

Lemma ms_after_find k (f : log_event -> bool) (evs : list log_event) :
  0 <= k -> (forall ev, f ev = true -> after_kill k ev = true) -> (forall ev, ev ∈ evs -> ev_ns ev < 2 ^ 63) ->
  exists v, ms_after k (ev_ns <$> List.find f evs) = Ok v /\ reported v.
Proof.
  intros Hk Hf Hb. destruct (List.find f evs) as [ev|] eqn:Ef; [|exists JNull; split; [done|by left]].
  apply find_some in Ef as [Hin Hev]. apply Hf in Hev. unfold after_kill in Hev. apply Z.ltb_lt in Hev.
  specialize (Hb ev ltac:(by apply list_elem_of_In)). destruct (ns_to_ms_ok (ev_ns ev - k) ltac:(lia)) as (H1 & _ & H2).
  simpl. rewrite H1. eexists. split; [done|]. right. by eexists.
Qed.

(** Recovery times are positive.  The report of an observed timeline never
    fails; each of its three times is absent or a positive number of
    milliseconds, and it names the snapshot exactly when its restoration was
    seen. *)
Theorem report_positive (self : FollowerRecoveryObserver) (l : history) :
  0 <= fr_killed_ns self -> (forall pat ev, ev ∈ delivered pat l -> ev_ns ev < 2 ^ 63) ->
  exists d, to_dict (timeline_of self l) = Ok d /\
    reported (field d "restart_ms") /\ reported (field d "snapshot_restored_ms") /\ reported (field d "catchup_ms") /\
    (field d "used_snapshot" = JBool true <-> exists ev, ev ∈ delivered restored_pat l /\ fr_killed_ns self < ev_ns ev).
Proof.
  intros Hk Hb. unfold to_dict, timeline_of. cbn [tl_killed_ns tl_restart_ns tl_snapshot_restored_ns tl_catchup_ns].
  destruct (ms_after_find (fr_killed_ns self) (after_kill (fr_killed_ns self)) (delivered started_pat l) Hk) as (v1 & -> & R1); [done|by apply Hb|].
  destruct (ms_after_find (fr_killed_ns self) (after_kill (fr_killed_ns self)) (delivered restored_pat l) Hk) as (v2 & -> & R2); [done|by apply Hb|].
  destruct (ms_after_find (fr_killed_ns self) (caught_up (fr_killed_ns self) (target_of self)) (delivered tick_pat l) Hk) as (v3 & -> & R3);
    [by intros ev [? _]%andb_true_iff|by apply Hb|].
  eexists. split; [done|]. split; [done|]. split; [done|]. split; [done|].
  destruct (List.find (after_kill (fr_killed_ns self)) (delivered restored_pat l)) as [ev|] eqn:Ef; cbn.
  - split; [intros _|done]. apply find_some in Ef as [Hin Hev]. exists ev. split; [by apply list_elem_of_In|]. by apply Z.ltb_lt.
  - split; [done|]. intros (ev & Hin & Hev). apply list_elem_of_In in Hin. pose proof (find_none _ _ Ef ev Hin) as Hn.
    unfold after_kill in Hn. apply Z.ltb_ge in Hn. lia.
Qed.

(** The follower of the sample run, and a service whose logs say it restarted two
    seconds after the kill and then caught up, in two pages per request. *)
Definition victim : FollowerRecoveryObserver := mkRecovery "/ecs/raft" "coordinator-b" 1000000000 812 10.

Definition text_tick : string := "level=INFO msg=" ^^ tick_pat ^^ " role=follower term=3 commit_index=805 last_applied=805 log_len=806".
Definition json_tick : string :=
  dumps (JObj [("level", JStr "INFO"); ("msg", JStr "raft tick"); ("role", JStr "follower"); ("term", JInt 3);
            ("commit_index", JInt 805); ("last_applied", JInt 805); ("log_len", JInt 806)])%string.

Definition logging_env (tick : string) : Env := fun h c =>
  match c as c' return resp c' with
  | CFilterLogs _ _ _ pattern token =>
      inr (if String.eqb pattern started_pat then [LogEvent 500 "coordinator started"; LogEvent 3000 "coordinator started"]
           else if String.eqb pattern tick_pat then [LogEvent 5000 tick] else [],
           match token with None => Some "2" | Some _ => None end)
  | c' => answer (Env := pausing_env 1000) h c'
  end.

Example json_tick_form : contains "role=" json_tick = false /\ contains "role=" text_tick = true.
Proof. by vm_compute. Qed.

Lemma logging_pages tick : paginated (logging_env tick) 1.
Proof. exists (fun _ => O). intros h g t p f [tok|]; cbn; [done|lia]. Qed.

Lemma observe_spec_witness :
  exists r l, observe (H := logging_env text_tick) 200 victim (Fin (600 # 1)) (Fin (10 # 1)) tt [] = (r, tt, l) /\ texts l = [] /\
    match r with
    | Ok tl => tl = timeline_of victim l /\ (complete tl \/ expired (fadd (time_clock (logging_env text_tick) []) (Fin (600 # 1))) l) /\
               rejoin_or_early victim l tl
    | Raise _ => True
    | NoFuel => False
    end.
Proof.
  apply (observe_spec (E := logging_env text_tick) 200 121 1 victim (600 # 1) (10 # 1) tt []).
  - apply pausing_steady.
  - exists (1000 + 0)%Q. split; [reflexivity|]. split; apply Qle_bool_iff; reflexivity.
  - repeat split; apply Qle_bool_iff; reflexivity.
  - apply logging_pages.
  - lia.
  - lia.
Defined.

(** A tick between the kill (at one second) and the restart (at three) counts as the
    catch-up, although by the module comment the follower rejoins at five. *)
Definition early_env : Env := fun h c =>
  match c as c' return resp c' with
  | CFilterLogs _ _ _ pattern token =>
      inr (if String.eqb pattern started_pat then [LogEvent 3000 "coordinator started"]
           else if String.eqb pattern tick_pat then [LogEvent 1500 text_tick; LogEvent 5000 text_tick] else [], None)
  | c' => answer (Env := pausing_env 1000) h c'
  end.

Example early_tick_counts :
  exists tl l, observe (H := early_env) 200 victim (Fin (600 # 1)) (Fin (10 # 1)) tt [] = (Ok tl, tt, l) /\
    tl_restart_ns tl = Some 3000000000 /\ tl_catchup_ns tl = Some 1500000000 /\
    (ev_ns <$> documented_rejoin victim 3000000000 l) = Some 5000000000.
Proof. eexists _, _. split; [vm_compute; reflexivity|]. vm_compute. done. Qed.

(** What the two services lead to: catch-up after four seconds, or none. *)
Example text_logs_catch_up :
  exists l, observe (H := logging_env text_tick) 200 victim (Fin (600 # 1)) (Fin (10 # 1)) tt [] =
    (Ok (mkTimeline "coordinator-b" 1000000000 812 (Some 3000000000) None None (Some 5000000000) (Some 805)), tt, l).
Proof. eexists. vm_compute. reflexivity. Qed.

Lemma json_logs_never_catch_up_witness :
  exists r l, observe (H := logging_env json_tick) 200 victim (Fin (600 # 1)) (Fin (10 # 1)) tt [] = (r, tt, l) /\
    (no_text_ticks l ->
     match r with
     | Ok tl => tl_catchup_ns tl = None /\ tl_final_commit_index tl = None /\
         expired (fadd (time_clock (logging_env json_tick) []) (Fin (600 # 1))) l
     | Raise _ => True
     | NoFuel => False
     end).
Proof.
  apply (json_logs_never_catch_up (E := logging_env json_tick) 200 121 1 victim (600 # 1) (10 # 1) tt []).
  - apply pausing_steady.
  - exists (1000 + 0)%Q. split; [reflexivity|]. split; apply Qle_bool_iff; reflexivity.
  - repeat split; apply Qle_bool_iff; reflexivity.
  - apply logging_pages.
  - lia.
  - lia.
Defined.

Definition recovery_log : history :=
  [Ev (CFilterLogs "/ecs/raft" 0 "coordinator-b" started_pat None) (inr ([LogEvent 500 ""; LogEvent 3000 ""], None));
   Ev (CFilterLogs "/ecs/raft" 0 "coordinator-b" restored_pat None) (inr ([LogEvent 4000 "last_included_index=700"], None))].

Lemma report_positive_witness :
  exists d, to_dict (timeline_of victim recovery_log) = Ok d /\
    reported (field d "restart_ms") /\ reported (field d "snapshot_restored_ms") /\ reported (field d "catchup_ms") /\
    (field d "used_snapshot" = JBool true <-> exists ev, ev ∈ delivered restored_pat recovery_log /\ fr_killed_ns victim < ev_ns ev).
Proof.
  apply (report_positive victim recovery_log); [done|]. intros pat ev. unfold delivered, recovery_log. cbn.
  destruct (String.eqb started_pat pat), (String.eqb restored_pat pat); cbn; intros H;
    repeat (apply elem_of_cons in H as [->|H]; [done|]); inv H.
Defined.
