(* ===== verification/Exp1.v ===== *)
(** * Exp1: the leader-kill experiment (chaos-bench/exp1.py)

    A run is four threads on one history: the workload ([_bench_worker], with the
    jobs [do_submit] and [Bench._poll_to_completion]), the kill loop
    ([_kill_loop]), the tracker ([LeaderTracker._run]) and the orchestrator
    ([run_exp1]).  A thread is modelled on its own: what the others do shows in
    the answers of the environment.  [run_exp1_repeat] resets the cluster, runs
    and analyses, several times. *)

From stdpp Require Import base gmap list strings.
From Stdlib Require Import ZArith QArith.QArith_base Lqa.
From S2P Require Import Prelude PyFloat PyStr PyDict Json Runtime History BenchConfig.
From S2P Require Import LeaderDetect LeaderTracker Faults Ledger Submitter Bench Stats Exp1Analysis.

Local Open Scope Z_scope.
Local Open Scope driftless_scope.

(** ** The workload *)

Definition submit_error_event (e : exn) : fields :=
  [("op", JStr "submit_error"); ("err", JStr (exn_str e))]%string.

(** The inner function [do_submit]: a failed submission is recorded. *)
Definition do_submit `{Env} {S} (cfg : BenchConfig) (params : RunParams) : M S unit :=
  let payload := repeat_str (Z.to_nat (payload_bytes params)) "x" in
  r ← try_except (r ← submit cfg payload (priority params); mret (Some r))
                 (fun e => record (submit_error_event e);; mret None);
  match r with
  | None => mret tt
  | Some r =>
      record (submit_event (sr_task_id r) (sr_submitted_ns r));;
      spawn (JPoll (sr_task_id r) (sr_submitted_ns r))
  end.

(** One turn of the submission loop; the local variable is [next_submit]. *)
Definition worker_turn `{Env} {S} (params : RunParams) (next_submit : float) : M S (float + unit) :=
  stop ← ask CEventIsSet;
  if (stop : bool) then mret (inr tt)
  else
    spawn JSubmit;;
    let next_submit := fadd next_submit (submit_interval params) in
    now ← ask CTime;
    let sleep_s := fsub next_submit now in
    if flt (Fin (0 # 1)) sleep_s then
      stop ← ask (CEventWait sleep_s);
      if (stop : bool) then mret (inr tt) else mret (inl next_submit)
    else mret (inl next_submit).

Definition _bench_worker `{Env} {S} (fuel : nat) (params : RunParams) : M S unit :=
  t0 ← ask CTime;
  while_loop fuel (worker_turn params) t0;;
  join_threads;;
  join_threads.

(** ** The kill loop *)

Definition kill_leader_event (k : KillResult) (node_id : string) : fields :=
  [("op", JStr "chaos.kill_leader"); ("service", JStr (kr_service k)); ("task_arn", JStr (kr_task_arn k));
   ("killed_ns", JInt (kr_killed_ns k)); ("leader_node_id", JStr node_id)]%string.

Definition no_leader_event : fields :=
  [("op", JStr "chaos.skip"); ("reason", JStr "no leader detected")]%string.

Definition no_task_event (service : string) : fields :=
  [("op", JStr "chaos.skip"); ("reason", JStr "no running task"); ("service", JStr service)]%string.

(** The attempt of one turn. *)
Definition kill_attempt `{Env} {S} (cfg : BenchConfig) : M S unit :=
  info ← find_leader cfg;
  match info with
  | None => record no_leader_event
  | Some info =>
      res ← kill_leader cfg (li_ecs_service info);
      match res with
      | None => record (no_task_event (li_ecs_service info))
      | Some k => record (kill_leader_event k (li_node_id info))
      end
  end.

Definition _kill_loop `{Env} {S} (fuel : nat) (cfg : BenchConfig) (period_s : float) : M S unit :=
  periodic_loop fuel (kill_attempt cfg) period_s period_s.

(** ** The run *)

Definition exp1_params (rate_per_min duration_s : float) : RunParams :=
  {| rate_per_min := rate_per_min; duration_s := duration_s; payload_bytes := 128; priority := 5;
     poll_interval_s := Fin (1 # 2); completion_timeout_s := Fin (30 # 1) |}.

(** The threads are started and joined by name. *)
Definition run_exp1 `{Env} {S} (cfg : BenchConfig) (run_name : string)
    (duration_s rate_per_min kill_period_s : float) : M S string :=
  let run_dir := path_join (history_dir cfg) run_name in
  let history_path := path_join run_dir "history.jsonl" in
  record [("op", JStr "run_start"); ("experiment", JStr "exp1"); ("duration_s", JFloat duration_s);
          ("rate_per_min", JFloat rate_per_min); ("kill_period_s", JFloat kill_period_s)]%string;;
  started ← tracker_start false;
  spawn (JThread "exp1-bench");;
  spawn (JThread "exp1-chaos");;
  sleep duration_s;;
  event_set;;
  join_threads;;
  join_threads;;
  sleep (Fin (5 # 1));;
  tracker_stop started;;
  record [("op", JStr "run_end")]%string;;
  mret history_path.

(** ** Resetting the cluster *)

(** One page of the snapshot listing; the keys on it are deleted. *)
Definition wipe_turn `{Env} {S} (cfg : BenchConfig) (token : option string) : M S (option string + unit) :=
  page ← check (ask (CS3ListPage (snapshot_bucket cfg) "raft/" token));
  match page.1 with
  | [] => mret tt
  | keys => check (ask (CS3Delete (snapshot_bucket cfg) keys));; mret tt
  end;;
  match page.2 with
  | Some t => mret (inl (Some t))
  | None => mret (inr tt)
  end.

Definition stop_service `{Env} {S} (cfg : BenchConfig) (svc : string) : M S unit :=
  arns ← check (ask (CEcsListTasks (cluster_name cfg) svc));
  for_each arns (fun a => check (ask (CEcsStopTask (cluster_name cfg) a "exp1-repeat reset"));; mret tt).

(** The loop over the rows of the peers table; the local variables are [fresh] and [leader]. *)
Definition row_heartbeat (it : item) : Z :=
  match get_N it "heartbeat_ts" with
  | Some hb_v => if truthy hb_v then default 0 (int_of_str hb_v) else 0
  | None => 0
  end.

Definition quorum_row (now : float) (acc : Z * option string) (it : item) : Z * option string :=
  let '(fresh, leader) := acc in
  if flt (fsub now (of_Z (row_heartbeat it))) (Fin (3 # 1)) then
    (fresh + 1, if default false (get_BOOL it "is_leader") then get_S it "node_id" else leader)
  else acc.

Definition quorum_ready (cfg : BenchConfig) (now : float) (items : list item) : bool :=
  let '(fresh, leader) := fold_left (quorum_row now) items (0, None) in
  (Z.of_nat (length (coordinator_services cfg)) <=? fresh) && bool_decide (leader <> None).

Definition ready_turn `{Env} {S} (cfg : BenchConfig) (deadline : float) (_ : unit) : M S (unit + bool) :=
  now ← ask CTime;
  if flt now deadline then
    items ← check (ask (CDdbScan (b_peers_table cfg)));
    now ← ask CTime;
    if quorum_ready cfg now items then mret (inr true)
    else sleep (Fin (5 # 1));; mret (inl tt)
  else mret (inr false).

(** The loop that waits for a fresh quorum. *)
Definition await_quorum `{Env} {S} (fuel : nat) (cfg : BenchConfig) (ready_timeout_s : float) : M S unit :=
  t0 ← ask CTime;
  let deadline := fadd t0 ready_timeout_s in
  ready ← while_loop fuel (ready_turn cfg deadline) tt;
  if (ready : bool) then mret tt
  else raise (Exn RuntimeError ("cluster did not reach quorum within " ^^ repr_float ready_timeout_s ^^ "s")).

Definition _reset_cluster `{Env} {S} (fuel : nat) (cfg : BenchConfig) (ready_timeout_s : float) : M S unit :=
  while_loop fuel (wipe_turn cfg) None;;
  for_each (coordinator_services cfg) (stop_service cfg);;
  await_quorum fuel cfg ready_timeout_s.

(** ** Repeated single kills *)

Definition _run_single_kill_iteration `{Env} {S} (fuel : nat) (cfg : BenchConfig) (run_name : string)
    (warmup_s rate_per_min : float) : M S (fields * Exp1Stats) :=
  _reset_cluster fuel cfg (Fin (240 # 1));;
  path ← run_exp1 cfg run_name (fadd warmup_s (Fin (30 # 1))) rate_per_min warmup_s;
  text ← read_file path;
  st ← lift (analyze text);
  mret ([("run_name", JStr run_name); ("history_path", JStr path)]%string ++ stats_fields st, st).

(** The result of an iteration: its statistics, or the error that ended it. *)
Definition iteration `{Env} {S} (fuel : nat) (cfg : BenchConfig) (group_name : string)
    (warmup_s rate_per_min : float) (i : nat) : M S (fields * option Exp1Stats) :=
  let run_name := group_name ^^ "/iter-" ^^ zpad 2 (str_of_nat i) in
  try_except
    (r ← _run_single_kill_iteration fuel cfg run_name warmup_s rate_per_min; mret (r.1, Some r.2))
    (fun e => mret ([("run_name", JStr run_name); ("error", JStr (exn_str e))]%string, None)).

Definition total (f : Exp1Stats -> Z) (results : list (fields * option Exp1Stats)) : Z :=
  foldr (fun r z => match r.2 with Some st => f st + z | None => z end) 0 results.

(** The medians of the iterations that have samples. *)
Definition samples_of (results : list (fields * option Exp1Stats)) : list float :=
  omap (fun r => st ← r.2; if 0 <? convergence_samples st then Some (convergence_p50_ms st) else None) results.

Definition repeat_summary (group_name : string) (iterations : Z) (results : list (fields * option Exp1Stats)) : fields :=
  let samples := samples_of results in
  [("group", JStr group_name); ("iterations", JInt iterations);
   ("successful_kills", JInt (Z.of_nat (length samples)));
   ("convergence_ms_samples", JArr (map JFloat samples));
   ("convergence_p50_ms", JFloat (pct_nearest samples 50)); ("convergence_p95_ms", JFloat (pct_nearest samples 95));
   ("convergence_mean_ms", JFloat (match samples with [] => Fin 0 | _ => mean samples end));
   ("convergence_max_ms", JFloat (default (Fin 0) (max_of samples)));
   ("convergence_min_ms", JFloat (default (Fin 0) (min_of samples)));
   ("submitted_total", JInt (total submitted results)); ("completed_total", JInt (total completed results));
   ("lost_total", JInt (total lost results));
   ("per_iteration", JArr (map (fun r => JObj r.1) results))]%string.

Definition run_exp1_repeat `{Env} {S} (fuel : nat) (cfg : BenchConfig) (group_name : string) (iterations : Z)
    (warmup_s rate_per_min : float) : M S string :=
  let group_dir := path_join (history_dir cfg) group_name in
  results ← map_each (iteration fuel cfg group_name warmup_s rate_per_min) (seq 1 (Z.to_nat iterations));
  let out := path_join group_dir "repeat_summary.json" in
  dump_json out (JObj (repeat_summary group_name iterations results));;
  mret out.

(** ** Properties *)

(** How this experiment records an attempt. *)
Definition exp1_report (a : attempt) : fields :=
  match a with
  | NoLeader => no_leader_event
  | NoTask info => no_task_event (li_ecs_service info)
  | Killed info k => kill_leader_event k (li_node_id info)
  | Failed _ _ => []
  end.

(** C18: every kill is on record.  Whatever happens around it and however long it
    runs, the log of the kill loop is one of waits and attempts ([led]): each
    attempt detects the leader and stops tasks only of the service that this very
    detection named, as ECS listed them; the records name, in order, exactly the
    tasks stopped; only an exception that ends the loop can leave a stop, one at
    most and of the leader it had detected, unrecorded. *)
Theorem kills_on_record `{E : Env} {S} (fuel : nat) (cfg : BenchConfig) (period_s : float) (s : S) (h : history) :
  exists r l atts extra walls, _kill_loop fuel cfg period_s s h = (r, s, h ++ l) /\
    led cfg exp1_report false on_leader s h atts extra l /\
    length walls = length atts /\ texts l = map line_text (zip_with stamped (map exp1_report atts) walls) /\
    stopped None l = concat (map attempt_stops atts) ++ extra /\ at_most_one extra /\
    match r with Raise _ => True | _ => extra = [] end.
Proof.
  assert (H : accountable cfg exp1_report false on_leader (S := S) (_kill_loop fuel cfg period_s)).
  { apply periodic_loop_accountable. change (kill_attempt cfg) with
      (leader_attempt cfg exp1_report (S := S) (fun info => kill_leader cfg (li_ecs_service info))).
    apply leader_attempt_accountable; intros; [apply stop_random_task_only|apply kill_leader_injects]. }
  specialize (H s h). unfold wp in H. destruct (_kill_loop fuel cfg period_s s h) as [[r s'] h'].
  destruct H as (-> & l & atts & extra & -> & Hl & Hok).
  destruct (led_totals _ _ _ _ _ _ _ _ _ Hl) as (_ & Hs & Hx & walls & Hw & Ht). by exists r, l, atts, extra, walls.
Qed.

(** The heartbeat a row carries; the epoch when it carries none. *)
Definition beat (it : item) : Z := default 0 (a ← get_N it "heartbeat_ts"; int_of_str a).

(** A row is fresh when its heartbeat is less than three seconds old. *)
Definition fresh_row (now : float) (it : item) : bool := flt (fsub now (of_Z (beat it))) (Fin (3 # 1)).

(** The table shows as many fresh coordinators as the configuration names, one of
    them flagged as leader. *)
Definition quorum (cfg : BenchConfig) (now : float) (items : list item) : Prop :=
  (length (coordinator_services cfg) <= count (fresh_row now) items)%nat /\
  exists it, it ∈ items /\ fresh_row now it = true /\ get_BOOL it "is_leader" = Some true /\ get_S it "node_id" <> None.

(** The log of a successful wait ends with the reading that showed the quorum. *)
Definition saw_quorum (cfg : BenchConfig) (l : history) : Prop :=
  exists pre items now, l = pre ++ [Ev (CDdbScan (b_peers_table cfg)) (inr items); Ev CTime now] /\ quorum cfg now items.

Lemma row_heartbeat_beat it : row_heartbeat it = beat it.
Proof. unfold row_heartbeat, beat. destruct (get_N it "heartbeat_ts") as [[|c v]|]; done. Qed.

Lemma quorum_ready_spec cfg now items : quorum_ready cfg now items = true -> quorum cfg now items.
Proof.
  intros H. unfold quorum_ready in H.
  assert (K : forall acc, let r := fold_left (quorum_row now) items acc in
    r.1 = acc.1 + Z.of_nat (count (fresh_row now) items) /\
    (r.2 <> None -> acc.2 <> None \/
      exists it, it ∈ items /\ fresh_row now it = true /\ get_BOOL it "is_leader" = Some true /\ get_S it "node_id" <> None)).
  { clear H. induction items as [|it items IH]; intros [f ld]; cbn [fold_left]; [split; [cbn; lia|by left]|].
    destruct (IH (quorum_row now (f, ld) it)) as [H1 H2]. rewrite count_cons. cbv zeta. rewrite H1.
    unfold quorum_row in *. rewrite row_heartbeat_beat in *. change (flt (fsub now (of_Z (beat it))) (Fin (3 # 1))) with (fresh_row now it) in *.
    destruct (fresh_row now it) eqn:Ef; cbn [fst snd] in *; (split; [lia|]); intros Hn;
      destruct (H2 Hn) as [Ha|(it' & Hin & Hr)]; try (right; exists it'; split; [by right|done]); [|by left].
    destruct (get_BOOL it "is_leader") as [[]|] eqn:Eb; cbn in Ha; [|by left..].
    right. exists it. split; [by left|]. done. }
  specialize (K (0, None)). destruct (fold_left (quorum_row now) items (0, None)) as [f ld]. cbn in K.
  destruct K as [-> K2]. apply andb_true_iff in H as [Hf%Z.leb_le Hl%bool_decide_eq_true].
  split; [lia|]. by destruct (K2 Hl).
Qed.

(** C21: a reset ends, with a quorum or an error.  With a clock that moves on while
    the wait sleeps, waiting for the cluster ends within its time-out: it returns
    only after a scan that showed as many fresh coordinators as the configuration
    names, one of them flagged as leader, and raises otherwise. *)
Theorem await_quorum_spec `{E : Env} {S} (fuel n : nat) (cfg : BenchConfig) (t : Q) (s : S) (h : history) :
  steady (time_clock E) -> reading_ok (time_clock E h) -> wait_ok t 5 n -> (n < fuel)%nat ->
  exists r l, await_quorum fuel cfg (Fin t) s h = (r, s, h ++ l) /\
    match r with Ok _ => saw_quorum cfg l | Raise _ => True | NoFuel => False end.
Proof.
  intros Hs (p & Hp & Hp0 & Hp1) Hw Hfuel.
  apply (run_of_wp _ (fun r l => match r with Ok _ => saw_quorum cfg l | Raise _ => True | NoFuel => False end)).
  unfold await_quorum. wp_steps. fold (time_clock E h). rewrite Hp.
  eapply (wp_poll_loop _ _ fuel n h p t 5 s Hs Hp Hp0 Hp1 Hw Hfuel); [|done|done].
  intros l. unfold ready_turn. wp_steps. fold (time_clock E (h ++ l)).
  destruct (flt (time_clock E (h ++ l)) (fadd (Fin p) (Fin t))) eqn:Hf; wp_steps.
  2: { intros _. wp_steps. by kept. }
  destruct (answer _ (CDdbScan _)) as [e|items] eqn:Ea; wp_steps; [intros _; by kept|].
  set (now := answer _ CTime). destruct (quorum_ready cfg now items) eqn:Eq; wp_steps.
  - intros _. wp_steps. kept. exists (l ++ [Ev CTime (time_clock E (h ++ l))]), items, now. split; [|by apply quorum_ready_spec]. by rewrite <- app_assoc.
  - split; [done|]. split; [done|]. eexists. split; [repeat rewrite <- app_assoc; reflexivity|]. split; [done|]. vm_compute. lia.
Qed.

Lemma await_quorum_spec_witness :
  exists r l, await_quorum (H := pausing_env 1000) 200 three_coordinators (Fin (240 # 1)) tt [] = (r, tt, l) /\
    match r with Ok _ => saw_quorum three_coordinators l | Raise _ => True | NoFuel => False end.
Proof.
  apply (await_quorum_spec (E := pausing_env 1000) 200 100 three_coordinators (240 # 1) tt []).
  - apply pausing_steady.
  - exists (1000 + 0)%Q. split; [reflexivity|]. split; apply Qle_bool_iff; reflexivity.
  - repeat split; apply Qle_bool_iff; reflexivity.
  - lia.
Defined.
