(* ===== verification/Workload.v ===== *)
(** * Workload: the tasks of a run as a ledger

    The submissions and polls of a run (chaos-bench/exp1.py, bench.py) interleave
    on one history.  [wstep] is one of them running to its end, in any
    environment; as each writes at most one task record, runs of whole jobs cover
    every interleaving of their records.  The specification is a ledger of tasks
    that are submitted once and settled at most once ([lstep]); the workload
    refines it, and the analysis of the file then counts as lost exactly the tasks
    that are still polled or whose poll an exception ended. *)

From stdpp Require Import base gmap list strings relations.
From Stdlib Require Import ZArith QArith.QArith_base.
From S2P Require Import Prelude PyFloat PyStr PyDict Json Runtime History BenchConfig.
From S2P Require Import Submitter Bench Exp1Analysis Exp1.

Local Open Scope Z_scope.
Local Open Scope driftless_scope.

(** ** The specification *)

(** The tasks by their fate: still polled, completed, timed out, poll failed. *)
Record ledger : Type := mkLedger { open : gset string; done : gset string; expired : gset string; aborted : gset string }.

Definition known (a : ledger) : gset string := open a ∪ done a ∪ expired a ∪ aborted a.
Definition empty_ledger : ledger := mkLedger ∅ ∅ ∅ ∅.

Inductive lstep : ledger -> ledger -> Prop :=
| l_submit a id : id ∉ known a -> lstep a (mkLedger ({[ id ]} ∪ open a) (done a) (expired a) (aborted a))
| l_complete a id : id ∈ open a -> lstep a (mkLedger (open a ∖ {[ id ]}) ({[ id ]} ∪ done a) (expired a) (aborted a))
| l_expire a id : id ∈ open a -> lstep a (mkLedger (open a ∖ {[ id ]}) (done a) ({[ id ]} ∪ expired a) (aborted a))
| l_abort a id : id ∈ open a -> lstep a (mkLedger (open a ∖ {[ id ]}) (done a) (expired a) ({[ id ]} ∪ aborted a)).

(** No task has two fates. *)
Definition separate (a : ledger) : Prop :=
  open a ## done a ∪ expired a ∪ aborted a /\ done a ## expired a ∪ aborted a /\ expired a ## aborted a.

Lemma lstep_separate a b : separate a -> lstep a b -> separate b.
Proof. intros (H1 & H2 & H3) H. destruct H; unfold separate, known in *; cbn in *; set_solver. Qed.

(** ** The jobs *)

(** The lines of the file, the polls that run or wait, and the tasks whose poll raised. *)
Record wstate : Type := mkW { w_file : list string; w_polls : list (string * Z); w_raised : list string }.
Definition no_work : wstate := mkW [] [] [].

Definition raised_id (r : res unit) (id : string) : list string := match r with Raise _ => [id] | _ => [] end.

Definition spawned_poll (e : event) : option (string * Z) :=
  match ev_call e with CSpawn (JPoll id ns) => Some (id, ns) | _ => None end.
Definition polls_of (l : history) : list (string * Z) := omap spawned_poll l.

(** [uuid4] gives ids that were not given before. *)
Definition fresh (id : string) (file : list string) : Prop :=
  forall ns wall, line_text (stamped (submit_event id ns) wall) ∉ file.

(** A record of another thread: not about a task. *)
Definition other_record (ev : fields) : bool :=
  plain_fields ev && well_formed ev && negb (op_is ev "submit") && negb (op_is ev "complete") && negb (op_is ev "timeout").

Inductive wstep (cfg : BenchConfig) (params : RunParams) (t : float) (d : Q) : wstate -> wstate -> Prop :=
| w_submit (E : Env) (h l : history) (r : res unit) w :
    fresh (answer h CUuid4) (w_file w) -> do_submit cfg params tt h = (r, tt, h ++ l) ->
    wstep cfg params t d w (mkW (w_file w ++ texts l) (w_polls w ++ polls_of l) (w_raised w))
| w_poll (E : Env) (h l : history) (r : res unit) fuel id ns p1 p2 file raised :
    _poll_to_completion fuel cfg id ns t (Fin d) tt h = (r, tt, h ++ l) -> r <> NoFuel ->
    wstep cfg params t d (mkW file (p1 ++ (id, ns) :: p2) raised) (mkW (file ++ texts l) (p1 ++ p2) (raised ++ raised_id r id))
| w_other ev w :
    other_record ev = true -> wstep cfg params t d w (mkW (w_file w ++ [line_text ev]) (w_polls w) (w_raised w)).

(** What one submission does. *)
Lemma do_submit_run `{E : Env} {S} cfg params (s : S) h :
  exists r l, do_submit cfg params s h = (r, s, h ++ l) /\ r = Ok tt /\
    ((exists e wall, texts l = [line_text (stamped (submit_error_event e) wall)] /\ polls_of l = []) \/
     (exists ns wall, texts l = [line_text (stamped (submit_event (answer h CUuid4) ns) wall)] /\
        polls_of l = [(answer h CUuid4, ns)])).
Proof.
  apply (run_of_wp _ (fun r l => r = Ok tt /\ ((exists e wall, texts l = [line_text (stamped (submit_error_event e) wall)] /\ polls_of l = []) \/
     (exists ns wall, texts l = [line_text (stamped (submit_event (answer h CUuid4) ns) wall)] /\ polls_of l = [(answer h CUuid4, ns)])))).
  unfold do_submit, submit, record, write_file, spawn. wp_steps.
  destruct (answer _ (CS3Put _ _ _)) as [e|[]]; wp_steps;
    [|destruct (answer _ (CDdbPutItem _ _)) as [e|[]]; wp_steps;
      [|destruct (answer _ (CSqsSend _ _)) as [e|[]]; wp_steps]].
  1-3: kept; split; [done|]; left; by eexists _, _.
  kept. split; [done|]. right. by eexists _, _.
Qed.

(** ** The refinement *)

(** The file says of every task what the ledger says. *)
Record refines (w : wstate) (a : ledger) (evs : list fields) : Prop := {
  rf_file : w_file w = map line_text evs;
  rf_plain : forallb plain_fields evs = true;
  rf_formed : forallb well_formed evs = true;
  rf_submits : ids_of "submit" evs = known a;
  rf_completes : ids_of "complete" evs = done a;
  rf_timeouts : ids_of "timeout" evs = expired a;
  rf_polls : list_to_set (map fst (w_polls w)) = open a;
  rf_raised : list_to_set (w_raised w) = aborted a;
  rf_once : NoDup (map fst (w_polls w));
  rf_listed : forall id, id ∈ known a -> exists ns wall, line_text (stamped (submit_event id ns) wall) ∈ w_file w;
}.

Lemma ids_of_snoc op evs ev : ids_of op (evs ++ [ev]) = ids_of op evs ∪ add_opt (id_in op ev) ∅.
Proof. unfold ids_of. rewrite omap_app, list_to_set_app_L. f_equal. cbn. by destruct (id_in op ev). Qed.

Lemma forallb_snoc {A} (p : A -> bool) l x : forallb p l = true -> p x = true -> forallb p (l ++ [x]) = true.
Proof. intros Hl Hx. rewrite forallb_app, Hl. cbn. by rewrite Hx. Qed.

(** A stamped record reads back. *)
Lemma stamped_ok ev wall : plain_fields ev = true -> plain_fields (stamped ev wall) = true.
Proof. apply plain_stamped. Qed.

Lemma refines_start : refines no_work empty_ledger [].
Proof. split; try done; try apply NoDup_nil_2. Qed.

(** One record more, which leaves the listed tasks listed. *)
Lemma refines_record w a evs ev polls raised b :
  refines w a evs -> plain_fields ev = true -> well_formed ev = true ->
  known b = known a ∪ add_opt (id_in "submit" ev) ∅ -> done b = done a ∪ add_opt (id_in "complete" ev) ∅ ->
  expired b = expired a ∪ add_opt (id_in "timeout" ev) ∅ ->
  list_to_set (map fst polls) = open b -> list_to_set raised = aborted b -> NoDup (map fst polls) ->
  (forall id, id_in "submit" ev = Some id -> exists ns wall, ev = stamped (submit_event id ns) wall) ->
  refines (mkW (w_file w ++ [line_text ev]) polls raised) b (evs ++ [ev]).
Proof.
  intros [Hf Hp Hw Hs Hc Ht Hq Hr Ho Hl] Pe We Hk Hd He Hpo Hra Hn Hsub. split; cbn [w_file w_polls w_raised]; try done.
  - by rewrite Hf, map_app.
  - by apply forallb_snoc.
  - by apply forallb_snoc.
  - by rewrite ids_of_snoc, Hs, Hk.
  - by rewrite ids_of_snoc, Hc, Hd.
  - by rewrite ids_of_snoc, Ht, He.
  - intros id Hid. rewrite Hk in Hid. apply elem_of_union in Hid as [Hid|Hid].
    + destruct (Hl id Hid) as (ns & wall & Hin). exists ns, wall. set_solver.
    + destruct (id_in "submit" ev) as [id'|] eqn:E; cbn in Hid; [|set_solver]. assert (id' = id) as -> by set_solver.
      destruct (Hsub id eq_refl) as (ns & wall & ->). exists ns, wall. set_solver.
Qed.

Lemma other_ids ev : other_record ev = true ->
  plain_fields ev = true /\ well_formed ev = true /\ id_in "submit" ev = None /\ id_in "complete" ev = None /\ id_in "timeout" ev = None.
Proof.
  unfold other_record. rewrite !andb_true_iff, !negb_true_iff. intros ((((Hp & Hw) & Hs) & Hc) & Ht).
  unfold id_in. by rewrite Hs, Hc, Ht.
Qed.

Lemma error_is_other e wall : other_record (stamped (submit_error_event e) wall) = true.
Proof. unfold other_record. rewrite stamped_ok by reflexivity. reflexivity. Qed.

(** A job that only adds a record of another kind. *)
Lemma refines_other w a evs ev :
  refines w a evs -> other_record ev = true -> refines (mkW (w_file w ++ [line_text ev]) (w_polls w) (w_raised w)) a (evs ++ [ev]).
Proof.
  intros Hr Ho. destruct (other_ids ev Ho) as (Hp & Hw & Es & Ec & Et).
  apply (refines_record w a evs ev (w_polls w) (w_raised w) a Hr); rewrite ?Es, ?Ec, ?Et; cbn; try done;
    rewrite ?(right_id_L ∅ (∪)); try done; apply Hr.
Qed.

Section step.
Context (w : wstate) (a : ledger) (evs : list fields) (Hr : refines w a evs) (Hsep : separate a).

Lemma step_submit id ns wall :
  fresh id (w_file w) ->
  let ev := stamped (submit_event id ns) wall in
  exists b, lstep a b /\ refines (mkW (w_file w ++ [line_text ev]) (w_polls w ++ [(id, ns)]) (w_raised w)) b (evs ++ [ev]).
Proof using Hr Hsep.
  intros Hfr ev. assert (Hnew : id ∉ known a).
  { intros Hid. destruct (rf_listed _ _ _ Hr id Hid) as (ns' & wall' & Hin). by apply (Hfr ns' wall'). }
  eexists. split; [by apply l_submit|]. apply (refines_record w a evs ev _ _ _ Hr).
  - by apply stamped_ok.
  - reflexivity.
  - unfold known. cbn. set_solver.
  - cbn. set_solver.
  - cbn. set_solver.
  - cbn. rewrite map_app, list_to_set_app_L, (rf_polls _ _ _ Hr). cbn. set_solver.
  - apply Hr.
  - rewrite map_app. apply NoDup_app. split; [apply Hr|]. split; [|apply NoDup_singleton].
    intros x Hx Hx'. apply list_elem_of_singleton in Hx' as ->. apply Hnew. unfold known.
    rewrite <- (rf_polls _ _ _ Hr). set_solver.
  - intros id' [= <-]. by exists ns, wall.
Qed.

(** The poll of an open task leaves the queue. *)
Lemma poll_leaves id ns p1 p2 :
  w_polls w = p1 ++ (id, ns) :: p2 ->
  id ∈ open a /\ (list_to_set (map fst (p1 ++ p2)) : gset string) = open a ∖ {[ id ]} /\ NoDup (map fst (p1 ++ p2)).
Proof using Hr Hsep.
  intros Hp. pose proof (rf_polls _ _ _ Hr) as Ho. pose proof (rf_once _ _ _ Hr) as Hn. rewrite Hp in Ho, Hn.
  rewrite map_app in Ho, Hn. cbn [map fst] in Ho, Hn. rewrite list_to_set_app_L in Ho. cbn in Ho.
  apply NoDup_app in Hn as (N1 & N2 & [N3 N4]%NoDup_cons). rewrite !map_app, list_to_set_app_L. split; [set_solver|]. split.
  - rewrite <- Ho. assert (id ∉ map fst p1) by (intros Hin; by apply (N2 id); [|left]).
    apply set_eq. intros x. rewrite elem_of_difference, !elem_of_union, !elem_of_list_to_set, elem_of_singleton.
    destruct (decide (x = id)) as [->|]; [|set_solver]. tauto.
  - apply NoDup_app. split; [done|]. split; [|done]. intros x Hx Hx'. apply (N2 x); [done|by right].
Qed.

Lemma step_poll id ns p1 p2 ev wall :
  w_polls w = p1 ++ (id, ns) :: p2 -> terminal_event id ns ev ->
  exists b, lstep a b /\ refines (mkW (w_file w ++ [line_text (stamped ev wall)]) (p1 ++ p2) (w_raised w)) b (evs ++ [stamped ev wall]).
Proof using Hr Hsep.
  intros Hp Ht. destruct (poll_leaves id ns p1 p2 Hp) as (Hid & Hset & Hnd).
  destruct Hsep as (S1 & S2 & S3).
  assert (Hk : known a = open a ∖ {[id]} ∪ {[id]} ∪ done a ∪ expired a ∪ aborted a).
  { unfold known. apply set_eq. intros x. rewrite !elem_of_union, elem_of_difference, elem_of_singleton.
    destruct (decide (x = id)); subst; tauto. }
  destruct Ht as (c & [(st & Hst & ->)| ->]); eexists.
  - split; [by apply l_complete|]. apply (refines_record w a evs _ _ _ _ Hr); try done; try apply Hr.
    + rewrite Hk. unfold known. cbn. set_solver.
    + cbn. set_solver.
    + cbn. set_solver.
  - split; [by apply l_expire|]. apply (refines_record w a evs _ _ _ _ Hr); try done; try apply Hr.
    + rewrite Hk. unfold known. cbn. set_solver.
    + cbn. set_solver.
    + cbn. set_solver.
Qed.

Lemma step_abort id ns p1 p2 :
  w_polls w = p1 ++ (id, ns) :: p2 ->
  exists b, lstep a b /\ refines (mkW (w_file w) (p1 ++ p2) (w_raised w ++ [id])) b evs.
Proof using Hr Hsep.
  intros Hp. destruct (poll_leaves id ns p1 p2 Hp) as (Hid & Hset & Hnd). eexists. split; [by apply l_abort|].
  destruct Hr as [Hf Hpl Hw Hs Hc Ht _ Hra _ Hl].
  assert (Hk : known (mkLedger (open a ∖ {[id]}) (done a) (expired a) ({[id]} ∪ aborted a)) = known a).
  { unfold known. cbn. apply set_eq. intros x. rewrite !elem_of_union, elem_of_difference, elem_of_singleton.
    destruct (decide (x = id)); subst; tauto. }
  split; cbn [w_file w_polls w_raised]; try done; [by rewrite Hk|rewrite list_to_set_app_L, Hra; cbn; set_solver|]. intros x. rewrite Hk. apply Hl.
Qed.
End step.

(** ** Properties *)

Section run.
Context (cfg : BenchConfig) (params : RunParams) (t : float) (d : Q).

Lemma wstep_simulated w w' a evs :
  refines w a evs -> separate a -> wstep cfg params t d w w' ->
  exists b evs', rtc lstep a b /\ refines w' b evs' /\ separate b.
Proof.
  intros Hr Hsep H. destruct H as [E h l r w Hfr Hrun|E h l r fuel id ns p1 p2 file raised Hrun Hnf|ev w Ho].
  - destruct (do_submit_run cfg params tt h) as (r' & l' & Hrun' & _ & K). rewrite Hrun in Hrun'.
    injection Hrun' as <- E2. apply app_inv_head in E2 as <-.
    destruct K as [(e & wall & -> & ->)|(ns & wall & -> & ->)].
    + rewrite app_nil_r. eexists a, _. split; [done|]. split; [by apply refines_other, error_is_other|done].
    + destruct (step_submit w a evs Hr Hsep _ ns wall Hfr) as (b & Hb & Hr'). eexists b, _.
      split; [by apply rtc_once|]. split; [done|]. by eapply lstep_separate.
  - destruct (poll_records fuel cfg id ns t d tt h) as (r' & l' & Hrun' & K). rewrite Hrun in Hrun'.
    injection Hrun' as <- E2. apply app_inv_head in E2 as <-. destruct r as [[]|e|]; [| |done].
    + destruct K as (ev & wall & Ht & ->). cbn [raised_id]. rewrite app_nil_r.
      destruct (step_poll _ a evs Hr Hsep id ns p1 p2 ev wall eq_refl Ht) as (b & Hb & Hr'). eexists b, _.
      split; [by apply rtc_once|]. split; [done|]. by eapply lstep_separate.
    + rewrite K, app_nil_r. destruct (step_abort _ a evs Hr Hsep id ns p1 p2 eq_refl) as (b & Hb & Hr'). exists b, evs.
      split; [by apply rtc_once|]. split; [done|]. by eapply lstep_separate.
  - eexists a, _. split; [done|]. split; [by apply refines_other|done].
Qed.

Lemma run_simulated w w' a evs :
  rtc (wstep cfg params t d) w w' -> refines w a evs -> separate a ->
  exists b evs', rtc lstep a b /\ refines w' b evs' /\ separate b.
Proof.
  intros H. revert a evs. induction H as [w|w1 w2 w3 Hs _ IH]; intros a evs Hr Hsep; [by exists a, evs|].
  destruct (wstep_simulated _ _ _ _ Hr Hsep Hs) as (b & evs1 & Hb & Hr1 & S1).
  destruct (IH b evs1 Hr1 S1) as (c & evs2 & Hc & Hr2 & S2). exists c, evs2. split; [by etrans|done].
Qed.
End run.

Lemma separate_empty : separate empty_ledger.
Proof. unfold separate, empty_ledger; cbn. set_solver. Qed.

(** C2: the workload refines the ledger.  After any interleaving of submissions,
    polls and other records, in any environment, the history file and the polls
    still running are those of a ledger reached by submitting tasks once and
    settling each at most once: completed, timed out, or dropped by an exception. *)
Theorem workload_refines_ledger (cfg : BenchConfig) (params : RunParams) (t : float) (d : Q) (w : wstate) :
  rtc (wstep cfg params t d) no_work w ->
  exists a evs, rtc lstep empty_ledger a /\ separate a /\ refines w a evs.
Proof.
  intros H. destruct (run_simulated cfg params t d _ _ _ _ H refines_start separate_empty) as (a & evs & Ha & Hr & Hs).
  by exists a, evs.
Qed.

(** C19: losses of a run.  Analysing the file of any such run reports as submitted
    every task of the ledger, as completed and timed out those settled so, and as
    lost exactly the tasks still polled and those whose poll raised. *)
Theorem losses_of_a_run (cfg : BenchConfig) (params : RunParams) (t : float) (d : Q) (w : wstate) :
  rtc (wstep cfg params t d) no_work w ->
  exists a st, rtc lstep empty_ledger a /\ list_to_set (map fst (w_polls w)) = open a /\
    list_to_set (w_raised w) = aborted a /\
    analyze (foldr String.append ""%string (w_file w)) = Ok st /\
    submitted st = Z.of_nat (base.size (known a)) /\ completed st = Z.of_nat (base.size (done a)) /\
    timed_out st = Z.of_nat (base.size (expired a)) /\
    lost st = Z.of_nat (base.size (open a) + base.size (aborted a)).
Proof.
  intros H. destruct (run_simulated cfg params t d _ _ _ _ H refines_start separate_empty) as (a & evs & Ha & Hr & S1 & S2 & S3).
  destruct Hr as [Hf Hp Hw Hs Hc Ht Hq Hra _ _]. destruct (analyze_run evs Hp Hw) as (c & [C1 C2 C3 _ _] & Hrun).
  exists a. eexists. split; [done|]. split; [done|]. split; [done|]. rewrite Hf. split; [exact Hrun|].
  cbn [submitted completed timed_out lost metrics]. rewrite <- !size_dom, C1, C2, C3, !size_keys, Hs, Hc, Ht.
  split; [done|]. split; [done|]. split; [done|]. unfold known. rewrite !size_union by set_solver. lia.
Qed.

(** A submission, and a poll that DynamoDB refuses. *)
Definition refusing : Env := fun _ c =>
  match c as c' return resp c' with
  | CUuid4 => "t-1"%string
  | CDdbGetItem _ _ _ => inl (Exn BotoCoreError "throttled")
  | c' => default_answer c'
  end.

Definition refused_line : string := line_text (stamped (submit_event "t-1" 0) 0).
Definition refused_params : RunParams := exp1_params (Fin (60 # 1)) (Fin (10 # 1)).
Definition refused_log : history := (do_submit (H := refusing) three_coordinators refused_params tt []).2.
Definition refused_poll : history :=
  (_poll_to_completion (H := refusing) 2 three_coordinators "t-1" 0 (Fin (30 # 1)) (Fin (1 # 2)) tt []).2.

Lemma refused_run :
  rtc (wstep three_coordinators refused_params (Fin (30 # 1)) (1 # 2)) no_work (mkW [refused_line] [] ["t-1"%string]).
Proof.
  apply (rtc_l _ _ (mkW (texts refused_log) (polls_of refused_log) [])).
  - apply (w_submit _ _ _ _ refusing [] refused_log (Ok tt) no_work); [|vm_compute; reflexivity].
    intros ns wall Hin. inv Hin.
  - assert (Ep : polls_of refused_log = [("t-1"%string, 0)]) by (vm_compute; reflexivity). rewrite Ep.
    apply rtc_once.
    pose proof (w_poll three_coordinators refused_params (Fin (30 # 1)) (1 # 2) refusing [] refused_poll
      (Raise (Exn BotoCoreError "throttled")) 2 "t-1" 0 [] [] (texts refused_log) [] ltac:(vm_compute; reflexivity) ltac:(done)) as H.
    assert (E : texts refused_log ++ texts refused_poll = [refused_line]) by (vm_compute; reflexivity). by rewrite E in H.
Qed.

Lemma workload_refines_ledger_witness :
  exists a evs, rtc lstep empty_ledger a /\ separate a /\ refines (mkW [refused_line] [] ["t-1"%string]) a evs.
Proof. apply (workload_refines_ledger three_coordinators refused_params (Fin (30 # 1)) (1 # 2)), refused_run. Defined.

Lemma losses_of_a_run_witness :
  exists a st, rtc lstep empty_ledger a /\ ∅ = open a /\ {[ "t-1"%string ]} ∪ ∅ = aborted a /\
    analyze (foldr String.append ""%string [refused_line]) = Ok st /\
    submitted st = Z.of_nat (base.size (known a)) /\ completed st = Z.of_nat (base.size (done a)) /\
    timed_out st = Z.of_nat (base.size (expired a)) /\
    lost st = Z.of_nat (base.size (open a) + base.size (aborted a)).
Proof. apply (losses_of_a_run three_coordinators refused_params (Fin (30 # 1)) (1 # 2) _ refused_run). Defined.
