(* ===== verification/Exp3.v ===== *)
(** * Exp3: exactly-once semantics under faults (chaos-bench/exp3.py)

    A run submits a fixed number of tasks while three loops inject faults, and
    every status seen goes on record ([_poll_to_completion_traced]).  The
    analysis joins the two scans, the linearizability checker (a program outside
    this repository's Python) and a count of the history. *)

From stdpp Require Import base gmap list strings.
From Stdlib Require Import ZArith QArith.QArith_base Lqa.
From S2P Require Import Prelude PyFloat PyStr PyDict Json Runtime History BenchConfig.
From S2P Require Import LeaderDetect LeaderTracker Faults Ledger Submitter Bench Scans Exp1.

Local Open Scope Z_scope.
Local Open Scope driftless_scope.

(** ** The traced poll *)

Definition observe_event (task_id : string) (call_ns return_ns : Z) (status : string) : fields :=
  [("op", JStr "poll_observe"); ("task_id", JStr task_id); ("call_ns", JInt call_ns);
   ("return_ns", JInt return_ns); ("status", JStr status)]%string.

Definition traced_turn `{Env} {S} (cfg : BenchConfig) (task_id : string) (submitted_ns : Z)
    (deadline poll_s : float) (_ : unit) : M S (unit + bool) :=
  now ← ask CTime;
  if flt now deadline then
    call_ns ← ask CTimeNs;
    status ← poll_status cfg task_id;
    return_ns ← ask CTimeNs;
    match status with
    | Some st =>
        if truthy st then
          record (observe_event task_id call_ns return_ns st);;
          if is_terminal st then
            record (complete_event task_id submitted_ns return_ns st);;
            mret (inr true)
          else sleep poll_s;; mret (inl tt)
        else sleep poll_s;; mret (inl tt)
    | None => sleep poll_s;; mret (inl tt)
    end
  else mret (inr false).

Definition _poll_to_completion_traced `{Env} {S} (fuel : nat) (cfg : BenchConfig) (task_id : string)
    (submitted_ns : Z) (timeout_s poll_s : float) : M S unit :=
  t0 ← ask CTime;
  let deadline := fadd t0 timeout_s in
  fin ← while_loop fuel (traced_turn cfg task_id submitted_ns deadline poll_s) tt;
  if (fin : bool) then mret tt
  else
    completed_ns ← ask CTimeNs;
    record (timeout_event task_id submitted_ns completed_ns).

(** ** The workload *)

(** The inner function [do_submit]. *)
Definition do_submit `{Env} {S} (cfg : BenchConfig) (params : RunParams) : M S unit :=
  let payload := repeat_str (Z.to_nat (payload_bytes params)) "x" in
  r ← try_except (r ← submit cfg payload (priority params); mret (Some r))
                 (fun e => record (submit_error_event e);; mret None);
  match r with
  | None => mret tt
  | Some r =>
      record (submit_event (sr_task_id r) (sr_submitted_ns r));;
      spawn (JPoll (sr_task_id r) (sr_submitted_ns r))
  end.

(** One turn of the submission loop; the local variables are [submitted] and [next_submit]. *)
Definition count_turn `{Env} {S} (params : RunParams) (target_count : Z) (st : Z * float) : M S ((Z * float) + unit) :=
  let '(submitted, next_submit) := st in
  if submitted <? target_count then
    stop ← ask CEventIsSet;
    if (stop : bool) then mret (inr tt)
    else
      spawn JSubmit;;
      let submitted := submitted + 1 in
      let next_submit := fadd next_submit (submit_interval params) in
      now ← ask CTime;
      let sleep_s := fsub next_submit now in
      if flt (Fin (0 # 1)) sleep_s then
        stop ← ask (CEventWait sleep_s);
        if (stop : bool) then mret (inr tt) else mret (inl (submitted, next_submit))
      else mret (inl (submitted, next_submit))
  else mret (inr tt).

Definition _bench_worker `{Env} {S} (fuel : nat) (params : RunParams) (target_count : Z) : M S unit :=
  next_submit ← ask CTime;
  while_loop fuel (count_turn params target_count) (0, next_submit);;
  join_threads;;
  join_threads;;
  tell (Ev CDoneSet tt).

(** ** The fault loops *)

Definition skip_event (fault reason : string) : fields :=
  [("op", JStr "chaos.skip"); ("fault", JStr fault); ("reason", JStr reason)]%string.

Definition error_event (fault : string) (e : exn) : fields :=
  [("op", JStr "chaos.error"); ("fault", JStr fault); ("err", JStr (exn_str e))]%string.

Definition kill_follower_event (k : KillResult) : fields :=
  [("op", JStr "chaos.kill_follower"); ("service", JStr (kr_service k)); ("task_arn", JStr (kr_task_arn k));
   ("killed_ns", JInt (kr_killed_ns k))]%string.

Definition kill_leader_try `{Env} {S} (cfg : BenchConfig) : M S unit :=
  try_except
    (info ← find_leader cfg;
     match info with
     | None => record (skip_event "kill_leader" "no leader detected")
     | Some info =>
         res ← kill_leader cfg (li_ecs_service info);
         match res with
         | None => record (skip_event "kill_leader" "no running task")
         | Some k => record (kill_leader_event k (li_node_id info))
         end
     end)
    (fun e => record (error_event "kill_leader" e)).

Definition _kill_leader_loop `{Env} {S} (fuel : nat) (cfg : BenchConfig) (period_s : float) : M S unit :=
  periodic_loop fuel (kill_leader_try cfg) period_s period_s.

Definition kill_follower_try `{Env} {S} (cfg : BenchConfig) : M S unit :=
  try_except
    (info ← find_leader cfg;
     match info with
     | None => record (skip_event "kill_follower" "no leader detected")
     | Some info =>
         res ← kill_follower cfg (followers_of cfg (li_ecs_service info));
         match res with
         | None => record (skip_event "kill_follower" "no follower tasks")
         | Some k => record (kill_follower_event k)
         end
     end)
    (fun e => record (error_event "kill_follower" e)).

(** The literals [0.7] and [0.4]. *)
Definition _kill_follower_loop `{Env} {S} (fuel : nat) (cfg : BenchConfig) (period_s : float) : M S unit :=
  periodic_loop fuel (kill_follower_try cfg) (fmul period_s (rnd (7 # 10))) period_s.

Definition redeliver_event (n : Z) (queue : string) : fields :=
  [("op", JStr "chaos.sqs_redeliver"); ("redelivered", JInt n); ("queue", JStr queue)]%string.

Definition redeliver_try `{Env} {S} (cfg : BenchConfig) : M S unit :=
  try_except
    (n ← inject_sqs_redelivery (ingest_queue_url cfg) 5;
     record (redeliver_event n (ingest_queue_url cfg)))
    (fun e => record (error_event "sqs_redeliver" e)).

Definition _sqs_redeliver_loop `{Env} {S} (fuel : nat) (cfg : BenchConfig) (period_s : float) : M S unit :=
  periodic_loop fuel (redeliver_try cfg) (fmul period_s (rnd (4 # 10))) period_s.

(** ** The run *)

Definition exp3_params (rate_per_min : float) : RunParams :=
  {| rate_per_min := rate_per_min; duration_s := Fin 0; payload_bytes := 128; priority := 5;
     poll_interval_s := Fin (1 # 2); completion_timeout_s := Fin (120 # 1) |}.

Definition run_exp3 `{Env} {S} (cfg : BenchConfig) (run_name : string) (target_tasks : Z)
    (rate_per_min leader_kill_period_s follower_kill_period_s sqs_redeliver_period_s : float) : M S string :=
  let run_dir := path_join (history_dir cfg) run_name in
  let history_path := path_join run_dir "history.jsonl" in
  record [("op", JStr "run_start"); ("experiment", JStr "exp3"); ("target_tasks", JInt target_tasks);
          ("rate_per_min", JFloat rate_per_min); ("leader_kill_period_s", JFloat leader_kill_period_s);
          ("follower_kill_period_s", JFloat follower_kill_period_s);
          ("sqs_redeliver_period_s", JFloat sqs_redeliver_period_s)]%string;;
  started ← tracker_start false;
  spawn (JThread "exp3-bench");;
  spawn (JThread "exp3-kill-leader");;
  spawn (JThread "exp3-kill-follower");;
  spawn (JThread "exp3-sqs-redeliver");;
  tell (Ev CDoneWait tt);;
  event_set;;
  join_threads;;
  join_threads;;
  join_threads;;
  sleep (Fin (5 # 1));;
  tracker_stop started;;
  record [("op", JStr "run_end")]%string;;
  mret history_path.

(** ** The analysis *)

(** The counters of the loop over the history. *)
Record tally : Type := mkTally {
  t_submitted : Z; t_completed : Z; t_timed_out : Z; t_leader_kills : Z; t_follower_kills : Z; t_redeliveries : json;
}.

Definition no_tally : tally := mkTally 0 0 0 0 0 (JInt 0).

Definition count_event (t : tally) (ev : fields) : res tally :=
  let '(mkTally sub fin out lk fk rd) := t in
  if op_is ev "submit" then mret (mkTally (sub + 1) fin out lk fk rd)
  else if op_is ev "complete" then mret (mkTally sub (fin + 1) out lk fk rd)
  else if op_is ev "timeout" then mret (mkTally sub fin (out + 1) lk fk rd)
  else if op_is ev "chaos.kill_leader" then mret (mkTally sub fin out (lk + 1) fk rd)
  else if op_is ev "chaos.kill_follower" then mret (mkTally sub fin out lk (fk + 1) rd)
  else if op_is ev "chaos.sqs_redeliver" then
    rd ← json_add rd (field_or ev "redelivered" (JInt 0));
    mret (mkTally sub fin out lk fk rd)
  else mret t.

(** [lin_data.get("violations", 0)] of the checker's output. *)
Definition violations_of (text : string) : res json :=
  match loads text with
  | None => Raise (bad_json text)
  | Some (JObj d) => mret (field_or d "violations" (JInt 0))
  | Some _ => Raise (Exn AttributeError "object has no attribute 'get'")
  end.

(** The linearizability check; -1 when it did not give a result. *)
Definition lincheck `{Env} {S} (history_path lin_path : string) (lincheck_bin : option string) : M S json :=
  match lincheck_bin with
  | None => mret (JInt (-1))
  | Some bin =>
      if truthy bin then
        there ← ask (CIsFile bin);
        if (there : bool) then
          try_except
            (code ← check (ask (CSubprocess [bin; "-history"; history_path; "-out"; lin_path]%string));
             if (code : Z) =? 0 then text ← read_file lin_path; lift (violations_of text)
             else mret (JInt (-1)))
            (fun e => match exn_cls e with TimeoutExpired => mret (JInt (-1)) | _ => raise e end)
        else mret (JInt (-1))
      else mret (JInt (-1))
  end.

(** What the analysis returns. *)
Definition exp3_summary (dup_result : DupScanResult) (div_result : DivergenceScanResult) (lin_violations : json) (t : tally) : fields :=
  [("submitted", JInt (t_submitted t)); ("completed", JInt (t_completed t)); ("timed_out", JInt (t_timed_out t));
   ("lost", JInt (Z.max 0 (t_submitted t - t_completed t - t_timed_out t)));
   ("leader_kills", JInt (t_leader_kills t)); ("follower_kills", JInt (t_follower_kills t));
   ("sqs_redeliveries_injected", t_redeliveries t);
   ("duplicate_dispatches", JInt (duplicate_count dup_result));
   ("max_receive_count", JInt (max_receive_count dup_result));
   ("stuck_pending", JInt (stuck_pending div_result)); ("stuck_assigned", JInt (stuck_assigned div_result));
   ("linearizability_violations", lin_violations)]%string.

Definition analyze `{Env} {S} (fuel : nat) (cfg : BenchConfig) (history_path : string) (lincheck_bin : option string)
    : M S fields :=
  let run_dir := dirname history_path in
  text ← read_file history_path;
  dup_result ← dup_scan fuel cfg text;
  dump_json (path_join run_dir "exp3_dups.json") (JObj (dup_to_dict dup_result));;
  text ← read_file history_path;
  div_result ← divergence_scan fuel cfg text;
  dump_json (path_join run_dir "exp3_divergence.json") (JObj (divergence_to_dict div_result));;
  let lin_path := path_join run_dir "exp3_lincheck.json" in
  lin_violations ← lincheck history_path lin_path lincheck_bin;
  text ← read_file history_path;
  t ← lift (fold_history text count_event no_tally);
  mret (exp3_summary dup_result div_result lin_violations t).

(** ** The kill loops are on record *)

Definition leader_report (a : attempt) : fields :=
  match a with
  | NoLeader => skip_event "kill_leader" "no leader detected"
  | NoTask _ => skip_event "kill_leader" "no running task"
  | Killed info k => kill_leader_event k (li_node_id info)
  | Failed e _ => error_event "kill_leader" e
  end.

Definition follower_report (a : attempt) : fields :=
  match a with
  | NoLeader => skip_event "kill_follower" "no leader detected"
  | NoTask _ => skip_event "kill_follower" "no follower tasks"
  | Killed _ k => kill_follower_event k
  | Failed e _ => error_event "kill_follower" e
  end.

Lemma kill_leader_loop_on_record `{E : Env} {S} fuel cfg period_s :
  on_record (S := S) cfg leader_report on_leader (_kill_leader_loop fuel cfg period_s).
Proof.
  unfold _kill_leader_loop. change (kill_leader_try cfg) with (guarded_attempt cfg leader_report (S := S)
    (fun info => kill_leader cfg (li_ecs_service info)) (error_event "kill_leader")).
  apply periodic_on_record.
  - apply guarded_attempt_accountable; try done; intros; [apply stop_random_task_only|apply kill_leader_injects].
  - apply (guarded_attempt_ok cfg leader_report true on_leader); intros; [apply stop_random_task_only|apply kill_leader_injects].
Qed.

Lemma kill_follower_loop_on_record `{E : Env} {S} fuel cfg period_s :
  on_record (S := S) cfg follower_report (on_follower cfg) (_kill_follower_loop fuel cfg period_s).
Proof.
  unfold _kill_follower_loop. change (kill_follower_try cfg) with (guarded_attempt cfg follower_report (S := S)
    (fun info => kill_follower cfg (followers_of cfg (li_ecs_service info))) (error_event "kill_follower")).
  apply periodic_on_record.
  - apply guarded_attempt_accountable; try done; intros; [apply kill_follower_only|apply kill_follower_injects].
  - apply (guarded_attempt_ok cfg follower_report true (on_follower cfg)); intros; [apply kill_follower_only|apply kill_follower_injects].
Qed.

(** ** The workload *)

Definition spawned (e : Runtime.event) : bool := match ev_call e with CSpawn JSubmit => true | _ => false end.
Definition submissions (l : history) : nat := count spawned l.

(** Whether the stop event showed in a log. *)
Definition stop_seen (e : Runtime.event) : bool :=
  match e with
  | Ev c r => match c as c' return resp c' -> bool with
              | CEventIsSet | CEventWait _ => fun b => b
              | _ => fun _ => false
              end r
  end.

(** A turn: leave because all was submitted, leave for the stop event, or submit. *)
Lemma count_turn_run `{E : Env} {S} params target_count sub next (s : S) h :
  exists r l, count_turn params target_count (sub, next) s h = (Ok r, s, h ++ l) /\
    match r with
    | inl st' => st'.1 = sub + 1 /\ sub < target_count /\ submissions l = 1%nat
    | inr _ => (target_count <= sub /\ submissions l = 0%nat) \/
               (sub < target_count /\ existsb stop_seen l = true /\ (submissions l <= 1)%nat)
    end.
Proof.
  unfold count_turn, spawn, tell, ask, mbind, M_bind, mret, M_ret. destruct (Z.ltb_spec sub target_count) as [Hlt|Hge].
  2: { exists (inr tt), []. rewrite app_nil_r. split; [done|]. by left. }
  destruct (answer h CEventIsSet) eqn:Es.
  { eexists (inr tt), _. split; [done|]. right. by repeat split; [|cbn; lia]. }
  set (h1 := (h ++ _) ++ _). set (now := answer h1 CTime). destruct (flt _ (fsub _ now)).
  - set (w := CEventWait _). destruct (answer _ w) eqn:Ew.
    + eexists (inr tt), _. split; [subst h1; repeat rewrite <- app_assoc; reflexivity|]. right. by repeat split; [|cbn; lia].
    + eexists (inl _), _. split; [subst h1; repeat rewrite <- app_assoc; reflexivity|]. done.
  - eexists (inl _), _. split; [subst h1; repeat rewrite <- app_assoc; reflexivity|]. done.
Qed.

Lemma count_loop `{E : Env} {S} fuel params target_count sub next (s : S) h :
  0 <= sub -> (Z.to_nat (target_count - sub) < fuel)%nat ->
  exists l, while_loop fuel (count_turn params target_count) (sub, next) s h = (Ok tt, s, h ++ l) /\
    (submissions l <= Z.to_nat (target_count - sub))%nat /\
    (existsb stop_seen l = false -> submissions l = Z.to_nat (target_count - sub)).
Proof.
  revert sub next h. induction fuel as [|n IH]; intros sub next h Hs Hf; [lia|]. cbn [while_loop].
  destruct (count_turn_run params target_count sub next s h) as (r & l & H & K). unfold mbind, M_bind. rewrite H.
  destruct r as [[sub' next']|[]].
  - destruct K as (Hs' & Hlt & H1). cbn in Hs'. subst sub'. destruct (IH (sub + 1) next' (h ++ l)) as (l' & H' & Hle & Heq); [lia|lia|].
    rewrite H'. exists (l ++ l'). rewrite app_assoc. split; [done|]. unfold submissions in *.
    rewrite existsb_app, count_app, H1. split; [lia|]. intros [_ Hx]%orb_false_iff. rewrite Heq by done. lia.
  - exists l. split; [done|]. destruct K as [[Hge H0]|(Hlt & Hx & Hle)]; [rewrite H0; lia|]. split; [lia|congruence].
Qed.

(** ** The traced poll *)

(** A status seen between two readings of the clock. *)
Definition observed (task_id : string) (o : Z * Z * string) : fields := observe_event task_id o.1.1 o.1.2 o.2.

(** The records of turns that did not end the poll: statuses that are not terminal. *)
Definition pending_trace (task_id : string) (l : history) : Prop :=
  exists obs walls, length walls = length obs /\ texts l = map line_text (zip_with stamped (map (observed task_id) obs) walls) /\
    forall o, o ∈ obs -> is_terminal o.2 = false.

(** The trace of a poll that a terminal status ended: pending statuses, then the
    terminal one and its record with the same status and time. *)
Definition settled_trace (task_id : string) (submitted_ns : Z) (l : history) : Prop :=
  exists l1 l2 w1 w2, l = l1 ++ l2 /\ pending_trace task_id l1 /\
    exists c r st, is_terminal st = true /\
      texts l2 = [line_text (stamped (observe_event task_id c r st) w1);
                  line_text (stamped (complete_event task_id submitted_ns r st) w2)].

(** The trace of a poll that ran out of time. *)
Definition expired_trace (task_id : string) (submitted_ns : Z) (l : history) : Prop :=
  exists l1 l2 w, l = l1 ++ l2 /\ pending_trace task_id l1 /\
    exists ns, texts l2 = [line_text (stamped (timeout_event task_id submitted_ns ns) w)].

(** The trace of a finished poll tells what DynamoDB showed. *)
Definition finished_trace (task_id : string) (submitted_ns : Z) (l : history) : Prop :=
  if terminal_seen l then settled_trace task_id submitted_ns l else expired_trace task_id submitted_ns l.

Lemma pending_nil task_id l : texts l = [] -> pending_trace task_id l.
Proof. intros H. exists [], []. split; [done|]. split; [done|]. intros o Ho. inv Ho. Qed.

Lemma pending_app task_id l1 l2 : pending_trace task_id l1 -> pending_trace task_id l2 -> pending_trace task_id (l1 ++ l2).
Proof.
  intros (o1 & w1 & L1 & T1 & P1) (o2 & w2 & L2 & T2 & P2). exists (o1 ++ o2), (w1 ++ w2). rewrite !length_app, L1, L2.
  split; [done|]. split; [|set_solver]. by rewrite texts_app, T1, T2, map_app, zip_with_app, map_app by (rewrite length_map; lia).
Qed.

Lemma pending_one task_id l c r st wall :
  is_terminal st = false -> texts l = [line_text (stamped (observe_event task_id c r st) wall)] -> pending_trace task_id l.
Proof. intros Hst Ht. exists [(c, r, st)], [wall]. split; [done|]. split; [done|]. by intros o ->%list_elem_of_singleton. Qed.

(** The log of turns that did not end the poll. *)
Definition unsettled (task_id : string) (l : history) : Prop := pending_trace task_id l /\ terminal_seen l = false.

Lemma unsettled_app task_id l1 l2 : unsettled task_id l1 -> unsettled task_id l2 -> unsettled task_id (l1 ++ l2).
Proof. intros [P1 S1] [P2 S2]. split; [by apply pending_app|]. by rewrite terminal_seen_app, S1, S2. Qed.

Lemma unsettled_quiet task_id l : texts l = [] -> terminal_seen l = false -> unsettled task_id l.
Proof. intros. split; [by apply pending_nil|done]. Qed.

(** What one turn adds. *)
Definition turn_trace {S} (E : Env) (task_id : string) (submitted_ns : Z) (deadline : float) (d : Q)
    (s : S) (h : history) : post (S := S) (unit + bool) :=
  fun r s' h' => s' = s /\ exists l, h' = h ++ l /\
    match r with
    | Ok (inl _) => unsettled task_id l /\ flt (time_clock E h) deadline = true /\ (1 <= pauses d l)%nat
    | Ok (inr true) => settled_trace task_id submitted_ns l /\ terminal_seen l = true
    | Ok (inr false) => texts l = [] /\ terminal_seen l = false
    | Raise _ => unsettled task_id l
    | NoFuel => False
    end.

Lemma pauses_sleep d l : (1 <= pauses d (l ++ [Ev (CSleep (Fin d)) tt]))%nat.
Proof.
  unfold pauses. rewrite count_app. unfold count at 2. simpl.
  assert (Qle_bool d d = true) as -> by (apply Qle_bool_iff, Qle_refl). simpl. lia.
Qed.

Lemma traced_turn_run `{E : Env} {S} cfg task_id ns deadline d (s : S) h :
  wp (traced_turn cfg task_id ns deadline (Fin d) tt) (turn_trace E task_id ns deadline d s h) s h.
Proof.
  unfold traced_turn. wp_steps. fold (time_clock E h). destruct (flt (time_clock E h) deadline) eqn:Hf; wp_steps; [|by kept].
  set (h1 := (h ++ _) ++ _). destruct (poll_status_run cfg task_id s h1) as (r & l & H & T & Pz & Hr & Hseen).
  unfold wp at 1. rewrite H. destruct r as [o|e|]; wp_steps; [| |done].
  2: { subst h1. kept. apply unsettled_quiet; [by rewrite !texts_app, T|by rewrite !terminal_seen_app, Hseen]. }
  assert (Hsleep : forall hh l0, hh = h ++ l0 -> unsettled task_id l0 ->
    wp (sleep (Fin d);; mret (inl tt)) (turn_trace E task_id ns deadline d s h) s hh).
  { intros hh l0 -> Hl0. wp_steps. split; [done|]. exists (l0 ++ [Ev (CSleep (Fin d)) tt]). rewrite app_assoc. split; [done|].
    split; [|split; [done|apply pauses_sleep]]. by apply unsettled_app; [|apply unsettled_quiet]. }
  set (h2 := (h1 ++ l) ++ _).
  assert (Eh2 : exists l2, h2 = h ++ l2 /\ texts l2 = [] /\ terminal_seen l2 = match o with Some st => is_terminal st | None => false end).
  { eexists. subst h2 h1. split; [repeat rewrite <- app_assoc; reflexivity|]. rewrite !texts_app, T. split; [done|].
    rewrite !terminal_seen_app, Hseen. cbn. by rewrite ?orb_false_r. }
  destruct Eh2 as (l2 & Eh2 & T2 & S2). destruct o as [st|]; [|by apply (Hsleep _ l2), unsettled_quiet].
  destruct (truthy st) eqn:Et; [|apply (Hsleep _ l2); [done|]; apply unsettled_quiet; [done|]; rewrite S2; by destruct st].
  apply wp_bind. unfold wp at 1. rewrite record_run. cbn [next]. set (wall := answer h2 CTimeNs).
  set (rn := answer (h1 ++ l) CTimeNs).
  destruct (is_terminal st) eqn:Eterm.
  - apply wp_bind. unfold wp at 1. rewrite record_run. cbn [next]. wp_steps. split; [done|]. eexists. rewrite Eh2.
    split; [repeat rewrite <- app_assoc; reflexivity|]. split; [|by rewrite terminal_seen_app, S2].
    eexists l2, _, _, _. split; [reflexivity|]. split; [by apply pending_nil|]. by eexists _, _, st.
  - rewrite Eh2. eapply Hsleep; [by rewrite <- app_assoc|]. apply unsettled_app; [by apply unsettled_quiet|].
    split; [by eapply pending_one|done].
Qed.

(** What a poll has left on record. *)
Definition poll_trace (task_id : string) (submitted_ns : Z) (r : res unit) (l : history) : Prop :=
  match r with
  | Ok _ => finished_trace task_id submitted_ns l
  | Raise _ => unsettled task_id l
  | NoFuel => True
  end.

(** The turn that leaves the loop, and what follows it. *)
Lemma traced_leave `{E : Env} {S} task_id ns deadline d (s : S) h l r s' h' :
  unsettled task_id l -> turn_trace E task_id ns deadline d s (h ++ l) r s' h' ->
  match r with
  | Ok (inr fin) => wp (if (fin : bool) then mret tt else completed_ns ← ask CTimeNs; record (timeout_event task_id ns completed_ns))
      (fun r s1 h1 => r <> NoFuel /\ s1 = s /\ exists l', h1 = h ++ l' /\ poll_trace task_id ns r l') s' h'
  | Raise _ => s' = s /\ exists l', h' = h ++ l' /\ unsettled task_id l'
  | _ => True
  end.
Proof.
  intros [P1 S1] (-> & l' & -> & K). destruct r as [[[]|[]]|e|]; [done| | | |done].
  - destruct K as [(l1 & l2 & w1 & w2 & -> & P2 & K) S2]. wp_steps. split; [done|]. kept. unfold poll_trace, finished_trace.
    rewrite terminal_seen_app, S1, S2. cbn. exists (l ++ l1), l2, w1, w2. rewrite app_assoc. split; [done|].
    split; [by apply pending_app|done].
  - destruct K as [T2 S2]. wp_steps. unfold wp. rewrite record_run. split; [done|]. split; [done|].
    eexists. split; [repeat rewrite <- app_assoc; reflexivity|]. unfold poll_trace, finished_trace.
    rewrite !terminal_seen_app, S1, S2. cbn. eexists l, _, _. split; [reflexivity|]. split; [done|].
    eexists. by rewrite !texts_app, T2.
  - split; [done|]. exists (l ++ l'). rewrite app_assoc. split; [done|]. by apply unsettled_app.
Qed.

(** Whatever the clock does, a poll that ends left one of these traces. *)
Lemma traced_records `{E : Env} {S} fuel cfg task_id submitted_ns timeout_s d (s : S) h :
  exists r l, _poll_to_completion_traced fuel cfg task_id submitted_ns timeout_s (Fin d) s h = (r, s, h ++ l) /\
    poll_trace task_id submitted_ns r l.
Proof.
  apply (run_of_wp _ (poll_trace task_id submitted_ns)). unfold _poll_to_completion_traced. wp_steps.
  apply (wp_while_inv fuel _ (fun _ s' h' => s' = s /\ exists l, h' = h ++ l /\ unsettled task_id l)).
  - intros [] s' h' [-> (l & -> & Hl)]. eapply wp_mono; [|apply traced_turn_run]. intros r s' h' Ht.
    pose proof (traced_leave task_id submitted_ns _ d s h l r s' h' Hl Ht) as K. destruct r as [[[]|fin]|e|]; [| |done|by destruct Ht as (_ & ? & _ & [])].
    + destruct Ht as (-> & l' & -> & Hl' & _). split; [done|]. exists (l ++ l'). rewrite app_assoc. split; [done|]. by apply unsettled_app.
    + eapply wp_mono; [|exact K]. by intros r ? ? (_ & -> & K').
  - intros [] s' h' [-> (l & -> & Hl)]. wp_steps. by kept.
  - split; [done|]. eexists. split; [reflexivity|]. by apply unsettled_quiet.
Qed.

(** ** Properties *)

(** C4: injected faults are on record, and on the right services.  The leader and
    follower kill loops never raise.  Their logs are waits and attempts ([led]): each
    attempt detects the leader, and stops tasks only of the service its own detection
    named, for the leader loop, or of another coordinator service, for the follower
    loop.  Every record is that of an attempt, in order, and the tasks stopped are
    exactly those of the attempts, recorded as kills or, for an attempt an exception
    cut short, one at most behind a [chaos.error]. *)
Theorem faults_on_record `{E : Env} {S} (fuel : nat) (cfg : BenchConfig) (period_s : float) :
  on_record (S := S) cfg leader_report on_leader (_kill_leader_loop fuel cfg period_s) /\
  on_record (S := S) cfg follower_report (on_follower cfg) (_kill_follower_loop fuel cfg period_s).
Proof. split; [apply kill_leader_loop_on_record|apply kill_follower_loop_on_record]. Qed.

(** C13: all tasks are submitted.  The submission loop ends, hands at most the
    target number of submissions to the pool, and exactly the target unless the
    stop event was seen; the end of the workload is announced. *)
Theorem target_submitted `{E : Env} {S} (fuel : nat) (params : RunParams) (target_count : Z) (s : S) (h : history) :
  (Z.to_nat target_count < fuel)%nat ->
  exists l, _bench_worker fuel params target_count s h = (Ok tt, s, h ++ l ++ [Ev CDoneSet tt]) /\
    (submissions l <= Z.to_nat target_count)%nat /\
    (existsb stop_seen l = false -> submissions l = Z.to_nat target_count).
Proof.
  intros Hf. unfold _bench_worker, mbind at 1, M_bind at 1, ask at 1.
  destruct (count_loop fuel params target_count 0 (answer h CTime) s (h ++ [Ev CTime (answer h CTime)])) as (l & H & Hle & Heq);
    [lia|by rewrite Z.sub_0_r|]. unfold mbind, M_bind. rewrite H. rewrite Z.sub_0_r in *.
  exists ([Ev CTime (answer h CTime)] ++ l ++ [Ev CJoin tt; Ev CJoin tt]).
  assert (Hs : submissions ([Ev CTime (answer h CTime)] ++ l ++ [Ev CJoin tt; Ev CJoin tt]) = submissions l).
  { unfold submissions. rewrite !count_app. unfold count at 1 3. simpl. lia. }
  split; [unfold join_threads, tell; rewrite <- !app_assoc; reflexivity|]. rewrite Hs. split; [done|].
  rewrite !existsb_app. cbn. by rewrite orb_false_r.
Qed.

Lemma target_submitted_witness :
  exists l, _bench_worker (H := pausing_env 1000) 11 (exp3_params (Fin (600 # 1))) 10 tt [] = (Ok tt, tt, l ++ [Ev CDoneSet tt]) /\
    (submissions l <= 10)%nat /\ (existsb stop_seen l = false -> submissions l = 10%nat).
Proof. apply (target_submitted (E := pausing_env 1000) 11 (exp3_params (Fin (600 # 1))) 10 tt []). vm_compute. lia. Defined.

(** C23: the trace of a task ends with its terminal record.  With a clock that
    moves on while the poll sleeps, a traced poll ends; the lines it writes are
    observations of non-terminal statuses, followed by one of a terminal status
    and the completion with the same status and time when DynamoDB showed a
    terminal status, by the time-out when it never did; when DynamoDB raises, they
    are observations of non-terminal statuses. *)
Theorem traced_poll_spec `{E : Env} {S} (fuel n : nat) (cfg : BenchConfig) (task_id : string)
    (submitted_ns : Z) (t d : Q) (s : S) (h : history) :
  steady (time_clock E) -> reading_ok (time_clock E h) -> wait_ok t d n -> (n < fuel)%nat ->
  exists r l, _poll_to_completion_traced fuel cfg task_id submitted_ns (Fin t) (Fin d) s h = (r, s, h ++ l) /\
    match r with
    | Ok _ => finished_trace task_id submitted_ns l
    | Raise _ => pending_trace task_id l
    | NoFuel => False
    end.
Proof.
  intros Hs (p & Hp & Hp0 & Hp1) Hw Hfuel.
  apply (run_of_wp _ (fun r l => match r with Ok _ => finished_trace task_id submitted_ns l
    | Raise _ => pending_trace task_id l | NoFuel => False end)).
  unfold _poll_to_completion_traced. wp_steps. fold (time_clock E h). rewrite Hp.
  eapply (wp_poll_loop_inv _ (unsettled task_id) _ fuel n h p t d s Hs Hp Hp0 Hp1 Hw Hfuel); [|by apply unsettled_quiet|done].
  intros l Hl. eapply wp_mono; [|apply traced_turn_run]. intros r s' h' Ht.
  pose proof (traced_leave task_id submitted_ns _ d s h l r s' h' Hl Ht) as K. destruct r as [[[]|fin]|e|].
  - destruct Ht as (-> & l' & -> & Hl' & Hf & Hone). split; [done|]. split; [done|]. exists l'. rewrite app_assoc. split; [done|].
    split; [by apply unsettled_app|done].
  - eapply wp_mono; [|exact K]. intros [[]|e|] s1 h1 (Hr & -> & l' & -> & K'); [by kept|kept; apply K'|done].
  - destruct K as (-> & l' & -> & [K _]). kept. done.
  - by destruct Ht as (_ & ? & _ & []).
Qed.

Lemma traced_poll_spec_witness :
  exists r l, _poll_to_completion_traced (H := pausing_env 1000) 600 three_coordinators "t-1" 5 (Fin (120 # 1)) (Fin (1 # 2)) tt [] = (r, tt, l) /\
    match r with Ok _ => finished_trace "t-1" 5 l | Raise _ => pending_trace "t-1" l | NoFuel => False end.
Proof.
  apply (traced_poll_spec (E := pausing_env 1000) 600 484 three_coordinators "t-1" 5 (120 # 1) (1 # 2) tt []).
  - apply pausing_steady.
  - exists (1000 + 0)%Q. split; [reflexivity|]. split; apply Qle_bool_iff; reflexivity.
  - repeat split; apply Qle_bool_iff; reflexivity.
  - lia.
Defined.
