(* ===== verification/PlotExp3.v ===== *)
(** * PlotExp3: the graphs of experiment 3 (experiments/exp3/plot_exp3.py)

    The history of a run and the documents of its analysis are loaded and drawn:
    the summary of the analysis, the states of the tasks over time, the latencies,
    and the throughput next to the injected faults.  Figures are lists of what is
    drawn ([Draw]).  [np_ops] holds the numpy functions the figures use.

    Observations and times are integers and strings, as the bench records them; an
    event with other types is rejected with [TypeError] here, where Python may only
    fail later. *)

From stdpp Require Import base gmap list strings.
From Stdlib Require Import ZArith QArith.QArith_base QArith.Qround Lqa.
From S2P Require Import Prelude PyFloat PyStr PyDict Json Draw Runtime History Stats Exp1Analysis PlotExp2.
From S2P Require Scans Exp3.

Local Open Scope Z_scope.
Local Open Scope driftless_scope.

(** ** Loading *)

Definition loads_doc (text : string) : res json := res_of_option (bad_json text) (loads text).

Record run_data : Type := mkRunData {
  rd_events : list json;
  rd_summary : json;
  rd_dups : json;
  rd_divergence : json;
  rd_lincheck : json;
}.

Definition load_doc `{Env} {S} (run_dir name : string) : M S json :=
  text ← read_file (path_join run_dir name);
  lift (loads_doc text).

Definition load `{Env} {S} (run_dir : string) : M S run_data :=
  text ← read_file (path_join run_dir "history.jsonl");
  events ← lift (History.load text);
  summary ← load_doc run_dir "exp3_summary.json";
  dups ← load_doc run_dir "exp3_dups.json";
  divergence ← load_doc run_dir "exp3_divergence.json";
  lincheck ← load_doc run_dir "exp3_lincheck.json";
  mret (mkRunData events summary dups divergence lincheck).

(** ** Values of events and documents *)

Definition type_error : exn := Exn TypeError "unsupported operand type".

(** [summary[k]] as a number. *)
Definition number_of (doc : json) (k : string) : res num :=
  match doc with
  | JObj d => v ← item_of d k; res_of_option type_error (as_number v)
  | _ => Raise type_error
  end.

(** [e["op"] == name]. *)
Definition op_eq (e : fields) (name : string) : res bool :=
  v ← item_of e "op"; mret (match v with JStr s => String.eqb s name | _ => false end).

Definition int_item (e : fields) (k : string) : res Z :=
  v ← item_of e k; match v with JInt z => mret z | _ => Raise type_error end.
Definition str_item (e : fields) (k : string) : res string :=
  v ← item_of e k; match v with JStr s => mret s | _ => Raise type_error end.

(** A parsed value where the code takes a field of it. *)
Definition subscripted (v : json) : res fields := match v with JObj d => Ok d | _ => Raise type_error end.

(** A loop over the events; its body begins with [e["op"]]. *)
Definition map_events {A} (f : fields -> res A) (events : list json) : res (list A) :=
  map_res (fun v => e ← subscripted v; f e) events.

(** [next(e["wall_ns"] for e in events if e["op"] == "run_start")]. *)
Fixpoint run_start (events : list json) : res Z :=
  match events with
  | [] => Raise (Exn OtherError "StopIteration")
  | v :: events' => e ← subscripted v; here ← op_eq e "run_start"; if (here : bool) then int_item e "wall_ns" else run_start events'
  end.

(** [(ns - run_start_ns) / 1e9]. *)
Definition seconds_since (start ns : Z) : float := default NaN (fdiv (of_Z (ns - start)) (Fin (1000000000 # 1))).

(** ** Style *)

Definition PASS_GREEN : string := "#2ecc71".
Definition FAIL_RED : string := "#e74c3c".
Definition BLUE : string := "#3498db".
Definition ORANGE : string := "#e67e22".
Definition PURPLE : string := "#9b59b6".
Definition GRAY : string := "#95a5a6".
Definition DARK : string := "#2c3e50".

Definition zero : num := inl 0.
Definition pass_if (b : bool) : string := if b then PASS_GREEN else FAIL_RED.

(** Labels over the bars of a panel. *)
Definition labels_over (panel : nat) (y : num -> num) (text color : num -> string) (values : list num) : figure :=
  imap (fun i v => Text panel (XBar i) (y v) (text v) (color v)) values.

(** [max] of values that are not empty. *)
Definition num_greatest (values : list num) : num :=
  match values with [] => zero | v :: vs => num_max_of v vs end.

(** ** Figure 1: the summary *)

Definition outcome_labels : list string := ["Submitted"; "Completed"; "Timed Out"; "Lost"]%string.
Definition safety_labels : list string :=
  ["Duplicate" ^^ newline ^^ "Dispatches"; "Linearizability" ^^ newline ^^ "Violations";
   "Stuck" ^^ newline ^^ "PENDING"; "Stuck" ^^ newline ^^ "ASSIGNED"].
Definition fault_labels : list string :=
  ["Leader" ^^ newline ^^ "Kills"; "Follower" ^^ newline ^^ "Kills"; "SQS" ^^ newline ^^ "Redeliveries"].

Definition outcome_panel (summary : json) : res figure :=
  submitted ← number_of summary "submitted"; completed ← number_of summary "completed";
  timed_out ← number_of summary "timed_out"; lost ← number_of summary "lost";
  let values := [submitted; completed; timed_out; lost] in
  mret ([Bars 0 (map XCat outcome_labels) (lit (5 # 10)) values
           [BLUE; PASS_GREEN; pass_if (negb (num_lt zero timed_out)); pass_if (negb (num_lt zero lost))] ""]
        ++ labels_over 0 (fun v => num_add v (inl 2)) num_str (fun _ => DARK) values
        ++ [Axes 0 "A. Task Outcomes" "" "Tasks"; YLim 0 zero (Some (num_mul submitted (inr (lit (115 # 100)))))]).

Definition safety_keys : list string :=
  ["duplicate_dispatches"; "linearizability_violations"; "stuck_pending"; "stuck_assigned"]%string.

Definition is_zero (v : num) : bool := num_eq v zero.

Definition safety_panel (summary : json) : res figure :=
  vals ← map_res (number_of summary) safety_keys;
  mret ([Bars 1 (map XCat safety_labels) (lit (5 # 10)) vals (map (fun v => pass_if (is_zero v)) vals) ""]
        ++ labels_over 1 (fun v => num_add (num_max v zero) (inr (lit (5 # 100))))
             (fun v => num_str v ^^ (if is_zero v then " ✓" else " ✗")) (fun v => pass_if (is_zero v)) vals
        ++ [Axes 1 "B. Safety Properties" "" "Count (target: 0)";
            YLim 1 zero (Some (num_max (num_mul (num_greatest vals) (inr (lit (14 # 10)))) (inl 1)))]).

Definition fault_panel (summary : json) : res figure :=
  vals ← map_res (number_of summary) ["leader_kills"; "follower_kills"; "sqs_redeliveries_injected"]%string;
  mret ([Bars 2 (map XCat fault_labels) (lit (5 # 10)) vals [ORANGE; PURPLE; BLUE] ""]
        ++ labels_over 2 (fun v => num_add v (inr (lit (1 # 10)))) num_str (fun _ => DARK) vals
        ++ [Axes 2 "C. Fault Injections" "" "Events";
            YLim 2 zero (Some (num_add (num_mul (num_greatest vals) (inr (lit (14 # 10)))) (inl 1)))]).

Definition fig_summary_dashboard (summary : json) : res figure :=
  a ← outcome_panel summary;
  b ← safety_panel summary;
  c ← fault_panel summary;
  mret ([SupTitle "Experiment 3 — Exactly-Once Under Faults: Result Summary"] ++ a ++ b ++ c).

(** ** Figure 2: the states of the tasks *)

(** An observation: when, of which task, which status. *)
Definition obs : Type := Z * string * string.

(** The order of tuples. *)
Definition obs_le (a b : obs) : bool :=
  let '(n1, t1, s1) := a in
  let '(n2, t2, s2) := b in
  if n1 <? n2 then true
  else if n2 <? n1 then false
  else if String.eqb t1 t2 then str_leb s1 s2 else str_leb t1 t2.

Definition obs_with (e : fields) (time_key : string) (status : res string) : res (list obs) :=
  ns ← int_item e time_key;
  tid ← str_item e "task_id";
  st ← status;
  mret [(ns, tid, st)].

Definition obs_of_event (e : fields) : res (list obs) :=
  submit ← op_eq e "submit";
  if (submit : bool) then obs_with e "wall_ns" (mret "PENDING"%string)
  else
    poll ← op_eq e "poll_observe";
    if (poll : bool) then obs_with e "return_ns" (str_item e "status")
    else
      complete ← op_eq e "complete";
      if (complete : bool) then obs_with e "completed_ns" (str_item e "status") else mret [].

Definition observations (events : list json) : res (list obs) :=
  l ← map_events obs_of_event events; mret (concat l).

(** The local variables of the loop. *)
Record timeline : Type := mkTimeline {
  tl_status : list (string * string);
  tl_pending : Z;
  tl_assigned : Z;
  tl_completed : Z;
  tl_points : list (float * Z * Z * Z);
}.

Definition terminal (status : string) : bool := String.eqb status "COMPLETED" || String.eqb status "FAILED".

(** Add [d] to the counter of a status, if it has one. *)
Definition bump_status (d : Z) (status : string) (c : Z * Z * Z) : Z * Z * Z :=
  let '(p, a, t) := c in
  if String.eqb status "PENDING" then (p + d, a, t)
  else if String.eqb status "ASSIGNED" then (p, a + d, t)
  else if terminal status then (p, a, t + d)
  else c.

Definition timeline_step (start : Z) (tl : timeline) (o : obs) : timeline :=
  let '(wall_ns, tid, status) := o in
  let old := dict_get (tl_status tl) tid in
  if bool_decide (old = Some status) then tl
  else
    let c := (tl_pending tl, tl_assigned tl, tl_completed tl) in
    let c := match old with Some st => bump_status (-1) st c | None => c end in
    let '(p, a, t) := bump_status 1 status c in
    mkTimeline (dict_set (tl_status tl) tid status) p a t (tl_points tl ++ [(seconds_since start wall_ns, p, a, t)]).

Definition timeline_of (start : Z) (sorted_obs : list obs) : timeline :=
  fold_left (timeline_step start) sorted_obs (mkTimeline [] 0 0 0 []).

(** The times of one kind of fault. *)
Definition fault_times (start : Z) (name : string) (events : list json) : res (list float) :=
  l ← map_events (fun e => here ← op_eq e name;
                 if (here : bool) then ns ← int_item e "wall_ns"; mret [seconds_since start ns] else mret []) events;
  mret (concat l).

Definition tp_time (p : float * Z * Z * Z) : num := let '(t, _, _, _) := p in inr t.
Definition tp_pending (p : float * Z * Z * Z) : num := let '(_, n, _, _) := p in inl n.
Definition tp_assigned (p : float * Z * Z * Z) : num := let '(_, _, n, _) := p in inl n.
Definition tp_completed (p : float * Z * Z * Z) : num := let '(_, _, _, n) := p in inl n.

(** [y_max * k]. *)
Definition scaled (y : num) (k : Q) : num := num_mul y (inr (lit k)).

Definition kill_marks (y_max : num) (k : Q) (text color : string) (times : list float) : figure :=
  concat (map (fun t => [VLine 0 (inr t) color; Text 0 (XNum (inr (fadd t (lit (5 # 10))))) (scaled y_max k) text color]) times).

Definition redelivery_marks (y_max : num) (times : list float) : figure :=
  concat (imap (fun i t => VLine 0 (inr t) GRAY ::
    (if (i =? 0)%nat then [Text 0 (XNum (inr t)) (scaled y_max (55 # 100)) ("SQS" ^^ newline ^^ "Redeliver") GRAY] else [])) times).

(** [None] when there is nothing to draw. *)
Definition fig_task_state_timeline (events : list json) : res (option figure) :=
  start ← run_start events;
  obs ← observations events;
  let points := tl_points (timeline_of start (isort obs_le obs)) in
  match points with
  | [] => mret None
  | _ =>
      let ts := map tp_time points in
      let pend := map tp_pending points in
      let asgn := map tp_assigned points in
      let comp := map tp_completed points in
      leader ← fault_times start "chaos.kill_leader" events;
      follower ← fault_times start "chaos.kill_follower" events;
      sqs ← fault_times start "chaos.sqs_redeliver" events;
      let y_max := num_max_of (num_greatest pend) [num_greatest asgn; num_greatest comp] in
      mret (Some (
        [Fill 0 ts pend ORANGE; Fill 0 ts asgn BLUE; Fill 0 ts comp PASS_GREEN;
         Steps 0 ts pend ORANGE "PENDING"; Steps 0 ts asgn BLUE "ASSIGNED"; Steps 0 ts comp PASS_GREEN "COMPLETED"]
        ++ kill_marks y_max (92 # 100) ("Leader" ^^ newline ^^ "Kill") FAIL_RED leader
        ++ kill_marks y_max (75 # 100) ("Follower" ^^ newline ^^ "Kill") PURPLE follower
        ++ redelivery_marks y_max sqs
        ++ [Axes 0 "Figure 2 — Task State Progression Over Time" "Time since run start (s)" "Task count";
            XLim 0 zero None; YLim 0 zero None]))
  end.

(** ** Figure 3: latencies *)

Definition submit_entry (e : fields) : res (list (string * Z)) :=
  here ← op_eq e "submit";
  if (here : bool) then tid ← str_item e "task_id"; ns ← int_item e "submitted_ns"; mret [(tid, ns)] else mret [].

(** [{e["task_id"]: e["submitted_ns"] for e in events if e["op"] == "submit"}]. *)
Definition submits_of (events : list json) : res (list (string * Z)) :=
  l ← map_events submit_entry events; mret (dict_of_items (concat l)).

(** [(completed_ns - submits[task_id]) / 1e6]. *)
Definition latency_of (submits : list (string * Z)) (e : fields) : res (list float) :=
  here ← op_eq e "complete";
  if (here : bool) then
    tid ← str_item e "task_id";
    match dict_get submits tid with
    | Some submitted => ns ← int_item e "completed_ns"; mret [default NaN (fdiv (of_Z (ns - submitted)) (Fin (1000000 # 1)))]
    | None => mret []
    end
  else mret [].

Definition latencies_of (events : list json) : res (list float) :=
  submits ← submits_of events;
  l ← map_events (latency_of submits) events; mret (concat l).

(** [int(n * p)]. *)
Definition rank_of (n : Z) (p : Q) : Z := default 0 (ftrunc (fmul (of_Z n) (lit p))).

(** [latencies_ms[int(n * p)]] of the sorted latencies. *)
Definition rank_value (sorted_ms : list float) (p : Q) : res float :=
  res_of_option (Exn IndexError "list index out of range") (sorted_ms !! Z.to_nat (rank_of (Z.of_nat (length sorted_ms)) p)).

(** [np.arange(1, n + 1) / n * 100]. *)
Definition cdf_percent (n : nat) : list num :=
  map (fun i => inr (fmul (Zdivf (Z.of_nat i) (Pos.of_nat n)) (Fin (100 # 1)))) (seq 1 n).

Definition seconds_text (d : nat) (ms : float) : string := fmt_fixed d (thousandth ms).

Definition percentile_marks (pmax : float) (k : Z * float * string) : figure :=
  let '(pct, val, label) := k in
  [VLine 0 (inr val) GRAY; HRule 0 (inl pct) GRAY; Point 0 (inr val) (inl pct) DARK;
   Text 0 (XNum (inr (fadd val (fmul pmax (lit (1 # 100)))))) (num_add (inl pct) (inr (lit (15 # 10))))
     (label ^^ ": " ^^ seconds_text 1 val ^^ "s") DARK].

Definition fig_latency_cdf (events : list json) : res (option figure) :=
  latencies ← latencies_of events;
  match latencies with
  | [] => mret None
  | _ =>
      let latencies_ms := sorted latencies in
      let n := length latencies_ms in
      p50 ← rank_value latencies_ms (50 # 100);
      p90 ← rank_value latencies_ms (90 # 100);
      p99 ← rank_value latencies_ms (99 # 100);
      let pmax := default NaN (last latencies_ms) in
      let xs := map inr latencies_ms in
      mret (Some (
        [Curve 0 xs (cdf_percent n) BLUE; Fill 0 xs (cdf_percent n) BLUE]
        ++ concat (map (percentile_marks pmax) [(50, p50, "p50"); (90, p90, "p90"); (99, p99, "p99")]%string)
        ++ [Axes 0 "Figure 3 — End-to-End Task Completion Latency CDF" "Latency: submit → COMPLETED (ms)" "Percentile (%)";
            YLim 0 zero (Some (inl 102)); XLim 0 zero None;
            Text 0 (XFrac (inr (lit (97 # 100)))) (inr (lit (5 # 100)))
              ("n = " ^^ str_of_nat n ^^ newline ^^ "p50  = " ^^ seconds_text 2 p50 ^^ " s" ^^ newline ^^
               "p90  = " ^^ seconds_text 2 p90 ^^ " s" ^^ newline ^^ "p99  = " ^^ seconds_text 2 p99 ^^ " s" ^^ newline ^^
               "max = " ^^ seconds_text 2 pmax ^^ " s") ""]))
  end.

(** ** Figure 4: throughput under faults *)

(** [np.arange(start, stop, step)] and the counts of [np.histogram(a, bins)]. *)
Record np_ops : Type := NpOps { np_arange : num -> num -> num -> list num; np_histogram : list float -> list num -> list Z }.

Definition times_of (start : Z) (op key : string) (events : list json) : res (list float) :=
  l ← map_events (fun e => here ← op_eq e op;
                 if (here : bool) then ns ← int_item e key; mret [seconds_since start ns] else mret []) events;
  mret (concat l).

Definition chaos_ops : list string := ["chaos.kill_leader"; "chaos.kill_follower"; "chaos.sqs_redeliver"]%string.

Definition chaos_event (start : Z) (e : fields) : res (list (string * float)) :=
  v ← item_of e "op";
  match v with
  | JStr op => if existsb (String.eqb op) chaos_ops then ns ← int_item e "wall_ns"; mret [(op, seconds_since start ns)] else mret []
  | _ => mret []
  end.

(** [max(l, default=0)]. *)
Definition max_or_zero (l : list float) : num := match l with [] => zero | x :: l' => inr (fold_left fmax l' x) end.

Definition bucket : num := inl 10.

(** [(bins[:-1] + bins[1:]) / 2]. *)
Definition centers (bins : list num) : list num :=
  zip_with (fun a b => inr (half (num_float (num_add a b)))) (removelast bins) (drop 1 bins).

Definition chaos_mark (y_max : num) (k : string * float) : figure :=
  let '(op, t) := k in
  let at_ := XNum (inr (fadd t (lit (5 # 10)))) in
  if String.eqb op "chaos.kill_leader" then
    [VLine 0 (inr t) FAIL_RED; Text 0 at_ (scaled y_max (88 # 100)) ("⚡ Leader" ^^ newline ^^ "Kill") FAIL_RED]
  else if String.eqb op "chaos.kill_follower" then
    [VLine 0 (inr t) PURPLE; Text 0 at_ (scaled y_max (68 # 100)) ("⚡ Follower" ^^ newline ^^ "Kill") PURPLE]
  else if String.eqb op "chaos.sqs_redeliver" then [VLine 0 (inr t) GRAY]
  else [].

Definition max_count (l : list Z) : num := match l with [] => zero | x :: l' => inl (fold_left Z.max l' x) end.

Definition throughput_panel (np : np_ops) (start : Z) (events : list json) : res figure :=
  submit_times ← times_of start "submit" "submitted_ns" events;
  completion_times ← times_of start "complete" "completed_ns" events;
  chaos ← map_events (chaos_event start) events;
  let chaos_events := concat chaos in
  let max_t := num_add (num_max (max_or_zero submit_times) (max_or_zero completion_times)) (inl 5) in
  let bins := np_arange np zero (num_add max_t bucket) bucket in
  let sub_counts := np_histogram np submit_times bins in
  let comp_counts := np_histogram np completion_times bins in
  let bin_centers := centers bins in
  let w := fmul (of_Z 10) (lit (45 # 100)) in
  let y_max := match sub_counts with [] => inl 10 | _ => num_max (max_count sub_counts) (max_count comp_counts) end in
  let sqs_times := omap (fun k => if String.eqb k.1 "chaos.sqs_redeliver" then Some k.2 else None) chaos_events in
  mret ([Bars 0 (map XNum bin_centers) w (map inl sub_counts) (map (fun _ => BLUE) sub_counts) "Submitted";
         Bars 0 (map (fun c => XNum (num_add c (inr w))) bin_centers) w (map inl comp_counts)
           (map (fun _ => PASS_GREEN) comp_counts) "Completed"]
        ++ concat (map (chaos_mark y_max) chaos_events)
        ++ [Axes 0 "Figure 4 — Throughput Under Fault Injection" "" "Tasks per 10s window"; XLim 0 zero (Some max_t)]
        ++ match sqs_times with
           | [] => []
           | t :: _ => [Text 0 (XNum (inr t)) (scaled y_max (5 # 100)) ("SQS redeliveries" ^^ newline ^^ "(dotted lines)") GRAY]
           end).

(** The checks with the totals they are drawn against. *)
Definition proof_labels : list string :=
  ["Duplicate" ^^ newline ^^ "Dispatches"; "Linearizability" ^^ newline ^^ "Violations";
   "Stuck PENDING" ^^ newline ^^ "(post-run)"; "Stuck ASSIGNED" ^^ newline ^^ "(post-run)"].
Definition proof_totals : list Z := [500; 9584; 500; 500].

Definition proof_text (i : nat) (kt : num * Z) : artist :=
  let '(val, total) := kt in
  Text 1 (XBar (4 + i))
    (num_add (num_max val (inr (fmul (of_Z total) (lit (5 # 100))))) (inr (fmul (of_Z total) (lit (2 # 100)))))
    (if is_zero val then "0 ✓" else num_str val ^^ " ✗") (pass_if (is_zero val)).

Definition proof_panel (summary : json) : res figure :=
  actuals ← map_res (number_of summary) safety_keys;
  let xs := map (fun i => XNum (inl (Z.of_nat i))) (seq 0 4) in
  let w := fmul (lit (35 # 100)) (Fin (2 # 1)) in
  mret ([Bars 1 xs w (map inl proof_totals) (map (fun _ => "#ecf0f1"%string) proof_totals) "Total operations";
         Bars 1 xs w actuals (map (fun v => pass_if (is_zero v)) actuals) "Violations (0 = PASS)"]
        ++ imap proof_text (zip actuals proof_totals)
        ++ [ticks 1 proof_labels; Axes 1 "Exactly-Once Safety Checks (all must be 0)" "" "Count";
            YLim 1 zero (Some (num_mul (inl 9584) (inr (lit (115 # 100)))))]).

Definition fig_chaos_proof (np : np_ops) (events : list json) (summary : json) : res figure :=
  start ← run_start events;
  top ← throughput_panel np start events;
  bottom ← proof_panel summary;
  mret (top ++ bottom).

(** ** The script *)

Definition save_in `{Env} {S} (run_dir name : string) (fig : res (option figure)) : M S unit :=
  f ← lift fig;
  match f with
  | Some f => tell (Ev (CSaveFig (path_join run_dir name) f) tt)
  | None => mret tt
  end.

(** The figures of the summary that are printed. *)
Definition printed_keys : list string := ["submitted"; "completed"; "linearizability_violations"; "duplicate_dispatches"]%string.

Definition doc_key (doc : json) (k : string) : res json := match doc with JObj d => item_of d k | _ => Raise type_error end.

Definition drawn (fig : res figure) : res (option figure) := f ← fig; mret (Some f).

(** The exit code of the script; the arguments follow the program's name. *)
Definition plot_exp3 `{Env} {S} (np : np_ops) (argv : list string) : M S Z :=
  match argv with
  | [] => mret 1
  | run_dir :: _ =>
      size ← ask (CFileSize run_dir);
      match size with
      | None => mret 1
      | Some _ =>
          d ← load run_dir;
          for_each printed_keys (fun k => _ ← lift (doc_key (rd_summary d) k); mret tt);;
          save_in run_dir "fig1_summary_dashboard.png" (drawn (fig_summary_dashboard (rd_summary d)));;
          save_in run_dir "fig2_state_timeline.png" (fig_task_state_timeline (rd_events d));;
          save_in run_dir "fig3_latency_cdf.png" (fig_latency_cdf (rd_events d));;
          save_in run_dir "fig4_chaos_proof.png" (drawn (fig_chaos_proof np (rd_events d) (rd_summary d)));;
          mret 0
      end
  end.

(** Where every line holds an object, a loop over the events is one over their fields. *)
Lemma map_events_objects {A} (f : fields -> res A) (evs : list fields) : map_events f (map JObj evs) = map_res f evs.
Proof. unfold map_events. induction evs as [|e evs IH]; [done|]. cbn [map map_res subscripted mbind res_bind]. by rewrite IH. Qed.

(** ** What the timeline should show *)

Definition obs_ns (o : obs) : Z := o.1.1.
Definition obs_task (o : obs) : string := o.1.2.
Definition obs_status (o : obs) : string := o.2.

(** The status a task was last seen in. *)
Definition latest (seen : list obs) (tid : string) : option string :=
  obs_status <$> last (List.filter (fun o => String.eqb (obs_task o) tid) seen).

Definition tasks_of (seen : list obs) : list string := remove_dups (map obs_task seen).

(** The number of tasks whose last seen status is as given. *)
Definition held (p : string -> bool) (seen : list obs) : Z :=
  Z.of_nat (count (fun t => match latest seen t with Some s => p s | None => false end) (tasks_of seen)).

Definition is_pending (s : string) : bool := String.eqb s "PENDING".
Definition is_assigned (s : string) : bool := String.eqb s "ASSIGNED".

(** What is seen up to each change of a status. *)
Fixpoint changes (seen rest : list obs) : list (list obs) :=
  match rest with
  | [] => []
  | o :: rest' =>
      let seen' := seen ++ [o] in
      if bool_decide (latest seen (obs_task o) = Some (obs_status o)) then changes seen' rest' else seen' :: changes seen' rest'
  end.

Definition point (start : Z) (seen : list obs) : float * Z * Z * Z :=
  (seconds_since start (match last seen with Some o => obs_ns o | None => start end),
   held is_pending seen, held is_assigned seen, held terminal seen).

(** ** The loop *)

Lemma latest_snoc seen o t : latest (seen ++ [o]) t = if String.eqb (obs_task o) t then Some (obs_status o) else latest seen t.
Proof.
  unfold latest. rewrite List.filter_app. cbn [List.filter]. destruct (String.eqb (obs_task o) t); [by rewrite last_snoc|by rewrite app_nil_r].
Qed.

Lemma latest_unseen seen t : t ∉ map obs_task seen -> latest seen t = None.
Proof.
  intros H. unfold latest. replace (List.filter _ seen) with (@nil obs); [done|]. symmetry. induction seen as [|o seen IH]; [done|].
  cbn [map] in H. rewrite elem_of_cons in H. cbn [List.filter]. destruct (String.eqb_spec (obs_task o) t) as [E|_]; [|by apply IH; tauto].
  exfalso. apply H. by left.
Qed.

Lemma changes_snoc seen rest o :
  changes seen (rest ++ [o]) = changes seen rest ++
    (if bool_decide (latest (seen ++ rest) (obs_task o) = Some (obs_status o)) then [] else [seen ++ rest ++ [o]]).
Proof.
  revert seen. induction rest as [|o' rest IH]; intros seen.
  - cbn [app changes]. rewrite app_nil_r. by case_if.
  - cbn [app changes]. rewrite IH. rewrite <- !app_assoc. cbn [app]. by case_if.
Qed.

(** Counting the values of a dictionary. *)
Definition status_tally (p : string -> bool) (d : list (string * string)) : Z := Z.of_nat (count (fun kv => p kv.2) d).
Definition one_if (b : bool) : Z := if b then 1 else 0.

Lemma status_tally_set p d t st :
  status_tally p (dict_set d t st) = status_tally p d - match dict_get d t with Some s => one_if (p s) | None => 0 end + one_if (p st).
Proof.
  unfold status_tally, one_if. induction d as [|[k s] d IH]; cbn [dict_set dict_get].
  - rewrite count_cons. cbn [snd]. change (count _ []) with O. destruct (p st); lia.
  - destruct (decide (t = k)); rewrite !count_cons; cbn [snd]; [destruct (p s), (p st); lia|].
    rewrite Nat2Z.inj_add, IH. rewrite Nat2Z.inj_add. lia.
Qed.

Lemma bump_counts d st p a t :
  bump_status d st (p, a, t) = (p + d * one_if (is_pending st), a + d * one_if (is_assigned st), t + d * one_if (terminal st)).
Proof.
  unfold bump_status, is_pending, is_assigned, terminal. destruct (String.eqb_spec st "PENDING") as [->|_]; [by cbn; repeat f_equal; lia|].
  destruct (String.eqb_spec st "ASSIGNED") as [->|_]; [by cbn; repeat f_equal; lia|].
  destruct (String.eqb st "COMPLETED" || String.eqb st "FAILED"); cbn; repeat f_equal; lia.
Qed.

(** What the loop knows after the observations [seen]. *)
Record tracks (start : Z) (seen : list obs) (tl : timeline) : Prop := {
  tr_nodup : NoDup (dict_keys (tl_status tl));
  tr_latest t : dict_get (tl_status tl) t = latest seen t;
  tr_tasks t : t ∈ dict_keys (tl_status tl) <-> t ∈ map obs_task seen;
  tr_pending : tl_pending tl = status_tally is_pending (tl_status tl);
  tr_assigned : tl_assigned tl = status_tally is_assigned (tl_status tl);
  tr_completed : tl_completed tl = status_tally terminal (tl_status tl);
  tr_points : tl_points tl = map (point start) (changes [] seen);
}.

Lemma status_tally_held p d seen : NoDup (dict_keys d) -> (forall t, dict_get d t = latest seen t) ->
  (forall t, t ∈ dict_keys d <-> t ∈ map obs_task seen) -> status_tally p d = held p seen.
Proof.
  intros Hn Hl Ht. unfold held, status_tally. f_equal. transitivity (count (fun t => match latest seen t with Some s => p s | None => false end) (dict_keys d)).
  - assert (K : forall l, (forall kv, kv ∈ l -> dict_get d kv.1 = Some kv.2) ->
      count (fun kv => p kv.2) l = count (fun t => match latest seen t with Some s => p s | None => false end) (map fst l)).
    { induction l as [|kv l IH]; intros H; [done|]. cbn [map]. rewrite !count_cons, IH by (intros; apply H; by right).
      by rewrite <- Hl, (H kv) by by left. }
    apply K. intros [k s] Hk. by apply elem_dict_get.
  - apply count_perm, NoDup_Permutation; [done|apply NoDup_remove_dups|]. intros t. rewrite Ht. unfold tasks_of. by rewrite elem_of_remove_dups.
Qed.

Lemma timeline_step_tracks start seen tl o : tracks start seen tl -> tracks start (seen ++ [o]) (timeline_step start tl o).
Proof.
  intros [Hn Hl Ht Hp Ha Hc Hpts]. destruct o as [[ns tid] st]. unfold timeline_step. rewrite Hl.
  assert (Hlast : forall t, latest (seen ++ [(ns, tid, st)]) t = if String.eqb tid t then Some st else latest seen t)
    by (intros t; apply latest_snoc).
  destruct (bool_decide (latest seen tid = Some st)) eqn:E.
  - apply bool_decide_eq_true in E. split; try done.
    + intros t. rewrite Hlast, Hl. by destruct (String.eqb_spec tid t) as [<-|].
    + intros t. rewrite map_app, elem_of_app, Ht. cbn. rewrite list_elem_of_singleton. split; [by left|]. intros [?| ->]; [done|].
      destruct (decide (tid ∈ map obs_task seen)) as [|Hu]; [done|]. by rewrite (latest_unseen _ _ Hu) in E.
    + rewrite changes_snoc. cbn [app obs_task obs_status fst snd]. rewrite E, bool_decide_true by done. by rewrite app_nil_r.
  - rewrite Hp, Ha, Hc.
    assert (Hcount : forall p, status_tally p (tl_status tl) + match latest seen tid with Some s => (-1) * one_if (p s) | None => 0 end + 1 * one_if (p st)
      = status_tally p (dict_set (tl_status tl) tid st)) by (intros p; rewrite status_tally_set, Hl; destruct (latest seen tid); lia).
    assert (Hc' : (match latest seen tid with Some s => bump_status (-1) s | None => fun c => c end)
        (status_tally is_pending (tl_status tl), status_tally is_assigned (tl_status tl), status_tally terminal (tl_status tl)) =
      (status_tally is_pending (tl_status tl) + match latest seen tid with Some s => (-1) * one_if (is_pending s) | None => 0 end,
       status_tally is_assigned (tl_status tl) + match latest seen tid with Some s => (-1) * one_if (is_assigned s) | None => 0 end,
       status_tally terminal (tl_status tl) + match latest seen tid with Some s => (-1) * one_if (terminal s) | None => 0 end)).
    { destruct (latest seen tid); [apply bump_counts|by rewrite !Z.add_0_r]. }
    replace (match latest seen tid with Some s => bump_status (-1) s _ | None => _ end) with
      ((match latest seen tid with Some s => bump_status (-1) s | None => fun c => c end)
        (status_tally is_pending (tl_status tl), status_tally is_assigned (tl_status tl), status_tally terminal (tl_status tl))) by by destruct (latest seen tid).
    rewrite Hc', bump_counts, !Hcount.
    assert (K : NoDup (dict_keys (dict_set (tl_status tl) tid st)) /\
      (forall t, dict_get (dict_set (tl_status tl) tid st) t = latest (seen ++ [(ns, tid, st)]) t) /\
      (forall t, t ∈ dict_keys (dict_set (tl_status tl) tid st) <-> t ∈ map obs_task (seen ++ [(ns, tid, st)]))).
    { split; [by apply dict_set_NoDup|]. split.
      - intros t. rewrite dict_get_set, Hlast, Hl. destruct (String.eqb_spec tid t) as [<-|Hne]; [by rewrite decide_True|by rewrite decide_False].
      - intros t. rewrite map_app, elem_of_app, <- Ht. rewrite <- !dict_has_true. unfold dict_has. rewrite dict_get_set. cbn.
        rewrite list_elem_of_singleton. destruct (decide (t = tid)) as [->|Hne]; [by split; [right|]|]. split; [by left|by intros [?|?]]. }
    destruct K as (K1 & K2 & K3). split; try done. cbn [tl_points]. rewrite changes_snoc. cbn [app obs_task obs_status fst snd].
    rewrite E, map_app, Hpts. cbn [map]. unfold point at 3. rewrite last_snoc. by rewrite !(status_tally_held _ _ _ K1 K2 K3).
Qed.

Lemma timeline_tracks start l : tracks start l (timeline_of start l).
Proof.
  unfold timeline_of. enough (K : forall seen tl, tracks start seen tl -> tracks start (seen ++ l) (fold_left (timeline_step start) l tl)).
  { apply (K []). split; try done. apply NoDup_nil_2. }
  induction l as [|o l IH]; intros seen tl H; [by rewrite app_nil_r|]. cbn [fold_left].
  replace (seen ++ o :: l) with ((seen ++ [o]) ++ l) by by rewrite <- app_assoc. apply IH. by apply timeline_step_tracks.
Qed.

(** ** Histories as the experiment records them *)

Definition int_of (v : json) : Z := match v with JInt z => z | _ => 0 end.
Definition text_of (v : json) : string := match v with JStr s => s | _ => "" end.

Definition exp3_event (e : fields) : bool :=
  is_str (field e "op") &&
  (negb (op_is e "submit") || (ns_ok (field e "wall_ns") && ns_ok (field e "submitted_ns") && is_str (field e "task_id"))) &&
  (negb (op_is e "poll_observe") || (ns_ok (field e "return_ns") && is_str (field e "task_id") && is_str (field e "status"))) &&
  (negb (op_is e "complete") || (ns_ok (field e "completed_ns") && is_str (field e "task_id") && is_str (field e "status"))) &&
  (negb (op_is e "run_start" || existsb (op_is e) chaos_ops) || ns_ok (field e "wall_ns")).

(** What an event shows of a task. *)
Definition observed (e : fields) : list obs :=
  let tid := text_of (field e "task_id") in
  if op_is e "submit" then [(int_of (field e "wall_ns"), tid, "PENDING"%string)]
  else if op_is e "poll_observe" then [(int_of (field e "return_ns"), tid, text_of (field e "status"))]
  else if op_is e "complete" then [(int_of (field e "completed_ns"), tid, text_of (field e "status"))]
  else [].

Lemma field_some e k v : field e k = v -> v <> JNull -> dict_get e k = Some v.
Proof. unfold field. destruct (dict_get e k); simpl; congruence. Qed.

Lemma int_item_ok e k : ns_ok (field e k) = true -> int_item e k = Ok (int_of (field e k)) /\ 0 <= int_of (field e k) < 2 ^ 63.
Proof.
  intros H. destruct (field e k) as [| |z| | | |] eqn:E; try done. unfold int_item, item_of. rewrite (field_some _ _ _ E) by done.
  simpl in H. apply andb_prop in H as [?%Z.leb_le ?%Z.ltb_lt]. done.
Qed.

Lemma str_item_ok e k : is_str (field e k) = true -> str_item e k = Ok (text_of (field e k)).
Proof.
  intros H. destruct (field e k) as [| | | |s| |] eqn:E; try done. unfold str_item, item_of. by rewrite (field_some _ _ _ E).
Qed.

Lemma op_eq_ok e name : is_str (field e "op") = true -> op_eq e name = Ok (op_is e name).
Proof.
  intros H. unfold op_eq, op_is, item_of. destruct (field e "op") as [| | | |s| |] eqn:E; try done. by rewrite (field_some _ _ _ E).
Qed.

(** What the check of an event says, by kind. *)
Record event_facts (e : fields) : Prop := {
  ef_op : is_str (field e "op") = true;
  ef_submit : op_is e "submit" = true ->
    ns_ok (field e "wall_ns") = true /\ ns_ok (field e "submitted_ns") = true /\ is_str (field e "task_id") = true;
  ef_poll : op_is e "poll_observe" = true ->
    ns_ok (field e "return_ns") = true /\ is_str (field e "task_id") = true /\ is_str (field e "status") = true;
  ef_complete : op_is e "complete" = true ->
    ns_ok (field e "completed_ns") = true /\ is_str (field e "task_id") = true /\ is_str (field e "status") = true;
  ef_wall : op_is e "run_start" || existsb (op_is e) chaos_ops = true -> ns_ok (field e "wall_ns") = true;
}.

Lemma exp3_event_facts e : exp3_event e = true -> event_facts e.
Proof.
  unfold exp3_event. intros [[[[H1 H2]%andb_prop H3]%andb_prop H4]%andb_prop H5]%andb_prop. split; [done| | | |].
  - intros E. rewrite E in H2. cbn [negb orb] in H2. by apply andb_prop in H2 as [[? ?]%andb_prop ?].
  - intros E. rewrite E in H3. cbn [negb orb] in H3. by apply andb_prop in H3 as [[? ?]%andb_prop ?].
  - intros E. rewrite E in H4. cbn [negb orb] in H4. by apply andb_prop in H4 as [[? ?]%andb_prop ?].
  - intros E. by rewrite E in H5.
Qed.

Lemma obs_of_event_ok e : exp3_event e = true -> obs_of_event e = Ok (observed e).
Proof.
  intros [Ho Hs Hp Hc _]%exp3_event_facts. unfold obs_of_event, observed, obs_with. rewrite !op_eq_ok by done. cbn [mbind res_bind].
  destruct (op_is e "submit").
  { destruct Hs as (Hw & _ & Ht); [done|]. rewrite (proj1 (int_item_ok _ _ Hw)), (str_item_ok _ _ Ht). done. }
  destruct (op_is e "poll_observe").
  { destruct Hp as (Hw & Ht & Hst); [done|]. by rewrite (proj1 (int_item_ok _ _ Hw)), (str_item_ok _ _ Ht), (str_item_ok _ _ Hst). }
  destruct (op_is e "complete"); [|done].
  destruct Hc as (Hw & Ht & Hst); [done|]. by rewrite (proj1 (int_item_ok _ _ Hw)), (str_item_ok _ _ Ht), (str_item_ok _ _ Hst).
Qed.

Lemma in_forallb {A} (p : A -> bool) l a : forallb p l = true -> a ∈ l -> p a = true.
Proof. rewrite forallb_forall. intros H Ha. apply H. by apply list_elem_of_In. Qed.

Lemma observations_ok events : forallb exp3_event events = true -> observations (map JObj events) = Ok (concat (map observed events)).
Proof.
  intros H. unfold observations. rewrite map_events_objects, (map_res_ok _ observed); [done|]. intros e He. apply obs_of_event_ok. by eapply in_forallb.
Qed.

Lemma run_start_ok events : forallb exp3_event events = true -> existsb (fun e => op_is e "run_start") events = true ->
  exists z, run_start (map JObj events) = Ok z /\ 0 <= z < 2 ^ 63.
Proof.
  induction events as [|e events IH]; [done|]. cbn [forallb existsb map run_start subscripted]. intros [He Hes]%andb_prop Hx.
  apply exp3_event_facts in He as [Ho _ _ _ Hw]. cbn [mbind res_bind]. rewrite op_eq_ok by done. cbn [mbind res_bind].
  destruct (op_is e "run_start"); [|by apply IH]. apply int_item_ok in Hw as [-> Hb]; [|done]. by eexists.
Qed.

Lemma fault_times_ok start name events : forallb exp3_event events = true -> existsb (String.eqb name) chaos_ops = true ->
  returns any (fault_times start name (map JObj events)).
Proof.
  intros H Hn. unfold fault_times. rewrite map_events_objects. apply (returns_bind (Forall any)); [|intros l _; by apply returns_ret]. apply returns_map.
  intros e He. apply (in_forallb _ _ _ H), exp3_event_facts in He as [Ho _ _ _ Hw]. rewrite op_eq_ok by done. cbn [mbind res_bind].
  destruct (op_is e name) eqn:E; [|by apply returns_ret]. destruct (int_item_ok e "wall_ns") as [-> _]; [|by apply returns_ret].
  apply Hw. apply orb_true_iff. right. apply existsb_exists in Hn as (n & Hn & ->%String.eqb_eq). apply existsb_exists. by exists n.
Qed.

(** ** The figures of such histories *)

Definition timeline_points (start : Z) (events : list fields) : list (float * Z * Z * Z) :=
  map (point start) (changes [] (isort obs_le (concat (map observed events)))).

Lemma timeline_figure start events : forallb exp3_event events = true -> run_start (map JObj events) = Ok start ->
  let points := timeline_points start events in
  exists fig, fig_task_state_timeline (map JObj events) = Ok fig /\
    match points with
    | [] => fig = None
    | _ => exists f, fig = Some f /\
        Steps 0 (map tp_time points) (map tp_pending points) ORANGE "PENDING" ∈ f /\
        Steps 0 (map tp_time points) (map tp_assigned points) BLUE "ASSIGNED" ∈ f /\
        Steps 0 (map tp_time points) (map tp_completed points) PASS_GREEN "COMPLETED" ∈ f
    end.
Proof.
  intros He Hs points. unfold fig_task_state_timeline. rewrite Hs. cbn [mbind res_bind]. rewrite observations_ok by done. cbn [mbind res_bind].
  rewrite (tr_points _ _ _ (timeline_tracks start (isort obs_le (concat (map observed events))))). fold (timeline_points start events). fold points.
  destruct points as [|p ps]; [by exists None|]. set (pts := p :: ps).
  destruct (fault_times_ok start "chaos.kill_leader" events He eq_refl) as (lk & -> & _).
  destruct (fault_times_ok start "chaos.kill_follower" events He eq_refl) as (fk & -> & _).
  destruct (fault_times_ok start "chaos.sqs_redeliver" events He eq_refl) as (rd & -> & _).
  eexists. split; [reflexivity|]. eexists. split; [reflexivity|]. cbn [app]. rewrite !elem_of_cons. tauto.
Qed.

(** ** Latencies and their percentiles *)

Lemma div_finite d (k : positive) : Z.abs d < 2 ^ 63 -> exists q, fdiv (of_Z d) (Fin (Zpos k # 1)) = Some (Fin q).
Proof.
  intros Hd. assert (Hb : (inject_Z (- 2 ^ 63) <= inject_Z d)%Q /\ (inject_Z d <= inject_Z (2 ^ 63))%Q) by (rewrite <- !Zle_Qle; lia).
  destruct Hb as [Ha Hb]. apply rnd_mono in Ha, Hb.
  assert (E1 : rnd (inject_Z (- 2 ^ 63)) = Fin (inject_Z (- 2 ^ 63))) by (vm_compute; reflexivity).
  assert (E2 : rnd (inject_Z (2 ^ 63)) = Fin (inject_Z (2 ^ 63))) by (vm_compute; reflexivity). rewrite E1 in Ha. rewrite E2 in Hb.
  unfold of_Z. destruct (rnd (inject_Z d)) as [|[]|v]; [discriminate Ha|discriminate Ha|discriminate Hb|]. apply Qle_bool_iff in Ha, Hb. cbn [fdiv Qnum].
  assert (Hk : (1 <= Zpos k # 1)%Q) by (unfold Qle; simpl; lia).
  assert (Hi : (0 < / (Zpos k # 1))%Q /\ (/ (Zpos k # 1) <= 1)%Q).
  { split; [reflexivity|]. unfold Qle. simpl. lia. }
  assert (H1 : (inject_Z (- 2 ^ 63) <= v / (Zpos k # 1))%Q /\ (v / (Zpos k # 1) <= inject_Z (2 ^ 63))%Q).
  { unfold Qdiv. destruct Hi as [Hi0 Hi1]. revert Ha Hb Hi0 Hi1. change (inject_Z (- 2 ^ 63)) with (- inject_Z (2 ^ 63))%Q.
    assert (Hp : (0 <= inject_Z (2 ^ 63))%Q) by (apply Qle_bool_iff; reflexivity). revert Hp.
    generalize (inject_Z (2 ^ 63)) (/ (Zpos k # 1))%Q. intros b i Hp Ha Hb H0 H1. split; nra. }
  destruct H1 as [Ha' Hb']. apply rnd_mono in Ha', Hb'. rewrite E1 in Ha'. rewrite E2 in Hb'. change (Zpos k =? 0) with false. cbn iota.
  destruct (rnd (v / (Zpos k # 1))) as [|[]|w]; [discriminate Ha'|discriminate Ha'|discriminate Hb'|]. by exists w.
Qed.

Definition ranks : list Q := [50 # 100; 90 # 100; 99 # 100]%Q.

Lemma rank_of_at n p : countable_size n -> p ∈ ranks ->
  exists v, fmul (of_Z n) (lit p) = Fin v /\ (0 <= v)%Q /\ (v < inject_Z n)%Q /\ rank_of n p = Qfloor v.
Proof.
  intros Hn Hp. assert (Hc : exists c, lit p = Fin c /\ (0 <= c)%Q /\ (c <= 9902 # 10000)%Q).
  { unfold ranks in Hp. rewrite !elem_of_cons, elem_of_nil in Hp.
    destruct Hp as [->|[->|[->|[]]]]; (eexists; split; [vm_compute; reflexivity|split; vm_compute; discriminate]). }
  destruct Hc as (c & Ec & H0 & H1). destruct (rank_at n c Hn H0 H1) as (v & Ev & Hv0 & Hv1). exists v. rewrite Ec.
  split; [done|]. split; [done|]. split; [done|]. unfold rank_of. rewrite Ec, Ev. cbn [ftrunc default from_option id].
  unfold Qle in Hv0. simpl in Hv0. rewrite Z.quot_div_nonneg by lia. by destruct v.
Qed.

Lemma rank_of_bounds n p : countable_size n -> p ∈ ranks -> 0 <= rank_of n p < n.
Proof.
  intros Hn Hp. destruct (rank_of_at n p Hn Hp) as (v & _ & H0 & H1 & ->). split.
  - apply (Qfloor_resp_le 0). done.
  - pose proof (Qfloor_le v) as H. rewrite Zlt_Qlt. lra.
Qed.

Lemma rank_of_mono n p q : countable_size n -> p ∈ ranks -> q ∈ ranks -> (p <= q)%Q -> rank_of n p <= rank_of n q.
Proof.
  intros Hn Hp Hq Hle. destruct (rank_of_at n p Hn Hp) as (v & Ev & _ & _ & ->), (rank_of_at n q Hn Hq) as (w & Ew & _ & _ & ->).
  apply Qfloor_resp_le. unfold lit in *. assert (Hf : exists a b, rnd p = Fin a /\ rnd q = Fin b /\ (a <= b)%Q).
  { pose proof (rnd_mono _ _ Hle) as R. destruct (rnd p) as [| |a]; [by destruct (of_Z n)|by destruct (of_Z n) as [| |[[] ?]]|].
    destruct (rnd q) as [| |b]; [by destruct (of_Z n)|by destruct (of_Z n) as [| |[[] ?]]|]. exists a, b. by apply Qle_bool_iff in R. }
  destruct Hf as (a & b & Ea & Eb & Hab). rewrite Ea in Ev. rewrite Eb in Ew. destruct Hn as [H0 H1]. unfold of_Z in *.
  rewrite rnd_Z in Ev, Ew by lia. cbn [fmul] in Ev, Ew.
  assert (Hm : (inject_Z n * a <= inject_Z n * b)%Q).
  { rewrite !(Qmult_comm (inject_Z n)). apply Qmult_le_compat_r; [done|]. change 0%Q with (inject_Z 0). rewrite <- Zle_Qle. lia. }
  apply rnd_mono in Hm. rewrite Ev, Ew in Hm. by apply Qle_bool_iff in Hm.
Qed.

(** The value at a rank: a sample. *)
Lemma rank_value_at (qs : list Q) p : countable_size (Z.of_nat (length qs)) -> p ∈ ranks ->
  exists a, rank_value (sorted (map Fin qs)) p = Ok (Fin a) /\ a ∈ qs /\
    isort Qle_bool qs !! Z.to_nat (rank_of (Z.of_nat (length qs)) p) = Some a.
Proof.
  intros Hn Hp. pose proof (rank_of_bounds _ p Hn Hp) as Hr. unfold rank_value. rewrite sorted_map, length_map, isort_length.
  destruct (lookup_lt_is_Some_2 (isort Qle_bool qs) (Z.to_nat (rank_of (Z.of_nat (length qs)) p))) as [a Ha];
    [rewrite isort_length; lia|].
  exists a. rewrite list_lookup_fmap, Ha. split; [done|]. split; [|done]. rewrite <- (isort_perm Qle_bool). by eapply list_elem_of_lookup_2.
Qed.

(** The tasks of a history with their time of submission, and the times the completed ones took. *)
Definition submit_times_of (events : list fields) : list (string * Z) :=
  dict_of_items (concat (map (fun e => if op_is e "submit" then [(text_of (field e "task_id"), int_of (field e "submitted_ns"))] else []) events)).

Definition took (events : list fields) (e : fields) : option Z :=
  if op_is e "complete" then
    submitted ← dict_get (submit_times_of events) (text_of (field e "task_id"));
    Some (int_of (field e "completed_ns") - submitted)
  else None.

Definition ms_of (ns : Z) : float := default NaN (fdiv (of_Z ns) (Fin (1000000 # 1))).

Lemma submits_of_ok events : forallb exp3_event events = true -> submits_of (map JObj events) = Ok (submit_times_of events).
Proof.
  intros H. unfold submits_of. rewrite map_events_objects, (map_res_ok _ (fun e => if op_is e "submit" then
    [(text_of (field e "task_id"), int_of (field e "submitted_ns"))] else [])); [done|].
  intros e He. apply (in_forallb _ _ _ H), exp3_event_facts in He as [Ho Hs _ _ _]. unfold submit_entry.
  rewrite op_eq_ok by done. cbn [mbind res_bind]. destruct (op_is e "submit"); [|done]. destruct Hs as (_ & Hn & Ht); [done|].
  by rewrite (str_item_ok _ _ Ht), (proj1 (int_item_ok _ _ Hn)).
Qed.

Lemma latencies_of_ok events : forallb exp3_event events = true ->
  latencies_of (map JObj events) = Ok (map ms_of (omap (took events) events)).
Proof.
  intros H. unfold latencies_of. rewrite submits_of_ok by done. cbn [mbind res_bind].
  rewrite map_events_objects, (map_res_ok _ (fun e => match took events e with Some d => [ms_of d] | None => [] end)).
  - cbn [mbind res_bind]. unfold mret, res_ret. f_equal. generalize (took events). intros f.
    induction events as [|e es IH]; [done|]. cbn [map concat omap list_omap]. cbn [forallb] in H. apply andb_prop in H as [_ H].
    destruct (f e); cbn [app map]; by rewrite IH.
  - intros e He. apply (in_forallb _ _ _ H), exp3_event_facts in He as [Ho _ _ Hc _]. unfold latency_of, took.
    rewrite op_eq_ok by done. cbn [mbind res_bind]. destruct (op_is e "complete"); [|done]. destruct Hc as (Hn & Ht & _); [done|].
    rewrite (str_item_ok _ _ Ht). cbn [mbind res_bind]. destruct (dict_get (submit_times_of events) _) as [sub|]; [|done].
    by rewrite (proj1 (int_item_ok _ _ Hn)).
Qed.

Lemma submit_times_bounds events tid ns : forallb exp3_event events = true ->
  dict_get (submit_times_of events) tid = Some ns -> 0 <= ns < 2 ^ 63.
Proof.
  intros H. unfold submit_times_of, dict_of_items. set (items := concat _).
  assert (Hi : forall k z, (k, z) ∈ items -> 0 <= z < 2 ^ 63).
  { intros k z Hk. unfold items in Hk. apply elem_of_concat in Hk as (l & Hl & Hk). apply list_elem_of_In, in_map_iff in Hl as (e & <- & He).
    apply list_elem_of_In, (in_forallb _ _ _ H), exp3_event_facts in He as [_ Hs _ _ _]. destruct (op_is e "submit"); [|by apply elem_of_nil in Hk].
    apply list_elem_of_singleton in Hk as [= -> ->]. by apply int_item_ok, Hs. }
  clearbody items. enough (K : forall acc, (forall k z, dict_get acc k = Some z -> 0 <= z < 2 ^ 63) ->
    dict_get (fold_left (fun d p => dict_set d p.1 p.2) items acc) tid = Some ns -> 0 <= ns < 2 ^ 63) by by apply (K []).
  induction items as [|[k z] items IH]; intros acc Hacc; [apply Hacc|]. cbn [fold_left fst snd]. apply IH.
  - intros k' z' Hk. apply (Hi k'). by right.
  - intros k' z'. rewrite dict_get_set. destruct (decide (k' = k)); [intros [= <-]; apply (Hi k); by left|apply Hacc].
Qed.

Lemma latencies_finite events : forallb exp3_event events = true ->
  exists qs, map ms_of (omap (took events) events) = map Fin qs.
Proof.
  intros H. assert (Hd : forall d, d ∈ omap (took events) events -> exists q, ms_of d = Fin q).
  { intros d Hd. apply list_elem_of_omap in Hd as (e & He & Ht). apply (in_forallb _ _ _ H), exp3_event_facts in He as [_ _ _ Hc _].
    unfold took in Ht. destruct (op_is e "complete"); [|done]. destruct (dict_get (submit_times_of events) _) as [sub|] eqn:Es; [|done].
    injection Ht as <-. destruct Hc as (Hn & _); [done|]. apply int_item_ok in Hn as [_ Hn]. apply submit_times_bounds in Es; [|done].
    unfold ms_of. destruct (div_finite (int_of (field e "completed_ns") - sub) 1000000) as (q & E); [lia|]. exists q. by rewrite E. }
  revert Hd. generalize (omap (took events) events). intros ds. induction ds as [|d ds IH]; intros Hd; [by exists []|].
  destruct (Hd d) as (q & Eq); [by left|]. destruct IH as (qs & E); [intros d' Hd'; apply Hd; by right|]. exists (q :: qs). cbn [map].
  by rewrite Eq, E.
Qed.

(** The percentile lines of a latency figure. *)
Lemma cdf_figure events : forallb exp3_event events = true ->
  let times := omap (took events) events in
  match times with
  | [] => fig_latency_cdf (map JObj events) = Ok None
  | _ => countable_size (Z.of_nat (length times)) ->
      exists f a b c m, fig_latency_cdf (map JObj events) = Ok (Some f) /\
        (forall v, v ∈ [a; b; c; m] -> exists ns, ns ∈ times /\ ms_of ns = Fin v) /\
        (a <= b)%Q /\ (b <= c)%Q /\ (c <= m)%Q /\ (forall ns, ns ∈ times -> fle (ms_of ns) (Fin m) = true) /\
        (forall k, k ∈ [(50, Fin a, "p50"); (90, Fin b, "p90"); (99, Fin c, "p99")]%string ->
           forall x, x ∈ percentile_marks (Fin m) k -> x ∈ f)
  end.
Proof.
  intros H times. destruct (latencies_finite events H) as (qs & Eq). fold times in Eq.
  assert (Hl : length times = length qs) by by rewrite <- (length_map Fin qs), <- Eq, length_map.
  unfold fig_latency_cdf. rewrite latencies_of_ok by done. fold times. rewrite Eq. cbn [mbind res_bind].
  destruct qs as [|q0 qs']; [by destruct times|]. set (qs := q0 :: qs') in *. destruct times as [|t0 ts] eqn:Et; [done|]. rewrite <- Et in *. clear Et.
  intros Hn. rewrite Hl in Hn. cbn [map].
  change (Fin q0 :: map Fin qs') with (map Fin qs). cbv zeta.
  destruct (rank_value_at qs (50 # 100)) as (a & Ea & Ia & La); [done|unfold ranks; rewrite !elem_of_cons; tauto|].
  destruct (rank_value_at qs (90 # 100)) as (b & Eb & Ib & Lb); [done|unfold ranks; rewrite !elem_of_cons; tauto|].
  destruct (rank_value_at qs (99 # 100)) as (c & Ec & Ic & Lc); [done|unfold ranks; rewrite !elem_of_cons; tauto|].
  rewrite Ea, Eb, Ec. cbn [mbind res_bind].
  assert (Hm : exists m, last (sorted (map Fin qs)) = Some (Fin m) /\ isort Qle_bool qs !! (length qs - 1)%nat = Some m).
  { rewrite sorted_map, last_lookup, length_map, isort_length, list_lookup_fmap.
    destruct (lookup_lt_is_Some_2 (isort Qle_bool qs) (pred (length qs))) as [m Em]; [rewrite isort_length; unfold qs; simpl; lia|].
    exists m. rewrite Em. split; [done|]. by rewrite Nat.sub_1_r. }
  destruct Hm as (m & -> & Lm). cbn [default from_option id].
  assert (Hv : forall v, v ∈ qs -> exists ns, ns ∈ times /\ ms_of ns = Fin v).
  { intros v Hv. assert (K : Fin v ∈ map ms_of times) by (rewrite Eq; apply list_elem_of_In, in_map, list_elem_of_In, Hv).
    apply list_elem_of_In, in_map_iff in K as (ns & En & Hns). exists ns. by rewrite list_elem_of_In. }
  assert (Im : m ∈ qs) by (rewrite <- (isort_perm Qle_bool); by eapply list_elem_of_lookup_2).
  assert (B : forall p, p ∈ ranks -> 0 <= rank_of (Z.of_nat (length qs)) p < Z.of_nat (length qs)) by (intros p Hp; by apply rank_of_bounds).
  eexists _, a, b, c, m. split; [reflexivity|]. split; [|split; [|split; [|split; [|split]]]].
  - intros v Hx. apply Hv. rewrite !elem_of_cons, elem_of_nil in Hx. destruct Hx as [->|[->|[->|[->|[]]]]]; done.
  - eapply sorted_lookup; [|exact La|exact Lb]. apply Z2Nat.inj_le; [apply B..|apply rank_of_mono]; try done; unfold ranks; rewrite !elem_of_cons; tauto.
  - eapply sorted_lookup; [|exact Lb|exact Lc]. apply Z2Nat.inj_le; [apply B..|apply rank_of_mono]; try done; unfold ranks; rewrite !elem_of_cons; tauto.
  - eapply sorted_lookup; [|exact Lc|exact Lm]. assert (B99 : (99 # 100)%Q ∈ ranks) by (unfold ranks; rewrite !elem_of_cons; tauto). specialize (B _ B99). lia.
  - intros ns Hns. assert (K : ms_of ns ∈ map Fin qs) by (rewrite <- Eq; apply list_elem_of_In, in_map, list_elem_of_In, Hns).
    apply list_elem_of_In, in_map_iff in K as (v & <- & Hq). apply list_elem_of_In in Hq. rewrite <- (isort_perm Qle_bool qs) in Hq.
    apply list_elem_of_lookup in Hq as (i & Li). apply Qle_bool_iff. eapply sorted_lookup; [|exact Li|exact Lm].
    apply lookup_lt_Some in Li. rewrite isort_length in Li. lia.
  - intros k Hk x Hx. apply elem_of_app. right. apply elem_of_app. left. apply elem_of_concat. exists (percentile_marks (Fin m) k).
    split; [|done]. rewrite !elem_of_cons, elem_of_nil in Hk.
    destruct Hk as [->|[->|[->|[]]]]; [by left|by right; left|by right; right; left].
Qed.

(** ** The summary of the analysis *)

Definition counts_of (dup : Scans.DupScanResult) (div : Scans.DivergenceScanResult) (violations : Z) : list Z :=
  [Scans.duplicate_count dup; violations; Scans.stuck_pending div; Scans.stuck_assigned div].

(** The document of an analysis whose check found [violations] and whose history has [redeliveries]. *)
Definition summary_doc (dup : Scans.DupScanResult) (div : Scans.DivergenceScanResult) (violations redeliveries : Z) (t : Exp3.tally) : fields :=
  Exp3.exp3_summary dup div (JInt violations) (Exp3.mkTally (Exp3.t_submitted t) (Exp3.t_completed t) (Exp3.t_timed_out t)
    (Exp3.t_leader_kills t) (Exp3.t_follower_kills t) (JInt redeliveries)).

Definition verdict (z : Z) : string := if z =? 0 then PASS_GREEN else FAIL_RED.

Lemma pass_if_zero z : pass_if (is_zero (inl z)) = verdict z.
Proof.
  unfold verdict, is_zero, num_eq, num_exact, zero, feq, fle, Zval. change (inject_Z 0) with 0%Q.
  destruct (Z.eqb_spec z 0) as [->|Hz]; [done|]. destruct (Qle_bool (inject_Z z) 0) eqn:E1; [|done].
  destruct (Qle_bool 0 (inject_Z z)) eqn:E2; [|done]. apply Qle_bool_iff in E1, E2. exfalso. apply Hz.
  change 0%Q with (inject_Z 0) in E1, E2. rewrite <- Zle_Qle in E1, E2. lia.
Qed.

Lemma positive_color z : pass_if (negb (num_lt zero (inl z))) = if 0 <? z then FAIL_RED else PASS_GREEN.
Proof.
  unfold num_lt, num_exact, zero, flt, fle, Zval. rewrite negb_involutive. change (inject_Z 0) with 0%Q.
  destruct (Z.ltb_spec 0 z) as [Hz|Hz]; destruct (Qle_bool (inject_Z z) 0) eqn:E; try done.
  - apply Qle_bool_iff in E. change 0%Q with (inject_Z 0) in E. rewrite <- Zle_Qle in E. lia.
  - assert (K : (inject_Z z <= inject_Z 0)%Q) by (by rewrite <- Zle_Qle). apply Qle_bool_iff in K. change (inject_Z 0) with 0%Q in K. congruence.
Qed.

Lemma safety_numbers dup div violations redeliveries t :
  map_res (number_of (JObj (summary_doc dup div violations redeliveries t))) safety_keys = Ok (map inl (counts_of dup div violations)).
Proof. done. Qed.

Lemma verdicts zs : map (fun v => pass_if (is_zero v)) (map inl zs) = map verdict zs.
Proof. rewrite map_map. apply map_ext. apply pass_if_zero. Qed.

Lemma dashboard_figure dup div violations redeliveries t :
  exists f, fig_summary_dashboard (JObj (summary_doc dup div violations redeliveries t)) = Ok f /\
    Bars 0 (map XCat outcome_labels) (lit (5 # 10))
      (map inl [Exp3.t_submitted t; Exp3.t_completed t; Exp3.t_timed_out t;
                Z.max 0 (Exp3.t_submitted t - Exp3.t_completed t - Exp3.t_timed_out t)])
      [BLUE; PASS_GREEN; (if 0 <? Exp3.t_timed_out t then FAIL_RED else PASS_GREEN);
       (if 0 <? Exp3.t_submitted t - Exp3.t_completed t - Exp3.t_timed_out t then FAIL_RED else PASS_GREEN)] "" ∈ f /\
    Bars 1 (map XCat safety_labels) (lit (5 # 10)) (map inl (counts_of dup div violations))
      (map verdict (counts_of dup div violations)) "" ∈ f.
Proof.
  eexists. split; [reflexivity|]. split.
  - apply elem_of_cons. right. apply elem_of_app. left. apply elem_of_app. left. apply list_elem_of_singleton.
    rewrite !positive_color. f_equal. do 3 f_equal. replace (0 <? Z.max 0 _) with (0 <? Exp3.t_submitted t - Exp3.t_completed t - Exp3.t_timed_out t); [done|].
    simpl. destruct (Z.ltb_spec 0 (Exp3.t_submitted t - Exp3.t_completed t - Exp3.t_timed_out t)) as [Hl|Hl]; symmetry; [apply Z.ltb_lt|apply Z.ltb_ge]; lia.
  - apply elem_of_cons. right. apply elem_of_app. right. apply elem_of_app. left. apply elem_of_cons. left. by rewrite <- verdicts.
Qed.

Lemma proof_figure dup div violations redeliveries t :
  returns (fun f => Bars 1 (map (fun i => XNum (inl (Z.of_nat i))) (seq 0 4)) (fmul (lit (35 # 100)) (Fin (2 # 1)))
      (map inl (counts_of dup div violations)) (map verdict (counts_of dup div violations)) "Violations (0 = PASS)" ∈ f)
    (proof_panel (JObj (summary_doc dup div violations redeliveries t))).
Proof.
  eexists. split; [reflexivity|]. apply elem_of_cons. right. apply elem_of_cons. left. by rewrite <- verdicts.
Qed.

(** ** The script *)

(** The files of a run, as the script reads them. *)
Record run_files (E : Env) (run_dir : string) (evs : list fields) (summary : json) : Prop := {
  rf_dir h : E h (CFileSize run_dir) <> None;
  rf_history h : E h (CReadFile (path_join run_dir "history.jsonl")) = inr (file_of evs);
  rf_summary h : exists text, E h (CReadFile (path_join run_dir "exp3_summary.json")) = inr text /\ loads text = Some summary;
  rf_dups h : exists text v, E h (CReadFile (path_join run_dir "exp3_dups.json")) = inr text /\ loads text = Some v;
  rf_divergence h : exists text v, E h (CReadFile (path_join run_dir "exp3_divergence.json")) = inr text /\ loads text = Some v;
  rf_lincheck h : exists text v, E h (CReadFile (path_join run_dir "exp3_lincheck.json")) = inr text /\ loads text = Some v;
}.

Lemma load_doc_run `{E : Env} {S} run_dir name text v (s : S) h :
  E h (CReadFile (path_join run_dir name)) = inr text -> loads text = Some v ->
  exists e, load_doc run_dir name s h = (Ok v, s, h ++ [e]) /\ figures_saved [e] = [].
Proof.
  intros H Hl. unfold load_doc, read_file, check, ask, lift, mbind, M_bind, mret, M_ret, answer. rewrite H. unfold loads_doc. rewrite Hl.
  by eexists.
Qed.

Lemma load_run `{E : Env} {S} run_dir evs summary (s : S) h : run_files E run_dir evs summary -> forallb plain_fields evs = true ->
  exists d l, load run_dir s h = (Ok d, s, h ++ l) /\ figures_saved l = [] /\ rd_events d = map JObj evs /\ rd_summary d = summary.
Proof.
  intros [_ Hh Hs Hd Hv Hl] Hp. unfold load, read_file, check, ask, lift. unfold mbind, M_bind, mret, M_ret, answer.
  rewrite Hh, load_file by done. set (h1 := h ++ _).
  destruct (Hs h1) as (t1 & A1 & L1). destruct (load_doc_run run_dir _ t1 _ s h1 A1 L1) as (e1 & -> & F1). set (h2 := h1 ++ _).
  destruct (Hd h2) as (t2 & v2 & A2 & L2). destruct (load_doc_run run_dir _ t2 _ s h2 A2 L2) as (e2 & -> & F2). set (h3 := h2 ++ _).
  destruct (Hv h3) as (t3 & v3 & A3 & L3). destruct (load_doc_run run_dir _ t3 _ s h3 A3 L3) as (e3 & -> & F3). set (h4 := h3 ++ _).
  destruct (Hl h4) as (t4 & v4 & A4 & L4). destruct (load_doc_run run_dir _ t4 _ s h4 A4 L4) as (e4 & -> & F4).
  eexists _, _. subst h4 h3 h2 h1. rewrite <- !app_assoc. split; [reflexivity|].
  unfold figures_saved in *. cbn [app omap list_omap] in *. split; [|done].
  destruct (saved e1), (saved e2), (saved e3), (saved e4); done.
Qed.

Lemma times_of_ok start op key events : forallb exp3_event events = true ->
  (forall e, exp3_event e = true -> op_is e op = true -> ns_ok (field e key) = true) -> returns any (times_of start op key (map JObj events)).
Proof.
  intros H Hk. unfold times_of. rewrite map_events_objects. apply (returns_bind (Forall any)); [|intros l _; by apply returns_ret]. apply returns_map.
  intros e He. apply (in_forallb _ _ _ H) in He. rewrite op_eq_ok by by apply exp3_event_facts. cbn [mbind res_bind].
  destruct (op_is e op) eqn:Eo; [|by apply returns_ret]. destruct (int_item_ok e key) as [-> _]; [by apply Hk|by apply returns_ret].
Qed.

Lemma chaos_event_ok start e : exp3_event e = true -> returns any (chaos_event start e).
Proof.
  intros [Ho _ _ _ Hw]%exp3_event_facts. unfold chaos_event, item_of. destruct (field e "op") as [| | | |op| |] eqn:E; try done.
  rewrite (field_some _ _ _ E) by done. cbn [res_of_option mbind res_bind]. destruct (existsb (String.eqb op) chaos_ops) eqn:Ex; [|by apply returns_ret].
  destruct (int_item_ok e "wall_ns") as [-> _]; [|by apply returns_ret]. apply Hw. apply orb_true_iff. right.
  rewrite <- Ex. f_equal. unfold op_is. by rewrite E.
Qed.

Lemma chaos_figure np start events dup div violations redeliveries t : forallb exp3_event events = true -> run_start (map JObj events) = Ok start ->
  returns any (fig_chaos_proof np (map JObj events) (JObj (summary_doc dup div violations redeliveries t))).
Proof.
  intros H Hs. unfold fig_chaos_proof. rewrite Hs. cbn [mbind res_bind]. apply (returns_bind any).
  - unfold throughput_panel. apply (returns_bind any).
    { apply times_of_ok; [done|]. intros e He Hop. by apply exp3_event_facts in He as [_ Hsub _ _ _]; apply Hsub in Hop as (_ & ? & _). }
    intros st _. apply (returns_bind any).
    { apply times_of_ok; [done|]. intros e He Hop. by apply exp3_event_facts in He as [_ _ _ Hc _]; apply Hc in Hop as (? & _). }
    intros ct _. apply (returns_bind (Forall any)); [|intros ch _; by apply returns_ret]. rewrite map_events_objects. apply returns_map. intros e He.
    apply chaos_event_ok. by eapply in_forallb.
  - intros top _. destruct (proof_figure dup div violations redeliveries t) as (f & -> & _). by apply returns_ret.
Qed.

(** Something is drawn exactly when something was observed. *)
Lemma no_points start events : timeline_points start events = [] <-> concat (map observed events) = [].
Proof.
  unfold timeline_points. split.
  - intros H%map_eq_nil. destruct (isort obs_le (concat (map observed events))) as [|o l] eqn:E.
    + apply (f_equal length) in E. rewrite isort_length in E. by apply nil_length_inv.
    + exfalso. cbn [changes] in H. rewrite bool_decide_false in H; done.
  - intros ->. done.
Qed.

Lemma save_in_run `{E : Env} {S} run_dir name fig f (s : S) h : fig = Ok f ->
  exists l, save_in run_dir name fig s h = (Ok tt, s, h ++ l) /\
    figures_saved l = match f with Some _ => [path_join run_dir name] | None => [] end.
Proof.
  intros ->. unfold save_in, lift, mbind, M_bind. destruct f as [f|]; [by eexists|]. exists []. by rewrite app_nil_r.
Qed.

(** The figures of a run: the second needs an observation, the third a completion. *)
Definition figures_of (evs : list fields) : list string :=
  ["fig1_summary_dashboard.png"]
  ++ (match concat (map observed evs) with [] => [] | _ => ["fig2_state_timeline.png"] end)
  ++ (match omap (took evs) evs with [] => [] | _ => ["fig3_latency_cdf.png"] end)
  ++ ["fig4_chaos_proof.png"]%string.

Lemma printed_run {S} dup div violations redeliveries t (s : S) h :
  for_each printed_keys (fun k => _ ← lift (doc_key (JObj (summary_doc dup div violations redeliveries t)) k); mret tt) s h = (Ok tt, s, h).
Proof. done. Qed.

Lemma length_omap_le {A B} (f : A -> option B) l : (length (omap f l) <= length l)%nat.
Proof. induction l as [|a l IH]; [done|]. cbn [omap list_omap]. destruct (f a); cbn [length]; [apply le_n_S, IH|by apply le_S]. Qed.

Lemma plot_exp3_run `{E : Env} {S} np run_dir argv evs dup div violations redeliveries t (s : S) h :
  run_files E run_dir evs (JObj (summary_doc dup div violations redeliveries t)) ->
  forallb plain_fields evs = true -> forallb exp3_event evs = true -> existsb (fun e => op_is e "run_start") evs = true ->
  Z.of_nat (length evs) < 2 ^ 46 ->
  exists l, plot_exp3 np (run_dir :: argv) s h = (Ok 0, s, h ++ l) /\ figures_saved l = map (path_join run_dir) (figures_of evs).
Proof.
  intros HF Hp He Hstart Hlen. destruct (run_start_ok evs He Hstart) as (start & Hs & _).
  unfold plot_exp3, ask. unfold mbind at 1, M_bind at 1. unfold answer. pose proof (rf_dir _ _ _ _ HF h) as Hd.
  destruct (E h (CFileSize run_dir)) as [n|] eqn:Ed; [|done]. set (h0 := h ++ _).
  destruct (load_run run_dir evs _ s h0 HF Hp) as (d & l0 & El & F0 & Hev & Hsum). unfold mbind at 1, M_bind at 1. rewrite El, Hev, Hsum.
  set (h1 := h0 ++ l0). unfold mbind at 1, M_bind at 1. rewrite printed_run.
  destruct (dashboard_figure dup div violations redeliveries t) as (f1 & E1 & _).
  destruct (save_in_run run_dir "fig1_summary_dashboard.png" (drawn (fig_summary_dashboard (JObj (summary_doc dup div violations redeliveries t)))) (Some f1) s h1)
    as (l1 & R1 & F1); [unfold drawn; by rewrite E1|].
  destruct (timeline_figure start evs He Hs) as (f2 & E2 & P2).
  destruct (save_in_run run_dir "fig2_state_timeline.png" _ f2 s (h1 ++ l1) E2) as (l2 & R2 & F2).
  assert (E3 : exists f3, fig_latency_cdf (map JObj evs) = Ok f3 /\ (f3 = None <-> omap (took evs) evs = [])).
  { pose proof (cdf_figure evs He) as K. assert (Hn : (length (omap (took evs) evs) <= length evs)%nat) by (apply length_omap_le).
    cbv zeta in K. destruct (omap (took evs) evs) as [|x xs]; [by exists None|]. destruct K as (f & a & b & c & m & Ef & _).
    - split; simpl in *; lia.
    - by exists (Some f). }
  destruct E3 as (f3 & E3 & P3). destruct (save_in_run run_dir "fig3_latency_cdf.png" _ f3 s ((h1 ++ l1) ++ l2) E3) as (l3 & R3 & F3).
  destruct (chaos_figure np start evs dup div violations redeliveries t He Hs) as (f4 & E4 & _).
  destruct (save_in_run run_dir "fig4_chaos_proof.png" (drawn (fig_chaos_proof np (map JObj evs) (JObj (summary_doc dup div violations redeliveries t)))) (Some f4) s
    (((h1 ++ l1) ++ l2) ++ l3)) as (l4 & R4 & F4); [unfold drawn; by rewrite E4|].
  unfold mbind, M_bind. rewrite R1, R2, R3, R4. exists ([Ev (CFileSize run_dir) (Some n)] ++ l0 ++ l1 ++ l2 ++ l3 ++ l4).
  subst h1 h0. rewrite <- !app_assoc. split; [done|]. unfold figures_saved in *. rewrite !omap_app, F0, F1, F2, F3, F4.
  cbn [omap list_omap saved ev_call app]. unfold figures_of. rewrite !map_app. f_equal. f_equal; [|f_equal].
  - pose proof (no_points start evs) as N. destruct (timeline_points start evs) as [|p ps].
    + subst f2. by rewrite (proj1 N eq_refl).
    + destruct P2 as (f & -> & _). destruct (concat (map observed evs)); [|done]. by discriminate (proj2 N eq_refl).
  - destruct f3 as [f3|]; [destruct (omap (took evs) evs); [|done]; by discriminate (proj2 P3 eq_refl)|by rewrite (proj1 P3 eq_refl)].
Qed.

(** ** The states partition the tasks *)

Definition known (o : obs) : bool := is_pending (obs_status o) || is_assigned (obs_status o) || terminal (obs_status o).

Lemma latest_known seen t s : forallb known seen = true -> latest seen t = Some s -> is_pending s || is_assigned s || terminal s = true.
Proof.
  intros H Hl. unfold latest in Hl. destruct (last _) as [o|] eqn:E; [|done]. injection Hl as <-.
  apply last_Some_elem_of, list_elem_of_In, filter_In in E as [Ho _]. apply list_elem_of_In in Ho. exact (in_forallb known seen o H Ho).
Qed.

Lemma latest_seen seen t : t ∈ tasks_of seen -> is_Some (latest seen t).
Proof.
  unfold tasks_of. rewrite elem_of_remove_dups. intros Ht. unfold latest. apply list_elem_of_In, in_map_iff in Ht as (o & <- & Ho).
  assert (Hf : o ∈ List.filter (fun o' => String.eqb (obs_task o') (obs_task o)) seen).
  { apply list_elem_of_In, filter_In. split; [done|apply String.eqb_refl]. }
  destruct (last _) as [o'|] eqn:E; [by eexists|]. apply last_None in E. rewrite E in Hf. by apply elem_of_nil in Hf.
Qed.

Lemma exclusive s : (if is_pending s then 1 else 0) + (if is_assigned s then 1 else 0) + (if terminal s then 1 else 0) =
  if is_pending s || is_assigned s || terminal s then 1 else 0.
Proof.
  unfold is_pending, is_assigned, terminal. destruct (String.eqb_spec s "PENDING") as [->|_]; [done|].
  destruct (String.eqb_spec s "ASSIGNED") as [->|_]; [done|]. by destruct (String.eqb s "COMPLETED" || String.eqb s "FAILED").
Qed.

Lemma held_partition seen : forallb known seen = true ->
  held is_pending seen + held is_assigned seen + held terminal seen = Z.of_nat (length (tasks_of seen)).
Proof.
  intros H. unfold held. assert (Hs : forall t, t ∈ tasks_of seen -> is_Some (latest seen t)) by apply latest_seen. revert Hs.
  generalize (tasks_of seen). intros ts Hs. induction ts as [|t ts IH]; [done|]. rewrite !count_cons. cbn [length].
  specialize (IH ltac:(intros t' Ht; apply Hs; by right)). destruct (Hs t) as [s E]; [by left|]. rewrite E.
  pose proof (exclusive s) as X. rewrite (latest_known seen t s H E) in X. destruct (is_pending s), (is_assigned s), (terminal s); lia.
Qed.

Lemma changes_sub seen rest c o : c ∈ changes seen rest -> o ∈ c -> o ∈ seen ++ rest.
Proof.
  revert seen. induction rest as [|o' rest IH]; intros seen Hc Ho; [by apply elem_of_nil in Hc|]. cbn [changes] in Hc.
  replace (seen ++ o' :: rest) with ((seen ++ [o']) ++ rest) by by rewrite <- app_assoc.
  destruct (bool_decide _); [by apply (IH (seen ++ [o']))|]. apply elem_of_cons in Hc as [->|Hc]; [|by apply (IH (seen ++ [o']))].
  apply elem_of_app. by left.
Qed.

(** ** Properties *)

(** C11: the state timeline is right.  For a recorded history the second figure draws, at each change of a task's status
    in the order of observation, the numbers of tasks last seen pending, assigned and terminal; it is left out only when
    nothing was observed.  When all statuses are known, the three numbers add up to the number of tasks seen. *)
Theorem timeline_exact (start : Z) (events : list fields) :
  forallb exp3_event events = true -> run_start (map JObj events) = Ok start ->
  let sorted_obs := isort obs_le (concat (map observed events)) in
  let points := map (point start) (changes [] sorted_obs) in
  (exists fig, fig_task_state_timeline (map JObj events) = Ok fig /\
    match points with
    | [] => fig = None
    | _ => exists f, fig = Some f /\
        Steps 0 (map tp_time points) (map tp_pending points) ORANGE "PENDING" ∈ f /\
        Steps 0 (map tp_time points) (map tp_assigned points) BLUE "ASSIGNED" ∈ f /\
        Steps 0 (map tp_time points) (map tp_completed points) PASS_GREEN "COMPLETED" ∈ f
    end) /\
  (points = [] <-> concat (map observed events) = []) /\
  (forallb known (concat (map observed events)) = true -> forall seen, seen ∈ changes [] sorted_obs ->
    held is_pending seen + held is_assigned seen + held terminal seen = Z.of_nat (length (tasks_of seen))).
Proof.
  intros He Hs sorted_obs points. split; [by apply timeline_figure|]. split; [apply (no_points start)|].
  intros Hk seen Hseen. apply held_partition. apply forallb_forall. intros o Ho. apply list_elem_of_In in Ho.
  apply (changes_sub _ _ _ _ Hseen) in Ho. cbn [app] in Ho. unfold sorted_obs in Ho. rewrite (isort_perm obs_le) in Ho.
  exact (in_forallb known _ o Hk Ho).
Qed.

(** C27: the latency percentiles exist and are ordered.  Over a recorded history with completions the third figure never
    indexes out of the list: its p50, p90 and p99 lines stand at times that completed tasks took (submission to
    completion, of tasks whose submission is on record), p50 <= p90 <= p99, and none lies above the slowest task. *)
Theorem cdf_percentiles (events : list fields) :
  forallb exp3_event events = true -> omap (took events) events <> [] ->
  countable_size (Z.of_nat (length (omap (took events) events))) ->
  exists f a b c m, fig_latency_cdf (map JObj events) = Ok (Some f) /\
    (forall v, v ∈ [a; b; c; m] -> exists ns, ns ∈ omap (took events) events /\ ms_of ns = Fin v) /\
    (a <= b)%Q /\ (b <= c)%Q /\ (c <= m)%Q /\ (forall ns, ns ∈ omap (took events) events -> fle (ms_of ns) (Fin m) = true) /\
    (forall k, k ∈ [(50, Fin a, "p50"); (90, Fin b, "p90"); (99, Fin c, "p99")]%string ->
       forall x, x ∈ percentile_marks (Fin m) k -> x ∈ f).
Proof.
  intros H Hne Hn. pose proof (cdf_figure events H) as K. cbv zeta in K. destruct (omap (took events) events); [done|by apply K].
Qed.

(** Green means clean.  On the summary of an analysis, the safety bars of the first figure and of the fourth are
    green exactly where the count is zero: all of them exactly when there are no duplicate dispatches, no violations and no stuck
    tasks.  A check that was skipped (-1) shows as a failure, and lost or timed-out tasks as red outcomes. *)
Theorem dashboard_verdicts (dup : Scans.DupScanResult) (div : Scans.DivergenceScanResult) (violations redeliveries : Z) (t : Exp3.tally) :
  let summary := JObj (summary_doc dup div violations redeliveries t) in
  let counts := counts_of dup div violations in
  (exists f, fig_summary_dashboard summary = Ok f /\
    Bars 0 (map XCat outcome_labels) (lit (5 # 10))
      (map inl [Exp3.t_submitted t; Exp3.t_completed t; Exp3.t_timed_out t;
                Z.max 0 (Exp3.t_submitted t - Exp3.t_completed t - Exp3.t_timed_out t)])
      [BLUE; PASS_GREEN; (if 0 <? Exp3.t_timed_out t then FAIL_RED else PASS_GREEN);
       (if 0 <? Exp3.t_submitted t - Exp3.t_completed t - Exp3.t_timed_out t then FAIL_RED else PASS_GREEN)] "" ∈ f /\
    Bars 1 (map XCat safety_labels) (lit (5 # 10)) (map inl counts) (map verdict counts) "" ∈ f) /\
  (exists f, proof_panel summary = Ok f /\
    Bars 1 (map (fun i => XNum (inl (Z.of_nat i))) (seq 0 4)) (fmul (lit (35 # 100)) (Fin (2 # 1)))
      (map inl counts) (map verdict counts) "Violations (0 = PASS)" ∈ f) /\
  (Forall (fun z => verdict z = PASS_GREEN) counts <-> Forall (fun z => z = 0) counts) /\
  verdict (-1) = FAIL_RED.
Proof.
  split; [apply dashboard_figure|]. split; [apply proof_figure|]. split; [|done].
  split; intros H; (eapply Forall_impl; [exact H|]); intros z; unfold verdict; by destruct (Z.eqb_spec z 0).
Qed.

(** C16: a recorded run is plotted.  Given the history of a run and the documents of its analysis, plot_exp3.py exits
    with 0 and has saved, in order, the summary, the state timeline when any task was observed, the latencies when any
    task completed, and the fault figure; whatever numpy's histograms return. *)
Theorem run_is_plotted `{E : Env} {S} (np : np_ops) (run_dir : string) (argv : list string) (evs : list fields)
    (dup : Scans.DupScanResult) (div : Scans.DivergenceScanResult) (violations redeliveries : Z) (t : Exp3.tally) (s : S) (h : history) :
  run_files E run_dir evs (JObj (summary_doc dup div violations redeliveries t)) ->
  forallb plain_fields evs = true -> forallb exp3_event evs = true -> existsb (fun e => op_is e "run_start") evs = true ->
  Z.of_nat (length evs) < 2 ^ 46 ->
  exists l, plot_exp3 np (run_dir :: argv) s h = (Ok 0, s, h ++ l) /\ figures_saved l = map (path_join run_dir) (figures_of evs).
Proof. apply plot_exp3_run. Qed.

(** ** A small run *)

Definition small_run : list fields :=
  [[("op", JStr "run_start"); ("wall_ns", JInt 1000000000)];
   [("op", JStr "submit"); ("task_id", JStr "a"); ("submitted_ns", JInt 2000000000); ("wall_ns", JInt 2000000100)];
   [("op", JStr "submit"); ("task_id", JStr "b"); ("submitted_ns", JInt 2500000000); ("wall_ns", JInt 2500000100)];
   [("op", JStr "chaos.kill_leader"); ("wall_ns", JInt 2600000000)];
   [("op", JStr "poll_observe"); ("task_id", JStr "a"); ("call_ns", JInt 2600000000); ("return_ns", JInt 2700000000);
    ("status", JStr "ASSIGNED"); ("wall_ns", JInt 2700000100)];
   [("op", JStr "poll_observe"); ("task_id", JStr "a"); ("call_ns", JInt 3100000000); ("return_ns", JInt 3200000000);
    ("status", JStr "COMPLETED"); ("wall_ns", JInt 3200000100)];
   [("op", JStr "complete"); ("task_id", JStr "a"); ("submitted_ns", JInt 2000000000); ("completed_ns", JInt 3200000000);
    ("status", JStr "COMPLETED"); ("wall_ns", JInt 3200000200)]]%string.

Lemma timeline_exact_witness :
  let points := map (point 1000000000) (changes [] (isort obs_le (concat (map observed small_run)))) in
  points = [(seconds_since 1000000000 2000000100, 1, 0, 0); (seconds_since 1000000000 2500000100, 2, 0, 0);
            (seconds_since 1000000000 2700000000, 1, 1, 0); (seconds_since 1000000000 3200000000, 1, 0, 1)] /\
  exists f, fig_task_state_timeline (map JObj small_run) = Ok (Some f) /\
    Steps 0 (map tp_time points) (map tp_pending points) ORANGE "PENDING" ∈ f.
Proof.
  assert (Hp : map (point 1000000000) (changes [] (isort obs_le (concat (map observed small_run)))) =
    [(seconds_since 1000000000 2000000100, 1, 0, 0); (seconds_since 1000000000 2500000100, 2, 0, 0);
     (seconds_since 1000000000 2700000000, 1, 1, 0); (seconds_since 1000000000 3200000000, 1, 0, 1)]) by (vm_compute; reflexivity).
  split; [exact Hp|].
  destruct (timeline_exact 1000000000 small_run ltac:(vm_compute; reflexivity) ltac:(vm_compute; reflexivity)) as ((fig & Ef & Hf) & _).
  rewrite Hp in *. destruct Hf as (f & -> & Hpend & _). exists f. split; [exact Ef|exact Hpend].
Defined.

Lemma cdf_percentiles_witness :
  exists f m, fig_latency_cdf (map JObj small_run) = Ok (Some f) /\ fle (ms_of 1200000000) (Fin m) = true /\
    VLine 0 (inr (Fin m)) GRAY ∈ f.
Proof.
  assert (Hn : countable_size (Z.of_nat (length (omap (took small_run) small_run)))) by (vm_compute; split; reflexivity).
  assert (Ht : omap (took small_run) small_run = [1200000000]) by (vm_compute; reflexivity).
  destruct (cdf_percentiles small_run ltac:(vm_compute; reflexivity) ltac:(rewrite Ht; done) Hn) as (f & a & b & c & m & Ef & Hv & _ & _ & _ & Hm & Hk).
  rewrite Ht in *. exists f, c. split; [exact Ef|].
  assert (Hc : exists ns, ns ∈ [1200000000] /\ ms_of ns = Fin c) by (apply Hv; by right; right; left).
  destruct Hc as (ns & ->%list_elem_of_singleton & <-). split; [vm_compute; reflexivity|].
  destruct (Hv c) as (ns & ->%list_elem_of_singleton & Ec); [by right; right; left|]. rewrite Ec.
  apply (Hk (99, Fin c, "p99"%string)); [by right; right; left|by left].
Defined.

Definition small_summary : fields :=
  summary_doc (Scans.mkDup 2 0 [] 1) (Scans.mkDivergence 2 0 0 0 [] [] []) 0 3 (Exp3.mkTally 2 1 0 1 0 (JInt 3)).

Definition small_env : Env := fun h c =>
  match c as c' return resp c' with
  | CFileSize _ => Some 4096
  | CReadFile p => inr (if endswith p "history.jsonl" then file_of small_run
                        else if endswith p "exp3_summary.json" then dumps (JObj small_summary) else "{}"%string)
  | c' => default_answer c'
  end.

Definition no_numpy : np_ops := NpOps (fun _ _ _ => []) (fun _ _ => []).

Lemma run_is_plotted_witness :
  exists l, plot_exp3 (H := small_env) no_numpy ["run"]%string tt [] = (Ok 0, tt, l) /\
    figures_saved l = ["run/fig1_summary_dashboard.png"; "run/fig2_state_timeline.png"; "run/fig3_latency_cdf.png";
                       "run/fig4_chaos_proof.png"]%string.
Proof.
  destruct (run_is_plotted (E := small_env) no_numpy "run" [] small_run (Scans.mkDup 2 0 [] 1) (Scans.mkDivergence 2 0 0 0 [] [] []) 0 3
    (Exp3.mkTally 2 1 0 1 0 (JInt 3)) tt []) as (l & El & Fl).
  - split; intros h; [discriminate|vm_compute; reflexivity|eexists; split; [vm_compute; reflexivity|vm_compute; reflexivity]|
      eexists _, _; split; [vm_compute; reflexivity|vm_compute; reflexivity]..].
  - vm_compute. reflexivity.
  - vm_compute. reflexivity.
  - vm_compute. reflexivity.
  - vm_compute. reflexivity.
  - exists l. split; [exact El|]. rewrite Fl. vm_compute. reflexivity.
Defined.
