(* ===== verification/Verdict.v ===== *)
(** * Verdict: what a green dashboard of experiment 3 means

    The three parts of experiment 3 put together: the jobs of a run write its
    history (Exp3, chaos-bench/exp3.py), the analysis reads it with the table of
    tasks (Exp3, Scans), the plotting script colours the counts (PlotExp3,
    experiments/exp3/plot_exp3.py).  A run is any number of jobs, each in an
    environment of its own, whose lines and those of the fault loops mix in any
    order ([recorded]); the specification of its outcome is the fate of each task
    ([fate_of]), told by what DynamoDB answered, not by what was written. *)

From stdpp Require Import base gmap list strings.
From Stdlib Require Import ZArith QArith.QArith_base.
From S2P Require Import Prelude PyFloat PyStr PyDict Json Draw Runtime History BenchConfig.
From S2P Require Import Submitter Bench Scans Exp1 Workload Exp3.
From S2P Require PlotExp2 PlotExp3.

Local Open Scope Z_scope.
Local Open Scope driftless_scope.

(** ** The specification *)

(** A terminal status was seen in time; it was not; DynamoDB raised. *)
Inductive fate : Type := Settled | Expired | Broken.

#[export] Instance fate_eq_dec : EqDecision fate.
Proof. solve_decision. Defined.

Definition fate_of (r : res unit) (l : history) : fate :=
  match r with Ok _ => if terminal_seen l then Settled else Expired | _ => Broken end.

Record task : Type := mkTask { tk_id : string; tk_fate : fate }.

Definition fared (f : fate) (k : task) : bool := bool_decide (tk_fate k = f).

(** The lines a job wrote, with the task it submitted. *)
Inductive job_ran (cfg : BenchConfig) (params : RunParams) (t : float) (d : Q) : list string * option task -> Prop :=
| job_refused (E : Env) (h l : history) (r : res unit) :
    Exp3.do_submit cfg params tt h = (r, tt, h ++ l) -> polls_of l = [] -> job_ran cfg params t d (texts l, None)
| job_polled (E E' : Env) (h l h' l' : history) (r r' : res unit) fuel id ns :
    Exp3.do_submit cfg params tt h = (r, tt, h ++ l) -> polls_of l = [(id, ns)] ->
    _poll_to_completion_traced (H := E') fuel cfg id ns t (Fin d) tt h' = (r', tt, h' ++ l') -> r' <> NoFuel ->
    job_ran cfg params t d (texts l ++ texts l', Some (mkTask id (fate_of r' l'))).

Definition is_int (v : json) : bool := match v with JInt _ => true | _ => false end.

(** A record of another thread: not about the fate of a task. *)
Definition bystander (ev : fields) : bool :=
  plain_fields ev && negb (op_is ev "submit") && negb (op_is ev "complete") && negb (op_is ev "timeout") &&
  (negb (op_is ev "chaos.sqs_redeliver") || is_int (field ev "redelivered")).

(** The lines of a run, and its tasks: the jobs and the other records, in any order.
    [uuid4] gives a new name to each task. *)
Inductive recorded (cfg : BenchConfig) (params : RunParams) (t : float) (d : Q) (lines : list string) (tasks : list task) : Prop :=
| recorded_mix (jobs : list (list string * option task)) (others : list fields) :
    Forall (job_ran cfg params t d) jobs -> forallb bystander others = true ->
    lines ≡ₚ concat (map fst jobs) ++ map line_text others -> tasks = omap snd jobs ->
    NoDup (map tk_id tasks) -> Forall (fun k => truthy (tk_id k) = true) tasks ->
    recorded cfg params t d lines tasks.

(** ** What the events of a run say *)

Definition countable (ev : fields) : bool := negb (op_is ev "chaos.sqs_redeliver") || is_int (field ev "redelivered").
Definition readable (ev : fields) : bool := plain_fields ev && string_ids ev && countable ev.
Definition op_named (name : string) (ev : fields) : bool := op_is ev name.

(** The events tell the tasks and how many fared which way. *)
Record tells (evs : list fields) (tasks : list task) : Prop := {
  tl_readable : forallb readable evs = true;
  tl_ids : omap submit_id evs ≡ₚ map tk_id tasks;
  tl_submits : count (op_named "submit") evs = length tasks;
  tl_completes : count (op_named "complete") evs = count (fared Settled) tasks;
  tl_timeouts : count (op_named "timeout") evs = count (fared Expired) tasks;
}.

Lemma tells_app e1 e2 k1 k2 : tells e1 k1 -> tells e2 k2 -> tells (e1 ++ e2) (k1 ++ k2).
Proof.
  intros [R1 I1 S1 C1 T1] [R2 I2 S2 C2 T2].
  split; rewrite ?forallb_app, ?omap_app, ?map_app, ?count_app, ?length_app; [by rewrite R1, R2|by rewrite I1, I2|congruence..].
Qed.

Lemma forallb_perm {A} (p : A -> bool) l1 l2 : l1 ≡ₚ l2 -> forallb p l1 = forallb p l2.
Proof. induction 1; cbn; rewrite ?IHPermutation; try done; [by rewrite !andb_assoc, (andb_comm (p _))|congruence]. Qed.

Lemma tells_perm e1 e2 ks : e1 ≡ₚ e2 -> tells e1 ks -> tells e2 ks.
Proof.
  intros Hp [R I S C T]. split; rewrite <- ?(forallb_perm _ _ _ Hp), <- ?(count_perm _ _ _ Hp); try done. by rewrite <- Hp.
Qed.

Lemma tells_bystander ev : bystander ev = true -> tells [ev] [].
Proof.
  unfold bystander. rewrite !andb_true_iff, !negb_true_iff. intros ((((Hp & Hs) & Hc) & Ht) & Hr).
  split; unfold op_named, readable, countable, string_ids; cbn [forallb omap list_omap]; rewrite ?count_cons, ?Hp, ?Hs, ?Hc, ?Ht, ?Hr; try done.
  unfold submit_id. by rewrite Hs.
Qed.

Lemma tells_bystanders evs : forallb bystander evs = true -> tells evs [].
Proof.
  induction evs as [|ev evs IH]; [done|]. cbn [forallb]. intros [He Hs]%andb_true_iff.
  apply (tells_app [ev] evs [] []); [by apply tells_bystander|by apply IH].
Qed.

(** The records of a job. *)
Lemma tells_submit id ns wall f ev : truthy id = true ->
  match f with
  | Settled => exists r st w, ev = [stamped (complete_event id ns r st) w]
  | Expired => exists r w, ev = [stamped (timeout_event id ns r) w]
  | Broken => ev = []
  end ->
  tells (stamped (submit_event id ns) wall :: ev) [mkTask id f].
Proof.
  intros Hid Hev. assert (Hs : submit_id (stamped (submit_event id ns) wall) = Some id) 
    by (change (submit_id _) with (if truthy id then Some id else None); by rewrite Hid).
  destruct f; [destruct Hev as (r & st & w & ->)|destruct Hev as (r & w & ->)|subst ev];
    (split; [done|cbn [omap list_omap]; by rewrite Hs|done..]).
Qed.

Lemma observed_bystanders id obs walls :
  forallb bystander (zip_with stamped (map (observed id) obs) walls) = true.
Proof.
  revert walls. induction obs as [|o obs IH]; intros [|w walls]; [done..|]. cbn [map zip_with forallb]. by rewrite IH.
Qed.

Lemma pending_tells id l : pending_trace id l -> exists evs, texts l = map line_text evs /\ tells evs [].
Proof. intros (obs & walls & _ & -> & _). eexists. split; [done|]. apply tells_bystanders, observed_bystanders. Qed.

(** What a submission of experiment 3 leaves: an error, or the submission and its poll. *)
Lemma submission_run `{E : Env} {S} cfg params (s : S) h :
  exists r l, Exp3.do_submit cfg params s h = (r, s, h ++ l) /\
    ((exists e wall, texts l = [line_text (stamped (submit_error_event e) wall)] /\ polls_of l = []) \/
     (exists id ns wall, texts l = [line_text (stamped (submit_event id ns) wall)] /\ polls_of l = [(id, ns)])).
Proof. destruct (do_submit_run (E := E) cfg params s h) as (r & l & H & _ & K). exists r, l. split; [exact H|]. destruct K as [K|(ns & wall & K)]; [by left|right; by eexists _, ns, wall]. Qed.

Section run.
Context (cfg : BenchConfig) (params : RunParams) (t : float) (d : Q).

Lemma job_tells j :
  job_ran cfg params t d j -> Forall (fun k => truthy (tk_id k) = true) (option_list j.2) ->
  exists evs, j.1 = map line_text evs /\ tells evs (option_list j.2).
Proof.
  intros H Ht. destruct H as [E h l r Hs Hp|E E' h l h' l' r r' fuel id ns Hs Hp Hpoll Hnf]; cbn [fst snd option_list] in *;
    destruct (submission_run cfg params tt h) as (r1 & l1 & Hs1 & K); rewrite Hs in Hs1; injection Hs1 as _ El;
    apply app_inv_head in El as <-; (destruct K as [(e & wall & T & P)|(id1 & ns1 & wall & T & P)]; rewrite P in Hp; try done).
  - eexists [_]. split; [done|]. by apply tells_bystander.
  - injection Hp as <- <-. apply Forall_cons_1 in Ht as [Ht _]. cbn in Ht.
    destruct (traced_records (E := E') fuel cfg id1 ns1 t d tt h') as (r2 & l2 & Hp2 & K). rewrite Hpoll in Hp2.
    injection Hp2 as <- El. apply app_inv_head in El as <-. rewrite T.
    assert (Hmix : forall l1 l2 ev, l' = l1 ++ l2 -> pending_trace id1 l1 -> texts l2 = map line_text ev ->
      tells (stamped (submit_event id1 ns1) wall :: ev) [mkTask id1 (fate_of r' l')] ->
      exists evs, [line_text (stamped (submit_event id1 ns1) wall)] ++ texts l' = map line_text evs /\ tells evs [mkTask id1 (fate_of r' l')]).
    { intros l1 l2 ev El Hl1 T2 Htl. destruct (pending_tells id1 l1 Hl1) as (evs & T1 & K1).
      exists (stamped (submit_event id1 ns1) wall :: evs ++ ev). rewrite El at 1. rewrite texts_app, T1, T2, <- map_app. split; [done|].
      apply (tells_perm (evs ++ stamped (submit_event id1 ns1) wall :: ev)); [by rewrite <- Permutation_middle|].
      exact (tells_app evs _ [] [_] K1 Htl). }
    unfold poll_trace, finished_trace in K. destruct r' as [[]|e|]; [| |done]; cbn [fate_of] in *.
    + destruct (terminal_seen l').
      * destruct K as (l1 & l2 & w1 & w2 & El & Hl1 & c & rn & st & _ & T2).
        apply (Hmix l1 l2 [stamped (observe_event id1 c rn st) w1; stamped (complete_event id1 ns1 rn st) w2] El Hl1 T2).
        apply (tells_perm ([stamped (observe_event id1 c rn st) w1] ++
          [stamped (submit_event id1 ns1) wall; stamped (complete_event id1 ns1 rn st) w2])); [apply Permutation_swap|].
        apply (tells_app [_] _ [] [_]); [by apply tells_bystander|]. apply tells_submit; [done|]. by eexists rn, st, w2.
      * destruct K as (l1 & l2 & w & El & Hl1 & rn & T2). apply (Hmix l1 l2 [stamped (timeout_event id1 ns1 rn) w] El Hl1 T2).
        apply tells_submit; [done|]. by eexists rn, w.
    + destruct K as [K _]. apply (Hmix l' [] []); [by rewrite app_nil_r|done|done|]. by apply tells_submit.
Qed.

Lemma jobs_tell jobs :
  Forall (job_ran cfg params t d) jobs -> Forall (fun k => truthy (tk_id k) = true) (omap snd jobs) ->
  exists evs, concat (map fst jobs) = map line_text evs /\ tells evs (omap snd jobs).
Proof.
  induction 1 as [|j jobs Hj _ IH]; intros Ht; [by exists []|].
  assert (Eo : omap snd (j :: jobs) = option_list j.2 ++ omap snd jobs) by (cbn; by destruct j.2).
  rewrite Eo in *. apply Forall_app in Ht as [H1 H2]. destruct (job_tells j Hj H1) as (e1 & L1 & K1).
  destruct (IH H2) as (e2 & L2 & K2). exists (e1 ++ e2). cbn [map concat]. rewrite L1, L2, map_app. split; [done|]. by apply tells_app.
Qed.

(** The lines of a run are those of events that tell its tasks. *)
Lemma run_tells lines tasks :
  recorded cfg params t d lines tasks -> exists evs, lines = map line_text evs /\ tells evs tasks.
Proof.
  intros [jobs others Hj Ho Hl -> _ Ht]. destruct (jobs_tell jobs Hj Ht) as (evs & L & K). rewrite L, <- map_app in Hl.
  apply Permutation_map_inv in Hl as (evs' & -> & Hp). exists evs'. split; [done|].
  apply (tells_perm (evs ++ others)); [done|]. rewrite <- (app_nil_r (omap snd jobs)). apply tells_app; [done|by apply tells_bystanders].
Qed.
End run.

(** ** The counters of the analysis *)

Definition redelivered (ev : fields) : Z :=
  if op_is ev "chaos.sqs_redeliver" then match field ev "redelivered" with JInt z => z | _ => 0 end else 0.
Definition total (zs : list Z) : Z := fold_right Z.add 0 zs.

(** The counters after some events. *)
Definition tally_of (evs : list fields) : tally :=
  mkTally (Z.of_nat (count (op_named "submit") evs)) (Z.of_nat (count (op_named "complete") evs))
    (Z.of_nat (count (op_named "timeout") evs)) (Z.of_nat (count (op_named "chaos.kill_leader") evs))
    (Z.of_nat (count (op_named "chaos.kill_follower") evs)) (JInt (total (map redelivered evs))).

Lemma total_app a b : total (a ++ b) = total a + total b.
Proof. induction a as [|x a IH]; [done|]. cbn. unfold total in *. lia. Qed.

Lemma count_event_step evs ev : countable ev = true -> count_event (tally_of evs) ev = Ok (tally_of (evs ++ [ev])).
Proof.
  unfold tally_of, countable, count_event. rewrite map_app, total_app, !count_app, !count_cons. cbn [map total fold_right].
  unfold op_named, redelivered, op_is. destruct (field ev "op") as [| | | |op| |] eqn:Ho; intros Hc.
  1-4,6-7: unfold count; cbn; rewrite !Z.add_0_r, !Nat.add_0_r; done.
  unfold count; cbn [List.filter length].
  destruct (String.eqb_spec op "submit") as [->|]; [|destruct (String.eqb_spec op "complete") as [->|];
    [|destruct (String.eqb_spec op "timeout") as [->|]; [|destruct (String.eqb_spec op "chaos.kill_leader") as [->|];
    [|destruct (String.eqb_spec op "chaos.kill_follower") as [->|]; [|destruct (String.eqb_spec op "chaos.sqs_redeliver") as [->|]]]]]].
  6: { cbn in Hc. unfold field_or. unfold field in *. destruct (dict_get ev "redelivered") as [v|]; [|done]. cbn in Hc |- *.
       destruct v; try done. cbn. rewrite !Nat.add_0_r. do 2 f_equal. f_equal. lia. }
  all: cbn; do 2 f_equal; try f_equal; lia.
Qed.

Lemma tally_run seen evs : forallb countable evs = true -> fold_res count_event (tally_of seen) evs = Ok (tally_of (seen ++ evs)).
Proof.
  revert seen. induction evs as [|ev evs IH]; intros seen; [by rewrite app_nil_r|]. cbn [forallb fold_res]. intros [He Hs]%andb_true_iff.
  rewrite count_event_step by done. cbn [mbind res_bind]. rewrite IH by done. by rewrite <- app_assoc.
Qed.

(** ** The analysis of a run *)

(** The linearizability checker: a verdict of its own, or -1 when there is none. *)
Inductive checked (E : Env) (history_path lin_path : string) : option string -> Z -> Prop :=
| not_asked : checked E history_path lin_path None (-1)
| not_built bin : truthy bin = true -> (forall h, E h (CIsFile bin) = false) -> checked E history_path lin_path (Some bin) (-1)
| gave_up bin code :
    truthy bin = true -> (forall h, E h (CIsFile bin) = true) -> code <> 0 ->
    (forall h, E h (CSubprocess [bin; "-history"; history_path; "-out"; lin_path]%string) = inr code) ->
    checked E history_path lin_path (Some bin) (-1)
| answered bin v :
    truthy bin = true -> (forall h, E h (CIsFile bin) = true) ->
    (forall h, E h (CSubprocess [bin; "-history"; history_path; "-out"; lin_path]%string) = inr 0) ->
    (forall h, exists text doc, E h (CReadFile lin_path) = inr text /\ loads text = Some (JObj doc) /\
       field_or doc "violations" (JInt 0) = JInt v) ->
    checked E history_path lin_path (Some bin) v.

Lemma lincheck_run `{E : Env} {S} history_path lin_path lincheck_bin v (s : S) h :
  checked E history_path lin_path lincheck_bin v ->
  exists l, lincheck history_path lin_path lincheck_bin s h = (Ok (JInt v), s, h ++ l).
Proof.
  unfold lincheck. intros [|bin Hb Hf|bin code Hb Hf Hc Hs|bin z Hb Hf Hs Hr]; [exists []; by rewrite app_nil_r|..];
    rewrite Hb; unfold read_file, check, ask, lift, try_except, mbind, M_bind, mret, M_ret, answer; rewrite Hf.
  - by eexists.
  - rewrite Hs. destruct (Z.eqb_spec code 0) as [|_]; [done|]. eexists. by rewrite <- !app_assoc.
  - rewrite Hs. cbn [Z.eqb]. destruct (Hr ((h ++ [Ev (CIsFile bin) true]) ++ [Ev (CSubprocess [bin; "-history"; history_path; "-out"; lin_path]%string) (inr 0)]))
      as (text & doc & A & L & V). rewrite A. unfold violations_of. rewrite L, V. eexists. by rewrite <- !app_assoc.
Qed.

(** The tasks a scan counts. *)
Definition scanned (p : string -> bool) (tasks : list task) : Z := Z.of_nat (count (fun k => p (tk_id k)) tasks).

Lemma scanned_ids p ids tasks : ids ≡ₚ map tk_id tasks -> Z.of_nat (length (List.filter p ids)) = scanned p tasks.
Proof.
  intros Hp. unfold scanned. f_equal. change (count p ids = count (fun k => p (tk_id k)) tasks). rewrite (count_perm p _ _ Hp).
  clear Hp. induction tasks as [|k ks IH]; [done|]. cbn [map]. by rewrite !count_cons, IH.
Qed.

Lemma first_occurrences_NoDup l : NoDup l -> first_occurrences l ≡ₚ l.
Proof.
  intros Hn. apply NoDup_Permutation; [apply (proj2 (add_new_spec [] l "")), NoDup_nil_2|done|].
  intros x. rewrite (proj1 (add_new_spec [] l x)). set_solver.
Qed.

Section analysis.
Context `{E : Env} {S : Type} (cfg : BenchConfig) (store : string -> option item).
Context (Hserves : serves E (tasks_table cfg) store) (Hkeyed : keyed store).
Context (evs : list fields) (tasks : list task) (Htells : tells evs tasks) (Honce : NoDup (map tk_id tasks)).

Lemma tells_plain : forallb plain_fields evs = true /\ forallb string_ids evs = true /\ forallb countable evs = true.
Proof using Htells.
  pose proof (tl_readable _ _ Htells) as R. clear Htells. induction evs as [|ev l IH]; [done|]. cbn [forallb] in *.
  apply andb_true_iff in R as [Re Rs]. destruct (IH Rs) as (-> & -> & ->). unfold readable in Re.
  apply andb_true_iff in Re as [[-> ->]%andb_true_iff ->]. done.
Qed.

Lemma ids_told : first_occurrences (omap submit_id evs) ≡ₚ map tk_id tasks.
Proof using Htells Honce.
  pose proof (tl_ids _ _ Htells) as Hi. rewrite <- Hi. apply first_occurrences_NoDup. by rewrite Hi.
Qed.

(** The document of the analysis. *)
Lemma analysis_run fuel history_path lincheck_bin v (s : S) h :
  (100 < fuel)%nat -> (forall h, E h (CReadFile history_path) = inr (file_of evs)) ->
  checked E history_path (path_join (dirname history_path) "exp3_lincheck.json") lincheck_bin v ->
  exists dup div l, Exp3.analyze fuel cfg history_path lincheck_bin s h = (Ok (exp3_summary dup div (JInt v) (tally_of evs)), s, h ++ l) /\
    PlotExp3.counts_of dup div v =
      [scanned (dispatched_twice store) tasks; v; scanned (has_status store "PENDING") tasks; scanned (has_status store "ASSIGNED") tasks].
Proof using Hserves Hkeyed Htells Honce.
  intros Hf Hread Hlin. destruct tells_plain as (Hp & Hs & Hc).
  destruct (dup_scan_run cfg store Hserves Hkeyed fuel evs s (h ++ [Ev (CReadFile history_path) (inr (file_of evs))]) Hf Hp Hs)
    as (items & l1 & Hi & Hdup).
  set (dup := mkDup _ _ _ _) in Hdup. set (h1 := (h ++ _) ++ l1) in Hdup.
  set (d1 := path_join (dirname history_path) "exp3_dups.json").
  set (h2 := (h1 ++ [Ev (CDumpJson d1 (JObj (dup_to_dict dup))) tt]) ++ [Ev (CReadFile history_path) (inr (file_of evs))]).
  destruct (divergence_scan_run cfg store fuel evs s h2 Hserves Hkeyed Hf Hp Hs)
    as (div & l2 & Hdiv & P1 & P2 & _ & _ & C1 & C2 & _).
  set (d2 := path_join (dirname history_path) "exp3_divergence.json").
  destruct (lincheck_run history_path _ lincheck_bin v s ((h2 ++ l2) ++ [Ev (CDumpJson d2 (JObj (divergence_to_dict div))) tt]) Hlin)
    as (l3 & Hl3).
  exists dup, div. eexists. split.
  - unfold Exp3.analyze, read_file, dump_json, check, ask, tell, lift, mbind, M_bind, mret, M_ret, answer. rewrite !Hread.
    rewrite Hdup. fold h1 d1. rewrite Hread. fold h2. rewrite Hdiv. fold d2. rewrite Hl3, Hread.
    unfold file_of. rewrite fold_history_lines by done. change no_tally with (tally_of []). rewrite tally_run by done.
    subst h2 h1. by rewrite <- !app_assoc.
  - unfold PlotExp3.counts_of. subst dup. cbn [duplicate_count].
    rewrite C1, C2, P1, P2, <- !(scanned_ids _ _ _ ids_told).
    destruct (dup_rows store Hkeyed 0 [] items _ Hi) as (_ & -> & _). done.
Qed.
End analysis.

(** ** Properties *)

Lemma fates_partition tasks :
  (count (fared Settled) tasks + count (fared Expired) tasks + count (fared Broken) tasks = length tasks)%nat.
Proof.
  induction tasks as [|[id f] ks IH]; [done|]. rewrite !count_cons. cbn [length]. rewrite <- IH.
  set (one g := if fared g (mkTask id f) then 1%nat else 0%nat). assert (one Settled + one Expired + one Broken = 1)%nat by by destruct f.
  unfold one in *. lia.
Qed.

(** A task of a run without fault: settled, received once, and not left behind. *)
Definition exactly_once (store : string -> option item) (k : task) : Prop :=
  tk_fate k = Settled /\ dispatched_twice store (tk_id k) = false /\
  has_status store "PENDING" (tk_id k) = false /\ has_status store "ASSIGNED" (tk_id k) = false.

Lemma none_counted {A} (p : A -> bool) l : count p l = 0%nat <-> forall x, x ∈ l -> p x = false.
Proof.
  split.
  - intros H x Hx. destruct (p x) eqn:E; [|done]. assert (0 < count p l)%nat by (apply count_pos; by exists x). lia.
  - intros H. destruct (Nat.eq_0_gt_0_cases (count p l)) as [|(x & Hx & E)%count_pos]; [done|]. by rewrite H in E.
Qed.

Lemma green_zero z : PlotExp3.PASS_GREEN = PlotExp3.verdict z <-> z = 0.
Proof. unfold PlotExp3.verdict. by destruct (Z.eqb_spec z 0). Qed.

Lemma green_positive n : PlotExp3.PASS_GREEN = (if 0 <? Z.of_nat n then PlotExp3.FAIL_RED else PlotExp3.PASS_GREEN) <-> n = 0%nat.
Proof. destruct (Z.ltb_spec 0 (Z.of_nat n)); split; intros ?; (discriminate || lia || done). Qed.

Lemma all_green store tasks v :
  Forall (eq PlotExp3.PASS_GREEN) ((if 0 <? Z.of_nat (count (fared Expired) tasks) then PlotExp3.FAIL_RED else PlotExp3.PASS_GREEN) ::
    (if 0 <? Z.of_nat (count (fared Broken) tasks) then PlotExp3.FAIL_RED else PlotExp3.PASS_GREEN) ::
    map PlotExp3.verdict [scanned (dispatched_twice store) tasks; v; scanned (has_status store "PENDING") tasks;
                          scanned (has_status store "ASSIGNED") tasks]) <->
  v = 0 /\ forall k, k ∈ tasks -> exactly_once store k.
Proof.
  cbn [map]. rewrite !Forall_cons, !green_positive, !green_zero, Forall_nil. unfold scanned.
  change 0 with (Z.of_nat 0) at 1 3 4. rewrite !Nat2Z.inj_iff, !none_counted. unfold exactly_once, fared. split.
  - intros (He & Hb & Hd & -> & Hp & Ha & _). split; [done|]. intros k Hk.
    specialize (He k Hk). specialize (Hb k Hk). apply bool_decide_eq_false in He, Hb. destruct (tk_fate k); try done. auto.
  - intros [-> H]. split_and!; try done; intros k Hk; destruct (H k Hk) as (Hf & Hd & Hp & Ha); try done; rewrite Hf; done.
Qed.

(** C3: green means exactly once.  Whatever the jobs of a run met and however their
    records mixed with those of the fault loops, the analysis of its history against
    the table of tasks ends and the first figure shows the number of tasks, of those
    that settled, timed out and broke off, of those received twice, still pending and
    still assigned, and the verdict of the checker; all the bars that can turn red
    are green exactly when the checker found no violation and every submitted task
    was seen in a terminal status, was received once at most and is neither pending
    nor assigned. *)
Theorem green_means_exactly_once `{E : Env} {S} (fuel : nat) (cfg : BenchConfig) (params : RunParams) (t : float) (d : Q)
    (store : string -> option item) (lines : list string) (tasks : list task)
    (history_path : string) (lincheck_bin : option string) (v : Z) (s : S) (h : history) :
  recorded cfg params t d lines tasks ->
  (forall h, E h (CReadFile history_path) = inr (foldr String.append ""%string lines)) ->
  serves E (tasks_table cfg) store -> keyed store -> (100 < fuel)%nat ->
  checked E history_path (path_join (dirname history_path) "exp3_lincheck.json") lincheck_bin v ->
  let outcomes := Z.of_nat (length tasks) :: map (fun f => Z.of_nat (count (fared f) tasks)) [Settled; Expired; Broken] in
  let safety := [scanned (dispatched_twice store) tasks; v; scanned (has_status store "PENDING") tasks;
                 scanned (has_status store "ASSIGNED") tasks] in
  exists summary l f c1 c2 cs,
    Exp3.analyze fuel cfg history_path lincheck_bin s h = (Ok summary, s, h ++ l) /\
    PlotExp3.fig_summary_dashboard (JObj summary) = Ok f /\
    Bars 0 (map XCat PlotExp3.outcome_labels) (PlotExp2.lit (5 # 10)) (map inl outcomes) [PlotExp3.BLUE; PlotExp3.PASS_GREEN; c1; c2] "" ∈ f /\
    Bars 1 (map XCat PlotExp3.safety_labels) (PlotExp2.lit (5 # 10)) (map inl safety) cs "" ∈ f /\
    (Forall (eq PlotExp3.PASS_GREEN) (c1 :: c2 :: cs) <-> v = 0 /\ forall k, k ∈ tasks -> exactly_once store k).
Proof.
  intros Hrec Hread Hserves Hkeyed Hf Hlin outcomes safety. destruct (run_tells cfg params t d lines tasks Hrec) as (evs & -> & Ht).
  assert (Honce : NoDup (map tk_id tasks)) by by destruct Hrec.
  destruct (analysis_run cfg store Hserves Hkeyed evs tasks Ht Honce fuel history_path lincheck_bin v s h Hf Hread Hlin)
    as (dup & div & l & Hrun & Hcounts).
  destruct (PlotExp3.dashboard_figure dup div v (total (map redelivered evs)) (tally_of evs)) as (f & Hfig & B0 & B1).
  rewrite Hcounts in B1. cbn [tally_of t_submitted t_completed t_timed_out] in B0.
  rewrite (tl_submits _ _ Ht), (tl_completes _ _ Ht), (tl_timeouts _ _ Ht) in B0. pose proof (fates_partition tasks) as Hp.
  assert (Hlost : Z.of_nat (length tasks) - Z.of_nat (count (fared Settled) tasks) - Z.of_nat (count (fared Expired) tasks)
                  = Z.of_nat (count (fared Broken) tasks)) by lia.
  rewrite Hlost, Z.max_r in B0 by lia.
  eexists _, l, f, _, _, _. split; [exact Hrun|]. split; [exact Hfig|]. split; [exact B0|]. split; [exact B1|]. apply all_green.
Qed.

(** A run of one task that goes well, next to a redelivery. *)
Definition well_row : item := sample_row "t-1" "COMPLETED" "1".
Definition well_store (id : string) : option item := if String.eqb id "t-1" then Some well_row else None.

Lemma well_store_keyed : keyed well_store.
Proof. intros id it. unfold well_store. destruct (String.eqb_spec id "t-1") as [->|_]; [by intros [= <-]|done]. Qed.

Definition well_env : Env := fun _ c =>
  match c as c' return resp c' with
  | CUuid4 => "t-1"%string
  | CDdbGetItem _ _ _ => inr (Some well_row)
  | c' => default_answer c'
  end.

Definition well_params : RunParams := exp3_params (Fin (500 # 1)).
Definition well_submit : history := (Exp3.do_submit (H := well_env) three_coordinators well_params tt []).2.
Definition well_poll : history :=
  (_poll_to_completion_traced (H := well_env) 2 three_coordinators "t-1" 0 (Fin (120 # 1)) (Fin (1 # 2)) tt []).2.
Definition well_fault : fields := [("op", JStr "chaos.sqs_redeliver"); ("redelivered", JInt 5); ("wall_ns", JInt 7)]%string.
Definition well_lines : list string := line_text well_fault :: texts well_submit ++ texts well_poll.

Lemma well_recorded : recorded three_coordinators well_params (Fin (120 # 1)) (1 # 2) well_lines [mkTask "t-1" Settled].
Proof.
  apply (recorded_mix _ _ _ _ _ _ [(texts well_submit ++ texts well_poll, Some (mkTask "t-1" Settled))] [well_fault]).
  - apply Forall_singleton. change Settled with (fate_of (Ok tt) well_poll).
    apply (job_polled _ _ _ _ well_env well_env [] well_submit [] well_poll (Ok tt) (Ok tt) 2 "t-1" 0); [vm_compute; reflexivity..|done].
  - reflexivity.
  - unfold well_lines. cbn [map fst concat]. rewrite app_nil_r. apply Permutation_cons_append.
  - reflexivity.
  - apply NoDup_singleton.
  - by apply Forall_singleton.
Qed.

(** The files and the table at the time of the analysis; the checker finds nothing. *)
Definition well_desk : Env := fun h c =>
  match c as c' return resp c' with
  | CReadFile p => inr (if String.eqb p "run/history.jsonl" then foldr String.append ""%string well_lines
                        else dumps (JObj [("violations"%string, JInt 0)]))
  | CIsFile _ => true
  | CSubprocess _ => inr 0
  | c' => throttled sample_table well_store h c'
  end.

Lemma green_means_exactly_once_witness :
  exists summary l f c1 c2 cs,
    Exp3.analyze (H := well_desk) 101 three_coordinators "run/history.jsonl" (Some "lincheck"%string) tt [] = (Ok summary, tt, l) /\
    PlotExp3.fig_summary_dashboard (JObj summary) = Ok f /\
    Bars 0 (map XCat PlotExp3.outcome_labels) (PlotExp2.lit (5 # 10)) (map inl [1; 1; 0; 0]) [PlotExp3.BLUE; PlotExp3.PASS_GREEN; c1; c2] "" ∈ f /\
    Forall (eq PlotExp3.PASS_GREEN) (c1 :: c2 :: cs).
Proof.
  destruct (green_means_exactly_once (E := well_desk) 101 three_coordinators well_params (Fin (120 # 1)) (1 # 2) well_store well_lines
    [mkTask "t-1" Settled] "run/history.jsonl" (Some "lincheck"%string) 0 tt []) as (summary & l & f & c1 & c2 & cs & H1 & H2 & H3 & _ & H4).
  - apply well_recorded.
  - done.
  - apply (throttled_serves sample_table well_store).
  - apply well_store_keyed.
  - lia.
  - apply answered; [done|done|done|]. intros h. eexists _, _. split; [reflexivity|]. split; [by apply loads_dumps|done].
  - exists summary, l, f, c1, c2, cs. split; [exact H1|]. split; [exact H2|]. split; [exact H3|]. apply H4. split; [done|].
    intros k ->%list_elem_of_singleton. split; [done|]. split; [vm_compute; reflexivity|]. split; vm_compute; reflexivity.
Defined.
