(* ===== verification/Exp4.v ===== *)
(** * Exp4: snapshot recovery of a follower (chaos-bench/exp4.py)

    The run drives a workload until the leader's commit index, read from its log
    lines, passes a target; it then stops one follower cold and observes its
    recovery.  The workload thread is that of [Exp1] with other parameters. *)

From stdpp Require Import base gmap list strings.
From Stdlib Require Import ZArith QArith.QArith_base Lqa.
From S2P Require Import Prelude PyFloat PyStr PyDict Json Runtime History ObserverConfig BenchConfig LeaderDetect Faults.
From S2P Require Import Submitter Bench Regex LogPages Exp1Analysis Exp1 Recovery.

Local Open Scope Z_scope.
Local Open Scope driftless_scope.

(** ["commit_index"\s*:\s*(\d+)]; the group is the third repetition. *)
Definition RAFT_TICK_RE : list piece :=
  [Lit (char quote ^^ "commit_index" ^^ char quote); Rep true 0 is_space; Lit ":"; Rep true 0 is_space; Rep true 1 is_digit].

Definition commit_index (ev : log_event) : option Z :=
  caps ← search RAFT_TICK_RE (le_message ev); Some (int_group caps 2).

(** The body of the loop over the events; the local variable is [latest]. *)
Definition latest_step (latest : option Z) (ev : log_event) : option Z * bool :=
  match commit_index ev with
  | None => (latest, false)
  | Some ci =>
      (match latest with
       | None => Some ci
       | Some m => if m <? ci then Some ci else latest
       end, false)
  end.

Section exp4.
(** [os.environ.get]. *)
Context (environ : string -> option string).

Definition COORDINATOR_LOG_GROUP : string := getenv environ "COORDINATOR_LOG_GROUP" "/ecs/raft-coordinator-dev/coordinator".

Definition _bench_worker `{Env} {S} (fuel : nat) (params : RunParams) : M S unit :=
  next_submit ← ask CTime;
  while_loop fuel (worker_turn params) next_submit;;
  join_threads;;
  join_threads.

Definition _latest_leader_commit `{Env} {S} (fuel : nat) (leader_node_id : string) (since_ns : Z) : M S (option Z) :=
  let start_ms := Z.max 0 (since_ns / 1000000 - 5000) in
  read_log COORDINATOR_LOG_GROUP start_ms leader_node_id tick_pat latest_step fuel None.

Definition progress_event (leader : string) (ci target : Z) : fields :=
  [("op", JStr "commit_progress"); ("leader", JStr leader); ("commit_index", JInt ci); ("target", JInt target)]%string.

(** One turn of the wait; the local variable is [last_log_ns]. *)
Definition wait_turn `{Env} {S} (fuel : nat) (cfg : BenchConfig) (target : Z) (deadline : float) (last_log_ns : Z)
    : M S (Z + option (string * Z)) :=
  now ← ask CTime;
  if flt now deadline then
    leader ← find_leader cfg;
    match leader with
    | None => sleep (Fin (3 # 1));; mret (inl last_log_ns)
    | Some leader =>
        latest ← _latest_leader_commit fuel (li_node_id leader) 0;
        let ci := default 0 latest in
        ns ← ask CTimeNs;
        last_log_ns ← (if 30 * 1000000000 <? ns - last_log_ns then
                         record (progress_event (li_node_id leader) ci target);; ask CTimeNs
                       else mret last_log_ns);
        if target <=? ci then mret (inr (Some (li_node_id leader, ci)))
        else sleep (Fin (5 # 1));; mret (inl last_log_ns)
    end
  else mret (inr None).

Definition _wait_for_commit `{Env} {S} (fuel : nat) (cfg : BenchConfig) (target : Z) (max_wait_s : float) : M S (string * Z) :=
  now ← ask CTime;
  let deadline := fadd now max_wait_s in
  r ← while_loop fuel (wait_turn fuel cfg target deadline) 0;
  of_option (Exn TimeoutError
    ("commit_index never reached " ^^ str_of_Z target ^^ " within " ^^ repr_float max_wait_s ^^ "s")) r.

Definition _snapshot_s3_object `{Env} {S} (cfg : BenchConfig) (node_id : string) : M S (option (Z * string)) :=
  let default_bucket := "raft-coordinator-dev-raft-snapshots-" ^^ b_account_id cfg in
  let bucket := match environ "SNAPSHOT_S3_BUCKET" with
                | Some b => if truthy b then b else default_bucket
                | None => default_bucket
                end in
  let key := "raft/" ^^ node_id ^^ "/snapshot.json" in
  try_except (resp ← check (ask (CS3Head bucket key)); mret (Some resp)) (fun _ => mret None).

Definition _pick_follower (cfg : BenchConfig) (leader_node_id : string) : option string :=
  List.find (fun s => negb (endswith s leader_node_id)) (coordinator_services cfg).

(** The node of a service: its name's last two parts.  (An earlier assignment of
    the same variable is overwritten.) *)
Definition node_of_service (follower_service : string) : string :=
  let parts := split_on (chr 45) follower_service in
  if (2 <=? length parts)%nat then join "-" (drop (length parts - 2) parts) else follower_service.

Definition exp4_params (rate_per_min duration_s : float) : RunParams :=
  {| rate_per_min := rate_per_min; duration_s := duration_s; payload_bytes := 128; priority := 5;
     poll_interval_s := Fin (1 # 2); completion_timeout_s := Fin (180 # 1) |}.

Definition abort `{Env} {S} {A} (ev : fields) (msg : string) : M S A :=
  record ev;;
  event_set;;
  join_threads;;
  raise (Exn RuntimeError msg).

Definition snapshot_event (node : string) (snap : option (Z * string)) : fields :=
  [("op", JStr "snapshot_before_kill"); ("node", JStr node);
   ("size", match snap with Some (size, _) => JInt size | None => JNull end);
   ("last_modified", match snap with Some (_, at_) => JStr at_ | None => JNull end)]%string.

Definition cold_kill_event (kill : KillResult) (node : string) : fields :=
  [("op", JStr "chaos.kill_follower"); ("service", JStr (kr_service kill)); ("task_arn", JStr (kr_task_arn kill));
   ("killed_ns", JInt (kr_killed_ns kill)); ("follower", JStr node)]%string.

(** [a or b] of a number that may be missing. *)
Definition or_number (a : option Z) (b : Z) : Z :=
  match a with Some z => if z =? 0 then b else z | None => b end.

(** What follows the kill: the recovery, the end of the workload, the summary. *)
Definition after_cold_kill `{Env} {S} (fuel : nat) (cfg : BenchConfig) (run_name leader_id : string) (leader_commit : Z)
    (follower_node_id : string) (snap_before : option (Z * string)) (kill : KillResult) : M S fields :=
  record (cold_kill_event kill follower_node_id);;
  fresh ← _latest_leader_commit fuel leader_id (kr_killed_ns kill);
  let fresh_leader_commit := or_number fresh leader_commit in
  let observer := mkRecovery COORDINATOR_LOG_GROUP follower_node_id (kr_killed_ns kill) fresh_leader_commit 10 in
  timeline ← observe fuel observer (Fin (600 # 1)) (Fin (10 # 1));
  report ← lift (to_dict timeline);
  record (("op", JStr "recovery_timeline") :: report)%string;;
  snap_after ← _snapshot_s3_object cfg follower_node_id;
  let raw_log_bytes := fresh_leader_commit * 220 in
  event_set;;
  join_threads;;
  record [("op", JStr "run_end")]%string;;
  report ← lift (to_dict timeline);
  let size := match snap_after, snap_before with
              | Some (n, _), _ => n
              | None, Some (n, _) => n
              | None, None => 0
              end in
  let summary := [("run_name", JStr run_name); ("leader_node_id", JStr leader_id); ("follower_node_id", JStr follower_node_id);
                  ("leader_commit_at_kill", JInt fresh_leader_commit); ("snapshot_size_bytes", JInt size);
                  ("raw_log_size_bytes_estimate", JInt raw_log_bytes); ("recovery_timeline", JObj report)]%string in
  dump_json (path_join (path_join (history_dir cfg) run_name) "exp4_summary.json") (JObj summary);;
  mret summary.

Definition threshold_event (leader : string) (commit : Z) : fields :=
  [("op", JStr "commit_threshold_reached"); ("leader", JStr leader); ("commit_index", JInt commit)]%string.

Definition run_exp4 `{Env} {S} (fuel : nat) (cfg : BenchConfig) (run_name : string) (duration_s rate_per_min : float)
    (target_commit : Z) : M S fields :=
  record [("op", JStr "run_start"); ("experiment", JStr "exp4"); ("target_commit", JInt target_commit);
          ("rate_per_min", JFloat rate_per_min); ("duration_s", JFloat duration_s)]%string;;
  spawn (JThread "exp4-bench");;
  reached ← _wait_for_commit fuel cfg target_commit duration_s;
  let '(leader_id, leader_commit) := reached in
  record (threshold_event leader_id leader_commit);;
  match _pick_follower cfg leader_id with
  | None => abort [("op", JStr "exp4_abort"); ("reason", JStr "no follower service")]%string "no follower service found"
  | Some follower_service =>
      let follower_node_id := node_of_service follower_service in
      snap_before ← _snapshot_s3_object cfg follower_node_id;
      record (snapshot_event follower_node_id snap_before);;
      kill ← stop_random_task cfg follower_service "exp4: follower cold restart";
      match kill with
      | None =>
          abort [("op", JStr "exp4_abort"); ("reason", JStr "no task to kill"); ("service", JStr follower_service)]%string
            ("no running task for service " ^^ follower_service)
      | Some kill => after_cold_kill fuel cfg run_name leader_id leader_commit follower_node_id snap_before kill
      end
  end.
End exp4.

(** ** Reading the leader's commit index *)

Definition greatest (o : option Z) (l : list Z) : Prop :=
  match o with None => l = [] | Some m => m ∈ l /\ forall x, x ∈ l -> x <= m end.

Lemma greatest_step o l ev :
  greatest o l -> (latest_step o ev).2 = false /\ greatest (latest_step o ev).1 (l ++ omap commit_index [ev]).
Proof.
  unfold latest_step. simpl. destruct (commit_index ev) as [ci|]; [|by rewrite app_nil_r].
  destruct o as [m|]; simpl; intros H; (split; [done|]).
  - destruct H as [Hin Hm]. destruct (Z.ltb_spec m ci); simpl; split; set_unfold.
    + by right; left.
    + intros x [Hx|[->|[]]]; [specialize (Hm x Hx)|]; lia.
    + by left.
    + intros x [Hx|[->|[]]]; [by apply Hm|lia].
  - subst l. simpl. split; set_solver by lia.
Qed.

Lemma greatest_consume o l evs :
  greatest o l -> (consume latest_step o evs).2 = false /\ greatest (consume latest_step o evs).1 (l ++ omap commit_index evs).
Proof.
  revert o l. induction evs as [|ev evs IH]; intros o l H; [by rewrite app_nil_r|].
  destruct (greatest_step o l ev H) as [H1 H2]. cbn [consume]. destruct (latest_step o ev) as [o' stop]. cbn in H1, H2. subst stop.
  destruct (IH o' _ H2) as [H3 H4]. split; [done|]. change (ev :: evs) with ([ev] ++ evs). by rewrite omap_app, app_assoc.
Qed.

(** What a reading of a node's stream found: the whole of it, and its greatest index. *)
Definition read_commit (environ : string -> option string) (node : string) (start_ms : Z) (l : history) (latest : option Z) : Prop :=
  whole (COORDINATOR_LOG_GROUP environ) start_ms node tick_pat l /\
  greatest latest (omap commit_index (delivered tick_pat l)).

Section reading.
Context `{E : Env} {S : Type} (environ : string -> option string) (fuel k : nat).
Context (Hpages : paginated E k) (Hfuel : (k < fuel)%nat).

Lemma latest_commit_run (node : string) (since_ns : Z) (s : S) h :
  exists r l, _latest_leader_commit environ fuel node since_ns s h = (r, s, h ++ l) /\ reads tick_pat l /\
    match r with Ok o => read_commit environ node (Z.max 0 (since_ns / 1000000 - 5000)) l o | Raise _ => True | NoFuel => False end.
Proof using Hpages Hfuel.
  destruct (read_log_whole (COORDINATOR_LOG_GROUP environ) (Z.max 0 (since_ns / 1000000 - 5000)) node tick_pat latest_step
    fuel k None s h Hpages Hfuel) as (r & l & H & Hr & K).
  exists r, l. split; [exact H|]. split; [done|]. destruct r as [o|e|]; [|done..].
  destruct (greatest_consume None [] (delivered tick_pat l) eq_refl) as [G1 G2].
  destruct K as [-> [K|K]]; [|by rewrite G1 in K]. by split.
Qed.
End reading.

Lemma latest_commit_only `{E : Env} {S} environ fuel node since_ns :
  Only no_fault (S := S) (_latest_leader_commit environ fuel node since_ns).
Proof. unfold _latest_leader_commit, read_log, page_turn. only_auto. Qed.

(** ** Waiting for the target *)

(** In the log [l] of a run from [h], the detector answered [info] after [l0]. *)
Definition detects `{E : Env} {S} (cfg : BenchConfig) (s : S) (h l0 lf : history) (info : LeaderInfo) : Prop :=
  find_leader cfg s (h ++ l0) = (Ok (Some info), s, (h ++ l0) ++ lf).

(** The reading that ended the wait: the detector named the node, the whole of that
    node's stream was read then, its greatest index reaches the target, and nothing
    was read since. *)
Definition reached `{E : Env} {S} (environ : string -> option string) (cfg : BenchConfig) (s : S) (h : history)
    (target : Z) (node : string) (ci : Z) (l : history) : Prop :=
  target <= ci /\ exists l0 lf l2 l3 info latest, l = l0 ++ lf ++ l2 ++ l3 /\
    detects cfg s h l0 lf info /\ li_node_id info = node /\
    read_commit environ node 0 l2 latest /\ ci = default 0 latest /\ delivered tick_pat l3 = [].

Lemma find_leader_run `{E : Env} {S} cfg (s : S) h :
  exists r l, find_leader cfg s h = (r, s, h ++ l) /\ r <> NoFuel.
Proof.
  destruct (find_leader_only (S := S) cfg s h) as (r & l & H & _). exists r, l. split; [done|].
  pose proof (find_leader_total (S := S) cfg s h) as Ht. by rewrite H in Ht.
Qed.

Definition wait_outcome {S} (E : Env) (environ : string -> option string) (cfg : BenchConfig) (target : Z)
    (deadline : float) (s : S) (h : history) : post (S := S) (Z + option (string * Z)) :=
  fun r s' h' => s' = s /\ exists l, h' = h ++ l /\
    match r with
    | Ok (inl _) => flt (time_clock E h) deadline = true /\ (1 <= pauses 3 l)%nat
    | Ok (inr (Some (node, ci))) => reached environ cfg s h target node ci l
    | Ok (inr None) => True
    | Raise _ => True
    | NoFuel => False
    end.

(** The end of a turn that found a leader. *)
Lemma wait_rest_run `{E : Env} {S} environ cfg (target : Z) deadline info ci last (s : S) h0 l0 lf l2 latest :
  flt (time_clock E h0) deadline = true -> detects cfg s h0 l0 lf info ->
  read_commit environ (li_node_id info) 0 l2 latest -> ci = default 0 latest ->
  wp (ns ← ask CTimeNs;
      last_log_ns ← (if 30 * 1000000000 <? ns - last then record (progress_event (li_node_id info) ci target);; ask CTimeNs else mret last);
      if target <=? ci then mret (inr (Some (li_node_id info, ci))) else sleep (Fin (5 # 1));; mret (inl last_log_ns))
    (wait_outcome E environ cfg target deadline s h0) s (h0 ++ l0 ++ lf ++ l2).
Proof.
  intros Hf Hd Hr Hci. wp_steps. set (h1 := (h0 ++ l0 ++ lf ++ l2) ++ _).
  assert (Hlast : wp (if 30 * 1000000000 <? answer (h0 ++ l0 ++ lf ++ l2) CTimeNs - last
                      then record (progress_event (li_node_id info) ci target);; ask CTimeNs else mret last)
    (fun r s' h' => s' = s /\ exists v l3, r = Ok v /\ h' = h0 ++ l0 ++ lf ++ l2 ++ l3 /\ delivered tick_pat l3 = []) s h1).
  { destruct (_ <? _); wp_steps.
    - unfold wp at 1. rewrite record_run. wp_steps. split; [done|]. eexists _, _. split; [done|].
      subst h1. split; [by rewrite <- !app_assoc|done].
    - split; [done|]. eexists _, _. split; [done|]. subst h1. split; [by rewrite <- !app_assoc|done]. }
  eapply wp_mono; [|exact Hlast]. intros r s' h' (-> & v & l3 & -> & -> & Hl3). wp_steps.
  destruct (Z.leb_spec target ci) as [Ht|Ht]; wp_steps.
  - split; [done|]. exists (l0 ++ lf ++ l2 ++ l3). split; [done|]. split; [done|]. by exists l0, lf, l2, l3, info, latest.
  - split; [done|]. eexists. split; [by rewrite <- !app_assoc|]. split; [done|].
    unfold pauses. rewrite !count_app. unfold count at 5. simpl. lia.
Qed.

Lemma wait_turn_run `{E : Env} {S} environ fuel k cfg target deadline last (s : S) h :
  paginated E k -> (k < fuel)%nat ->
  wp (wait_turn environ fuel cfg target deadline last) (wait_outcome E environ cfg target deadline s h) s h.
Proof.
  intros Hp Hk. unfold wait_turn. wp_steps. fold (time_clock E h). destruct (flt (time_clock E h) deadline) eqn:Hf; wp_steps.
  2: { split; [done|]. by eexists. }
  destruct (find_leader_run cfg s (h ++ [Ev CTime (time_clock E h)])) as (r & l & H & Hn). unfold wp at 1. rewrite H.
  destruct r as [[info|]|e|]; [| | |done]; wp_steps.
  - destruct (latest_commit_run environ fuel k Hp Hk (li_node_id info) 0 s ((h ++ [Ev CTime (time_clock E h)]) ++ l))
      as (r & l2 & H2 & _ & K). unfold wp at 1. rewrite H2. rewrite <- !app_assoc.
    destruct r as [latest|e|]; [|wp_steps; split; [done|by eexists]|done]. wp_step.
    by apply (wait_rest_run environ cfg target deadline info _ last s h [Ev CTime (time_clock E h)] l l2 latest).
  - split; [done|]. eexists. split; [by rewrite <- !app_assoc|]. split; [done|].
    unfold pauses. rewrite !count_app. unfold count at 3. simpl. lia.
  - split; [done|]. eexists. split; [by rewrite <- !app_assoc|]. done.
Qed.

(** The node a wait returns is one the detector named, whether or not the services
    let the wait end. *)
Definition found `{E : Env} {S} (cfg : BenchConfig) (s : S) (h l : history) (node : string) : Prop :=
  exists l0 lf l1 info, l = l0 ++ lf ++ l1 /\ detects cfg s h l0 lf info /\ li_node_id info = node.

Lemma found_app `{E : Env} {S} cfg (s : S) h l l' node : found cfg s h l node -> found cfg s h (l ++ l') node.
Proof. intros (l0 & lf & l1 & info & -> & H). exists l0, lf, (l1 ++ l'), info. by rewrite <- !app_assoc. Qed.

Lemma wait_turn_found `{E : Env} {S} environ fuel cfg target deadline last (s : S) h l :
  wp (wait_turn environ fuel cfg target deadline last) (fun r s' h' => s' = s /\ exists l', h' = h ++ l' /\
    match r with Ok (inr (Some (node, _))) => found cfg s h l' node | _ => True end) s (h ++ l).
Proof.
  unfold wait_turn. wp_steps. destruct (flt _ deadline); wp_steps.
  2: { split; [done|]. eexists. split; [by rewrite <- !app_assoc|done]. }
  rewrite <- app_assoc. set (l0 := l ++ [Ev CTime _]).
  destruct (find_leader_run cfg s (h ++ l0)) as (r & lf & H & Hn). unfold wp at 1. rewrite H.
  destruct r as [[info|]|e|]; [| | |done]; wp_steps.
  2, 3: split; [done|]; eexists; split; [by rewrite <- !app_assoc|done].
  destruct (latest_commit_only (S := S) environ fuel (li_node_id info) 0 s ((h ++ l0) ++ lf)) as (r & l2 & H2 & _).
  unfold wp at 1. rewrite H2. destruct r as [latest|e|]; wp_steps.
  2, 3: split; [done|]; eexists; split; [by rewrite <- !app_assoc|done].
  set (h1 := (((h ++ l0) ++ lf) ++ l2) ++ _).
  assert (Hlast : wp (if 30 * 1000000000 <? answer (((h ++ l0) ++ lf) ++ l2) CTimeNs - last
                      then record (progress_event (li_node_id info) (default 0 latest) target);; ask CTimeNs else mret last)
    (fun r s' h' => s' = s /\ exists v l3, r = Ok v /\ h' = h ++ l0 ++ lf ++ l3) s h1).
  { subst h1. destruct (_ <? _); wp_steps.
    - unfold wp at 1. rewrite record_run. wp_steps. split; [done|]. eexists _, _. split; [done|]. by rewrite <- !app_assoc.
    - split; [done|]. eexists _, _. split; [done|]. by rewrite <- !app_assoc. }
  eapply wp_mono; [|exact Hlast]. intros r s' h' (-> & v & l3 & -> & ->). wp_steps.
  destruct (target <=? _); wp_steps; (split; [done|]); eexists; (split; [by rewrite <- ?app_assoc|]); [|done].
  by exists l0, lf, l3, info.
Qed.

Lemma wait_found `{E : Env} {S} environ fuel cfg target t (s : S) h :
  wp (_wait_for_commit environ fuel cfg target t) (fun r s' h' => s' = s /\ exists l, h' = h ++ l /\
    match r with Ok (node, _) => found cfg s h l node | _ => True end) s h.
Proof.
  unfold _wait_for_commit. wp_steps.
  apply (wp_while_inv fuel _ (fun _ s' h' => s' = s /\ exists l, h' = h ++ l)).
  - intros last s1 h1 [-> (l & ->)]. eapply wp_mono; [|apply wait_turn_found].
    intros r s' h' (-> & l' & -> & K). destruct r as [[last'|[[node ci]|]]|e|]; cbn; unfold of_option; wp_steps;
      (split; [done|]); by exists l'.
  - intros last s1 h1 [-> (l & ->)]. cbn. split; [done|]. by eexists.
  - split; [done|]. by eexists.
Qed.

(** ** Properties *)

(** C22: the workload reaches its target, or the wait gives up.  With a clock that
    moves on while the wait sleeps and a log in finitely many pages, the wait
    ends; when it returns, the node it names is the leader the detector answered
    last, the commit index reaches the target and is the greatest one in the tick
    lines of that node's stream, read from the first page to the last. *)
Theorem wait_for_commit_spec `{E : Env} {S} (environ : string -> option string) (fuel n k : nat) (cfg : BenchConfig)
    (target : Z) (t : Q) (s : S) (h : history) :
  steady (time_clock E) -> reading_ok (time_clock E h) -> wait_ok t 3 n -> paginated E k -> (n < fuel)%nat -> (k < fuel)%nat ->
  exists r l, _wait_for_commit environ fuel cfg target (Fin t) s h = (r, s, h ++ l) /\
    match r with Ok (node, ci) => reached environ cfg s h target node ci l | Raise _ => True | NoFuel => False end.
Proof.
  intros Hs (p & Hp & Hp0 & Hp1) Hw Hpages Hn Hk.
  apply (run_of_wp _ (fun r l => match r with Ok (node, ci) => reached environ cfg s h target node ci l | Raise _ => True | NoFuel => False end)).
  unfold _wait_for_commit. wp_steps. fold (time_clock E h). rewrite Hp.
  eapply (wp_poll_loop_at _ (fun _ _ => True) _ fuel n h p t 3 s Hs Hp Hp0 Hp1 Hw Hn); [|done|done].
  intros last l _. eapply wp_mono; [|by apply (wait_turn_run environ fuel k)].
  intros r s' h' (-> & l' & -> & K). destruct r as [[last'|[[node ci]|]]|e|]; [| | | |done].
  - destruct K as [Hf Hone]. split; [done|]. split; [done|]. exists l'. by rewrite app_assoc.
  - cbn. unfold of_option. wp_steps. kept. destruct K as (Ht & l0 & lf & l2 & l3 & info & latest & -> & Hd & K).
    split; [done|]. exists (l ++ l0), lf, l2, l3, info, latest. split; [by rewrite !app_assoc|]. split; [|exact K].
    unfold detects in *. by rewrite app_assoc.
  - cbn. unfold of_option. wp_steps. by kept.
  - by kept.
Qed.

(** ** One task is stopped *)

(** A history grown from [h0] without faults. *)
Definition calm (h0 h : history) : Prop := exists l, h = h0 ++ l /\ forallb (fun e => no_fault (ev_call e)) l = true.

Lemma calm_refl h : calm h h.
Proof. exists []. by rewrite app_nil_r. Qed.

Lemma wp_calm {S A B} `{E : Env} (m : M S A) (f : A -> M S B) (Q : post B) (s : S) h0 h :
  Only no_fault m -> calm h0 h ->
  (forall r h', calm h0 h' -> (forall b, r <> Ok b) -> Q r s h') ->
  (forall a h', calm h0 h' -> wp (f a) Q s h') ->
  wp (m ≫= f) Q s h.
Proof.
  intros Hm (l & -> & Hl) Hbad Hok. wp_steps. destruct (Hm s (h0 ++ l)) as (r & l' & H & Hl'). unfold wp. rewrite H.
  assert (C : calm h0 ((h0 ++ l) ++ l')) by (exists (l ++ l'); by rewrite app_assoc, forallb_app, Hl, Hl').
  destruct r as [a|e|]; cbn; [by apply Hok|by apply Hbad..].
Qed.

Lemma record_only `{E : Env} {S} ev : Only no_fault (S := S) (record ev).
Proof. unfold record. only_auto. Qed.

Lemma wait_for_commit_only `{E : Env} {S} environ fuel cfg target t :
  Only no_fault (S := S) (_wait_for_commit environ fuel cfg target t).
Proof.
  unfold _wait_for_commit. only_auto. unfold wait_turn. only_auto.
  - eapply only_weaken, poll_rows_only. by intros [].
  - unfold page_turn. only_auto.
Qed.

Lemma observe_only `{E : Env} {S} fuel self t d : Only no_fault (S := S) (observe fuel self t d).
Proof. unfold observe, observe_turn, _filter_events, read_log, page_turn. only_auto. Qed.

Lemma snapshot_only `{E : Env} {S} environ cfg node : Only no_fault (S := S) (_snapshot_s3_object environ cfg node).
Proof. unfold _snapshot_s3_object. only_auto. Qed.

(** A step without faults. *)
Ltac calm_step :=
  cbv beta zeta; eapply wp_calm;
  [ first [ apply record_only | apply only_lift | apply latest_commit_only | apply observe_only
          | apply wait_for_commit_only | apply snapshot_only | only_auto ]
  | first [ eassumption | apply calm_refl ] | eassumption | ].

(** What follows the kill stops nothing; it records the kill and names the nodes. *)
Lemma after_cold_kill_run `{E : Env} {S} environ fuel cfg run_name leader commit node snap kill (s : S) h :
  exists r l, after_cold_kill environ fuel cfg run_name leader commit node snap kill s h = (r, s, h ++ l) /\
    forallb (fun e => no_fault (ev_call e)) l = true /\
    match r with
    | Ok summary => field summary "leader_node_id" = JStr leader /\ field summary "follower_node_id" = JStr node /\
        exists wall, line_text (stamped (cold_kill_event kill node) wall) ∈ texts l
    | _ => True
    end.
Proof.
  apply (run_of_wp _ (fun r l => forallb (fun e => no_fault (ev_call e)) l = true /\ match r with
    | Ok summary => field summary "leader_node_id" = JStr leader /\ field summary "follower_node_id" = JStr node /\
        exists wall, line_text (stamped (cold_kill_event kill node) wall) ∈ texts l
    | _ => True end)).
  unfold after_cold_kill. wp_steps. unfold wp. rewrite record_run. wp_step.
  set (wall := answer h CTimeNs). set (lr := [_; _]).
  assert (Hend : forall r h', calm (h ++ lr) h' ->
    match r with Ok d => field d "leader_node_id" = JStr leader /\ field d "follower_node_id" = JStr node | _ => True end ->
    s = s /\ exists l, h' = h ++ l /\ forallb (fun e => no_fault (ev_call e)) l = true /\ match r with
    | Ok d => field d "leader_node_id" = JStr leader /\ field d "follower_node_id" = JStr node /\
        exists wall, line_text (stamped (cold_kill_event kill node) wall) ∈ texts l
    | _ => True end).
  { intros r h' (l & -> & Hl) Hr. split; [done|]. exists (lr ++ l). rewrite app_assoc, forallb_app, Hl. split; [done|]. split; [done|].
    destruct r as [d|e|]; [|done..]. split; [apply Hr|]. split; [apply Hr|]. exists wall. rewrite texts_app. set_unfold. by left. }
  assert (Hbad : forall (r : res fields) h', calm (h ++ lr) h' -> (forall b, r <> Ok b) ->
    s = s /\ exists l, h' = h ++ l /\ forallb (fun e => no_fault (ev_call e)) l = true /\ match r with
    | Ok d => field d "leader_node_id" = JStr leader /\ field d "follower_node_id" = JStr node /\
        exists wall, line_text (stamped (cold_kill_event kill node) wall) ∈ texts l
    | _ => True end).
  { intros r h' Hc Hr. apply Hend; [done|]. destruct r as [d|e|]; [|done..]. by destruct (Hr d). }
  calm_step. intros fresh h1 C1.
  calm_step. intros tl h2 C2.
  calm_step. intros report h3 C3.
  calm_step. intros _ h4 C4.
  calm_step. intros after h5 C5.
  calm_step. intros _ h6 C6.
  calm_step. intros _ h7 C7.
  calm_step. intros _ h8 C8.
  calm_step. intros report' h9 C9.
  calm_step. intros _ h10 C10.
  apply wp_ret. refine (Hend (Ok _) _ C10 _). done.
Qed.

(** The leader a run from [h] spares: the detector named it, and the history says
    that it passed the target. *)
Definition spared `{E : Env} {S} (cfg : BenchConfig) (s : S) (h l : history) (leader : string) : Prop :=
  found cfg s h l leader /\
  exists commit wall, line_text (stamped (threshold_event leader commit) wall) ∈ texts l.

Lemma spared_app `{E : Env} {S} cfg (s : S) h l l' leader : spared cfg s h l leader -> spared cfg s h (l ++ l') leader.
Proof.
  intros [H (c & w & K)]. split; [by apply found_app|]. exists c, w. rewrite texts_app. set_solver.
Qed.

(** One task stopped, of a coordinator service that is not the leader's. *)
Definition hit `{E : Env} {S} (cfg : BenchConfig) (s : S) (h : history) (leader svc task : string) (l : history) : Prop :=
  spared cfg s h l leader /\ svc ∈ coordinator_services cfg /\ endswith svc leader = false /\ stopped None l = [(svc, task, true)].

(** What a run leaves. *)
Definition cold_outcome `{E : Env} {S} (cfg : BenchConfig) (s : S) (h : history) (r : res fields) (l : history) : Prop :=
  match r with
  | Ok summary => exists leader svc task killed_ns wall, hit cfg s h leader svc task l /\
      field summary "leader_node_id" = JStr leader /\ field summary "follower_node_id" = JStr (node_of_service svc) /\
      line_text (stamped (cold_kill_event {| kr_service := svc; kr_task_arn := task; kr_killed_ns := killed_ns |}
                            (node_of_service svc)) wall) ∈ texts l
  | _ => stopped None l = [] \/ exists leader svc task, hit cfg s h leader svc task l
  end.

Lemma cold_failed `{E : Env} {S} cfg (s : S) h (r : res fields) l : stopped None l = [] -> (forall d, r <> Ok d) -> cold_outcome cfg s h r l.
Proof. intros H Hr. destruct r as [d|e|]; [by destruct (Hr d)|by left..]. Qed.

(** The kill and what follows it. *)
Lemma cold_kill_run `{E : Env} {S} environ fuel cfg run_name leader commit svc snap (s : S) h0 l0 :
  svc ∈ coordinator_services cfg -> endswith svc leader = false -> forallb (fun e => no_fault (ev_call e)) l0 = true ->
  spared cfg s h0 l0 leader ->
  wp (kill ← stop_random_task cfg svc "exp4: follower cold restart";
      match kill with
      | None =>
          abort [("op", JStr "exp4_abort"); ("reason", JStr "no task to kill"); ("service", JStr svc)]%string
            ("no running task for service " ^^ svc)
      | Some kill => after_cold_kill environ fuel cfg run_name leader commit (node_of_service svc) snap kill
      end) (fun r s' h' => s' = s /\ exists l, h' = h0 ++ l /\ cold_outcome cfg s h0 r l) s (h0 ++ l0).
Proof.
  intros Hin Hne Hl0 Hsp. apply wp_bind.
  destruct (stop_random_task_run cfg svc "exp4: follower cold restart" s (h0 ++ l0)) as (r & lk & H & K & Gk).
  unfold wp at 1. rewrite H. destruct (no_fault_guarded l0 Hl0) as [G0 N0]. destruct (guarded_app l0 lk G0 Gk) as [G1 E1].
  rewrite N0 in E1. cbn [app] in E1. rewrite <- app_assoc.
  destruct r as [[kill|]|e|]; cbn [one_kill next] in *; [| | |done].
  - destruct K as [Hs K]. destruct (after_cold_kill_run environ fuel cfg run_name leader commit (node_of_service svc) snap kill s (h0 ++ l0 ++ lk))
      as (r & l & Hr & Hl & Kr). unfold wp. rewrite Hr. split; [done|]. eexists. rewrite <- !app_assoc. split; [done|].
    assert (Hhit : hit cfg s h0 leader svc (kr_task_arn kill) (l0 ++ lk ++ l)).
    { split; [by apply spared_app|]. split; [done|]. split; [done|]. destruct (no_fault_guarded l Hl) as [Gl Nl].
      rewrite app_assoc. destruct (guarded_app _ _ G1 Gl) as [_ ->]. by rewrite E1, K, Nl, app_nil_r. }
    destruct r as [d|e|]; [|right; by exists leader, svc, (kr_task_arn kill)..].
    destruct Kr as (F1 & F2 & wall & Hw). exists leader, svc, (kr_task_arn kill), (kr_killed_ns kill), wall.
    split; [done|]. split; [done|]. split; [done|]. rewrite !texts_app. subst svc. destruct kill. set_solver.
  - unfold abort. wp_steps. unfold wp. rewrite record_run. wp_steps. split; [done|]. eexists. rewrite <- !app_assoc. split; [done|].
    apply cold_failed; [|done]. rewrite app_assoc.
    edestruct (guarded_app (l0 ++ lk)) as [_ ->]; [done|by apply no_fault_guarded|]. by rewrite E1, K.
  - split; [done|]. exists (l0 ++ lk). split; [done|]. destruct K as (ts & K & Hn & Ht). unfold cold_outcome. rewrite E1, K.
    destruct ts as [|[[sv task] b] [|]]; [by left| |simpl in Hn; lia]. right. destruct (Ht (sv, task, b)) as [Hsv Hb]; [by left|].
    cbn in Hsv, Hb. subst sv b. exists leader, svc, task. split; [by apply spared_app|]. split; [done|]. split; [done|]. by rewrite E1, K.
Qed.

(** C15: one cold kill.  A run of the experiment stops at most one task, of a
    coordinator service that is not the leader's, whether the run returns or
    raises: the leader is a node the detector answered in the run, and the one the
    history says passed the target.  If the run returns a summary, it stopped
    exactly one task, its kill is on record, and the summary names the leader and
    the stopped node. *)
Theorem one_cold_kill `{E : Env} {S} (environ : string -> option string) (fuel : nat) (cfg : BenchConfig) (run_name : string)
    (duration_s rate_per_min : float) (target_commit : Z) (s : S) (h : history) :
  exists r l, run_exp4 environ fuel cfg run_name duration_s rate_per_min target_commit s h = (r, s, h ++ l) /\
    cold_outcome cfg s h r l.
Proof.
  apply (run_of_wp _ (cold_outcome cfg s h)). set (Q := fun r s' h' => s' = s /\ exists l, h' = h ++ l /\ cold_outcome cfg s h r l).
  assert (Hbad : forall r h', calm h h' -> (forall b, r <> Ok b) -> Q r s h').
  { intros r h' (l & -> & Hl) Hr. split; [done|]. exists l. split; [done|]. apply cold_failed; [|done]. by apply no_fault_guarded. }
  unfold run_exp4. calm_step. intros _ h1 C1.
  calm_step. intros _ h2 (l2 & -> & Hl2). apply wp_bind.
  destruct (wait_for_commit_only (S := S) environ fuel cfg target_commit duration_s s (h ++ l2)) as (r & l3 & H3 & Hl3).
  pose proof (wait_found environ fuel cfg target_commit duration_s s (h ++ l2)) as W. unfold wp in W |- * at 1. rewrite H3 in *.
  destruct W as (_ & l3' & <-%app_inv_head & W).
  assert (C3 : calm h ((h ++ l2) ++ l3)) by (exists (l2 ++ l3); by rewrite app_assoc, forallb_app, Hl2, Hl3).
  destruct r as [[leader commit]|e|]; cbn [next]; [|by apply Hbad..].
  cbv beta iota. apply wp_bind. unfold wp at 1. rewrite record_run. wp_step. set (lr := [Ev CTimeNs _; _]).
  assert (Hsp : spared cfg s h ((l2 ++ l3) ++ lr) leader).
  { split.
    - apply found_app. destruct W as (l0 & lf & l1 & info & -> & Hd & Hi). exists (l2 ++ l0), lf, l1, info.
      split; [by rewrite <- !app_assoc|]. split; [|done]. unfold detects in *. by rewrite app_assoc.
    - exists commit, (answer ((h ++ l2) ++ l3) CTimeNs). rewrite texts_app. apply elem_of_app. right. by left. }
  assert (C4 : calm h (((h ++ l2) ++ l3) ++ lr)) by (destruct C3 as (l & -> & Hl); exists (l ++ lr); by rewrite app_assoc, forallb_app, Hl).
  assert (Hgrow : forall h', calm (((h ++ l2) ++ l3) ++ lr) h' -> calm h h').
  { intros h' (l & -> & Hl). destruct C4 as (l' & -> & Hl'). exists (l' ++ l). by rewrite app_assoc, forallb_app, Hl', Hl. }
  destruct (_pick_follower cfg leader) as [svc|] eqn:Ep.
  - apply find_some in Ep as [Hin%list_elem_of_In Hne%negb_true_iff].
    eapply wp_calm; [apply snapshot_only|apply calm_refl|by auto|]. intros snap h5 C5.
    eapply wp_calm; [apply record_only|exact C5|by auto|]. intros _ h6 (l & -> & Hl).
    replace ((((h ++ l2) ++ l3) ++ lr) ++ l) with (h ++ (((l2 ++ l3) ++ lr) ++ l)) by by rewrite !app_assoc.
    apply cold_kill_run; [done|done| |by apply spared_app].
    rewrite !forallb_app, Hl2, Hl3, Hl. done.
  - unfold abort. calm_step. intros _ h5 C5.
    calm_step. intros _ h6 C6.
    calm_step. intros _ h7 C7. apply wp_raise. by apply Hbad.
Qed.

(** ** Naming the follower *)

Lemma split_on_two (c : Ascii.ascii) (s r : string) : split_on c (s ^^ String c r) = split_on c s ++ split_on c r.
Proof.
  induction s as [|a s IH]; [rewrite append_nil_l; cbn; by rewrite Ascii.eqb_refl|]. rewrite append_cons. cbn [split_on].
  destruct (Ascii.eqb a c); [by rewrite IH|]. rewrite IH. destruct (split_on c s) as [|w ws] eqn:Es; [|done].
  by destruct s as [|b s]; cbn in Es; [|destruct (Ascii.eqb b c); [|destruct (split_on c s)]].
Qed.

(** Services are named after their node: any prefix, then the two parts of its id. *)
Definition named (svc : string) : Prop :=
  exists pre a b, svc = pre ^^ "-" ^^ a ^^ "-" ^^ b /\ no_char (chr 45) a = true /\ no_char (chr 45) b = true.

Lemma node_of_named svc : named svc -> exists pre, svc = pre ^^ "-" ^^ node_of_service svc.
Proof.
  intros (pre & a & b & -> & Ha & Hb). exists pre. f_equal. f_equal. unfold node_of_service.
  change ("-" ^^ a ^^ "-" ^^ b) with (String (chr 45) (a ^^ String (chr 45) b)).
  rewrite split_on_two, split_on_app, (split_on_free _ b) by done. rewrite length_app. cbn [length].
  replace (2 <=? length (split_on (chr 45) pre) + 2)%nat with true by (symmetry; apply Nat.leb_le; lia).
  rewrite Nat.add_sub, drop_app_length. done.
Qed.

Lemma substring_all s : String.substring 0 (String.length s) s = s.
Proof. induction s as [|c s IH]; [done|]. cbn. by rewrite IH. Qed.

Lemma endswith_app p t : endswith (p ^^ t) t = true.
Proof.
  unfold endswith. rewrite length_append. apply andb_true_iff. split; [apply Nat.leb_le; lia|].
  replace (String.length p + String.length t - String.length t)%nat with (String.length p) by lia. apply String.eqb_eq.
  induction p as [|c p IH]; [rewrite append_nil_l; apply substring_all|]. rewrite append_cons. exact IH.
Qed.

(** The victim is a follower.  When services are named after their nodes, the
    service picked for the cold kill belongs to a node other than the leader, the
    node id derived from its name is that of the service, and none is picked
    only when every service is the leader's. *)
Theorem follower_identified (cfg : BenchConfig) (leader : string) :
  (forall svc, svc ∈ coordinator_services cfg -> named svc) ->
  match _pick_follower cfg leader with
  | Some svc => svc ∈ coordinator_services cfg /\ node_of_service svc <> leader /\
      exists pre, svc = pre ^^ "-" ^^ node_of_service svc
  | None => forall svc, svc ∈ coordinator_services cfg -> endswith svc leader = true
  end.
Proof.
  intros Hn. destruct (_pick_follower cfg leader) as [svc|] eqn:Ep.
  - apply find_some in Ep as [Hin%list_elem_of_In Hne%negb_true_iff]. destruct (node_of_named svc (Hn svc Hin)) as [pre Hpre].
    split; [done|]. split; [|by exists pre]. intros <-. rewrite Hpre in Hne at 1. change ("-" ^^ node_of_service svc) with (char (chr 45) ^^ node_of_service svc) in Hne.
    rewrite <- append_assoc in Hne. by rewrite endswith_app in Hne.
  - intros svc Hin%list_elem_of_In. pose proof (find_none _ _ Ep svc Hin) as H. by apply negb_false_iff in H.
Qed.

Lemma follower_identified_witness :
  match _pick_follower three_coordinators "coordinator-a" with
  | Some svc => svc ∈ coordinator_services three_coordinators /\ node_of_service svc <> "coordinator-a"%string /\
      exists pre, svc = pre ^^ "-" ^^ node_of_service svc
  | None => forall svc, svc ∈ coordinator_services three_coordinators -> endswith svc "coordinator-a" = true
  end.
Proof.
  apply (follower_identified three_coordinators "coordinator-a"). rewrite three_services.
  intros svc H. repeat (apply elem_of_cons in H as [->|H]); [..|inv H].
  - by exists "dev"%string, "coordinator"%string, "a"%string.
  - by exists "dev"%string, "coordinator"%string, "b"%string.
  - by exists "dev"%string, "coordinator"%string, "c"%string.
Defined.

Example picked : _pick_follower three_coordinators "coordinator-a" = Some "dev-coordinator-b"%string.
Proof. by vm_compute. Qed.

(** A cluster whose table flags coordinator c, and whose log shows ticks in JSON. *)
Definition flagged_env (tick : string) : Env := fun h c =>
  match c as c' return resp c' with
  | CDdbScan _ => inr [{[ "node_id"%string := AS "coordinator-c"; "http_addr"%string := AS "10.0.0.3:8080";
                          "is_leader"%string := ABOOL true ]}]
  | c' => answer (Env := logging_env tick) h c'
  end.

Lemma wait_for_commit_spec_witness :
  exists r l, _wait_for_commit (H := flagged_env json_tick) (fun _ => None) 400 three_coordinators 800 (Fin (300 # 1)) tt [] = (r, tt, l) /\
    match r with
    | Ok (node, ci) => reached (E := flagged_env json_tick) (fun _ => None) three_coordinators tt [] 800 node ci l
    | Raise _ => True
    | NoFuel => False
    end.
Proof.
  apply (wait_for_commit_spec (E := flagged_env json_tick) (fun _ => None) 400 201 1 three_coordinators 800 (300 # 1) tt []).
  - apply pausing_steady.
  - exists (1000 + 0)%Q. split; [reflexivity|]. split; apply Qle_bool_iff; reflexivity.
  - repeat split; apply Qle_bool_iff; reflexivity.
  - exists (fun _ => O). intros h g t p f [tok|]; cbn; [done|lia].
  - lia.
  - lia.
Defined.

Example target_reached :
  exists l, _wait_for_commit (H := flagged_env json_tick) (fun _ => None) 400 three_coordinators 800 (Fin (300 # 1)) tt [] =
    (Ok ("coordinator-c"%string, 805), tt, l).
Proof. eexists. vm_compute. reflexivity. Qed.
