(* ===== verification/IsoTime.v ===== *)
(** * IsoTime: Python's [datetime.fromisoformat]

    The collector reads RFC 3339 stamps with [datetime.fromisoformat] of CPython
    3.11, which accepts calendar and week dates, with or without separators, a
    time, and an offset.  A [datetime] is its local reading in microseconds since
    the first day of year 1 and, when it is aware, its offset from UTC.  The texts
    of the [ValueError]s are not modelled. *)

From stdpp Require Import base list strings.
From Stdlib Require Import Ascii ZArith.
From S2P Require Import Prelude PyStr Json Runtime.

Local Open Scope Z_scope.
Local Open Scope driftless_scope.

(** ** Slices *)

(** [s[:n]] and [s[n:]]. *)
Fixpoint str_take (n : nat) (s : string) : string :=
  match n, s with S n', String c s' => String c (str_take n' s') | _, _ => EmptyString end.
Fixpoint str_drop (n : nat) (s : string) : string :=
  match n, s with S n', String _ s' => str_drop n' s' | _, _ => s end.

Fixpoint all_digits (s : string) : bool :=
  match s with String c s' => is_digit c && all_digits s' | EmptyString => true end.

(** A number of ASCII digits. *)
Fixpoint digits_acc (acc : Z) (s : string) : Z :=
  match s with String c s' => digits_acc (10 * acc + (Z.of_N (ord c) - 48)) s' | EmptyString => acc end.
Definition digits_Z (s : string) : option Z := if truthy s && all_digits s then Some (digits_acc 0 s) else None.

Definition char_at (n : nat) (s : string) (c : Ascii.ascii) : bool :=
  match String.get n s with Some a => Ascii.eqb a c | None => false end.

(** ** The calendar *)

Definition is_leap (y : Z) : bool := (y mod 4 =? 0) && (negb (y mod 100 =? 0) || (y mod 400 =? 0)).

Definition days_in_month (y m : Z) : Z :=
  if m =? 2 then (if is_leap y then 29 else 28)
  else if (m =? 4) || (m =? 6) || (m =? 9) || (m =? 11) then 30 else 31.

Definition days_before_year (y : Z) : Z := let p := y - 1 in p * 365 + p / 4 - p / 100 + p / 400.

Definition days_before_month (y m : Z) : Z :=
  foldr (fun i n => days_in_month y (Z.of_nat i) + n) 0 (seq 1 (Z.to_nat (m - 1))).

(** The ordinal of a date; 1 is the first of January of year 1. *)
Definition ymd2ord (y m d : Z) : Z := days_before_year y + days_before_month y m + d.

Definition date_ord (y m d : Z) : option Z :=
  if (1 <=? y) && (y <=? 9999) && (1 <=? m) && (m <=? 12) && (1 <=? d) && (d <=? days_in_month y m)
  then Some (ymd2ord y m d) else None.

(** The ordinal of a day of an ISO week. *)
Definition isoweek_ord (y w d : Z) : option Z :=
  let first := ymd2ord y 1 1 in
  let long_year := (first mod 7 =? 4) || ((first mod 7 =? 3) && is_leap y) in
  let week_ok := ((0 <? w) && (w <? 53)) || ((w =? 53) && long_year) in
  if (1 <=? y) && (y <=? 9999) && week_ok && (0 <? d) && (d <? 8) then
    let weekday := (first + 6) mod 7 in
    let monday := first - weekday + (if 3 <? weekday then 7 else 0) in
    let o := monday + (w - 1) * 7 + (d - 1) in
    if (1 <=? o) && (o <=? 3652059) then Some o else None
  else None.

(** ** Parsing *)

(** Where the date ends. *)
Definition find_separator (s : string) : option nat :=
  let len := String.length s in
  let digit_at n := match String.get n s with Some a => is_digit a | None => false end in
  if (len =? 7)%nat then Some 7%nat
  else if char_at 4 s "-"%char then
    if char_at 5 s "W"%char then
      if (len <? 8)%nat then None
      else if (8 <? len)%nat && char_at 8 s "-"%char then
        if (len =? 9)%nat then None
        else if (10 <? len)%nat && digit_at 10%nat then Some 8%nat else Some 10%nat
      else Some 8%nat
    else Some 10%nat
  else if char_at 4 s "W"%char then
    let fix digits_end (n : nat) (r : string) : nat :=
      match r with String a r' => if is_digit a then digits_end (S n) r' else n | EmptyString => n end in
    let idx := digits_end 7%nat (str_drop 7 s) in
    if (idx <? 9)%nat then Some idx else if Nat.even idx then Some 7%nat else Some 8%nat
  else Some 8%nat.

(** Exactly [n] digits, and the text behind them. *)
Definition parse_digits (n : nat) (s : string) : option (Z * string) :=
  if (n <=? String.length s)%nat then v ← digits_Z (str_take n s); Some (v, str_drop n s) else None.

Definition skip_char (c : Ascii.ascii) (s : string) : option string :=
  match s with String a s' => if Ascii.eqb a c then Some s' else None | EmptyString => None end.

(** The date, [len] characters long. *)
Definition parse_isoformat_date (len : nat) (s : string) : option Z :=
  r ← parse_digits 4 s;
  let '(year, s) := r in
  let uses_separator := char_at 0 s "-"%char in
  let dash (s : string) := if uses_separator then skip_char "-"%char s else Some s in
  s ← dash s;
  match skip_char "W"%char s with
  | Some s =>
      r ← parse_digits 2 s;
      let '(iso_week, s) := r in
      if ((if uses_separator then 8 else 7) <? len)%nat then
        s ← dash s;
        r ← parse_digits 1 s;
        isoweek_ord year iso_week r.1
      else isoweek_ord year iso_week 1
  | None =>
      r ← parse_digits 2 s;
      let '(month, s) := r in
      s ← dash s;
      r ← parse_digits 2 s;
      date_ord year month r.1
  end.

(** A time of day or an offset: hours, minutes, seconds, microseconds, and whether
    text was left behind. *)
Record clock_time : Type := mkTime { t_hour : Z; t_minute : Z; t_second : Z; t_us : Z; t_left : bool }.

(** Up to six digits of a fraction of a second among [n] characters; further digits
    are dropped. *)
Definition parse_fraction (vals : list Z) (n : nat) (s : string) : option clock_time :=
  let to_parse := Nat.min 6 n in
  r ← parse_digits to_parse s;
  let fix rest (s : string) : string :=
    match s with String a s' => if is_digit a then rest s' else s | EmptyString => s end in
  let v i := default 0 (vals !! i) in
  Some (mkTime (v 0%nat) (v 1%nat) (v 2%nat) (r.1 * 10 ^ Z.of_nat (6 - to_parse)) (truthy (rest r.2))).

(** [HH[:?MM[:?SS[.,fff...]]]] in the first [n] characters of [s]; [vals] are the
    numbers read, [i] those that may follow. *)
Fixpoint parse_hms (i : nat) (has_separator : option bool) (vals : list Z) (n : nat) (s : string) : option clock_time :=
  match i with
  | O => parse_fraction vals n s
  | S i' =>
      r ← parse_digits 2 s;
      let vals := vals ++ [r.1] in
      let s1 := r.2 in
      let c := String.get 0 s1 in
      let at_ (a : Ascii.ascii) := match c with Some b => Ascii.eqb b a | None => false end in
      let has_sep := match has_separator with Some x => x | None => at_ ":"%char end in
      if (n <=? 3)%nat then
        let v k := default 0 (vals !! k) in
        Some (mkTime (v 0%nat) (v 1%nat) (v 2%nat) 0 (truthy s1))
      else if has_sep && at_ ":"%char then parse_hms i' (Some has_sep) vals (n - 3) (str_drop 1 s1)
      else if at_ "."%char || at_ ","%char then parse_fraction vals (n - 3) (str_drop 1 s1)
      else if has_sep then None
      else parse_hms i' (Some has_sep) vals (n - 2) s1
  end.

Definition parse_hh_mm_ss_ff (n : nat) (s : string) : option clock_time := parse_hms 3 None [] n s.

(** Where the offset starts. *)
Fixpoint tz_position (s : string) : nat :=
  match s with
  | EmptyString => O
  | String a s' => if Ascii.eqb a "+"%char || Ascii.eqb a "-"%char || Ascii.eqb a "Z"%char then O else S (tz_position s')
  end.

Definition seconds (t : clock_time) : Z := (t_hour t * 60 + t_minute t) * 60 + t_second t.
Definition day_us : Z := 86400000000.

(** The offset behind the sign, in microseconds. *)
Definition parse_offset (sign : Ascii.ascii) (s : string) : option Z :=
  tz ← parse_hh_mm_ss_ff (String.length s) s;
  if t_left tz then None
  else
    let off := if seconds tz =? 0 then 0 else seconds tz * 1000000 + t_us tz in
    if off <? day_us then Some (if Ascii.eqb sign "-"%char then - off else off) else None.

(** The time of day in microseconds, and the offset. *)
Definition parse_isoformat_time (s : string) : option (Z * option Z) :=
  let n := tz_position s in
  t ← parse_hh_mm_ss_ff n s;
  if (t_hour t <? 24) && (t_minute t <? 60) && (t_second t <? 60) then
    let us := seconds t * 1000000 + t_us t in
    match str_drop n s with
    | EmptyString => if t_left t then None else Some (us, None)
    | String a s' =>
        if Ascii.eqb a "Z"%char then (if truthy s' then None else Some (us, Some 0))
        else off ← parse_offset a s'; Some (us, Some off)
    end
  else None.

Record datetime : Type := mkDatetime { dt_local : Z; dt_offset : option Z }.

Definition invalid_iso (s : string) : exn := Exn ValueError ("Invalid isoformat string: " ^^ repr_str s).

Definition fromisoformat (s : string) : res datetime :=
  res_of_option (invalid_iso s)
    (if (String.length s <? 7)%nat then None
     else
       sep ← find_separator s;
       o ← parse_isoformat_date sep s;
       t ← (if (sep <? String.length s)%nat then parse_isoformat_time (str_drop (S sep) s) else Some (0, None));
       Some {| dt_local := (o - 1) * day_us + t.1; dt_offset := t.2 |}).

(** ** Comparing and subtracting *)

Definition type_error {A} (what : string) : res A :=
  Raise (Exn TypeError ("can't " ^^ what ^^ " offset-naive and offset-aware datetimes")).

(** [a - b] in microseconds; [what] is for the error. *)
Definition dt_minus (what : string) (a b : datetime) : res Z :=
  match dt_offset a, dt_offset b with
  | None, None => Ok (dt_local a - dt_local b)
  | Some x, Some y => Ok ((dt_local a - x) - (dt_local b - y))
  | _, _ => type_error what
  end.

Definition dt_sub (a b : datetime) : res Z := dt_minus "subtract" a b.
Definition dt_lt (a b : datetime) : res bool := d ← dt_minus "compare" a b; mret (d <? 0).

(** The instant of an aware [datetime], in microseconds of UTC. *)
Definition utc_us (a : datetime) : Z := dt_local a - default 0 (dt_offset a).

Example iso_forms :
  map (fun s => match fromisoformat s with Ok d => Some (dt_local d - 63713347200000000, dt_offset d) | _ => None end)
    ["2019-12-31T00:00:01.5+00:00"; "20191231T000001"; "2020-W01-2 00:00"; "2019-12-31"; "2019-12-31T00:00-01:00"; "2019-13-01"]%string =
  [Some (1500000, Some 0); Some (1000000, None); Some (0, None); Some (0, None); Some (0, Some (-3600000000)); None].
Proof. vm_compute. reflexivity. Qed.
