(* ===== verification/Stamps.v ===== *)
(** * Stamps: the time stamps the collector reads
    ([parse_ts] of experiments/metrics-collector/collect.py)

    [parse_ts] rewrites a stamp to a form [fromisoformat] takes.  The stamps the Go
    services write are read back exactly, up to microseconds. *)

From stdpp Require Import base list strings.
From Stdlib Require Import Ascii ZArith.
From S2P Require Import Prelude PyStr Json Runtime IsoTime.

Local Open Scope Z_scope.
Local Open Scope driftless_scope.

(** [s.replace(c, r)] for a one-character text. *)
Fixpoint replace_char (c : Ascii.ascii) (r s : string) : string :=
  match s with
  | EmptyString => EmptyString
  | String a s' => if Ascii.eqb a c then r ^^ replace_char c r s' else String a (replace_char c r s')
  end.

(** [s.split(c, 1)] when [c] is in [s]. *)
Fixpoint cut_char (c : Ascii.ascii) (s : string) : option (string * string) :=
  match s with
  | EmptyString => None
  | String a s' =>
      if Ascii.eqb a c then Some (EmptyString, s') else r ← cut_char c s'; Some (String a r.1, r.2)
  end.

(** [s.ljust(n, "0")]. *)
Definition ljust (n : nat) (s : string) : string := s ^^ repeat_str (n - String.length s) "0".

Definition parse_ts (s : string) : res datetime :=
  let s := replace_char "Z"%char "+00:00" s in
  match cut_char "."%char s with
  | None => fromisoformat s
  | Some (base, rest) =>
      let len := String.length rest in
      if (len <? 6)%nat then Raise (Exn IndexError "string index out of range")
      else
        let signed := char_at (len - 6) rest "+"%char || char_at (len - 6) rest "-"%char in
        let tz := if signed then str_drop (len - 6) rest else "+00:00"%string in
        let frac := if signed then str_take (len - 6) rest else rest in
        let frac := ljust 6 (str_take 6 frac) in
        fromisoformat (base ^^ "." ^^ frac ^^ tz)
  end.

(** ** The stamps of Go's RFC 3339 format

    [2006-01-02T15:04:05.999999999Z]: a date, a time, an optional fraction of any
    number of digits, and the zone UTC. *)

Definition dig (n : Z) : ascii := chr (Z.to_N (48 + n)).
Definition D2 (n : Z) : string := String (dig (n / 10)) (String (dig (n mod 10)) EmptyString).
Definition D4 (n : Z) : string := D2 (n / 100) ^^ D2 (n mod 100).

Record instant : Type := mkInstant {
  i_year : Z; i_month : Z; i_day : Z; i_hour : Z; i_minute : Z; i_second : Z; i_frac : string;
}.

Definition stamp (i : instant) : string :=
  D4 (i_year i) ^^ "-" ^^ D2 (i_month i) ^^ "-" ^^ D2 (i_day i) ^^ "T" ^^ D2 (i_hour i) ^^ ":" ^^ D2 (i_minute i)
  ^^ ":" ^^ D2 (i_second i) ^^ (if truthy (i_frac i) then "." ^^ i_frac i else "") ^^ "Z".

Definition valid (i : instant) : Prop :=
  1 <= i_year i <= 9999 /\ 1 <= i_month i <= 12 /\ 1 <= i_day i <= days_in_month (i_year i) (i_month i) /\
  0 <= i_hour i < 24 /\ 0 <= i_minute i < 60 /\ 0 <= i_second i < 60 /\ all_digits (i_frac i) = true.

(** The fraction in microseconds, the rest cut off. *)
Definition micros (i : instant) : Z := default 0 (digits_Z (ljust 6 (str_take 6 (i_frac i)))).

(** The instant in microseconds. *)
Definition us_of (i : instant) : Z :=
  (((ymd2ord (i_year i) (i_month i) (i_day i) - 1) * 24 + i_hour i) * 60 + i_minute i) * 60 * 1000000
  + i_second i * 1000000 + micros i.

Lemma digit_eqb a c : is_digit a = true -> is_digit c = false -> Ascii.eqb a c = false.
Proof. intros Ha Hc. destruct (Ascii.eqb_spec a c) as [->|]; [congruence|done]. Qed.

Lemma ord_dig n : 0 <= n < 10 -> Z.of_N (ord (dig n)) - 48 = n /\ is_digit (dig n) = true.
Proof.
  intros Hn. assert (E : ord (dig n) = Z.to_N (48 + n)) by (apply Ascii.N_ascii_embedding; lia).
  unfold is_digit. rewrite E. split; [lia|]. apply andb_true_iff. rewrite !N.leb_le. lia.
Qed.

Lemma tens n : 0 <= n < 100 -> 0 <= n / 10 < 10 /\ 0 <= n mod 10 < 10 /\ n = 10 * (n / 10) + n mod 10.
Proof. intros Hn. pose proof (Z.div_mod n 10). pose proof (Z.mod_pos_bound n 10). split; [|split]; [|lia|lia]. lia. Qed.

Lemma D2_digits n : 0 <= n < 100 ->
  exists a b, D2 n = String a (String b EmptyString) /\ is_digit a = true /\ is_digit b = true /\ digits_Z (D2 n) = Some n.
Proof.
  intros Hn. destruct (tens n Hn) as (Ha & Hb & E). destruct (ord_dig _ Ha) as [Oa Da], (ord_dig _ Hb) as [Ob Db].
  exists (dig (n / 10)), (dig (n mod 10)). split; [done|]. split; [done|]. split; [done|].
  unfold digits_Z, D2. cbn [all_digits truthy]. rewrite Da, Db. cbn -[Z.mul Z.add Z.sub ord dig Z.of_N]. rewrite Oa, Ob. f_equal. lia.
Qed.

Lemma D4_digits n : 0 <= n < 10000 ->
  exists a b c d, D4 n = String a (String b (String c (String d EmptyString))) /\
    is_digit a = true /\ is_digit b = true /\ is_digit c = true /\ is_digit d = true /\ digits_Z (D4 n) = Some n.
Proof.
  intros Hn. assert (Hq : 0 <= n / 100 < 100) by (split; [apply Z.div_pos; lia|apply Z.div_lt_upper_bound; lia]).
  assert (Hr : 0 <= n mod 100 < 100) by (apply Z.mod_pos_bound; lia).
  destruct (tens _ Hq) as (Ha & Hb & E1), (tens _ Hr) as (Hc & Hd & E2).
  destruct (ord_dig _ Ha) as [Oa Da], (ord_dig _ Hb) as [Ob Db], (ord_dig _ Hc) as [Oc Dc], (ord_dig _ Hd) as [Od Dd].
  eexists _, _, _, _. split; [reflexivity|]. split; [done|]. split; [done|]. split; [done|]. split; [done|].
  change (D4 n) with (String (dig (n / 100 / 10)) (String (dig ((n / 100) mod 10)) (D2 (n mod 100)))).
  unfold digits_Z, D2. cbn [all_digits truthy]. rewrite Da, Db, Dc, Dd. cbn -[Z.mul Z.add Z.sub ord dig Z.of_N].
  rewrite Oa, Ob, Oc, Od. f_equal. pose proof (Z.div_mod n 100). lia.
Qed.

(** Evaluates comparisons with a digit, and of known characters. *)
Ltac chars :=
  repeat match goal with
  | |- context [Ascii.eqb ?a ?c] =>
      first [ rewrite (digit_eqb a c) by (assumption || reflexivity)
            | let b := eval vm_compute in (Ascii.eqb a c) in
              match b with true => change (Ascii.eqb a c) with true | false => change (Ascii.eqb a c) with false end ]
  end.

Lemma digits_snoc6 f : all_digits f = true -> String.length f = 6%nat ->
  exists a b c d e g, f = String a (String b (String c (String d (String e (String g EmptyString))))) /\
    is_digit a = true /\ is_digit b = true /\ is_digit c = true /\ is_digit d = true /\ is_digit e = true /\ is_digit g = true.
Proof.
  intros H Hl. destruct f as [|a [|b [|c [|d [|e [|g [|]]]]]]]; try done. cbn [all_digits] in H.
  repeat (apply andb_prop in H as [? H]). by eexists _, _, _, _, _, _.
Qed.

Section core.
Context (i : instant) (Hv : valid i).
Context (y1 y2 y3 y4 o1 o2 d1 d2 h1 h2 m1 m2 s1 s2 : ascii).
Context (Hdig : Forall (fun c => is_digit c = true) [y1; y2; y3; y4; o1; o2; d1; d2; h1; h2; m1; m2; s1; s2]).
Context (Ey : digits_Z (String y1 (String y2 (String y3 (String y4 EmptyString)))) = Some (i_year i)).
Context (Eo : digits_Z (String o1 (String o2 EmptyString)) = Some (i_month i)).
Context (Ed : digits_Z (String d1 (String d2 EmptyString)) = Some (i_day i)).
Context (Eh : digits_Z (String h1 (String h2 EmptyString)) = Some (i_hour i)).
Context (Em : digits_Z (String m1 (String m2 EmptyString)) = Some (i_minute i)).
Context (Es : digits_Z (String s1 (String s2 EmptyString)) = Some (i_second i)).

Definition time_text (r : string) : string :=
  String h1 (String h2 (String ":" (String m1 (String m2 (String ":" (String s1 (String s2 r))))))).

Definition core_text (r : string) : string :=
  String y1 (String y2 (String y3 (String y4 (String "-" (String o1 (String o2 (String "-" (String d1 (String d2
    (String "T" (time_text r))))))))))).

(** The time of a stamp with the zone +00:00. *)
Lemma time_of_core r us : 
  (r = "+00:00"%string /\ us = 0 \/
   exists f, all_digits f = true /\ String.length f = 6%nat /\ digits_Z f = Some us /\ r = "." ^^ f ^^ "+00:00") ->
  parse_isoformat_time (time_text r) =
  Some (((i_hour i * 60 + i_minute i) * 60 + i_second i) * 1000000 + us, Some 0).
Proof using All.
  intros Hr. repeat (apply Forall_cons in Hdig as [? Hdig]). destruct Hv as (_ & _ & _ & Bh & Bm & Bs & _).
  assert (Ok3 : (i_hour i <? 24) && (i_minute i <? 60) && (i_second i <? 60) = true) by lia.
  destruct Hr as [[-> ->]|(f & Hf & Hl & Ef & ->)].
  - unfold parse_isoformat_time, time_text, parse_hh_mm_ss_ff.
    do 7 (rewrite ?Eh, ?Em, ?Es; cbn -[digits_Z Ascii.eqb Z.mul Z.add Z.ltb Z.pow parse_offset]; chars).
    rewrite Ok3. change (parse_offset "+" "00:00") with (Some 0). unfold seconds. cbn -[Z.mul Z.add]. repeat f_equal; lia.
  - destruct (digits_snoc6 f Hf Hl) as (g1 & g2 & g3 & g4 & g5 & g6 & -> & ? & ? & ? & ? & ? & ?). rewrite !append_cons, !append_nil_l.
    unfold parse_isoformat_time, time_text, parse_hh_mm_ss_ff.
    do 8 (rewrite ?Eh, ?Em, ?Es, ?Ef; cbn -[digits_Z Ascii.eqb Z.mul Z.add Z.ltb Z.pow parse_offset]; chars).
    rewrite Ok3. change (parse_offset "+" "00:00") with (Some 0). unfold seconds. cbn -[Z.mul Z.add]. repeat f_equal; lia.
Qed.

Lemma date_of_core r : parse_isoformat_date 10 (core_text r) = Some (ymd2ord (i_year i) (i_month i) (i_day i)).
Proof using All.
  repeat (apply Forall_cons in Hdig as [? Hdig]). destruct Hv as (By & Bo & Bd & _).
  unfold parse_isoformat_date, core_text. do 6 (rewrite ?Ey, ?Eo, ?Ed; cbn -[digits_Z Ascii.eqb date_ord]; chars).
  unfold date_ord. replace (_ && _) with true by lia. done.
Qed.

Lemma separator_of_core r : find_separator (core_text r) = Some 10%nat.
Proof using Hdig.
  repeat (apply Forall_cons in Hdig as [? Hdig]). unfold find_separator, core_text, char_at. cbn -[Ascii.eqb]. by chars.
Qed.

Definition core_us (us : Z) : Z :=
  (((ymd2ord (i_year i) (i_month i) (i_day i) - 1) * 24 + i_hour i) * 60 + i_minute i) * 60 * 1000000 + i_second i * 1000000 + us.

Lemma parse_core r us :
  (r = "+00:00"%string /\ us = 0 \/
   exists f, all_digits f = true /\ String.length f = 6%nat /\ digits_Z f = Some us /\ r = "." ^^ f ^^ "+00:00") ->
  fromisoformat (core_text r) = Ok (mkDatetime (core_us us) (Some 0)).
Proof using All.
  intros Hr. unfold fromisoformat. rewrite separator_of_core. cbn [mbind option_bind]. rewrite date_of_core. cbn [mbind option_bind].
  change (str_drop 11 (core_text r)) with (time_text r).
  change (String.length (core_text r)) with (19 + String.length r)%nat.
  replace (19 + String.length r <? 7)%nat with false by (symmetry; apply Nat.ltb_ge; lia).
  replace (10 <? 19 + String.length r)%nat with true by (symmetry; apply Nat.ltb_lt; lia).
  rewrite (time_of_core r us Hr). cbn [mbind option_bind fst snd res_of_option]. unfold core_us, day_us. do 2 f_equal. lia.
Qed.

Lemma replace_skip c r a s : Ascii.eqb a c = false -> replace_char c r (String a s) = String a (replace_char c r s).
Proof. intros H. cbn [replace_char]. by rewrite H. Qed.

(** The zone is rewritten, and the point found. *)
Lemma replace_core r : replace_char "Z" "+00:00" (core_text r) = core_text (replace_char "Z" "+00:00" r).
Proof using Hdig.
  repeat (apply Forall_cons in Hdig as [? Hdig]). unfold core_text, time_text.
  by rewrite !replace_skip by (first [apply digit_eqb; [assumption|reflexivity] | reflexivity]).
Qed.

Lemma cut_core r : cut_char "." (core_text r) = (c ← cut_char "." r; Some (core_text c.1, c.2)).
Proof using Hdig.
  repeat (apply Forall_cons in Hdig as [? Hdig]). unfold core_text, time_text. cbn [cut_char]. chars. by destruct (cut_char "." r) as [[a b]|].
Qed.
End core.

(** ** Fractions *)

Lemma str_take_app (f s : string) : str_take (String.length f) (f ^^ s) = f.
Proof. induction f as [|c f IH]; [by rewrite append_nil_l; destruct s|]. rewrite append_cons. cbn. by rewrite IH. Qed.

Lemma str_drop_app (f s : string) : str_drop (String.length f) (f ^^ s) = s.
Proof. induction f as [|c f IH]; [by rewrite append_nil_l; destruct s|]. rewrite append_cons. cbn. by rewrite IH. Qed.

Lemma get_app (f s : string) : String.get (String.length f) (f ^^ s) = String.get 0 s.
Proof. induction f as [|c f IH]; [by rewrite append_nil_l|]. by rewrite append_cons. Qed.

Lemma all_digits_app (f s : string) : all_digits (f ^^ s) = all_digits f && all_digits s.
Proof. induction f as [|c f IH]; [by rewrite append_nil_l|]. rewrite append_cons. cbn [all_digits]. by rewrite IH, andb_assoc. Qed.

Lemma all_digits_take n (f : string) : all_digits f = true -> all_digits (str_take n f) = true.
Proof.
  revert f. induction n as [|n IH]; intros [|c f]; try done. cbn [all_digits str_take].
  intros [Hc Hf]%andb_prop. by rewrite Hc, IH.
Qed.

Lemma length_take n (f : string) : (String.length (str_take n f) <= n)%nat.
Proof. revert f. induction n as [|n IH]; intros [|c f]; cbn; try lia. specialize (IH f). lia. Qed.

Lemma zeros n : all_digits (repeat_str n "0") = true /\ String.length (repeat_str n "0") = n.
Proof.
  induction n as [|n [IH1 IH2]]; [done|]. change (repeat_str (S n) "0") with ("0" ^^ repeat_str n "0").
  rewrite all_digits_app, length_append, IH1, IH2. done.
Qed.

(** The six digits the collector keeps. *)
Lemma six_digits f : all_digits f = true ->
  all_digits (ljust 6 (str_take 6 f)) = true /\ String.length (ljust 6 (str_take 6 f)) = 6%nat.
Proof.
  intros Hf. unfold ljust. destruct (zeros (6 - String.length (str_take 6 f))) as [H1 H2]. pose proof (length_take 6 f).
  rewrite all_digits_app, length_append, H1, H2, all_digits_take by done. split; [done|lia].
Qed.

Lemma replace_digits c r f s : is_digit c = false -> all_digits f = true -> replace_char c r (f ^^ s) = f ^^ replace_char c r s.
Proof.
  intros Hc. induction f as [|a f IH]; [by rewrite !append_nil_l|]. cbn [all_digits]. intros [Ha Hf]%andb_prop.
  rewrite !append_cons, replace_skip by (by apply digit_eqb). by rewrite IH.
Qed.

(** A stamp is a date, a time and the rest. *)
Lemma stamp_core i : valid i ->
  exists y1 y2 y3 y4 o1 o2 d1 d2 h1 h2 m1 m2 s1 s2,
    stamp i = core_text y1 y2 y3 y4 o1 o2 d1 d2 h1 h2 m1 m2 s1 s2 ((if truthy (i_frac i) then "." ^^ i_frac i else "") ^^ "Z") /\
    Forall (fun c => is_digit c = true) [y1; y2; y3; y4; o1; o2; d1; d2; h1; h2; m1; m2; s1; s2] /\
    digits_Z (String y1 (String y2 (String y3 (String y4 EmptyString)))) = Some (i_year i) /\
    digits_Z (String o1 (String o2 EmptyString)) = Some (i_month i) /\
    digits_Z (String d1 (String d2 EmptyString)) = Some (i_day i) /\
    digits_Z (String h1 (String h2 EmptyString)) = Some (i_hour i) /\
    digits_Z (String m1 (String m2 EmptyString)) = Some (i_minute i) /\
    digits_Z (String s1 (String s2 EmptyString)) = Some (i_second i).
Proof.
  intros (By & Bo & Bd & Bh & Bm & Bs & _).
  assert (Hdim : days_in_month (i_year i) (i_month i) <= 31).
  { unfold days_in_month. destruct (_ =? 2); [destruct (is_leap _); lia|]. destruct (_ || _); lia. }
  destruct (D4_digits (i_year i)) as (y1 & y2 & y3 & y4 & Ey & ? & ? & ? & ? & Vy); [lia|].
  destruct (D2_digits (i_month i)) as (o1 & o2 & Eo & ? & ? & Vo); [lia|].
  destruct (D2_digits (i_day i)) as (d1 & d2 & Ed & ? & ? & Vd); [lia|].
  destruct (D2_digits (i_hour i)) as (h1 & h2 & Eh & ? & ? & Vh); [lia|].
  destruct (D2_digits (i_minute i)) as (m1 & m2 & Em & ? & ? & Vm); [lia|].
  destruct (D2_digits (i_second i)) as (s1 & s2 & Es & ? & ? & Vs); [lia|].
  exists y1, y2, y3, y4, o1, o2, d1, d2, h1, h2, m1, m2, s1, s2. unfold stamp.
  rewrite Ey, Eo, Ed, Eh, Em, Es, !append_cons, !append_nil_l in *. split; [done|]. by repeat constructor.
Qed.

Lemma parse_stamp i : valid i -> parse_ts (stamp i) = Ok (mkDatetime (us_of i) (Some 0)).
Proof.
  intros Hv. destruct (stamp_core i Hv) as (y1 & y2 & y3 & y4 & o1 & o2 & d1 & d2 & h1 & h2 & m1 & m2 & s1 & s2 & -> & Hd & Vy & Vo & Vd & Vh & Vm & Vs).
  unfold parse_ts. rewrite replace_core by done.
  destruct (truthy (i_frac i)) eqn:Ef.
  - assert (Hf : all_digits (i_frac i) = true) by apply Hv. destruct (six_digits _ Hf) as [H6 L6].
    rewrite !append_cons, append_nil_l, replace_skip, replace_digits by done.
    change (replace_char "Z" "+00:00" "Z") with "+00:00"%string.
    rewrite cut_core by done. cbn -[core_text Nat.sub Nat.ltb str_take str_drop ljust]. rewrite length_append.
    change (String.length "+00:00") with 6%nat. replace (String.length (i_frac i) + 6 <? 6)%nat with false by (symmetry; apply Nat.ltb_ge; lia).
    rewrite Nat.add_sub. unfold char_at. rewrite get_app. cbn -[core_text str_take str_drop ljust].
    rewrite str_take_app, str_drop_app.
    set (f6 := ljust 6 _) in *. assert (E6 : digits_Z f6 = Some (micros i)).
    { unfold micros. fold f6. unfold digits_Z. rewrite H6. by destruct f6. }
    change (core_text y1 y2 y3 y4 o1 o2 d1 d2 h1 h2 m1 m2 s1 s2 "" ^^ "." ^^ f6 ^^ "+00:00")
      with (core_text y1 y2 y3 y4 o1 o2 d1 d2 h1 h2 m1 m2 s1 s2 ("." ^^ f6 ^^ "+00:00")).
    rewrite (parse_core i Hv y1 y2 y3 y4 o1 o2 d1 d2 h1 h2 m1 m2 s1 s2 Hd Vy Vo Vd Vh Vm Vs _ (micros i)); [done|].
    right. by exists f6.
  - assert (i_frac i = "") as E0 by by destruct (i_frac i). rewrite append_nil_l.
    change (replace_char "Z" "+00:00" "Z") with "+00:00"%string. rewrite cut_core by done.
    cbn [cut_char Ascii.eqb]. cbn -[core_text fromisoformat].
    rewrite (parse_core i Hv y1 y2 y3 y4 o1 o2 d1 d2 h1 h2 m1 m2 s1 s2 Hd Vy Vo Vd Vh Vm Vs _ 0); [|by left].
    unfold us_of, micros. by rewrite E0.
Qed.

(** ** Properties *)

(** C30: stamps are read back.  A stamp in the form Go writes, with a fraction of any
    number of digits, is read as its instant in UTC, cut off at microseconds. *)
Theorem parse_ts_stamp (i : instant) : valid i -> parse_ts (stamp i) = Ok (mkDatetime (us_of i) (Some 0)).
Proof. apply parse_stamp. Qed.

Definition sample_instant : instant := mkInstant 2026 4 19 6 6 36 "123456789".

Example sample_stamp : stamp sample_instant = "2026-04-19T06:06:36.123456789Z".
Proof. by vm_compute. Qed.

Lemma sample_valid : valid sample_instant.
Proof. repeat split; try (vm_compute; congruence); done. Qed.

Lemma parse_ts_stamp_witness :
  parse_ts "2026-04-19T06:06:36.123456789Z" = Ok (mkDatetime (us_of sample_instant) (Some 0)).
Proof. apply (parse_ts_stamp sample_instant). exact sample_valid. Defined.

(** Stamps without a zone: with a long fraction they are taken as UTC, without one
    they stay naive, and with a short one they are refused by an [IndexError]. *)
Example zoneless_stamps :
  map (fun s => match parse_ts s with Ok d => inl (dt_offset d) | Raise e => inr (exn_cls e) | NoFuel => inr OtherError end)
    ["2026-04-19T06:06:36.123456"; "2026-04-19T06:06:36"; "2026-04-19T06:06:36.123"]%string =
  [inl (Some 0); inl None; inr IndexError].
Proof. by vm_compute. Qed.
