(* ===== verification/Collect.v ===== *)
(** * Collect: the metrics collector of experiment 2
    (experiments/metrics-collector/collect.py)

    Assignment latencies from the rows of the tasks table, percentiles over them,
    and the replication lag the leader reports.  Times are those of [IsoTime].
    The CSV file is in [Results], the arguments are in [Cli]; the diagnostics are not
    modelled. *)

From stdpp Require Import base gmap list strings.
From Stdlib Require Import Ascii ZArith QArith.QArith_base QArith.Qround Lqa.
From S2P Require Import Prelude PyFloat PyStr PyDict Json Runtime History IsoTime Stamps Stats.

Local Open Scope Z_scope.
Local Open Scope driftless_scope.

(** ** Latencies *)

(** [(t1 - t0).total_seconds() * 1000.0] of a difference in microseconds. *)
Definition latency_ms (us : Z) : float := fmul (Zdivf us 1000000) (Fin (1000 # 1)).

(** The body of the loop, up to the exceptions: the latency of a row that counts. *)
Definition row_latency (since until : option datetime) (it : item) : res (option float) :=
  created ← res_of_option (key_error "created_at") (get_S it "created_at");
  t0 ← parse_ts created;
  dispatched ← res_of_option (key_error "dispatched_at") (get_S it "dispatched_at");
  t1 ← parse_ts dispatched;
  early ← match since with Some b => dt_lt t0 b | None => mret false end;
  if (early : bool) then mret None
  else
    late ← match until with Some b => dt_lt b t0 | None => mret false end;
    if (late : bool) then mret None
    else
      us ← dt_sub t1 t0;
      let ms := latency_ms us in
      mret (if fle (Fin 0) ms then Some ms else None).

(** [except (KeyError, ValueError): continue]. *)
Definition skipped (e : exn) : bool := match exn_cls e with KeyError | ValueError => true | _ => false end.

Definition collect_item (since until : option datetime) (latencies : list float) (it : item) : res (list float) :=
  match row_latency since until it with
  | Ok (Some ms) => Ok (latencies ++ [ms])
  | Ok None => Ok latencies
  | Raise e => if skipped e then Ok latencies else Raise e
  | NoFuel => NoFuel
  end.

Definition collect_latencies `{Env} {S} (table : string) (since until : option datetime) : M S (list float) :=
  pages ← check (ask (CDdbScanPages table "attribute_exists(dispatched_at) AND attribute_exists(created_at)"));
  latencies ← lift (fold_res (collect_item since until) [] (concat pages));
  mret (sorted latencies).

(** ** Replication lag *)

Definition state_url (addr : string) : string := drop_slashes addr ^^ "/state".

Definition lags_of (state : state_doc) : list (string * Z) :=
  let commit_idx := default 0 (sd_commit_index state) in
  map (fun p => (p.1, commit_idx - p.2)) (default [] (sd_match_index state)).

Definition is_leader_doc (state : state_doc) : bool := bool_decide (sd_state state = Some "leader"%string).

Definition collect_replication_lag `{Env} {S} (coordinator_url : string) : M S (list (string * Z)) :=
  if truthy coordinator_url then
    try_except
      (state ← check (ask (CHttpState (state_url coordinator_url)));
       if is_leader_doc state then mret (lags_of state) else mret [])
      (fun _ => mret [])
  else mret [].

Fixpoint find_leader_lag `{Env} {S} (coordinator_addrs : list string) : M S (list (string * Z)) :=
  match coordinator_addrs with
  | [] => mret []
  | addr :: rest =>
      lag ← collect_replication_lag addr;
      match lag with
      | _ :: _ => mret lag
      | [] =>
          leads ← try_except (state ← check (ask (CHttpGet (state_url addr))); mret (is_leader_doc state))
                             (fun _ => mret false);
          if (leads : bool) then mret [] else find_leader_lag rest
      end
  end.

(** ** The result row *)

(** [round(x, 2)]. *)
Definition round2 (x : float) : float :=
  match x with Fin q => rnd (inject_Z (rheQ (q * (100 # 1))) / (100 # 1)) | _ => x end.

Record args : Type := mkArgs {
  a_table : string;
  a_label : string;
  a_coordinator : string;
  a_submitted : Z;
  a_failed : Z;
  a_actual_rate : float;
  a_since : option string;
  a_until : option string;
}.

(** Lags in the order of [sorted(lag_map.items())]; the peers are distinct. *)
Definition sorted_lags (lag_map : list (string * Z)) : list (string * Z) :=
  isort (fun p q => str_leb p.1 q.1) lag_map.

Definition result_row (a : args) (latencies : list float) (collected_at : string) (lag_map : list (string * Z)) : fields :=
  [("label", JStr (a_label a)); ("n", JInt (Z.of_nat (length latencies)));
   ("p50_ms", JFloat (round2 (pct_floor latencies 50))); ("p95_ms", JFloat (round2 (pct_floor latencies 95)));
   ("p99_ms", JFloat (round2 (pct_floor latencies 99)));
   ("max_ms", JFloat (round2 (default (Fin 0) (max_of latencies))));
   ("min_ms", JFloat (round2 (default (Fin 0) (min_of latencies))));
   ("submitted", JInt (a_submitted a)); ("failed", JInt (a_failed a));
   ("actual_rate_tpm", JFloat (round2 (a_actual_rate a))); ("collected_at", JStr collected_at)]%string
  ++ map (fun p => ("rep_lag_" ^^ p.1, JInt p.2)) (sorted_lags lag_map).

Definition bound_of (s : option string) : res (option datetime) :=
  match s with
  | Some s => if truthy s then d ← parse_ts s; mret (Some d) else mret None
  | None => mret None
  end.

(** [main] between reading the arguments and writing the row; no row when no latency
    was found. *)
Definition collect_main `{Env} {S} (a : args) : M S (option fields) :=
  since_dt ← lift (bound_of (a_since a));
  until_dt ← lift (bound_of (a_until a));
  latencies ← collect_latencies (a_table a) since_dt until_dt;
  match latencies with
  | [] => mret None
  | _ =>
      let coordinator_addrs := comma_list (a_coordinator a) in
      lag_map ← (match coordinator_addrs with [] => mret [] | _ => find_leader_lag coordinator_addrs end);
      collected_at ← ask (CStrftime "isoformat");
      mret (Some (result_row a latencies collected_at lag_map))
  end.

(** ** The rows that count *)

(** Multiplying keeps the sign. *)
Lemma fmul_nonneg x : fle (Fin 0) x = true -> fle (Fin 0) (fmul x (Fin (1000 # 1))) = true.
Proof.
  destruct x as [|[]|v]; [done|done|done|]. intros H%Qle_bool_iff. apply (rnd_mono 0). nra.
Qed.

Lemma fmul_negative x w : fle x (Fin w) = true -> (w < 0)%Q -> fle (rnd (w * (1000 # 1))) (Fin (w * 500)) = true ->
  fle (Fin 0) (fmul x (Fin (1000 # 1))) = false.
Proof.
  intros Hx Hw Hr. destruct x as [|[]|v]; [done|done|done|]. apply Qle_bool_iff in Hx. cbn [fmul].
  assert (H2 : fle (rnd (v * (1000 # 1))) (rnd (w * (1000 # 1))) = true) by (apply rnd_mono; nra).
  pose proof (fle_trans _ _ _ H2 Hr) as H3. revert H3. generalize (rnd (v * (1000 # 1))). intros [|[]|y] H3; [done|done|done|].
  apply Qle_bool_iff in H3. cbn [fle]. destruct (Qle_bool 0 y) eqn:Ey; [|done]. apply Qle_bool_iff in Ey. nra.
Qed.

(** The sign of a latency survives the conversion. *)
Lemma latency_sign us : fle (Fin 0) (latency_ms us) = (0 <=? us).
Proof.
  unfold latency_ms, Zdivf. destruct (Z.leb_spec 0 us) as [Hu|Hu].
  - apply fmul_nonneg. apply (rnd_mono 0). unfold Qle; simpl; lia.
  - assert (E : exists w, rnd (-1 # 1000000) = Fin w /\ (w < 0)%Q /\ fle (rnd (w * (1000 # 1))) (Fin (w * 500)) = true)
      by (eexists; split; [vm_compute; reflexivity|split; vm_compute; reflexivity]).
    destruct E as (w & Ew & Hw & Hr). apply (fmul_negative _ w); [|done|done]. rewrite <- Ew.
    apply rnd_mono. unfold Qle; simpl; lia.
Qed.

(** A row: the instants of a dispatched task, or no complete pair of stamps. *)
Inductive shows (it : item) : option (instant * instant) -> Prop :=
| shows_task i j : valid i -> valid j -> get_S it "created_at" = Some (stamp i) ->
    get_S it "dispatched_at" = Some (stamp j) -> shows it (Some (i, j))
| shows_undispatched i : valid i -> get_S it "created_at" = Some (stamp i) -> get_S it "dispatched_at" = None ->
    shows it None
| shows_uncreated : get_S it "created_at" = None -> shows it None.

(** Bounds with a zone. *)
Definition aware (b : option datetime) : Prop := match b with Some d => dt_offset d <> None | None => True end.

Definition in_window (since until : option datetime) (us : Z) : bool :=
  match since with Some b => utc_us b <=? us | None => true end &&
  match until with Some b => us <=? utc_us b | None => true end.

(** The latencies of the tasks created in the window and dispatched after that. *)
Definition latencies_of (since until : option datetime) (rows : list (option (instant * instant))) : list float :=
  omap (fun r => p ← r; let us := us_of p.2 - us_of p.1 in
    if in_window since until (us_of p.1) && (0 <=? us) then Some (latency_ms us) else None) rows.

Lemma aware_lt (a : Z) (d : datetime) : dt_offset d <> None ->
  dt_lt (mkDatetime a (Some 0)) d = Ok (a <? utc_us d) /\ dt_lt d (mkDatetime a (Some 0)) = Ok (utc_us d <? a).
Proof.
  unfold dt_lt, dt_minus, utc_us. destruct d as [l [o|]]; [|done]. intros _. cbn. rewrite !Z.sub_0_r.
  split; f_equal; lia.
Qed.

Lemma row_latency_task since until it i j :
  aware since -> aware until -> shows it (Some (i, j)) ->
  row_latency since until it = Ok (let us := us_of j - us_of i in
    if in_window since until (us_of i) && (0 <=? us) then Some (latency_ms us) else None).
Proof.
  intros Hs Hu H. inv H. unfold row_latency.
  match goal with H : get_S it "created_at" = _ |- _ => rewrite H end.
  match goal with H : get_S it "dispatched_at" = _ |- _ => rewrite H end.
  cbn [res_of_option mbind res_bind]. rewrite !parse_stamp by done. cbn [mbind res_bind].
  assert (Es : match since with Some b => dt_lt (mkDatetime (us_of i) (Some 0)) b | None => mret false end =
    Ok (negb match since with Some b => utc_us b <=? us_of i | None => true end)).
  { destruct since as [b|]; [|done]. rewrite (proj1 (aware_lt (us_of i) b Hs)). f_equal. by rewrite Z.leb_antisym, negb_involutive. }
  assert (Eu : match until with Some b => dt_lt b (mkDatetime (us_of i) (Some 0)) | None => mret false end =
    Ok (negb match until with Some b => us_of i <=? utc_us b | None => true end)).
  { destruct until as [b|]; [|done]. rewrite (proj2 (aware_lt (us_of i) b Hu)). f_equal. by rewrite Z.leb_antisym, negb_involutive. }
  unfold in_window. set (c1 := match since with Some b => utc_us b <=? us_of i | None => true end) in *.
  set (c2 := match until with Some b => us_of i <=? utc_us b | None => true end) in *.
  rewrite Es. cbn [mbind res_bind]. destruct c1; [|done]. cbn [negb]. rewrite Eu. cbn [mbind res_bind]. destruct c2; [|done].
  cbn [negb andb]. unfold dt_sub, dt_minus. cbn [dt_offset dt_local mbind res_bind]. rewrite !Z.sub_0_r, latency_sign. done.
Qed.

Lemma collect_item_shows since until acc it r :
  aware since -> aware until -> shows it r -> collect_item since until acc it = Ok (acc ++ latencies_of since until [r]).
Proof.
  intros Hs Hu H. unfold collect_item. destruct r as [[i j]|].
  - rewrite (row_latency_task since until it i j Hs Hu H). unfold latencies_of. simpl.
    destruct (in_window since until (us_of i) && (0 <=? us_of j - us_of i)); simpl; [done|]. by rewrite app_nil_r.
  - unfold latencies_of. simpl. rewrite app_nil_r. inv H; unfold row_latency.
    + match goal with H : get_S it "created_at" = _ |- _ => rewrite H end. cbn [res_of_option mbind res_bind].
      rewrite parse_stamp by done. cbn [mbind res_bind].
      match goal with H : get_S it "dispatched_at" = _ |- _ => by rewrite H end.
    + match goal with H : get_S it "created_at" = _ |- _ => by rewrite H end.
Qed.

Lemma collect_items since until acc items rows :
  aware since -> aware until -> Forall2 shows items rows ->
  fold_res (collect_item since until) acc items = Ok (acc ++ latencies_of since until rows).
Proof.
  intros Hs Hu H. revert acc. induction H as [|it r items rows Hr _ IH]; intros acc; [cbn; by rewrite app_nil_r|].
  cbn [fold_res]. rewrite (collect_item_shows since until acc it r Hs Hu Hr). cbn [mbind res_bind]. rewrite IH, <- app_assoc.
  do 2 f_equal. change (r :: rows) with ([r] ++ rows). unfold latencies_of. by rewrite omap_app.
Qed.

(** ** Lags *)

(** The lags a log was told by a leader with peers, in order. *)
Definition lag_report (e : event) : option (list (string * Z)) :=
  match e with
  | Ev c r => match c as c' return resp c' -> option (list (string * Z)) with
              | CHttpState _ => fun r => match r with
                  | inr doc => if is_leader_doc doc then
                                 match lags_of doc with [] => None | lag => Some lag end
                               else None
                  | inl _ => None end
              | _ => fun _ => None
              end r
  end.

Definition lag_reports (l : history) : list (list (string * Z)) := omap lag_report l.

Lemma lag_reports_app l1 l2 : lag_reports (l1 ++ l2) = lag_reports l1 ++ lag_reports l2.
Proof. apply omap_app. Qed.

Lemma replication_lag_run `{E : Env} {S} url (s : S) h :
  exists lag l, collect_replication_lag url s h = (Ok lag, s, h ++ l) /\
    lag_reports l = match lag with [] => [] | _ => [lag] end.
Proof.
  unfold collect_replication_lag. destruct (truthy url); [|exists [], []; by rewrite app_nil_r].
  unfold try_except, check, ask, mbind, M_bind.
  destruct (answer h (CHttpState (state_url url))) as [e|doc] eqn:Ea; cbn; [by eexists [], _|].
  destruct (is_leader_doc doc) eqn:Ed; cbn; (eexists _, _; split; [reflexivity|]); cbn; rewrite Ed; [|done].
  by destruct (lags_of doc).
Qed.

Lemma leader_lag_run `{E : Env} {S} addrs (s : S) h :
  exists lag l, find_leader_lag addrs s h = (Ok lag, s, h ++ l) /\
    lag_reports l = match lag with [] => [] | _ => [lag] end.
Proof.
  revert h. induction addrs as [|addr rest IH]; intros h; [exists [], []; by rewrite app_nil_r|].
  cbn [find_leader_lag]. destruct (replication_lag_run addr s h) as (lag & l & H & Hl).
  unfold mbind at 1, M_bind at 1. rewrite H. destruct lag as [|p lag]; [|by exists (p :: lag), l].
  set (h1 := h ++ l). unfold try_except, check, ask, mbind, M_bind.
  destruct (answer h1 (CHttpGet (state_url addr))) as [e|doc]; cbn.
  - destruct (IH (h1 ++ [Ev (CHttpGet (state_url addr)) (inl e)])) as (lag & l' & -> & Hl').
    eexists lag, _. subst h1. rewrite <- !app_assoc. split; [done|]. by rewrite !lag_reports_app, Hl, Hl'.
  - destruct (is_leader_doc doc); cbn.
    + eexists [], _. subst h1. rewrite <- app_assoc. split; [done|]. by rewrite lag_reports_app, Hl.
    + destruct (IH (h1 ++ [Ev (CHttpGet (state_url addr)) (inr doc)])) as (lag & l' & -> & Hl').
      eexists lag, _. subst h1. rewrite <- !app_assoc. split; [done|]. by rewrite !lag_reports_app, Hl, Hl'.
Qed.

(** ** Percentiles of the row *)

Lemma round2_mono x y : is_fin x = true -> is_fin y = true -> fle x y = true -> fle (round2 x) (round2 y) = true.
Proof.
  destruct x as [| |p]; [done|done|]. destruct y as [| |q]; [done|done|]. intros _ _ H%Qle_bool_iff. apply rnd_mono.
  apply Qmult_le_compat_r; [|done]. rewrite <- Zle_Qle. apply rheQ_mono. nra.
Qed.

Definition number_in (row : fields) (k : string) : float := match field row k with JFloat x => x | _ => NaN end.

(** ** Properties *)

(** C29: the latencies are those of the window.  For rows with the stamps the
    services write, complete or not, the collector returns the dispatch latencies
    of exactly the tasks created within the bounds and dispatched no earlier than
    created, in ascending order. *)
Theorem latencies_exact `{E : Env} {S} (table : string) (since until : option datetime) (pages : list (list item))
    (rows : list (option (instant * instant))) (s : S) (h : history) :
  let scan := CDdbScanPages table "attribute_exists(dispatched_at) AND attribute_exists(created_at)" in
  answer h scan = inr pages -> aware since -> aware until -> Forall2 shows (concat pages) rows ->
  collect_latencies table since until s h =
    (Ok (sorted (latencies_of since until rows)), s, h ++ [Ev scan (answer h scan)]).
Proof.
  intros scan Ha Hs Hu Hrows. unfold collect_latencies, check, ask, lift, mbind, M_bind. fold scan. rewrite Ha. cbn.
  by rewrite (collect_items since until [] _ rows Hs Hu Hrows).
Qed.

(** Percentiles are ordered.  Over sorted finite latencies the reported
    percentiles are samples rounded to two decimals, and the row shows
    minimum <= p50 <= p95 <= p99 <= maximum. *)
Theorem percentiles_ordered (a : args) (qs : list Q) (collected_at : string) (lag_map : list (string * Z)) :
  countable_size (Z.of_nat (length qs)) ->
  let row := result_row a (sorted (map Fin qs)) collected_at lag_map in
  fle (number_in row "min_ms") (number_in row "p50_ms") = true /\
  fle (number_in row "p50_ms") (number_in row "p95_ms") = true /\
  fle (number_in row "p95_ms") (number_in row "p99_ms") = true /\
  fle (number_in row "p99_ms") (number_in row "max_ms") = true /\
  forall p, p = 50 \/ p = 95 \/ p = 99 -> exists q, q ∈ qs /\ pct_floor (sorted (map Fin qs)) p = Fin q.
Proof.
  intros Hn row. set (xs := sorted (map Fin qs)).
  assert (Hp : forall p, 0 <= p <= 100 -> exists q, q ∈ qs /\ pct_floor xs p = Fin q).
  { intros p Hp. destruct (pct_floor_at qs p Hn Hp) as (q & ? & ? & _). by exists q. }
  assert (Hfin : forall p, 0 <= p <= 100 -> is_fin (pct_floor xs p) = true).
  { intros p B. by destruct (Hp p B) as (q & _ & ->). }
  assert (Hext : is_fin (default (Fin 0) (min_of xs)) = true /\ is_fin (default (Fin 0) (max_of xs)) = true).
  { unfold xs. rewrite sorted_map. assert (Hne : isort Qle_bool qs <> []).
    { intros E. apply (f_equal length) in E. rewrite isort_length in E. destruct Hn. simpl in E. lia. }
    destruct (min_of_spec _ Hne) as (m & -> & _), (max_of_spec _ Hne) as (r & -> & _). done. }
  destruct (pct_floor_extremes qs 50 Hn) as [Hmin _]; [lia|]. destruct (pct_floor_extremes qs 99 Hn) as [_ Hmax]; [lia|].
  unfold row, number_in, field. cbn -[round2 pct_floor sorted max_of min_of fle].
  repeat split; try (apply round2_mono; [try apply Hfin; try apply Hext; lia..|]).
  - exact Hmin.
  - apply pct_floor_mono; [done|lia|lia].
  - apply pct_floor_mono; [done|lia|lia].
  - exact Hmax.
  - intros p Hp3. apply Hp. lia.
Qed.

(** The lag is the leader's.  Looking for the leader's lag never raises, and
    returns the lags of the first leader with peers that answered, or nothing when
    none did. *)
Theorem leader_lag_spec `{E : Env} {S} (addrs : list string) (s : S) (h : history) :
  exists lag l, find_leader_lag addrs s h = (Ok lag, s, h ++ l) /\
    lag_reports l = match lag with [] => [] | _ => [lag] end.
Proof. apply leader_lag_run. Qed.

(** A table with a dispatched task, a waiting one and a row without stamps. *)
Definition dispatched_instant : instant := mkInstant 2026 4 19 6 6 37 "5".

Definition rows_env : Env := fun h c =>
  match c as c' return resp c' with
  | CDdbScanPages _ _ =>
      inr [[{[ "created_at"%string := AS (stamp sample_instant); "dispatched_at"%string := AS (stamp dispatched_instant) ]}];
           [{[ "created_at"%string := AS (stamp sample_instant) ]}; ∅]]
  | c' => default_answer c'
  end.

Definition since_6h : datetime := mkDatetime (us_of (mkInstant 2026 4 19 6 0 0 "")) (Some 0).

Lemma latencies_exact_witness :
  exists l, collect_latencies (H := rows_env) "tasks" (Some since_6h) None tt [] =
    (Ok (sorted (latencies_of (Some since_6h) None [Some (sample_instant, dispatched_instant); None; None])), tt, l).
Proof.
  eexists. apply (latencies_exact (E := rows_env) "tasks" (Some since_6h) None
    [[{[ "created_at"%string := AS (stamp sample_instant); "dispatched_at"%string := AS (stamp dispatched_instant) ]}];
     [{[ "created_at"%string := AS (stamp sample_instant) ]}; ∅]] _ tt []); [done|done|done|].
  apply Forall2_cons. split; [|apply Forall2_cons; split; [|apply Forall2_cons; split; [|by apply Forall2_nil]]].
  - apply (shows_task _ sample_instant dispatched_instant); [exact sample_valid| |by vm_compute..].
    repeat split; try (vm_compute; congruence); done.
  - apply (shows_undispatched _ sample_instant); [exact sample_valid|by vm_compute..].
  - by apply shows_uncreated.
Defined.

Example sample_latency :
  latencies_of (Some since_6h) None [Some (sample_instant, dispatched_instant); None; None] = [latency_ms 1376544].
Proof. by vm_compute. Qed.

Definition sample_args : args := mkArgs "tasks" "3node" "" 4 0 (Fin (60 # 1)) None None.

Lemma percentiles_ordered_witness :
  let row := result_row sample_args (sorted (map Fin [(30 # 1); (10 # 1); (20 # 1)]%Q)) "now" [] in
  fle (number_in row "min_ms") (number_in row "p50_ms") = true /\
  fle (number_in row "p50_ms") (number_in row "p95_ms") = true /\
  fle (number_in row "p95_ms") (number_in row "p99_ms") = true /\
  fle (number_in row "p99_ms") (number_in row "max_ms") = true /\
  forall p, p = 50 \/ p = 95 \/ p = 99 -> exists q, q ∈ [(30 # 1); (10 # 1); (20 # 1)]%Q /\
    pct_floor (sorted (map Fin [(30 # 1); (10 # 1); (20 # 1)]%Q)) p = Fin q.
Proof. apply (percentiles_ordered sample_args [(30 # 1); (10 # 1); (20 # 1)]%Q "now" []). split; [done|reflexivity]. Defined.
