(* ===== verification/Results.v ===== *)
(** * Results: the results file of experiment 2

    The collector appends its row to a CSV file (collect.py, end of [main]);
    plot_exp2.py reads the file.  Runs with the same columns are read back as they
    were written, and the plots show the collected figures. *)

From stdpp Require Import base gmap list strings.
From Stdlib Require Import ZArith QArith.QArith_base.
From S2P Require Import Prelude PyFloat PyStr PyDict Json Draw Runtime Csv History Stats Collect PlotExp2.

Local Open Scope Z_scope.
Local Open Scope driftless_scope.

(** ** Writing the row *)

(** [str(v)] of a value, as the CSV writer shows it. *)
Definition cell_text (v : json) : string :=
  match v with
  | JStr s => s
  | JInt z => str_of_Z z
  | JFloat x => num_str (inr x)
  | JBool b => if b then "True" else "False"
  | JNull => ""
  | _ => dumps v
  end.

Definition row_cells (row : fields) : list string := map (fun p => cell_text p.2) row.

(** What is appended to a file of the given size. *)
Definition appended_text (size : option Z) (row : fields) : string :=
  let write_header := match size with None => true | Some n => n =? 0 end in
  (if write_header then writerow (dict_keys row) else "") ^^ writerow (row_cells row).

Definition write_result `{Env} {S} (output : string) (row : fields) : M S unit :=
  if String.eqb output "-" then
    tell (Ev (CStdout (writerow (dict_keys row))) tt);;
    tell (Ev (CStdout (writerow (row_cells row))) tt)
  else
    size ← ask (CFileSize output);
    check (ask (CAppendFile output (appended_text size row))).

(** [main]; without latencies it ends before a row is written. *)
Definition main `{Env} {S} (a : args) (output : string) : M S unit :=
  row ← collect_main a;
  match row with
  | None => mret tt
  | Some row => write_result output row
  end.

(** ** The file *)

(** The text of a file that a log has appended to; [None] before the first time. *)
Definition append_to (path : string) (text : option string) (e : event) : option string :=
  match e with
  | Ev c r => match c as c' return resp c' -> option string with
              | CAppendFile p t => fun r => match r with
                  | inr tt => if String.eqb p path then Some (default ""%string text ^^ t) else text
                  | inl _ => text end
              | _ => fun _ => text
              end r
  end.

Definition file_text (path : string) (h : history) : option string := fold_left (append_to path) h None.

Definition size_of (text : option string) : option Z := (fun t => Z.of_nat (String.length t)) <$> text.

(** The file system holds what was appended to the file, and nobody else writes it. *)
Record keeps (E : Env) (path : string) : Prop := {
  keeps_size h : E h (CFileSize path) = size_of (file_text path h);
  keeps_append h t : E h (CAppendFile path t) = inr tt;
  keeps_read h t : file_text path h = Some t -> E h (CReadFile path) = inr t;
}.

(** The rows of a file as the reader shows them. *)
Definition shown (row : fields) : dict_row := mkDictRow (map (fun p => (p.1, Some (cell_text p.2))) row) [].

(** ** Lemmas *)

Lemma file_text_app path h l : file_text path (h ++ l) = fold_left (append_to path) l (file_text path h).
Proof. unfold file_text. apply fold_left_app. Qed.

Lemma length_pos_writerow l : (0 < String.length (writerow l))%nat.
Proof. unfold writerow. rewrite length_append. simpl. lia. Qed.

Lemma size_nonempty t : (0 < String.length t)%nat -> (match size_of (Some t) with None => true | Some n => n =? 0 end) = false.
Proof. intros H. simpl. apply Z.eqb_neq. lia. Qed.

Lemma write_result_run `{E : Env} {S} (path : string) (row : fields) (s : S) h :
  keeps E path -> path <> "-"%string ->
  exists l, write_result path row s h = (Ok tt, s, h ++ l) /\
    file_text path (h ++ l) = Some (default "" (file_text path h) ^^ appended_text (size_of (file_text path h)) row).
Proof.
  intros [Hs Ha _] Hp. unfold write_result. apply String.eqb_neq in Hp. rewrite Hp. unfold ask, check, mbind, M_bind, mret, M_ret, answer.
  rewrite Hs, Ha. eexists. rewrite <- app_assoc. split; [done|]. rewrite file_text_app. cbn [app fold_left append_to].
  by rewrite String.eqb_refl.
Qed.

(** A file is a table: a header and rows with its columns. *)
Definition rows_text (rows : list fields) : string := foldr String.append "" (map (fun r => writerow (row_cells r)) rows).

Definition table_of (keys : list string) (rows : list fields) : string := writerow keys ^^ rows_text rows.

Lemma table_snoc keys rows row : table_of keys (rows ++ [row]) = table_of keys rows ^^ writerow (row_cells row).
Proof.
  unfold table_of, rows_text. rewrite append_assoc. f_equal. induction rows as [|r rows IH]; [exact (append_nil_r _)|]. cbn [app map foldr].
  by rewrite IH, append_assoc.
Qed.

Lemma table_nonempty keys rows : (0 < String.length (table_of keys rows))%nat.
Proof. unfold table_of. rewrite length_append. pose proof (length_pos_writerow keys). lia. Qed.

(** Appending to a table that exists. *)
Lemma append_rows `{E : Env} {S} path keys (rows : list fields) : keeps E path -> path <> "-"%string ->
  forall old (s : S) h, file_text path h = Some (table_of keys old) ->
  exists l, for_each rows (write_result path) s h = (Ok tt, s, h ++ l) /\
    file_text path (h ++ l) = Some (table_of keys (old ++ rows)).
Proof.
  intros HK Hp. induction rows as [|row rows IH]; intros old s h Hf.
  { exists []. by rewrite !app_nil_r. }
  cbn [for_each]. destruct (write_result_run path row s h HK Hp) as (l & E1 & F1). unfold mbind, M_bind. rewrite E1.
  rewrite Hf in F1. unfold appended_text in F1. rewrite (size_nonempty _ (table_nonempty keys old)) in F1.
  cbn [default from_option id] in F1. rewrite append_nil_l, <- table_snoc in F1.
  destruct (IH (old ++ [row]) s (h ++ l) F1) as (l' & E2 & F2). exists (l ++ l'). rewrite E2, app_assoc. split; [done|].
  rewrite F2, <- app_assoc. done.
Qed.

(** The first run writes the header. *)
Lemma first_rows `{E : Env} {S} path row (rows : list fields) (s : S) h : keeps E path -> path <> "-"%string ->
  file_text path h = None ->
  exists l, for_each (row :: rows) (write_result path) s h = (Ok tt, s, h ++ l) /\
    file_text path (h ++ l) = Some (table_of (dict_keys row) (row :: rows)).
Proof.
  intros HK Hp Hf. cbn [for_each]. destruct (write_result_run path row s h HK Hp) as (l & E1 & F1). unfold mbind, M_bind. rewrite E1.
  rewrite Hf in F1. change (appended_text (size_of None) row) with (writerow (dict_keys row) ^^ writerow (row_cells row)) in F1.
  cbn [default from_option id] in F1. rewrite append_nil_l in F1.
  destruct (append_rows path (dict_keys row) rows HK Hp [row] s (h ++ l)) as (l' & E2 & F2).
  { rewrite F1. unfold table_of, rows_text. cbn [map foldr]. by rewrite append_nil_r. }
  exists (l ++ l'). rewrite E2, app_assoc. split; [done|exact F2].
Qed.

Lemma load_csv_run `{E : Env} {S} path t (s : S) h : keeps E path -> file_text path h = Some t ->
  load_csv path s h = (dict_reader t, s, h ++ [Ev (CReadFile path) (inr t)]).
Proof.
  intros HK Hf. unfold load_csv, read_file, check, ask, lift, mbind, M_bind, mret, M_ret, answer.
  by rewrite (keeps_read _ _ HK h t Hf).
Qed.

Lemma shown_zip row : zip (dict_keys row) (map Some (row_cells row)) = map (fun p => (p.1, Some (cell_text p.2))) row.
Proof. unfold dict_keys, row_cells. induction row as [|[k v] row IH]; [done|]. simpl. f_equal. apply IH. Qed.

(** Rows that the file format carries: the columns of the table, no carriage return. *)
Definition fits (keys : list string) (row : fields) : Prop :=
  dict_keys row = keys /\ forallb no_cr (row_cells row) = true.

Lemma read_table keys rows : keys <> [] -> NoDup keys -> forallb no_cr keys = true -> Forall (fits keys) rows ->
  dict_reader (table_of keys rows) = Ok (map shown rows).
Proof.
  intros Hne Hnd Hcr Hrows. unfold table_of, rows_text. rewrite <- (map_map row_cells writerow).
  fold (csv_text keys (map row_cells rows)). rewrite dict_reader_written; [|done..|].
  - rewrite map_map. f_equal. apply map_ext_in. intros row Hr. apply list_elem_of_In in Hr. rewrite Forall_forall in Hrows.
    destruct (Hrows row Hr) as [<- _]. unfold shown. by rewrite shown_zip.
  - intros r Hr. apply list_elem_of_In, in_map_iff in Hr as (row & <- & Hr). apply list_elem_of_In in Hr.
    rewrite Forall_forall in Hrows. destruct (Hrows row Hr) as [<- ?]. split; [|done]. unfold row_cells, dict_keys. by rewrite !length_map.
Qed.

(** ** The plotted figures *)

(** A run of the collector. *)
Record run : Type := mkRun { r_args : args; r_latencies : list float; r_collected_at : string; r_lags : list (string * Z) }.

Definition row_of (r : run) : fields := result_row (r_args r) (r_latencies r) (r_collected_at r) (r_lags r).

(** The columns of a run: the peers of the leader follow the fixed ones. *)
Definition peers (r : run) : list string := map fst (sorted_lags (r_lags r)).

Definition fixed_columns : list string :=
  ["label"; "n"; "p50_ms"; "p95_ms"; "p99_ms"; "max_ms"; "min_ms"; "submitted"; "failed"; "actual_rate_tpm"; "collected_at"]%string.

Definition columns (ps : list string) : list string := fixed_columns ++ map (fun p => "rep_lag_" ^^ p) ps.

Definition run_rate (rate : Z) (r : run) : bool := endswith (a_label (r_args r)) ("_" ^^ str_of_Z rate ^^ "tpm").

(** A figure of a run, and its value. *)
Definition figure_of (field : string) (r : run) : json := default JNull (dict_get (row_of r) field).

(** The text of a figure reads back as a float: what [repr] and [float] promise. *)
Definition figure_reads (field : string) (r : run) : bool :=
  match as_number (figure_of field r), float_of_str (cell_text (figure_of field r)) with
  | Some x, Some y => same_float (num_float x) y
  | _, _ => false
  end.

Definition figure_value (field : string) (r : run) : float :=
  match as_number (figure_of field r) with Some x => num_float x | None => NaN end.

Lemma row_keys r : dict_keys (row_of r) = columns (peers r).
Proof.
  unfold row_of, result_row, columns, peers, dict_keys. rewrite map_app. f_equal. by rewrite !map_map.
Qed.

Lemma columns_NoDup ps : NoDup ps -> NoDup (columns ps).
Proof.
  intros H. apply NoDup_app. split; [apply NoDup_ListNoDup; repeat constructor; simpl; intuition discriminate|]. split.
  - intros k Hk Hp. apply list_elem_of_In, in_map_iff in Hp as (p & <- & _).
    repeat (apply elem_of_cons in Hk as [Hk|Hk]; [discriminate|]). by apply elem_of_nil in Hk.
  - by apply (NoDup_fmap_2 (fun p => "rep_lag_" ^^ p)).
Qed.

Lemma get_shown_cell row k : dict_get (dr_cells (shown row)) k = (fun v => Some (cell_text v)) <$> dict_get row k.
Proof.
  unfold shown. cbn [dr_cells]. induction row as [|[k' v] row IH]; [done|]. cbn [map dict_get fst snd].
  by destruct (decide (k = k')).
Qed.

Lemma same_float_eq x y : same_float x y = true -> x = y.
Proof. destruct x as [| |[n d]], y as [| |[n' d']]; try done. simpl. by intros [->%Z.eqb_eq ->%Pos.eqb_eq]%andb_prop. Qed.

(** What [get] finds in the rows of runs: the figure of the first run of the rate. *)
Lemma get_runs rate field (runs : list run) : Forall (fun r => figure_reads field r = true) runs ->
  get (map shown (map row_of runs)) rate field =
  Ok (match List.find (run_rate rate) runs with Some r => figure_value field r | None => Fin 0 end).
Proof.
  induction 1 as [|r runs Hr _ IH]; [done|]. cbn [map get List.find].
  assert (El : has_rate (shown (row_of r)) rate = Ok (run_rate rate r)) by (unfold has_rate, cell; by rewrite get_shown_cell).
  rewrite El. cbn [mbind res_bind]. destruct (run_rate rate r); [|exact IH].
  unfold float_cell, cell. rewrite get_shown_cell. unfold figure_reads, figure_value, figure_of in *.
  destruct (dict_get (row_of r) field) as [v|]; [|done]. cbn [default from_option id] in *. cbn [fmap option_fmap option_map res_of_option mbind res_bind].
  destruct (as_number v) as [x|]; [|done]. destruct (float_of_str (cell_text v)) as [y|]; [|done].
  by apply same_float_eq in Hr as ->.
Qed.

(** A label ends with one rate at most. *)
Lemma split_string n (s : string) : (n <= String.length s)%nat ->
  s = String.substring 0 n s ^^ String.substring n (String.length s - n) s.
Proof.
  revert s. induction n as [|n IH]; intros s Hn.
  - rewrite Nat.sub_0_r. clear Hn. destruct s as [|c s]; [done|]. cbn [String.substring]. rewrite append_nil_l.
    induction s as [|d s IH] in c |- *; [done|]. cbn [String.length String.substring]. f_equal. apply IH.
  - destruct s as [|c s]; simpl in Hn; [lia|]. cbn [String.substring String.length Nat.sub]. rewrite append_cons. f_equal.
    apply IH. lia.
Qed.

Lemma endswith_split s t : endswith s t = true -> exists p, s = p ^^ t.
Proof.
  unfold endswith. intros [Hl%Nat.leb_le He%String.eqb_eq]%andb_prop.
  exists (String.substring 0 (String.length s - String.length t) s).
  rewrite (split_string (String.length s - String.length t) s) at 1 by lia. f_equal.
  by replace (String.length s - (String.length s - String.length t))%nat with (String.length t) by lia.
Qed.

Lemma suffix_of_suffix p q t u : p ^^ t = q ^^ u -> (String.length t <= String.length u)%nat -> exists r, u = r ^^ t.
Proof.
  revert q. induction p as [|c p IH]; intros q E Hl.
  - rewrite append_nil_l in E. subst t. rewrite length_append in Hl. destruct q; [|simpl in Hl; lia]. by exists ""%string.
  - destruct q as [|d q]; [exists (String c p); by rewrite E, append_nil_l|]. rewrite !append_cons in E. injection E as _ E. by apply (IH q).
Qed.

Lemma one_rate label rate rate' : endswith label ("_" ^^ str_of_Z rate ^^ "tpm") = true ->
  endswith label ("_" ^^ str_of_Z rate' ^^ "tpm") = true -> rate ∈ RATES -> rate' ∈ RATES -> rate = rate'.
Proof.
  intros [p H1]%endswith_split [q H2]%endswith_split I1 I2. rewrite H1 in H2.
  assert (K : forall a b r, a ∈ RATES -> b ∈ RATES -> "_" ^^ str_of_Z b ^^ "tpm" = r ^^ "_" ^^ str_of_Z a ^^ "tpm" -> a = b).
  { intros a b r Ia Ib E. unfold RATES in Ia, Ib. rewrite !elem_of_cons, elem_of_nil in Ia, Ib.
    destruct Ia as [->|[->|[->|[]]]], Ib as [->|[->|[->|[]]]]; try done; exfalso;
      apply (f_equal (fun s => (String.length s, s))) in E; destruct r as [|c [|d r]]; cbn in E;
      rewrite ?length_append in E; injection E; intros; try discriminate; cbn in *; lia. }
  destruct (Nat.le_ge_cases (String.length ("_" ^^ str_of_Z rate ^^ "tpm")) (String.length ("_" ^^ str_of_Z rate' ^^ "tpm"))) as [L|L].
  - destruct (suffix_of_suffix _ _ _ _ H2 L) as [r E]. by apply (K rate rate' r).
  - symmetry in H2. destruct (suffix_of_suffix _ _ _ _ H2 L) as [r E]. symmetry. by apply (K rate' rate r).
Qed.

(** A run whose figures are finite and read back, in a file with the columns of [ps]. *)
Definition sane_run (ps : list string) (r : run) : Prop :=
  peers r = ps /\ forallb no_cr (row_cells (row_of r)) = true /\
  forallb (fun field => figure_reads field r && is_fin (figure_value field r)) plotted_fields = true.

Definition results_text (ps : list string) (runs : list run) : string := table_of (columns ps) (map row_of runs).

Lemma read_runs ps (runs : list run) : NoDup ps -> forallb no_cr (columns ps) = true -> Forall (sane_run ps) runs ->
  dict_reader (results_text ps runs) = Ok (map shown (map row_of runs)).
Proof.
  intros Hnd Hcr Hall. apply read_table; [done|by apply columns_NoDup|done|]. apply Forall_fmap. eapply Forall_impl; [exact Hall|].
  intros r (Hp & Hc & _). split; [|done]. by rewrite row_keys, Hp.
Qed.

Lemma runs_sound ps (runs : list run) : Forall (sane_run ps) runs -> sound (map shown (map row_of runs)).
Proof.
  intros Hall field rate Hf.
  assert (K : Forall (fun r => figure_reads field r = true /\ is_fin (figure_value field r) = true) runs).
  { eapply Forall_impl; [exact Hall|]. intros r (_ & _ & Hr). rewrite forallb_forall in Hr. apply andb_prop, Hr. by apply list_elem_of_In. }
  rewrite get_runs by (eapply Forall_impl; [exact K|by intros ? [? _]]). destruct (List.find (run_rate rate) runs) as [r|] eqn:E; [|by eexists].
  apply find_some in E as [Hr _]. rewrite Forall_forall in K. destruct (K r) as [_ Hfin]; [by apply list_elem_of_In|].
  destruct (figure_value field r); try done. by eexists.
Qed.

(** ** Properties *)

(** C10: the results file is read back as it was written.  When runs with the same columns append their rows to a file
    that did not exist, the plots' [load_csv] yields exactly these rows, in order, under their columns: commas, quotes
    and line feeds in the values included (a carriage return is what text mode would rewrite). *)
Theorem results_read_back `{E : Env} {S} (path : string) (row : fields) (rows : list fields) (s : S) (h : history) :
  keeps E path -> path <> "-"%string -> file_text path h = None ->
  dict_keys row <> [] -> NoDup (dict_keys row) -> forallb no_cr (dict_keys row) = true ->
  Forall (fits (dict_keys row)) (row :: rows) ->
  exists h', for_each (row :: rows) (write_result path) s h = (Ok tt, s, h') /\
    (load_csv path s h').1.1 = Ok (map shown (row :: rows)).
Proof.
  intros HK Hp Hf Hne Hnd Hcr Hrows. destruct (first_rows path row rows s h HK Hp Hf) as (l & E1 & F1).
  exists (h ++ l). split; [done|]. rewrite (load_csv_run path _ s _ HK F1). by apply read_table.
Qed.

(** C26: the plots show what was collected.  After runs with the same peers appended their rows to a new file, the plot
    of a figure shows, for each target rate, the figure of the first run labelled with that rate, and 0 where no run
    has it; no label counts for two rates. *)
Theorem plots_show_runs `{E : Env} {S} (path field : string) (r : run) (runs : list run) (s : S) (h : history) :
  keeps E path -> path <> "-"%string -> file_text path h = None ->
  NoDup (peers r) -> forallb no_cr (columns (peers r)) = true ->
  Forall (fun r' => peers r' = peers r /\ forallb no_cr (row_cells (row_of r')) = true /\ figure_reads field r' = true) (r :: runs) ->
  exists h' rows, for_each (map row_of (r :: runs)) (write_result path) s h = (Ok tt, s, h') /\
    (load_csv path s h').1.1 = Ok rows /\
    at_rates rows field =
      Ok (map (fun rate => match List.find (run_rate rate) (r :: runs) with Some r' => figure_value field r' | None => Fin 0 end) RATES) /\
    forall r' rate rate', run_rate rate r' = true -> run_rate rate' r' = true -> rate ∈ RATES -> rate' ∈ RATES -> rate = rate'.
Proof.
  intros HK Hp Hf Hnd Hcr Hall. destruct (first_rows path (row_of r) (map row_of runs) s h HK Hp Hf) as (l & E1 & F1).
  exists (h ++ l), (map shown (map row_of (r :: runs))). split; [exact E1|]. split; [|split].
  - rewrite (load_csv_run path _ s _ HK F1). cbn [fst]. rewrite row_keys. apply (read_table _ (map row_of (r :: runs)));
      [done|by apply columns_NoDup|done|].
    apply Forall_fmap. eapply Forall_impl; [exact Hall|]. intros r' (Hpeers & Hc & _). split; [|done]. by rewrite row_keys, Hpeers.
  - unfold at_rates. apply map_res_ok. intros rate _. apply get_runs. eapply Forall_impl; [exact Hall|]. by intros r' (_ & _ & ?).
  - intros r' rate rate' H1 H2 I1 I2. by apply (one_rate (a_label (r_args r'))).
Qed.

(** The plots never fail on collected results.  Given two results files written by runs with finite figures,
    plot_exp2.py draws and saves its five figures, in order, whatever the labels of the runs, the rates that are missing
    and the validity of the five-node latencies. *)
Theorem plots_drawn `{E : Env} {S} (p3 p5 : string) (argv ps3 ps5 : list string) (runs3 runs5 : list run) (s : S) (h : history) :
  (forall h, answer h (CReadFile p3) = inr (results_text ps3 runs3)) ->
  (forall h, answer h (CReadFile p5) = inr (results_text ps5 runs5)) ->
  NoDup ps3 -> NoDup ps5 -> forallb no_cr (columns ps3) = true -> forallb no_cr (columns ps5) = true ->
  Forall (sane_run ps3) runs3 -> Forall (sane_run ps5) runs5 ->
  exists l, plot_exp2 (p3 :: p5 :: argv) s h = (Ok tt, s, h ++ l) /\
    figures_saved l = map (path_join RESULTS) ["fig1_throughput.png"; "fig2_latency_percentiles.png";
      "fig3_latency_breakdown.png"; "fig4_scorecard.png"; "fig5_cluster_comparison.png"]%string.
Proof.
  intros A3 A5 N3 N5 C3 C5 R3 R5. eapply plot_exp2_run; [exact A3|exact A5|by apply read_runs|by apply read_runs|by eapply runs_sound..].
Qed.

(** ** Concrete runs *)

(** A file system: one file per path, written by this program only. *)
Definition file_env : Env := fun h c =>
  match c as c' return resp c' with
  | CFileSize p => size_of (file_text p h)
  | CAppendFile _ _ => inr tt
  | CReadFile p => match file_text p h with Some t => inr t | None => inl (Exn OtherError ("No such file: " ^^ p)) end
  | c' => default_answer c'
  end.

Lemma file_env_keeps path : keeps file_env path.
Proof. split; [done|done|]. intros h t H. unfold file_env. by rewrite H. Qed.

Definition sample_run (label : string) (rate : Q) (latencies : list Q) (lags : list (string * Z)) : run :=
  mkRun (mkArgs "tasks" label "" 200 0 (Fin rate) None None) (sorted (map Fin latencies)) "2026-04-21T00:15:13+00:00" lags.

Definition run_100 : run :=
  sample_run "3node, first_100tpm" (991 # 10) [(5 # 2); (1 # 1); (1204 # 1)]%Q [("coordinator-b", 3); ("coordinator-c", 0)]%string.
Definition run_500 : run :=
  sample_run "3node_500tpm" (4987 # 10) [(8 # 1); (17 # 4)]%Q [("coordinator-c", 1); ("coordinator-b", 2)]%string.

Lemma results_read_back_witness :
  exists h', for_each [row_of run_100; row_of run_500] (write_result (H := file_env) "exp2.csv") tt [] = (Ok tt, tt, h') /\
    (load_csv (H := file_env) "exp2.csv" tt h').1.1 = Ok (map shown [row_of run_100; row_of run_500]).
Proof.
  apply (results_read_back (E := file_env) "exp2.csv" (row_of run_100) [row_of run_500] tt []); [apply file_env_keeps|done|done|done| |done|].
  - rewrite row_keys. apply columns_NoDup. vm_compute. apply NoDup_ListNoDup. repeat constructor; simpl; intuition discriminate.
  - repeat constructor; vm_compute; reflexivity.
Defined.

Lemma plots_show_runs_witness :
  exists h' rows, for_each (map row_of [run_100; run_500]) (write_result (H := file_env) "exp2.csv") tt [] = (Ok tt, tt, h') /\
    (load_csv (H := file_env) "exp2.csv" tt h').1.1 = Ok rows /\
    at_rates rows "p95_ms" = Ok [Fin (1204 # 1); Fin (8 # 1); Fin 0].
Proof.
  destruct (plots_show_runs (E := file_env) "exp2.csv" "p95_ms" run_100 [run_500] tt []) as (h' & rows & E1 & E2 & E3 & _);
    [apply file_env_keeps|done|done| |done| |].
  - vm_compute. apply NoDup_ListNoDup. repeat constructor; simpl; intuition discriminate.
  - repeat constructor; vm_compute; reflexivity.
  - exists h', rows. split; [exact E1|]. split; [exact E2|]. rewrite E3. vm_compute. reflexivity.
Defined.

(** The header is written once.  When the peers of a later run differ, its lags stand under the wrong ones. *)
Example lags_misaligned :
  let late := sample_run "3node_1000tpm" (999 # 1) [(8 # 1)]%Q [("coordinator-a", 7); ("coordinator-b", 2)]%string in
  let text := table_of (dict_keys (row_of run_500)) [row_of run_500; row_of late] in
  match dict_reader text with
  | Ok [_; r] => dict_get (dr_cells r) "rep_lag_coordinator-b" = Some (Some "7"%string)
  | _ => False
  end.
Proof. vm_compute. reflexivity. Qed.

Definition plots_env : Env := fun h c =>
  match c as c' return resp c' with
  | CReadFile p => inr (if String.eqb p "3node.csv" then results_text (peers run_100) [run_100; run_500] else results_text [] [])
  | c' => default_answer c'
  end.

Lemma plots_drawn_witness :
  exists l, plot_exp2 (H := plots_env) ["3node.csv"; "5node.csv"]%string tt [] = (Ok tt, tt, l) /\ length (figures_saved l) = 5%nat.
Proof.
  destruct (plots_drawn (E := plots_env) "3node.csv" "5node.csv" [] (peers run_100) [] [run_100; run_500] [] tt []) as (l & E & F);
    [done|done| |by apply NoDup_nil|vm_compute; reflexivity|vm_compute; reflexivity| |by apply Forall_nil|].
  - vm_compute. apply NoDup_ListNoDup. repeat constructor; simpl; intuition discriminate.
  - repeat constructor; vm_compute; reflexivity.
  - exists l. split; [exact E|]. by rewrite F.
Defined.
