(* ===== verification/Cli.v ===== *)
(** * Cli: the command lines of the programs

    What each program does with its arguments: chaos-bench/main.py, exp1.py, exp3.py and
    exp4.py, the scans, plot.py and the collector.  A [main] returns the exit code of the
    program; an environment of settings and the arguments after the program's name are its
    inputs.  What goes to the standard error is not modelled. *)

From stdpp Require Import base gmap list strings.
From Stdlib Require Import ZArith QArith.QArith_base.
From S2P Require Import Prelude PyFloat PyStr PyDict Json Argparse Runtime History BenchConfig LeaderDetect Faults.
From S2P Require Import Ledger Bench Scans Exp1Analysis Plot Exp1 Exp3 PlotExp3 Exp4 Collect Results.

Local Open Scope Z_scope.
Local Open Scope driftless_scope.

(** ** Reading the namespace *)

Section attributes.
Context `{E : Env} {S : Type} (ns : namespace).

(** [args.name]; [None] or a text. *)
Definition no_attr (name : string) : exn := Exn AttributeError name.

Definition attr_text (name : string) : M S (option string) :=
  match dict_get ns name with
  | Some VNone => mret None
  | Some (VStr s) => mret (Some s)
  | _ => raise (no_attr name)
  end.

Definition attr_str (name : string) : M S string :=
  match dict_get ns name with Some (VStr s) => mret s | _ => raise (no_attr name) end.

Definition attr_int (name : string) : M S Z :=
  match dict_get ns name with Some (VInt z) => mret z | _ => raise (no_attr name) end.

Definition attr_float (name : string) : M S float :=
  match dict_get ns name with Some (VFloat x) => mret x | _ => raise (no_attr name) end.
End attributes.

(** [name or datetime.utcnow().strftime(fmt)]. *)
Definition or_now `{E : Env} {S} (name : option string) (fmt : string) : M S string :=
  match name with
  | Some s => if truthy s then mret s else ask (CStrftime fmt)
  | None => ask (CStrftime fmt)
  end.

Definition print_json `{E : Env} {S} (v : json) : M S unit := tell (Ev (CPrintJson v) tt).

Definition number (p : positive) (q : positive) : arg_value := VFloat (Fin (Zpos p # q)).

Abbreviation settings := (string -> option string).

(** [ap.parse_args()] and what follows. *)
Definition with_args `{E : Env} {S} (o : outcome) (body : namespace -> M S Z) : M S Z :=
  match o with Exits code => mret code | Args ns => body ns end.

(** [args.cmd == name]. *)
Definition is_cmd (ns : namespace) (name : string) : bool :=
  match dict_get ns "cmd"%string with Some (VStr s) => String.eqb s name | _ => false end.

(** ** chaos-bench/main.py *)

Definition bench_parser : parser :=
  Parser [Opt "--rate" TFloat (number 100 1) false; Opt "--duration" TFloat (number 60 1) false;
          Opt "--payload-bytes" TInt (VInt 128) false; Opt "--priority" TInt (VInt 5) false;
          Opt "--timeout" TFloat (number 60 1) false; Opt "--run-name" TStr VNone false] None.

Definition chaos_parser : parser :=
  Parser [Opt "--leader-service" TStr VNone false]
         (Some (Pos "target" (Some ["kill_leader"; "kill_follower"; "kill_worker"]%string))).

Definition plot_parser : parser := Parser [] (Some (Pos "path" None)).

Definition main_commands : commands := [("bench", bench_parser); ("chaos", chaos_parser); ("plot", plot_parser)]%string.

Definition cmd_bench `{E : Env} {S} (fuel : nat) (env : settings) (ns : namespace) : M S Z :=
  let cfg := bench_from_env env in
  rate ← attr_float ns "rate";
  duration ← attr_float ns "duration";
  payload ← attr_int ns "payload_bytes";
  prio ← attr_int ns "priority";
  timeout ← attr_float ns "timeout";
  name ← attr_text ns "run_name";
  let params := {| rate_per_min := rate; duration_s := duration; payload_bytes := payload; priority := prio;
                   poll_interval_s := Fin (1 # 2); completion_timeout_s := timeout |} in
  run_name ← or_now name "run-%Y%m%dT%H%M%SZ";
  run_bench fuel cfg params run_name;;
  mret 0.

Definition kill_json (r : option KillResult) : json :=
  match r with
  | Some k => JObj [("service", JStr (kr_service k)); ("task_arn", JStr (kr_task_arn k)); ("killed_ns", JInt (kr_killed_ns k))]%string
  | None => JObj []
  end.

(** The service of the leader, given or detected; [None] when it is needed and nobody leads. *)
Definition leader_for `{E : Env} {S} (cfg : BenchConfig) (target : string) (given : option string)
    : M S (option (option string)) :=
  let needed := String.eqb target "kill_leader" || String.eqb target "kill_follower" in
  if needed && negb (match given with Some s => truthy s | None => false end) then
    info ← find_leader cfg;
    match info with
    | None => mret None
    | Some info => mret (Some (Some (li_ecs_service info)))
    end
  else mret (Some given).

Definition inject `{E : Env} {S} (cfg : BenchConfig) (target : string) (leader_service : option string)
    : M S (option (option KillResult)) :=
  if String.eqb target "kill_leader" then
    r ← kill_leader cfg (default ""%string leader_service); mret (Some r)
  else if String.eqb target "kill_follower" then
    r ← kill_follower cfg (followers_of cfg (default ""%string leader_service)); mret (Some r)
  else if String.eqb target "kill_worker" then
    r ← kill_worker cfg; mret (Some r)
  else mret None.

Definition cmd_chaos `{E : Env} {S} (env : settings) (ns : namespace) : M S Z :=
  let cfg := bench_from_env env in
  given ← attr_text ns "leader_service";
  target ← attr_str ns "target";
  leader ← leader_for cfg target given;
  match leader with
  | None => mret 3
  | Some leader_service =>
      r ← inject cfg target leader_service;
      match r with
      | None => mret 2
      | Some r => print_json (kill_json r);; mret 0
      end
  end.

Definition cmd_plot `{E : Env} {S} (np : numpy) (ns : namespace) : M S Z :=
  path ← attr_str ns "path";
  Plot.render np path;;
  mret 0.

Definition main `{E : Env} {S} (fuel : nat) (np : numpy) (env : settings) (argv : list string) : M S Z :=
  with_args (parse_command main_commands argv) (fun ns =>
    if is_cmd ns "bench" then cmd_bench fuel env ns
    else if is_cmd ns "chaos" then cmd_chaos env ns
    else cmd_plot np ns).

(** plot.py as a script. *)
Definition plot_main `{E : Env} {S} (np : numpy) (argv : list string) : M S Z :=
  match argv with
  | [path] => Plot.render np path;; mret 0
  | _ => mret 2
  end.

(** ** The scans as scripts *)

Definition dup_scan_main `{E : Env} {S} (fuel : nat) (env : settings) (argv : list string) : M S Z :=
  match argv with
  | [path] =>
      text ← read_file path;
      r ← dup_scan fuel (bench_from_env env) text;
      print_json (JObj (dup_to_dict r));;
      mret 0
  | _ => mret 2
  end.

Definition divergence_scan_main `{E : Env} {S} (fuel : nat) (env : settings) (argv : list string) : M S Z :=
  match argv with
  | [path] =>
      text ← read_file path;
      r ← divergence_scan fuel (bench_from_env env) text;
      print_json (JObj (divergence_to_dict r));;
      mret 0
  | _ => mret 2
  end.

(** ** exp1.py *)

Definition exp1_run_parser : parser :=
  Parser [Opt "--duration" TFloat (number 180 1) false; Opt "--rate" TFloat (number 300 1) false;
          Opt "--kill-period" TFloat (number 30 1) false; Opt "--run-name" TStr VNone false] None.

Definition history_parser : parser := Parser [] (Some (Pos "history_path" None)).

Definition exp1_repeat_parser : parser :=
  Parser [Opt "--iterations" TInt (VInt 5) false; Opt "--warmup" TFloat (number 120 1) false;
          Opt "--rate" TFloat (number 300 1) false; Opt "--group-name" TStr VNone false] None.

Definition exp1_commands : commands :=
  [("run", exp1_run_parser); ("analyze", history_parser); ("dups", history_parser); ("repeat", exp1_repeat_parser)]%string.

(** [os.path.dirname(path) or "."]. *)
Definition dir_of (path : string) : string := match dirname path with EmptyString => "."%string | d => d end.

Definition exp1_run `{E : Env} {S} (cfg : BenchConfig) (ns : namespace) : M S Z :=
  name ← attr_text ns "run_name";
  run_name ← or_now name "exp1-%Y%m%dT%H%M%SZ";
  duration ← attr_float ns "duration";
  rate ← attr_float ns "rate";
  period ← attr_float ns "kill_period";
  run_exp1 cfg run_name duration rate period;;
  mret 0.

Definition exp1_analyze `{E : Env} {S} (ns : namespace) : M S Z :=
  path ← attr_str ns "history_path";
  text ← read_file path;
  st ← lift (Exp1Analysis.analyze text);
  let stats := JObj (stats_fields st) in
  dump_json (path_join (dir_of path) "exp1_summary.json") stats;;
  print_json stats;;
  mret 0.

Definition exp1_dups `{E : Env} {S} (fuel : nat) (cfg : BenchConfig) (ns : namespace) : M S Z :=
  path ← attr_str ns "history_path";
  text ← read_file path;
  r ← dup_scan fuel cfg text;
  dump_json (path_join (dir_of path) "exp1_dups.json") (JObj (dup_to_dict r));;
  print_json (JObj (dup_to_dict r));;
  mret 0.

Definition exp1_repeat `{E : Env} {S} (fuel : nat) (cfg : BenchConfig) (ns : namespace) : M S Z :=
  name ← attr_text ns "group_name";
  group ← or_now name "exp1-repeat-%Y%m%dT%H%M%SZ";
  iterations ← attr_int ns "iterations";
  warmup ← attr_float ns "warmup";
  rate ← attr_float ns "rate";
  out ← run_exp1_repeat fuel cfg group iterations warmup rate;
  text ← read_file out;
  data ← lift (loads_doc text);
  match data with
  | JObj d => print_json (JObj (List.filter (fun p => negb (String.eqb p.1 "per_iteration")) d));; mret 0
  | _ => raise (Exn AttributeError "object has no attribute 'items'")
  end.

Definition exp1_main `{E : Env} {S} (fuel : nat) (env : settings) (argv : list string) : M S Z :=
  with_args (parse_command exp1_commands argv) (fun ns =>
    let cfg := bench_from_env env in
    if is_cmd ns "run" then exp1_run cfg ns
    else if is_cmd ns "analyze" then exp1_analyze ns
    else if is_cmd ns "dups" then exp1_dups fuel cfg ns
    else if is_cmd ns "repeat" then exp1_repeat fuel cfg ns
    else mret 2).

(** ** exp3.py *)

Definition exp3_run_parser : parser :=
  Parser [Opt "--tasks" TInt (VInt 10000) false; Opt "--rate" TFloat (number 500 1) false;
          Opt "--leader-kill-period" TFloat (number 30 1) false; Opt "--follower-kill-period" TFloat (number 45 1) false;
          Opt "--sqs-redeliver-period" TFloat (number 20 1) false; Opt "--run-name" TStr VNone false] None.

Definition exp3_analyze_parser : parser :=
  Parser [Opt "--lincheck" TStr VNone false] (Some (Pos "history_path" None)).

Definition exp3_commands : commands := [("run", exp3_run_parser); ("analyze", exp3_analyze_parser)]%string.

Definition exp3_run `{E : Env} {S} (cfg : BenchConfig) (ns : namespace) : M S Z :=
  name ← attr_text ns "run_name";
  run_name ← or_now name "exp3-%Y%m%dT%H%M%SZ";
  tasks ← attr_int ns "tasks";
  rate ← attr_float ns "rate";
  leader_period ← attr_float ns "leader_kill_period";
  follower_period ← attr_float ns "follower_kill_period";
  sqs_period ← attr_float ns "sqs_redeliver_period";
  run_exp3 cfg run_name tasks rate leader_period follower_period sqs_period;;
  mret 0.

Definition exp3_analyze `{E : Env} {S} (fuel : nat) (cfg : BenchConfig) (ns : namespace) : M S Z :=
  path ← attr_str ns "history_path";
  bin ← attr_text ns "lincheck";
  stats ← Exp3.analyze fuel cfg path bin;
  dump_json (path_join (dirname path) "exp3_summary.json") (JObj stats);;
  print_json (JObj stats);;
  mret 0.

Definition exp3_main `{E : Env} {S} (fuel : nat) (env : settings) (argv : list string) : M S Z :=
  with_args (parse_command exp3_commands argv) (fun ns =>
    let cfg := bench_from_env env in
    if is_cmd ns "run" then exp3_run cfg ns
    else if is_cmd ns "analyze" then exp3_analyze fuel cfg ns
    else mret 2).

(** ** exp4.py *)

Definition exp4_parser : parser :=
  Parser [Opt "--duration" TFloat (number 1800 1) false; Opt "--rate" TFloat (number 2000 1) false;
          Opt "--target-commit" TInt (VInt 50000) false; Opt "--run-name" TStr VNone false] None.

Definition exp4_main `{E : Env} {S} (fuel : nat) (env : settings) (argv : list string) : M S Z :=
  with_args (parse_args exp4_parser argv) (fun ns =>
    let cfg := bench_from_env env in
    name ← attr_text ns "run_name";
    run_name ← or_now name "exp4-%Y%m%dT%H%M%SZ";
    duration ← attr_float ns "duration";
    rate ← attr_float ns "rate";
    target ← attr_int ns "target_commit";
    summary ← run_exp4 env fuel cfg run_name duration rate target;
    print_json (JObj summary);;
    mret 0).

(** ** collect.py *)

Definition collect_parser (env : settings) : parser :=
  Parser [Opt "--region" TStr (VStr (default "us-east-1"%string (env "AWS_DEFAULT_REGION"%string))) false;
          Opt "--table" TStr VNone true; Opt "--label" TStr VNone true; Opt "--coordinator" TStr (VStr "") false;
          Opt "--submitted" TInt (VInt 0) false; Opt "--failed" TInt (VInt 0) false;
          Opt "--actual-rate" TFloat (VFloat (Fin (0 # 1))) false; Opt "--since" TStr VNone false;
          Opt "--until" TStr VNone false; Opt "--output" TStr (VStr "-") false] None.

Definition collect_cli `{E : Env} {S} (env : settings) (argv : list string) : M S Z :=
  with_args (parse_args (collect_parser env) argv) (fun ns =>
    table ← attr_str ns "table";
    label ← attr_str ns "label";
    coordinator ← attr_str ns "coordinator";
    submitted ← attr_int ns "submitted";
    failed ← attr_int ns "failed";
    rate ← attr_float ns "actual_rate";
    since ← attr_text ns "since";
    until ← attr_text ns "until";
    output ← attr_str ns "output";
    Results.main (mkArgs table label coordinator submitted failed rate since until) output;;
    mret 0).

(** ** What the command lines ask for *)

(** The value a command line gives to an option, or the option's default. *)
Definition asked_int (given : list (string * string)) (flag : string) (d : Z) : Z :=
  match last_text given flag with Some s => default 0 (int_of_str s) | None => d end.

Definition asked_float (given : list (string * string)) (flag : string) (d : Q) : float :=
  match last_text given flag with Some s => default NaN (float_of_str s) | None => Fin d end.

(** A namespace that answers the options of a parser as a command line asks. *)
Definition answers (p : parser) (given : list (string * string)) (ns : namespace) : Prop :=
  forall o, o ∈ p_options p -> dict_get ns (dest o) = Some (chosen given o).

Lemma answers_map p given : distinct p -> answers p given (map (fun o => (dest o, chosen given o)) (p_options p)).
Proof.
  intros Hp o Ho. apply elem_dict_get.
  - unfold dict_keys. rewrite map_map. exact (distinct_dests p Hp).
  - apply list_elem_of_In, (in_map (fun o => (dest o, chosen given o))). by apply list_elem_of_In.
Qed.

Lemma answers_cmd p given cmd ns : "cmd"%string ∉ map dest (p_options p) -> answers p given ns ->
  answers p given (("cmd"%string, cmd) :: ns).
Proof.
  intros Hn H o Ho. cbn [dict_get]. rewrite decide_False; [by apply H|]. intros E. apply Hn. rewrite <- E.
  apply list_elem_of_In, in_map. by apply list_elem_of_In.
Qed.

(** The option of a parser that sets an attribute. *)
Definition option_for (p : parser) (name : string) : option opt := find (fun o => String.eqb (dest o) name) (p_options p).

Lemma option_for_Some p name o : option_for p name = Some o -> o ∈ p_options p /\ dest o = name.
Proof. unfold option_for. intros [H1 H2]%find_some. split; [by apply list_elem_of_In|by apply String.eqb_eq]. Qed.

Section asked.
Context `{E : Env} {S : Type} (p : parser) (given : list (string * string)) (ns : namespace).
Context (Hp : distinct p) (Hg : options_of p given) (Hns : answers p given ns).

Lemma attr_int_asked name o d :
  option_for p name = Some o -> o_type o = TInt -> o_default o = VInt d ->
  attr_int (S := S) ns name = mret (asked_int given (o_flag o) d).
Proof using Hp Hg Hns.
  intros [Ho <-]%option_for_Some Ht Hd. unfold attr_int. rewrite (Hns o Ho). unfold chosen, asked_int.
  destruct (last_text given (o_flag o)) as [t|] eqn:L; [|by rewrite Hd].
  destruct (last_text_given p given o Hg Ho (distinct_flags p Hp) t L) as [v Hv]. rewrite Ht in Hv |- *. cbn in Hv |- *.
  by destruct (int_of_str t).
Qed.

Lemma attr_float_asked name o d :
  option_for p name = Some o -> o_type o = TFloat -> o_default o = VFloat (Fin d) ->
  attr_float (S := S) ns name = mret (asked_float given (o_flag o) d).
Proof using Hp Hg Hns.
  intros [Ho <-]%option_for_Some Ht Hd. unfold attr_float. rewrite (Hns o Ho). unfold chosen, asked_float.
  destruct (last_text given (o_flag o)) as [t|] eqn:L; [|by rewrite Hd].
  destruct (last_text_given p given o Hg Ho (distinct_flags p Hp) t L) as [v Hv]. rewrite Ht in Hv |- *. cbn in Hv |- *.
  by destruct (float_of_str t).
Qed.

Lemma attr_text_asked name o :
  option_for p name = Some o -> o_type o = TStr -> o_default o = VNone ->
  attr_text (S := S) ns name = mret (last_text given (o_flag o)).
Proof using Hns.
  intros [Ho <-]%option_for_Some Ht Hd. unfold attr_text. rewrite (Hns o Ho). unfold chosen.
  destruct (last_text given (o_flag o)) as [t|]; [by rewrite Ht|by rewrite Hd].
Qed.
End asked.

(** Replaces the attributes of a namespace by what the command line asks. *)
Ltac asked p given ns Hp Hg Hns :=
  repeat match goal with
  | |- context [attr_int ns ?n] => rewrite (attr_int_asked p given ns Hp Hg Hns n _ _ eq_refl eq_refl eq_refl)
  | |- context [attr_float ns ?n] => rewrite (attr_float_asked p given ns Hp Hg Hns n _ _ eq_refl eq_refl eq_refl)
  | |- context [attr_text ns ?n] => rewrite (attr_text_asked p given ns Hns n _ eq_refl eq_refl eq_refl)
  end.

(** Follows a program whose arguments are a command and options of its parser. *)
Ltac command_asked name p given Hg :=
  rewrite (parse_command_options _ name p given); [|reflexivity..|exact Hg];
  cbv beta iota delta [with_args];
  let Hns := fresh "Hns" in let ns := fresh "ns" in
  pose proof (answers_cmd p given (VStr name) _ (ltac:(apply (bool_decide_eq_true_1 _); reflexivity)) (answers_map p given (distinct_by_computation p eq_refl))) as Hns;
  match goal with |- context [is_cmd ?l _] => set (ns := l) in * end;
  repeat match goal with |- context [is_cmd ns ?n] =>
    first [change (is_cmd ns n) with true | change (is_cmd ns n) with false] end; cbv beta iota;
  clearbody ns;
  asked p given ns (distinct_by_computation p eq_refl) Hg Hns.

(** The same for a program without commands. *)
Ltac args_asked p given Hg :=
  rewrite (parse_args_options p given); [|reflexivity|reflexivity|exact Hg|repeat constructor; discriminate];
  cbv beta iota delta [with_args];
  let Hns := fresh "Hns" in let ns := fresh "ns" in
  pose proof (answers_map p given (distinct_by_computation p eq_refl)) as Hns;
  match type of Hns with answers _ _ ?l => set (ns := l) in * end;
  clearbody ns;
  asked p given ns (distinct_by_computation p eq_refl) Hg Hns.

(** C17: what the operator asks for is what runs.  A command line that gives options of
    a command with convertible values, in any order, starts that run with the last value
    of each option and the documented default of every other one, under the given name or
    one made from the time, and exits with 0 when the run returns. *)
Theorem commands_run_as_asked `{E : Env} {S} (fuel : nat) (np : numpy) (env : settings) (s : S) (h : history)
    (given : list (string * string)) :
  let cfg := bench_from_env env in
  let whole := asked_int given in
  let real := asked_float given in
  (options_of bench_parser given ->
   main fuel np env ("bench" :: command_line given)%string s h =
     (run_name ← or_now (last_text given "--run-name") "run-%Y%m%dT%H%M%SZ";
      run_bench fuel cfg {| rate_per_min := real "--rate" (100 # 1); duration_s := real "--duration" (60 # 1);
                            payload_bytes := whole "--payload-bytes" 128; priority := whole "--priority" 5;
                            poll_interval_s := Fin (1 # 2); completion_timeout_s := real "--timeout" (60 # 1) |} run_name;;
      mret 0) s h) /\
  (options_of exp1_run_parser given ->
   exp1_main fuel env ("run" :: command_line given)%string s h =
     (run_name ← or_now (last_text given "--run-name") "exp1-%Y%m%dT%H%M%SZ";
      run_exp1 cfg run_name (real "--duration" (180 # 1)) (real "--rate" (300 # 1)) (real "--kill-period" (30 # 1));;
      mret 0) s h) /\
  (options_of exp3_run_parser given ->
   exp3_main fuel env ("run" :: command_line given)%string s h =
     (run_name ← or_now (last_text given "--run-name") "exp3-%Y%m%dT%H%M%SZ";
      run_exp3 cfg run_name (whole "--tasks" 10000) (real "--rate" (500 # 1)) (real "--leader-kill-period" (30 # 1))
        (real "--follower-kill-period" (45 # 1)) (real "--sqs-redeliver-period" (20 # 1));;
      mret 0) s h) /\
  (options_of exp4_parser given ->
   exp4_main fuel env (command_line given) s h =
     (run_name ← or_now (last_text given "--run-name") "exp4-%Y%m%dT%H%M%SZ";
      summary ← run_exp4 env fuel cfg run_name (real "--duration" (1800 # 1)) (real "--rate" (2000 # 1)) (whole "--target-commit" 50000);
      print_json (JObj summary);;
      mret 0) s h).
Proof.
  intros cfg whole real. subst whole real. repeat split; intros Hg.
  - unfold main, cmd_bench. command_asked "bench"%string bench_parser given Hg. reflexivity.
  - unfold exp1_main, exp1_run. command_asked "run"%string exp1_run_parser given Hg. reflexivity.
  - unfold exp3_main, exp3_run. command_asked "run"%string exp3_run_parser given Hg. reflexivity.
  - unfold exp4_main. args_asked exp4_parser given Hg. reflexivity.
Qed.

(** C31: a malformed value starts nothing.  When some option of a command has a value
    that its type refuses, whatever follows it, the program exits with 2 and nothing has
    happened. *)
Theorem bad_value_is_refused `{E : Env} {S} (fuel : nat) (np : numpy) (env : settings) (s : S) (h : history)
    (name : string) (p : parser) (given : list (string * string)) (o : opt) (bad : string) (rest : list string) :
  options_of p given -> o ∈ p_options p -> plain bad = true -> convert (o_type o) bad = None ->
  let argv := command_line given ++ o_flag o :: bad :: rest in
  (dict_get main_commands name = Some p -> main fuel np env (name :: argv) s h = (Ok 2, s, h)) /\
  (dict_get exp1_commands name = Some p -> exp1_main fuel env (name :: argv) s h = (Ok 2, s, h)) /\
  (dict_get exp3_commands name = Some p -> exp3_main fuel env (name :: argv) s h = (Ok 2, s, h)) /\
  (p = exp4_parser -> exp4_main fuel env argv s h = (Ok 2, s, h)) /\
  (p = collect_parser env -> collect_cli env argv s h = (Ok 2, s, h)).
Proof.
  intros Hg Ho Hb Hc argv.
  assert (H : forall cmds, forallb (fun c => plain c.1 && distinct_bool c.2) cmds = true ->
    dict_get cmds name = Some p -> parse_command cmds (name :: argv) = fails).
  { intros cmds Hcmds Hd. rewrite forallb_forall in Hcmds. pose proof (dict_get_elem _ _ _ Hd) as Hin%list_elem_of_In.
    apply Hcmds, andb_true_iff in Hin as [Hn Hp]. apply parse_command_bad with p; auto using distinct_by_computation. }
  repeat split; intros Hd.
  - unfold main. by rewrite H.
  - unfold exp1_main. by rewrite H.
  - unfold exp3_main. by rewrite H.
  - subst p. unfold exp4_main, parse_args, argv. by rewrite parse_known_bad by (auto; by apply distinct_by_computation).
  - subst p. unfold collect_cli, parse_args, argv. by rewrite parse_known_bad by (auto; by apply distinct_by_computation).
Qed.

(** ** One fault per command *)

(** What a log printed. *)
Definition printed_json (e : event) : option json :=
  match ev_call e with CPrintJson v => Some v | _ => None end.

Definition printed (l : history) : list json := omap printed_json l.

Definition chaos_targets : list string := ["kill_leader"; "kill_follower"; "kill_worker"]%string.

(** The services an injection may hit. *)
Definition fits (cfg : BenchConfig) (target leader svc : string) : Prop :=
  if String.eqb target "kill_leader" then svc = leader
  else if String.eqb target "kill_follower" then svc <> leader /\ svc ∈ coordinator_services cfg
  else svc = worker_service cfg.

(** No call prints. *)
Definition quiet (c : call) : bool := match c with CPrintJson _ => false | _ => true end.

Lemma quiet_printed l : forallb (fun e => quiet (ev_call e)) l = true -> printed l = [].
Proof.
  induction l as [|[c r] l IH]; cbn; [done|]. intros [Hc Hl]%andb_true_iff. unfold printed in *. cbn.
  by destruct c; try discriminate; cbn; apply IH.
Qed.

(** What an injection does, whatever the services answer. *)
Definition one_fault (cfg : BenchConfig) (target leader : string) (r : res (option (option KillResult))) (l : history) : Prop :=
  guarded l /\ printed l = [] /\ at_most_one (stopped None l) /\
  (forall t, t ∈ stopped None l -> fits cfg target leader t.1.1) /\
  match r with
  | Ok (Some (Some k)) => stopped None l = [kill_stop k]
  | Ok (Some None) => stopped None l = []
  | Ok None | NoFuel => False
  | Raise _ => True
  end.

Lemma one_kill_fault cfg target leader service r l :
  one_kill service r l -> guarded l -> forallb (fun e => fault_call (ev_call e)) l = true -> fits cfg target leader service ->
  one_fault cfg target leader (match r with Ok k => Ok (Some k) | Raise e => Raise e | NoFuel => NoFuel end) l.
Proof.
  intros H G Hf Hs. split; [done|]. split; [apply quiet_printed; eapply calls_weaken; [|exact Hf]; by intros []|].
  destruct r as [[k|]|e|]; cbn in H; [| | |done].
  - destruct H as [<- ->]. split; [split; [cbn; lia|intros t Ht; by apply list_elem_of_singleton in Ht as ->]|].
    split; [|done]. intros t Ht. by apply list_elem_of_singleton in Ht as ->.
  - rewrite H. split; [apply at_most_one_nil|]. split; [set_solver|done].
  - destruct H as (ts & -> & Hn & Ht). split; [split; [done|intros t Hin; by destruct (Ht t Hin)]|]. split; [|done]. intros t Hin. by destruct (Ht t Hin) as [-> _].
Qed.

(** The result of an injection as [inject] passes it on. *)
Definition passed {A} (r : res A) : res (option A) :=
  match r with Ok k => Ok (Some k) | Raise e => Raise e | NoFuel => NoFuel end.

Lemma stop_fault `{E : Env} {S} cfg target leader service reason (s : S) h :
  fits cfg target leader service ->
  exists r l, stop_random_task cfg service reason s h = (r, s, h ++ l) /\ one_fault cfg target leader (passed r) l.
Proof.
  intros Hs. destruct (stop_random_task_run cfg service reason s h) as (r & l & H & K & G).
  destruct (stop_random_task_only cfg service reason s h) as (r' & l' & H' & Ho). rewrite H in H'. injection H' as <- <-%app_inv_head.
  exists r, l. split; [done|]. by apply one_kill_fault with service.
Qed.

Lemma follower_fault `{E : Env} {S} cfg leader (s : S) h :
  exists r l, kill_follower cfg (followers_of cfg leader) s h = (r, s, h ++ l) /\
    one_fault cfg "kill_follower" leader (passed r) l.
Proof.
  pose proof (kill_follower_injects cfg (mkLeaderInfo "" "" leader 0) s h) as K. unfold wp in K. cbn [li_ecs_service] in K.
  destruct (kill_follower_spares_leader cfg leader s h) as (r & l & H & Hs).
  destruct (kill_follower_only cfg (followers_of cfg leader) s h) as (r' & l' & H' & Ho). rewrite H in H', K.
  injection H' as <- <-%app_inv_head. destruct K as (l' & <-%app_inv_head & G & K). exists r, l. split; [done|].
  split; [done|]. split; [apply quiet_printed; eapply calls_weaken; [|exact Ho]; by intros []|].
  split; [|split].
  - destruct r as [[k|]|e|]; cbn in K; [destruct K as [_ ->]| rewrite K; apply at_most_one_nil|apply K|done].
    split; [cbn; lia|]. intros t Ht. by apply list_elem_of_singleton in Ht as ->.
  - intros t Ht. destruct (Hs t Ht) as (H1 & H2 & _). by split.
  - destruct r as [[k|]|e|]; cbn in K |- *; [by destruct K|done..].
Qed.

Lemma inject_run `{E : Env} {S} cfg target (leader : option string) (s : S) h :
  target ∈ chaos_targets ->
  exists r l, inject cfg target leader s h = (r, s, h ++ l) /\ one_fault cfg target (default ""%string leader) r l.
Proof.
  intros Ht. unfold chaos_targets in Ht. set_unfold in Ht.
  destruct Ht as [->|[->|[->|[]]]]; unfold inject, mbind, M_bind; cbn [String.eqb Ascii.eqb Bool.eqb].
  - destruct (stop_fault cfg "kill_leader" (default ""%string leader) (default ""%string leader) "chaos: leader kill" s h) as (r & l & H & K); [done|].
    unfold kill_leader. rewrite H. exists (passed r), l. by destruct r.
  - destruct (follower_fault cfg (default ""%string leader) s h) as (r & l & H & K). rewrite H. exists (passed r), l. by destruct r.
  - destruct (stop_fault cfg "kill_worker" (default ""%string leader) (worker_service cfg) "chaos: worker kill" s h) as (r & l & H & K); [done|].
    unfold kill_worker. rewrite H. exists (passed r), l. by destruct r.
Qed.

(** Who is taken for the leader: the service the operator names, or the one detected;
    a worker kill needs none. *)
Definition led_by `{E : Env} {S} (cfg : BenchConfig) (target : string) (named : option string) (s : S) (h : history)
    (leader : string) : Prop :=
  (named = Some leader /\ truthy leader = true) \/ target = "kill_worker"%string \/
  (exists info, (find_leader cfg s h).1.1 = Ok (Some info) /\ leader = li_ecs_service info).

Definition chaos_result `{E : Env} {S} (cfg : BenchConfig) (target : string) (named : option string) (s : S) (h : history)
    (r : res Z) (l : history) : Prop :=
  at_most_one (stopped None l) /\
  (forall t, t ∈ stopped None l -> exists leader, led_by cfg target named s h leader /\ fits cfg target leader t.1.1) /\
  match r with
  | Ok code =>
      (code = 3 /\ stopped None l = [] /\ printed l = [] /\ (find_leader cfg s h).1.1 = Ok None) \/
      (code = 0 /\ exists k, printed l = [kill_json k] /\ stopped None l = match k with Some k => [kill_stop k] | None => [] end)
  | Raise _ => printed l = []
  | NoFuel => False
  end.

(** Finding the leader to spare or to hit. *)
Lemma leader_for_run `{E : Env} {S} cfg target named (s : S) h :
  exists r l, leader_for cfg target named s h = (r, s, h ++ l) /\
    forallb (fun e => detect_call (ev_call e)) l = true /\
    match r with
    | Ok (Some leader) => led_by cfg target named s h (default ""%string leader) \/ target ∉ chaos_targets
    | Ok None => (find_leader cfg s h).1.1 = Ok None
    | Raise _ => True
    | NoFuel => False
    end.
Proof.
  unfold leader_for. destruct (_ || _) eqn:Hn; cbn [andb].
  - destruct (match named with Some s => truthy s | None => false end) eqn:Hs; cbn [negb].
    + exists (Ok (Some named)), []. rewrite app_nil_r. split; [done|]. split; [done|]. left. left. by destruct named.
    + destruct (find_leader_only cfg s h) as (r & l & H & Hl). pose proof (find_leader_total cfg s h) as Hf.
      unfold mbind, M_bind. rewrite H in Hf |- *. destruct r as [[info|]|e|]; [| | |done].
      * exists (Ok (Some (Some (li_ecs_service info)))), l. split; [done|]. split; [done|]. left. right. right. exists info. by rewrite H.
      * exists (Ok None), l. done.
      * by exists (Raise e), l.
  - exists (Ok (Some named)), []. rewrite app_nil_r. split; [done|]. split; [done|].
    destruct (decide (target ∈ chaos_targets)) as [Ht|]; [left|by right]. right. left.
    unfold chaos_targets in Ht. set_unfold in Ht. destruct Ht as [->|[->|[->|[]]]]; done.
Qed.

Lemma cmd_chaos_run `{E : Env} {S} env target named ns (s : S) h :
  target ∈ chaos_targets -> attr_text (S := S) ns "leader_service" = mret named -> attr_str (S := S) ns "target" = mret target ->
  exists r l, cmd_chaos env ns s h = (r, s, h ++ l) /\ chaos_result (bench_from_env env) target named s h r l.
Proof.
  intros Ht Hl Hs. set (cfg := bench_from_env env). unfold cmd_chaos. rewrite Hl, Hs. fold cfg.
  unfold mbind, M_bind, mret, M_ret. destruct (leader_for_run cfg target named s h) as (r & l & H & Ho & K). rewrite H.
  assert (Q : printed l = []) by (apply quiet_printed; eapply calls_weaken; [|exact Ho]; by intros []).
  assert (G : guarded l /\ stopped None l = []) by (apply no_fault_guarded; eapply calls_weaken; [|exact Ho]; by intros []).
  destruct r as [[leader|]|e|]; [| | |done].
  2: { exists (Ok 3), l. split; [done|]. destruct G as [_ G]. split; [rewrite G; apply at_most_one_nil|]. rewrite G. split; [set_solver|]. by left. }
  2: { exists (Raise e), l. split; [done|]. destruct G as [_ G]. split; [rewrite G; apply at_most_one_nil|]. rewrite G. split; [set_solver|done]. }
  destruct K as [K|]; [|done].
  destruct (inject_run cfg target leader s (h ++ l) Ht) as (r & l2 & H2 & G2 & Q2 & A2 & F2 & R2). rewrite H2.
  destruct (guarded_app l l2 (proj1 G) G2) as [G3 E3]. rewrite (proj2 G) in E3. cbn [app] in E3.
  assert (Q3 : printed (l ++ l2) = []) by (unfold printed in *; by rewrite omap_app, Q, Q2).
  destruct r as [[k|]|e|]; [|done| |done].
  - unfold print_json, tell. eexists (Ok 0), _. rewrite <- !app_assoc. split; [done|].
    assert (P : guarded [Ev (CPrintJson (kill_json k)) tt] /\ stopped None [Ev (CPrintJson (kill_json k)) tt] = []) by (by apply no_fault_guarded).
    rewrite (app_assoc l). destruct (guarded_app (l ++ l2) _ G3 (proj1 P)) as [_ E4]. rewrite (proj2 P), app_nil_r, E3 in E4.
    unfold chaos_result. rewrite E4. split; [done|]. split; [intros t Hin; eauto|]. right. split; [done|]. exists k. split.
    + unfold printed in *. by rewrite omap_app, Q3.
    + by destruct k.
  - exists (Raise e), (l ++ l2). rewrite <- app_assoc. split; [done|]. unfold chaos_result. rewrite E3. split; [done|]. split; [intros t Hin; eauto|done].
Qed.

(** C5: one command, one fault.  Whatever the services answer, a chaos command stops at
    most one task, one that ECS listed under its service; the service is the one its target
    allows for the leader that was named or detected, a follower kill never hits the
    leader.  An exit with 0 prints exactly what was stopped; an exit with 3 means that
    nobody was found to lead and nothing was touched. *)
Theorem chaos_command_one_fault `{E : Env} {S} (fuel : nat) (np : numpy) (env : settings) (s : S) (h : history)
    (given : list (string * string)) (target : string) :
  options_of chaos_parser given -> target ∈ chaos_targets ->
  exists r l, main fuel np env ("chaos" :: command_line given ++ [target])%string s h = (r, s, h ++ l) /\
    chaos_result (bench_from_env env) target (last_text given "--leader-service") s h r l.
Proof.
  intros Hg Ht. set (named := last_text given "--leader-service").
  assert (Hp : parse_command main_commands ("chaos" :: command_line given ++ [target])%string =
    Args (("cmd", VStr "chaos") :: map (fun o => (dest o, chosen given o)) (p_options chaos_parser) ++ [("target", VStr target)])%string).
  { apply (parse_command_known _ _ chaos_parser); [done..|]. unfold chaos_targets in Ht. set_unfold in Ht.
    apply parse_known_positional with (q := Pos "target" (Some chaos_targets)); try done.
    - by apply distinct_by_computation.
    - by repeat constructor.
    - by destruct Ht as [->|[->|[->|[]]]].
    - by destruct Ht as [->|[->|[->|[]]]]. }
  unfold main. rewrite Hp. unfold with_args. set (ns := _ :: _).
  change (is_cmd ns "bench") with false. change (is_cmd ns "chaos") with true. cbv iota.
  apply cmd_chaos_run; [done| |done].
  unfold attr_text. change (dict_get ns "leader_service"%string) with (Some (chosen given (Opt "--leader-service" TStr VNone false))).
  unfold chosen. cbn [o_flag o_type o_default]. fold named. by destruct named.
Qed.

(** ** A check that was not made *)

(** A file that a program makes: what it dumps, or what it asks another program to write. *)
Definition makes (path : string) (c : call) : bool :=
  match c with
  | CDumpJson p _ => String.eqb p path
  | CSubprocess args => existsb (String.eqb path) args
  | _ => false
  end.

Definition made (path : string) (h : history) : bool := existsb (fun e => makes path (ev_call e)) h.

(** A file nobody made cannot be read. *)
Definition missing_unless_made (E : Env) (path : string) : Prop :=
  forall h, made path h = false -> exists e, E h (CReadFile path) = inl e.

Definition no_figure (l : history) : bool :=
  forallb (fun e => match ev_call e with CSaveFig _ _ => false | _ => true end) l.

Lemma path_join_inj a b c :
  String.prefix "/" b = false -> String.prefix "/" c = false -> path_join a b = path_join a c -> b = c.
Proof.
  unfold path_join. intros -> ->. assert (Hi : forall p x y : string, p ^^ x = p ^^ y -> x = y).
  { induction p as [|d p IH]; intros x y H; [exact H|]. injection H. apply IH. }
  destruct (_ || _); intros H%Hi; [done|]. by apply (Hi "/"%string) in H.
Qed.

Section unchecked.
Context `{E : Env} {S : Type} (dir : string).

Definition lin_path : string := path_join dir "exp3_lincheck.json".

Abbreviation unmade := (fun c => negb (makes lin_path c)).

Lemma dump_unmade name v : String.prefix "/" name = false -> name <> "exp3_lincheck.json"%string ->
  Only unmade (S := S) (dump_json (path_join dir name) v).
Proof.
  intros Hn Hne. apply only_tell. cbn [ev_call makes]. apply negb_true_iff, String.eqb_neq. intros H.
  by apply path_join_inj in H.
Qed.

Lemma fetch_all_unmade {B} table (process : B -> item -> res B) fuel b ids : Only unmade (S := S) (fetch_all table process fuel b ids).
Proof. unfold fetch_all, fetch_chunk, fetch_turn. only_auto. Qed.

Lemma read_unmade path : Only unmade (S := S) (read_file path).
Proof. unfold read_file. only_auto. Qed.

Lemma dup_scan_unmade fuel cfg text : Only unmade (S := S) (dup_scan fuel cfg text).
Proof.
  unfold dup_scan. apply only_bind; [apply only_lift|]. intros ids. apply only_bind; [apply fetch_all_unmade|]. intros acc. apply only_ret.
Qed.

Lemma divergence_scan_unmade fuel cfg text : Only unmade (S := S) (divergence_scan fuel cfg text).
Proof.
  unfold divergence_scan. apply only_bind; [apply only_lift|]. intros ids. destruct ids; [apply only_ret|].
  apply only_bind; [apply fetch_all_unmade|]. intros acc. only_auto.
Qed.

Lemma analyze_unmade fuel cfg path : dirname path = dir -> Only unmade (S := S) (Exp3.analyze fuel cfg path None).
Proof.
  intros Hd. unfold Exp3.analyze, lincheck. rewrite Hd.
  repeat first [apply dup_scan_unmade | apply divergence_scan_unmade | apply dump_unmade; done | apply read_unmade | apply only_ret | apply only_lift
               | apply only_bind; [|intros ?]].
Qed.

Lemma unmade_log l : forallb (fun e => unmade (ev_call e)) l = true -> made lin_path l = false.
Proof.
  induction l as [|e l IH]; [done|]. cbn [forallb]. intros [He Hl]%andb_true_iff. unfold made in *. cbn [existsb].
  rewrite (IH Hl). apply negb_true_iff in He. by rewrite He.
Qed.

(** The plots stop where the result of the checker is missing. *)
Lemma plot_without_check np (s : S) h :
  missing_unless_made E lin_path -> made lin_path h = false ->
  exists r l, plot_exp3 np [dir] s h = (r, s, h ++ l) /\ no_figure l = true /\ (r = Ok 1 \/ exists e, r = Raise e).
Proof.
  intros Hm Hh. apply (run_of_wp _ (fun r l => no_figure l = true /\ (r = Ok 1 \/ exists e, r = Raise e))).
  unfold plot_exp3. wp_steps. destruct (answer h (CFileSize dir)); wp_steps; [|kept; split; [done|by left]].
  unfold load, load_doc, loads_doc, read_file. wp_steps.
  destruct (answer _ (CReadFile _)) as [e|text]; wp_steps; [kept; split; [done|eauto]|].
  unfold wp at 1, lift at 1. pose proof (load_total text) as Ht. destruct (History.load text) as [evs|e|]; [|kept; split; [done|eauto]|done].
  clear Ht. do 3 (wp_steps; match goal with |- context [answer ?g (CReadFile ?p)] => destruct (answer g (CReadFile p)) as [e|?t] end; wp_steps;
    [kept; split; [done|eauto]|]; unfold wp at 1, lift at 1;
    match goal with |- context [res_of_option _ (loads ?t)] => destruct (loads t) end; cbn [res_of_option]; [|kept; split; [done|eauto]]).
  wp_steps.
  match goal with |- context [answer ?g (CReadFile (path_join dir "exp3_lincheck.json"))] => destruct (Hm g) as [e He] end.
  { unfold made in *. rewrite !existsb_app, Hh. done. }
  unfold answer, lin_path in *. rewrite He. wp_steps. kept. split; [done|eauto].
Qed.
End unchecked.

Lemma exp3_analyze_unmade `{E : Env} {S} fuel cfg path :
  Only (fun c => negb (makes (lin_path (dirname path)) c)) (S := S)
    (exp3_analyze fuel cfg [("cmd", VStr "analyze"); ("lincheck", VNone); ("history_path", VStr path)]%string).
Proof.
  change (Only (fun c => negb (makes (lin_path (dirname path)) c)) (S := S)
    (stats ← Exp3.analyze fuel cfg path None; dump_json (path_join (dirname path) "exp3_summary.json") (JObj stats);;
     print_json (JObj stats);; mret 0)).
  apply only_bind; [by apply analyze_unmade|]. intros stats. apply only_bind; [by apply dump_unmade|]. intros _.
  apply only_bind; [by apply only_tell|]. intros _. apply only_ret.
Qed.

(** C32: without the consistency check there are no plots.  An analysis of an experiment 3
    run without the checker does not make the checker's result, whatever else it does;
    the plotting of the run then ends without a figure, with an exit code of 1 or an
    exception. *)
Theorem no_check_no_plots `{E : Env} {S} (fuel : nat) (np : np_ops) (env : settings) (path : string) (s : S) (h : history) :
  let dir := dirname path in
  plain path = true -> missing_unless_made E (lin_path dir) -> made (lin_path dir) h = false ->
  exists r l r' l', exp3_main fuel env ["analyze"; path]%string s h = (r, s, h ++ l) /\
    plot_exp3 np [dir] s (h ++ l) = (r', s, (h ++ l) ++ l') /\
    no_figure l' = true /\ (r' = Ok 1 \/ exists e, r' = Raise e).
Proof.
  intros dir Hpath Hm Hh.
  assert (Hp : parse_command exp3_commands ["analyze"; path]%string =
    Args [("cmd", VStr "analyze"); ("lincheck", VNone); ("history_path", VStr path)]%string).
  { apply (parse_command_known _ _ exp3_analyze_parser); [done..|].
    apply (parse_known_positional exp3_analyze_parser (Pos "history_path" None) []); try done.
    - by apply distinct_by_computation.
    - by constructor.
    - by repeat constructor. }
  assert (Ho : Only (fun c => negb (makes (lin_path dir) c)) (S := S) (exp3_main fuel env ["analyze"; path]%string)).
  { unfold exp3_main. rewrite Hp. apply exp3_analyze_unmade. }
  destruct (Ho s h) as (r & l & H & Hl). apply unmade_log in Hl.
  destruct (plot_without_check dir np s (h ++ l)) as (r' & l' & H' & Hn & Hr); [done| |by exists r, l, r', l'].
  unfold made in *. by rewrite existsb_app, Hh, Hl.
Qed.

(** ** Instances *)

(** Three nodes, the first flagged as leader, each service with two tasks. *)
Definition chaos_row (node : string) (leads : bool) : item :=
  {[ "node_id"%string := AS node; "http_addr"%string := AS (node ^^ ":8080"); "is_leader"%string := ABOOL leads ]}.

Definition chaos_env : Env := fun h c =>
  match c as c' return resp c' with
  | CDdbScan _ => inr [chaos_row "a" true; chaos_row "b" false; chaos_row "c" false]
  | CEcsListTasks _ service => inr [service ^^ "/task-1"; service ^^ "/task-2"]%string
  | CRandomChoice n => (n - 1)%nat
  | CTimeNs => 77
  | c' => default_answer c'
  end.

Definition chaos_settings (name : string) : option string :=
  if String.eqb name "COORDINATOR_SERVICES" then Some "dev-coordinator-a, dev-coordinator-b, dev-coordinator-c"%string else None.

Lemma chaos_command_one_fault_witness :
  (main (E := chaos_env) 0 ex_numpy chaos_settings ["chaos"; "kill_follower"]%string tt []).1.1 = Ok 0 /\
  exists r l, main (E := chaos_env) 0 ex_numpy chaos_settings ["chaos"; "kill_follower"]%string tt [] = (r, tt, l) /\
    chaos_result (E := chaos_env) (bench_from_env chaos_settings) "kill_follower" None tt [] r l.
Proof.
  split; [vm_compute; reflexivity|].
  apply (chaos_command_one_fault (E := chaos_env) 0 ex_numpy chaos_settings tt [] [] "kill_follower").
  - apply options_by_computation. reflexivity.
  - right. left.
Defined.

Definition exp3_given : list (string * string) := [("--rate", "250.5"); ("--tasks", "12"); ("--run-name", "night"); ("--rate", "300")]%string.

Lemma commands_run_as_asked_witness :
  options_of exp3_run_parser exp3_given /\
  exp3_main (E := chaos_env) 0 chaos_settings ("run" :: command_line exp3_given)%string tt [] =
    (run_name ← or_now (E := chaos_env) (Some "night"%string) "exp3-%Y%m%dT%H%M%SZ";
     run_exp3 (H := chaos_env) (bench_from_env chaos_settings) run_name 12 (Fin (300 # 1)) (Fin (30 # 1)) (Fin (45 # 1)) (Fin (20 # 1));;
     mret 0) tt [].
Proof.
  assert (H : options_of exp3_run_parser exp3_given) by (apply options_by_computation; reflexivity). split; [exact H|].
  exact (proj1 (proj2 (proj2 (commands_run_as_asked (E := chaos_env) 0 ex_numpy chaos_settings tt [] exp3_given))) H).
Defined.

Lemma bad_value_is_refused_witness :
  exp3_main (E := chaos_env) 0 chaos_settings ["run"; "--rate"; "300"; "--tasks"; "ten"; "--run-name"; "x"]%string tt [] = (Ok 2, tt, []).
Proof.
  refine (proj1 (proj2 (proj2 (bad_value_is_refused (E := chaos_env) 0 ex_numpy chaos_settings tt [] "run" exp3_run_parser
    [("--rate", "300")]%string (Opt "--tasks" TInt (VInt 10000) false) "ten" ["--run-name"; "x"]%string _ _ _ _))) _).
  - apply options_by_computation. reflexivity.
  - left.
  - reflexivity.
  - reflexivity.
  - reflexivity.
Defined.

(** A run with an empty history; the checker's result is not there. *)
Definition unchecked_env : Env := fun h c =>
  match c as c' return resp c' with
  | CReadFile p => if String.eqb p "runs/x/exp3_lincheck.json" then inl (Exn OtherError "FileNotFoundError") else inr ""%string
  | CFileSize _ => Some 4096
  | c' => default_answer c'
  end.

Lemma no_check_no_plots_witness :
  (exp3_main (E := unchecked_env) 1 chaos_settings ["analyze"; "runs/x/history.jsonl"]%string tt []).1.1 = Ok 0 /\
  exists r l r' l', exp3_main (E := unchecked_env) 1 chaos_settings ["analyze"; "runs/x/history.jsonl"]%string tt [] = (r, tt, l) /\
    plot_exp3 (H := unchecked_env) no_numpy ["runs/x"]%string tt l = (r', tt, l ++ l') /\
    no_figure l' = true /\ (r' = Ok 1 \/ exists e, r' = Raise e).
Proof.
  split; [vm_compute; reflexivity|].
  apply (no_check_no_plots (E := unchecked_env) 1 no_numpy chaos_settings "runs/x/history.jsonl" tt []).
  - reflexivity.
  - intros h _. eexists. reflexivity.
  - reflexivity.
Defined.
